(* ===== verification/_CoqProject ===== *)
-Q . S2P
Prelude.v
GoStrings.v
GoFloat.v
Json.v
Http.v
Wire.v
Machinery.v
Operator.v
CRD.v
Lifecycle.v
SimCluster.v
OperatorTraces.v
Rounds.v
RetryLoop.v
OperatorTheorems.v
Suite.v
Heap.v
OperatorCopy.v
ProviderTypes.v
AccessorTheorems.v
Provider.v
ProviderTheorems.v
ProviderCopy.v
CopyTheorems.v
Sizing.v
Flags.v
Main.v
MainTheorems.v
SizingTheorems.v
Backend.v
BackendInvariant.v
Deployment.v
DeploymentTheorems.v
WebInstance.v
History.v
FloatBounds.v
Engine.v
ServiceTheorems.v
CrdTheorems.v
System.v
SystemTheorems.v
Closed.v
ClosedTheorems.v
Platform.v
PlatformTheorems.v
Composition.v
CompositionTheorems.v
Journey.v
JourneyTheorems.v
