(* ===== verification/Prelude.v ===== *)
(** * GPU benchmark platform: a verification development

    The platform runs GPU benchmarks that teams ask for as Kubernetes objects.
    Its parts, and how they meet:
    - the operator ([src/operator]) reconciles [BenchmarkJob] objects: it
      submits each to the benchmark backend over HTTP, polls it, and keeps the
      phase, the retry count and the results in the status of the object;
    - the Crossplane provider ([src/provider]) does the same for
      [GPUBenchmarkJob] managed resources, as an external client that
      crossplane-runtime drives;
    - the sizing function ([src/crossplane/functions/benchmark-sizing]) is a
      step of the composition pipeline that estimates the runtime and
      annotates the composite;
    - the backend ([src/backend], Python) stores jobs under an idempotency key,
      queues them and runs them in a worker;
    - the Helm chart ([src/charts]) and the plain manifests ([src/k8s]) run all
      of it in a cluster.

    ** Files and what they model

    Shared:
    - [Prelude]: effectful Go code as trees of calls ([prog]), their runs
      against a handler ([run]), weakest preconditions over every answer
      ([wp]), 64-bit integers, wrapped errors.
    - [GoStrings], [GoFloat]: strings as bytes with Go's UTF-8 decoding, the
      verbs %d, %q, %.0f; binary64 by the Standard Library's [SpecFloat].
    - [Json]: [encoding/json] as the program uses it: the printer, the scanner
      and the decoding into structs; the fuel of the scanner is
      [2 * length + 2], which [parse_fuel] shows to be enough, and
      [parse_json_print] is the round trip.
    - [Http]: requests, responses, the acceptance test of [url.Parse], the
      client with its nil dereferences, the clock.
    - [Wire]: the JSON bodies both controllers exchange with the backend.
    - [Machinery]: metadata types, and the functions of apimachinery and
      controller-runtime as a class with laws.
    - [Heap]: pointers, slices and cells; code as a state monad over a heap,
      readings that return a value with its footprint, and what it is to be a
      deep copy, as an interface with laws.
    The operator:
    - [Operator]: [operator/api/v1alpha1/benchmarkjob_types.go] and
      [operator/controllers/benchmarkjob_controller.go], one definition per
      method ([Reconcile], [handlePending], [handleSubmitted], [handleRunning],
      [handleFailure], [handleDeletion], [pollBackend], [setPhase],
      [SetupWithManager]).
    - [CRD]: the JSON of the custom resource by its struct tags, the schema of
      [config/crd/bases] as data with its validation and defaulting, and what
      the server stores of a spec the operator sends.
    - [Lifecycle]: the abstract phase and finalizer machine, the API server as
      the interface [Cluster] with its laws (optimistic concurrency, the status
      subresource, other clients between any two calls, lost answers), the
      refinement and the status invariant.
    - [SimCluster]: an API server that meets the laws, with write faults and a
      pluggable backend; concrete objects for the witnesses.
    - [OperatorTraces]: what each handler may send, write and return.
    - [Rounds]: what one reconciliation makes of a world without faults, for each
      transition of the happy path; [RetryLoop]: the loop of submit, poll, retry against a failing backend.
    - [OperatorTheorems]: C1, C2, C8 to C15; [CrdTheorems]: C7, C16, C17.
    - [Suite]: the envtest suite, its mock server, and that it cannot pass.
    The provider:
    - [ProviderTypes]: the types of [provider/api/v1alpha1] and the accessors
      of [zz_generated.managed.go]; crossplane-runtime's conditions and
      references are a class with laws.
    - [Provider]: [provider/internal/controller/gpubenchmarkjob_controller.go]
      ([SetupGPUBenchmarkJob], [Connect], [Observe], [Create], [Update],
      [Delete]).
    - [ProviderTheorems]: C19 to C21; [AccessorTheorems]: the accessors are
      independent lenses.
    Generated code and processes:
    - [OperatorCopy], [ProviderCopy]: [zz_generated.deepcopy.go] of both
      packages, one definition per method, on the types as they lie in memory.
    - [CopyTheorems]: C18 and C22.
    - [Flags]: the [flag] package; [Main]: [operator/cmd/main.go],
      [provider/cmd/provider/main.go], both [groupversion_info.go] and the
      registrations of the [init] functions, and the [main] of the sizing
      function.
    - [MainTheorems]: C23 and C24.
    - [Deployment]: [charts/benchmark-platform] (the values, [_helpers.tpl], the
      Deployments, the Service, the role and its binding) and [k8s], as data
      rendered from values and a release; what Kubernetes makes of them - which
      pods a URL reaches, which probe is answered, what an account may do - are
      functions of these objects.  [DeploymentTheorems]: C25 to C27.
    The sizing function and the composition:
    - [Sizing]: [main.go] ([tierTable], [strField], [numField], [RunFunction])
      with float64 arithmetic and the annotation maps in a heap.
    - [SizingTheorems]: C28 to C31.
    - [Composition]: [crossplane/xrd.yaml], [crossplane/composition.yaml] and
      the policies of [policies/kyverno], as data: the schema, templates and
      patches, the pipeline, the admission; [CompositionTheorems]: C5.
    The backend and the closed systems:
    - [Backend]: [backend/app]: the tables, [benchmark_service.py],
      [queue_service.py], the routes of [api/benchmarks.py] and
      [workers/benchmark_worker.py], as transitions of one state - a worker's
      turn whole, or as its two halves before and after the engine -; FastAPI,
      pydantic, UUIDs and the JSON response writer are a class.
    - [BackendInvariant]: its invariant, the order its states evolve in, and
      that every transition respects both.
    - [WebInstance]: an instance of that class that meets its laws.
    - [History]: the history route and the health check; [Engine]:
      [services/gpu_engine.py], with Python's strings and floats as the engines
      use them, and a worker's turn on a host; [FloatBounds]: when chains of
      float operations do not overflow; [ServiceTheorems]: C34, C36, C37.
    - [System]: the backend as the server behind the operator's requests.
    - [SystemTheorems]: C32, C33, C35, C38 to C40.
    - [Closed]: any number of reconciliations interleaved call by call with
      users, sessions and workers; what a reconciliation in flight relies on
      ([prog_ok]), and the invariant of the world. [ClosedTheorems]: C3.
    - [Platform]: the same world with the provider in it;
      [PlatformTheorems]: C4.
    - [Journey]: one job through all of it, the worker's turn between or around
      the operator's polls; [JourneyTheorems]: C6.

    ** What the theorems show

    - Refinement, invariants and conformity (C1 to C4, C7): each
      reconciliation is at most one step of the abstract machine, under
      interleavings and faults, every reachable status is well formed, the
      objects and resources of both controllers agree with the rows of the
      backend in every state of the closed systems, and every reachable object
      has a JSON text the CRD admits.
    - The way in (C5): from a claim the XRD admits, through the sizing and the
      composition, to a job the CRD, the policies and the backend accept, and
      the one thing that is not checked on the way.
    - The journey (C6): from such a claim to its measurement, with the schedule
      that completes the object and the one that leaves it Submitted for ever.
    - Contracts over every outside world (C8 to C11, C14): which request is
      sent, which write is made, which error is returned, when nothing more is
      asked for, and the one case that panics.
    - The submission (C12) and the limits of polling and retrying (C13, C15):
      the body reads back, an unexpected status is polled forever, retries end.
    - The object on the wire (C16, C17): what an update makes of a spec, and
      the round trip of a status.
    - The generated copies (C18, C22): equal, fresh, isolated both ways, never
      a typed nil.
    - The provider's contract (C19 to C21): every outcome of Observe and
      Create, and no panic.
    - The processes (C23, C24): all set up or exit with 1, the kinds registered.
    - The deployment (C25 to C27): where the controllers' URLs lead, which probes
      are answered, and what the role permits each controller.
    - Sizing (C28 to C31): the float estimate equals the integer formula on
      every input the XRD admits (12288 cases, evaluated by the kernel), its
      bounds, and the annotations, written in place or lost.
    - The backend (C32 to C37): one job per key under concurrency, final rows,
      the history, the worker's three attempts, finite measurements of the
      simulator, and hosts whose jobs all fail.
    - Operator and backend together (C38 to C40): futile retries, lost jobs,
      deletions that cancel nothing.

    ** Modelling choices

    A handler's mutation of its own copy of an object is a new value, which is
    what [operator_DeepCopyObject_deep] and its like justify: the copy shares
    nothing with the cache.  A [DeepCopyInto] is a function from the struct at
    [in] to the one it leaves at [out]; addresses are chosen fresh.  The
    provider's methods return the resource they were given a pointer to, and
    the maps of the sizing function are references into a heap.  Logging,
    [Body.Close] and contexts are left out.  Every answer of the API server,
    the backend and the clock is arbitrary, except where a theorem names one.
    An HTTP body is complete and is read at once.

    ** What is not modelled

    crossplane-runtime's managed reconciler is over-approximated in [Platform]:
    any method of the provider may be called on any value of a resource that
    was ever known, and what the method leaves kept or lost.  The managers and
    the gRPC server behind the calls of the three [main]s, the scheme and
    function-patch-and-transform are libraries: classes with laws, or calls
    with any answer.  Of the manifests the images, replicas, resources and
    security contexts are left out, as no code reads them; so are the
    Dockerfiles, the compose file and the CI pipeline, which are scripts for
    other systems.  The database migration is left out, as what its operations
    do is up to Alembic and SQLAlchemy: the tables of [Backend] are those
    [models.py] declares.  The worker finds its database and its queue up, and
    a submission commits its row and pushes its message in one step, unless the
    push fails.  The messages of the sizing function have the shape the function
    reads, and the policies speak of the object they are meant for.  Times stay
    within years of four digits; the names and values of a chart are taken as
    the strings they are, without YAML's reading of an unquoted number or the
    limit of 63 characters on a label.  Python's [float] and [strip] are modelled on ASCII
    text and are parameters beyond it.  In the closed systems every object names
    the one backend whose address is a parameter, and its measurements print so
    that they read back; the composite stands before them, in the journey, and
    is not itself a part of their state. *)
From stdpp Require Export base tactics list strings gmap pretty.
From Stdlib Require Export ZArith Lia.

(** ** Effectful Go code

    A handler of the source is straight-line code that talks to the outside
    (API server, HTTP transport, clock).  It is modelled as a finite tree of
    calls: a signature gives the calls and the type of each answer. *)

Record Sig : Type := MkSig { op : Type; ar : op -> Type }.

Inductive prog (S : Sig) (A : Type) : Type :=
| Return (a : A)
| Panic (msg : string)
| Call (o : op S) (k : ar S o -> prog S A).
Arguments Return {S A} a.
Arguments Panic {S A} msg.
Arguments Call {S A} o k.

Fixpoint bind {S A B} (p : prog S A) (f : A -> prog S B) : prog S B :=
  match p with
  | Return a => f a
  | Panic m => Panic m
  | Call o k => Call o (fun x => bind (k x) f)
  end.

Definition call {S} (o : op S) : prog S (ar S o) := Call o Return.

Declare Scope go_scope.
Delimit Scope go_scope with go.
Notation "'let!' x := p 'in' q" := (bind p (fun x => q))
  (at level 10, x name, p at level 100, q at level 200,
   format "'[v' 'let!'  x  :=  p  'in' '/' q ']'") : go_scope.

Open Scope go_scope.

(** One call with the answer the outside gave. *)
Inductive event (S : Sig) : Type := Ev (o : op S) (x : ar S o).
Arguments Ev {S} o x.

Inductive outcome (A : Type) : Type :=
| Done (a : A)
| Panicked (msg : string).
Arguments Done {A} a.
Arguments Panicked {A} msg.

(** An outside world: a state and an answer to every call. *)
Definition handler (S : Sig) (W : Type) : Type := forall o : op S, W -> W * ar S o.

Record exec_result (S : Sig) (W A : Type) : Type := MkExec {
  ex_world : W;
  ex_trace : list (event S);
  ex_out : outcome A
}.
Arguments MkExec {S W A}.
Arguments ex_world {S W A}.
Arguments ex_trace {S W A}.
Arguments ex_out {S W A}.

Fixpoint run {S W A} (h : handler S W) (p : prog S A) (w : W) : exec_result S W A :=
  match p with
  | Return a => MkExec w [] (Done a)
  | Panic m => MkExec w [] (Panicked m)
  | Call o k =>
      let '(w1, x) := h o w in
      let r := run h (k x) w1 in
      MkExec (ex_world r) (Ev o x :: ex_trace r) (ex_out r)
  end.

(** The weakest precondition over every outside world, and the strongest
    statement about a trace that does not mention a world. *)
Fixpoint wp {S A} (p : prog S A) (Q : list (event S) -> outcome A -> Prop) : Prop :=
  match p with
  | Return a => Q [] (Done a)
  | Panic m => Q [] (Panicked m)
  | Call o k => forall x, wp (k x) (fun tr r => Q (Ev o x :: tr) r)
  end.

(** ** Go integers: [int] is 64 bits wide on the platforms the images target *)

Definition int_min : Z := - 2 ^ 63.
Definition int_max : Z := 2 ^ 63 - 1.
Definition in_int (z : Z) : Prop := (int_min <= z <= int_max)%Z.
Definition wrap_int (z : Z) : Z := ((z + 2 ^ 63) `mod` 2 ^ 64 - 2 ^ 63)%Z.

(** ** Go errors

    A leaf error carries its text and, for an API error, its reason; the
    wrapping of [fmt.Errorf("...: %w", err)] and of crossplane's
    [errors.Wrap] keeps the inner error. *)
Inductive error : Type :=
| ErrLeaf (reason text : string)
| ErrWrap (prefix : string) (inner : error).

(** [err.Error()]. *)
Fixpoint error_text (e : error) : string :=
  match e with
  | ErrLeaf _ t => t
  | ErrWrap p i => p +:+ ": " +:+ error_text i
  end.

(** ** Lemmas on programs *)

Create HintDb golib.

Lemma run_bind {S W A B} (h : handler S W) (p : prog S A) (f : A -> prog S B) w :
  run h (bind p f) w =
  match ex_out (run h p w) with
  | Done a =>
      let r := run h (f a) (ex_world (run h p w)) in
      MkExec (ex_world r) (ex_trace (run h p w) ++ ex_trace r) (ex_out r)
  | Panicked m => MkExec (ex_world (run h p w)) (ex_trace (run h p w)) (Panicked m)
  end.
Proof.
  revert w. induction p as [a|m|o k IH]; intros w; simpl.
  - by destruct (run h (f a) w).
  - done.
  - destruct (h o w) as [w1 x]. rewrite IH. by destruct (ex_out (run h (k x) w1)).
Qed.

Lemma wp_run {S W A} (p : prog S A) Q (h : handler S W) w :
  wp p Q -> Q (ex_trace (run h p w)) (ex_out (run h p w)).
Proof.
  revert Q w. induction p as [a|m|o k IH]; intros Q w Hwp; simpl in *; try done.
  destruct (h o w) as [w1 x]. apply (IH x (fun tr r => Q (Ev o x :: tr) r)), Hwp.
Qed.

Lemma wp_mono {S A} (p : prog S A) (Q R : list (event S) -> outcome A -> Prop) :
  (forall tr r, Q tr r -> R tr r) -> wp p Q -> wp p R.
Proof.
  revert Q R. induction p as [a|m|o k IH]; intros Q R HQR; simpl; auto.
  intros Hwp x. eapply IH, Hwp. intros tr r. apply HQR.
Qed.

Lemma wp_bind {S A B} (p : prog S A) (f : A -> prog S B) Q :
  wp p (fun tr r => match r with
                    | Done a => wp (f a) (fun tr' r' => Q (tr ++ tr') r')
                    | Panicked m => Q tr (Panicked m)
                    end) ->
  wp (bind p f) Q.
Proof.
  revert Q. induction p as [a|m|o k IH]; intros Q; simpl; auto.
Qed.

(** ** Lemmas on machine integers *)

Lemma wrap_int_id z : in_int z -> wrap_int z = z.
Proof.
  unfold in_int, int_min, int_max, wrap_int. intros H.
  rewrite Z.mod_small; lia.
Qed.

Lemma wrap_int_in z : in_int (wrap_int z).
Proof.
  unfold in_int, int_min, int_max, wrap_int.
  pose proof (Z.mod_pos_bound (z + 2 ^ 63) (2 ^ 64) ltac:(lia)). lia.
Qed.

#[export] Hint Resolve wrap_int_in : golib.

(** ** Tactics *)

(** Split conjunctions, existentials and record equalities in the context. *)
Ltac crush_hyps :=
  repeat match goal with
  | H : _ /\ _ |- _ => destruct H
  | H : exists _, _ |- _ => destruct H
  | H : (_, _) = (_, _) |- _ => injection H as ?; subst
  | H : Some _ = Some _ |- _ => injection H as ?; subst
  | H : Done _ = Done _ |- _ => injection H as ?; subst
  end.

(** Symbolic execution of [run]: give the answer of the next call a name. *)
Ltac run_call :=
  match goal with
  | |- context [let '(_, _) := ?h ?o ?w in _] =>
      let w' := fresh "w" in let x := fresh "ans" in let E := fresh "Ecall" in
      destruct (h o w) as [w' x] eqn:E; cbn beta iota
  end.
