(* ===== verification/GoStrings.v ===== *)
(** * Go strings: bytes, UTF-8 and the [fmt] verbs the program uses

    A Go string is a byte sequence; Rocq's [string] is one too.  This file
    holds the UTF-8 decoding of [unicode/utf8], [EncodeRune], the verbs
    [%d], [%s] (plain concatenation) and [%q] ([strconv.Quote]), and the
    lemmas on them the other files share. *)
From S2P Require Export Prelude.
From Stdlib Require Import Ascii.

Open Scope Z_scope.

Definition byte_val (a : ascii) : Z := Z.of_N (N_of_ascii a).
Definition byte_of (z : Z) : ascii := ascii_of_N (Z.to_N z).

(** The string of a list of byte values. *)
Definition bytes (l : list Z) : string :=
  foldr (fun z s => String (byte_of z) s) EmptyString l.

(** [fmt.Sprintf("%d", z)]. *)
Definition fmt_d (z : Z) : string := pretty z.

(** ** UTF-8 *)

(** A decoded step of [utf8.DecodeRuneInString]: a rune and its encoding, or
    one byte that starts no encoding ([RuneError], width 1). *)
Inductive chunk : Type :=
| Rune (code : Z) (enc : string)
| BadByte (b : ascii).

Definition in_range (lo hi z : Z) : bool := (lo <=? z) && (z <=? hi).

Definition cont (z : Z) : bool := in_range 128 191 z.

(** The second byte a leading byte accepts (table [acceptRanges]). *)
Definition accept2 (b0 : Z) (b1 : Z) : bool :=
  if b0 =? 224 then in_range 160 191 b1
  else if b0 =? 237 then in_range 128 159 b1
  else if b0 =? 240 then in_range 144 191 b1
  else if b0 =? 244 then in_range 128 143 b1
  else cont b1.

Definition rune2 b0 b1 := (b0 - 192) * 64 + (b1 - 128).
Definition rune3 b0 b1 b2 := (b0 - 224) * 4096 + (b1 - 128) * 64 + (b2 - 128).
Definition rune4 b0 b1 b2 b3 :=
  (b0 - 240) * 262144 + (b1 - 128) * 4096 + (b2 - 128) * 64 + (b3 - 128).

(** The [for range] loop over a string, as the list of its steps. *)
Fixpoint runes (s : string) : list chunk :=
  match s with
  | EmptyString => []
  | String a s1 =>
      let b0 := byte_val a in
      if b0 <? 128 then Rune b0 (String a EmptyString) :: runes s1
      else match s1 with
      | EmptyString => BadByte a :: runes s1
      | String b s2 =>
          let b1 := byte_val b in
          if in_range 194 223 b0 && cont b1
          then Rune (rune2 b0 b1) (String a (String b EmptyString)) :: runes s2
          else match s2 with
          | EmptyString => BadByte a :: runes s1
          | String c s3 =>
              let b2 := byte_val c in
              if in_range 224 239 b0 && accept2 b0 b1 && cont b2
              then Rune (rune3 b0 b1 b2)
                     (String a (String b (String c EmptyString))) :: runes s3
              else match s3 with
              | EmptyString => BadByte a :: runes s1
              | String d s4 =>
                  let b3 := byte_val d in
                  if in_range 240 244 b0 && accept2 b0 b1 && cont b2 && cont b3
                  then Rune (rune4 b0 b1 b2 b3)
                         (String a (String b (String c (String d EmptyString))))
                       :: runes s4
                  else BadByte a :: runes s1
              end
          end
      end
  end.

Definition chunk_bytes (c : chunk) : string :=
  match c with Rune _ e => e | BadByte b => String b EmptyString end.

Definition flatten (l : list string) : string := foldr String.append EmptyString l.

(** U+FFFD, the replacement character. *)
Definition rune_error : string := bytes [239; 191; 189].

(** The string with every undecodable byte replaced, as [json] does. *)
Definition sanitize (s : string) : string :=
  flatten (map (fun c => match c with Rune _ e => e | BadByte _ => rune_error end) (runes s)).

(** [utf8.ValidString]. *)
Definition valid_utf8 (s : string) : bool :=
  forallb (fun c => match c with Rune _ _ => true | BadByte _ => false end) (runes s).

(** [utf8.AppendRune] of a code point; surrogates and out-of-range values
    are encoded as U+FFFD. *)
Definition encode_rune (r : Z) : string :=
  if in_range 0 127 r then bytes [r]
  else if in_range 128 2047 r then bytes [192 + r / 64; 128 + r mod 64]
  else if in_range 55296 57343 r || (r <? 0) || (1114111 <? r) then rune_error
  else if r <=? 65535
       then bytes [224 + r / 4096; 128 + r / 64 mod 64; 128 + r mod 64]
  else bytes [240 + r / 262144; 128 + r / 4096 mod 64; 128 + r / 64 mod 64; 128 + r mod 64].

(** ** Hexadecimal digits *)

Definition hex_digit (z : Z) : ascii :=
  if z <? 10 then byte_of (48 + z) else byte_of (87 + z).

Fixpoint hex_fixed (n : nat) (z : Z) : string :=
  match n with
  | O => EmptyString
  | S n' => hex_fixed n' (z / 16) +:+ String (hex_digit (z mod 16)) EmptyString
  end.

(** ** [strconv.Quote], the verb [%q]

    [is_print] is the Unicode table of [strconv.IsPrint] above ASCII. *)
Section Quote.
Variable is_print : Z -> bool.

Definition quote_rune (r : Z) (enc : string) : string :=
  if r =? 34 then "\" +:+ bytes [34]
  else if r =? 92 then "\\"
  else if in_range 32 126 r then enc
  else if (127 <? r) && is_print r then enc
  else if r =? 7 then "\a"
  else if r =? 8 then "\b"
  else if r =? 12 then "\f"
  else if r =? 10 then "\n"
  else if r =? 13 then "\r"
  else if r =? 9 then "\t"
  else if r =? 11 then "\v"
  else if r <? 128 then "\x" +:+ hex_fixed 2 r
  else if r <? 65536 then "\u" +:+ hex_fixed 4 r
  else "\U" +:+ hex_fixed 8 r.

Definition fmt_q (s : string) : string :=
  bytes [34] +:+
  flatten (map (fun c => match c with
                         | Rune r e => quote_rune r e
                         | BadByte b => "\x" +:+ hex_fixed 2 (byte_val b)
                         end) (runes s)) +:+
  bytes [34].
End Quote.

(** ** Lemmas *)

Lemma byte_val_range a : 0 <= byte_val a < 256.
Proof.
  unfold byte_val. pose proof (N_ascii_bounded a). lia.
Qed.

Lemma byte_of_val a : byte_of (byte_val a) = a.
Proof. unfold byte_of, byte_val. rewrite N2Z.id. apply ascii_N_embedding. Qed.

Lemma byte_val_of z : 0 <= z < 256 -> byte_val (byte_of z) = z.
Proof.
  intros H. unfold byte_of, byte_val. rewrite N_ascii_embedding; lia.
Qed.

Lemma fmt_d_inj z1 z2 : fmt_d z1 = fmt_d z2 -> z1 = z2.
Proof. unfold fmt_d. apply (inj pretty). Qed.

(** stdpp keeps [String.append] folded under [simpl]; these unfold it. *)
Lemma append_cons x (a b : string) : String x a +:+ b = String x (a +:+ b).
Proof. reflexivity. Qed.

Lemma append_nil_l (a : string) : "" +:+ a = a.
Proof. reflexivity. Qed.

Lemma append_assoc (a b c : string) : (a +:+ b) +:+ c = a +:+ (b +:+ c).
Proof.
  induction a as [|x a IH]; [done|]. by rewrite !append_cons, IH.
Qed.

Lemma append_nil_r (a : string) : a +:+ "" = a.
Proof. induction a as [|x a IH]; [done|]. by rewrite append_cons, IH. Qed.

Lemma append_inj_l (p a b : string) : p +:+ a = p +:+ b -> a = b.
Proof.
  induction p as [|x p IH]; [done|]. rewrite !append_cons. intros [= H]. auto.
Qed.

Lemma append_inj_r (a b p : string) : a +:+ p = b +:+ p -> a = b.
Proof.
  intros H. assert (String.length a = String.length b) as Hl.
  { apply (f_equal String.length) in H.
    assert (forall x y, String.length (x +:+ y) = (String.length x + String.length y)%nat)
      as Hlen by (induction x as [|c x IH]; intros; [done|]; rewrite append_cons; simpl; auto).
    rewrite !Hlen in H. lia. }
  revert b H Hl. induction a as [|x a IH]; intros [|y b] H Hl; simpl in Hl; try lia; [done|].
  rewrite !append_cons in H. injection H as -> H. f_equal. apply IH; [done|lia].
Qed.

Lemma length_append (a b : string) :
  String.length (a +:+ b) = (String.length a + String.length b)%nat.
Proof. induction a as [|x a IH]; [done|]. rewrite append_cons. simpl. by rewrite IH. Qed.

Lemma flatten_app l1 l2 : flatten (l1 ++ l2) = flatten l1 +:+ flatten l2.
Proof.
  induction l1 as [|x l1 IH]; simpl; [done|]. by rewrite IH, append_assoc.
Qed.

(** Induction on the decoding steps of a string. *)
Lemma runes_ind (P : string -> list chunk -> Prop) :
  P "" [] ->
  (forall c s rest, P s (runes s) -> rest = chunk_bytes c +:+ s ->
     runes rest = c :: runes s -> P rest (c :: runes s)) ->
  forall s, P s (runes s).
Proof.
  intros H0 Hstep s.
  remember (String.length s) as n eqn:Hn.
  revert s Hn. induction n as [n IH] using lt_wf_ind. intros s ->.
  destruct s as [|a s1]; [exact H0|].
  assert (forall c s', runes (String a s1) = c :: runes s' ->
            String a s1 = chunk_bytes c +:+ s' ->
            (String.length s' < String.length (String a s1))%nat ->
            P (String a s1) (runes (String a s1))) as Hgo.
  { intros c s' E1 E2 Hl. rewrite E1. eapply Hstep; eauto. }
  destruct (runes (String a s1)) as [|c l] eqn:E.
  { exfalso. revert E. simpl. repeat case_match; discriminate. }
  rewrite <- E in *. clear l E.
  revert Hgo. cbn [runes].
  repeat case_match; intros Hgo;
    (eapply Hgo; [reflexivity|reflexivity|simpl; lia]).
Qed.

Lemma runes_bytes s : flatten (map chunk_bytes (runes s)) = s.
Proof.
  apply (runes_ind (fun s l => flatten (map chunk_bytes l) = s)); [done|].
  intros c s' rest IH -> _. simpl. by rewrite IH.
Qed.

Lemma sanitize_valid s : valid_utf8 s = true -> sanitize s = s.
Proof.
  unfold valid_utf8, sanitize.
  apply (runes_ind (fun s l =>
    forallb (fun c => match c with Rune _ _ => true | BadByte _ => false end) l = true ->
    flatten (map (fun c => match c with Rune _ e => e | BadByte _ => rune_error end) l) = s));
    [done|].
  intros [r e|b] s' rest IH -> _; simpl; [|done].
  intros H. by rewrite IH.
Qed.

(** ** Well-formedness of decoded steps *)

Fixpoint all_bytes (P : Z -> Prop) (s : string) : Prop :=
  match s with
  | EmptyString => True
  | String a s' => P (byte_val a) /\ all_bytes P s'
  end.

(** What [runes] promises of a decoded rune: its bytes decode the same in
    front of any text, [encode_rune] gives them back, and they are one ASCII
    byte or only bytes above ASCII. *)
Definition chunk_wf (c : chunk) : Prop :=
  match c with
  | BadByte _ => True
  | Rune r e =>
      (forall t, runes (e +:+ t) = Rune r e :: runes t) /\
      encode_rune r = e /\
      (0 <= r < 128 /\ (exists a, e = String a EmptyString /\ byte_val a = r) \/
       128 <= r /\ ~ (55296 <= r <= 57343) /\ all_bytes (fun b => 128 <= b) e)
  end.

Ltac split_ranges :=
  repeat match goal with
  | H : _ && _ = true |- _ => apply andb_prop in H as [? ?]
  | H : in_range _ _ _ = true |- _ => unfold in_range in H
  | H : (_ <=? _) = true |- _ => apply Z.leb_le in H
  | H : (_ <? _) = true |- _ => apply Z.ltb_lt in H
  | H : (_ <? _) = false |- _ => apply Z.ltb_ge in H
  | H : (_ =? _) = true |- _ => apply Z.eqb_eq in H
  | H : (_ =? _) = false |- _ => apply Z.eqb_neq in H
  end.

Lemma byte_of_eq a z : byte_val a = z -> byte_of z = a.
Proof. intros <-. apply byte_of_val. Qed.

(** Decide a range test from linear facts. *)
Lemma in_range_true lo hi z : lo <= z <= hi -> in_range lo hi z = true.
Proof. intros H. unfold in_range. apply andb_true_intro. lia. Qed.

Lemma in_range_false lo hi z : z < lo \/ hi < z -> in_range lo hi z = false.
Proof. intros H. unfold in_range. apply andb_false_iff. lia. Qed.

Lemma accept2_cont b0 b1 : accept2 b0 b1 = true -> cont b1 = true.
Proof.
  unfold accept2, cont. repeat case_match; intros; split_ranges;
    first [done | apply in_range_true; lia].
Qed.

Lemma encode_rune2 a b :
  194 <= byte_val a <= 223 -> 128 <= byte_val b <= 191 ->
  encode_rune (rune2 (byte_val a) (byte_val b)) = String a (String b EmptyString).
Proof.
  intros Ha Hb. unfold encode_rune, rune2.
  rewrite in_range_false, in_range_true by lia. unfold bytes; simpl.
  repeat f_equal; apply byte_of_eq; Z.to_euclidean_division_equations; lia.
Qed.

Lemma encode_rune3 a b c :
  224 <= byte_val a <= 239 -> accept2 (byte_val a) (byte_val b) = true ->
  128 <= byte_val c <= 191 ->
  encode_rune (rune3 (byte_val a) (byte_val b) (byte_val c))
    = String a (String b (String c EmptyString)) /\
  2048 <= rune3 (byte_val a) (byte_val b) (byte_val c) /\
  ~ (55296 <= rune3 (byte_val a) (byte_val b) (byte_val c) <= 57343).
Proof.
  intros Ha Hacc Hc. pose proof (accept2_cont _ _ Hacc) as Hb.
  unfold cont in Hb. split_ranges.
  assert (2048 <= rune3 (byte_val a) (byte_val b) (byte_val c) <= 65535 /\
          ~ (55296 <= rune3 (byte_val a) (byte_val b) (byte_val c) <= 57343)) as [Hr Hs].
  { unfold rune3, accept2 in *. repeat case_match; split_ranges; try lia;
      split_ranges; unfold cont in *; split_ranges; lia. }
  split; [|lia]. unfold encode_rune.
  rewrite !in_range_false by lia.
  rewrite (proj2 (Z.ltb_ge _ 0)), (proj2 (Z.ltb_ge 1114111 _)), (proj2 (Z.leb_le _ 65535)) by lia.
  cbn [orb]. unfold bytes, rune3; simpl.
  repeat f_equal; apply byte_of_eq; Z.to_euclidean_division_equations; lia.
Qed.

Lemma encode_rune4 a b c d :
  240 <= byte_val a <= 244 -> accept2 (byte_val a) (byte_val b) = true ->
  128 <= byte_val c <= 191 -> 128 <= byte_val d <= 191 ->
  encode_rune (rune4 (byte_val a) (byte_val b) (byte_val c) (byte_val d))
    = String a (String b (String c (String d EmptyString))) /\
  65536 <= rune4 (byte_val a) (byte_val b) (byte_val c) (byte_val d).
Proof.
  intros Ha Hacc Hc Hd. pose proof (accept2_cont _ _ Hacc) as Hb.
  unfold cont in Hb. split_ranges.
  assert (65536 <= rune4 (byte_val a) (byte_val b) (byte_val c) (byte_val d) <= 1114111) as Hr.
  { unfold rune4, accept2 in *. repeat case_match; split_ranges; try lia;
      split_ranges; unfold cont in *; split_ranges; lia. }
  split; [|lia]. unfold encode_rune.
  rewrite !in_range_false by lia.
  rewrite (proj2 (Z.ltb_ge _ 0)), (proj2 (Z.ltb_ge 1114111 _)), (proj2 (Z.leb_gt _ 65535)) by lia.
  cbn [orb]. unfold bytes, rune4; simpl.
  repeat f_equal; apply byte_of_eq; Z.to_euclidean_division_equations; lia.
Qed.

(** One decoding step, by the class of the leading bytes. *)
Lemma runes_step1 a t :
  byte_val a < 128 -> runes (String a t) = Rune (byte_val a) (String a EmptyString) :: runes t.
Proof. intros H. cbn [runes]. by rewrite (proj2 (Z.ltb_lt _ _) H). Qed.

Lemma runes_step2 a b t :
  194 <= byte_val a <= 223 -> cont (byte_val b) = true ->
  runes (String a (String b t))
    = Rune (rune2 (byte_val a) (byte_val b)) (String a (String b EmptyString)) :: runes t.
Proof.
  intros Ha Hb. cbn [runes].
  by rewrite (proj2 (Z.ltb_ge (byte_val a) 128)), (in_range_true 194 223 (byte_val a)), Hb by lia.
Qed.

Lemma runes_step3 a b c t :
  224 <= byte_val a <= 239 -> accept2 (byte_val a) (byte_val b) = true ->
  cont (byte_val c) = true ->
  runes (String a (String b (String c t)))
    = Rune (rune3 (byte_val a) (byte_val b) (byte_val c))
        (String a (String b (String c EmptyString))) :: runes t.
Proof.
  intros Ha Hb Hc. cbn [runes].
  rewrite (proj2 (Z.ltb_ge (byte_val a) 128)), (in_range_false 194 223 (byte_val a)) by lia. cbn [andb].
  by rewrite (in_range_true 224 239 (byte_val a)), Hb, Hc by lia.
Qed.

Lemma runes_step4 a b c d t :
  240 <= byte_val a <= 244 -> accept2 (byte_val a) (byte_val b) = true ->
  cont (byte_val c) = true -> cont (byte_val d) = true ->
  runes (String a (String b (String c (String d t))))
    = Rune (rune4 (byte_val a) (byte_val b) (byte_val c) (byte_val d))
        (String a (String b (String c (String d EmptyString)))) :: runes t.
Proof.
  intros Ha Hb Hc Hd. cbn [runes].
  rewrite (proj2 (Z.ltb_ge (byte_val a) 128)), (in_range_false 194 223 (byte_val a)), (in_range_false 224 239 (byte_val a)) by lia.
  cbn [andb]. by rewrite (in_range_true 240 244 (byte_val a)), Hb, Hc, Hd by lia.
Qed.

Lemma cont_range z : cont z = true -> 128 <= z <= 191.
Proof. unfold cont. intros. split_ranges. lia. Qed.

Lemma chunk_wf1 a :
  byte_val a < 128 -> chunk_wf (Rune (byte_val a) (String a EmptyString)).
Proof.
  intros H. pose proof (byte_val_range a). split_and!.
  - intros t. rewrite append_cons, append_nil_l. by apply runes_step1.
  - unfold encode_rune. rewrite in_range_true by lia. cbn. by rewrite byte_of_val.
  - left. split; [lia|]. by exists a.
Qed.

Lemma chunk_wf2 a b :
  194 <= byte_val a <= 223 -> cont (byte_val b) = true ->
  chunk_wf (Rune (rune2 (byte_val a) (byte_val b)) (String a (String b EmptyString))).
Proof.
  intros Ha Hb. pose proof (cont_range _ Hb). split_and!.
  - intros t. rewrite !append_cons, append_nil_l. by apply runes_step2.
  - by apply encode_rune2.
  - right. unfold rune2. cbn. lia.
Qed.

Lemma chunk_wf3 a b c :
  224 <= byte_val a <= 239 -> accept2 (byte_val a) (byte_val b) = true ->
  cont (byte_val c) = true ->
  chunk_wf (Rune (rune3 (byte_val a) (byte_val b) (byte_val c))
              (String a (String b (String c EmptyString)))).
Proof.
  intros Ha Hb Hc. pose proof (cont_range _ Hc).
  pose proof (cont_range _ (accept2_cont _ _ Hb)).
  destruct (encode_rune3 a b c) as (E & Hlo & Hs); [done..|]. split_and!.
  - intros t. rewrite !append_cons, append_nil_l. by apply runes_step3.
  - done.
  - right. split_and!; [lia|done|]. cbn. lia.
Qed.

Lemma chunk_wf4 a b c d :
  240 <= byte_val a <= 244 -> accept2 (byte_val a) (byte_val b) = true ->
  cont (byte_val c) = true -> cont (byte_val d) = true ->
  chunk_wf (Rune (rune4 (byte_val a) (byte_val b) (byte_val c) (byte_val d))
              (String a (String b (String c (String d EmptyString))))).
Proof.
  intros Ha Hb Hc Hd. pose proof (cont_range _ Hc). pose proof (cont_range _ Hd).
  pose proof (cont_range _ (accept2_cont _ _ Hb)).
  destruct (encode_rune4 a b c d) as (E & Hlo); [done..|]. split_and!.
  - intros t. rewrite !append_cons, append_nil_l. by apply runes_step4.
  - done.
  - right. split_and!; [lia..|]. cbn. lia.
Qed.

#[export] Hint Resolve chunk_wf1 chunk_wf2 chunk_wf3 chunk_wf4 : golib.

(** The head of a decoding, whatever follows. *)
Lemma runes_head_wf s c l : runes s = c :: l -> chunk_wf c.
Proof.
  destruct s as [|a s1]; [done|]. cbn [runes].
  repeat case_match; intros [= <- <-]; split_ranges; try exact I; auto with golib.
Qed.

Lemma runes_wf s : Forall chunk_wf (runes s).
Proof.
  apply (runes_ind (fun _ l => Forall chunk_wf l)); [constructor|].
  intros c s' rest IH _ E. constructor; [|done]. by eapply runes_head_wf.
Qed.

Lemma runes_rune_error t : runes (rune_error +:+ t) = Rune 65533 rune_error :: runes t.
Proof.
  change (rune_error +:+ t)
    with (String (byte_of 239) (String (byte_of 191) (String (byte_of 189) t))).
  rewrite runes_step3; [done|by vm_compute..].
Qed.

(** Replacing undecodable bytes leaves a string in which none are left. *)
Lemma sanitize_runes s :
  runes (sanitize s) =
  map (fun c => match c with Rune _ _ => c | BadByte _ => Rune 65533 rune_error end) (runes s).
Proof.
  unfold sanitize. pose proof (runes_wf s) as Hwf.
  induction (runes s) as [|c l IH]; [done|].
  inversion Hwf as [|? ? Hc Hl]; subst. simpl.
  destruct c as [r e|b].
  - destruct Hc as (Hrun & _). rewrite Hrun. by rewrite IH.
  - rewrite runes_rune_error. by rewrite IH.
Qed.

Lemma sanitize_valid_utf8 s : valid_utf8 (sanitize s) = true.
Proof.
  unfold valid_utf8. rewrite sanitize_runes. induction (runes s) as [|[] l IH]; [done|..]; done.
Qed.

Lemma sanitize_idemp s : sanitize (sanitize s) = sanitize s.
Proof. apply sanitize_valid, sanitize_valid_utf8. Qed.
