(* ===== verification/GoFloat.v ===== *)
(** * binary64 arithmetic and conversions

    Go's [float64] is IEEE 754 binary64 with rounding to nearest even.  The
    type and the operations are those of [SpecFloat] at precision 53 and
    maximal exponent 1024: executable definitions, no axiom. *)
From S2P Require Export GoStrings.
From Stdlib Require Export SpecFloat.

Abbreviation float64 := spec_float.

Definition fmul (x y : float64) : float64 := SFmul 53 1024 x y.
Definition fadd (x y : float64) : float64 := SFadd 53 1024 x y.
Definition fdiv (x y : float64) : float64 := SFdiv 53 1024 x y.

(** [float64(z)] and a constant expression with an integral value. *)
Definition float_of_int (z : Z) : float64 := binary_normalize 53 1024 z 0 false.

(** The integral part of a finite float (truncation toward zero). *)
Definition float_trunc (f : float64) : option Z :=
  match f with
  | S754_zero _ => Some 0
  | S754_finite s m e =>
      let v := if 0 <=? e then Z.pos m * 2 ^ e else Z.pos m / 2 ^ (- e) in
      Some (if s then - v else v)
  | _ => None
  end.

Definition in_intb (z : Z) : bool := (int_min <=? z) && (z <=? int_max).

(** [int(f)].  The conversion of a value the type cannot hold is
    implementation-dependent: [overflow] is the compiler's choice. *)
Definition int_of_float (overflow : float64 -> Z) (f : float64) : Z :=
  match float_trunc f with
  | Some z => if in_intb z then z else wrap_int (overflow f)
  | None => wrap_int (overflow f)
  end.

(** Round half to even of [m / 2 ^ k]. *)
Definition div_even (m k : Z) : Z :=
  let q := m / 2 ^ k in
  let r := m mod 2 ^ k in
  match Z.compare (2 * r) (2 ^ k) with
  | Lt => q
  | Gt => q + 1
  | Eq => if Z.even q then q else q + 1
  end.

(** [fmt.Sprintf("%.0f", f)]. *)
Definition fmt_f0 (f : float64) : string :=
  match f with
  | S754_zero s => if s then "-0" else "0"
  | S754_infinity s => if s then "-Inf" else "+Inf"
  | S754_nan => "NaN"
  | S754_finite s m e =>
      let v := if 0 <=? e then Z.pos m * 2 ^ e else div_even (Z.pos m) (- e) in
      (if s then "-" else "") +:+ fmt_d v
  end.

(** [strconv.ParseFloat] of [(-1)^neg * d * 10^e]: the nearest binary64, or
    [None] for [ErrRange].  The two cut-offs keep the powers of ten small;
    they are beyond the range the rounding itself maps to infinity or to
    zero. *)
Definition parse_decimal (neg : bool) (d : Z) (e : Z) : option float64 :=
  match d with
  | Z0 | Zneg _ => Some (S754_zero neg)
  | Zpos _ =>
      let digits := Z.log2 d / 3 + 1 in
      if 310 <? e then None
      else if e + digits <? -400 then Some (S754_zero neg)
      else
        let r :=
          if 0 <=? e
          then binary_round 53 1024 neg (Z.to_pos (d * 10 ^ e)) 0
          else
            let '(m, ex, l) := SFdiv_core_binary 53 1024 d 0 (10 ^ (- e)) 0 in
            binary_round_aux 53 1024 neg m ex l
        in
        match r with
        | S754_infinity _ => None
        | _ => Some r
        end
  end.

(** ** Checks of the definitions on known values *)

Example parse_decimal_687_5 :
  parse_decimal false 6875 (-1) = Some (S754_finite false 6047313952768000 (-43)).
Proof. vm_compute. reflexivity. Qed.

Example parse_decimal_tenth :
  parse_decimal false 1 (-1) = Some (S754_finite false 7205759403792794 (-56)).
Proof. vm_compute. reflexivity. Qed.

Example parse_decimal_range : parse_decimal false 1 400 = None.
Proof. vm_compute. reflexivity. Qed.

Example fmt_f0_3500 : fmt_f0 (float_of_int 3500) = "3500".
Proof. vm_compute. reflexivity. Qed.

Example trunc_one_and_half :
  float_trunc (fdiv (float_of_int 3) (float_of_int 2)) = Some 1.
Proof. vm_compute. reflexivity. Qed.

(** What [ParseFloat] returns is a number: rounding a mantissa that is not
    negative gives no NaN. *)
Definition is_finite (f : float64) : bool :=
  match f with
  | S754_zero _ | S754_finite _ _ _ => true
  | S754_infinity _ | S754_nan => false
  end.

(** ** Lemmas *)

Lemma iter_pos_keeps {A} (P : A -> Prop) (f : A -> A) p x :
  (forall y, P y -> P (f y)) -> P x -> P (SpecFloat.iter_pos f p x).
Proof. intros Hf. revert x. induction p; cbn; auto. Qed.

Lemma shr_fexp_nonneg m e l : 0 <= m -> 0 <= shr_m (shr_fexp 53 1024 m e l).1.
Proof.
  intros Hm. unfold shr_fexp, shr.
  assert (0 <= shr_m (shr_record_of_loc m l)) as H by (by destruct l as [|[]]).
  destruct (_ - _)%Z as [|p|p]; [done| |done].
  apply (iter_pos_keeps (fun mrs => 0 <= shr_m mrs)); [|done].
  intros [[|[q|q|]|[q|q|]] r s]; cbn; lia.
Qed.

Lemma binary_round_aux_number s m e l :
  0 <= m -> binary_round_aux 53 1024 s m e l <> S754_nan.
Proof.
  intros Hm. unfold binary_round_aux. pose proof (shr_fexp_nonneg m e l Hm) as H1.
  destruct (shr_fexp 53 1024 m e l) as [mrs e1]. cbn in H1.
  assert (0 <= round_nearest_even (shr_m mrs) (loc_of_shr_record mrs)) as H2.
  { unfold round_nearest_even. destruct (loc_of_shr_record mrs) as [|[]]; [lia| |lia|lia].
    destruct (Z.even _); lia. }
  pose proof (shr_fexp_nonneg _ e1 loc_Exact H2) as H3.
  destruct (shr_fexp 53 1024 _ e1 loc_Exact) as [mrs2 e2]. cbn in H3.
  destruct (shr_m mrs2); [done|by destruct (_ <=? _)|lia].
Qed.

Lemma SFdiv_core_nonneg d q m e l :
  0 <= d -> 0 < q -> SFdiv_core_binary 53 1024 d 0 q 0 = (m, e, l) -> 0 <= m.
Proof.
  intros Hd Hq. unfold SFdiv_core_binary.
  set (e' := Z.min _ _). set (s := (_ - _ - e')%Z).
  set (m' := match s with Z.pos _ => Z.shiftl d s | 0 => d | Z.neg _ => 0 end).
  assert (0 <= m') as Hm' by (subst m'; destruct s; [done|by apply Z.shiftl_nonneg|done]).
  pose proof (Z_div_mod m' q ltac:(lia)) as Hdm.
  destruct (Z.div_eucl m' q) as [a r]. intros [= <- _ _]. nia.
Qed.

Lemma parse_decimal_finite neg d e f : parse_decimal neg d e = Some f -> is_finite f = true.
Proof.
  unfold parse_decimal. destruct d as [|p|p]; [by intros [= <-]| |by intros [= <-]].
  destruct (310 <? e); [done|]. destruct (_ <? -400); [by intros [= <-]|].
  destruct (Z.leb_spec 0 e) as [He|He].
  - assert (binary_round 53 1024 neg (Z.to_pos (Z.pos p * 10 ^ e)) 0 <> S754_nan) as Hn.
    { unfold binary_round. destruct (shl_align _ _ _). by apply binary_round_aux_number. }
    destruct (binary_round _ _ _ _ _); intros [= <-]; done.
  - destruct (SFdiv_core_binary 53 1024 (Z.pos p) 0 (10 ^ (- e)) 0) as [[m ex] l] eqn:E.
    apply SFdiv_core_nonneg in E; [|lia|apply Z.pow_pos_nonneg; lia].
    pose proof (binary_round_aux_number neg m ex l E) as Hn.
    destruct (binary_round_aux _ _ _ _ _ _); intros [= <-]; done.
Qed.

Lemma int_of_float_in ov f : in_int (int_of_float ov f).
Proof.
  unfold int_of_float. destruct (float_trunc f) as [z|]; [|auto with golib].
  destruct (in_intb z) eqn:E; [|auto with golib].
  unfold in_intb in E. apply andb_prop in E as [?%Z.leb_le ?%Z.leb_le]. split; done.
Qed.

#[export] Hint Resolve int_of_float_in : golib.
