(* ===== verification/Json.v ===== *)
(** * JSON as [encoding/json] reads and writes it

    The program encodes its request payload with [json.Marshal] and decodes
    response bodies with [json.NewDecoder(body).Decode(&result)].  This file
    holds the value type, the printer with Go's escaping, the scanner with
    Go's unquoting and the decoding into the [string] and [float64] fields of
    a struct.  The theorems are the fuel bound of the scanner and the round
    trip of printing and scanning. *)
From S2P Require Export GoFloat.
From Stdlib Require Import Ascii.

(** A value; a number keeps its literal, as [Decode] converts it per field. *)
Inductive json : Type :=
| JNull
| JBool (b : bool)
| JNumber (lit : string)
| JString (s : string)
| JArray (l : list json)
| JObject (l : list (string * json)).

(** ** Printing *)

Definition dq : ascii := byte_of 34.

(** The letter of a two-byte escape. *)
Definition escape_letter (r : Z) : option ascii :=
  if r =? 34 then Some dq
  else if r =? 92 then Some "\"%char
  else if r =? 8 then Some "b"%char
  else if r =? 12 then Some "f"%char
  else if r =? 10 then Some "n"%char
  else if r =? 13 then Some "r"%char
  else if r =? 9 then Some "t"%char
  else None.

(** The runes written as [\u] escapes: control characters, the HTML
    characters and the two line separators. *)
Definition u_escaped (r : Z) : bool :=
  (r <? 32) || (r =? 60) || (r =? 62) || (r =? 38) || (r =? 8232) || (r =? 8233).

(** [appendString] with HTML escaping, for one decoded step. *)
Definition escape_chunk (c : chunk) : string :=
  match c with
  | BadByte _ => "\ufffd"
  | Rune r e =>
      match escape_letter r with
      | Some x => String "\"%char (String x EmptyString)
      | None => if u_escaped r then "\u" +:+ hex_fixed 4 r else e
      end
  end.

Definition quote_json (s : string) : string :=
  String dq (flatten (map escape_chunk (runes s)) +:+ String dq EmptyString).

Fixpoint join (sep : string) (l : list string) : string :=
  match l with
  | [] => ""
  | [x] => x
  | x :: l' => x +:+ sep +:+ join sep l'
  end.

Fixpoint print_json (j : json) : string :=
  match j with
  | JNull => "null"
  | JBool true => "true"
  | JBool false => "false"
  | JNumber lit => lit
  | JString s => quote_json s
  | JArray l => "[" +:+ join "," (map print_json l) +:+ "]"
  | JObject l =>
      "{" +:+ join "," (map (fun kv => quote_json (fst kv) +:+ ":" +:+ print_json (snd kv)) l)
          +:+ "}"
  end.

(** The keys of a Go map are written in increasing byte order. *)
Fixpoint insert_key (k : string) (v : json) (l : list (string * json)) : list (string * json) :=
  match l with
  | [] => [(k, v)]
  | (k', v') :: l' => if String.ltb k' k then (k', v') :: insert_key k v l' else (k, v) :: l
  end.

Definition sort_keys (l : list (string * json)) : list (string * json) :=
  foldr (fun kv acc => insert_key (fst kv) (snd kv) acc) [] l.

(** [json.Marshal] of a [map[string]interface{}] with strings and ints. *)
Definition marshal_map (l : list (string * json)) : string := print_json (JObject (sort_keys l)).

Definition json_int (z : Z) : json := JNumber (fmt_d z).

(** ** Scanning *)

Definition is_space (a : ascii) : bool :=
  let z := byte_val a in (z =? 32) || (z =? 9) || (z =? 10) || (z =? 13).

Fixpoint skip_ws (s : string) : string :=
  match s with
  | String a s' => if is_space a then skip_ws s' else s
  | EmptyString => s
  end.

Definition is_digit (a : ascii) : bool := in_range 48 57 (byte_val a).

Definition hex_val (a : ascii) : option Z :=
  let z := byte_val a in
  if in_range 48 57 z then Some (z - 48)
  else if in_range 97 102 z then Some (z - 87)
  else if in_range 65 70 z then Some (z - 55)
  else None.

Definition hex4 (a b c d : ascii) : option Z :=
  match hex_val a, hex_val b, hex_val c, hex_val d with
  | Some x, Some y, Some z, Some t => Some (x * 4096 + y * 256 + z * 16 + t)
  | _, _, _, _ => None
  end.

(** One step of a string literal: a byte, or a [\u] escape. *)
Inductive item : Type :=
| IByte (a : ascii)
| IEsc (u : Z).

Definition simple_escape (a : ascii) : option ascii :=
  let z := byte_val a in
  if (z =? 34) || (z =? 92) || (z =? 47) then Some a
  else if z =? 98 then Some (byte_of 8)
  else if z =? 102 then Some (byte_of 12)
  else if z =? 110 then Some (byte_of 10)
  else if z =? 114 then Some (byte_of 13)
  else if z =? 116 then Some (byte_of 9)
  else None.

(** The literal up to its closing quote, and the text after it. *)
Fixpoint scan_string (s : string) : option (list item * string) :=
  match s with
  | EmptyString => None
  | String a s1 =>
      let z := byte_val a in
      if z =? 34 then Some ([], s1)
      else if z =? 92 then
        match s1 with
        | EmptyString => None
        | String b s2 =>
            if byte_val b =? 117 then
              match s2 with
              | String c1 (String c2 (String c3 (String c4 s3))) =>
                  match hex4 c1 c2 c3 c4, scan_string s3 with
                  | Some u, Some (l, rest) => Some (IEsc u :: l, rest)
                  | _, _ => None
                  end
              | _ => None
              end
            else
              match simple_escape b, scan_string s2 with
              | Some e, Some (l, rest) => Some (IByte e :: l, rest)
              | _, _ => None
              end
        end
      else if z <? 32 then None
      else match scan_string s1 with
           | Some (l, rest) => Some (IByte a :: l, rest)
           | None => None
           end
  end.

Definition high_surrogate (u : Z) : bool := in_range 55296 56319 u.
Definition low_surrogate (u : Z) : bool := in_range 56320 57343 u.

(** The bytes of the escapes: a surrogate pair is one rune, a lone surrogate
    is U+FFFD. *)
Fixpoint unescape (l : list item) : string :=
  match l with
  | [] => EmptyString
  | IByte a :: l1 => String a (unescape l1)
  | IEsc u :: l1 =>
      if high_surrogate u then
        match l1 with
        | IEsc v :: l2 =>
            if low_surrogate v
            then encode_rune ((u - 55296) * 1024 + (v - 56320) + 65536) +:+ unescape l2
            else rune_error +:+ unescape l1
        | _ => rune_error +:+ unescape l1
        end
      else encode_rune u +:+ unescape l1
  end.

Definition parse_string (s : string) : option (string * string) :=
  match scan_string s with
  | Some (l, rest) => Some (sanitize (unescape l), rest)
  | None => None
  end.

Fixpoint take_digits (s : string) : string * string :=
  match s with
  | String a s' =>
      if is_digit a then let '(d, r) := take_digits s' in (String a d, r) else (EmptyString, s)
  | EmptyString => (EmptyString, EmptyString)
  end.

Definition starts (z : Z) (s : string) : option string :=
  match s with
  | String a s' => if byte_val a =? z then Some s' else None
  | EmptyString => None
  end.

(** The parts of a number literal. *)
Record number : Type := MkNumber {
  num_neg : bool;
  num_int : string;
  num_frac : string;
  num_exp_neg : bool;
  num_exp : string
}.

(** The integer part: a lone zero, or digits that start with another one. *)
Definition scan_int (s : string) : option (string * string) :=
  match s with
  | String a s' =>
      if byte_val a =? 48 then Some (String a EmptyString, s')
      else if is_digit a then Some (take_digits s) else None
  | EmptyString => None
  end.

(** One or more digits. *)
Definition scan_digits (s : string) : option (string * string) :=
  match take_digits s with
  | (EmptyString, _) => None
  | r => Some r
  end.

Definition scan_frac (s : string) : option (string * string) :=
  match starts 46 s with
  | Some s' => scan_digits s'
  | None => Some (EmptyString, s)
  end.

Definition scan_exp (s : string) : option (bool * string * string) :=
  match s with
  | String a s' =>
      if (byte_val a =? 101) || (byte_val a =? 69) then
        let '(neg, s2) := match starts 45 s' with
                          | Some r => (true, r)
                          | None => match starts 43 s' with
                                    | Some r => (false, r)
                                    | None => (false, s')
                                    end
                          end in
        match scan_digits s2 with
        | Some (d, r) => Some (neg, d, r)
        | None => None
        end
      else Some (false, EmptyString, s)
  | EmptyString => Some (false, EmptyString, s)
  end.

Definition scan_number (s : string) : option (number * string) :=
  let '(neg, s1) := match starts 45 s with Some r => (true, r) | None => (false, s) end in
  match scan_int s1 with
  | Some (i, s2) =>
      match scan_frac s2 with
      | Some (f, s3) =>
          match scan_exp s3 with
          | Some (en, e, s4) => Some (MkNumber neg i f en e, s4)
          | None => None
          end
      | None => None
      end
  | None => None
  end.

(** [s] without its suffix [rest]: the text a scan consumed. *)
Definition consumed (s rest : string) : string :=
  String.substring 0 (String.length s - String.length rest) s.

Fixpoint strip_prefix (p s : string) : option string :=
  match p, s with
  | EmptyString, _ => Some s
  | String a p', String b s' => if decide (a = b) then strip_prefix p' s' else None
  | _, _ => None
  end.

Definition parse_word (s : string) : option (json * string) :=
  match strip_prefix "null" s with
  | Some r => Some (JNull, r)
  | None =>
      match strip_prefix "true" s with
      | Some r => Some (JBool true, r)
      | None =>
          match strip_prefix "false" s with
          | Some r => Some (JBool false, r)
          | None => None
          end
      end
  end.

(** [maxNestingDepth]. *)
Definition max_depth : nat := Z.to_nat 10000.

(** One value at the start of [s] (white space skipped) and the text after
    it.  [fuel] bounds the recursion and [depth] counts the levels left. *)
Fixpoint parse_value (fuel depth : nat) (s : string) : option (json * string) :=
  match fuel with
  | O => None
  | S n =>
      match skip_ws s with
      | EmptyString => None
      | String a s1 =>
          let z := byte_val a in
          if z =? 34 then
            match parse_string s1 with
            | Some (t, r) => Some (JString t, r)
            | None => None
            end
          else if z =? 91 then
            match depth with
            | O => None
            | S d =>
                match starts 93 (skip_ws s1) with
                | Some r => Some (JArray [], r)
                | None =>
                    match parse_elems n d s1 with
                    | Some (l, r) => Some (JArray l, r)
                    | None => None
                    end
                end
            end
          else if z =? 123 then
            match depth with
            | O => None
            | S d =>
                match starts 125 (skip_ws s1) with
                | Some r => Some (JObject [], r)
                | None =>
                    match parse_members n d s1 with
                    | Some (l, r) => Some (JObject l, r)
                    | None => None
                    end
                end
            end
          else if (z =? 45) || is_digit a then
            match scan_number (String a s1) with
            | Some (_, r) => Some (JNumber (consumed (String a s1) r), r)
            | None => None
            end
          else parse_word (String a s1)
      end
  end
with parse_elems (fuel depth : nat) (s : string) : option (list json * string) :=
  match fuel with
  | O => None
  | S n =>
      match parse_value n depth s with
      | None => None
      | Some (v, r) =>
          match starts 44 (skip_ws r) with
          | Some r' =>
              match parse_elems n depth r' with
              | Some (l, r'') => Some (v :: l, r'')
              | None => None
              end
          | None =>
              match starts 93 (skip_ws r) with
              | Some r' => Some ([v], r')
              | None => None
              end
          end
      end
  end
with parse_members (fuel depth : nat) (s : string) : option (list (string * json) * string) :=
  match fuel with
  | O => None
  | S n =>
      match starts 34 (skip_ws s) with
      | None => None
      | Some s1 =>
          match parse_string s1 with
          | None => None
          | Some (k, r) =>
              match starts 58 (skip_ws r) with
              | None => None
              | Some r1 =>
                  match parse_value n depth r1 with
                  | None => None
                  | Some (v, r2) =>
                      match starts 44 (skip_ws r2) with
                      | Some r3 =>
                          match parse_members n depth r3 with
                          | Some (l, r4) => Some ((k, v) :: l, r4)
                          | None => None
                          end
                      | None =>
                          match starts 125 (skip_ws r2) with
                          | Some r3 => Some ([(k, v)], r3)
                          | None => None
                          end
                      end
                  end
              end
          end
      end
  end.

(** The first value of a body; [Decode] does not read past it. *)
Definition parse_json (s : string) : option json :=
  match parse_value (2 * String.length s + 2) max_depth s with
  | Some (v, _) => Some v
  | None => None
  end.

(** ** Decoding into a struct

    [Decode] matches a member to a field by name, up to case folding, takes
    the members in order (a later one overwrites), leaves a field alone for
    [null] and for members that match no field, and fails on a value of
    another type. *)

(** [foldName], as far as a comparison with an ASCII name can see it: the
    two runes above ASCII that fold to an ASCII letter are U+017F and
    U+212A. *)
Fixpoint fold_name (s : string) : string :=
  match s with
  | EmptyString => EmptyString
  | String a s1 =>
      let z := byte_val a in
      if in_range 97 122 z then String (byte_of (z - 32)) (fold_name s1)
      else match s1 with
      | EmptyString => String a EmptyString
      | String b s2 =>
          if (z =? 197) && (byte_val b =? 191) then String (byte_of 83) (fold_name s2)
          else match s2 with
          | EmptyString => String a (fold_name s1)
          | String c s3 =>
              if (z =? 226) && (byte_val b =? 132) && (byte_val c =? 170)
              then String (byte_of 75) (fold_name s3)
              else String a (fold_name s1)
          end
      end
  end.

Definition is_field (name key : string) : bool := bool_decide (fold_name key = fold_name name).

Definition digits_val (s : string) : Z :=
  (fix go (acc : Z) (s : string) : Z :=
     match s with
     | EmptyString => acc
     | String a s' => go (acc * 10 + (byte_val a - 48)) s'
     end) 0 s.

(** The value of a number literal as a [float64]. *)
Definition number_float (n : number) : option float64 :=
  let e := digits_val (num_exp n) in
  parse_decimal (num_neg n) (digits_val (num_int n +:+ num_frac n))
    ((if num_exp_neg n then - e else e) - Z.of_nat (String.length (num_frac n))).

(** An [int] field takes an integer literal in its range. *)
Definition lit_int (lit : string) : option Z :=
  match scan_number lit with
  | Some (MkNumber neg i EmptyString _ EmptyString, EmptyString) =>
      Some (if neg then - digits_val i else digits_val i)
  | _ => None
  end.

Definition decode_int (cur : Z) (v : json) : option Z :=
  match v with
  | JNull => Some cur
  | JNumber lit => z ← lit_int lit; if in_intb z then Some z else None
  | _ => None
  end.

Definition decode_string (cur : string) (v : json) : option string :=
  match v with
  | JNull => Some cur
  | JString s => Some s
  | _ => None
  end.

Definition decode_float (cur : float64) (v : json) : option float64 :=
  match v with
  | JNull => Some cur
  | JNumber lit =>
      match scan_number lit with
      | Some (n, _) => number_float n
      | None => None
      end
  | _ => None
  end.

(** A struct, given the decoding of one member. *)
Fixpoint decode_members {A} (step : A -> string -> json -> option A)
    (cur : A) (l : list (string * json)) : option A :=
  match l with
  | [] => Some cur
  | (k, v) :: l' =>
      match step cur k v with
      | Some cur' => decode_members step cur' l'
      | None => None
      end
  end.

Definition decode_struct {A} (step : A -> string -> json -> option A)
    (cur : A) (v : json) : option A :=
  match v with
  | JNull => Some cur
  | JObject l => decode_members step cur l
  | _ => None
  end.

(** A pointer to a struct: [null] is nil, an object fills the struct it
    points to, allocated if the pointer is nil. *)
Definition decode_ptr {A} (step : A -> string -> json -> option A) (zero : A)
    (cur : option A) (v : json) : option (option A) :=
  match v with
  | JNull => Some None
  | JObject l =>
      match decode_members step (default zero cur) l with
      | Some a => Some (Some a)
      | None => None
      end
  | _ => None
  end.

(** [json.NewDecoder(body).Decode(&v)], [v] zero before. *)
Definition decode_body {A} (step : A -> string -> json -> option A) (zero : A)
    (body : string) : option A :=
  match parse_json body with
  | Some v => decode_struct step zero v
  | None => None
  end.

(** ** Checks on concrete texts *)

Example parse_example :
  parse_json (" {" +:+ quote_json "a" +:+ " : [1, -2.5e3,true ], " +:+ quote_json "b" +:+ ":null} x")
  = Some (JObject [("a", JArray [JNumber "1"; JNumber "-2.5e3"; JBool true]); ("b", JNull)]).
Proof. vm_compute. reflexivity. Qed.

Example parse_truncated : parse_json ("{" +:+ quote_json "a" +:+ ":1") = None.
Proof. vm_compute. reflexivity. Qed.

Example marshal_sorted :
  marshal_map [("gpu_model", JString "H100"); ("batch_size", json_int 32)]
  = "{" +:+ quote_json "batch_size" +:+ ":32," +:+ quote_json "gpu_model" +:+ ":" +:+
    quote_json "H100" +:+ "}".
Proof. vm_compute. reflexivity. Qed.

Example quote_html : quote_json "a<b" = String dq ("a\u003cb" +:+ String dq "").
Proof. vm_compute. reflexivity. Qed.

Example unquote_pair :
  parse_string ("\ud83d\ude00\u0041" +:+ String dq "") =
  Some (bytes [240; 159; 152; 128; 65], "").
Proof. vm_compute. reflexivity. Qed.

Example decode_float_example : decode_float (S754_zero false) (JNumber "687.5")
  = Some (S754_finite false 6047313952768000 (-43)).
Proof. vm_compute. reflexivity. Qed.

(** ** Lemmas: the scanner consumes its input *)

Lemma skip_ws_length s : (String.length (skip_ws s) <= String.length s)%nat.
Proof. induction s as [|a s IH]; simpl; [done|]. case_match; simpl; lia. Qed.

Lemma skip_ws_idemp s : skip_ws (skip_ws s) = skip_ws s.
Proof.
  induction s as [|a s IH]; simpl; [done|]. destruct (is_space a) eqn:E; [done|].
  simpl. by rewrite E.
Qed.

Lemma starts_length z s r : starts z s = Some r -> (S (String.length r) = String.length s)%nat.
Proof. destruct s as [|a s]; simpl; [done|]. case_match; [|done]. by intros [= ->]. Qed.

Lemma scan_string_length s l r :
  scan_string s = Some (l, r) -> (String.length r < String.length s)%nat.
Proof.
  remember (String.length s) as n eqn:Hn. revert s Hn l r.
  induction n as [n IH] using lt_wf_ind. intros s -> l r H.
  destruct s as [|a s1]; [done|]. cbn [scan_string] in H.
  repeat case_match; simplify_eq; simpl; try lia;
    repeat match goal with
    | E : scan_string ?t = Some (_, ?r) |- _ =>
        pose proof (IH (String.length t) ltac:(simpl; lia) t eq_refl _ _ E); clear E
    end; simpl in *; lia.
Qed.

Lemma parse_string_length s t r :
  parse_string s = Some (t, r) -> (String.length r < String.length s)%nat.
Proof.
  unfold parse_string. destruct (scan_string s) as [[l r']|] eqn:E; [|done].
  intros [= _ <-]. by eapply scan_string_length.
Qed.

Lemma take_digits_length s :
  (String.length (fst (take_digits s)) + String.length (snd (take_digits s))
   = String.length s)%nat.
Proof.
  induction s as [|a s IH]; simpl; [done|]. case_match; [|done].
  destruct (take_digits s). simpl in *. lia.
Qed.

Lemma scan_digits_length s d r :
  scan_digits s = Some (d, r) -> (String.length r < String.length s)%nat.
Proof.
  unfold scan_digits. pose proof (take_digits_length s) as H.
  destruct (take_digits s) as [[|c d'] r']; [done|]. intros [= <- <-]. simpl in H. lia.
Qed.

Lemma scan_int_length s d r :
  scan_int s = Some (d, r) -> (String.length r < String.length s)%nat.
Proof.
  destruct s as [|a s]; simpl; [done|].
  destruct (byte_val a =? 48); [intros [= _ ->]; lia|].
  destruct (is_digit a); [|done]. pose proof (take_digits_length s) as Hl.
  destruct (take_digits s) as [d' r']. intros [= <- <-]. simpl in Hl. lia.
Qed.

Lemma scan_frac_length s d r :
  scan_frac s = Some (d, r) -> (String.length r <= String.length s)%nat.
Proof.
  unfold scan_frac. destruct (starts 46 s) as [s'|] eqn:E; [|by intros [= _ ->]].
  intros H%scan_digits_length. apply starts_length in E. lia.
Qed.

Lemma scan_exp_length s b d r :
  scan_exp s = Some (b, d, r) -> (String.length r <= String.length s)%nat.
Proof.
  destruct s as [|a s]; simpl; [by intros [= _ _ <-]|].
  destruct ((byte_val a =? 101) || (byte_val a =? 69)); [|by intros [= _ _ <-]].
  destruct (starts 45 s) as [r1|] eqn:E1;
    [apply starts_length in E1|destruct (starts 43 s) as [r2|] eqn:E2;
      [apply starts_length in E2|]];
    destruct (scan_digits _) as [[d' r']|] eqn:E; try done;
    intros [= _ _ ->]; apply scan_digits_length in E; lia.
Qed.

Lemma scan_number_length s n r :
  scan_number s = Some (n, r) -> (String.length r < String.length s)%nat.
Proof.
  unfold scan_number.
  destruct (starts 45 s) as [s1|] eqn:E1; [apply starts_length in E1|];
    (destruct (scan_int _) as [[i s2]|] eqn:E2; [|done]);
    (destruct (scan_frac s2) as [[f s3]|] eqn:E3; [|done]);
    (destruct (scan_exp s3) as [[[en e] s4]|] eqn:E4; [|done]);
    intros [= _ ->];
    apply scan_int_length in E2; apply scan_frac_length in E3; apply scan_exp_length in E4; lia.
Qed.

Lemma strip_prefix_length p s r :
  strip_prefix p s = Some r -> (String.length s = String.length p + String.length r)%nat.
Proof.
  revert s. induction p as [|a p IH]; intros s; simpl; [by intros [= ->]|].
  destruct s as [|b s]; [done|]. case_decide; [|done]. intros Hr%IH. simpl. lia.
Qed.

Lemma parse_word_length s v r :
  parse_word s = Some (v, r) -> (String.length r < String.length s)%nat.
Proof.
  unfold parse_word. intros H. repeat case_match; simplify_eq;
    repeat match goal with
    | E : strip_prefix _ _ = Some _ |- _ => apply strip_prefix_length in E; simpl in E
    end; lia.
Qed.

(** Every value the scanner returns took at least one byte. *)
Lemma parse_length n :
  (forall d s v r, parse_value n d s = Some (v, r) ->
     (String.length r < String.length s)%nat) /\
  (forall d s l r, parse_elems n d s = Some (l, r) ->
     (String.length r < String.length s)%nat) /\
  (forall d s l r, parse_members n d s = Some (l, r) ->
     (String.length r < String.length s)%nat).
Proof.
  induction n as [|n (IHv & IHe & IHm)]; [by split_and!|]. split_and!.
  - intros d s v r. cbn [parse_value]. pose proof (skip_ws_length s) as Hs.
    destruct (skip_ws s) as [|a s1]; [done|]. simpl in Hs. intros H.
    pose proof (skip_ws_length s1).
    repeat case_match; simplify_eq;
      repeat match goal with
      | E : parse_string _ = Some _ |- _ => apply parse_string_length in E
      | E : starts _ _ = Some _ |- _ => apply starts_length in E
      | E : parse_elems _ _ _ = Some _ |- _ => apply IHe in E
      | E : parse_members _ _ _ = Some _ |- _ => apply IHm in E
      | E : scan_number _ = Some _ |- _ => apply scan_number_length in E
      | E : parse_word _ = Some _ |- _ => apply parse_word_length in E
      end; simpl in *; lia.
  - intros d s l r. cbn [parse_elems]. destruct (parse_value n d s) as [[v r1]|] eqn:E; [|done].
    apply IHv in E. pose proof (skip_ws_length r1). intros H0.
    repeat case_match; simplify_eq;
      repeat match goal with
      | E : starts _ _ = Some _ |- _ => apply starts_length in E
      | E : parse_elems _ _ _ = Some _ |- _ => apply IHe in E
      end; lia.
  - intros d s l r. cbn [parse_members]. pose proof (skip_ws_length s). intros H0.
    repeat case_match; simplify_eq;
      repeat match goal with
      | E : parse_string _ = Some _ |- _ => apply parse_string_length in E
      | E : starts _ (skip_ws ?t) = Some _ |- _ =>
          apply starts_length in E; pose proof (skip_ws_length t)
      | E : parse_value _ _ _ = Some _ |- _ => apply IHv in E
      | E : parse_members _ _ _ = Some _ |- _ => apply IHm in E
      end; lia.
Qed.

(** Twice the length of the text (and two) is fuel enough: more fuel changes
    nothing. *)
Lemma parse_fuel len :
  (forall n m d s, (String.length s <= len)%nat -> (2 * len + 1 <= n)%nat ->
     (2 * len + 1 <= m)%nat -> parse_value n d s = parse_value m d s) /\
  (forall n m d s, (String.length s <= len)%nat -> (2 * len + 2 <= n)%nat ->
     (2 * len + 2 <= m)%nat -> parse_elems n d s = parse_elems m d s) /\
  (forall n m d s, (String.length s <= len)%nat -> (2 * len + 2 <= n)%nat ->
     (2 * len + 2 <= m)%nat -> parse_members n d s = parse_members m d s).
Proof.
  induction len as [len IH] using lt_wf_ind.
  assert (forall n m d s, (String.length s <= len)%nat -> (2 * len + 1 <= n)%nat ->
     (2 * len + 1 <= m)%nat -> parse_value n d s = parse_value m d s) as Hv.
  { intros n m d s Hl Hn Hm. destruct n as [|n], m as [|m]; try lia.
    cbn [parse_value]. pose proof (skip_ws_length s) as Hs.
    destruct (skip_ws s) as [|a s1]; [done|]. simpl in Hs.
    destruct (IH (String.length s1) ltac:(lia)) as (_ & He & Hm').
    destruct d as [|d]; [done|].
    by rewrite (He n m d s1), (Hm' n m d s1) by lia. }
  split_and!; [done|..]; intros n m d s Hl Hn Hm; destruct n as [|n], m as [|m]; try lia.
  - cbn [parse_elems]. rewrite (Hv n m) by lia.
    destruct (parse_value m d s) as [[v r]|] eqn:E; [|done].
    apply parse_length in E. pose proof (skip_ws_length r).
    destruct (starts 44 (skip_ws r)) as [r'|] eqn:E'; [|done]. apply starts_length in E'.
    destruct (IH (String.length r') ltac:(lia)) as (_ & He & _).
    by rewrite (He n m) by lia.
  - cbn [parse_members]. pose proof (skip_ws_length s).
    destruct (starts 34 (skip_ws s)) as [s1|] eqn:E1; [|done]. apply starts_length in E1.
    destruct (parse_string s1) as [[k r]|] eqn:E2; [|done]. apply parse_string_length in E2.
    pose proof (skip_ws_length r).
    destruct (starts 58 (skip_ws r)) as [r1|] eqn:E3; [|done]. apply starts_length in E3.
    rewrite (Hv n m) by lia.
    destruct (parse_value m d r1) as [[v r2]|] eqn:E4; [|done].
    apply parse_length in E4. pose proof (skip_ws_length r2).
    destruct (starts 44 (skip_ws r2)) as [r3|] eqn:E5; [|done]. apply starts_length in E5.
    destruct (IH (String.length r3) ltac:(lia)) as (_ & _ & Hm').
    by rewrite (Hm' n m) by lia.
Qed.

(** ** Lemmas: a printed string scans back *)

Lemma hex_val_digit z : 0 <= z < 16 -> hex_val (hex_digit z) = Some z.
Proof.
  intros H. assert (z ∈ seqZ 0 16) as Hz by (apply elem_of_seqZ; lia).
  clear H. revert z Hz. apply Forall_forall. repeat (constructor; [by vm_compute|]). constructor.
Qed.

Lemma hex_fixed_4 r t :
  0 <= r < 65536 ->
  exists a b c d, hex_fixed 4 r +:+ t = String a (String b (String c (String d t)))
    /\ hex4 a b c d = Some r.
Proof.
  intros H.
  exists (hex_digit (r / 16 / 16 / 16 mod 16)), (hex_digit (r / 16 / 16 mod 16)),
         (hex_digit (r / 16 mod 16)), (hex_digit (r mod 16)).
  split; [reflexivity|].
  unfold hex4. rewrite !hex_val_digit by (apply Z.mod_pos_bound; lia).
  f_equal. Z.to_euclidean_division_equations; lia.
Qed.

(** The scanner's steps for one printed chunk. *)
Definition chunk_items (c : chunk) : list item :=
  match c with
  | BadByte _ => [IEsc 65533]
  | Rune r e =>
      match escape_letter r with
      | Some _ => [IByte (byte_of r)]
      | None =>
          if u_escaped r then [IEsc r] else map IByte (String.list_ascii_of_string e)
      end
  end.

Definition push (l : list item) (o : option (list item * string)) : option (list item * string) :=
  match o with Some (l', r) => Some (l ++ l', r) | None => None end.

Lemma scan_byte a t :
  32 <= byte_val a -> byte_val a <> 34 -> byte_val a <> 92 ->
  scan_string (String a t) = push [IByte a] (scan_string t).
Proof.
  intros H1 H2 H3. cbn [scan_string].
  rewrite (proj2 (Z.eqb_neq _ _) H2), (proj2 (Z.eqb_neq _ _) H3).
  rewrite (proj2 (Z.ltb_ge _ _) H1). by destruct (scan_string t) as [[]|].
Qed.

Lemma scan_high_bytes e t :
  all_bytes (fun b => 128 <= b) e ->
  scan_string (e +:+ t) = push (map IByte (String.list_ascii_of_string e)) (scan_string t).
Proof.
  induction e as [|a e IH]; intros H.
  { rewrite append_nil_l. by destruct (scan_string t) as [[]|]. }
  destruct H as [Ha He]. rewrite append_cons, scan_byte by lia.
  rewrite IH by done. by destruct (scan_string t) as [[]|].
Qed.

Lemma scan_u_escape r t :
  0 <= r < 65536 ->
  scan_string ("\u" +:+ hex_fixed 4 r +:+ t) = push [IEsc r] (scan_string t).
Proof.
  intros H. destruct (hex_fixed_4 r t H) as (a & b & c & d & E & Hh).
  rewrite E. change ("\u" +:+ ?x) with (String "\"%char (String "u"%char x)).
  cbn -[hex4]. rewrite Hh. by destruct (scan_string t) as [[]|].
Qed.

Lemma escape_letter_some r x :
  escape_letter r = Some x ->
  simple_escape x = Some (byte_of r) /\ byte_val x <> 117 /\ 0 <= r < 128.
Proof.
  unfold escape_letter.
  repeat match goal with
  | |- context [r =? ?k] => destruct (Z.eqb_spec r k) as [->|?]
  end; intros [= <-]; split_and!; try by vm_compute.
Qed.

Lemma escape_letter_none r : escape_letter r = None -> r <> 34 /\ r <> 92.
Proof. unfold escape_letter. split; intros ->; done. Qed.

Lemma u_escaped_range r : 0 <= r -> u_escaped r = true ->
  (0 <= r < 128 \/ r = 8232 \/ r = 8233) /\ high_surrogate r = false.
Proof.
  unfold u_escaped, high_surrogate. intros Hr H.
  assert (0 <= r < 128 \/ r = 8232 \/ r = 8233) as Hc.
  { repeat (apply orb_prop in H as [H|H]); split_ranges; lia. }
  split; [done|]. apply in_range_false. lia.
Qed.

Lemma scan_escape_chunk c t :
  chunk_wf c -> scan_string (escape_chunk c +:+ t) = push (chunk_items c) (scan_string t).
Proof.
  destruct c as [r e|b]; intros Hwf.
  2: { change (escape_chunk (BadByte b)) with ("\u" +:+ hex_fixed 4 65533).
       rewrite append_assoc. by apply scan_u_escape. }
  unfold escape_chunk, chunk_items. destruct (escape_letter r) as [x|] eqn:El.
  { apply escape_letter_some in El as (Hs & Hu & _).
    rewrite !append_cons, append_nil_l. cbn [scan_string].
    change (byte_val "\"%char =? 34) with false. change (byte_val "\"%char =? 92) with true.
    cbn iota. rewrite (proj2 (Z.eqb_neq _ _) Hu), Hs. by destruct (scan_string t) as [[]|]. }
  apply escape_letter_none in El.
  destruct Hwf as (_ & _ & Hk).
  destruct (u_escaped r) eqn:Eu.
  { rewrite append_assoc. apply scan_u_escape. apply u_escaped_range in Eu; lia. }
  destruct Hk as [(Hr & a & -> & Ea)|(Hr & Hns & Hhi)]; [|by apply scan_high_bytes].
  rewrite append_cons, append_nil_l. unfold u_escaped in Eu.
  apply scan_byte; rewrite ?Ea; [|lia..].
  destruct (Z.ltb_spec r 32); [done|lia].
Qed.

Definition chunk_text (c : chunk) : string :=
  match c with Rune _ e => e | BadByte _ => rune_error end.

Lemma unescape_bytes e l :
  unescape (map IByte (String.list_ascii_of_string e) ++ l) = e +:+ unescape l.
Proof. induction e as [|a e IH]; [done|]. simpl. by rewrite IH, append_cons. Qed.

Lemma unescape_chunk c l :
  chunk_wf c -> unescape (chunk_items c ++ l) = chunk_text c +:+ unescape l.
Proof.
  destruct c as [r e|b]; intros Hwf; [|done]. destruct Hwf as (_ & Henc & Hk).
  unfold chunk_items, chunk_text. destruct (escape_letter r) as [x|] eqn:El.
  { apply escape_letter_some in El as (_ & _ & Hr).
    destruct Hk as [(_ & a & -> & <-)|]; [|lia]. simpl. by rewrite byte_of_val. }
  destruct (u_escaped r) eqn:Eu; [|by apply unescape_bytes].
  apply u_escaped_range in Eu as (_ & Hh); [|lia]. simpl. by rewrite Hh, Henc.
Qed.

Lemma scan_quoted l t :
  Forall chunk_wf l ->
  scan_string (flatten (map escape_chunk l) +:+ String dq t)
  = Some (concat (map chunk_items l), t).
Proof.
  induction 1 as [|c l Hc Hl IH]; [done|]. simpl.
  rewrite append_assoc, scan_escape_chunk by done. by rewrite IH.
Qed.

Lemma unescape_quoted l :
  Forall chunk_wf l -> unescape (concat (map chunk_items l)) = flatten (map chunk_text l).
Proof.
  induction 1 as [|c l Hc Hl IH]; [done|]. simpl. by rewrite unescape_chunk, IH.
Qed.

(** Scanning a printed string gives it back, undecodable bytes replaced. *)
Lemma parse_quoted s t :
  parse_string (flatten (map escape_chunk (runes s)) +:+ String dq t) = Some (sanitize s, t).
Proof.
  unfold parse_string. rewrite scan_quoted by apply runes_wf.
  rewrite unescape_quoted by apply runes_wf.
  change (flatten (map chunk_text (runes s))) with (sanitize s). by rewrite sanitize_idemp.
Qed.

(** ** Lemmas: a printed value scans back *)

Section json_induction.
Variable P : json -> Prop.
Hypothesis Hnull : P JNull.
Hypothesis Hbool : forall b, P (JBool b).
Hypothesis Hnum : forall lit, P (JNumber lit).
Hypothesis Hstr : forall s, P (JString s).
Hypothesis Harr : forall l, Forall P l -> P (JArray l).
Hypothesis Hobj : forall l, Forall (fun kv => P (snd kv)) l -> P (JObject l).

Fixpoint json_nested_ind (j : json) : P j :=
  match j with
  | JNull => Hnull
  | JBool b => Hbool b
  | JNumber lit => Hnum lit
  | JString s => Hstr s
  | JArray l =>
      Harr l ((fix go l : Forall P l :=
        match l with
        | [] => Forall_nil_2 _
        | x :: l' => Forall_cons_2 _ _ _ (json_nested_ind x) (go l')
        end) l)
  | JObject l =>
      Hobj l ((fix go l : Forall (fun kv => P (snd kv)) l :=
        match l with
        | [] => Forall_nil_2 _
        | x :: l' => Forall_cons_2 _ _ _ (json_nested_ind (snd x)) (go l')
        end) l)
  end.
End json_induction.

(** A text after which a number literal has ended. *)
Definition num_stop (rest : string) : bool :=
  match rest with
  | EmptyString => true
  | String a _ =>
      negb (is_digit a || (byte_val a =? 46) || (byte_val a =? 101) || (byte_val a =? 69))
  end.

(** A number literal: it starts as the scanner expects a number to, and the
    scanner takes all of it. *)
Definition number_lit (lit : string) : Prop :=
  (exists a s, lit = String a s /\ (byte_val a =? 45) || is_digit a = true) /\
  forall rest, num_stop rest = true -> exists n, scan_number (lit +:+ rest) = Some (n, rest).

Fixpoint json_ok (j : json) : Prop :=
  match j with
  | JNumber lit => number_lit lit
  | JArray l => foldr (fun x acc => json_ok x /\ acc) True l
  | JObject l => foldr (fun kv acc => json_ok (snd kv) /\ acc) True l
  | _ => True
  end.

Fixpoint json_depth (j : json) : nat :=
  match j with
  | JArray l => S (foldr (fun x acc => Nat.max (json_depth x) acc) O l)
  | JObject l => S (foldr (fun kv acc => Nat.max (json_depth (snd kv)) acc) O l)
  | _ => O
  end.

(** The value read back: every string sanitized. *)
Fixpoint json_sanitize (j : json) : json :=
  match j with
  | JString s => JString (sanitize s)
  | JArray l => JArray (map json_sanitize l)
  | JObject l => JObject (map (fun kv => (sanitize (fst kv), json_sanitize (snd kv))) l)
  | _ => j
  end.

Lemma consumed_app lit rest : consumed (lit +:+ rest) rest = lit.
Proof.
  unfold consumed. rewrite length_append.
  replace (String.length lit + String.length rest - String.length rest)%nat
    with (String.length lit) by lia.
  induction lit as [|a lit IH].
  - by destruct rest.
  - rewrite append_cons. simpl. by rewrite IH.
Qed.

Lemma digit_range a : is_digit a = true -> 48 <= byte_val a <= 57.
Proof. unfold is_digit. intros. split_ranges. lia. Qed.

(** The first byte of a printed value starts that value's branch. *)
Lemma print_head j :
  json_ok j -> exists a s, print_json j = String a s /\ is_space a = false /\
                           byte_val a <> 93 /\ byte_val a <> 125.
Proof.
  assert (forall a s t, String a s = t ->
            is_space a = false -> byte_val a <> 93 -> byte_val a <> 125 ->
            exists a s, t = String a s /\ is_space a = false /\ byte_val a <> 93
                        /\ byte_val a <> 125) as Hgo by eauto 10.
  destruct j as [|[]|lit|s|l|l]; intros Hok;
    try (eapply Hgo; [simpl; reflexivity|by vm_compute..]).
  destruct Hok as ((a & s & -> & Ha) & _). eapply Hgo; [done|..];
    (apply orb_prop in Ha as [Ha|Ha]; [|apply digit_range in Ha]; split_ranges;
     unfold is_space; rewrite ?orb_false_iff, ?Z.eqb_neq; lia).
Qed.

Lemma skip_ws_nospace a s : is_space a = false -> skip_ws (String a s) = String a s.
Proof. intros H. simpl. by rewrite H. Qed.

Lemma starts_ne z a s : byte_val a <> z -> starts z (String a s) = None.
Proof. intros H. simpl. by rewrite (proj2 (Z.eqb_neq _ _) H). Qed.

(** Enough fuel, as an eventual property. *)
Definition eventually (P : nat -> Prop) : Prop := exists n0, forall n, (n0 <= n)%nat -> P n.

Lemma eventually_S (P : nat -> Prop) : eventually (fun n => P (S n)) -> eventually P.
Proof.
  intros [n0 H]. exists (S n0). intros [|n] Hn; [lia|]. apply H. lia.
Qed.

Lemma eventually_and (P Q : nat -> Prop) :
  eventually P -> eventually Q -> eventually (fun n => P n /\ Q n).
Proof.
  intros [n0 HP] [m0 HQ]. exists (Nat.max n0 m0). intros n Hn.
  split; [apply HP|apply HQ]; lia.
Qed.

Lemma eventually_mono (P Q : nat -> Prop) :
  (forall n, P n -> Q n) -> eventually P -> eventually Q.
Proof. intros H [n0 HP]. exists n0. auto. Qed.

Lemma eventually_always (P : nat -> Prop) : (forall n, P n) -> eventually P.
Proof. intros H. exists O. auto. Qed.

Definition prints_back (j : json) : Prop :=
  forall d rest, json_ok j -> (json_depth j <= d)%nat -> num_stop rest = true ->
    eventually (fun n => parse_value n d (print_json j +:+ rest)
                         = Some (json_sanitize j, rest)).

Lemma parse_elems_print l d rest :
  l <> [] -> Forall prints_back l -> json_ok (JArray l) ->
  (json_depth (JArray l) <= S d)%nat ->
  eventually (fun n => parse_elems n d (join "," (map print_json l) +:+ "]" +:+ rest)
                       = Some (map json_sanitize l, rest)).
Proof.
  intros Hne Hl. revert Hne. induction Hl as [|j l Hj Hl IH]; intros Hne Hok Hd; [done|].
  destruct Hok as [Hokj Hok]. simpl in Hd. apply eventually_S. cbn [parse_elems].
  destruct l as [|j' l'].
  - cbn [map join]. eapply eventually_mono; [|apply (Hj d ("]" +:+ rest)); [done|lia|done]].
    intros n ->. done.
  - change (join "," (map print_json (j :: j' :: l')))
      with (print_json j +:+ "," +:+ join "," (map print_json (j' :: l'))).
    rewrite !append_assoc.
    eapply eventually_mono;
      [|apply eventually_and;
        [apply (Hj d ("," +:+ join "," (map print_json (j' :: l')) +:+ "]" +:+ rest));
         [done|lia|done]
        |apply IH; [done|exact Hok|simpl; simpl in Hd; lia]]].
    intros n [E1 E2]. rewrite E1.
    change (starts 44 (skip_ws ("," +:+ ?x))) with (Some x). cbn iota. by rewrite E2.
Qed.

Lemma parse_member_key n d k t :
  parse_members (S n) d (quote_json k +:+ ":" +:+ t) =
  match parse_value n d t with
  | None => None
  | Some (v, r2) =>
      match starts 44 (skip_ws r2) with
      | Some r3 =>
          match parse_members n d r3 with
          | Some (l, r4) => Some ((sanitize k, v) :: l, r4)
          | None => None
          end
      | None =>
          match starts 125 (skip_ws r2) with
          | Some r3 => Some ([(sanitize k, v)], r3)
          | None => None
          end
      end
  end.
Proof.
  cbn [parse_members]. unfold quote_json. rewrite append_cons.
  change (starts 34 (skip_ws (String dq ?x))) with (Some x). cbn iota.
  rewrite append_assoc, append_cons, append_nil_l, parse_quoted. reflexivity.
Qed.

Definition print_member (kv : string * json) : string :=
  quote_json (fst kv) +:+ ":" +:+ print_json (snd kv).

Definition sanitize_member (kv : string * json) : string * json :=
  (sanitize (fst kv), json_sanitize (snd kv)).

Lemma parse_members_print l d rest :
  l <> [] -> Forall (fun kv => prints_back (snd kv)) l -> json_ok (JObject l) ->
  (json_depth (JObject l) <= S d)%nat ->
  eventually (fun n => parse_members n d (join "," (map print_member l) +:+ "}" +:+ rest)
                       = Some (map sanitize_member l, rest)).
Proof.
  intros Hne Hl. revert Hne. induction Hl as [|[k j] l Hj Hl IH]; intros Hne Hok Hd; [done|].
  destruct Hok as [Hokj Hok]. simpl in Hd, Hj, Hokj. apply eventually_S.
  destruct l as [|kv' l'].
  - cbn [map join]. eapply eventually_mono; [|apply (Hj d ("}" +:+ rest)); [done|lia|done]].
    intros n E. unfold print_member. cbn [fst snd].
    by rewrite !append_assoc, parse_member_key, E.
  - change (join "," (map print_member ((k, j) :: kv' :: l')))
      with ((quote_json k +:+ ":" +:+ print_json j) +:+ "," +:+
            join "," (map print_member (kv' :: l'))).
    rewrite !append_assoc.
    eapply eventually_mono;
      [|apply eventually_and;
        [apply (Hj d ("," +:+ join "," (map print_member (kv' :: l')) +:+ "}" +:+ rest));
         [done|lia|done]
        |apply IH; [done|exact Hok|simpl; simpl in Hd; lia]]].
    intros n [E1 E2]. rewrite parse_member_key, E1.
    change (starts 44 (skip_ws ("," +:+ ?x))) with (Some x). cbn iota. by rewrite E2.
Qed.

Lemma join_head (x : string) l (t : string) a s :
  x = String a s -> exists s', join "," (x :: l) +:+ t = String a s'.
Proof. intros ->. destruct l; simpl; rewrite !append_cons; eauto. Qed.

Lemma parse_value_number n d a s rest m :
  (byte_val a =? 45) || is_digit a = true ->
  scan_number (String a s +:+ rest) = Some (m, rest) ->
  parse_value (S n) d (String a s +:+ rest) = Some (JNumber (String a s), rest).
Proof.
  intros Ha E. rewrite append_cons in *. cbn [parse_value].
  assert (is_space a = false /\ byte_val a <> 34 /\ byte_val a <> 91 /\ byte_val a <> 123)
    as (Hs & H1 & H2 & H3).
  { apply orb_prop in Ha as [Hd|Hd]; [|apply digit_range in Hd]; split_ranges;
      unfold is_space; rewrite ?orb_false_iff, ?Z.eqb_neq; lia. }
  rewrite skip_ws_nospace, !(proj2 (Z.eqb_neq _ _)), Ha by done. rewrite E.
  rewrite <- append_cons, consumed_app. done.
Qed.

Lemma parse_value_array n d l s rest :
  (exists a t, s = String a t /\ is_space a = false /\ byte_val a <> 93) ->
  parse_elems n d s = Some (l, rest) ->
  parse_value (S n) (S d) ("[" +:+ s) = Some (JArray l, rest).
Proof.
  intros (a & t & -> & Hs & Ha) E. change ("[" +:+ ?x) with (String "["%char x).
  cbn [parse_value]. rewrite skip_ws_nospace by done. cbv beta iota zeta.
  change (byte_val "["%char =? 34) with false. change (byte_val "["%char =? 91) with true.
  cbn iota. rewrite skip_ws_nospace, starts_ne, E by done. done.
Qed.

Lemma parse_value_object n d l s rest :
  (exists a t, s = String a t /\ is_space a = false /\ byte_val a <> 125) ->
  parse_members n d s = Some (l, rest) ->
  parse_value (S n) (S d) ("{" +:+ s) = Some (JObject l, rest).
Proof.
  intros (a & t & -> & Hs & Ha) E. change ("{" +:+ ?x) with (String "{"%char x).
  cbn [parse_value]. rewrite skip_ws_nospace by done. cbv beta iota zeta.
  change (byte_val "{"%char =? 34) with false. change (byte_val "{"%char =? 91) with false.
  change (byte_val "{"%char =? 123) with true.
  cbn iota. rewrite skip_ws_nospace, starts_ne, E by done. done.
Qed.

Lemma print_prints_back j : prints_back j.
Proof.
  induction j as [|b|lit|s|l IH|l IH] using json_nested_ind; intros d rest Hok Hd Hrest;
    apply eventually_S.
  - by apply eventually_always.
  - apply eventually_always. by destruct b.
  - apply eventually_always. intros n. destruct Hok as ((a & s & -> & Ha) & Hscan).
    destruct (Hscan rest Hrest) as [m E]. by eapply parse_value_number.
  - apply eventually_always. intros n. cbn [print_json]. unfold quote_json.
    rewrite append_cons, append_assoc, append_cons, append_nil_l. cbn [parse_value].
    rewrite skip_ws_nospace by done. change (byte_val dq =? 34) with true. cbn iota.
    by rewrite parse_quoted.
  - simpl in Hd. destruct d as [|d]; [lia|]. destruct l as [|j l].
    { by apply eventually_always. }
    eapply eventually_mono; [|apply (parse_elems_print (j :: l) d rest); auto].
    intros n E. cbn [print_json]. rewrite !append_assoc. apply parse_value_array; [|exact E].
    destruct (print_head j) as (a & t & Et & Hs & H93 & _); [by destruct Hok|].
    destruct (join_head (print_json j) (map print_json l) ("]" +:+ rest) a t Et) as [t' Et'].
    exists a, t'. split; [exact Et'|done].
  - simpl in Hd. destruct d as [|d]; [lia|]. destruct l as [|[k j] l].
    { by apply eventually_always. }
    eapply eventually_mono; [|apply (parse_members_print ((k, j) :: l) d rest); auto].
    intros n E. cbn [print_json]. rewrite !append_assoc.
    apply parse_value_object; [|exact E].
    destruct (join_head (print_member (k, j)) (map print_member l) ("}" +:+ rest) dq
                (flatten (map escape_chunk (runes k)) +:+ String dq
                   (":" +:+ print_json j))) as [t' Et'].
    { unfold print_member, quote_json. cbn [fst snd].
      by rewrite append_cons, append_assoc, append_cons, append_nil_l. }
    exists dq, t'. split; [exact Et'|done].
Qed.

(** The round trip of [json.Marshal] and [Decode], at the text the decoder
    reads. *)
Lemma parse_json_print j rest :
  json_ok j -> (json_depth j <= max_depth)%nat -> num_stop rest = true ->
  parse_json (print_json j +:+ rest) = Some (json_sanitize j).
Proof.
  intros Hok Hd Hrest. unfold parse_json.
  destruct (print_prints_back j max_depth rest Hok Hd Hrest) as [n0 Hn].
  set (s := print_json j +:+ rest) in *.
  rewrite (proj1 (parse_fuel (String.length s)) _
             (Nat.max n0 (2 * String.length s + 2)) max_depth s) by lia.
  by rewrite Hn by lia.
Qed.

(** ** Lemmas: decimal integers are number literals *)

Fixpoint all_digits (s : string) : bool :=
  match s with
  | EmptyString => true
  | String a s' => is_digit a && all_digits s'
  end.

(** A nonempty digit string without a leading zero, unless it is the zero. *)
Definition dec_nat (s : string) : Prop :=
  exists a t, s = String a t /\ is_digit a = true /\ all_digits t = true /\
              (byte_val a = 48 -> t = EmptyString).

(** A boolean fact on digit values, checked on all ten. *)
Lemma digit_check (P : N -> bool) n :
  forallb (fun k => P (N.of_nat k)) (seq 0 10) = true -> (n < 10)%N -> P n = true.
Proof.
  intros HP Hn. rewrite forallb_forall in HP. rewrite <- (N2Nat.id n). apply HP, in_seq. lia.
Qed.

Lemma pretty_N_char_digit n : (n < 10)%N -> is_digit (pretty_N_char n) = true.
Proof. exact (digit_check (fun n => is_digit (pretty_N_char n)) n eq_refl). Qed.

Lemma pretty_N_char_value n : (n < 10)%N -> byte_val (pretty_N_char n) - 48 = Z.of_N n.
Proof.
  intros H. apply Z.eqb_eq.
  exact (digit_check (fun n => byte_val (pretty_N_char n) - 48 =? Z.of_N n) n eq_refl H).
Qed.

Lemma pretty_N_char_nonzero n :
  (0 < n < 10)%N -> byte_val (pretty_N_char n) <> 48.
Proof. intros [H0 H]. pose proof (pretty_N_char_value n H). lia. Qed.

Lemma pretty_N_go_dec n s :
  (0 < n)%N -> all_digits s = true ->
  exists a t, pretty_N_go n s = String a t /\ is_digit a = true /\ all_digits t = true /\
              byte_val a <> 48.
Proof.
  revert s. induction (N.lt_wf_0 n) as [n _ IH]. intros s Hn Hs.
  rewrite pretty_N_go_step by done.
  assert (n mod 10 < 10)%N as Hm by (apply N.mod_lt; lia).
  destruct (decide (n / 10 = 0)%N) as [E|E].
  - rewrite E, pretty_N_go_0. exists (pretty_N_char (n mod 10)), s.
    split_and!; [done|by apply pretty_N_char_digit|done|].
    apply pretty_N_char_nonzero. pose proof (N.div_mod n 10). lia.
  - apply IH; [apply N.div_lt; lia|by apply N.neq_0_lt_0|]. simpl. by rewrite pretty_N_char_digit.
Qed.

Lemma pretty_pos_dec p : dec_nat (pretty (Npos p)).
Proof.
  unfold pretty, pretty_N. case_decide; [done|].
  destruct (pretty_N_go_dec (Npos p) "") as (a & t & E & Ha & Ht & H0); [done..|].
  exists a, t. split_and!; try done.
Qed.

Lemma take_digits_app s rest :
  all_digits s = true -> num_stop rest = true -> take_digits (s +:+ rest) = (s, rest).
Proof.
  induction s as [|a s IH]; intros Hs Hrest.
  - rewrite append_nil_l. destruct rest as [|b rest]; [done|]. simpl in *.
    destruct (is_digit b); [done|]. done.
  - simpl in Hs. apply andb_prop in Hs as [Ha Hs]. rewrite append_cons. simpl.
    by rewrite Ha, IH.
Qed.

Lemma scan_int_dec s rest :
  dec_nat s -> num_stop rest = true -> scan_int (s +:+ rest) = Some (s, rest).
Proof.
  intros (a & t & -> & Ha & Ht & Hz) Hrest. rewrite append_cons. cbn [scan_int].
  destruct (Z.eqb_spec (byte_val a) 48) as [E|E].
  - by rewrite (Hz E), append_nil_l.
  - rewrite Ha, <- append_cons, take_digits_app; [done|simpl; by rewrite Ha|done].
Qed.

Lemma scan_number_tail i neg s rest :
  num_stop rest = true -> scan_int s = Some (i, rest) ->
  match scan_int s with
  | Some (i, s2) =>
      match scan_frac s2 with
      | Some (f, s3) =>
          match scan_exp s3 with
          | Some (en, e, s4) => Some (MkNumber neg i f en e, s4)
          | None => None
          end
      | None => None
      end
  | None => None
  end = Some (MkNumber neg i "" false "", rest).
Proof.
  intros Hrest ->. unfold scan_frac.
  destruct rest as [|b rest]; [done|]. simpl in Hrest.
  apply negb_true_iff, orb_false_iff in Hrest as [Hrest H3].
  apply orb_false_iff in Hrest as [Hrest H2]. apply orb_false_iff in Hrest as [_ H1].
  cbn [starts]. rewrite H1. cbn [scan_exp]. by rewrite H2, H3.
Qed.

Lemma number_lit_fmt_d z : number_lit (fmt_d z).
Proof.
  assert (dec_nat "0") as H0 by (exists "0"%char, ""; split_and!; done).
  assert (forall s, dec_nat s -> number_lit s) as Hpos.
  { intros s Hs. destruct Hs as (a & t & -> & Ha & Hr) eqn:Eq. clear Eq. split.
    - exists a, t. by rewrite Ha, orb_true_r.
    - intros rest Hrest. eexists. unfold scan_number.
      rewrite append_cons, starts_ne by (apply digit_range in Ha; lia).
      rewrite <- append_cons. apply scan_number_tail; [done|].
      apply scan_int_dec; [|done]. exists a, t. by destruct Hr. }
  destruct z as [|p|p]; [by apply Hpos|apply Hpos, pretty_pos_dec|].
  split.
  - by eexists _, _.
  - intros rest Hrest. eexists. unfold scan_number, fmt_d.
    change (pretty (Zneg p) +:+ rest) with (String "-"%char (pretty (Npos p) +:+ rest)).
    change (starts 45 (String "-"%char ?x)) with (Some x). cbn iota.
    apply scan_number_tail; [done|]. apply scan_int_dec; [apply pretty_pos_dec|done].
Qed.

(** The value of a printed integer. *)
Lemma digits_val_acc s :
  forall acc, (fix go (acc : Z) (s : string) : Z :=
     match s with
     | EmptyString => acc
     | String a s' => go (acc * 10 + (byte_val a - 48)) s'
     end) acc s = acc * 10 ^ Z.of_nat (String.length s) + digits_val s.
Proof.
  unfold digits_val. induction s as [|a s IH]; intros acc; [cbn; lia|].
  rewrite IH. rewrite (IH (0 * 10 + _)). cbn [String.length].
  rewrite Nat2Z.inj_succ, Z.pow_succ_r by lia. lia.
Qed.

Lemma digits_val_cons a s :
  digits_val (String a s) = (byte_val a - 48) * 10 ^ Z.of_nat (String.length s) + digits_val s.
Proof. unfold digits_val at 1. rewrite digits_val_acc. lia. Qed.

Lemma digits_val_go n s :
  digits_val (pretty_N_go n s) = Z.of_N n * 10 ^ Z.of_nat (String.length s) + digits_val s.
Proof.
  revert s. induction (N.lt_wf_0 n) as [n _ IH]. intros s.
  destruct (decide (n = 0)%N) as [->|Hn]; [by rewrite pretty_N_go_0|].
  rewrite pretty_N_go_step, IH by first [lia|apply N.div_lt; lia].
  rewrite digits_val_cons. cbn [String.length].
  rewrite Nat2Z.inj_succ, Z.pow_succ_r by lia.
  pose proof (pretty_N_char_value (n mod 10) ltac:(apply N.mod_lt; lia)) as ->.
  pose proof (N.div_mod n 10 ltac:(lia)). nia.
Qed.

Lemma digits_val_pretty p : digits_val (pretty (Npos p)) = Zpos p.
Proof.
  unfold pretty, pretty_N. case_decide; [done|]. rewrite digits_val_go. cbn. lia.
Qed.

Lemma scan_dec_nat s : dec_nat s -> scan_number s = Some (MkNumber false s "" false "", "").
Proof.
  intros Hs. pose proof (scan_int_dec s "" Hs eq_refl) as Hi. rewrite append_nil_r in Hi.
  destruct Hs as (a & t & -> & Ha & Hr). unfold scan_number.
  rewrite starts_ne by (apply digit_range in Ha; lia). by apply scan_number_tail.
Qed.

Lemma lit_int_fmt_d z : lit_int (fmt_d z) = Some z.
Proof.
  unfold lit_int, fmt_d. destruct z as [|p|p]; [done| |].
  - change (pretty (Zpos p)) with (pretty (Npos p)).
    rewrite scan_dec_nat by apply pretty_pos_dec. by rewrite digits_val_pretty.
  - change (pretty (Zneg p)) with (String "-"%char (pretty (Npos p))).
    pose proof (scan_int_dec _ "" (pretty_pos_dec p) eq_refl) as Hi. rewrite append_nil_r in Hi.
    unfold scan_number.
    change (starts 45 (String "-"%char ?x)) with (Some x). cbn iota.
    rewrite (scan_number_tail _ _ _ "" eq_refl Hi). by rewrite digits_val_pretty.
Qed.

Lemma decode_int_json cur z : in_int z -> decode_int cur (json_int z) = Some z.
Proof.
  intros [H1 H2]. unfold decode_int, json_int. rewrite lit_int_fmt_d. cbn.
  unfold in_intb. apply Z.leb_le in H1, H2. by rewrite H1, H2.
Qed.

(** ** Lemmas: a literal the scanner takes whole is a number literal *)

Section literal.
Variable rest : string.
Hypothesis Hrest : num_stop rest = true.

Lemma stop_starts z : z = 46 \/ z = 101 \/ z = 69 -> starts z rest = None.
Proof using Hrest.
  destruct rest as [|b r]; [done|]. simpl in *.
  apply negb_true_iff in Hrest. rewrite !orb_false_iff in Hrest.
  destruct Hrest as [[[_ H1] H2] H3]. intros [-> |[-> | ->]]; cbn; by rewrite ?H1, ?H2, ?H3.
Qed.

Lemma take_digits_more s :
  take_digits (s +:+ rest) = (fst (take_digits s), snd (take_digits s) +:+ rest).
Proof using Hrest.
  induction s as [|a s IH].
  - rewrite append_nil_l. by apply (take_digits_app "" rest).
  - rewrite append_cons. cbn [take_digits]. destruct (is_digit a); [|by rewrite <- append_cons].
    rewrite IH. by destruct (take_digits s).
Qed.

Lemma scan_digits_more s d r :
  scan_digits s = Some (d, r) -> scan_digits (s +:+ rest) = Some (d, r +:+ rest).
Proof using Hrest.
  unfold scan_digits. rewrite take_digits_more. destruct (take_digits s) as [[|a d'] r']; [done|].
  by intros [= <- <-].
Qed.

Lemma scan_int_more s d r :
  scan_int s = Some (d, r) -> scan_int (s +:+ rest) = Some (d, r +:+ rest).
Proof using Hrest.
  destruct s as [|a s]; [done|]. rewrite append_cons. cbn [scan_int].
  destruct (byte_val a =? 48); [by intros [= <- <-]|]. destruct (is_digit a); [|done].
  rewrite <- append_cons, take_digits_more.
  destruct (take_digits (String a s)) as [x y]. by intros [= <- <-].
Qed.

Lemma starts_more z s :
  starts z rest = None -> starts z (s +:+ rest) = (fun r => r +:+ rest) <$> starts z s.
Proof using.
  destruct s as [|a s]; [by rewrite append_nil_l|]. intros _. rewrite append_cons.
  cbn [starts]. by destruct (byte_val a =? z).
Qed.

Lemma scan_frac_more s d r :
  scan_frac s = Some (d, r) -> scan_frac (s +:+ rest) = Some (d, r +:+ rest).
Proof using Hrest.
  unfold scan_frac. rewrite starts_more by (apply stop_starts; auto).
  destruct (starts 46 s); cbn; [apply scan_digits_more|by intros [= <- <-]].
Qed.

Lemma scan_exp_more s b d r :
  scan_exp s = Some (b, d, r) -> scan_exp (s +:+ rest) = Some (b, d, r +:+ rest).
Proof using Hrest.
  destruct s as [|a s].
  - intros [= <- <- <-]. rewrite append_nil_l.
    pose proof (stop_starts 101 ltac:(auto)) as H1. pose proof (stop_starts 69 ltac:(auto)) as H2.
    destruct rest as [|b' r']; [done|]. cbn in *.
    destruct (byte_val b' =? 101); [done|]. by destruct (byte_val b' =? 69).
  - rewrite append_cons. cbn [scan_exp].
    destruct ((byte_val a =? 101) || (byte_val a =? 69));
      [|by intros [= <- <- <-]; rewrite append_cons].
    destruct s as [|c s]; [done|]. rewrite append_cons. cbn [starts].
    destruct (byte_val c =? 45); [|destruct (byte_val c =? 43)];
      rewrite <- ?append_cons; destruct (scan_digits _) as [[d' r']|] eqn:E; try done;
      intros [= <- <- <-]; by rewrite (scan_digits_more _ _ _ E).
Qed.

Lemma scan_number_more s n r :
  s <> "" -> scan_number s = Some (n, r) -> scan_number (s +:+ rest) = Some (n, r +:+ rest).
Proof using Hrest.
  intros Hs. unfold scan_number.
  replace (starts 45 (s +:+ rest)) with ((fun r => r +:+ rest) <$> starts 45 s)
    by (destruct s as [|a s]; [done|]; rewrite append_cons; cbn; by case_match).
  destruct (starts 45 s) as [s1|]; cbn;
    (destruct (scan_int _) as [[i s2]|] eqn:E1; [|done]); rewrite (scan_int_more _ _ _ E1);
    (destruct (scan_frac _) as [[f s3]|] eqn:E2; [|done]); rewrite (scan_frac_more _ _ _ E2);
    (destruct (scan_exp _) as [[[en e] s4]|] eqn:E3; [|done]); rewrite (scan_exp_more _ _ _ _ E3);
    by intros [= <- <-].
Qed.
End literal.

Definition number_litb (lit : string) : bool :=
  match lit with
  | EmptyString => false
  | String a _ =>
      ((byte_val a =? 45) || is_digit a) &&
      match scan_number lit with Some (_, EmptyString) => true | _ => false end
  end.

Lemma number_litb_sound lit : number_litb lit = true -> number_lit lit.
Proof.
  destruct lit as [|a s]; [done|]. intros H. apply andb_prop in H as [Ha H]. split.
  - by exists a, s.
  - intros rest Hrest. destruct (scan_number _) as [[n [|]]|] eqn:E; try done.
    exists n. rewrite (scan_number_more rest Hrest (String a s) _ _ ltac:(discriminate) E). by rewrite append_nil_l.
Qed.

#[export] Hint Resolve number_lit_fmt_d number_litb_sound : golib.
