(* ===== verification/Http.v ===== *)
(** * HTTP calls: requests, responses, URLs and the clock

    [net/http] as the program uses it.  A request that leaves the process is
    a call of the signature, its answer is a response or an error.  Building
    a request is local: it fails exactly when [net/url] cannot parse the
    URL, so the acceptance test of [url.Parse] is modelled in full (the
    parsed parts are not used by the program and are not kept). *)
From S2P Require Export Json.
From Stdlib Require Import Ascii.

(** Header fields are the ones the program sets. *)
Record Request : Type := MkRequest {
  Method : string;
  URL : string;
  ContentType : option string;
  ReqBody : string
}.

Record Response : Type := MkResponse {
  StatusCode : Z;
  Body : string
}.

Definition MethodGet : string := "GET".
Definition MethodPost : string := "POST".
Definition MethodDelete : string := "DELETE".

Definition StatusOK : Z := 200.
Definition StatusAccepted : Z := 202.
Definition StatusNotFound : Z := 404.

#[export] Instance Request_eq_dec : EqDecision Request.
Proof. solve_decision. Defined.

#[export] Instance Response_eq_dec : EqDecision Response.
Proof. solve_decision. Defined.

(** An instant, as [metav1.Now()] reads it. *)
Abbreviation Time := Z.

(** ** The signature of a handler: HTTP, the clock, and calls of its own *)

Inductive go_op (K : Type) : Type :=
| Do (req : Request)
| Now
| Own (k : K).
Arguments Do {K} req.
Arguments Now {K}.
Arguments Own {K} k.

Definition go_sig (K : Sig) : Sig :=
  {| op := go_op (op K);
     ar := fun o => match o with
                    | Do _ => (error + Response)%type
                    | Now => Time
                    | Own k => ar K k
                    end |}.

(** ** [url.Parse], accepting or not *)

(** [strings.Cut] at one byte: the text before it and, if it occurs, after. *)
Fixpoint cut (z : Z) (s : string) : string * option string :=
  match s with
  | EmptyString => (EmptyString, None)
  | String a s' =>
      if byte_val a =? z then (EmptyString, Some s')
      else let '(b, r) := cut z s' in (String a b, r)
  end.

(** The text before and after the last occurrence of a byte. *)
Fixpoint cut_last (z : Z) (s : string) : option (string * string) :=
  match s with
  | EmptyString => None
  | String a s' =>
      match cut_last z s' with
      | Some (b, r) => Some (String a b, r)
      | None => if byte_val a =? z then Some (EmptyString, s') else None
      end
  end.

Fixpoint has_byte (z : Z) (s : string) : bool :=
  match s with
  | EmptyString => false
  | String a s' => (byte_val a =? z) || has_byte z s'
  end.

Definition is_prefix (p s : string) : bool :=
  match strip_prefix p s with Some _ => true | None => false end.

Definition alnum (z : Z) : bool :=
  in_range 97 122 z || in_range 65 90 z || in_range 48 57 z.

Definition one_of (s : string) (z : Z) : bool := has_byte z s.

(** [unescape] with mode path, fragment or user: only the escapes matter. *)
Fixpoint escapes_ok (s : string) : bool :=
  match s with
  | EmptyString => true
  | String a s1 =>
      if byte_val a =? 37 then
        match s1 with
        | String b (String c s3) =>
            match hex_val b, hex_val c with
            | Some _, Some _ => escapes_ok s3
            | _, _ => false
            end
        | _ => false
        end
      else escapes_ok s1
  end.

(** The bytes [shouldEscape] lets stand in a host. *)
Definition host_byte (z : Z) : bool :=
  alnum z || one_of ("!$&'()*+,;=:[]<>-_.~" +:+ bytes [34]) z || (128 <=? z).

(** [unescape] with mode host ([zone = false]) or zone. *)
Fixpoint host_ok (zone : bool) (s : string) : bool :=
  match s with
  | EmptyString => true
  | String a s1 =>
      if byte_val a =? 37 then
        match s1 with
        | String b (String c s3) =>
            match hex_val b, hex_val c with
            | Some x, Some y =>
                let v := x * 16 + y in
                (if zone then (v =? 37) || (v =? 32) || ((v <? 128) && host_byte v)
                 else (8 <=? x) || (v =? 37)) && host_ok zone s3
            | _, _ => false
            end
        | _ => false
        end
      else host_byte (byte_val a) && host_ok zone s1
  end.

Fixpoint digits_only (s : string) : bool :=
  match s with
  | EmptyString => true
  | String a s' => is_digit a && digits_only s'
  end.

(** [validOptionalPort]. *)
Definition valid_optional_port (s : string) : bool :=
  match s with
  | EmptyString => true
  | String a s' => (byte_val a =? 58) && digits_only s'
  end.

(** The text before the first [%25], and the text from it on. *)
Fixpoint cut_zone (s : string) : option (string * string) :=
  if is_prefix "%25" s then Some (EmptyString, s)
  else match s with
       | EmptyString => None
       | String a s' =>
           match cut_zone s' with
           | Some (b, r) => Some (String a b, r)
           | None => None
           end
       end.

(** [parseHost]. *)
Definition parse_host_ok (host : string) : bool :=
  if is_prefix "[" host then
    match cut_last 93 host with
    | None => false
    | Some (b, port) =>
        valid_optional_port port &&
        match cut_zone b with
        | Some (h1, z) => host_ok false h1 && host_ok true z && host_ok false ("]" +:+ port)
        | None => host_ok false host
        end
    end
  else
    match cut_last 58 host with
    | Some (_, port) => digits_only port && host_ok false host
    | None => host_ok false host
    end.

Fixpoint valid_userinfo (s : string) : bool :=
  match s with
  | EmptyString => true
  | String a s' =>
      (alnum (byte_val a) || one_of "-._:~!$&'()*+,;=%@" (byte_val a)) && valid_userinfo s'
  end.

(** [parseAuthority]. *)
Definition authority_ok (s : string) : bool :=
  match cut_last 64 s with
  | None => parse_host_ok s
  | Some (user, host) =>
      parse_host_ok host && valid_userinfo user &&
      match cut 58 user with
      | (u, None) => escapes_ok u
      | (u, Some p) => escapes_ok u && escapes_ok p
      end
  end.

(** [getScheme]: a missing scheme before a colon fails, otherwise the scheme
    and the rest; no scheme is the empty one.  [first] marks index 0 and
    [orig] is the whole text. *)
Fixpoint get_scheme (first : bool) (orig s : string) : option (string * string) :=
  match s with
  | EmptyString => Some (EmptyString, orig)
  | String a s' =>
      let z := byte_val a in
      if in_range 97 122 z || in_range 65 90 z then
        match get_scheme false orig s' with
        | Some (EmptyString, r) => Some (EmptyString, r)
        | Some (sch, r) => Some (String a sch, r)
        | None => None
        end
      else if in_range 48 57 z || one_of "+-." z then
        if first then Some (EmptyString, orig)
        else match get_scheme false orig s' with
             | Some (EmptyString, r) => Some (EmptyString, r)
             | Some (sch, r) => Some (String a sch, r)
             | None => None
             end
      else if z =? 58 then
        if first then None else Some (":", s')
      else Some (EmptyString, orig)
  end.

Fixpoint has_ctl (s : string) : bool :=
  match s with
  | EmptyString => false
  | String a s' => (byte_val a <? 32) || (byte_val a =? 127) || has_ctl s'
  end.

(** [parse(rawURL, false)] on the text before the fragment.  The scheme
    keeps its colon, so that a scheme found is never the empty one. *)
Definition parse_url_main (raw : string) : bool :=
  if has_ctl raw then false
  else if bool_decide (raw = "*") then true
  else match get_scheme true raw raw with
  | None => false
  | Some (scheme, rest0) =>
      let rest := fst (cut 63 rest0) in
      let noscheme := bool_decide (scheme = "") in
      if negb (is_prefix "/" rest) then
        if noscheme
        then negb (has_byte 58 (fst (cut 47 rest))) && escapes_ok rest
        else true
      else if (negb noscheme || negb (is_prefix "///" rest)) && is_prefix "//" rest then
        let auth_rest := default "" (strip_prefix "//" rest) in
        let '(auth, p) := cut 47 auth_rest in
        authority_ok auth && escapes_ok (default "" p)
      else escapes_ok rest
  end.

(** [url.Parse(raw)] returns no error. *)
Definition url_parses (raw : string) : bool :=
  match cut 35 raw with
  | (u, None) => parse_url_main u
  | (u, Some frag) => parse_url_main u && escapes_ok frag
  end.

(** The error of [url.Parse]; its reason is not kept. *)
Definition url_error (raw : string) : error := ErrLeaf "" ("parse " +:+ raw).

(** ** Requests and the client *)

(** [http.NewRequestWithContext]. *)
Definition NewRequest (method url body : string) : error + Request :=
  if url_parses url then inr (MkRequest method url None body) else inl (url_error url).

(** [http.Client]; the handlers hold a pointer to one. *)
Record http_Client : Type := MkClient { Timeout : Z }.

Definition nil_deref : string := "invalid memory address or nil pointer dereference".

Section Client.
Context {K : Sig}.

(** [client.Do(req)]; a nil client and a nil request are dereferenced. *)
Definition client_Do (c : option http_Client) (req : option Request) :
    prog (go_sig K) (error + Response) :=
  match req, c with
  | Some r, Some _ => call (S := go_sig K) (Do r)
  | _, _ => Panic nil_deref
  end.

(** [client.Get(url)]. *)
Definition client_Get (c : option http_Client) (url : string) :
    prog (go_sig K) (error + Response) :=
  match NewRequest MethodGet url "" with
  | inl e => Return (inl e)
  | inr r => client_Do c (Some r)
  end.

(** [client.Post(url, contentType, body)]. *)
Definition client_Post (c : option http_Client) (url contentType body : string) :
    prog (go_sig K) (error + Response) :=
  match NewRequest MethodPost url body with
  | inl e => Return (inl e)
  | inr r =>
      client_Do c (Some (MkRequest (Method r) (URL r) (Some contentType) (ReqBody r)))
  end.

(** [metav1.Now()]. *)
Definition time_Now : prog (go_sig K) Time := call (S := go_sig K) Now.

(** ** Reading a trace *)

Definition event_request (ev : event (go_sig K)) : option Request :=
  match ev with
  | Ev (Do r) _ => Some r
  | _ => None
  end.

(** The requests that left the process, in order. *)
Definition requests (tr : list (event (go_sig K))) : list Request := omap event_request tr.

End Client.

(** ** Checks on concrete URLs *)

Example url_default : url_parses "http://gpu-benchmark-api:8000/benchmarks" = true.
Proof. vm_compute. reflexivity. Qed.

Example url_relative : url_parses "/benchmarks/id-1" = true.
Proof. vm_compute. reflexivity. Qed.

Example url_space_in_host : url_parses "http://bad host:8000/benchmarks" = false.
Proof. vm_compute. reflexivity. Qed.

Example url_bad_port : url_parses "http://api:80a0/benchmarks" = false.
Proof. vm_compute. reflexivity. Qed.

Example url_bad_escape : url_parses "http://api:8000/benchmarks/%zz" = false.
Proof. vm_compute. reflexivity. Qed.

Example url_no_scheme : url_parses "api:8000/benchmarks" = true.
Proof. vm_compute. reflexivity. Qed.

Example url_ip_no_scheme : url_parses "10.0.0.1:8000/benchmarks" = false.
Proof. vm_compute. reflexivity. Qed.

Example url_ipv6 : url_parses "http://[fe80::1%25en0]:8000/x" = true.
Proof. vm_compute. reflexivity. Qed.

Example url_ipv6_zone_escape : url_parses "http://[fe80::1%25e%C3%A9]:8000/x" = false.
Proof. vm_compute. reflexivity. Qed.

Example url_missing_scheme : url_parses "://api" = false.
Proof. vm_compute. reflexivity. Qed.
