(* ===== verification/Wire.v ===== *)
(** * The bodies exchanged with the backend

    The operator and the provider send the same JSON object to the backend
    and decode the same response struct; what they share is here, with the
    round trip of both directions. *)
From S2P Require Export Http.

(** ** The answer to a poll *)

(** The metrics of a poll, and the struct it is decoded into: the operator's
    [handleRunning] and the provider's [Observe] declare the same one. *)
Record metrics : Type := MkMetrics {
  m_Throughput : float64;
  m_LatencyMs : float64;
  m_MemoryBandwidthGbps : float64
}.

Definition metrics_zero : metrics :=
  MkMetrics (S754_zero false) (S754_zero false) (S754_zero false).

Definition decode_metrics (cur : metrics) (key : string) (v : json) : option metrics :=
  if is_field "throughput" key then
    match decode_float (m_Throughput cur) v with
    | Some f => Some (MkMetrics f (m_LatencyMs cur) (m_MemoryBandwidthGbps cur))
    | None => None
    end
  else if is_field "latency_ms" key then
    match decode_float (m_LatencyMs cur) v with
    | Some f => Some (MkMetrics (m_Throughput cur) f (m_MemoryBandwidthGbps cur))
    | None => None
    end
  else if is_field "memory_bandwidth_gbps" key then
    match decode_float (m_MemoryBandwidthGbps cur) v with
    | Some f => Some (MkMetrics (m_Throughput cur) (m_LatencyMs cur) f)
    | None => None
    end
  else Some cur.

Record poll_result : Type := MkPoll { poll_Status : string; poll_Result : option metrics }.

Definition poll_zero : poll_result := MkPoll "" None.

Definition decode_poll (cur : poll_result) (key : string) (v : json) : option poll_result :=
  if is_field "status" key then
    match decode_string (poll_Status cur) v with
    | Some s => Some (MkPoll s (poll_Result cur))
    | None => None
    end
  else if is_field "result" key then
    match decode_ptr decode_metrics metrics_zero (poll_Result cur) v with
    | Some r => Some (MkPoll (poll_Status cur) r)
    | None => None
    end
  else Some cur.

(** ** The body of a submission *)

(** ** Decoded metrics are numbers *)

Definition metrics_finite (m : metrics) : Prop :=
  is_finite (m_Throughput m) = true /\ is_finite (m_LatencyMs m) = true /\
  is_finite (m_MemoryBandwidthGbps m) = true.

Lemma decode_float_finite cur v f :
  is_finite cur = true -> decode_float cur v = Some f -> is_finite f = true.
Proof.
  destruct v as [|b|lit|s|l|l]; cbn; intros Hc E; try discriminate; [by simplify_eq|].
  destruct (scan_number lit) as [[n r]|]; [|done]. by eapply parse_decimal_finite.
Qed.

Lemma decode_members_keeps {A} (P : A -> Prop) step cur l (x : A) :
  (forall cur k v cur', P cur -> step cur k v = Some cur' -> P cur') ->
  P cur -> decode_members step cur l = Some x -> P x.
Proof.
  intros Hs. revert cur. induction l as [|[k v] l IH]; cbn; intros cur Hc E; [by simplify_eq|].
  destruct (step cur k v) as [cur'|] eqn:Es; [|done]. eauto.
Qed.

Lemma decode_metrics_finite cur k v m :
  metrics_finite cur -> decode_metrics cur k v = Some m -> metrics_finite m.
Proof.
  intros (H1 & H2 & H3). unfold decode_metrics.
  destruct (is_field "throughput" k); [|destruct (is_field "latency_ms" k);
    [|destruct (is_field "memory_bandwidth_gbps" k)]];
    try (destruct (decode_float _ v) as [f|] eqn:E; [|done]; apply decode_float_finite in E; [|done]);
    intros [= <-]; done.
Qed.

Lemma decode_poll_finite body p m :
  decode_body decode_poll poll_zero body = Some p -> poll_Result p = Some m -> metrics_finite m.
Proof.
  unfold decode_body, decode_struct. destruct (parse_json body) as [[]|]; try done.
  { by intros [= <-]. }
  intros E. revert m. eapply (decode_members_keeps (fun p => forall m, poll_Result p = Some m -> metrics_finite m)
            decode_poll poll_zero); [|by intros m [=]|exact E].
  intros cur k v cur' Hc. unfold decode_poll.
  destruct (is_field "status" k); [|destruct (is_field "result" k)].
  - destruct (decode_string _ v); [|done]. by intros [= <-].
  - unfold decode_ptr. destruct v; try done; [by intros [= <-]|].
    destruct (decode_members decode_metrics _ _) as [m|] eqn:Em; [|done]. cbn.
    intros [= <-] m1 [= <-].
    eapply (decode_members_keeps metrics_finite); [exact decode_metrics_finite| |exact Em].
    destruct (poll_Result cur) as [m0|]; [by apply Hc|done].
  - by intros [= <-].
Qed.

(** The map literal of four members, in the order of the source. *)
Definition benchmark_payload (gpu_model workload_type : string) (batch_size : Z)
    (idempotency_key : string) : list (string * json) :=
  [("gpu_model", JString gpu_model); ("workload_type", JString workload_type);
   ("batch_size", json_int batch_size); ("idempotency_key", JString idempotency_key)].

(** A reader of the body gets the four values back. *)
Lemma payload_roundtrip g w b k :
  valid_utf8 g = true -> valid_utf8 w = true -> valid_utf8 k = true ->
  parse_json (marshal_map (benchmark_payload g w b k)) =
  Some (JObject [("batch_size", JNumber (fmt_d b)); ("gpu_model", JString g);
                 ("idempotency_key", JString k); ("workload_type", JString w)]).
Proof.
  intros Hg Hw Hk. unfold marshal_map.
  change (sort_keys (benchmark_payload g w b k)) with
    [("batch_size", json_int b); ("gpu_model", JString g); ("idempotency_key", JString k);
     ("workload_type", JString w)].
  rewrite <- (append_nil_r (print_json _)), parse_json_print.
  - cbn [json_sanitize map fst snd json_int].
    by rewrite !sanitize_valid by first [done|by vm_compute].
  - cbn [json_ok foldr snd json_int]. auto with golib.
  - apply Nat.leb_le. by vm_compute.
  - done.
Qed.

(** ** The body of a finished job *)

(** The response of the backend for a finished job, its three metrics given
    as number literals. *)
Definition completed_body (throughput latency bandwidth : string) : string :=
  print_json (JObject
    [("status", JString "completed");
     ("result", JObject [("throughput", JNumber throughput); ("latency_ms", JNumber latency);
                         ("memory_bandwidth_gbps", JNumber bandwidth)])]).

Lemma decode_metrics_members a b c fa fb fc rest :
  decode_float (S754_zero false) (JNumber a) = Some fa ->
  decode_float (S754_zero false) (JNumber b) = Some fb ->
  decode_float (S754_zero false) (JNumber c) = Some fc ->
  decode_members decode_metrics metrics_zero
    (("throughput", JNumber a) :: ("latency_ms", JNumber b) ::
     ("memory_bandwidth_gbps", JNumber c) :: rest) =
  decode_members decode_metrics (MkMetrics fa fb fc) rest.
Proof.
  intros Ea Eb Ec.
  cbn [decode_members].
  change (decode_metrics metrics_zero "throughput" (JNumber a)) with
    (match decode_float (S754_zero false) (JNumber a) with
     | Some f => Some (MkMetrics f (S754_zero false) (S754_zero false))
     | None => None
     end).
  rewrite Ea.
  change (decode_metrics (MkMetrics fa _ _) "latency_ms" (JNumber b)) with
    (match decode_float (S754_zero false) (JNumber b) with
     | Some f => Some (MkMetrics fa f (S754_zero false))
     | None => None
     end).
  rewrite Eb.
  change (decode_metrics (MkMetrics fa fb _) "memory_bandwidth_gbps" (JNumber c)) with
    (match decode_float (S754_zero false) (JNumber c) with
     | Some f => Some (MkMetrics fa fb f)
     | None => None
     end).
  by rewrite Ec.
Qed.

Lemma completed_body_decodes a b c fa fb fc :
  number_lit a -> number_lit b -> number_lit c ->
  decode_float (S754_zero false) (JNumber a) = Some fa ->
  decode_float (S754_zero false) (JNumber b) = Some fb ->
  decode_float (S754_zero false) (JNumber c) = Some fc ->
  decode_body decode_poll poll_zero (completed_body a b c) =
  Some (MkPoll "completed" (Some (MkMetrics fa fb fc))).
Proof.
  intros Ha Hb Hc Ea Eb Ec. unfold decode_body, completed_body.
  rewrite <- (append_nil_r (print_json _)), parse_json_print;
    [|cbn [json_ok foldr snd]; tauto|apply Nat.leb_le; by vm_compute|done].
  change (decode_struct decode_poll poll_zero _) with
    (match match match decode_members decode_metrics metrics_zero
       [("throughput", JNumber a); ("latency_ms", JNumber b); ("memory_bandwidth_gbps", JNumber c)]
     with Some m => Some (Some m) | None => None end
     with Some m => Some (MkPoll "completed" m) | None => None end
     with Some p => Some p | None => None end).
  by rewrite (decode_metrics_members a b c fa fb fc []).
Qed.
