(* ===== verification/Machinery.v ===== *)
(** * The Kubernetes libraries, as the program relies on them

    [k8s.io/apimachinery] and [sigs.k8s.io/controller-runtime] are not part
    of the repository: the functions the program calls are the operations of
    a class, and what it relies on are the laws of a second one. *)
From S2P Require Export Http.

Record NamespacedName : Type := MkName { NsNamespace : string; NsName : string }.

#[export] Instance NamespacedName_eq_dec : EqDecision NamespacedName.
Proof. solve_decision. Defined.

#[export] Instance NamespacedName_countable : Countable NamespacedName.
Proof.
  refine (inj_countable' (fun n => (NsNamespace n, NsName n))
            (fun p => MkName p.1 p.2) _); by intros [].
Defined.

(** [metav1.TypeMeta]. *)
Record TypeMeta : Type := MkTypeMeta { Kind : string; APIVersion : string }.

(** [metav1.ObjectMeta], the fields the program reads or that change under
    it. *)
Record ObjectMeta : Type := MkMeta {
  Name : string;
  Namespace : string;
  ResourceVersion : string;
  DeletionTimestamp : option Time;
  Finalizers : list string
}.

(** [metav1.ListMeta]. *)
Record ListMeta : Type := MkListMeta {
  ListResourceVersion : string;
  Continue : string;
  RemainingItemCount : option Z
}.

Definition set_finalizers (m : ObjectMeta) (fs : list string) : ObjectMeta :=
  {| Name := Name m; Namespace := Namespace m; ResourceVersion := ResourceVersion m;
     DeletionTimestamp := DeletionTimestamp m; Finalizers := fs |}.

Definition meta_key (m : ObjectMeta) : NamespacedName := MkName (Namespace m) (Name m).

#[export] Instance ObjectMeta_eq_dec : EqDecision ObjectMeta.
Proof. solve_decision. Defined.

(** [ctrl.Result] and the pair [Reconcile] returns. *)
Record Result : Type := MkResult { Requeue : bool; RequeueAfter : Z }.

Definition Result_zero : Result := MkResult false 0.

Definition Second : Z := 1000000000.

Abbreviation reconcile_result := (Result * option error)%type.

(** The library functions. *)
Class Machinery : Type := {
  IsNotFound : error -> bool;
  TimeIsZero : option Time -> bool;
  ContainsFinalizer : ObjectMeta -> string -> bool;
  AddFinalizer : ObjectMeta -> string -> ObjectMeta;
  RemoveFinalizer : ObjectMeta -> string -> ObjectMeta
}.

(** Their documented behaviour: [IsZero] is true of the nil pointer;
    [controllerutil] tests, appends (when absent) and removes a finalizer
    and touches nothing else of the object. *)
Class MachineryLaws `{Machinery} : Prop := {
  TimeIsZero_nil : TimeIsZero None = true;
  ContainsFinalizer_spec m f : ContainsFinalizer m f = true <-> f ∈ Finalizers m;
  AddFinalizer_spec m f :
    f ∉ Finalizers m -> AddFinalizer m f = set_finalizers m (Finalizers m ++ [f]);
  RemoveFinalizer_spec m f :
    RemoveFinalizer m f = set_finalizers m (filter (fun g => g <> f) (Finalizers m))
}.

(** ** An instance that meets the laws, for evaluation *)

Definition not_found_reason : string := "NotFound".

Fixpoint error_reason (e : error) : string :=
  match e with
  | ErrLeaf r _ => r
  | ErrWrap _ i => error_reason i
  end.

#[export] Instance machinery : Machinery := {|
  IsNotFound e := bool_decide (error_reason e = not_found_reason);
  TimeIsZero t := match t with None => true | Some _ => false end;
  ContainsFinalizer m f := bool_decide (f ∈ Finalizers m);
  AddFinalizer m f :=
    if bool_decide (f ∈ Finalizers m) then m else set_finalizers m (Finalizers m ++ [f]);
  RemoveFinalizer m f := set_finalizers m (filter (fun g => g <> f) (Finalizers m))
|}.

#[export] Instance machinery_laws : MachineryLaws.
Proof.
  constructor; simpl; [done| | |done].
  - intros m f. apply bool_decide_eq_true.
  - intros m f Hf. by rewrite bool_decide_eq_false_2.
Qed.

(** ** Lemmas *)

Section Laws.
Context `{MachineryLaws}.

Lemma ContainsFinalizer_false m f : ContainsFinalizer m f = false -> f ∉ Finalizers m.
Proof. intros E Hf%ContainsFinalizer_spec. congruence. Qed.

Lemma RemoveFinalizer_removes m f : f ∉ Finalizers (RemoveFinalizer m f).
Proof.
  rewrite RemoveFinalizer_spec. cbn. rewrite list_elem_of_filter. by intros [? _].
Qed.

Lemma RemoveFinalizer_others m f g :
  g <> f -> g ∈ Finalizers (RemoveFinalizer m f) <-> g ∈ Finalizers m.
Proof.
  intros Hg. rewrite RemoveFinalizer_spec. cbn. rewrite list_elem_of_filter. tauto.
Qed.

Lemma AddFinalizer_contains m f :
  f ∉ Finalizers m -> f ∈ Finalizers (AddFinalizer m f).
Proof. intros Hf. rewrite AddFinalizer_spec by done. cbn. set_solver. Qed.
End Laws.
