(* ===== verification/Operator.v ===== *)
(** * The BenchmarkJob operator

    [operator/api/v1alpha1/benchmarkjob_types.go] and
    [operator/controllers/benchmarkjob_controller.go]: the custom resource
    and the reconciler, one definition per method, in the order of the file.
    Logging has no effect on the rest and is left out; so are [Body.Close]
    and the reading of a body for a log line.  The object a handler mutates
    is its own copy (the client's [Get] fills a fresh one), so the mutation
    is a new value here; no handler reads the object after the write that
    ends it. *)
From S2P Require Export Machinery Wire.

(** ** The custom resource *)

Record BenchmarkJobSpec : Type := MkSpec {
  GPUModel : string;
  WorkloadType : string;
  BatchSize : Z;
  SchedulerAPIURL : string;
  MaxRetries : Z
}.

Record BenchmarkJobStatus : Type := MkStatus {
  Phase : string;
  JobID : string;
  Message : string;
  RetryCount : Z;
  Throughput : option float64;
  LatencyMs : option float64;
  MemoryBandwidthGbps : option float64;
  StartTime : option Time;
  CompletionTime : option Time
}.

Record BenchmarkJob : Type := MkJob {
  JobType : TypeMeta;
  Meta : ObjectMeta;
  Spec : BenchmarkJobSpec;
  Status : BenchmarkJobStatus
}.

Definition job_key (job : BenchmarkJob) : NamespacedName := meta_key (Meta job).

Definition set_meta (job : BenchmarkJob) (m : ObjectMeta) : BenchmarkJob :=
  MkJob (JobType job) m (Spec job) (Status job).

Definition set_status (job : BenchmarkJob) (st : BenchmarkJobStatus) : BenchmarkJob :=
  MkJob (JobType job) (Meta job) (Spec job) st.

(** ** Constants *)

Definition benchmarkJobFinalizer : string := "benchmarks.gpu-platform.io/finalizer".

Definition PhasePending : string := "Pending".
Definition PhaseSubmitted : string := "Submitted".
Definition PhaseRunning : string := "Running".
Definition PhaseCompleted : string := "Completed".
Definition PhaseFailed : string := "Failed".

Definition pollInterval : Z := 15 * Second.
Definition retryInterval : Z := 30 * Second.

(** ** The calls of the reconciler: the API server client *)

Inductive api_op : Type :=
| ApiGet (name : NamespacedName)
| ApiUpdate (job : BenchmarkJob)
| ApiStatusUpdate (job : BenchmarkJob).

Definition api_sig : Sig :=
  {| op := api_op;
     ar := fun o => match o with
                    | ApiGet _ => (error + BenchmarkJob)%type
                    | ApiUpdate _ => option error
                    | ApiStatusUpdate _ => option error
                    end |}.

Abbreviation op_sig := (go_sig api_sig).
Abbreviation op_prog := (prog op_sig).

Definition client_get (name : NamespacedName) : op_prog (error + BenchmarkJob) :=
  call (S := op_sig) (Own (ApiGet name)).

Definition client_update (job : BenchmarkJob) : op_prog (option error) :=
  call (S := op_sig) (Own (ApiUpdate job)).

Definition client_status_update (job : BenchmarkJob) : op_prog (option error) :=
  call (S := op_sig) (Own (ApiStatusUpdate job)).

(** ** Response bodies *)

(** The anonymous struct [handlePending] decodes into. *)
Record submit_result : Type := MkSubmit { sub_JobID : string; sub_Status : string }.

Definition decode_submit (cur : submit_result) (key : string) (v : json) : option submit_result :=
  if is_field "job_id" key then
    match decode_string (sub_JobID cur) v with
    | Some s => Some (MkSubmit s (sub_Status cur))
    | None => None
    end
  else if is_field "status" key then
    match decode_string (sub_Status cur) v with
    | Some s => Some (MkSubmit (sub_JobID cur) s)
    | None => None
    end
  else Some cur.

Definition submit_zero : submit_result := MkSubmit "" "".

(** The struct [pollBackend] decodes into has the status only. *)
Definition decode_status (cur : string) (key : string) (v : json) : option string :=
  if is_field "status" key then decode_string cur v else Some cur.

(** ** The reconciler *)

Record BenchmarkJobReconciler : Type := MkReconciler { HTTPClient : option http_Client }.

(** [SetupWithManager] gives the reconciler a client; registering it with the
    manager is the library's. *)
Definition SetupWithManager (r : BenchmarkJobReconciler) : BenchmarkJobReconciler :=
  match HTTPClient r with
  | None => MkReconciler (Some (MkClient (10 * Second)))
  | Some _ => r
  end.

Definition default_api_url : string := "http://gpu-benchmark-api:8000".

(** The three lines each method that talks to the backend starts with. *)
Definition api_url (job : BenchmarkJob) : string :=
  if bool_decide (SchedulerAPIURL (Spec job) = "") then default_api_url
  else SchedulerAPIURL (Spec job).

(** [fmt.Sprintf("%s/benchmarks/%s", apiURL, job.Status.JobID)]. *)
Definition job_url (job : BenchmarkJob) : string :=
  api_url job +:+ "/benchmarks/" +:+ JobID (Status job).

(** [fmt.Sprintf("%s/%s", job.Namespace, job.Name)]. *)
Definition idempotency_key (n : NamespacedName) : string := NsNamespace n +:+ "/" +:+ NsName n.

Definition submit_payload (job : BenchmarkJob) : list (string * json) :=
  benchmark_payload (GPUModel (Spec job)) (WorkloadType (Spec job)) (BatchSize (Spec job))
    (idempotency_key (job_key job)).

Definition requeue_after (d : Z) : reconcile_result := (MkResult false d, None).

Section Reconciler.
Context `{Machinery}.
Variable r : BenchmarkJobReconciler.

(** [setPhase]: the last step of every transition. *)
Definition setPhase (job : BenchmarkJob) (phase message : string) : op_prog reconcile_result :=
  let st := Status job in
  let job := set_status job
    (MkStatus phase (JobID st) message (RetryCount st) (Throughput st) (LatencyMs st)
       (MemoryBandwidthGbps st) (StartTime st) (CompletionTime st)) in
  let! err := client_status_update job in
  match err with
  | Some e => Return (Result_zero, Some (ErrWrap ("update status (phase=" +:+ phase +:+ ")") e))
  | None => Return (Result_zero, None)
  end.

(** [handlePending]. *)
Definition handlePending (job : BenchmarkJob) : op_prog reconcile_result :=
  let apiURL := api_url job in
  let body := marshal_map (submit_payload job) in
  let! resp := client_Post (HTTPClient r) (apiURL +:+ "/benchmarks") "application/json" body in
  match resp with
  | inl _ => Return (requeue_after retryInterval)
  | inr resp =>
      if negb (StatusCode resp =? StatusAccepted) && negb (StatusCode resp =? StatusOK)
      then Return (requeue_after retryInterval)
      else match decode_body decode_submit submit_zero (Body resp) with
      | None => Return (requeue_after retryInterval)
      | Some result =>
          let! now := time_Now in
          let st := Status job in
          let job := set_status job
            (MkStatus (Phase st) (sub_JobID result) (Message st) (RetryCount st)
               (Throughput st) (LatencyMs st) (MemoryBandwidthGbps st)
               (Some now) (CompletionTime st)) in
          setPhase job PhaseSubmitted ("submitted to backend; jobID=" +:+ sub_JobID result)
      end
  end.

(** [handleFailure]. *)
Definition handleFailure (job : BenchmarkJob) : op_prog reconcile_result :=
  let maxRetries := if MaxRetries (Spec job) =? 0 then 3 else MaxRetries (Spec job) in
  let st := Status job in
  if RetryCount st <? maxRetries then
    let count := wrap_int (RetryCount st + 1) in
    let job := set_status job
      (MkStatus (Phase st) "" (Message st) count (Throughput st) (LatencyMs st)
         (MemoryBandwidthGbps st) (StartTime st) (CompletionTime st)) in
    setPhase job PhasePending
      ("retry " +:+ fmt_d count +:+ "/" +:+ fmt_d maxRetries +:+ " after backend failure")
  else
    let! now := time_Now in
    let job := set_status job
      (MkStatus (Phase st) (JobID st) (Message st) (RetryCount st) (Throughput st)
         (LatencyMs st) (MemoryBandwidthGbps st) (StartTime st) (Some now)) in
    setPhase job PhaseFailed ("failed after " +:+ fmt_d (RetryCount st) +:+ " retries").

(** The error of a failed [Decode]; its text only reaches the log. *)
Definition decode_error : error := ErrLeaf "" "decode".

(** [pollBackend]. *)
Definition pollBackend (job : BenchmarkJob) : op_prog (error + string) :=
  let! resp := client_Get (HTTPClient r) (job_url job) in
  match resp with
  | inl e => Return (inl e)
  | inr resp =>
      match decode_body decode_status "" (Body resp) with
      | None => Return (inl decode_error)
      | Some status => Return (inr status)
      end
  end.

(** [handleSubmitted]. *)
Definition handleSubmitted (job : BenchmarkJob) : op_prog reconcile_result :=
  let! polled := pollBackend job in
  match polled with
  | inl _ => Return (requeue_after retryInterval)
  | inr status =>
      if bool_decide (status = "running") then
        setPhase job PhaseRunning "execution in progress"
      else if bool_decide (status = "queued") then Return (requeue_after pollInterval)
      else if bool_decide (status = "failed") then handleFailure job
      else Return (requeue_after pollInterval)
  end.

(** [handleRunning]. *)
Definition handleRunning (job : BenchmarkJob) : op_prog reconcile_result :=
  let! resp := client_Get (HTTPClient r) (job_url job) in
  match resp with
  | inl _ => Return (requeue_after retryInterval)
  | inr resp =>
      match decode_body decode_poll poll_zero (Body resp) with
      | None => Return (requeue_after retryInterval)
      | Some result =>
          if bool_decide (poll_Status result = "completed") then
            let! now := time_Now in
            let st := Status job in
            let job := set_status job
              match poll_Result result with
              | Some m =>
                  MkStatus (Phase st) (JobID st) (Message st) (RetryCount st)
                    (Some (m_Throughput m)) (Some (m_LatencyMs m))
                    (Some (m_MemoryBandwidthGbps m)) (StartTime st) (Some now)
              | None =>
                  MkStatus (Phase st) (JobID st) (Message st) (RetryCount st)
                    (Throughput st) (LatencyMs st) (MemoryBandwidthGbps st)
                    (StartTime st) (Some now)
              end in
            setPhase job PhaseCompleted "benchmark execution successful"
          else if bool_decide (poll_Status result = "failed") then handleFailure job
          else Return (requeue_after pollInterval)
      end
  end.

(** The condition under which [handleDeletion] calls the backend. *)
Definition cancels (job : BenchmarkJob) : bool :=
  negb (bool_decide (JobID (Status job) = "")) &&
  negb (bool_decide (Phase (Status job) = PhaseCompleted)) &&
  negb (bool_decide (Phase (Status job) = PhaseFailed)).

(** [handleDeletion].  The error of [NewRequestWithContext] is dropped and
    its nil request passed on. *)
Definition handleDeletion (job : BenchmarkJob) : op_prog reconcile_result :=
  if ContainsFinalizer (Meta job) benchmarkJobFinalizer then
    let finish : op_prog reconcile_result :=
      let job := set_meta job (RemoveFinalizer (Meta job) benchmarkJobFinalizer) in
      let! err := client_update job in
      match err with
      | Some e => Return (Result_zero, Some (ErrWrap "remove finalizer" e))
      | None => Return (Result_zero, None)
      end in
    if cancels job then
      let req := match NewRequest MethodDelete (job_url job) "" with
                 | inl _ => None
                 | inr q => Some q
                 end in
      let! ignored := client_Do (HTTPClient r) req in
      finish
    else finish
  else Return (Result_zero, None).

(** [Reconcile]. *)
Definition Reconcile (req : NamespacedName) : op_prog reconcile_result :=
  let! got := client_get req in
  match got with
  | inl e =>
      if IsNotFound e then Return (Result_zero, None)
      else Return (Result_zero, Some (ErrWrap "get BenchmarkJob" e))
  | inr job =>
      if negb (TimeIsZero (DeletionTimestamp (Meta job))) then handleDeletion job
      else if negb (ContainsFinalizer (Meta job) benchmarkJobFinalizer) then
        let job := set_meta job (AddFinalizer (Meta job) benchmarkJobFinalizer) in
        let! err := client_update job in
        match err with
        | Some e => Return (Result_zero, Some (ErrWrap "add finalizer" e))
        | None => Return (MkResult true 0, None)
        end
      else
        let phase := Phase (Status job) in
        if bool_decide (phase = "") || bool_decide (phase = PhasePending) then handlePending job
        else if bool_decide (phase = PhaseSubmitted) then handleSubmitted job
        else if bool_decide (phase = PhaseRunning) then handleRunning job
        else if bool_decide (phase = PhaseCompleted) || bool_decide (phase = PhaseFailed)
             then Return (Result_zero, None)
        else setPhase job PhasePending "unknown phase reset by operator"
  end.

End Reconciler.
