(* ===== verification/CRD.v ===== *)
(** * The custom resource as JSON: struct tags, the CRD's schema and defaults

    What the operator sends to the API server is the JSON of its Go values,
    field by field as the tags of [benchmarkjob_types.go] say; the server fills
    in the defaults of [config/crd/bases/benchmarks.gpu-platform.io_benchmarkjobs.yaml],
    checks the result against its schema and stores it.  The schema is data
    here, with an interpreter for the part of OpenAPI v3 it uses. *)
From S2P Require Export Operator.

(** ** Schemas *)

Inductive schema : Type :=
| TAny
| TString (enum : option (list string))
| TPattern (pattern : list (Z * Z))
| TDateTime
| TInteger (minimum maximum : option Z)
| TNumber
| TObject (required : list string) (props : list (string * (schema * option json))).

(** A pattern anchored at both ends, one range of characters after the other. *)
Fixpoint matches (pattern : list (Z * Z)) (s : string) : bool :=
  match pattern, s with
  | [], EmptyString => true
  | (lo, hi) :: pattern', String a s' => in_range lo hi (byte_val a) && matches pattern' s'
  | _, _ => false
  end.

Definition member (k : string) (l : list (string * json)) : option json :=
  snd <$> List.find (fun kv => String.eqb kv.1 k) l.

(** How the standard library writes a finite float, and metav1.Time its
    RFC 3339 text, to the second. *)
Class TextForms : Type := {
  float_lit : float64 -> string;
  time_text : Time -> string;
  parse_time : string -> option Time
}.

(** A time reads back to its second.  RFC 3339 has years of four digits; the
    law takes the clock to stay within them. *)
Class TextFormsLaws `{TextForms} : Prop := {
  time_text_reads t : parse_time (time_text t) = Some (Second * (t / Second))
}.

(** The text of this float determines it. *)
Definition reads_back `{TextForms} (f : option float64) : Prop :=
  match f with
  | Some f => decode_float (S754_zero false) (JNumber (float_lit f)) = Some f
  | None => True
  end.

Definition at_least (lo : option Z) (z : Z) : bool :=
  match lo with Some lo => lo <=? z | None => true end.
Definition at_most (hi : option Z) (z : Z) : bool :=
  match hi with Some hi => z <=? hi | None => true end.

Definition present (v : option json) : bool := match v with Some _ => true | None => false end.

Section Schema.
Context `{TextForms}.

(** Validation; a member the schema does not name is not looked at. *)
Fixpoint valid (s : schema) (j : json) : bool :=
  match s, j with
  | TAny, _ => true
  | TString None, JString _ => true
  | TString (Some vs), JString v => bool_decide (v ∈ vs)
  | TPattern p, JString v => matches p v
  | TDateTime, JString v => bool_decide (is_Some (parse_time v))
  | TInteger lo hi, JNumber lit =>
      match lit_int lit with
      | Some z => at_least lo z && at_most hi z
      | None => false
      end
  | TNumber, JNumber _ => true
  | TObject required props, JObject l =>
      forallb (fun k => present (member k l)) required &&
      (fix go (props : list (string * (schema * option json))) : bool :=
         match props with
         | [] => true
         | (k, (s', _)) :: props' =>
             match member k l with
             | Some v => valid s' v
             | None => true
             end && go props'
         end) props
  | _, _ => false
  end.

Definition set_member (k : string) (f : json -> json) (l : list (string * json)) :
    list (string * json) :=
  (fun kv => if String.eqb kv.1 k then (kv.1, f kv.2) else kv) <$> l.

(** Defaulting: an absent member with a default is added. *)
Fixpoint with_defaults (s : schema) (j : json) : json :=
  match s, j with
  | TObject _ props, JObject l =>
      JObject
        ((fix go (props : list (string * (schema * option json))) (l : list (string * json)) :=
            match props with
            | [] => l
            | (k, (s', d)) :: props' =>
                go props'
                  match member k l, d with
                  | Some _, _ => set_member k (with_defaults s') l
                  | None, Some v => l ++ [(k, v)]
                  | None, None => l
                  end
            end) props l)
  | _, _ => j
  end.

(** ** The schema of BenchmarkJob *)

Definition crd_default_url : string :=
  "http://gpu-benchmark-api.gpu-benchmark.svc.cluster.local:8000".

Definition spec_schema : schema :=
  TObject ["gpuModel"; "workloadType"; "batchSize"]
    [("gpuModel", (TString (Some ["T4"; "V100"; "A100"; "H100"; "L40S"; "RTX4090"]), None));
     ("workloadType", (TString (Some ["inference"; "training"]), None));
     ("batchSize", (TInteger (Some 1) (Some 1024), None));
     ("schedulerAPIURL", (TString None, Some (JString crd_default_url)));
     ("maxRetries", (TInteger (Some 0) (Some 10), Some (json_int 3)))].

Definition status_schema : schema :=
  TObject []
    [("phase", (TString (Some ["Pending"; "Submitted"; "Running"; "Completed"; "Failed"]), None));
     ("jobID", (TString None, None));
     ("message", (TString None, None));
     ("retryCount", (TInteger None None, None));
     ("throughput", (TNumber, None));
     ("latencyMs", (TNumber, None));
     ("memoryBandwidthGbps", (TNumber, None));
     ("startTime", (TDateTime, None));
     ("completionTime", (TDateTime, None))].

Definition job_schema : schema :=
  TObject []
    [("apiVersion", (TString None, None)); ("kind", (TString None, None));
     ("metadata", (TObject [] [], None)); ("spec", (spec_schema, None));
     ("status", (status_schema, None))].

(** ** Marshalling *)

(** A struct's members: an empty [omitempty] field is left out. *)
Definition members (ps : list (string * option json)) : list (string * json) :=
  omap (fun p => pair p.1 <$> p.2) ps.

Definition omit_string (s : string) : option json := if decide (s = "") then None else Some (JString s).
Definition omit_int (z : Z) : option json := if decide (z = 0) then None else Some (json_int z).

Definition encode_spec (spec : BenchmarkJobSpec) : json :=
  JObject (members
    [("gpuModel", Some (JString (GPUModel spec)));
     ("workloadType", Some (JString (WorkloadType spec)));
     ("batchSize", Some (json_int (BatchSize spec)));
     ("schedulerAPIURL", omit_string (SchedulerAPIURL spec));
     ("maxRetries", omit_int (MaxRetries spec))]).

(** [json.Marshal] has no text for an infinity or a NaN: it fails. *)
Definition finite_ptr (f : option float64) : bool :=
  match f with Some f => is_finite f | None => true end.

Definition encode_float (f : option float64) : option json := (fun f => JNumber (float_lit f)) <$> f.
Definition encode_time (t : option Time) : option json := (fun t => JString (time_text t)) <$> t.

Definition encode_status (st : BenchmarkJobStatus) : option json :=
  if finite_ptr (Throughput st) && finite_ptr (LatencyMs st) && finite_ptr (MemoryBandwidthGbps st)
  then Some (JObject (members
    [("phase", omit_string (Phase st)); ("jobID", omit_string (JobID st));
     ("message", omit_string (Message st)); ("retryCount", omit_int (RetryCount st));
     ("throughput", encode_float (Throughput st)); ("latencyMs", encode_float (LatencyMs st));
     ("memoryBandwidthGbps", encode_float (MemoryBandwidthGbps st));
     ("startTime", encode_time (StartTime st));
     ("completionTime", encode_time (CompletionTime st))]))
  else None.

(** A whole object, given the JSON of its metadata. *)
Definition encode_job (meta : ObjectMeta -> list (string * json)) (job : BenchmarkJob) :
    option json :=
  status ← encode_status (Status job);
  Some (JObject (members
    [("kind", omit_string (Kind (JobType job))); ("apiVersion", omit_string (APIVersion (JobType job)));
     ("metadata", Some (JObject (meta (Meta job)))); ("spec", Some (encode_spec (Spec job)));
     ("status", Some status)])).

(** ** Unmarshalling *)

Definition on_field {A B} (name key : string) (decoded : option B) (set : B -> A)
    (rest : option A) : option A :=
  if String.eqb key name then set <$> decoded else rest.

Definition spec_field (cur : BenchmarkJobSpec) (key : string) (v : json) :
    option BenchmarkJobSpec :=
  let 'MkSpec g w b u m := cur in
  on_field "gpuModel" key (decode_string g v) (fun g => MkSpec g w b u m) $
  on_field "workloadType" key (decode_string w v) (fun w => MkSpec g w b u m) $
  on_field "batchSize" key (decode_int b v) (fun b => MkSpec g w b u m) $
  on_field "schedulerAPIURL" key (decode_string u v) (fun u => MkSpec g w b u m) $
  on_field "maxRetries" key (decode_int m v) (fun m => MkSpec g w b u m) $
  Some cur.

Definition decode_spec : json -> option BenchmarkJobSpec :=
  decode_struct spec_field (MkSpec "" "" 0 "" 0).

Definition decode_float_ptr (v : json) : option (option float64) :=
  match v with
  | JNull => Some None
  | _ => Some <$> decode_float (S754_zero false) v
  end.

Definition decode_time_ptr (v : json) : option (option Time) :=
  match v with
  | JNull => Some None
  | JString s => Some <$> parse_time s
  | _ => None
  end.

Definition status_field (cur : BenchmarkJobStatus) (key : string) (v : json) :
    option BenchmarkJobStatus :=
  let 'MkStatus p i m r t l b s c := cur in
  on_field "phase" key (decode_string p v) (fun p => MkStatus p i m r t l b s c) $
  on_field "jobID" key (decode_string i v) (fun i => MkStatus p i m r t l b s c) $
  on_field "message" key (decode_string m v) (fun m => MkStatus p i m r t l b s c) $
  on_field "retryCount" key (decode_int r v) (fun r => MkStatus p i m r t l b s c) $
  on_field "throughput" key (decode_float_ptr v) (fun t => MkStatus p i m r t l b s c) $
  on_field "latencyMs" key (decode_float_ptr v) (fun l => MkStatus p i m r t l b s c) $
  on_field "memoryBandwidthGbps" key (decode_float_ptr v) (fun b => MkStatus p i m r t l b s c) $
  on_field "startTime" key (decode_time_ptr v) (fun s => MkStatus p i m r t l b s c) $
  on_field "completionTime" key (decode_time_ptr v) (fun c => MkStatus p i m r t l b s c) $
  Some cur.

Definition decode_status_json : json -> option BenchmarkJobStatus :=
  decode_struct status_field (MkStatus "" "" "" 0 None None None None None).
End Schema.

(** What the server stores when the operator writes a spec. *)
Definition admitted (spec : BenchmarkJobSpec) : BenchmarkJobSpec :=
  default spec (decode_spec (with_defaults spec_schema (encode_spec spec))).

Definition default_string (s d : string) : string := if decide (s = "") then d else s.
Definition default_int (z d : Z) : Z := if decide (z = 0) then d else z.

Definition spec_in_range (spec : BenchmarkJobSpec) : Prop :=
  in_int (BatchSize spec) /\ in_int (MaxRetries spec).

(** ** Lemmas *)

Lemma decode_piece {A} (step : A -> string -> json -> option A) cur cur' k o ps :
  match o with Some v => step cur k v = Some cur' | None => cur' = cur end ->
  decode_members step cur (members ((k, o) :: ps)) = decode_members step cur' (members ps).
Proof. destruct o as [v|]; cbn; [by intros ->|by intros ->]. Qed.

Lemma default_omit_string s : match omit_string s with Some v => v = JString s | None => s = "" end.
Proof. unfold omit_string. by case_decide. Qed.

Lemma decode_admitted spec :
  spec_in_range spec ->
  decode_spec (with_defaults spec_schema (encode_spec spec)) =
  Some (MkSpec (GPUModel spec) (WorkloadType spec) (BatchSize spec)
          (default_string (SchedulerAPIURL spec) crd_default_url)
          (default_int (MaxRetries spec) 3)).
Proof.
  destruct spec as [g w b u m]. intros [Hb Hm]. cbn in Hb, Hm.
  assert (in_int 3) by (split; vm_compute; discriminate).
  unfold encode_spec, omit_string, omit_int, default_string, default_int. cbn [SchedulerAPIURL MaxRetries].
  destruct (decide (u = "")) as [->|Hu]; destruct (decide (m = 0)) as [->|Hmz];
    repeat (cbn -[decode_int json_int]; rewrite decode_int_json by done); done.
Qed.

Lemma admitted_eq spec :
  spec_in_range spec ->
  admitted spec =
  MkSpec (GPUModel spec) (WorkloadType spec) (BatchSize spec)
    (default_string (SchedulerAPIURL spec) crd_default_url) (default_int (MaxRetries spec) 3).
Proof. intros Hr. unfold admitted. by rewrite decode_admitted. Qed.

(** The validation of the spec, in one test. *)
Definition crd_valid (spec : BenchmarkJobSpec) : bool :=
  bool_decide (GPUModel spec ∈ ["T4"; "V100"; "A100"; "H100"; "L40S"; "RTX4090"]) &&
  bool_decide (WorkloadType spec ∈ ["inference"; "training"]) &&
  in_range 1 1024 (BatchSize spec) &&
  in_range 0 10 (MaxRetries spec).

Lemma crd_valid_range spec : crd_valid spec = true -> spec_in_range spec.
Proof.
  unfold crd_valid, in_range, spec_in_range, in_int, int_min, int_max. intros Hv.
  apply andb_prop in Hv as [Hv [?%Z.leb_le ?%Z.leb_le]%andb_prop].
  apply andb_prop in Hv as [_ [?%Z.leb_le ?%Z.leb_le]%andb_prop]. lia.
Qed.

(** Defaulting keeps a spec valid. *)
Lemma crd_valid_admitted spec : crd_valid spec = true -> crd_valid (admitted spec) = true.
Proof.
  intros Hv. rewrite admitted_eq by by apply crd_valid_range.
  unfold crd_valid in *. cbn [GPUModel WorkloadType BatchSize MaxRetries]. unfold default_int.
  destruct (decide (MaxRetries spec = 0)); [|done].
  apply andb_prop in Hv as [Hv _]. apply andb_true_intro. by split.
Qed.

(** A spec that says everything is stored as it is. *)
Lemma admitted_id spec :
  spec_in_range spec -> SchedulerAPIURL spec <> "" -> MaxRetries spec <> 0 -> admitted spec = spec.
Proof.
  intros Hr Hu Hm. rewrite admitted_eq by done. unfold default_string, default_int.
  rewrite !decide_False by done. by destruct spec.
Qed.

(** The members of a marshalled struct. *)
Lemma member_not_key k ps : existsb (String.eqb k) ps.*1 = false -> member k (members ps) = None.
Proof.
  induction ps as [|[k' [v|]] ps IH]; cbn; [done| |].
  - intros [E1 E2]%orb_false_iff. unfold member. cbn. rewrite String.eqb_sym, E1. by apply IH.
  - intros [_ E]%orb_false_iff. by apply IH.
Qed.

Fixpoint distinct (l : list string) : bool :=
  match l with
  | [] => true
  | k :: l' => negb (existsb (String.eqb k) l') && distinct l'
  end.

Lemma member_members k ps :
  distinct ps.*1 = true ->
  member k (members ps) = mjoin (snd <$> List.find (fun p => String.eqb p.1 k) ps).
Proof.
  induction ps as [|[k' o] ps IH]; cbn; [done|].
  intros [Hk Hd]%andb_prop. apply negb_true_iff in Hk.
  destruct (String.eqb_spec k' k) as [->|Hne].
  - destruct o as [v|]; cbn; [|by apply member_not_key].
    unfold member. cbn. by rewrite String.eqb_refl.
  - destruct o as [v|]; cbn; [|by apply IH]. unfold member. cbn.
    rewrite (proj2 (String.eqb_neq k' k)) by done. by apply IH.
Qed.

Create Rewrite HintDb valid.

Section Valid.
Context `{TextFormsLaws}.

Definition valid_opt (s : schema) (o : option json) : bool :=
  match o with Some v => valid s v | None => true end.

Lemma valid_object required props l :
  valid (TObject required props) (JObject l) =
  forallb (fun k => present (member k l)) required &&
  forallb (fun p => valid_opt p.2.1 (member p.1 l)) props.
Proof. cbn. f_equal. induction props as [|[k [s d]] props IH]; cbn; [done|]. by rewrite IH. Qed.

Lemma valid_omit_string s : valid_opt (TString None) (omit_string s) = true.
Proof. unfold omit_string. by case_decide. Qed.

Lemma valid_omit_int z : valid_opt (TInteger None None) (omit_int z) = true.
Proof. unfold omit_int, json_int. case_decide; [done|]. cbn. by rewrite lit_int_fmt_d. Qed.

Lemma valid_float f : valid_opt TNumber (encode_float f) = true.
Proof. by destruct f. Qed.

Lemma valid_time t : valid_opt TDateTime (encode_time t) = true.
Proof. destruct t as [t|]; [|done]. cbn. by rewrite time_text_reads. Qed.

Hint Rewrite valid_omit_string valid_omit_int valid_float valid_time : valid.

Lemma valid_spec spec : valid spec_schema (encode_spec spec) = crd_valid spec.
Proof.
  unfold encode_spec, crd_valid, omit_string, omit_int.
  destruct (decide (SchedulerAPIURL spec = "")); destruct (decide (MaxRetries spec = 0)) as [->|];
    cbn -[lit_int bool_decide json_int fmt_d]; unfold json_int; rewrite ?lit_int_fmt_d;
    unfold in_range, at_least, at_most; by rewrite ?andb_true_r, ?andb_assoc.
Qed.

Definition status_phases : list string := ["Pending"; "Submitted"; "Running"; "Completed"; "Failed"].

Lemma valid_status st j :
  Phase st = "" \/ Phase st ∈ status_phases -> encode_status st = Some j ->
  valid status_schema j = true.
Proof.
  intros Hp. unfold encode_status. destruct (_ && _); [|done]. intros Hj. apply (inj Some) in Hj as <-.
  unfold status_schema. rewrite valid_object. cbn [forallb fst snd].
  rewrite !member_members by done. cbn -[valid_opt omit_string omit_int encode_float encode_time].
  autorewrite with valid. rewrite !andb_true_r.
  unfold omit_string. case_decide; [done|]. cbn. apply bool_decide_eq_true.
  by destruct Hp.
Qed.

Lemma valid_job meta job j :
  crd_valid (Spec job) = true -> Phase (Status job) = "" \/ Phase (Status job) ∈ status_phases ->
  encode_job meta job = Some j -> valid job_schema j = true.
Proof.
  intros Hs Hp. unfold encode_job. destruct (encode_status (Status job)) as [st|] eqn:Est; [|done].
  intros Hj. apply (inj Some) in Hj as <-.
  unfold job_schema. rewrite valid_object. cbn [forallb fst snd].
  rewrite !member_members by done.
  cbn -[valid_opt omit_string encode_spec spec_schema status_schema valid].
  autorewrite with valid. cbn [valid_opt].
  rewrite valid_spec, Hs, (valid_status (Status job) st) by done. done.
Qed.

(** What the server reads from a status, and what a client reads back. *)
Definition to_seconds (t : option Time) : option Time := (fun t => Second * (t / Second)) <$> t.

Definition truncated (st : BenchmarkJobStatus) : BenchmarkJobStatus :=
  MkStatus (Phase st) (JobID st) (Message st) (RetryCount st) (Throughput st) (LatencyMs st)
    (MemoryBandwidthGbps st) (to_seconds (StartTime st)) (to_seconds (CompletionTime st)).

Ltac piece :=
  match goal with
  | |- context [omit_string ?s] => unfold omit_string; case_decide; [by subst|done]
  | |- context [omit_int ?z] =>
      unfold omit_int; case_decide; [by subst|];
      cbn -[decode_int json_int]; by rewrite decode_int_json
  | |- context [encode_float ?f] =>
      destruct f; [|done]; unfold reads_back in *; cbn -[decode_float];
      unfold decode_float_ptr; cbn -[decode_float];
      match goal with E : decode_float _ _ = Some _ |- _ => rewrite E; reflexivity end
  | |- context [encode_time ?t] =>
      destruct t; [|done]; cbn -[decode_time_ptr]; unfold decode_time_ptr; by rewrite time_text_reads
  end.

Lemma decode_encode_status st j :
  in_int (RetryCount st) -> reads_back (Throughput st) -> reads_back (LatencyMs st) ->
  reads_back (MemoryBandwidthGbps st) -> encode_status st = Some j ->
  decode_status_json j = Some (truncated st).
Proof.
  destruct st as [p i m r t l b s c]. cbn [RetryCount Throughput LatencyMs MemoryBandwidthGbps].
  intros Hr Ht Hl Hb. unfold encode_status. destruct (_ && _); [|done]. intros Hj. apply (inj Some) in Hj as <-. unfold decode_status_json. cbn [decode_struct].
  cbn [Phase JobID Message RetryCount Throughput LatencyMs MemoryBandwidthGbps StartTime
       CompletionTime].
  rewrite (decode_piece _ _ (MkStatus p "" "" 0 None None None None None)) by piece.
  rewrite (decode_piece _ _ (MkStatus p i "" 0 None None None None None)) by piece.
  rewrite (decode_piece _ _ (MkStatus p i m 0 None None None None None)) by piece.
  rewrite (decode_piece _ _ (MkStatus p i m r None None None None None)) by piece.
  rewrite (decode_piece _ _ (MkStatus p i m r t None None None None)) by piece.
  rewrite (decode_piece _ _ (MkStatus p i m r t l None None None)) by piece.
  rewrite (decode_piece _ _ (MkStatus p i m r t l b None None)) by piece.
  rewrite (decode_piece _ _ (MkStatus p i m r t l b (to_seconds s) None)) by piece.
  rewrite (decode_piece _ _ (MkStatus p i m r t l b (to_seconds s) (to_seconds c))) by piece.
  done.
Qed.
End Valid.
