(* ===== verification/Lifecycle.v ===== *)
(** * The lifecycle of a BenchmarkJob: abstract machine and refinement

    The abstract machine has one step per transition of the phase state
    machine and two for the finalizer.  The API server is the interface
    [Cluster]: a store of objects, a handler for the calls of the
    reconciler, and laws (optimistic concurrency, the status subresource,
    other clients acting at any time between two calls).  Against that
    interface every [Reconcile] is shown to be at most one step of the
    machine, and what every reachable status satisfies is proved on the
    machine. *)
From S2P Require Export CRD.

(** ** The abstract machine *)

(** The retry limit in force: zero stands for the default. *)
Definition retry_limit (spec : BenchmarkJobSpec) : Z :=
  if MaxRetries spec =? 0 then 3 else MaxRetries spec.

Definition known_phase (p : string) : bool :=
  bool_decide (p ∈ [""; PhasePending; PhaseSubmitted; PhaseRunning; PhaseCompleted; PhaseFailed]).

(** The transitions of a status under a spec. *)
Inductive status_step (spec : BenchmarkJobSpec) (st : BenchmarkJobStatus) :
    BenchmarkJobStatus -> Prop :=
| step_submit id now :
    Phase st = "" \/ Phase st = PhasePending ->
    status_step spec st
      (MkStatus PhaseSubmitted id ("submitted to backend; jobID=" +:+ id) (RetryCount st)
         (Throughput st) (LatencyMs st) (MemoryBandwidthGbps st) (Some now) (CompletionTime st))
| step_run :
    Phase st = PhaseSubmitted ->
    status_step spec st
      (MkStatus PhaseRunning (JobID st) "execution in progress" (RetryCount st)
         (Throughput st) (LatencyMs st) (MemoryBandwidthGbps st) (StartTime st)
         (CompletionTime st))
| step_complete m now :
    Phase st = PhaseRunning -> metrics_finite m ->
    status_step spec st
      (MkStatus PhaseCompleted (JobID st) "benchmark execution successful" (RetryCount st)
         (Some (m_Throughput m)) (Some (m_LatencyMs m)) (Some (m_MemoryBandwidthGbps m))
         (StartTime st) (Some now))
| step_complete_bare now :
    Phase st = PhaseRunning ->
    status_step spec st
      (MkStatus PhaseCompleted (JobID st) "benchmark execution successful" (RetryCount st)
         (Throughput st) (LatencyMs st) (MemoryBandwidthGbps st) (StartTime st) (Some now))
| step_retry :
    Phase st = PhaseSubmitted \/ Phase st = PhaseRunning ->
    RetryCount st < retry_limit spec ->
    status_step spec st
      (MkStatus PhasePending ""
         ("retry " +:+ fmt_d (wrap_int (RetryCount st + 1)) +:+ "/" +:+ fmt_d (retry_limit spec)
            +:+ " after backend failure")
         (wrap_int (RetryCount st + 1)) (Throughput st) (LatencyMs st)
         (MemoryBandwidthGbps st) (StartTime st) (CompletionTime st))
| step_fail now :
    Phase st = PhaseSubmitted \/ Phase st = PhaseRunning ->
    retry_limit spec <= RetryCount st ->
    status_step spec st
      (MkStatus PhaseFailed (JobID st) ("failed after " +:+ fmt_d (RetryCount st) +:+ " retries")
         (RetryCount st) (Throughput st) (LatencyMs st) (MemoryBandwidthGbps st)
         (StartTime st) (Some now))
| step_reset :
    known_phase (Phase st) = false ->
    status_step spec st
      (MkStatus PhasePending (JobID st) "unknown phase reset by operator" (RetryCount st)
         (Throughput st) (LatencyMs st) (MemoryBandwidthGbps st) (StartTime st)
         (CompletionTime st)).

Section Machine.
Context `{Machinery}.

(** The object is live and protected by the finalizer. *)
Definition active (job : BenchmarkJob) : Prop :=
  TimeIsZero (DeletionTimestamp (Meta job)) = true /\
  ContainsFinalizer (Meta job) benchmarkJobFinalizer = true.

(** The writes a reconciliation of [job] may ask for. *)
Inductive job_write (job : BenchmarkJob) : api_op -> Prop :=
| write_status st :
    active job -> status_step (Spec job) (Status job) st ->
    job_write job (ApiStatusUpdate (set_status job st))
| write_add :
    TimeIsZero (DeletionTimestamp (Meta job)) = true ->
    ContainsFinalizer (Meta job) benchmarkJobFinalizer = false ->
    job_write job (ApiUpdate (set_meta job (AddFinalizer (Meta job) benchmarkJobFinalizer)))
| write_remove :
    TimeIsZero (DeletionTimestamp (Meta job)) = false ->
    ContainsFinalizer (Meta job) benchmarkJobFinalizer = true ->
    job_write job (ApiUpdate (set_meta job (RemoveFinalizer (Meta job) benchmarkJobFinalizer))).

(** The program ends: it makes no further call. *)
Definition ends {A} (p : op_prog A) : Prop :=
  match p with Call _ _ => False | _ => True end.

(** The program reads nothing and writes at most once, as its last call. *)
Fixpoint one_write {A} (Wr : api_op -> Prop) (p : op_prog A) : Prop :=
  match p with
  | Return _ | Panic _ => True
  | Call o k =>
      match o return (ar op_sig o -> op_prog A) -> (ar op_sig o -> Prop) -> Prop with
      | Own (ApiGet _) => fun _ _ => False
      | Own c => fun k _ => Wr c /\ forall x, ends (k x)
      | _ => fun _ rec => forall x, rec x
      end k (fun x => one_write Wr (k x))
  end.

End Machine.

(** ** The API server *)

Definition status_empty : BenchmarkJobStatus :=
  MkStatus "" "" "" 0 None None None None None.

Abbreviation store := (gmap NamespacedName BenchmarkJob).

(** What the other clients do to the store: create an object (its status is
    dropped, as the status is a subresource), change anything but the status
    of one, or remove one.  The server admits valid specs only. *)
Inductive user_step (s : store) : store -> Prop :=
| user_create n job :
    s !! n = None -> job_key job = n -> crd_valid (Spec job) = true ->
    Status job = status_empty -> user_step s (<[n := job]> s)
| user_edit n cur job :
    s !! n = Some cur -> job_key job = n -> crd_valid (Spec job) = true ->
    Status job = Status cur -> user_step s (<[n := job]> s)
| user_remove n : user_step s (delete n s).

Definition set_version (m : ObjectMeta) (v : string) : ObjectMeta :=
  {| Name := Name m; Namespace := Namespace m; ResourceVersion := v;
     DeletionTimestamp := DeletionTimestamp m; Finalizers := Finalizers m |}.

(** The store after a status update of [cur] was applied. *)
Definition put_status (s : store) (cur job : BenchmarkJob) (v : string) : store :=
  <[job_key cur := MkJob (JobType cur) (set_version (Meta cur) v) (Spec cur) (Status job)]> s.

(** The store after an update of [cur] was applied: the spec is defaulted,
    the status is kept, and an object marked for deletion goes with its last finalizer. *)
Definition put_object (s : store) (cur job : BenchmarkJob) (v : string) : store :=
  if bool_decide (DeletionTimestamp (Meta cur) <> None) &&
     bool_decide (Finalizers (Meta job) = [])
  then delete (job_key cur) s
  else <[job_key cur :=
          MkJob (JobType cur)
            (set_finalizers (set_version (Meta cur) v) (Finalizers (Meta job)))
            (admitted (Spec job)) (Status cur)]> s.

(** The write [job] is based on the object [base] that was read. *)
Definition based_on (base job : BenchmarkJob) : Prop :=
  job_key job = job_key base /\ ResourceVersion (Meta job) = ResourceVersion (Meta base).

(** The API server: a store, a handler, and the objects it has served. *)
Class Cluster (W : Type) : Type := {
  cl_handler : handler op_sig W;
  stored : W -> store;
  served : W -> BenchmarkJob -> Prop
}.

(** Its documented behaviour.  Other clients may act during any call.  A
    write that names the resource version of an object it was served is
    applied only to that very object; a failed write was either not applied
    or its answer was lost. *)
Class ClusterLaws (W : Type) `{Cluster W} : Prop := {
  law_quiet o w w' x :
    match o with Own (ApiUpdate _) | Own (ApiStatusUpdate _) => False | _ => True end ->
    cl_handler o w = (w', x) ->
    rtc user_step (stored w) (stored w') /\ (forall j, served w j -> served w' j);
  law_get n w w' job :
    cl_handler (Own (ApiGet n)) w = (w', inr job) -> served w' job /\ job_key job = n;
  law_status base job w w' x :
    served w base -> based_on base job ->
    cl_handler (Own (ApiStatusUpdate job)) w = (w', x) ->
    (exists s v, rtc user_step (stored w) s /\ s !! job_key base = Some base /\
       rtc user_step (put_status s base job v) (stored w')) \/
    (x <> None /\ rtc user_step (stored w) (stored w'));
  law_update base job w w' x :
    served w base -> based_on base job ->
    cl_handler (Own (ApiUpdate job)) w = (w', x) ->
    (exists s v, rtc user_step (stored w) s /\ s !! job_key base = Some base /\
       rtc user_step (put_object s base job v) (stored w')) \/
    (x <> None /\ rtc user_step (stored w) (stored w'))
}.

(** A step of the machine on the object [n] of the store. *)
Inductive machine_step `{Machinery} (n : NamespacedName) (s : store) : store -> Prop :=
| machine_status cur st v :
    s !! n = Some cur -> job_key cur = n -> active cur ->
    status_step (Spec cur) (Status cur) st ->
    machine_step n s
      (<[n := MkJob (JobType cur) (set_version (Meta cur) v) (Spec cur) st]> s)
| machine_protect cur v :
    s !! n = Some cur -> job_key cur = n ->
    TimeIsZero (DeletionTimestamp (Meta cur)) = true ->
    benchmarkJobFinalizer ∉ Finalizers (Meta cur) ->
    machine_step n s
      (put_object s cur (set_meta cur (set_finalizers (Meta cur)
                           (Finalizers (Meta cur) ++ [benchmarkJobFinalizer]))) v)
| machine_release cur v :
    s !! n = Some cur -> job_key cur = n ->
    TimeIsZero (DeletionTimestamp (Meta cur)) = false ->
    benchmarkJobFinalizer ∈ Finalizers (Meta cur) ->
    machine_step n s
      (put_object s cur (set_meta cur (set_finalizers (Meta cur)
                           (filter (fun g => g <> benchmarkJobFinalizer)
                              (Finalizers (Meta cur))))) v).

(** The whole system: reconciliations of any object, and the other clients. *)
Inductive sys_step `{Machinery} {W} `{Cluster W} (w : W) : W -> Prop :=
| sys_reconcile r n :
    sys_step w (ex_world (run cl_handler (Reconcile (SetupWithManager r) n) w))
| sys_users w' : user_step (stored w) (stored w') -> sys_step w w'.

(** ** Every handler writes at most once, and what the machine allows *)

Section Writes.
Context `{Machinery}.

Lemma one_write_mono {A} (P Q : api_op -> Prop) (p : op_prog A) :
  (forall c, P c -> Q c) -> one_write P p -> one_write Q p.
Proof.
  intros HPQ. induction p as [a|m|o k IH]; [done..|].
  destruct o as [q| |[n|j|j]]; simpl; intros Hp; try (by intros x; apply IH, Hp); [done|..];
    destruct Hp; auto.
Qed.

Lemma one_write_Get (c : option http_Client) url {A} P (f : error + Response -> op_prog A) :
  (forall x, one_write P (f x)) -> one_write P (bind (client_Get c url) f).
Proof.
  intros Hf. unfold client_Get. destruct (NewRequest _ _ _); [apply Hf|].
  destruct c; [exact Hf|exact I].
Qed.

Lemma one_write_Post (c : option http_Client) url ct body {A} P
    (f : error + Response -> op_prog A) :
  (forall x, one_write P (f x)) -> one_write P (bind (client_Post c url ct body) f).
Proof.
  intros Hf. unfold client_Post. destruct (NewRequest _ _ _); [apply Hf|].
  destruct c; [exact Hf|exact I].
Qed.

Lemma one_write_Do (c : option http_Client) q {A} P (f : error + Response -> op_prog A) :
  (forall x, one_write P (f x)) -> one_write P (bind (client_Do c q) f).
Proof. intros Hf. destruct q, c; [exact Hf|exact I..]. Qed.

Lemma setPhase_one_write P job phase message :
  (forall st, st = MkStatus phase (JobID (Status job)) message (RetryCount (Status job))
       (Throughput (Status job)) (LatencyMs (Status job)) (MemoryBandwidthGbps (Status job))
       (StartTime (Status job)) (CompletionTime (Status job)) ->
     P (ApiStatusUpdate (set_status job st))) ->
  one_write P (setPhase job phase message).
Proof. intros HP. split; [by apply HP|]. by intros [e|]. Qed.

Lemma client_update_one_write P job (f : option error -> op_prog reconcile_result) :
  P (ApiUpdate job) -> (forall x, ends (f x)) ->
  one_write P (bind (client_update job) f).
Proof. by split. Qed.

Lemma set_status_twice job a b : set_status (set_status job a) b = set_status job b.
Proof. reflexivity. Qed.

(** The status write a transition ends with, as a step of the machine. *)
Lemma setPhase_step job st phase message :
  active job ->
  status_step (Spec job) (Status job)
    (MkStatus phase (JobID st) message (RetryCount st) (Throughput st) (LatencyMs st)
       (MemoryBandwidthGbps st) (StartTime st) (CompletionTime st)) ->
  one_write (job_write job) (setPhase (set_status job st) phase message).
Proof.
  intros Hact Hst. apply setPhase_one_write. intros st' ->. rewrite set_status_twice.
  by apply write_status.
Qed.

Variable r : BenchmarkJobReconciler.

Lemma handlePending_writes job :
  active job -> Phase (Status job) = "" \/ Phase (Status job) = PhasePending ->
  one_write (job_write job) (handlePending r job).
Proof.
  intros Hact Hph. apply one_write_Post. intros [e|resp]; [done|].
  destruct (_ && _); [done|]. destruct (decode_body _ _ _) as [res|]; [|done].
  intros now. apply setPhase_step; [done|cbn]. by apply (step_submit _ _ (sub_JobID res) now).
Qed.

Lemma handleFailure_writes job :
  active job -> Phase (Status job) = PhaseSubmitted \/ Phase (Status job) = PhaseRunning ->
  one_write (job_write job) (handleFailure job).
Proof.
  intros Hact Hph. unfold handleFailure. fold (retry_limit (Spec job)).
  destruct (Z.ltb_spec (RetryCount (Status job)) (retry_limit (Spec job))) as [Hlt|Hge].
  - apply setPhase_step; [done|cbn]. by apply step_retry.
  - intros now. apply setPhase_step; [done|cbn]. by apply (step_fail _ _ now).
Qed.

Lemma handleSubmitted_writes job :
  active job -> Phase (Status job) = PhaseSubmitted ->
  one_write (job_write job) (handleSubmitted r job).
Proof.
  intros Hact Hph. unfold handleSubmitted, pollBackend.
  unfold client_Get. destruct (NewRequest _ _ _); [done|].
  destruct (HTTPClient r); [|done]. intros [e|resp]; [done|]. cbn [bind].
  destruct (decode_body _ _ _) as [status|]; [|done]. cbn [bind].
  case_bool_decide; [|case_bool_decide; [done|case_bool_decide; [|done]]].
  - apply setPhase_one_write. intros st ->. by apply (write_status job), step_run.
  - apply handleFailure_writes; auto.
Qed.

Lemma handleRunning_writes job :
  active job -> Phase (Status job) = PhaseRunning ->
  one_write (job_write job) (handleRunning r job).
Proof.
  intros Hact Hph. apply one_write_Get. intros [e|resp]; [done|].
  destruct (decode_body _ _ _) as [res|] eqn:Hres; [|done].
  case_bool_decide; [|case_bool_decide; [|done]].
  - intros now. destruct (poll_Result res) as [m|] eqn:Hm; apply setPhase_step; try done; cbn;
      [by apply (step_complete _ _ m now); [|eapply decode_poll_finite]|by apply (step_complete_bare _ _ now)].
  - apply handleFailure_writes; auto.
Qed.

Lemma handleDeletion_writes job :
  TimeIsZero (DeletionTimestamp (Meta job)) = false ->
  one_write (job_write job) (handleDeletion r job).
Proof.
  intros Hdel. unfold handleDeletion. destruct (ContainsFinalizer _ _) eqn:Hf; [|done].
  destruct (cancels job); [apply one_write_Do; intros x|];
    (apply client_update_one_write; [by apply write_remove|by intros [e|]]).
Qed.

(** The dispatch of [Reconcile] on the object that was read. *)
Definition reconcile_job (job : BenchmarkJob) : op_prog reconcile_result :=
  if negb (TimeIsZero (DeletionTimestamp (Meta job))) then handleDeletion r job
  else if negb (ContainsFinalizer (Meta job) benchmarkJobFinalizer) then
    let job := set_meta job (AddFinalizer (Meta job) benchmarkJobFinalizer) in
    let! err := client_update job in
    match err with
    | Some e => Return (Result_zero, Some (ErrWrap "add finalizer" e))
    | None => Return (MkResult true 0, None)
    end
  else
    let phase := Phase (Status job) in
    if bool_decide (phase = "") || bool_decide (phase = PhasePending) then handlePending r job
    else if bool_decide (phase = PhaseSubmitted) then handleSubmitted r job
    else if bool_decide (phase = PhaseRunning) then handleRunning r job
    else if bool_decide (phase = PhaseCompleted) || bool_decide (phase = PhaseFailed)
         then Return (Result_zero, None)
    else setPhase job PhasePending "unknown phase reset by operator".

Lemma Reconcile_unfold req :
  Reconcile r req =
  Call (S := op_sig) (Own (ApiGet req)) (fun got =>
    match got with
    | inl e =>
        if IsNotFound e then Return (Result_zero, None)
        else Return (Result_zero, Some (ErrWrap "get BenchmarkJob" e))
    | inr job => reconcile_job job
    end).
Proof. reflexivity. Qed.

Lemma reconcile_job_writes job : one_write (job_write job) (reconcile_job job).
Proof.
  unfold reconcile_job. destruct (TimeIsZero _) eqn:Hdel; [|by apply handleDeletion_writes].
  destruct (ContainsFinalizer _ _) eqn:Hf; cbn [negb].
  2: { apply client_update_one_write; [by apply write_add|by intros [e|]]. }
  assert (active job) as Hact by done.
  repeat case_bool_decide; cbn [orb];
    auto using handlePending_writes, handleSubmitted_writes, handleRunning_writes; try done.
  apply setPhase_one_write. intros st ->. apply (write_status job); [done|cbn].
  apply step_reset. unfold known_phase. apply bool_decide_eq_false_2.
  rewrite !elem_of_cons, elem_of_nil. tauto.
Qed.
End Writes.

(** ** Refinement: a reconciliation is at most one step of the machine *)

(** Other clients, at most one machine step, other clients again. *)
Definition machine_reaches `{Machinery} (n : NamespacedName) (s s' : store) : Prop :=
  exists s1 s2, rtc user_step s s1 /\ (s1 = s2 \/ machine_step n s1 s2) /\ rtc user_step s2 s'.

Section Refinement.
Context `{Mach : Machinery} `{MachL : !MachineryLaws} {W} `{Cl : Cluster W} `{ClL : !ClusterLaws W}.

Lemma machine_reaches_quiet n s s' : rtc user_step s s' -> machine_reaches n s s'.
Proof. intros Hs. exists s', s'. auto using rtc_refl. Qed.

Lemma machine_reaches_l n s s' s'' :
  rtc user_step s s' -> machine_reaches n s' s'' -> machine_reaches n s s''.
Proof.
  intros Hs (s1 & s2 & H1 & H2 & H3). exists s1, s2. split_and!; [by etrans|done..].
Qed.

Lemma job_write_based base c :
  job_write base c ->
  match c with
  | ApiGet _ => False
  | ApiUpdate job | ApiStatusUpdate job => based_on base job
  end.
Proof.
  destruct 1 as [st|Hd Hf|Hd Hf]; [done|..].
  - rewrite AddFinalizer_spec by by apply ContainsFinalizer_false. done.
  - by rewrite RemoveFinalizer_spec.
Qed.

Lemma job_write_machine base c s v :
  job_write base c -> s !! job_key base = Some base ->
  match c with
  | ApiGet _ => True
  | ApiUpdate job => machine_step (job_key base) s (put_object s base job v)
  | ApiStatusUpdate job => machine_step (job_key base) s (put_status s base job v)
  end.
Proof.
  intros Hw Hs. destruct Hw as [st Hact Hst|Hd Hf|Hd Hf].
  - by apply (machine_status (job_key base) s base st v).
  - apply ContainsFinalizer_false in Hf. rewrite AddFinalizer_spec by done.
    by apply (machine_protect (job_key base) s base v).
  - apply ContainsFinalizer_spec in Hf. rewrite RemoveFinalizer_spec.
    by apply (machine_release (job_key base) s base v).
Qed.

Lemma run_ends {A} (p : op_prog A) w : ends p -> ex_world (run cl_handler p w) = w.
Proof. by destruct p. Qed.

(** Both writes at once: what the laws say of a write of the machine. *)
Lemma law_write base c w w' x :
  served w base -> job_write base c -> cl_handler (Own c) w = (w', x) ->
  machine_reaches (job_key base) (stored w) (stored w').
Proof.
  intros Hs Hw E. pose proof (job_write_based _ _ Hw) as Hb.
  destruct c as [n|job|job]; [done|..];
    [destruct (law_update _ _ _ _ _ Hs Hb E) as [(s & v & H1 & H2 & H3)|[_ Hq]]
    |destruct (law_status _ _ _ _ _ Hs Hb E) as [(s & v & H1 & H2 & H3)|[_ Hq]]];
    try (by apply machine_reaches_quiet);
    (eexists _, _; split_and!; [exact H1|right|exact H3]);
    exact (job_write_machine base _ s v Hw H2).
Qed.

Lemma run_one_write {A} (p : op_prog A) base w :
  served w base -> one_write (job_write base) p ->
  machine_reaches (job_key base) (stored w) (stored (ex_world (run cl_handler p w))).
Proof.
  revert w. induction p as [a|m|o k IH]; intros w Hs Hp;
    [by apply machine_reaches_quiet, rtc_refl..|].
  cbn [run]. destruct (cl_handler o w) as [w1 x] eqn:E. cbn [ex_world].
  destruct o as [q| |c].
  - destruct (law_quiet (Do q) _ _ _ I E) as [Hq Hsv].
    eapply machine_reaches_l; [exact Hq|]. apply IH; [auto|apply Hp].
  - destruct (law_quiet Now _ _ _ I E) as [Hq Hsv].
    eapply machine_reaches_l; [exact Hq|]. apply IH; [auto|apply Hp].
  - assert (job_write base c /\ ends (k x)) as [Hw Hends].
    { destruct c; [destruct Hp|destruct Hp; auto..]. }
    rewrite run_ends by done. by eapply law_write.
Qed.

Lemma Reconcile_machine r n w :
  machine_reaches n (stored w) (stored (ex_world (run cl_handler (Reconcile r n) w))).
Proof.
  rewrite Reconcile_unfold. cbn [run]. destruct (cl_handler _ w) as [w1 got] eqn:E.
  cbn [ex_world]. destruct (law_quiet (Own (ApiGet n)) _ _ _ I E) as [Hq _].
  eapply machine_reaches_l; [exact Hq|].
  destruct got as [e|job].
  - destruct (IsNotFound e); apply machine_reaches_quiet, rtc_refl.
  - apply law_get in E as [Hs <-]. by eapply run_one_write, reconcile_job_writes.
Qed.

(** A property of stores that the machine and the other clients keep holds
    of every reachable store. *)
Lemma sys_invariant (I : store -> Prop) :
  (forall s s', I s -> user_step s s' -> I s') ->
  (forall n s s', I s -> machine_step n s s' -> I s') ->
  forall w w', I (stored w) -> rtc sys_step w w' -> I (stored w').
Proof.
  intros Huser Hmachine w w' HI Hw. revert HI.
  assert (forall s s', I s -> rtc user_step s s' -> I s') as Husers.
  { intros s s' Hs Hss. revert Hs. induction Hss; eauto. }
  induction Hw as [|w1 w2 w3 Hstep Hw IH]; intros HI; [done|]. apply IH.
  destruct Hstep as [r n|w2 Hu]; [|by eapply Huser].
  destruct (Reconcile_machine (SetupWithManager r) n w1) as (s1 & s2 & H1 & [->|H2] & H3);
    eauto.
Qed.
End Refinement.

(** ** The invariant of a status *)

(** What a status that only the operator writes satisfies, given that the
    limit in force was never above [bound]. *)
Record status_inv (bound : Z) (st : BenchmarkJobStatus) : Prop := {
  inv_phase : known_phase (Phase st) = true;
  inv_retry : 0 <= RetryCount st <= bound;
  inv_pending : Phase st = "" \/ Phase st = PhasePending -> JobID st = "";
  inv_started :
    Phase st = PhaseSubmitted \/ Phase st = PhaseRunning \/ Phase st = PhaseCompleted \/
    Phase st = PhaseFailed -> StartTime st <> None;
  inv_finished :
    CompletionTime st <> None <-> Phase st = PhaseCompleted \/ Phase st = PhaseFailed;
  inv_metrics : Throughput st <> None -> Phase st = PhaseCompleted;
  inv_metrics_together :
    (Throughput st = None <-> LatencyMs st = None) /\
    (Throughput st = None <-> MemoryBandwidthGbps st = None);
  inv_finite :
    finite_ptr (Throughput st) && finite_ptr (LatencyMs st) &&
    finite_ptr (MemoryBandwidthGbps st) = true
}.

(** Close a goal by case analysis on phases, which are distinct constants. *)
Ltac phases :=
  unfold known_phase, PhasePending, PhaseSubmitted, PhaseRunning, PhaseCompleted, PhaseFailed in *;
  intuition (congruence || discriminate).

Lemma status_inv_empty bound : 0 <= bound -> status_inv bound status_empty.
Proof. intros Hb. constructor; simpl; try lia; try done; phases. Qed.

(** Before the end of a job neither its end time nor a metric is set. *)
Lemma status_inv_open bound st :
  status_inv bound st -> Phase st <> PhaseCompleted -> Phase st <> PhaseFailed ->
  CompletionTime st = None /\ Throughput st = None.
Proof.
  intros [] Hc Hf. split.
  - destruct (CompletionTime st); [|done]. by destruct inv_finished0 as [[]].
  - destruct (Throughput st); [|done]. by destruct Hc; auto.
Qed.

Lemma status_step_inv bound spec st st' :
  retry_limit spec <= bound -> bound < int_max ->
  status_step spec st st' -> status_inv bound st -> status_inv bound st'.
Proof.
  intros Hlim Hbound Hstep Hinv. pose proof (status_inv_open _ _ Hinv) as Hopen.
  destruct Hinv as [H1 H2 H3 H4 H5 H6 H7 H8].
  assert (RetryCount st < retry_limit spec -> wrap_int (RetryCount st + 1) = RetryCount st + 1)
    as Hwrap.
  { intros Hlt. apply wrap_int_id. unfold in_int, int_min, int_max in *. lia. }
  destruct Hstep as [id now Hp|Hp|m now Hp (F1 & F2 & F3)|now Hp|Hp Hlt|now Hp Hge|Hp]; [..|congruence];
    (destruct Hopen as [E1 E2]; [phases|phases|]); rewrite ?E1, ?E2 in *; simpl in *;
    rewrite ?Hwrap by done;
    (constructor; simpl; [by vm_compute|lia|phases..|first [done|by rewrite F1, F2, F3]]).
Qed.

(** ** The invariant of the store *)

(** The largest limit the CRD lets in force. *)
Definition retry_bound : Z := 10.

Definition object_inv (n : NamespacedName) (job : BenchmarkJob) : Prop :=
  job_key job = n /\ crd_valid (Spec job) = true /\ status_inv retry_bound (Status job).

Definition store_inv (s : store) : Prop := map_Forall object_inv s.

Lemma crd_valid_limit spec : crd_valid spec = true -> 1 <= retry_limit spec <= retry_bound.
Proof.
  unfold crd_valid, retry_limit, retry_bound, in_range. intros H.
  apply andb_prop in H as [_ H]. apply andb_prop in H as [?%Z.leb_le ?%Z.leb_le].
  destruct (Z.eqb_spec (MaxRetries spec) 0); lia.
Qed.

Lemma store_inv_user s s' : store_inv s -> user_step s s' -> store_inv s'.
Proof.
  intros Hs Hu. destruct Hu as [n job _ Hk Hv Hst|n cur job Hc Hk Hv Hst|n].
  - apply map_Forall_insert_2; [|done]. split_and!; [done|done|].
    rewrite Hst. by apply status_inv_empty.
  - apply map_Forall_insert_2; [|done]. split_and!; [done|done|].
    rewrite Hst. by destruct (Hs _ _ Hc) as (_ & _ & ?).
  - by apply map_Forall_delete.
Qed.

Lemma store_inv_put_object s n cur job v :
  store_inv s -> s !! n = Some cur -> Spec job = Spec cur -> store_inv (put_object s cur job v).
Proof.
  intros Hs Hc Hsp. destruct (Hs _ _ Hc) as (Hk & Hv & Hst). unfold put_object.
  destruct (_ && _); [by apply map_Forall_delete|].
  apply map_Forall_insert_2; [|done]. split_and!; [done| |done].
  cbn [Spec]. rewrite Hsp. by apply crd_valid_admitted.
Qed.

Lemma store_inv_machine `{Machinery} n s s' :
  store_inv s -> machine_step n s s' -> store_inv s'.
Proof.
  intros Hs Hm. destruct Hm as [cur st v Hc Hk Hact Hst|cur v Hc Hk _ _|cur v Hc Hk _ _];
    [|by eapply store_inv_put_object..].
  destruct (Hs _ _ Hc) as (_ & Hv & Hinv).
  apply map_Forall_insert_2; [|done]. split_and!; [done|done|].
  eapply status_step_inv; [apply crd_valid_limit, Hv|by vm_compute|exact Hst|done].
Qed.
