(* ===== verification/SimCluster.v ===== *)
(** * An API server that meets the interface

    A store with resource versions, a clock, injected write faults, and a
    backend behind the HTTP transport.  It shows that the laws of [Cluster]
    can hold and is what the concrete runs of the reconciler are evaluated
    on. *)
From S2P Require Export Lifecycle.

(** What answers the HTTP requests. *)
Class Backend (B : Type) : Type := serve : Request -> B -> B * (error + Response).

Record sim (B : Type) : Type := MkSim {
  sim_store : store;
  sim_backend : B;
  sim_faults : list bool;
  sim_clock : Z
}.
Arguments MkSim {B}.
Arguments sim_store {B}.
Arguments sim_backend {B}.
Arguments sim_faults {B}.
Arguments sim_clock {B}.

Definition set_store {B} (w : sim B) (s : store) : sim B :=
  MkSim s (sim_backend w) (tail (sim_faults w)) (sim_clock w + 1).

Definition conflict_error : error :=
  ErrLeaf "Conflict" "the object has been modified; please apply your changes to the latest version".
Definition not_found_error : error := ErrLeaf not_found_reason "not found".
Definition fault_error : error := ErrLeaf "ServiceUnavailable" "the server is unavailable".
Definition timeout_error : error := ErrLeaf "" "context deadline exceeded".

(** A write of [job] with the effect [put] on the object it is based on. *)
Definition sim_write {B} (put : store -> BenchmarkJob -> BenchmarkJob -> string -> store)
    (job : BenchmarkJob) (w : sim B) : sim B * option error :=
  if default false (head (sim_faults w)) then (set_store w (sim_store w), Some fault_error)
  else match sim_store w !! job_key job with
  | None => (set_store w (sim_store w), Some not_found_error)
  | Some cur =>
      if bool_decide (ResourceVersion (Meta cur) = ResourceVersion (Meta job))
      then (set_store w (put (sim_store w) cur job (fmt_d (sim_clock w))), None)
      else (set_store w (sim_store w), Some conflict_error)
  end.

Definition sim_handler {B} `{Backend B} : handler op_sig (sim B) :=
  fun o w =>
    match o return sim B * ar op_sig o with
    | Do q =>
        let '(b, resp) := serve q (sim_backend w) in
        (MkSim (sim_store w) b (sim_faults w) (sim_clock w), resp)
    | Now => (MkSim (sim_store w) (sim_backend w) (sim_faults w) (sim_clock w + 1), sim_clock w)
    | Own (ApiGet n) =>
        (w, match sim_store w !! n with
            | Some job => if bool_decide (job_key job = n) then inr job else inl not_found_error
            | None => inl not_found_error
            end)
    | Own (ApiUpdate job) => sim_write put_object job w
    | Own (ApiStatusUpdate job) => sim_write put_status job w
    end.

#[export] Instance sim_cluster {B} `{Backend B} : Cluster (sim B) := {|
  cl_handler := sim_handler;
  stored := sim_store;
  served w j := sim_store w !! job_key j = Some j
|}.

Lemma sim_write_law {B} put base job (w w' : sim B) x :
  sim_store w !! job_key base = Some base -> based_on base job ->
  sim_write put job w = (w', x) ->
  (exists s v, rtc user_step (sim_store w) s /\ s !! job_key base = Some base /\
     rtc user_step (put s base job v) (sim_store w')) \/
  (x <> None /\ rtc user_step (sim_store w) (sim_store w')).
Proof.
  intros Hs [Hk Hv]. unfold sim_write. rewrite Hk, Hs.
  destruct (default false _); [intros [= <- <-]; right; split; [done|apply rtc_refl]|].
  rewrite bool_decide_eq_true_2 by done. intros [= <- <-]. left.
  exists (sim_store w), (fmt_d (sim_clock w)). split_and!; [apply rtc_refl|done|apply rtc_refl].
Qed.

#[export] Instance sim_cluster_laws {B} `{Backend B} : ClusterLaws (sim B).
Proof.
  constructor.
  - intros [q| |[n|job|job]] w w' x Ho; [..|done|done]; cbn.
    + destruct (serve q _) as [b resp]. intros [= <- <-]. split; [apply rtc_refl|done].
    + intros [= <- <-]. split; [apply rtc_refl|done].
    + intros [= <- <-]. split; [apply rtc_refl|done].
  - intros n w w' job. cbn. destruct (sim_store w !! n) as [j|] eqn:E; [|done].
    case_bool_decide as Hk; [|done]. intros [= <- <-]. by rewrite Hk.
  - intros base job w w' x Hs Hb. by apply sim_write_law.
  - intros base job w w' x Hs Hb. by apply sim_write_law.
Qed.

(** ** A backend that plays a script *)

Abbreviation script := (list (error + Response)).

#[export] Instance script_backend : Backend script :=
  fun _ b => match b with
             | [] => ([], inl timeout_error)
             | a :: b' => (b', a)
             end.

(** Run [Reconcile] of one object [n] times. *)
Fixpoint reconcile_times {W} `{Machinery} (h : handler op_sig W) (r : BenchmarkJobReconciler)
    (key : NamespacedName) (n : nat) (w : W) : W :=
  match n with
  | O => w
  | S n' => reconcile_times h r key n' (ex_world (run h (Reconcile r key) w))
  end.

(** ** A concrete object, and the run of a job to its end *)

Definition demo_key : NamespacedName := MkName "default" "test-h100-benchmark".

Definition demo_spec : BenchmarkJobSpec := MkSpec "H100" "inference" 32 "http://mock-server" 3.

Definition demo_job (finalizers : list string) (st : BenchmarkJobStatus) : BenchmarkJob :=
  MkJob (MkTypeMeta "BenchmarkJob" "benchmarks.gpu-platform.io/v1alpha1")
    (MkMeta "test-h100-benchmark" "default" "1" None finalizers) demo_spec st.

Definition demo_reconciler : BenchmarkJobReconciler := SetupWithManager (MkReconciler None).

Definition json_text (l : list (string * string)) : string :=
  print_json (JObject (map (fun kv => (fst kv, JString (snd kv))) l)).

Definition resp_accepted : Response :=
  MkResponse 202 (json_text [("job_id", "test-uuid-1234"); ("status", "queued")]).
Definition resp_status (s : string) : Response := MkResponse 200 (json_text [("status", s)]).
Definition resp_completed : Response :=
  MkResponse 200 (print_json (JObject
    [("status", JString "completed");
     ("result", JObject [("throughput", JNumber "687.5"); ("latency_ms", JNumber "4.21");
                         ("memory_bandwidth_gbps", JNumber "1243.7")])])).

Definition demo_world (job : BenchmarkJob) (answers : script) : sim script :=
  MkSim {[demo_key := job]} answers [] 100.

Definition demo_status (w : sim script) : option BenchmarkJobStatus :=
  Status <$> sim_store w !! demo_key.

Example demo_run_completes :
  let w := reconcile_times cl_handler demo_reconciler demo_key 5
             (demo_world (demo_job [] status_empty)
                [inr resp_accepted; inr (resp_status "queued"); inr (resp_status "running");
                 inr resp_completed]) in
  Phase <$> demo_status w = Some PhaseCompleted /\
  JobID <$> demo_status w = Some "test-uuid-1234" /\
  Throughput <$> demo_status w = Some (parse_decimal false 6875 (-1)).
Proof. vm_compute. split_and!; reflexivity. Qed.
