(* ===== verification/OperatorTraces.v ===== *)
(** * What a reconciliation does, over every outside world

    The requests, the writes, the result and the panics of each handler, as
    one summary proved with the weakest precondition of the program: it holds
    whatever the API server, the backend and the clock answer. *)
From S2P Require Export SimCluster.

Section Summary.
Context `{Machinery}.

(** The one request a reconciliation of [job] may send, by its state. *)
Inductive allowed_request (job : BenchmarkJob) : Request -> Prop :=
| allowed_submit :
    active job -> Phase (Status job) = "" \/ Phase (Status job) = PhasePending ->
    allowed_request job
      (MkRequest MethodPost (api_url job +:+ "/benchmarks") (Some "application/json")
         (marshal_map (submit_payload job)))
| allowed_poll :
    active job -> Phase (Status job) = PhaseSubmitted \/ Phase (Status job) = PhaseRunning ->
    allowed_request job (MkRequest MethodGet (job_url job) None "")
| allowed_cancel :
    TimeIsZero (DeletionTimestamp (Meta job)) = false ->
    ContainsFinalizer (Meta job) benchmarkJobFinalizer = true -> cancels job = true ->
    allowed_request job (MkRequest MethodDelete (job_url job) None "").

(** The answers to the writes of a trace. *)
Definition write_answer (ev : event op_sig) : option (option error) :=
  match ev with
  | Ev (Own (ApiUpdate _)) x => Some x
  | Ev (Own (ApiStatusUpdate _)) x => Some x
  | _ => None
  end.

Definition writes (tr : list (event op_sig)) : list (option error) := omap write_answer tr.

(** Nothing is left to do for the object. *)
Definition settled (job : BenchmarkJob) : Prop :=
  TimeIsZero (DeletionTimestamp (Meta job)) = false /\
  ContainsFinalizer (Meta job) benchmarkJobFinalizer = false \/
  Phase (Status job) = PhaseCompleted \/ Phase (Status job) = PhaseFailed.

(** The deletion that dereferences a nil request. *)
Definition panics (job : BenchmarkJob) : Prop :=
  TimeIsZero (DeletionTimestamp (Meta job)) = false /\
  ContainsFinalizer (Meta job) benchmarkJobFinalizer = true /\
  cancels job = true /\ url_parses (job_url job) = false.

(** A requeue: at once, or after a positive delay. *)
Definition requeues (res : Result) : Prop := Requeue res = true \/ 0 < RequeueAfter res.

Record summary (job : BenchmarkJob) (tr : list (event op_sig))
    (out : outcome reconcile_result) : Prop := {
  sum_requests : requests tr = [] \/ exists q, requests tr = [q] /\ allowed_request job q;
  sum_progress res : out = Done (res, None) -> requeues res \/ writes tr = [None] \/ settled job;
  sum_error res e : out = Done (res, Some e) ->
    res = Result_zero /\ exists p i, e = ErrWrap p i /\ writes tr = [Some i];
  sum_panic m : out = Panicked m -> panics job /\ tr = []
}.

(** The statuses a trace writes. *)
Definition status_write (ev : event op_sig) : option BenchmarkJobStatus :=
  match ev with
  | Ev (Own (ApiStatusUpdate job)) _ => Some (Status job)
  | _ => None
  end.

Definition status_writes (tr : list (event op_sig)) : list BenchmarkJobStatus :=
  omap status_write tr.

(** A poll result that changes nothing in the phase of the job. *)
Definition idle_poll (job : BenchmarkJob) (status : string) : Prop :=
  Phase (Status job) = PhaseSubmitted /\ status <> "running" /\ status <> "failed" \/
  Phase (Status job) = PhaseRunning /\ status <> "completed" /\ status <> "failed".

Lemma wp_setPhase job phase message Q :
  (forall x, Q [Ev (S := op_sig) (Own (ApiStatusUpdate (set_status job
     (MkStatus phase (JobID (Status job)) message (RetryCount (Status job))
       (Throughput (Status job)) (LatencyMs (Status job)) (MemoryBandwidthGbps (Status job))
       (StartTime (Status job)) (CompletionTime (Status job)))))) x]
     (Done (Result_zero,
        ErrWrap ("update status (phase=" +:+ phase +:+ ")") <$> x))) ->
  wp (setPhase job phase message) Q.
Proof. intros HQ x. specialize (HQ x). by destruct x. Qed.

Lemma wp_client_update job p (Q : list (event op_sig) -> outcome reconcile_result -> Prop) res :
  (forall x, Q [Ev (S := op_sig) (Own (ApiUpdate job)) x]
     (Done (match x with Some e => (Result_zero, Some (ErrWrap p e)) | None => (res, None) end))) ->
  wp (bind (client_update job) (fun err =>
        match err with
        | Some e => Return (Result_zero, Some (ErrWrap p e))
        | None => Return (res, None)
        end)) Q.
Proof. intros HQ x. specialize (HQ x). by destruct x. Qed.

Lemma wp_client_Get c url (f : error + Response -> op_prog reconcile_result) Q :
  (url_parses url = false -> wp (f (inl (url_error url))) Q) ->
  (forall x, wp (f x) (fun tr r =>
     Q (Ev (S := op_sig) (Do (MkRequest MethodGet url None "")) x :: tr) r)) ->
  wp (bind (client_Get (Some c) url) f) Q.
Proof.
  intros Hbad Hgood. unfold client_Get, NewRequest.
  destruct (url_parses url); [exact Hgood|by apply Hbad].
Qed.

Lemma wp_client_Post c url ct body (f : error + Response -> op_prog reconcile_result) Q :
  (url_parses url = false -> wp (f (inl (url_error url))) Q) ->
  (forall x, wp (f x) (fun tr r =>
     Q (Ev (S := op_sig) (Do (MkRequest MethodPost url (Some ct) body)) x :: tr) r)) ->
  wp (bind (client_Post (Some c) url ct body) f) Q.
Proof.
  intros Hbad Hgood. unfold client_Post, NewRequest.
  destruct (url_parses url); [exact Hgood|by apply Hbad].
Qed.

(** Close a summary at a leaf of the program. *)
Ltac leaf :=
  constructor; cbn;
  [ first [by left | right; eexists; split; [reflexivity|by constructor; auto]]
  | intros ? [= <-]; first [by right; left | by left; right; vm_compute | by right; right; auto
                           | by left; left]
  | intros ? ? [= <- <-]; first [discriminate | split; [done|by eexists _, _]]
  | intros ? [= ] ].

Ltac write_leaf := intros [?|]; cbn [fmap option_fmap option_map]; leaf.

Variable r : BenchmarkJobReconciler.
Variable c : http_Client.
Hypothesis Hclient : HTTPClient r = Some c.

Lemma handlePending_summary job :
  active job -> Phase (Status job) = "" \/ Phase (Status job) = PhasePending ->
  wp (handlePending r job) (summary job).
Proof.
  intros Hact Hph. unfold handlePending. rewrite Hclient.
  apply wp_client_Post; [intros _; leaf|]. intros [e|resp]; [leaf|].
  destruct (_ && _); [leaf|]. destruct (decode_body _ _ _) as [res|]; [|leaf].
  intros now. apply wp_setPhase. write_leaf.
Qed.

(** The failure branch, after the poll that reported it. *)
Lemma handleFailure_summary job x :
  active job -> Phase (Status job) = PhaseSubmitted \/ Phase (Status job) = PhaseRunning ->
  wp (handleFailure job) (fun tr out =>
    summary job (Ev (S := op_sig) (Do (MkRequest MethodGet (job_url job) None "")) x :: tr) out).
Proof.
  intros Hact Hph. unfold handleFailure. destruct (_ <? _).
  - apply wp_setPhase. write_leaf.
  - intros now. apply wp_setPhase. write_leaf.
Qed.

Lemma handleSubmitted_summary job :
  active job -> Phase (Status job) = PhaseSubmitted ->
  wp (handleSubmitted r job) (summary job).
Proof.
  intros Hact Hph. unfold handleSubmitted, pollBackend. rewrite Hclient.
  unfold client_Get, NewRequest. destruct (url_parses _); [|leaf].
  intros [e|resp]; cbn [bind]; [leaf|].
  destruct (decode_body _ _ _) as [status|]; cbn [bind]; [|leaf].
  repeat case_bool_decide; [|leaf|by apply handleFailure_summary; auto|leaf].
  apply wp_setPhase. write_leaf.
Qed.

Lemma handleRunning_summary job :
  active job -> Phase (Status job) = PhaseRunning ->
  wp (handleRunning r job) (summary job).
Proof.
  intros Hact Hph. unfold handleRunning. rewrite Hclient.
  apply wp_client_Get; [intros _; leaf|]. intros [e|resp]; [leaf|].
  destruct (decode_body _ _ _) as [res|]; [|leaf].
  repeat case_bool_decide; [|by apply handleFailure_summary; auto|leaf].
  intros now. destruct (poll_Result res); apply wp_setPhase; write_leaf.
Qed.

Lemma handleDeletion_summary job :
  TimeIsZero (DeletionTimestamp (Meta job)) = false ->
  wp (handleDeletion r job) (summary job).
Proof.
  intros Hdel. unfold handleDeletion. destruct (ContainsFinalizer _ _) eqn:Hf.
  2: { constructor; cbn; [by left|right; right; by left|done|done]. }
  destruct (cancels job) eqn:Hc; [|apply wp_client_update; write_leaf].
  rewrite Hclient. unfold NewRequest. destruct (url_parses _) eqn:Hu.
  - intros x. apply wp_client_update. write_leaf.
  - constructor; cbn; [by left|done|done|]. by intros m [= <-].
Qed.

Lemma reconcile_job_summary job : wp (reconcile_job r job) (summary job).
Proof.
  unfold reconcile_job. destruct (TimeIsZero _) eqn:Hdel; [|by apply handleDeletion_summary].
  destruct (ContainsFinalizer _ _) eqn:Hf; cbn [negb].
  2: { apply wp_client_update. write_leaf. }
  assert (active job) as Hact by done.
  repeat case_bool_decide; cbn [orb];
    auto using handlePending_summary, handleSubmitted_summary, handleRunning_summary;
    try (constructor; cbn; [by left|by right; right; right; auto|done|done]).
  apply wp_setPhase. write_leaf.
Qed.

Lemma reconcile_job_run {W} (h : handler op_sig W) job w :
  summary job (ex_trace (run h (reconcile_job r job) w)) (ex_out (run h (reconcile_job r job) w)).
Proof. apply (wp_run _ (summary job)), reconcile_job_summary. Qed.

(** A reconciliation whose read finds [job]. *)
Lemma Reconcile_found {W} (h : handler op_sig W) n w w1 job :
  h (Own (ApiGet n)) w = (w1, inr job) ->
  run h (Reconcile r n) w =
  let res := run h (reconcile_job r job) w1 in
  MkExec (ex_world res) (Ev (S := op_sig) (Own (ApiGet n)) (inr job) :: ex_trace res) (ex_out res).
Proof. intros E. rewrite Reconcile_unfold. cbn [run]. by rewrite E. Qed.

(** The deletion that panics does nothing before. *)
Lemma reconcile_job_panics {W} (h : handler op_sig W) job w :
  panics job -> run h (reconcile_job r job) w = MkExec w [] (Panicked nil_deref).
Proof.
  intros (Hd & Hf & Hca & Hu). unfold reconcile_job. rewrite Hd. cbn [negb].
  unfold handleDeletion. rewrite Hf, Hca, Hclient. unfold NewRequest. by rewrite Hu.
Qed.

Lemma run_setPhase {W} (h : handler op_sig W) job phase message w :
  run h (setPhase job phase message) w =
  let job' := set_status job
     (MkStatus phase (JobID (Status job)) message (RetryCount (Status job))
       (Throughput (Status job)) (LatencyMs (Status job)) (MemoryBandwidthGbps (Status job))
       (StartTime (Status job)) (CompletionTime (Status job))) in
  let '(w1, x) := h (Own (ApiStatusUpdate job')) w in
  MkExec w1 [Ev (S := op_sig) (Own (ApiStatusUpdate job')) x]
    (Done (Result_zero, ErrWrap ("update status (phase=" +:+ phase +:+ ")") <$> x)).
Proof. cbn. destruct (h _ w) as [w1 x]. by destruct x. Qed.

(** The branch of [reconcile_job] an active object takes. *)
Lemma reconcile_job_active job :
  active job ->
  reconcile_job r job =
  (let phase := Phase (Status job) in
   if bool_decide (phase = "") || bool_decide (phase = PhasePending) then handlePending r job
   else if bool_decide (phase = PhaseSubmitted) then handleSubmitted r job
   else if bool_decide (phase = PhaseRunning) then handleRunning r job
   else if bool_decide (phase = PhaseCompleted) || bool_decide (phase = PhaseFailed)
        then Return (Result_zero, None)
   else setPhase job PhasePending "unknown phase reset by operator").
Proof. intros [Hd Hf]. unfold reconcile_job. by rewrite Hd, Hf. Qed.

Lemma reconcile_job_pending job :
  active job -> Phase (Status job) = "" \/ Phase (Status job) = PhasePending ->
  reconcile_job r job = handlePending r job.
Proof. intros Ha [E|E]; rewrite reconcile_job_active by done; cbn zeta; by rewrite E. Qed.

Lemma reconcile_job_submitted job :
  active job -> Phase (Status job) = PhaseSubmitted -> reconcile_job r job = handleSubmitted r job.
Proof. intros Ha E; rewrite reconcile_job_active by done; cbn zeta; by rewrite E. Qed.

Lemma reconcile_job_running job :
  active job -> Phase (Status job) = PhaseRunning -> reconcile_job r job = handleRunning r job.
Proof. intros Ha E; rewrite reconcile_job_active by done; cbn zeta; by rewrite E. Qed.

Lemma reconcile_job_terminal job :
  active job -> Phase (Status job) = PhaseCompleted \/ Phase (Status job) = PhaseFailed ->
  reconcile_job r job = Return (Result_zero, None).
Proof. intros Ha [E|E]; rewrite reconcile_job_active by done; cbn zeta; by rewrite E. Qed.

(** The two decodings of one body agree on the status. *)
Lemma decode_poll_members_status l cur p :
  decode_members decode_poll cur l = Some p ->
  decode_members decode_status (poll_Status cur) l = Some (poll_Status p).
Proof.
  revert cur. induction l as [|[k v] l IH]; intros cur; cbn; [by intros [= ->]|].
  unfold decode_poll, decode_status. destruct (is_field "status" k).
  - destruct (decode_string _ v) as [s|]; [|done]. intros Hp. by apply IH in Hp.
  - destruct (is_field "result" k).
    + destruct (decode_ptr _ _ _ v) as [m|]; [|done]. intros Hp. by apply IH in Hp.
    + apply IH.
Qed.

Lemma decode_poll_status body p :
  decode_body decode_poll poll_zero body = Some p ->
  decode_body decode_status "" body = Some (poll_Status p).
Proof.
  unfold decode_body. destruct (parse_json body) as [[| | | | |l]|]; cbn; try done.
  - by intros [= <-].
  - apply decode_poll_members_status.
Qed.

(** A poll that reports nothing new makes no write and asks to be requeued. *)
Lemma idle_poll_run {W} (h : handler op_sig W) w job resp p :
  active job -> (forall q, h (Do q) w = (w, inr resp)) ->
  decode_body decode_poll poll_zero (Body resp) = Some p -> idle_poll job (poll_Status p) ->
  ex_world (run h (reconcile_job r job) w) = w.
Proof.
  intros Ha Hdo Hp Hidle. pose proof (decode_poll_status _ _ Hp) as Hs.
  destruct Hidle as [(Hph & H1 & H2)|(Hph & H1 & H2)].
  - rewrite reconcile_job_submitted by done. unfold handleSubmitted, pollBackend.
    rewrite Hclient. unfold client_Get, NewRequest.
    destruct (url_parses _); [|done]. cbn. rewrite Hdo. cbn. rewrite Hs. cbn.
    rewrite (bool_decide_eq_false_2 _ H1). case_bool_decide; [done|].
    by rewrite (bool_decide_eq_false_2 _ H2).
  - rewrite reconcile_job_running by done. unfold handleRunning.
    rewrite Hclient. unfold client_Get, NewRequest.
    destruct (url_parses _); [|done]. cbn. rewrite Hdo. cbn. rewrite Hp.
    by rewrite (bool_decide_eq_false_2 _ H1), (bool_decide_eq_false_2 _ H2).
Qed.

(** The reconciliation: the read, then the summary of the object read. *)
Lemma Reconcile_summary {W} (h : handler op_sig W) n w :
  exists (got : error + BenchmarkJob) (rest : list (event op_sig)),
  ex_trace (run h (Reconcile r n) w) = Ev (S := op_sig) (Own (ApiGet n)) got :: rest /\
  match got with
  | inr job => summary job rest (ex_out (run h (Reconcile r n) w))
  | inl e => rest = [] /\ ex_out (run h (Reconcile r n) w) =
      Done (Result_zero, if IsNotFound e then None else Some (ErrWrap "get BenchmarkJob" e))
  end.
Proof.
  rewrite Reconcile_unfold. cbn [run]. destruct (h _ w) as [w1 got]. cbn [ex_trace ex_out].
  eexists got, _. split; [reflexivity|]. destruct got as [e|job].
  - by destruct (IsNotFound e).
  - apply (wp_run _ (summary job)), reconcile_job_summary.
Qed.

End Summary.

(** The reconciler that [SetupWithManager] registers has a client. *)
Lemma SetupWithManager_client r : exists c, HTTPClient (SetupWithManager r) = Some c.
Proof. unfold SetupWithManager. destruct (HTTPClient r) eqn:E; rewrite ?E; eauto. Qed.
