(* ===== verification/Rounds.v ===== *)
(** * Single reconciliations, transition by transition

    On the simulated API server without faults: what one reconciliation of an
    object makes of the world, for each transition the happy path and the
    retry loop consist of. *)
From S2P Require Export OperatorTraces.

Section Rounds.
Context `{Mach : Machinery} `{MachL : !MachineryLaws} {B : Type} `{Bk : Backend B}.

Variable r : BenchmarkJobReconciler.
Variable id : string.
Variable key : NamespacedName.
Variable spec : BenchmarkJobSpec.

Definition base_url : string :=
  if bool_decide (SchedulerAPIURL spec = "") then default_api_url else SchedulerAPIURL spec.

(** The two requests of an object with this key and spec. *)
Definition submit_request : Request :=
  MkRequest MethodPost (base_url +:+ "/benchmarks") (Some "application/json")
    (marshal_map (benchmark_payload (GPUModel spec) (WorkloadType spec) (BatchSize spec)
       (idempotency_key key))).

Definition poll_request : Request :=
  MkRequest MethodGet (base_url +:+ "/benchmarks/" +:+ id) None "".

Definition step (w : sim B) : sim B :=
  ex_world (run cl_handler (Reconcile (SetupWithManager r) key) w).

Lemma active_set_version job st v :
  active job -> active (MkJob (JobType job) (set_version (Meta job) v) (Spec job) st).
Proof.
  intros [Hd Hf]. split; [exact Hd|]. cbn. apply ContainsFinalizer_spec.
  by apply ContainsFinalizer_spec in Hf.
Qed.

(** The read of the stored object. *)
Lemma step_found w job :
  sim_store w !! key = Some job -> job_key job = key ->
  step w = ex_world (run cl_handler (reconcile_job (SetupWithManager r) job) w).
Proof.
  intros Hs Hk. unfold step.
  rewrite (Reconcile_found _ cl_handler key w w job); [done|].
  cbn. by rewrite Hs, bool_decide_eq_true_2.
Qed.

(** The status write that ends a transition, on a world without faults. *)
Lemma setPhase_world w job st phase message :
  sim_store w !! key = Some job -> job_key job = key -> sim_faults w = [] ->
  ex_world (run cl_handler (setPhase (set_status job st) phase message) w) =
  MkSim (<[key := MkJob (JobType job) (set_version (Meta job) (fmt_d (sim_clock w))) (Spec job)
            (MkStatus phase (JobID st) message (RetryCount st) (Throughput st) (LatencyMs st)
               (MemoryBandwidthGbps st) (StartTime st) (CompletionTime st))]> (sim_store w))
    (sim_backend w) [] (sim_clock w + 1).
Proof.
  intros Hs Hk Hf. rewrite run_setPhase. cbn zeta.
  change (cl_handler (Own (ApiStatusUpdate ?j)) w) with (sim_write put_status j w).
  unfold sim_write. change (job_key (set_status _ _)) with (job_key job).
  rewrite Hf, Hk, Hs, bool_decide_eq_true_2 by done. cbn [default head from_option].
  unfold put_status, set_store. cbn. by rewrite Hk, Hf.
Qed.

(** The HTTP answer of the world. *)
Lemma sim_do q (w : sim B) b x :
  serve q (sim_backend w) = (b, x) ->
  cl_handler (Do q) w = (MkSim (sim_store w) b (sim_faults w) (sim_clock w), x).
Proof. intros E. cbn. by rewrite E. Qed.

(** ** The transitions *)

Section Transitions.
Variables (w : sim B) (job : BenchmarkJob) (b : B) (resp : Response).
Hypothesis Hstored : sim_store w !! key = Some job.
Hypothesis Hkey : job_key job = key.
Hypothesis Hfaults : sim_faults w = [].

(** The finalizer is added; the server fills in the defaults of the spec. *)
Lemma step_protect :
  DeletionTimestamp (Meta job) = None -> benchmarkJobFinalizer ∉ Finalizers (Meta job) ->
  step w = MkSim (<[key := MkJob (JobType job)
      (set_finalizers (set_version (Meta job) (fmt_d (sim_clock w)))
         (Finalizers (Meta job) ++ [benchmarkJobFinalizer]))
      (admitted (Spec job)) (Status job)]> (sim_store w)) (sim_backend w) [] (sim_clock w + 1).
Proof using MachL Hstored Hkey Hfaults.
  intros Hd Hf. rewrite (step_found w job) by done. unfold reconcile_job.
  rewrite Hd, TimeIsZero_nil. cbn [negb].
  destruct (ContainsFinalizer _ _) eqn:E; [by apply ContainsFinalizer_spec in E|]. cbn [negb].
  rewrite AddFinalizer_spec by done. cbn [client_update bind call run].
  change (cl_handler (Own (ApiUpdate ?j)) w) with (sim_write put_object j w).
  unfold sim_write. change (job_key (set_meta _ _)) with (job_key job).
  rewrite Hfaults, Hkey, Hstored, bool_decide_eq_true_2 by done. cbn [default head from_option].
  unfold put_object. rewrite Hd, bool_decide_eq_false_2 by (intros H; by apply H). cbn [andb].
  unfold set_store. rewrite Hkey, Hfaults. done.
Qed.

Hypothesis Hactive : active job.
Hypothesis Hspec : Spec job = spec.

(** The world after a status was written, [calls] calls to the clock and the
    server later. *)
Definition written (calls : Z) (st : BenchmarkJobStatus) : sim B :=
  MkSim (<[key := MkJob (JobType job) (set_version (Meta job) (fmt_d (sim_clock w + calls - 1)))
            (Spec job) st]> (sim_store w)) b [] (sim_clock w + calls).

(** A submission that is accepted. *)
Lemma step_submit res :
  url_parses (base_url +:+ "/benchmarks") = true ->
  Phase (Status job) = "" \/ Phase (Status job) = PhasePending ->
  serve submit_request (sim_backend w) = (b, inr resp) ->
  StatusCode resp = StatusAccepted \/ StatusCode resp = StatusOK ->
  decode_body decode_submit submit_zero (Body resp) = Some res ->
  let st := Status job in
  step w = written 2 (MkStatus PhaseSubmitted (sub_JobID res)
    ("submitted to backend; jobID=" +:+ sub_JobID res) (RetryCount st) (Throughput st)
    (LatencyMs st) (MemoryBandwidthGbps st) (Some (sim_clock w)) (CompletionTime st)).
Proof using Hstored Hkey Hfaults Hactive Hspec.
  intros Hu Hph Es Hcode Hdec st.
  destruct (SetupWithManager_client r) as [c Hc]. rewrite (step_found w job) by done.
  rewrite reconcile_job_pending by done. unfold handlePending. rewrite Hc.
  unfold client_Post, NewRequest, api_url, submit_payload. rewrite Hspec, Hkey. fold base_url.
  rewrite Hu. cbn [bind client_Do call run Method URL ReqBody]. fold submit_request.
  rewrite (sim_do _ w b (inr resp) Es). cbn [ex_world].
  replace (negb (StatusCode resp =? StatusAccepted) && negb (StatusCode resp =? StatusOK))
    with false by (destruct Hcode as [-> | ->]; reflexivity).
  rewrite Hdec. cbn [bind time_Now call run].
  change (cl_handler Now ?w) with
    (MkSim (sim_store w) (sim_backend w) (sim_faults w) (sim_clock w + 1), sim_clock w).
  cbn [ex_world]. rewrite setPhase_world by done. unfold written. cbn.
  by replace (sim_clock w + 2 - 1) with (sim_clock w + 1) by lia; rewrite <- Z.add_assoc.
Qed.

Hypothesis Hurl : url_parses (base_url +:+ "/benchmarks/" +:+ id) = true.
Hypothesis Hid : JobID (Status job) = id.
Hypothesis Hserve : serve poll_request (sim_backend w) = (b, inr resp).

(** What a poll of a submitted job leads to. *)
Lemma step_polled p :
  Phase (Status job) = PhaseSubmitted ->
  decode_body decode_poll poll_zero (Body resp) = Some p ->
  step w = ex_world (run cl_handler
    (if bool_decide (poll_Status p = "running") then
       setPhase job PhaseRunning "execution in progress"
     else if bool_decide (poll_Status p = "queued") then Return (requeue_after pollInterval)
     else if bool_decide (poll_Status p = "failed") then handleFailure job
     else Return (requeue_after pollInterval))
    (MkSim (sim_store w) b (sim_faults w) (sim_clock w))).
Proof using Hkey Hstored Hactive Hspec Hurl Hid Hserve.
  intros Hph Hdec. destruct (SetupWithManager_client r) as [c Hc].
  rewrite (step_found w job) by done.
  rewrite reconcile_job_submitted by done. unfold handleSubmitted, pollBackend. rewrite Hc.
  unfold client_Get, NewRequest, job_url, api_url. rewrite Hspec, Hid. fold base_url.
  rewrite Hurl. cbn [bind client_Do call run]. fold poll_request.
  rewrite (sim_do _ w b (inr resp) Hserve). cbn [ex_world bind].
  by rewrite (decode_poll_status _ _ Hdec).
Qed.

(** It is running. *)
Lemma step_runs p :
  Phase (Status job) = PhaseSubmitted ->
  decode_body decode_poll poll_zero (Body resp) = Some p -> poll_Status p = "running" ->
  let st := Status job in
  step w = written 1 (MkStatus PhaseRunning id "execution in progress" (RetryCount st)
    (Throughput st) (LatencyMs st) (MemoryBandwidthGbps st) (StartTime st) (CompletionTime st)).
Proof using Hstored Hkey Hfaults Hactive Hspec Hurl Hid Hserve.
  intros Hph Hdec Hp st. rewrite (step_polled p) by done.
  rewrite bool_decide_eq_true_2 by done.
  replace job with (set_status job (Status job)) at 1 by by destruct job.
  rewrite setPhase_world by done. unfold written. cbn. rewrite Hid.
  by replace (sim_clock w + 1 - 1) with (sim_clock w) by lia.
Qed.

(** It has ended before it was seen running, or still waits. *)
Lemma step_waits p :
  Phase (Status job) = PhaseSubmitted ->
  decode_body decode_poll poll_zero (Body resp) = Some p ->
  poll_Status p <> "running" -> poll_Status p <> "failed" ->
  step w = MkSim (sim_store w) b (sim_faults w) (sim_clock w).
Proof using Hkey Hstored Hactive Hspec Hurl Hid Hserve.
  intros Hph Hdec H1 H2. rewrite (step_polled p) by done.
  rewrite (bool_decide_eq_false_2 _ H1), (bool_decide_eq_false_2 _ H2).
  by destruct (bool_decide _).
Qed.

(** A running job has completed with these metrics. *)
Lemma step_completes m :
  Phase (Status job) = PhaseRunning ->
  decode_body decode_poll poll_zero (Body resp) = Some (MkPoll "completed" (Some m)) ->
  let st := Status job in
  step w = written 2 (MkStatus PhaseCompleted id "benchmark execution successful" (RetryCount st)
    (Some (m_Throughput m)) (Some (m_LatencyMs m)) (Some (m_MemoryBandwidthGbps m))
    (StartTime st) (Some (sim_clock w))).
Proof using Hstored Hkey Hfaults Hactive Hspec Hurl Hid Hserve.
  intros Hph Hdec st. destruct (SetupWithManager_client r) as [c Hc].
  rewrite (step_found w job) by done.
  rewrite reconcile_job_running by done. unfold handleRunning. rewrite Hc.
  unfold client_Get, NewRequest, job_url, api_url. rewrite Hspec, Hid. fold base_url.
  rewrite Hurl. cbn [bind client_Do call run]. fold poll_request.
  rewrite (sim_do _ w b (inr resp) Hserve). cbn [ex_world bind].
  rewrite Hdec. cbn [poll_Status poll_Result]. rewrite bool_decide_eq_true_2 by done.
  cbn [bind time_Now call run].
  change (cl_handler Now ?w) with
    (MkSim (sim_store w) (sim_backend w) (sim_faults w) (sim_clock w + 1), sim_clock w).
  cbn [ex_world]. rewrite setPhase_world by done. unfold written. cbn.
  by replace (sim_clock w + 2 - 1) with (sim_clock w + 1) by lia; rewrite <- Z.add_assoc.
Qed.
End Transitions.
End Rounds.
