(* ===== verification/RetryLoop.v ===== *)
(** * The retry loop against a backend that keeps failing the job

    On the simulated API server without faults: every round of two
    reconciliations (submit, poll) uses up one retry, and the loop ends in
    phase Failed with the limit reached.  The backend is any state with an
    invariant under which submissions are accepted under one job ID and polls
    report a failure. *)
From S2P Require Export Rounds.

Section Loop.
Context `{Mach : Machinery} `{MachL : !MachineryLaws} {B : Type} `{Bk : Backend B}.

Variable r : BenchmarkJobReconciler.
Variable inv : B -> Prop.
Variable id : string.
Variable key : NamespacedName.
Variable spec : BenchmarkJobSpec.

#[local] Abbreviation base_url := (base_url spec).
#[local] Abbreviation submit_request := (submit_request key spec).
#[local] Abbreviation poll_request := (poll_request id spec).
#[local] Abbreviation step := (step r key).

(** The backend accepts the submission as the job [id] and reports it failed. *)
Record failing_backend : Prop := {
  fb_submit b : inv b ->
    exists b' resp res, serve submit_request b = (b', inr resp) /\ inv b' /\
      (StatusCode resp = StatusAccepted \/ StatusCode resp = StatusOK) /\
      decode_body decode_submit submit_zero (Body resp) = Some res /\ sub_JobID res = id;
  fb_poll b : inv b ->
    exists b' resp p, serve poll_request b = (b', inr resp) /\ inv b' /\
      decode_body decode_poll poll_zero (Body resp) = Some p /\ poll_Status p = "failed"
}.

Hypothesis Hfail : failing_backend.

(** The world between reconciliations: a live object with this spec, in
    phase [ph] after [rc] retries, and a backend in the invariant. *)
Definition at_phase (w : sim B) (ph : list string) (rc : Z) : Prop :=
  inv (sim_backend w) /\ sim_faults w = [] /\
  exists job, sim_store w !! key = Some job /\ job_key job = key /\ active job /\
    Spec job = spec /\ Phase (Status job) ∈ ph /\ RetryCount (Status job) = rc /\
    (Phase (Status job) = PhaseSubmitted -> JobID (Status job) = id).

Lemma at_phase_put w w' job v st ph ph' rc :
  at_phase w ph rc -> sim_store w !! key = Some job -> inv (sim_backend w') ->
  sim_faults w' = [] -> Phase st = ph' -> (ph' = PhaseSubmitted -> JobID st = id) ->
  sim_store w' = <[key := MkJob (JobType job) (set_version (Meta job) v) (Spec job) st]>
                   (sim_store w) ->
  at_phase w' [ph'] (RetryCount st).
Proof.
  intros (_ & _ & job' & Hs' & Hk & Ha & Hsp & _) Hs Hb Hf <- Hid Hw.
  rewrite Hs in Hs'. injection Hs' as <-. split_and!; [done|done|].
  eexists. rewrite Hw, lookup_insert_eq.
  split_and!; [reflexivity|done|by apply active_set_version|done|apply list_elem_of_here|done
    |exact Hid].
Qed.

Hypothesis submit_parses : url_parses (base_url +:+ "/benchmarks") = true.
Hypothesis poll_parses : url_parses (base_url +:+ "/benchmarks/" +:+ id) = true.

(** The submission half of a round. *)
Lemma step_submit_round w rc :
  at_phase w [""; PhasePending] rc -> at_phase (step w) [PhaseSubmitted] rc.
Proof.
  intros Hat. pose proof Hat as (Hb & Hf & job & Hs & Hk & Ha & Hsp & Hph & <- & _).
  rewrite !elem_of_cons, elem_of_nil in Hph.
  destruct (fb_submit Hfail _ Hb) as (b' & resp & res & Es & Hb' & Hcode & Hdec & Hid).
  rewrite (step_submit r key spec w job b' resp Hs Hk Hf Ha Hsp res) by (done || tauto).
  eapply (at_phase_put w _ job _ (MkStatus PhaseSubmitted _ _ _ _ _ _ _ _) _ _ _ Hat Hs);
    [done|done|reflexivity|intros _; exact Hid|reflexivity].
Qed.

(** The poll half: one more retry, or the end. *)
Lemma step_poll_round w rc :
  in_int (rc + 1) -> at_phase w [PhaseSubmitted] rc ->
  if rc <? retry_limit spec then at_phase (step w) [PhasePending] (rc + 1)
  else at_phase (step w) [PhaseFailed] rc.
Proof.
  intros Hin Hat. pose proof Hat as (Hb & Hf & job & Hs & Hk & Ha & Hsp & Hph & <- & Hid).
  apply list_elem_of_singleton in Hph. specialize (Hid Hph).
  destruct (fb_poll Hfail _ Hb) as (b' & resp & p & Es & Hb' & Hdec & Hp).
  rewrite (step_polled r id key spec w job b' resp Hs Hk Ha Hsp poll_parses Hid Es p) by done.
  rewrite Hp, (bool_decide_eq_false_2 ("failed" = "running")), (bool_decide_eq_false_2
    ("failed" = "queued")), (bool_decide_eq_true_2 ("failed" = "failed")) by done.
  unfold handleFailure. fold (retry_limit (Spec job)). rewrite Hsp.
  destruct (RetryCount (Status job) <? retry_limit spec).
  - rewrite wrap_int_id by done. rewrite (setPhase_world key) by done.
    eapply (at_phase_put w _ job _
      (MkStatus PhasePending "" _ (RetryCount (Status job) + 1) _ _ _ _ _) _ _ _ Hat Hs);
      [done|done|reflexivity|done|reflexivity].
  - cbn [bind time_Now call run].
    change (cl_handler Now ?w) with
      (MkSim (sim_store w) (sim_backend w) (sim_faults w) (sim_clock w + 1), sim_clock w).
    cbn [ex_world]. rewrite (setPhase_world key) by done.
    eapply (at_phase_put w _ job _
      (MkStatus PhaseFailed (JobID (Status job)) _ (RetryCount (Status job)) _ _ _ _ _) _ _ _ Hat Hs);
      [done|done|reflexivity|done|reflexivity].
Qed.

(** The whole loop, by induction on the retries left. *)
Lemma retry_loop (k : nat) w :
  0 <= retry_limit spec - Z.of_nat k -> in_int (retry_limit spec + 1) ->
  at_phase w [""; PhasePending] (retry_limit spec - Z.of_nat k) ->
  at_phase (reconcile_times cl_handler (SetupWithManager r) key (2 * (k + 1)) w)
    [PhaseFailed] (retry_limit spec).
Proof.
  intros Hrc Hin. revert w Hrc. induction k as [|k IH]; intros w Hrc Hat.
  - apply step_submit_round, step_poll_round in Hat; [|by unfold in_int, int_min, int_max in *; lia].
    destruct (Z.ltb_spec (retry_limit spec - Z.of_nat 0) (retry_limit spec)); [lia|].
    by replace (retry_limit spec - Z.of_nat 0) with (retry_limit spec) in Hat by lia.
  - replace (2 * (S k + 1))%nat with (S (S (2 * (k + 1)))) by lia. cbn [reconcile_times].
    apply step_submit_round, step_poll_round in Hat; [|by unfold in_int, int_min, int_max in *; lia].
    destruct (Z.ltb_spec (retry_limit spec - Z.of_nat (S k)) (retry_limit spec)); [|lia].
    apply IH; [lia|].
    replace (retry_limit spec - Z.of_nat (S k) + 1) with (retry_limit spec - Z.of_nat k) in Hat
      by lia.
    destruct Hat as (H1 & H2 & job & Hs & Hk & Ha & Hsp & Hph & Hrc' & Hid).
    split_and!; [done|done|]. exists job. split_and!; try done. set_solver.
Qed.
End Loop.
