(* ===== verification/OperatorTheorems.v ===== *)
(** * Theorems on the BenchmarkJob operator

    Refinement and invariants against the API server interface, then the
    behaviour of each handler over every outside world: which requests leave
    the process, which writes are made, what is returned.  Witnesses evaluate
    the theorems on the simulated API server. *)
From S2P Require Import RetryLoop.

(** ** Refinement and invariants *)

(** C1. Whatever other clients do between its calls, whether writes fail or
    their answers are lost, one [Reconcile] of object [n] changes the store
    by at most one step of the abstract phase/finalizer machine, on [n] only. *)
Theorem Reconcile_refines_machine `{MachineryLaws} {W} `{Cluster W} `{!ClusterLaws W}
    (r : BenchmarkJobReconciler) (n : NamespacedName) (w : W) :
  machine_reaches n (stored w) (stored (ex_world (run cl_handler (Reconcile r n) w))).
Proof. apply Reconcile_machine. Qed.

Lemma Reconcile_refines_machine_witness :
  let w := demo_world (demo_job [benchmarkJobFinalizer] status_empty) [inr resp_accepted] in
  machine_reaches demo_key (stored w)
    (stored (ex_world (run cl_handler (Reconcile demo_reconciler demo_key) w))).
Proof. intros w. apply (Reconcile_refines_machine demo_reconciler demo_key w). Defined.

(** C2. In every state the platform reaches from an empty store, under any
    interleaving of reconciliations and other clients, every object's status
    satisfies the invariant: a known phase, a retry count between 0 and 10, no
    job ID while pending, a start time once submitted, an end time exactly in
    the terminal phases, metrics only when completed and all three together. *)
Theorem reachable_status_invariant `{MachineryLaws} {W} `{Cluster W} `{!ClusterLaws W}
    (w w' : W) (n : NamespacedName) (job : BenchmarkJob) :
  stored w = ∅ -> rtc sys_step w w' -> stored w' !! n = Some job ->
  status_inv retry_bound (Status job).
Proof.
  intros Hempty Hw Hj.
  assert (store_inv (stored w')) as Hinv.
  { eapply (sys_invariant store_inv); [exact store_inv_user|exact store_inv_machine| |exact Hw].
    rewrite Hempty. apply map_Forall_empty. }
  apply (Hinv _ _ Hj).
Qed.

Lemma reachable_status_invariant_witness :
  let w0 : sim script := MkSim ∅ [inr resp_accepted] [] 100 in
  let w1 := demo_world (demo_job [benchmarkJobFinalizer] status_empty) [inr resp_accepted] in
  let w2 := ex_world (run cl_handler (Reconcile (SetupWithManager (MkReconciler None)) demo_key)
                        w1) in
  exists job, stored w2 !! demo_key = Some job /\ Phase (Status job) = PhaseSubmitted /\
    status_inv retry_bound (Status job).
Proof.
  intros w0 w1 w2.
  assert (((fun j => Phase (Status j)) <$> stored w2 !! demo_key) = Some PhaseSubmitted) as Hph
    by (vm_compute; reflexivity).
  destruct (stored w2 !! demo_key) as [job|] eqn:Hjob; [|discriminate].
  exists job. split_and!; [reflexivity|by injection Hph|].
  apply (reachable_status_invariant w0 w2 demo_key job); [reflexivity| |exact Hjob].
  eapply rtc_l; [|eapply rtc_l; [apply (sys_reconcile w1)|apply rtc_refl]].
  apply sys_users. apply (user_create ∅ demo_key); [reflexivity..|vm_compute; reflexivity|reflexivity].
Defined.

(** ** Requests, results and panics, over every outside world *)

(** C8. A reconciliation sends at most one HTTP request, and only the one the
    object's state calls for: the submission of a pending object that is not
    being deleted and carries the finalizer, the poll of a submitted or
    running one, the cancellation of a submitted, unfinished one that is being
    deleted under the finalizer. *)
Theorem Reconcile_one_request `{Machinery} {W} (h : handler op_sig W)
    (r : BenchmarkJobReconciler) (n : NamespacedName) (w : W) :
  let res := run h (Reconcile (SetupWithManager r) n) w in
  requests (ex_trace res) = [] \/
  exists job q, head (ex_trace res) = Some (Ev (S := op_sig) (Own (ApiGet n)) (inr job)) /\
    requests (ex_trace res) = [q] /\ allowed_request job q.
Proof.
  destruct (SetupWithManager_client r) as [c Hc].
  destruct (Reconcile_summary _ c Hc h n w) as (got & rest & Etr & Hsum). cbn zeta.
  rewrite Etr. destruct got as [e|job].
  - destruct Hsum as [-> _]. by left.
  - destruct (sum_requests _ _ _ Hsum) as [E|(q & E & Hq)]; [by left|].
    right. exists job, q. by split_and!.
Qed.

(** C9. No object is forgotten: a reconciliation that returns without error
    either asks to be requeued, or made a write that succeeded (whose watch
    event triggers the next one), or found the object gone, in a terminal
    phase, or deleted and already released. *)
Theorem Reconcile_never_stalls `{Machinery} {W} (h : handler op_sig W)
    (r : BenchmarkJobReconciler) (n : NamespacedName) (w : W) :
  let res := run h (Reconcile (SetupWithManager r) n) w in
  match ex_out res with
  | Done (result, None) =>
      requeues result \/ writes (ex_trace res) = [None] \/
      match head (ex_trace res) with
      | Some (Ev (Own (ApiGet _)) (inl e)) => IsNotFound e = true
      | Some (Ev (Own (ApiGet _)) (inr job)) => settled job
      | _ => False
      end
  | _ => True
  end.
Proof.
  destruct (SetupWithManager_client r) as [c Hc].
  destruct (Reconcile_summary _ c Hc h n w) as (got & rest & Etr & Hsum). cbn zeta.
  rewrite Etr. destruct got as [e|job]; cbn -[run Reconcile].
  - destruct Hsum as [-> ->]. destruct (IsNotFound e) eqn:E; auto.
  - destruct (ex_out _) as [[result [e|]]|m] eqn:Eo; [done| |done].
    destruct (sum_progress _ _ _ Hsum result eq_refl) as [?|[?|?]]; auto.
Qed.

(** C10. The only errors a reconciliation returns are those of the API server
    (the failed read, or the one failed write), wrapped with the step they
    come from and with an empty result; a failing backend is never an
    error. *)
Theorem Reconcile_errors `{Machinery} {W} (h : handler op_sig W)
    (r : BenchmarkJobReconciler) (n : NamespacedName) (w : W) :
  let res := run h (Reconcile (SetupWithManager r) n) w in
  match ex_out res with
  | Done (result, Some e) =>
      result = Result_zero /\ exists step inner, e = ErrWrap step inner /\
        (ex_trace res = [Ev (S := op_sig) (Own (ApiGet n)) (inl inner)] \/
         writes (ex_trace res) = [Some inner])
  | _ => True
  end.
Proof.
  destruct (SetupWithManager_client r) as [c Hc].
  destruct (Reconcile_summary _ c Hc h n w) as (got & rest & Etr & Hsum). cbn zeta.
  rewrite Etr. destruct got as [e|job]; cbn -[run Reconcile].
  - destruct Hsum as [-> ->]. destruct (IsNotFound e); [done|].
    split; [done|]. exists "get BenchmarkJob", e. by auto.
  - destruct (ex_out _) as [[result [e|]]|m] eqn:Eo; [|done..].
    destruct (sum_error _ _ _ Hsum result e eq_refl) as (E & p & i & Ei & Ew).
    split; [done|]. exists p, i. by auto.
Qed.

(** C11. A reconciliation panics in one case only: the object is being deleted
    under the finalizer, was submitted and has not finished, and the URL of
    its backend job does not parse.  It then panics before any write, so the
    finalizer stays and every later reconciliation panics again. *)
Theorem Reconcile_panics_iff `{Machinery} {W} (h : handler op_sig W)
    (r : BenchmarkJobReconciler) (n : NamespacedName) (w w1 : W) (job : BenchmarkJob) :
  h (Own (ApiGet n)) w = (w1, inr job) ->
  let res := run h (Reconcile (SetupWithManager r) n) w in
  (exists m, ex_out res = Panicked m) <->
  panics job /\ ex_world res = w1 /\ ex_trace res = [Ev (S := op_sig) (Own (ApiGet n)) (inr job)].
Proof.
  intros Hget. destruct (SetupWithManager_client r) as [c Hc]. cbn zeta.
  rewrite (Reconcile_found _ h n w w1 job Hget). cbn [ex_out ex_world ex_trace]. split.
  - intros [m Em]. pose proof (reconcile_job_run _ c Hc h job w1) as Hsum.
    destruct (sum_panic _ _ _ Hsum m Em) as [Hp _].
    rewrite (reconcile_job_panics _ c Hc h job w1 Hp). by split_and!.
  - intros [Hp _]. exists nil_deref. by rewrite (reconcile_job_panics _ c Hc h job w1 Hp).
Qed.

(** An object whose API URL was edited to one that does not parse after the
    job was submitted, and that is now being deleted. *)
Definition broken_url_job : BenchmarkJob :=
  MkJob (MkTypeMeta "" "")
    (MkMeta "test-h100-benchmark" "default" "7" (Some 50) [benchmarkJobFinalizer])
    (MkSpec "H100" "inference" 32 "http://bad host:8000" 3)
    (MkStatus PhaseSubmitted "test-uuid-1234" "" 0 None None None (Some 10) None).

Lemma Reconcile_panics_iff_witness :
  exists m, ex_out (run cl_handler (Reconcile (SetupWithManager (MkReconciler None)) demo_key)
                      (demo_world broken_url_job [])) = Panicked m.
Proof.
  apply (Reconcile_panics_iff cl_handler (MkReconciler None) demo_key
           (demo_world broken_url_job []) (demo_world broken_url_job []) broken_url_job).
  - vm_compute. reflexivity.
  - unfold panics. repeat split; vm_compute; reflexivity.
Defined.

(** ** The handlers, branch by branch *)

(** Deletion releases the object whatever the backend answers: when the
    URL parses (or no cancellation is due), the reconciliation of a deleted
    object sends the cancellation exactly if it is due, then asks for the
    update that removes this finalizer and keeps the others, and returns that
    update's error, if any, wrapped. *)
Theorem Deletion_releases `{MachineryLaws} {W} (h : handler op_sig W)
    (r : BenchmarkJobReconciler) (n : NamespacedName) (w w1 : W) (job : BenchmarkJob) :
  h (Own (ApiGet n)) w = (w1, inr job) ->
  TimeIsZero (DeletionTimestamp (Meta job)) = false ->
  benchmarkJobFinalizer ∈ Finalizers (Meta job) ->
  (cancels job = true -> url_parses (job_url job) = true) ->
  let res := run h (Reconcile (SetupWithManager r) n) w in
  let released := set_meta job (RemoveFinalizer (Meta job) benchmarkJobFinalizer) in
  exists w2 x,
    (if cancels job
     then exists resp, h (Do (MkRequest MethodDelete (job_url job) None "")) w1 = (w2, resp)
     else w2 = w1) /\
    h (Own (ApiUpdate released)) w2 = (ex_world res, x) /\
    ex_out res = Done (Result_zero, ErrWrap "remove finalizer" <$> x) /\
    benchmarkJobFinalizer ∉ Finalizers (Meta released) /\
    (forall g, g <> benchmarkJobFinalizer ->
       g ∈ Finalizers (Meta released) <-> g ∈ Finalizers (Meta job)).
Proof.
  intros Hget Hd Hf Hu. destruct (SetupWithManager_client r) as [c Hc]. cbn zeta.
  rewrite (Reconcile_found _ h n w w1 job Hget). cbn [ex_out ex_world].
  unfold reconcile_job. rewrite Hd. cbn [negb]. unfold handleDeletion.
  apply ContainsFinalizer_spec in Hf. rewrite Hf.
  set (released := set_meta job _).
  assert (forall w2, exists x, h (Own (ApiUpdate released)) w2 =
            (ex_world (run h (let! err := client_update released in
               match err with
               | Some e => Return (Result_zero, Some (ErrWrap "remove finalizer" e))
               | None => Return (Result_zero, None)
               end) w2), x) /\
            ex_out (run h (let! err := client_update released in
               match err with
               | Some e => Return (Result_zero, Some (ErrWrap "remove finalizer" e))
               | None => Return (Result_zero, None)
               end) w2) = Done (Result_zero, ErrWrap "remove finalizer" <$> x)) as Hfin.
  { intros w2. cbn. destruct (h _ w2) as [w3 [e|]]; eauto. }
  assert (forall g, g <> benchmarkJobFinalizer ->
            g ∈ Finalizers (Meta released) <-> g ∈ Finalizers (Meta job)) as Hothers
    by (intros g Hg; by apply RemoveFinalizer_others).
  pose proof (RemoveFinalizer_removes (Meta job) benchmarkJobFinalizer) as Hgone.
  destruct (cancels job).
  - rewrite Hc. unfold NewRequest. rewrite (Hu eq_refl). cbn [client_Do bind call run].
    destruct (h (Do _) w1) as [w2 resp] eqn:Edo. cbn [ex_out ex_world].
    destruct (Hfin w2) as (x & E1 & E2). exists w2, x. split_and!; eauto.
  - destruct (Hfin w1) as (x & E1 & E2). exists w1, x. split_and!; eauto.
Qed.

Definition deleting_job : BenchmarkJob :=
  MkJob (MkTypeMeta "" "")
    (MkMeta "test-h100-benchmark" "default" "7" (Some 50) [benchmarkJobFinalizer; "other/one"])
    demo_spec (MkStatus PhaseRunning "test-uuid-1234" "" 0 None None None (Some 10) None).

Lemma Deletion_releases_witness :
  let w := demo_world deleting_job [inl timeout_error] in
  exists w2 x,
    (exists resp, cl_handler (Do (MkRequest MethodDelete (job_url deleting_job) None "")) w
                  = (w2, resp)) /\
    ex_out (run cl_handler (Reconcile (SetupWithManager (MkReconciler None)) demo_key) w)
    = Done (Result_zero, ErrWrap "remove finalizer" <$> x).
Proof.
  intros w.
  destruct (Deletion_releases cl_handler (MkReconciler None) demo_key w w deleting_job)
    as (w2 & x & Hdo & _ & Hout & _);
    [vm_compute; reflexivity|reflexivity|apply list_elem_of_here|vm_compute; reflexivity|].
  exists w2, x. split; [exact Hdo|exact Hout].
Defined.

(** The finalizer comes first: an object that is not being deleted and
    does not carry it gets it, by one update and nothing else, before
    anything is submitted; success asks for an immediate requeue. *)
Theorem Finalizer_first `{MachineryLaws} {W} (h : handler op_sig W)
    (r : BenchmarkJobReconciler) (n : NamespacedName) (w w1 w2 : W) (job : BenchmarkJob)
    (x : option error) :
  h (Own (ApiGet n)) w = (w1, inr job) ->
  TimeIsZero (DeletionTimestamp (Meta job)) = true ->
  benchmarkJobFinalizer ∉ Finalizers (Meta job) ->
  let protected := set_meta job (set_finalizers (Meta job)
                     (Finalizers (Meta job) ++ [benchmarkJobFinalizer])) in
  h (Own (ApiUpdate protected)) w1 = (w2, x) ->
  run h (Reconcile (SetupWithManager r) n) w =
  MkExec w2 [Ev (S := op_sig) (Own (ApiGet n)) (inr job);
             Ev (S := op_sig) (Own (ApiUpdate protected)) x]
    (Done match x with
          | None => (MkResult true 0, None)
          | Some e => (Result_zero, Some (ErrWrap "add finalizer" e))
          end).
Proof.
  intros Hget Hd Hf protected Hup. rewrite (Reconcile_found _ h n w w1 job Hget). cbn zeta.
  unfold reconcile_job. rewrite Hd. cbn [negb].
  destruct (ContainsFinalizer _ _) eqn:E; [by apply ContainsFinalizer_spec in E|].
  rewrite AddFinalizer_spec by done. cbn. fold protected. rewrite Hup. by destruct x.
Qed.

Lemma Finalizer_first_witness :
  let w := demo_world (demo_job ["other/one"] status_empty) [] in
  ex_out (run cl_handler (Reconcile (SetupWithManager (MkReconciler None)) demo_key) w)
  = Done (MkResult true 0, None).
Proof.
  intros w.
  rewrite (Finalizer_first cl_handler (MkReconciler None) demo_key w w
             (fst (cl_handler (Own (ApiUpdate
                (demo_job ["other/one"; benchmarkJobFinalizer] status_empty))) w))
             (demo_job ["other/one"] status_empty) None);
    [reflexivity|vm_compute; reflexivity|reflexivity| |vm_compute; reflexivity].
  apply (bool_decide_unpack _). vm_compute. exact I.
Defined.

(** Completed and Failed are terminal: the reconciliation of a live object
    in either phase reads it, makes no other call, and asks for nothing. *)
Theorem Terminal_phases_quiet `{Machinery} {W} (h : handler op_sig W)
    (r : BenchmarkJobReconciler) (n : NamespacedName) (w w1 : W) (job : BenchmarkJob) :
  h (Own (ApiGet n)) w = (w1, inr job) -> active job ->
  Phase (Status job) = PhaseCompleted \/ Phase (Status job) = PhaseFailed ->
  run h (Reconcile (SetupWithManager r) n) w =
  MkExec w1 [Ev (S := op_sig) (Own (ApiGet n)) (inr job)] (Done (Result_zero, None)).
Proof.
  intros Hget Ha Hph. rewrite (Reconcile_found _ h n w w1 job Hget). cbn zeta.
  by rewrite reconcile_job_terminal.
Qed.

Lemma Terminal_phases_quiet_witness :
  let job := demo_job [benchmarkJobFinalizer]
    (MkStatus PhaseFailed "id" "failed after 3 retries" 3 None None None (Some 1) (Some 2)) in
  let w := demo_world job [inr resp_completed] in
  ex_out (run cl_handler (Reconcile (SetupWithManager (MkReconciler None)) demo_key) w)
  = Done (Result_zero, None).
Proof.
  intros job w.
  rewrite (Terminal_phases_quiet cl_handler (MkReconciler None) demo_key w w job);
    [reflexivity|vm_compute; reflexivity|split; vm_compute; reflexivity|by right].
Defined.

(** ** The submission *)

(** C12. The body of the submission is one JSON text, and a JSON reader gets
    back exactly the fields of the object (UTF-8 text unchanged): the batch
    size, the GPU model, the key namespace/name and the workload type. *)
Theorem Submission_body_roundtrip (job : BenchmarkJob) :
  valid_utf8 (GPUModel (Spec job)) = true -> valid_utf8 (WorkloadType (Spec job)) = true ->
  valid_utf8 (idempotency_key (job_key job)) = true ->
  parse_json (marshal_map (submit_payload job)) =
  Some (JObject [("batch_size", JNumber (fmt_d (BatchSize (Spec job))));
                 ("gpu_model", JString (GPUModel (Spec job)));
                 ("idempotency_key", JString (idempotency_key (job_key job)));
                 ("workload_type", JString (WorkloadType (Spec job)))]).
Proof.
  intros Hg Hw Hk. by apply payload_roundtrip.
Qed.

Lemma Submission_body_roundtrip_witness :
  parse_json (marshal_map (submit_payload (demo_job [] status_empty))) =
  Some (JObject [("batch_size", JNumber "32"); ("gpu_model", JString "H100");
                 ("idempotency_key", JString "default/test-h100-benchmark");
                 ("workload_type", JString "inference")]).
Proof. apply (Submission_body_roundtrip (demo_job [] status_empty)); vm_compute; reflexivity. Defined.

(** The idempotency key identifies the object: two objects whose
    namespaces have no slash (Kubernetes names never do) have the same key
    only if they have the same namespace and name. *)
Theorem idempotency_key_injective (n1 n2 : NamespacedName) :
  has_byte 47 (NsNamespace n1) = false -> has_byte 47 (NsNamespace n2) = false ->
  idempotency_key n1 = idempotency_key n2 -> n1 = n2.
Proof.
  destruct n1 as [ns1 name1], n2 as [ns2 name2]. unfold idempotency_key. cbn.
  revert ns2. induction ns1 as [|a ns1 IH]; intros [|b ns2] H1 H2; cbn in H1, H2.
  - intros E%append_inj_l%append_inj_l. by subst.
  - apply orb_false_iff in H2 as [Hb _]. rewrite append_nil_l, (append_cons b). intros [= <- _].
    by vm_compute in Hb.
  - apply orb_false_iff in H1 as [Ha _]. rewrite append_nil_l, (append_cons a). intros [= -> _].
    by vm_compute in Ha.
  - apply orb_false_iff in H1 as [_ H1], H2 as [_ H2]. rewrite !append_cons.
    intros [= -> E]. specialize (IH ns2 H1 H2 E). by injection IH as -> ->.
Qed.

Lemma idempotency_key_injective_witness : MkName "ns" "a/b" = MkName "ns" "a/b".
Proof. exact (idempotency_key_injective (MkName "ns" "a/b") (MkName "ns" "a/b") eq_refl eq_refl eq_refl). Defined.

(** A retry is not a new submission: whatever the status (the retry
    count, the cleared job ID), the pending handler posts the very same
    request, idempotency key included. *)
Theorem Retry_resubmits_same_request {W} (h1 h2 : handler op_sig W)
    (r : BenchmarkJobReconciler) (job : BenchmarkJob) (st : BenchmarkJobStatus) (w1 w2 : W) :
  requests (ex_trace (run h1 (handlePending (SetupWithManager r) (set_status job st)) w1)) =
  requests (ex_trace (run h2 (handlePending (SetupWithManager r) job) w2)).
Proof.
  destruct (SetupWithManager_client r) as [c Hc].
  assert (forall W (h : handler op_sig W) job w,
    requests (ex_trace (run h (handlePending (SetupWithManager r) job) w)) =
    if url_parses (api_url job +:+ "/benchmarks")
    then [MkRequest MethodPost (api_url job +:+ "/benchmarks") (Some "application/json")
            (marshal_map (submit_payload job))]
    else []) as Heq.
  { clear. intros W h job w.
    destruct (SetupWithManager_client r) as [c Hc]. unfold handlePending. rewrite Hc.
    unfold client_Post, NewRequest. destruct (url_parses _); [|done].
    cbn [bind client_Do call run]. destruct (h (Do _) w) as [w1 [e|resp]]; [done|].
    destruct (_ && _); [done|]. destruct (decode_body _ _ _) as [res|]; [|done].
    cbn [bind time_Now call run]. destruct (h Now w1) as [w2 now].
    rewrite run_setPhase. cbn zeta. by run_call. }
  rewrite !Heq. done.
Qed.

(** ** Polling *)

(** C13. A poll whose answer is not one of the two the phase waits for
    changes nothing, ever: as long as the backend keeps giving it, no number
    of reconciliations changes the object.  In phase Submitted this includes
    the answer "completed": a job that completes before the operator has seen
    it running stays Submitted. *)
Theorem Idle_poll_forever `{Machinery} {W} (h : handler op_sig W)
    (r : BenchmarkJobReconciler) (n : NamespacedName) (k : nat) (w : W) (job : BenchmarkJob)
    (resp : Response) (p : poll_result) :
  h (Own (ApiGet n)) w = (w, inr job) -> (forall q, h (Do q) w = (w, inr resp)) ->
  active job -> decode_body decode_poll poll_zero (Body resp) = Some p ->
  idle_poll job (poll_Status p) ->
  reconcile_times h (SetupWithManager r) n k w = w.
Proof.
  intros Hget Hdo Ha Hp Hidle. destruct (SetupWithManager_client r) as [c Hc].
  induction k as [|k IH]; [done|]. cbn [reconcile_times].
  rewrite (Reconcile_found _ h n w w job Hget). cbn [ex_world].
  by rewrite (idle_poll_run _ c Hc h w job resp p).
Qed.

(** A backend that always gives the same answer. *)
#[export] Instance const_backend : Backend Response := fun _ resp => (resp, inr resp).

Definition submitted_job : BenchmarkJob :=
  demo_job [benchmarkJobFinalizer]
    (MkStatus PhaseSubmitted "test-uuid-1234" "" 0 None None None (Some 10) None).

Definition stuck_world : sim Response :=
  MkSim {[demo_key := submitted_job]} resp_completed [] 100.

Lemma Idle_poll_forever_witness :
  reconcile_times cl_handler (SetupWithManager (MkReconciler None)) demo_key 1000 stuck_world
  = stuck_world.
Proof.
  destruct (decode_body decode_poll poll_zero (Body resp_completed)) as [p|] eqn:E;
    [|vm_compute in E; discriminate].
  apply (Idle_poll_forever cl_handler (MkReconciler None) demo_key 1000 stuck_world submitted_job
           resp_completed p);
    [vm_compute; reflexivity|by intros q|split; vm_compute; reflexivity|exact E|].
  vm_compute in E. injection E as <-. left. split_and!; [reflexivity|discriminate..].
Defined.

(** ** Failure, retry and completion *)

(** What a failed backend job does: below the retry limit (zero stands
    for three) the object goes back to pending with the job ID cleared and one
    more retry counted, and no clock is read; at the limit it goes to Failed,
    keeping job ID and count, stamped with the completion time.  Everything
    else of the object is kept, and the one status write is the last call. *)
Theorem handleFailure_branches {W} (h : handler op_sig W) (job : BenchmarkJob) (w : W) :
  in_int (RetryCount (Status job) + 1) ->
  let st := Status job in
  let rc := RetryCount st in
  let limit := retry_limit (Spec job) in
  let res := run h (handleFailure job) w in
  let written pre w1 st' :=
    exists x, h (Own (ApiStatusUpdate (set_status job st'))) w1 = (ex_world res, x) /\
      ex_trace res = pre ++ [Ev (S := op_sig) (Own (ApiStatusUpdate (set_status job st'))) x] /\
      ex_out res = Done (Result_zero,
        ErrWrap ("update status (phase=" +:+ Phase st' +:+ ")") <$> x) in
  if rc <? limit then
    written [] w
      (MkStatus PhasePending "" ("retry " +:+ fmt_d (rc + 1) +:+ "/" +:+ fmt_d limit
         +:+ " after backend failure") (rc + 1) (Throughput st) (LatencyMs st)
         (MemoryBandwidthGbps st) (StartTime st) (CompletionTime st))
  else
    exists w1 now, h Now w = (w1, now) /\
      written [Ev (S := op_sig) Now now] w1
        (MkStatus PhaseFailed (JobID st) ("failed after " +:+ fmt_d rc +:+ " retries") rc
           (Throughput st) (LatencyMs st) (MemoryBandwidthGbps st) (StartTime st) (Some now)).
Proof.
  intros Hin. cbn zeta. unfold handleFailure. fold (retry_limit (Spec job)).
  destruct (_ <? _).
  - rewrite wrap_int_id by done. rewrite run_setPhase. cbn -[fmt_d]. run_call. by eexists.
  - cbn [bind time_Now call run]. destruct (h Now w) as [w1 now]. rewrite run_setPhase.
    cbn -[fmt_d]. exists w1, now. split; [done|]. run_call. by eexists.
Qed.

Lemma handleFailure_branches_witness :
  let st := MkStatus PhaseRunning "id" "" 2 None None None (Some 1) None in
  let w := demo_world (demo_job [benchmarkJobFinalizer] st) [] in
  exists x, ex_out (run cl_handler (handleFailure (demo_job [benchmarkJobFinalizer] st)) w)
    = Done (Result_zero, ErrWrap "update status (phase=Pending)" <$> x).
Proof.
  intros st w.
  destruct (handleFailure_branches cl_handler (demo_job [benchmarkJobFinalizer] st) w)
    as (x & _ & _ & Hout); [vm_compute; split; discriminate|by exists x].
Defined.

(** C14. A completed job carries the backend's measurements: when the poll of
    a running object answers the JSON of a finished job, the reconciliation
    stamps the clock and writes status Completed with exactly the three
    numbers of the body, each read as the nearest binary64; the HTTP status
    code is not looked at. *)
Theorem Completion_stores_metrics `{Machinery} {W} (h : handler op_sig W)
    (r : BenchmarkJobReconciler) (n : NamespacedName) (w w1 w2 w3 : W) (job : BenchmarkJob)
    (code now : Z) (a b c : string) (fa fb fc : float64) :
  h (Own (ApiGet n)) w = (w1, inr job) -> active job ->
  Phase (Status job) = PhaseRunning -> url_parses (job_url job) = true ->
  number_lit a -> number_lit b -> number_lit c ->
  decode_float (S754_zero false) (JNumber a) = Some fa ->
  decode_float (S754_zero false) (JNumber b) = Some fb ->
  decode_float (S754_zero false) (JNumber c) = Some fc ->
  h (Do (MkRequest MethodGet (job_url job) None "")) w1 =
    (w2, inr (MkResponse code (completed_body a b c))) ->
  h Now w2 = (w3, now) ->
  let st := Status job in
  let res := run h (Reconcile (SetupWithManager r) n) w in
  status_writes (ex_trace res) =
    [MkStatus PhaseCompleted (JobID st) "benchmark execution successful" (RetryCount st)
       (Some fa) (Some fb) (Some fc) (StartTime st) (Some now)].
Proof.
  intros Hget Ha Hph Hu La Lb Lc Fa Fb Fc Hdo Hnow. cbn zeta.
  destruct (SetupWithManager_client r) as [cl Hc].
  rewrite (Reconcile_found _ h n w w1 job Hget). cbn [ex_trace].
  rewrite reconcile_job_running by done. unfold handleRunning. rewrite Hc.
  unfold client_Get, NewRequest. rewrite Hu. cbn [client_Do bind call run].
  rewrite Hdo. cbn [Body]. rewrite (completed_body_decodes a b c fa fb fc) by done.
  cbn [poll_Status poll_Result]. rewrite bool_decide_eq_true_2 by done.
  cbn [bind time_Now call run]. rewrite Hnow. cbn [ex_trace].
  rewrite run_setPhase. cbn zeta. by run_call.
Qed.

Lemma Completion_stores_metrics_witness :
  let job := demo_job [benchmarkJobFinalizer]
    (MkStatus PhaseRunning "id" "" 0 None None None (Some 1) None) in
  let w := demo_world job [inr (MkResponse 200 (completed_body "687.5" "4.21" "1243.7"))] in
  exists fb fc,
  status_writes (ex_trace (run cl_handler (Reconcile (SetupWithManager (MkReconciler None)) demo_key) w))
  = [MkStatus PhaseCompleted "id" "benchmark execution successful" 0
       (Some (S754_finite false 6047313952768000 (-43))) (Some fb) (Some fc) (Some 1) (Some 100)].
Proof.
  intros job w.
  destruct (decode_float (S754_zero false) (JNumber "4.21")) as [fb|] eqn:Eb;
    [|vm_compute in Eb; discriminate].
  destruct (decode_float (S754_zero false) (JNumber "1243.7")) as [fc|] eqn:Ec;
    [|vm_compute in Ec; discriminate].
  exists fb, fc.
  eapply (Completion_stores_metrics cl_handler (MkReconciler None) demo_key w w
           (MkSim (sim_store w) [] [] 100) (MkSim (sim_store w) [] [] 101) job 200 100
           "687.5" "4.21" "1243.7");
    first [exact Eb|exact Ec|split; vm_compute; reflexivity|vm_compute; reflexivity|
           apply number_litb_sound; vm_compute; reflexivity].
Defined.

(** A backend that accepts every submission and reports every job failed. *)
#[export] Instance failing_jobs : Backend unit := fun q b =>
  (b, inr (if bool_decide (Method q = MethodPost) then resp_accepted else resp_status "failed")).

(** C15. The operator does not retry forever: against a backend that accepts
    every submission and then reports the job failed, without API faults, an
    object of which [k] retries are left reaches phase Failed after exactly
    k+1 rounds of submit and poll, with the retry count at the limit. *)
Theorem Failing_job_ends_Failed `{MachineryLaws} {B} `{Bk : Backend B}
    (r : BenchmarkJobReconciler) (inv : B -> Prop) (id : string) (key : NamespacedName)
    (spec : BenchmarkJobSpec) (k : nat) (w : sim B) :
  failing_backend inv id key spec ->
  url_parses (base_url spec +:+ "/benchmarks") = true ->
  url_parses (base_url spec +:+ "/benchmarks/" +:+ id) = true ->
  0 <= retry_limit spec - Z.of_nat k -> in_int (retry_limit spec + 1) ->
  at_phase inv id key spec w [""; PhasePending] (retry_limit spec - Z.of_nat k) ->
  let w' := reconcile_times cl_handler (SetupWithManager r) key (2 * (k + 1)) w in
  exists job, sim_store w' !! key = Some job /\ Spec job = spec /\
    Phase (Status job) = PhaseFailed /\ RetryCount (Status job) = retry_limit spec.
Proof.
  intros Hf Hs Hp Hrc Hin Hat w'.
  pose proof (retry_loop r inv id key spec Hf Hs Hp k w Hrc Hin Hat)
    as (_ & _ & job & Hj & _ & _ & Hsp & Hph & Hcount & _).
  exists job. apply list_elem_of_singleton in Hph. by split_and!.
Qed.

Lemma Failing_job_ends_Failed_witness :
  let w := MkSim {[demo_key := demo_job [benchmarkJobFinalizer] status_empty]} tt [] 100 in
  exists job, sim_store (reconcile_times cl_handler (SetupWithManager (MkReconciler None)) demo_key
      (2 * (3 + 1)) w) !! demo_key = Some job /\
    Spec job = demo_spec /\ Phase (Status job) = PhaseFailed /\ RetryCount (Status job) = 3.
Proof.
  intros w.
  apply (Failing_job_ends_Failed (MkReconciler None) (fun _ => True) "test-uuid-1234" demo_key
           demo_spec 3 w).
  - constructor; intros b _; eexists b, _, _; (split; [reflexivity|]); (split; [exact I|]).
    + split; [left; reflexivity|]. split; vm_compute; reflexivity.
    + split; vm_compute; reflexivity.
  - vm_compute. reflexivity.
  - vm_compute. reflexivity.
  - vm_compute. discriminate.
  - vm_compute. split; discriminate.
  - split; [exact I|]. split; [reflexivity|].
    exists (demo_job [benchmarkJobFinalizer] status_empty).
    split_and!; try (vm_compute; reflexivity).
    + split; vm_compute; reflexivity.
    + apply list_elem_of_here.
    + discriminate.
Defined.
