(* ===== verification/Suite.v ===== *)
(** * The envtest suite of the operator

    [operator/controllers/suite_test.go]: the mock of the backend, the object
    the test creates, and what the test waits for.  The client the suite
    injects comes from [httptest], whose transport sends only its own host
    names to the mock: whether the host name of the object resolves to it is
    an argument. *)
From S2P Require Import SimCluster.

Definition suite_address : string := "http://mock-server".

(** The handler of [mockServer]. *)
Definition mock_server (q : Request) : Response :=
  if bool_decide (Method q = MethodPost) && bool_decide (URL q = suite_address +:+ "/benchmarks") then
    MkResponse 202
      (print_json (JObject [("job_id", JString "test-uuid-1234"); ("status", JString "queued")])
       +:+ bytes [10])
  else if bool_decide (Method q = MethodGet) then
    MkResponse 200
      (print_json (JObject
         [("result", JObject [("latency_ms", JNumber "4.21");
                              ("memory_bandwidth_gbps", JNumber "1243.7");
                              ("throughput", JNumber "687.5")]);
          ("status", JString "completed")])
       +:+ bytes [10])
  else MkResponse 204 "".

Definition no_such_host : error := ErrLeaf "" "dial tcp: lookup mock-server: no such host".

#[export] Instance suite_backend : Backend bool :=
  fun q resolves => (resolves, if resolves then inr (mock_server q) else inl no_such_host).

(** The object of the test, as the API server stores it: the CRD fills in the
    retry limit. *)
Definition suite_job : BenchmarkJob :=
  MkJob (MkTypeMeta "BenchmarkJob" "benchmarks.gpu-platform.io/v1alpha1")
    (MkMeta "test-h100-benchmark" "default" "1" None [])
    (MkSpec "H100" "inference" 32 suite_address 3) status_empty.

Definition suite_world (resolves : bool) : sim bool :=
  MkSim {[demo_key := suite_job]} resolves [] 100.

Definition suite_after (resolves : bool) (k : nat) : sim bool :=
  reconcile_times cl_handler demo_reconciler demo_key k (suite_world resolves).

(** What the test waits for. *)
Definition suite_expects (st : BenchmarkJobStatus) : bool :=
  bool_decide (Phase st = PhaseCompleted) && bool_decide (JobID st = "test-uuid-1234") &&
  match Throughput st with Some _ => true | None => false end.

Definition suite_status (w : sim bool) : option BenchmarkJobStatus :=
  Status <$> sim_store w !! demo_key.

(** From the third reconciliation on, nothing changes. *)
Lemma suite_stalls resolves k : suite_after resolves (3 + k) = suite_after resolves 3.
Proof.
  assert (ex_world (run cl_handler (Reconcile demo_reconciler demo_key) (suite_after resolves 3)) =
          suite_after resolves 3) as E by (destruct resolves; vm_compute; reflexivity).
  unfold suite_after at 1. change (reconcile_times cl_handler demo_reconciler demo_key (3 + k)
    (suite_world resolves)) with (reconcile_times cl_handler demo_reconciler demo_key k
    (suite_after resolves 3)).
  induction k as [|k IH]; [done|]. cbn [reconcile_times]. by rewrite E.
Qed.

(** The test cannot pass: however often the object is reconciled, it is never
    Completed.  If its host name does not reach the mock, it is never
    submitted; if it does, the first poll is answered "completed", which a
    submitted object does not act on. *)
Theorem suite_never_passes resolves k :
  suite_expects <$> suite_status (suite_after resolves k) = Some false /\
  ((3 <= k)%nat -> Phase <$> suite_status (suite_after resolves k) =
     Some (if resolves then PhaseSubmitted else "")).
Proof.
  split.
  - destruct k as [|[|[|k]]]; [destruct resolves; vm_compute; reflexivity..|].
    change (S (S (S k))) with (3 + k)%nat. rewrite suite_stalls.
    destruct resolves; vm_compute; reflexivity.
  - intros Hk. replace k with (3 + (k - 3))%nat by lia. rewrite suite_stalls.
    destruct resolves; vm_compute; reflexivity.
Qed.

