(* ===== verification/Heap.v ===== *)
(** * Pointers and slices: a heap for Go values

    The generated deep copies are about sharing: a copy must read as the
    original does and share no memory with it.  A heap maps addresses to
    cells; the code is a state monad over it that fails on a nil or dangling
    pointer; and what a value stands for is a reading that returns, with the
    value, the set of addresses it went through (its footprint).

    [DeepCopyable] is the interface every deeply copied type has: its reading,
    and its [DeepCopyInto].  A Go method [in.DeepCopyInto(out)] fills the
    struct behind [out] from the one behind [in] and looks at nothing of the
    old [*out], so it is a function from the struct at [in] to the one it
    leaves at [out].  [DeepCopyLaws] says it is a deep copy. *)
From S2P Require Export Prelude.

Definition addr := positive.
Abbreviation heap C := (gmap addr C).

(** Typed pointers; a pointer that may be nil is an option. *)
Record ref (A : Type) : Type := Ref { ref_addr : addr }.
Arguments Ref {A} ref_addr.
Arguments ref_addr {A} r.

(** A slice is a window of an array. *)
Record slice (A : Type) : Type := Slice {
  sl_array : ref (list A);
  sl_off : nat;
  sl_len : nat
}.
Arguments Slice {A} sl_array sl_off sl_len.
Arguments sl_array {A} s.
Arguments sl_off {A} s.
Arguments sl_len {A} s.

(** The values a cell of the heap can hold. *)
Class Cell (C A : Type) : Type := {
  to_cell : A -> C;
  of_cell : C -> option A;
  of_to_cell x : of_cell (to_cell x) = Some x
}.

(** An instance from a constructor and its inverse. *)
Ltac cell_of c d := by refine {| to_cell := c; of_cell := d |}.

(** The zero value of a type, which [new] and [make] fill memory with. *)
Class Zero (A : Type) : Type := zero : A.

(** ** Code: the heap monad *)

Definition hM (C A : Type) : Type := heap C -> option (heap C * A).

#[export] Instance hM_ret C : MRet (hM C) := fun A x h => Some (h, x).
#[export] Instance hM_bind C : MBind (hM C) := fun A B k m h =>
  match m h with
  | Some (h', x) => k x h'
  | None => None
  end.

Section Ops.
Context {C : Type}.

Definition stuck {A} : hM C A := fun _ => None.

(** [new(T)], and [&x] of a local variable. *)
Definition alloc `{Cell C A} (x : A) : hM C (ref A) := fun h =>
  let l := fresh (dom h) in Some (<[l := to_cell x]> h, Ref l).

(** [*p] *)
Definition load `{Cell C A} (p : ref A) : hM C A := fun h =>
  match h !! ref_addr p ≫= of_cell with
  | Some x => Some (h, x)
  | None => None
  end.

(** [*p = x] *)
Definition store `{Cell C A} (p : ref A) (x : A) : hM C unit := fun h =>
  match h !! ref_addr p ≫= of_cell (A := A) with
  | Some _ => Some (<[ref_addr p := to_cell x]> h, tt)
  | None => None
  end.

(** [make([]T, n)] *)
Definition make_slice `{Cell C (list A), Zero A} (n : nat) : hM C (slice A) :=
  p ← alloc (replicate n zero); mret (Slice p 0 n).

(** [s[i]]: out of range is a run-time panic. *)
Definition slice_get `{Cell C (list A)} (s : slice A) (i : nat) : hM C A :=
  xs ← load (sl_array s);
  if decide (i < sl_len s)
  then match xs !! (sl_off s + i) with Some x => mret x | None => stuck end
  else stuck.

(** [s[i] = x] *)
Definition slice_set `{Cell C (list A)} (s : slice A) (i : nat) (x : A) : hM C unit :=
  xs ← load (sl_array s);
  if decide (i < sl_len s /\ sl_off s + i < length xs)
  then store (sl_array s) (<[sl_off s + i := x]> xs)
  else stuck.

(** [for i := range ...], from [i] on. *)
Fixpoint for_range (i n : nat) (body : nat -> hM C unit) : hM C unit :=
  match n with
  | O => mret tt
  | S n' => _ ← body i; for_range (S i) n' body
  end.

(** ** Readings *)

Definition rM (A : Type) : Type := heap C -> option (A * gset addr).

#[export] Instance rM_ret : MRet rM := fun A x _ => Some (x, ∅).
#[export] Instance rM_bind : MBind rM := fun A B k r h =>
  match r h with
  | Some (x, L) =>
      match k x h with
      | Some (y, L') => Some (y, L ∪ L')
      | None => None
      end
  | None => None
  end.

Definition rload `{Cell C A} (p : ref A) : rM A := fun h =>
  match h !! ref_addr p ≫= of_cell with
  | Some x => Some (x, {[ref_addr p]})
  | None => None
  end.

Fixpoint rlist {V A} (r : V -> rM A) (vs : list V) : rM (list A) :=
  match vs with
  | [] => mret []
  | v :: vs' => x ← r v; xs ← rlist r vs'; mret (x :: xs)
  end.

Definition ropt {V A} (r : V -> rM A) (v : option V) : rM (option A) :=
  match v with
  | Some v => x ← r v; mret (Some x)
  | None => mret None
  end.

Definition rref `{Cell C V} {A} (r : V -> rM A) (p : ref V) : rM A := v ← rload p; r v.

Definition window {V} (s : slice V) (vs : list V) : list V :=
  take (sl_len s) (drop (sl_off s) vs).

Definition rslice `{Cell C (list V)} {A} (r : V -> rM A) (s : slice V) : rM (list A) :=
  vs ← rload (sl_array s);
  if decide (sl_off s + sl_len s <= length vs) then rlist r (window s vs) else fun _ => None.
End Ops.
Arguments rM C A : clear implicits.

(** ** The interface of a deeply copied type *)

Class DeepCopyable (C V A : Type) : Type := {
  reading : V -> rM C A;
  DeepCopyInto : V -> hM C V
}.

(** What a reading depends on: the cells of its footprint, which are there. *)
Class Framed {C A} (r : rM C A) : Prop := {
  framed_dom h x L : r h = Some (x, L) -> L ⊆ dom h;
  framed_agree h h' x L :
    r h = Some (x, L) -> (forall l, l ∈ L -> h' !! l = h !! l) -> r h' = Some (x, L)
}.

(** Code that terminates without a panic in a state with property [Q]. *)
Definition hwp {C A} (m : hM C A) (h : heap C) (Q : heap C -> A -> Prop) : Prop :=
  exists h' x, m h = Some (h', x) /\ Q h' x.

(** [v'], in [h'], is a deep copy of a value that reads [x] in [h]: it reads
    the same, from cells that were not there, and the old ones are as before. *)
Definition deep_copied {C V A} (r : V -> rM C A) (h : heap C) (x : A)
    (h' : heap C) (v' : V) : Prop :=
  h ⊆ h' /\ exists L', r v' h' = Some (x, L') /\ L' ## dom h.

Class DeepCopyLaws {C V A} (D : DeepCopyable C V A) : Prop := {
  reading_framed v :: Framed (reading v);
  DeepCopyInto_copies h v x L :
    reading v h = Some (x, L) -> hwp (DeepCopyInto v) h (deep_copied reading h x)
}.

(** A type the program only copies through a pointer, with the [DeepCopy] of
    the package it comes from. *)
Class DeepCopyPointer (C V A : Type) : Type := {
  pointee : V -> rM C A;
  DeepCopy : option (ref V) -> hM C (option (ref V))
}.

Class DeepCopyPointerLaws `{Cell C V} {A} (D : DeepCopyPointer C V A) : Prop := {
  pointee_framed v :: Framed (pointee v);
  DeepCopy_copies h o x L :
    ropt (rref pointee) o h = Some (x, L) ->
    hwp (DeepCopy o) h (deep_copied (ropt (rref pointee)) h x)
}.

(** ** What the generator writes for pointers, slices and floats *)

Section Generated.
Context {C : Type}.

(** [if in == nil { return nil }; out := new(T); in.DeepCopyInto(out); return out] *)
Definition new_copy `{Cell C V, Zero V} (into : V -> hM C V) (in_ : option (ref V)) :
    hM C (option (ref V)) :=
  match in_ with
  | None => mret None
  | Some p =>
      out ← alloc (zero : V);
      v ← load p;
      v' ← into v;
      _ ← store out v';
      mret (Some out)
  end.

(** [if in.F != nil { x := *in.F; out.F = &x }]: the pointer left in [out.F],
    which [*out = *in] had set to [in.F]. *)
Definition box_copy `{Cell C V} (in_ : option (ref V)) : hM C (option (ref V)) :=
  match in_ with
  | None => mret None
  | Some p => x ← load p; q ← alloc x; mret (Some q)
  end.

(** [if in.Items != nil { *out = make([]T, len( *in));
    for i := range *in { ( *in)[i].DeepCopyInto(&( *out)[i]) } }] *)
Definition items_copy `{Cell C (list V), Zero V} (into : V -> hM C V) (in_ : option (slice V)) :
    hM C (option (slice V)) :=
  match in_ with
  | None => mret None
  | Some s =>
      out ← make_slice (sl_len s);
      _ ← for_range 0 (sl_len s) (fun i =>
            v ← slice_get s i;
            v' ← into v;
            slice_set out i v');
      mret (Some out)
  end.
End Generated.

(** ** Readings are framed *)

Section Readings.
Context {C : Type}.
Implicit Types h : heap C.

#[export] Instance framed_ret {A} (x : A) : Framed (C := C) (mret x).
Proof. split; unfold mret, rM_ret; intros; simplify_eq; set_solver. Qed.

#[export] Instance framed_fail {A} : Framed (C := C) (A := A) (fun _ => None).
Proof. split; intros; discriminate. Qed.

Lemma rbind_inv {A B} (r : rM C A) (k : A -> rM C B) h y L :
  (x ← r; k x) h = Some (y, L) <->
  exists x L1 L2, r h = Some (x, L1) /\ k x h = Some (y, L2) /\ L = L1 ∪ L2.
Proof.
  unfold mbind, rM_bind. split.
  - destruct (r h) as [[x L1]|]; [|done]. destruct (k x h) as [[y' L2]|] eqn:E; [|done].
    intros. simplify_eq. eauto 7.
  - intros (x & L1 & L2 & -> & -> & ->). done.
Qed.

#[export] Instance framed_bind {A B} (r : rM C A) (k : A -> rM C B) :
  Framed r -> (forall x, Framed (k x)) -> Framed (x ← r; k x).
Proof.
  intros Hr Hk. split.
  - intros h y L (x & L1 & L2 & H1 & H2 & ->)%rbind_inv.
    apply framed_dom in H1, H2. set_solver.
  - intros h h' y L (x & L1 & L2 & H1 & H2 & ->)%rbind_inv Hag. apply rbind_inv.
    exists x, L1, L2. split; [|split]; [..|done].
    + eapply framed_agree; [done|]. set_solver.
    + eapply framed_agree; [done|]. set_solver.
Qed.

#[export] Instance framed_load `{Cell C A} (p : ref A) : Framed (rload p).
Proof.
  split; unfold rload.
  - intros h x L E. destruct (h !! ref_addr p) as [c|] eqn:Ec; [|done]. cbn in E.
    destruct (of_cell c); simplify_eq. apply elem_of_dom_2 in Ec. set_solver.
  - intros h h' x L E Hag. rewrite Hag; [done|].
    destruct (h !! ref_addr p ≫= of_cell); simplify_eq. set_solver.
Qed.

#[export] Instance framed_list {V A} (r : V -> rM C A) vs :
  (forall v, Framed (r v)) -> Framed (rlist r vs).
Proof. intros. induction vs; apply _. Qed.

#[export] Instance framed_opt {V A} (r : V -> rM C A) v :
  (forall v, Framed (r v)) -> Framed (ropt r v).
Proof. intros. destruct v; apply _. Qed.

#[export] Instance framed_ref `{Cell C V} {A} (r : V -> rM C A) p :
  (forall v, Framed (r v)) -> Framed (rref r p).
Proof. intros. apply framed_bind; apply _. Qed.

#[export] Instance framed_slice `{Cell C (list V)} {A} (r : V -> rM C A) s :
  (forall v, Framed (r v)) -> Framed (rslice r s).
Proof. intros. apply framed_bind; [apply _|]. intros vs. destruct (decide _); apply _. Qed.

(** A larger heap reads the same. *)
Lemma reads_mono {A} (r : rM C A) `{!Framed r} h h' x L :
  h ⊆ h' -> r h = Some (x, L) -> r h' = Some (x, L).
Proof.
  intros Hs E. eapply framed_agree; [done|]. intros l Hl.
  eapply (framed_dom (r := r)) in E. apply E, elem_of_dom in Hl as [c Hc].
  rewrite Hc. eapply lookup_weaken; eauto.
Qed.

(** Writes outside the footprint are not seen. *)
Definition writes (ws : list (addr * C)) (h : heap C) : heap C :=
  foldl (fun h w => <[w.1 := w.2]> h) h ws.

Lemma writes_lookup ws h l : l ∉ ws.*1 -> writes ws h !! l = h !! l.
Proof.
  revert h. induction ws as [|[l' c] ws IH]; intros h; cbn; [done|].
  intros Hl. etrans; [apply IH; set_solver|]. apply lookup_insert_ne. set_solver.
Qed.

Lemma reads_writes {A} (r : rM C A) `{!Framed r} ws h x L :
  r h = Some (x, L) -> (forall l, l ∈ ws.*1 -> l ∉ L) -> r (writes ws h) = Some (x, L).
Proof.
  intros E Hws. eapply framed_agree; [done|]. intros l Hl. apply writes_lookup. set_solver.
Qed.

Lemma reads_insert {A} (r : rM C A) `{!Framed r} l c h x L :
  r h = Some (x, L) -> l ∉ L -> r (<[l := c]> h) = Some (x, L).
Proof. intros E Hl. apply (reads_writes r [(l, c)] h); set_solver. Qed.

Lemma rload_lookup `{Cell C A} (p : ref A) h x L :
  rload p h = Some (x, L) <-> h !! ref_addr p ≫= of_cell = Some x /\ L = {[ref_addr p]}.
Proof.
  unfold rload. destruct (h !! ref_addr p ≫= of_cell); split; intros; destruct_and?; by simplify_eq.
Qed.

Lemma rlist_app {V A} (r : V -> rM C A) vs ws h xs ys L1 L2 :
  rlist r vs h = Some (xs, L1) -> rlist r ws h = Some (ys, L2) ->
  rlist r (vs ++ ws) h = Some (xs ++ ys, L1 ∪ L2).
Proof.
  revert xs L1. induction vs as [|v vs IH]; cbn [rlist app]; intros xs L1.
  - intros [= <- <-] ->. cbn. by rewrite (left_id_L ∅ (∪)).
  - intros (x & La & Lb & E1 & E2 & ->)%rbind_inv E.
    apply rbind_inv in E2 as (xs' & Lc & Ld & E2 & [= <- <-] & ->).
    apply rbind_inv. exists x, La, (Lc ∪ L2). split; [done|]. split; [|set_solver].
    apply rbind_inv. exists (xs' ++ ys), (Lc ∪ L2), ∅. split; [by apply IH|]. split; [done|set_solver].
Qed.

Lemma rlist_lookup {V A} (r : V -> rM C A) vs h xs L i v :
  rlist r vs h = Some (xs, L) -> vs !! i = Some v ->
  exists x L', xs !! i = Some x /\ r v h = Some (x, L') /\ L' ⊆ L.
Proof.
  revert xs L i. induction vs as [|w vs IH]; [done|]. cbn [rlist]. intros xs L i.
  intros (x & La & Lb & E1 & E2 & ->)%rbind_inv.
  apply rbind_inv in E2 as (xs' & Lc & Ld & E2 & [= <- <-] & ->).
  destruct i as [|i]; cbn; intros Hv.
  - simplify_eq. exists x, La. set_solver.
  - destruct (IH _ _ _ E2 Hv) as (x' & L' & ? & ? & ?). exists x', L'. set_solver.
Qed.

Lemma rlist_length {V A} (r : V -> rM C A) vs h xs L :
  rlist r vs h = Some (xs, L) -> length xs = length vs.
Proof.
  revert xs L. induction vs as [|v vs IH]; cbn [rlist]; intros xs L.
  - by intros [= <- _].
  - intros (x & La & Lb & _ & E & _)%rbind_inv.
    apply rbind_inv in E as (xs' & Lc & Ld & E & [= <- _] & _). cbn. f_equal. eauto.
Qed.
End Readings.

(** ** Rules for code *)

Section Rules.
Context {C : Type}.
Implicit Types h : heap C.

Lemma hwp_ret {A} (x : A) h (Q : heap C -> A -> Prop) : Q h x -> hwp (mret x) h Q.
Proof. unfold hwp, mret, hM_ret. eauto. Qed.

Lemma hwp_bind {A B} (m : hM C A) (k : A -> hM C B) h Q :
  hwp m h (fun h' x => hwp (k x) h' Q) -> hwp (x ← m; k x) h Q.
Proof.
  intros (h1 & x & E1 & h2 & y & E2 & HQ). exists h2, y. split; [|done].
  unfold mbind, hM_bind. by rewrite E1.
Qed.

Lemma hwp_mono {A} (m : hM C A) h (Q R : heap C -> A -> Prop) :
  hwp m h Q -> (forall h' x, Q h' x -> R h' x) -> hwp m h R.
Proof. intros (h' & x & E & HQ) HR. exists h', x. auto. Qed.

Lemma hwp_load `{Cell C A} (p : ref A) x h (Q : heap C -> A -> Prop) :
  h !! ref_addr p ≫= of_cell = Some x -> Q h x -> hwp (load p) h Q.
Proof. intros E HQ. exists h, x. unfold load. by rewrite E. Qed.

Lemma hwp_store `{Cell C A} (p : ref A) x y h (Q : heap C -> unit -> Prop) :
  h !! ref_addr p ≫= of_cell = Some y -> Q (<[ref_addr p := to_cell x]> h) tt ->
  hwp (store p x) h Q.
Proof. intros E HQ. exists (<[ref_addr p := to_cell x]> h), tt. unfold store. by rewrite E. Qed.

Lemma hwp_alloc `{Cell C A} (x : A) h (Q : heap C -> ref A -> Prop) :
  (forall p : ref A, ref_addr p ∉ dom h -> Q (<[ref_addr p := to_cell x]> h) (p)) ->
  hwp (alloc x) h Q.
Proof.
  intros HQ. set (l := fresh (dom h)). exists (<[l := to_cell x]> h), (Ref l). split; [done|].
  apply (HQ (Ref l)), is_fresh.
Qed.

Lemma lookup_to_cell `{Cell C A} (p : ref A) (x : A) h :
  (<[ref_addr p := to_cell x]> h) !! ref_addr p ≫= of_cell = Some x.
Proof. rewrite lookup_insert_eq. apply of_to_cell. Qed.

Lemma insert_fresh_subseteq h l c : l ∉ dom h -> h ⊆ <[l := c]> h.
Proof. intros. apply insert_subseteq, not_elem_of_dom. done. Qed.

Lemma disjoint_later {h0 h} {L : gset addr} : h0 ⊆ h -> L ## dom h -> L ## dom h0.
Proof. intros Hs%subseteq_dom. set_solver. Qed.

(** A call of a deep copy, in a later heap than the one its argument was read
    in. *)
Lemma hwp_copy {V A} (D : DeepCopyable C V A) `{!DeepCopyLaws D} v h0 h x L
    (Q : heap C -> V -> Prop) :
  reading v h0 = Some (x, L) -> h0 ⊆ h ->
  (forall h' v' L', h ⊆ h' -> reading v' h' = Some (x, L') -> L' ## dom h -> Q h' v') ->
  hwp (DeepCopyInto v) h Q.
Proof.
  intros E Hs HQ. eapply hwp_mono; [eapply DeepCopyInto_copies, (reads_mono (reading v)); done|].
  intros h' v' (? & L' & ? & ?). eauto.
Qed.
End Rules.

(** ** The generated shapes copy *)

Section Copies.
Context {C : Type}.
Implicit Types h : heap C.

(** [new_copy] of a pointer that is not nil. *)
Lemma new_copy_copies `{Cell C V, Zero V} {A} (D : DeepCopyable C V A) `{!DeepCopyLaws D} h p x L :
  rref reading p h = Some (x, L) ->
  hwp (new_copy DeepCopyInto (Some p)) h (fun h' o => exists q, o = Some q /\
    deep_copied (rref reading) h x h' q).
Proof.
  intros (v & L1 & L2 & El & Er & ->)%rbind_inv.
  apply rload_lookup in El as El'. destruct El' as [El' ->].
  cbn [new_copy]. apply hwp_bind, hwp_alloc. intros q Hq. set (h1 := <[_ := _]> h).
  pose proof (insert_fresh_subseteq h _ (to_cell (zero : V)) Hq) as Hs.
  apply hwp_bind, (hwp_load _ v).
  { eapply rload_lookup, (reads_mono (rload p)); done. }
  apply hwp_bind, (hwp_copy D v h _ _ _ _ Er Hs). intros h2 v' L' Hs2 Er' HL'.
  apply hwp_bind, (hwp_store _ _ (zero : V)).
  { eapply lookup_weaken in Hs2; [|apply lookup_insert_eq]. by rewrite Hs2; cbn; rewrite of_to_cell. }
  apply hwp_ret. exists q. split; [done|].
  assert (ref_addr q ∉ L') by (unfold h1 in HL'; rewrite dom_insert_L in HL'; set_solver).
  split.
  - apply map_subseteq_spec. intros l c Hl.
    rewrite lookup_insert_ne by (intros <-; apply Hq, elem_of_dom; eauto).
    eapply lookup_weaken, Hs2. eapply lookup_weaken, Hs. done.
  - exists ({[ref_addr q]} ∪ L'). split.
    + apply rbind_inv. exists v', {[ref_addr q]}, L'. split; [|split]; [..|done].
      * apply rload_lookup. split; [apply lookup_to_cell|done].
      * by apply (reads_insert (reading v')).
    + unfold h1 in HL'. rewrite dom_insert_L in HL'. set_solver.
Qed.

(** A pointer field, deeply copied when it is not nil. *)
Lemma new_copy_opt `{Cell C V, Zero V} {A} (D : DeepCopyable C V A) `{!DeepCopyLaws D} h o x L :
  ropt (rref reading) o h = Some (x, L) ->
  hwp (new_copy DeepCopyInto o) h (deep_copied (ropt (rref reading)) h x).
Proof.
  destruct o as [p|]; cbn [ropt].
  - intros (y & L1 & L2 & E & [= <- <-] & ->)%rbind_inv.
    eapply hwp_mono; [by eapply new_copy_copies|]. intros h' o (q & -> & Hs & L' & Eq & HL').
    split; [done|]. exists (L' ∪ ∅). split; [|set_solver].
    apply rbind_inv. exists y, L', ∅. done.
  - intros [= <- <-]. apply hwp_ret. split; [done|]. exists ∅. split; [done|set_solver].
Qed.

(** A pointer field to plain data. *)
Lemma box_copy_opt `{Cell C V} h (o : option (ref V)) x L :
  ropt rload o h = Some (x, L) -> hwp (box_copy o) h (deep_copied (ropt rload) h x).
Proof.
  destruct o as [p|]; cbn [ropt box_copy].
  - intros (y & L1 & L2 & E & [= <- <-] & ->)%rbind_inv.
    apply rload_lookup in E as [E ->].
    apply hwp_bind, (hwp_load _ _ _ _ E), hwp_bind, hwp_alloc. intros q Hq. apply hwp_ret.
    split; [by apply insert_fresh_subseteq|]. exists ({[ref_addr q]} ∪ ∅). split; [|set_solver].
    apply rbind_inv. exists y, {[ref_addr q]}, ∅. split; [|done].
    apply rload_lookup. split; [apply lookup_to_cell|done].
  - intros [= <- <-]. apply hwp_ret. split; [done|]. exists ∅. split; [done|set_solver].
Qed.

(** The rule of a counted loop. *)
Lemma hwp_for_range (I : nat -> heap C -> Prop) (body : nat -> hM C unit) n i h Q :
  I i h ->
  (forall j h, i <= j < i + n -> I j h -> hwp (body j) h (fun h' _ => I (S j) h')) ->
  (forall h', I (i + n) h' -> Q h' tt) ->
  hwp (for_range i n body) h Q.
Proof.
  revert i h. induction n as [|n IH]; intros i h HI Hb HQ; cbn [for_range].
  - apply hwp_ret, HQ. by rewrite Nat.add_0_r.
  - apply hwp_bind. eapply hwp_mono; [apply Hb; [lia|done]|]. intros h' [] HI'.
    apply IH; [done| |].
    + intros j h1 Hj. apply Hb. lia.
    + intros h1 H1. apply HQ. by rewrite Nat.add_succ_r.
Qed.

Lemma hwp_slice_get `{Cell C (list A)} (s : slice A) i arr x h (Q : heap C -> A -> Prop) :
  h !! ref_addr (sl_array s) ≫= of_cell = Some arr -> i < sl_len s ->
  arr !! (sl_off s + i) = Some x -> Q h x -> hwp (slice_get s i) h Q.
Proof.
  intros E Hi Hx HQ. apply hwp_bind, (hwp_load _ _ _ _ E).
  rewrite decide_True by done. rewrite Hx. by apply hwp_ret.
Qed.

Lemma hwp_slice_set `{Cell C (list A)} (s : slice A) i arr x h (Q : heap C -> unit -> Prop) :
  h !! ref_addr (sl_array s) ≫= of_cell = Some arr -> i < sl_len s ->
  sl_off s + i < length arr ->
  Q (<[ref_addr (sl_array s) := to_cell (<[sl_off s + i := x]> arr)]> h) tt ->
  hwp (slice_set s i x) h Q.
Proof.
  intros E Hi Hl HQ. apply hwp_bind, (hwp_load _ _ _ _ E).
  rewrite decide_True by done. by eapply hwp_store.
Qed.

Lemma window_lookup {V} (s : slice V) vs i :
  i < sl_len s -> window s vs !! i = vs !! (sl_off s + i).
Proof. intros Hi. unfold window. by rewrite lookup_take_lt, lookup_drop by done. Qed.

Lemma window_length {V} (s : slice V) vs :
  sl_off s + sl_len s <= length vs -> length (window s vs) = sl_len s.
Proof. intros. unfold window. rewrite length_take, length_drop. lia. Qed.

Section Items.
Context `{Cell C (list V), Zero V} {A} (D : DeepCopyable C V A) `{!DeepCopyLaws D}.

(** The state of the loop before index [i]: the old heap is as it was, the
    elements before [i] are copied, away from it and from the new array. *)
Definition items_upto (h0 : heap C) (xs : list A) (n : nat) (out : slice V) (i : nat)
    (h : heap C) : Prop :=
  h0 ⊆ h /\ exists vs L,
    h !! ref_addr (sl_array out) ≫= of_cell = Some (vs ++ replicate (n - i) zero) /\
    length vs = i /\ rlist reading vs h = Some (take i xs, L) /\
    L ## dom h0 /\ ref_addr (sl_array out) ∉ L.

Lemma items_step h0 (s : slice V) arr xs L out i h :
  h0 !! ref_addr (sl_array s) ≫= of_cell = Some arr ->
  sl_off s + sl_len s <= length arr ->
  rlist reading (window s arr) h0 = Some (xs, L) ->
  ref_addr (sl_array out) ∉ dom h0 -> sl_off out = 0 -> sl_len out = sl_len s ->
  i < sl_len s -> items_upto h0 xs (sl_len s) out i h ->
  hwp (v ← slice_get s i; v' ← DeepCopyInto v; slice_set out i v') h
      (fun h' _ => items_upto h0 xs (sl_len s) out (S i) h').
Proof.
  intros Ea Hw Er Hout Ho Hlen Hi [Hs (vs & Lv & Eo & Hvs & Ev & HLv & Hov)].
  destruct (lookup_lt_is_Some_2 (window s arr) i) as [v Hv]; [by rewrite window_length|].
  destruct (rlist_lookup _ _ _ _ _ _ _ Er Hv) as (x & Lx & Hx & Ex & _).
  rewrite window_lookup in Hv by done.
  apply hwp_bind, (hwp_slice_get s i arr v); [|done..|].
  { eapply rload_lookup, (reads_mono (rload (sl_array s)) h0); [done|]. by apply rload_lookup. }
  apply hwp_bind, (hwp_copy D v h0 h _ _ _ Ex Hs). intros h2 v' L' Hs2 Ev' HL'.
  assert (Eo2 : rload (sl_array out) h2 = Some (vs ++ replicate (sl_len s - i) zero,
                                                {[ref_addr (sl_array out)]})).
  { apply (reads_mono (rload _) h); [done|]. by apply rload_lookup. }
  apply rload_lookup in Eo2 as [Eo2 _].
  assert (Hod : ref_addr (sl_array out) ∈ dom h).
  { apply elem_of_dom. destruct (h !! ref_addr (sl_array out)); done. }
  eapply hwp_slice_set; [done|by rewrite Hlen|rewrite Ho, length_app, length_replicate; lia|].
  assert (h0 ⊆ h2) by (by etrans).
  split.
  { apply map_subseteq_spec. intros l c Hl. rewrite lookup_insert_ne.
    - by eapply lookup_weaken.
    - intros <-. by apply Hout, elem_of_dom. }
  exists (vs ++ [v']), (Lv ∪ (L' ∪ ∅)). split; [|split; [|split; [|split]]].
  - rewrite lookup_to_cell, Ho. cbn [Nat.add]. f_equal.
    rewrite <- Hvs at 1. rewrite insert_app_r_alt, Nat.sub_diag by lia.
    replace (sl_len s - i) with (S (sl_len s - S i)) by lia. cbn [replicate].
    by rewrite <- app_assoc.
  - rewrite length_app. cbn. lia.
  - rewrite (take_S_r _ _ _ Hx). apply rlist_app.
    + apply (reads_insert (rlist reading vs)); [|done]. by apply (reads_mono (rlist _ vs) h).
    + apply rbind_inv. exists x, L', ∅. split; [|done].
      apply (reads_insert (reading v')); [done|]. set_solver.
  - apply subseteq_dom in Hs. set_solver.
  - set_solver.
Qed.

Lemma items_copy_copies h (o : option (slice V)) x L :
  ropt (rslice reading) o h = Some (x, L) ->
  hwp (items_copy DeepCopyInto o) h (deep_copied (ropt (rslice reading)) h x).
Proof.
  destruct o as [s|]; cbn [ropt items_copy].
  2:{ intros [= <- <-]. apply hwp_ret. split; [done|]. exists ∅. split; [done|set_solver]. }
  intros (xs & L1 & L2 & E & [= <- <-] & ->)%rbind_inv.
  apply rbind_inv in E as (arr & La & Lr & El & Er & ->). apply rload_lookup in El as [El ->].
  destruct (decide _) as [Hw|]; [|done].
  apply hwp_bind, hwp_bind, hwp_alloc. intros p Hp. apply hwp_ret.
  set (h1 := <[_ := _]> h). set (out := Slice p 0 (sl_len s)).
  apply hwp_bind, (hwp_for_range (items_upto h xs (sl_len s) out)).
  - split; [by apply insert_fresh_subseteq|]. exists [], ∅.
    unfold out. rewrite Nat.sub_0_r. cbn [sl_array app].
    split; [apply lookup_to_cell|]. split; [done|]. split; [done|]. set_solver.
  - intros j h' Hj HI. eapply items_step; eauto. lia.
  - intros h2 [Hs (vs & Lv & Eo & Hvs & Ev & HLv & Hov)]. apply hwp_ret.
    rewrite Nat.sub_diag, app_nil_r in Eo.
    rewrite take_ge in Ev by (rewrite (rlist_length _ _ _ _ _ Er), window_length by done; done).
    split; [done|]. exists (({[ref_addr p]} ∪ Lv) ∪ ∅). split; [|set_solver].
    apply rbind_inv. exists xs, ({[ref_addr p]} ∪ Lv), ∅. split; [|done].
    apply rbind_inv. exists vs, {[ref_addr p]}, Lv. split; [by apply rload_lookup|].
    split; [|done]. rewrite decide_True by (cbn; lia).
    unfold window, out. cbn [sl_len sl_off]. by rewrite drop_0, take_ge by lia.
Qed.
End Items.
End Copies.

(** ** Isolation: what a deep copy is for *)

(** The original does not see writes to memory that came after it, and the
    copy does not see writes to memory that was there before it. *)
Lemma deep_copied_isolated {C V A} (r : V -> rM C A) `{!forall v, Framed (r v)} h v x L h' v' :
  r v h = Some (x, L) -> deep_copied r h x h' v' ->
  (forall ws, (forall l, l ∈ ws.*1 -> l ∉ dom h) -> r v (writes ws h') = Some (x, L)) /\
  (forall ws, (forall l, l ∈ ws.*1 -> l ∈ dom h) -> fst <$> r v' (writes ws h') = Some x).
Proof.
  intros E (Hs & L' & E' & Hd). split; intros ws Hws.
  - apply (reads_writes (r v)); [by apply (reads_mono (r v) h)|].
    intros l Hl Hin. apply (framed_dom (r := r v)) in E. set_solver.
  - erewrite (reads_writes (r v')); [done|done|]. set_solver.
Qed.

(** What a [DeepCopy] promises, nil included. *)
Definition copies_deeply `{Cell C V} {A} (copy : option (ref V) -> hM C (option (ref V)))
    (r : V -> rM C A) : Prop :=
  forall o h x L, ropt (rref r) o h = Some (x, L) ->
  hwp (copy o) h (deep_copied (ropt (rref r)) h x).

(** ** Plain data: [*out = *in] is already a deep copy *)

Definition plain (C A : Type) : DeepCopyable C A A :=
  {| reading v := mret v; DeepCopyInto v := mret v |}.

Lemma plain_laws C A : DeepCopyLaws (plain C A).
Proof.
  split; [apply _|]. intros h v x L [= <- <-]. apply hwp_ret.
  split; [done|]. exists ∅. split; [done|set_solver].
Qed.

Lemma new_copy_pointer `{Cell C V, Zero V} {A} (D : DeepCopyable C V A) `{!DeepCopyLaws D} :
  DeepCopyPointerLaws {| pointee := reading (A := A); DeepCopy := new_copy DeepCopyInto |}.
Proof. split; [apply _|]. intros h o x L. apply (new_copy_opt D). Qed.

(** [DeepCopyObject]: the pointer, wrapped as an interface value unless nil. *)
Lemma object_copies `{Cell C V, Zero V} {A B O} (D : DeepCopyable C V A) `{!DeepCopyLaws D}
    (mk : option (ref V) -> O) (val : A -> B) (rd : O -> rM C B) h p y L :
  (forall q, rd (mk (Some q)) = (x ← rref reading q; mret (val x))) ->
  rd (mk (Some p)) h = Some (y, L) ->
  exists h' o',
    (c ← new_copy DeepCopyInto (Some p);
     match c with Some _ => mret (Some (mk c)) | None => mret None end) h = Some (h', Some o') /\
    deep_copied rd h y h' o'.
Proof.
  intros Hrd. rewrite Hrd. intros (x & L1 & L2 & E & [= <- <-] & ->)%rbind_inv.
  destruct (new_copy_copies D h p x L1 E) as (h' & c & Ec & q & -> & Hs & L' & Er & Hd).
  exists h', (mk (Some q)). split.
  - unfold mbind, hM_bind. by rewrite Ec.
  - split; [done|]. exists (L' ∪ ∅). split; [|set_solver].
    rewrite Hrd. apply rbind_inv. by exists x, L', ∅.
Qed.

(** ** Tactics for structs, field by field *)

(** Take a reading apart into the readings of its fields. *)
Ltac split_reading E :=
  repeat (let x := fresh "x" in let L1 := fresh "L" in let L2 := fresh "L" in
          let E1 := fresh "E" in
          apply rbind_inv in E as (x & L1 & L2 & E1 & E & ->)).

(** One field: [lem] says its copy is deep. *)
Tactic Notation "copy_field" uconstr(lem) :=
  eapply hwp_bind, hwp_mono; [eapply lem; eassumption|];
  let h' := fresh "h" in let v := fresh "v" in let L := fresh "L" in
  let Hs := fresh "Hs" in let E := fresh "E" in let Hd := fresh "Hd" in
  intros h' v (Hs & L & E & Hd); cbn beta iota;
  match goal with
  | S0 : ?h0 ⊆ ?h, S1 : ?h ⊆ h' |- _ =>
      repeat match goal with
      | E' : ?r h = Some (?x, ?Lx) |- _ =>
          lazymatch type of r with
          | rM _ _ => idtac
          | heap _ -> _ => idtac
          | gmap _ _ -> _ => idtac
          end;
          apply (reads_mono r h h' x Lx S1) in E'
      end;
      apply (disjoint_later S0) in Hd;
      apply (transitivity S0) in S1; clear S0
  end.

Ltac copy_done :=
  apply hwp_ret; split; [eassumption|]; eexists; split;
  [cbn; repeat (apply rbind_inv; do 3 eexists; split; [eassumption|]; split; [|reflexivity]);
   reflexivity
  |set_solver].

Ltac copy_start :=
  split; [intros; apply _|];
  let h := fresh "h" in let v := fresh "v" in let x := fresh "x" in let L := fresh "L" in
  let E := fresh "E" in
  intros h v x L E; cbn in E; split_reading E; injection E as <- <-;
  pose proof (reflexivity (R := (⊆)) h); cbn.
