(* ===== verification/OperatorCopy.v ===== *)
(** * The deep copies of the operator's API types

    [operator/api/v1alpha1/zz_generated.deepcopy.go], one definition per
    method.  The types as they lie in memory, with pointers and a slice, read
    as the records of [Operator]; metav1's ObjectMeta, ListMeta and Time, and
    whatever cells they use, are parameters with a deep copy of their own. *)
From S2P Require Export Heap Operator.

(** The list type; a nil slice is [None]. *)
Record BenchmarkJobList : Type := MkList {
  ListType : TypeMeta;
  ListMetaOf : ListMeta;
  Items : option (list BenchmarkJob)
}.

Section Memory.
Context {OM LM TM F : Type}.

(** ** Types in memory *)

Record status_mem : Type := MkStatusMem {
  sm_Phase : string;
  sm_JobID : string;
  sm_Message : string;
  sm_RetryCount : Z;
  sm_Throughput : option (ref float64);
  sm_LatencyMs : option (ref float64);
  sm_MemoryBandwidthGbps : option (ref float64);
  sm_StartTime : option (ref TM);
  sm_CompletionTime : option (ref TM)
}.

Record job_mem : Type := MkJobMem {
  jm_TypeMeta : TypeMeta;
  jm_ObjectMeta : OM;
  jm_Spec : BenchmarkJobSpec;
  jm_Status : status_mem
}.

Record list_mem : Type := MkListMem {
  lm_TypeMeta : TypeMeta;
  lm_ListMeta : LM;
  lm_Items : option (slice job_mem)
}.

Inductive cell : Type :=
| CFloat (x : float64)
| CTime (x : TM)
| CSpec (x : BenchmarkJobSpec)
| CStatus (x : status_mem)
| CJob (x : job_mem)
| CJobs (x : list job_mem)
| CJobList (x : list_mem)
| CForeign (x : F).

#[export] Instance cell_float : Cell cell float64.
Proof. cell_of CFloat (fun c => match c with CFloat x => Some x | _ => None end). Defined.
#[export] Instance cell_time : Cell cell TM.
Proof. cell_of CTime (fun c => match c with CTime x => Some x | _ => None end). Defined.
#[export] Instance cell_spec : Cell cell BenchmarkJobSpec.
Proof. cell_of CSpec (fun c => match c with CSpec x => Some x | _ => None end). Defined.
#[export] Instance cell_status : Cell cell status_mem.
Proof. cell_of CStatus (fun c => match c with CStatus x => Some x | _ => None end). Defined.
#[export] Instance cell_job : Cell cell job_mem.
Proof. cell_of CJob (fun c => match c with CJob x => Some x | _ => None end). Defined.
#[export] Instance cell_jobs : Cell cell (list job_mem).
Proof. cell_of CJobs (fun c => match c with CJobs x => Some x | _ => None end). Defined.
#[export] Instance cell_list : Cell cell list_mem.
Proof. cell_of CJobList (fun c => match c with CJobList x => Some x | _ => None end). Defined.
End Memory.
Arguments status_mem TM : clear implicits.
Arguments job_mem OM TM : clear implicits.
Arguments list_mem OM LM TM : clear implicits.
Arguments cell OM LM TM F : clear implicits.

Section Copy.
Context {OM LM TM F : Type}.
Abbreviation mem := (cell OM LM TM F).

(** The zero values, and the deep copies of metav1. *)
Context `{Zero OM, Zero LM}.
Context {meta_copy : DeepCopyable mem OM ObjectMeta}.
Context {listmeta_copy : DeepCopyable mem LM ListMeta}.
Context {time_copy : DeepCopyPointer mem TM Time}.

#[export] Instance spec_zero : Zero BenchmarkJobSpec := MkSpec "" "" 0 "" 0.
#[export] Instance status_zero : Zero (status_mem TM) :=
  MkStatusMem "" "" "" 0 None None None None None.
#[export] Instance job_zero : Zero (job_mem OM TM) := MkJobMem (MkTypeMeta "" "") zero zero zero.
#[export] Instance list_zero : Zero (list_mem OM LM TM) := MkListMem (MkTypeMeta "" "") zero None.

(** ** BenchmarkJobSpec *)

Definition BenchmarkJobSpec_DeepCopyInto (in_ : BenchmarkJobSpec) : hM mem BenchmarkJobSpec :=
  mret in_.

Definition BenchmarkJobSpec_DeepCopy (in_ : option (ref BenchmarkJobSpec)) :
    hM mem (option (ref BenchmarkJobSpec)) :=
  new_copy BenchmarkJobSpec_DeepCopyInto in_.

(** ** BenchmarkJobStatus *)

Definition set_Throughput (s : status_mem TM) p : status_mem TM :=
  MkStatusMem (sm_Phase s) (sm_JobID s) (sm_Message s) (sm_RetryCount s) p (sm_LatencyMs s)
    (sm_MemoryBandwidthGbps s) (sm_StartTime s) (sm_CompletionTime s).
Definition set_LatencyMs (s : status_mem TM) p : status_mem TM :=
  MkStatusMem (sm_Phase s) (sm_JobID s) (sm_Message s) (sm_RetryCount s) (sm_Throughput s) p
    (sm_MemoryBandwidthGbps s) (sm_StartTime s) (sm_CompletionTime s).
Definition set_MemoryBandwidthGbps (s : status_mem TM) p : status_mem TM :=
  MkStatusMem (sm_Phase s) (sm_JobID s) (sm_Message s) (sm_RetryCount s) (sm_Throughput s)
    (sm_LatencyMs s) p (sm_StartTime s) (sm_CompletionTime s).
Definition set_StartTime (s : status_mem TM) p : status_mem TM :=
  MkStatusMem (sm_Phase s) (sm_JobID s) (sm_Message s) (sm_RetryCount s) (sm_Throughput s)
    (sm_LatencyMs s) (sm_MemoryBandwidthGbps s) p (sm_CompletionTime s).
Definition set_CompletionTime (s : status_mem TM) p : status_mem TM :=
  MkStatusMem (sm_Phase s) (sm_JobID s) (sm_Message s) (sm_RetryCount s) (sm_Throughput s)
    (sm_LatencyMs s) (sm_MemoryBandwidthGbps s) (sm_StartTime s) p.

Definition BenchmarkJobStatus_DeepCopyInto (in_ : status_mem TM) : hM mem (status_mem TM) :=
  let out := in_ in
  p ← box_copy (sm_Throughput in_);
  let out := set_Throughput out p in
  p ← box_copy (sm_LatencyMs in_);
  let out := set_LatencyMs out p in
  p ← box_copy (sm_MemoryBandwidthGbps in_);
  let out := set_MemoryBandwidthGbps out p in
  p ← DeepCopy (A := Time) (sm_StartTime in_);
  let out := set_StartTime out p in
  p ← DeepCopy (A := Time) (sm_CompletionTime in_);
  mret (set_CompletionTime out p).

Definition BenchmarkJobStatus_DeepCopy (in_ : option (ref (status_mem TM))) :
    hM mem (option (ref (status_mem TM))) :=
  new_copy BenchmarkJobStatus_DeepCopyInto in_.

(** ** BenchmarkJob *)

Definition BenchmarkJob_DeepCopyInto (in_ : job_mem OM TM) : hM mem (job_mem OM TM) :=
  let out := in_ in
  let out := MkJobMem (jm_TypeMeta in_) (jm_ObjectMeta out) (jm_Spec out) (jm_Status out) in
  meta ← DeepCopyInto (A := ObjectMeta) (jm_ObjectMeta in_);
  let out := MkJobMem (jm_TypeMeta out) meta (jm_Spec out) (jm_Status out) in
  let out := MkJobMem (jm_TypeMeta out) (jm_ObjectMeta out) (jm_Spec in_) (jm_Status out) in
  status ← BenchmarkJobStatus_DeepCopyInto (jm_Status in_);
  mret (MkJobMem (jm_TypeMeta out) (jm_ObjectMeta out) (jm_Spec out) status).

Definition BenchmarkJob_DeepCopy (in_ : option (ref (job_mem OM TM))) :
    hM mem (option (ref (job_mem OM TM))) :=
  new_copy BenchmarkJob_DeepCopyInto in_.

(** ** BenchmarkJobList *)

Definition BenchmarkJobList_DeepCopyInto (in_ : list_mem OM LM TM) : hM mem (list_mem OM LM TM) :=
  let out := in_ in
  let out := MkListMem (lm_TypeMeta in_) (lm_ListMeta out) (lm_Items out) in
  meta ← DeepCopyInto (A := ListMeta) (lm_ListMeta in_);
  let out := MkListMem (lm_TypeMeta out) meta (lm_Items out) in
  items ← items_copy BenchmarkJob_DeepCopyInto (lm_Items in_);
  mret (MkListMem (lm_TypeMeta out) (lm_ListMeta out) items).

Definition BenchmarkJobList_DeepCopy (in_ : option (ref (list_mem OM LM TM))) :
    hM mem (option (ref (list_mem OM LM TM))) :=
  new_copy BenchmarkJobList_DeepCopyInto in_.

(** ** runtime.Object

    An interface value holds a type and a pointer; it is nil only when it
    holds neither ([None] below), not when the pointer is nil. *)

Inductive Object : Type :=
| OBenchmarkJob (p : option (ref (job_mem OM TM)))
| OBenchmarkJobList (p : option (ref (list_mem OM LM TM))).

Definition BenchmarkJob_DeepCopyObject (in_ : option (ref (job_mem OM TM))) :
    hM mem (option Object) :=
  c ← BenchmarkJob_DeepCopy in_;
  match c with
  | Some _ => mret (Some (OBenchmarkJob c))
  | None => mret None
  end.

Definition BenchmarkJobList_DeepCopyObject (in_ : option (ref (list_mem OM LM TM))) :
    hM mem (option Object) :=
  c ← BenchmarkJobList_DeepCopy in_;
  match c with
  | Some _ => mret (Some (OBenchmarkJobList c))
  | None => mret None
  end.

(** The call through the interface. *)
Definition DeepCopyObject (o : Object) : hM mem (option Object) :=
  match o with
  | OBenchmarkJob p => BenchmarkJob_DeepCopyObject p
  | OBenchmarkJobList p => BenchmarkJobList_DeepCopyObject p
  end.

(** ** What memory stands for *)

#[export] Instance spec_copy : DeepCopyable mem BenchmarkJobSpec BenchmarkJobSpec := {|
  reading v := mret v;
  DeepCopyInto := BenchmarkJobSpec_DeepCopyInto
|}.

#[export] Instance status_copy : DeepCopyable mem (status_mem TM) BenchmarkJobStatus := {|
  reading s :=
    throughput ← ropt rload (sm_Throughput s);
    latency ← ropt rload (sm_LatencyMs s);
    bandwidth ← ropt rload (sm_MemoryBandwidthGbps s);
    start ← ropt (rref (pointee (A := Time))) (sm_StartTime s);
    completion ← ropt (rref (pointee (A := Time))) (sm_CompletionTime s);
    mret (MkStatus (sm_Phase s) (sm_JobID s) (sm_Message s) (sm_RetryCount s)
            throughput latency bandwidth start completion);
  DeepCopyInto := BenchmarkJobStatus_DeepCopyInto
|}.

#[export] Instance job_copy : DeepCopyable mem (job_mem OM TM) BenchmarkJob := {|
  reading j :=
    meta ← reading (A := ObjectMeta) (jm_ObjectMeta j);
    status ← reading (A := BenchmarkJobStatus) (jm_Status j);
    mret (MkJob (jm_TypeMeta j) meta (jm_Spec j) status);
  DeepCopyInto := BenchmarkJob_DeepCopyInto
|}.

#[export] Instance list_copy : DeepCopyable mem (list_mem OM LM TM) BenchmarkJobList := {|
  reading l :=
    meta ← reading (A := ListMeta) (lm_ListMeta l);
    items ← ropt (rslice (reading (A := BenchmarkJob))) (lm_Items l);
    mret (MkList (lm_TypeMeta l) meta items);
  DeepCopyInto := BenchmarkJobList_DeepCopyInto
|}.

(** The struct an interface value points to. *)
Inductive object_value : Type :=
| VBenchmarkJob (job : BenchmarkJob)
| VBenchmarkJobList (l : BenchmarkJobList).

Definition object_reading (o : Object) : rM mem object_value :=
  match o with
  | OBenchmarkJob (Some p) => x ← rref (reading (A := BenchmarkJob)) p; mret (VBenchmarkJob x)
  | OBenchmarkJobList (Some p) =>
      x ← rref (reading (A := BenchmarkJobList)) p; mret (VBenchmarkJobList x)
  | _ => fun _ => None
  end.

(** ** Every generated copy is deep *)

Context {meta_laws : DeepCopyLaws meta_copy} {listmeta_laws : DeepCopyLaws listmeta_copy}.
Context {time_laws : DeepCopyPointerLaws time_copy}.

#[export] Instance spec_laws : DeepCopyLaws spec_copy := plain_laws mem BenchmarkJobSpec.

#[export] Instance status_laws : DeepCopyLaws status_copy.
Proof.
  copy_start. do 3 copy_field box_copy_opt. do 2 copy_field (DeepCopy_copies (D := time_copy)). copy_done.
Qed.

#[export] Instance job_laws : DeepCopyLaws job_copy.
Proof.
  copy_start. copy_field (DeepCopyInto_copies (D := meta_copy)).
  copy_field (DeepCopyInto_copies (D := status_copy)). copy_done.
Qed.

#[export] Instance list_laws : DeepCopyLaws list_copy.
Proof.
  copy_start. copy_field (DeepCopyInto_copies (D := listmeta_copy)).
  copy_field (items_copy_copies job_copy). copy_done.
Qed.
End Copy.
