(* ===== verification/ProviderTypes.v ===== *)
(** * The provider's custom resources

    [provider/api/v1alpha1]: the managed resource [GPUBenchmarkJob], the
    [ProviderConfig] and its usage record, and the accessors of
    [zz_generated.managed.go] that make them resources of crossplane-runtime.
    The types those embed, and the conditions, are crossplane-runtime's: a
    class with laws. *)
From S2P Require Export Machinery Wire.

(** ** crossplane-runtime *)

Class Crossplane : Type := {
  (* xpv1.Condition, ConditionType and ConditionedStatus *)
  Condition : Type;
  ConditionType : Type;
  ConditionedStatus : Type;
  TypeReady : ConditionType;
  Available : Condition;
  Unavailable : Condition;
  Creating : Condition;
  SetConditions : ConditionedStatus -> list Condition -> ConditionedStatus;
  GetCondition : ConditionedStatus -> ConditionType -> Condition;
  condition_equiv : Equiv Condition;
  (* the fields of xpv1.ResourceSpec and of the usage record *)
  Reference : Type;
  RefName : Reference -> string;
  TypedReference : Type;
  SecretReference : Type;
  PublishConnectionDetailsTo : Type;
  ManagementPolicies : Type;
  DeletionPolicy : Type
}.
#[export] Existing Instance condition_equiv.

Definition ReadyCondition `{Crossplane} (s : ConditionedStatus) : Condition :=
  GetCondition s TypeReady.

(** Documented behaviour of the conditions, on the three of type Ready the
    provider sets: a condition replaces the one of its type, up to the
    transition time, which [Condition.Equal] ignores; setting a condition that
    is already there changes nothing; the three differ by their reason. *)
Class CrossplaneLaws `{Crossplane} : Prop := {
  condition_equivalence :: Equivalence (≡@{Condition});
  SetConditions_ready s c :
    c ∈ [Available; Unavailable; Creating] -> ReadyCondition (SetConditions s [c]) ≡ c;
  SetConditions_again s c :
    c ∈ [Available; Unavailable; Creating] ->
    SetConditions (SetConditions s [c]) [c] = SetConditions s [c];
  Available_Unavailable : Available ≢ Unavailable;
  Available_Creating : Available ≢ Creating;
  Unavailable_Creating : Unavailable ≢ Creating
}.

(** ** Parameters and observation: plain data *)

Record GPUBenchmarkJobParameters : Type := MkParameters {
  GPUModel : string;
  WorkloadType : string;
  BatchSize : Z;
  MaxRetries : Z
}.

Record GPUBenchmarkJobObservation : Type := MkAtProvider {
  JobID : string;
  Phase : string;
  RetryCount : Z;
  Throughput : option float64;
  LatencyMs : option float64;
  MemoryBandwidthGbps : option float64
}.

Record ProviderConfigSpec : Type := MkConfigSpec {
  SchedulerAPIURL : string;
  PollInterval : Z
}.

Section Types.
Context {Xp : Crossplane}.

(** [xpv1.ResourceSpec], the fields the accessors reach. *)
Record ResourceSpec : Type := MkResourceSpec {
  rs_WriteConnectionSecretToReference : option SecretReference;
  rs_PublishConnectionDetailsTo : option PublishConnectionDetailsTo;
  rs_ProviderConfigReference : option Reference;
  rs_ProviderReference : option Reference;
  rs_ManagementPolicies : ManagementPolicies;
  rs_DeletionPolicy : DeletionPolicy
}.

(** ** The managed resource *)

Record GPUBenchmarkJobSpec : Type := MkSpec {
  SpecResource : ResourceSpec;
  ForProvider : GPUBenchmarkJobParameters
}.

Record GPUBenchmarkJobStatus : Type := MkStatus {
  Conditioned : ConditionedStatus;
  AtProvider : GPUBenchmarkJobObservation
}.

Record GPUBenchmarkJob : Type := MkJob {
  JobType : TypeMeta;
  Meta : ObjectMeta;
  Spec : GPUBenchmarkJobSpec;
  Status : GPUBenchmarkJobStatus
}.

(** ** The provider's configuration *)

(** [xpv1.ProviderConfigStatus], embedded: conditions and the user count. *)
Record ProviderConfigStatus : Type := MkConfigStatus {
  PcConditioned : ConditionedStatus;
  PcUsers : Z
}.

Record ProviderConfig : Type := MkConfig {
  PcType : TypeMeta;
  PcMeta : ObjectMeta;
  PcSpec : ProviderConfigSpec;
  PcStatus : ProviderConfigStatus
}.

(** [xpv1.ProviderConfigUsage], embedded: both references. *)
Record ProviderConfigUsage : Type := MkUsage {
  PuType : TypeMeta;
  PuMeta : ObjectMeta;
  PuProviderConfigReference : Reference;
  PuResourceReference : TypedReference
}.

(** ** Accessors of GPUBenchmarkJob

    A pointer receiver is updated in place: a setter returns the resource as
    it leaves it. *)

Definition set_resource_spec (mg : GPUBenchmarkJob) (r : ResourceSpec) : GPUBenchmarkJob :=
  MkJob (JobType mg) (Meta mg) (MkSpec r (ForProvider (Spec mg))) (Status mg).

Definition cr_SetConditions (mg : GPUBenchmarkJob) (c : list Condition) : GPUBenchmarkJob :=
  MkJob (JobType mg) (Meta mg) (Spec mg)
    (MkStatus (SetConditions (Conditioned (Status mg)) c) (AtProvider (Status mg))).

Definition cr_GetCondition (mg : GPUBenchmarkJob) (ct : ConditionType) : Condition :=
  GetCondition (Conditioned (Status mg)) ct.

Definition GetProviderConfigReference (mg : GPUBenchmarkJob) : option Reference :=
  rs_ProviderConfigReference (SpecResource (Spec mg)).

Definition SetProviderConfigReference (mg : GPUBenchmarkJob) (r : option Reference) :
    GPUBenchmarkJob :=
  let s := SpecResource (Spec mg) in
  set_resource_spec mg (MkResourceSpec (rs_WriteConnectionSecretToReference s)
    (rs_PublishConnectionDetailsTo s) r (rs_ProviderReference s) (rs_ManagementPolicies s)
    (rs_DeletionPolicy s)).

Definition GetProviderReference (mg : GPUBenchmarkJob) : option Reference :=
  rs_ProviderReference (SpecResource (Spec mg)).

Definition SetProviderReference (mg : GPUBenchmarkJob) (r : option Reference) : GPUBenchmarkJob :=
  let s := SpecResource (Spec mg) in
  set_resource_spec mg (MkResourceSpec (rs_WriteConnectionSecretToReference s)
    (rs_PublishConnectionDetailsTo s) (rs_ProviderConfigReference s) r (rs_ManagementPolicies s)
    (rs_DeletionPolicy s)).

Definition GetDeletionPolicy (mg : GPUBenchmarkJob) : DeletionPolicy :=
  rs_DeletionPolicy (SpecResource (Spec mg)).

Definition SetDeletionPolicy (mg : GPUBenchmarkJob) (r : DeletionPolicy) : GPUBenchmarkJob :=
  let s := SpecResource (Spec mg) in
  set_resource_spec mg (MkResourceSpec (rs_WriteConnectionSecretToReference s)
    (rs_PublishConnectionDetailsTo s) (rs_ProviderConfigReference s) (rs_ProviderReference s)
    (rs_ManagementPolicies s) r).

Definition GetManagementPolicies (mg : GPUBenchmarkJob) : ManagementPolicies :=
  rs_ManagementPolicies (SpecResource (Spec mg)).

Definition SetManagementPolicies (mg : GPUBenchmarkJob) (r : ManagementPolicies) :
    GPUBenchmarkJob :=
  let s := SpecResource (Spec mg) in
  set_resource_spec mg (MkResourceSpec (rs_WriteConnectionSecretToReference s)
    (rs_PublishConnectionDetailsTo s) (rs_ProviderConfigReference s) (rs_ProviderReference s) r
    (rs_DeletionPolicy s)).

Definition GetPublishConnectionDetailsTo (mg : GPUBenchmarkJob) :
    option PublishConnectionDetailsTo :=
  rs_PublishConnectionDetailsTo (SpecResource (Spec mg)).

Definition SetPublishConnectionDetailsTo (mg : GPUBenchmarkJob)
    (r : option PublishConnectionDetailsTo) : GPUBenchmarkJob :=
  let s := SpecResource (Spec mg) in
  set_resource_spec mg (MkResourceSpec (rs_WriteConnectionSecretToReference s) r
    (rs_ProviderConfigReference s) (rs_ProviderReference s) (rs_ManagementPolicies s)
    (rs_DeletionPolicy s)).

Definition GetWriteConnectionSecretToReference (mg : GPUBenchmarkJob) : option SecretReference :=
  rs_WriteConnectionSecretToReference (SpecResource (Spec mg)).

Definition SetWriteConnectionSecretToReference (mg : GPUBenchmarkJob)
    (r : option SecretReference) : GPUBenchmarkJob :=
  let s := SpecResource (Spec mg) in
  set_resource_spec mg (MkResourceSpec r (rs_PublishConnectionDetailsTo s)
    (rs_ProviderConfigReference s) (rs_ProviderReference s) (rs_ManagementPolicies s)
    (rs_DeletionPolicy s)).

(** ** Accessors of ProviderConfig and ProviderConfigUsage *)

Definition pc_GetCondition (pc : ProviderConfig) (ct : ConditionType) : Condition :=
  GetCondition (PcConditioned (PcStatus pc)) ct.

Definition pc_SetConditions (pc : ProviderConfig) (c : list Condition) : ProviderConfig :=
  MkConfig (PcType pc) (PcMeta pc) (PcSpec pc)
    (MkConfigStatus (SetConditions (PcConditioned (PcStatus pc)) c) (PcUsers (PcStatus pc))).

Definition GetUsers (pc : ProviderConfig) : Z := PcUsers (PcStatus pc).

Definition SetUsers (pc : ProviderConfig) (u : Z) : ProviderConfig :=
  MkConfig (PcType pc) (PcMeta pc) (PcSpec pc) (MkConfigStatus (PcConditioned (PcStatus pc)) u).

Definition pu_GetProviderConfigReference (pu : ProviderConfigUsage) : Reference :=
  PuProviderConfigReference pu.

Definition pu_SetProviderConfigReference (pu : ProviderConfigUsage) (r : Reference) :
    ProviderConfigUsage := MkUsage (PuType pu) (PuMeta pu) r (PuResourceReference pu).

Definition pu_GetResourceReference (pu : ProviderConfigUsage) : TypedReference :=
  PuResourceReference pu.

Definition pu_SetResourceReference (pu : ProviderConfigUsage) (r : TypedReference) :
    ProviderConfigUsage := MkUsage (PuType pu) (PuMeta pu) (PuProviderConfigReference pu) r.

End Types.

(** ** An instance of crossplane-runtime, for evaluation: the reason of the
    Ready condition is the whole of it, and references are names *)

#[export] Instance crossplane : Crossplane := {|
  Condition := string;
  ConditionType := unit;
  ConditionedStatus := option string;
  TypeReady := tt;
  Available := "Available";
  Unavailable := "Unavailable";
  Creating := "Creating";
  SetConditions s cs := match last cs with Some c => Some c | None => s end;
  GetCondition s _ := default "" s;
  condition_equiv := eq;
  Reference := string;
  RefName r := r;
  TypedReference := string;
  SecretReference := string;
  PublishConnectionDetailsTo := string;
  ManagementPolicies := list string;
  DeletionPolicy := string
|}.

#[export] Instance crossplane_laws : CrossplaneLaws.
Proof. constructor; try done; try (intros; discriminate). exact _. Defined.
