(* ===== verification/AccessorTheorems.v ===== *)
(** * Theorems on the generated accessors

    crossplane-runtime reads and writes managed resources only through the
    methods of [zz_generated.managed.go].  Each pair of a getter and a setter
    is a lens onto one field, the lenses of one resource do not overlap, and
    none reaches what the provider itself keeps in the resource. *)
From S2P Require Import ProviderTypes.

(** A getter and a setter of a resource [S]. *)
Record accessor (S : Type) : Type := Accessor {
  acc_type : Type;
  acc_get : S -> acc_type;
  acc_set : S -> acc_type -> S
}.
Arguments Accessor {S} {acc_type} acc_get acc_set.
Arguments acc_type {S} a.
Arguments acc_get {S} a.
Arguments acc_set {S} a.

Definition lawful {S} (a : accessor S) : Prop :=
  (forall s x, acc_get a (acc_set a s x) = x) /\
  (forall s, acc_set a s (acc_get a s) = s) /\
  (forall s x y, acc_set a (acc_set a s x) y = acc_set a s y).

Definition independent {S} (a b : accessor S) : Prop :=
  (forall s y, acc_get a (acc_set b s y) = acc_get a s) /\
  (forall s x, acc_get b (acc_set a s x) = acc_get b s) /\
  (forall s x y, acc_set a (acc_set b s y) x = acc_set b (acc_set a s x) y).

(** What is not to change under a setter. *)
Definition keeps {S B} (f : S -> B) (a : accessor S) : Prop :=
  forall s x, f (acc_set a s x) = f s.

Section Accessors.
Context {Xp : Crossplane} {XpL : CrossplaneLaws}.

Definition job_accessors : list (accessor GPUBenchmarkJob) :=
  [Accessor GetProviderConfigReference SetProviderConfigReference;
   Accessor GetProviderReference SetProviderReference;
   Accessor GetDeletionPolicy SetDeletionPolicy;
   Accessor GetManagementPolicies SetManagementPolicies;
   Accessor GetPublishConnectionDetailsTo SetPublishConnectionDetailsTo;
   Accessor GetWriteConnectionSecretToReference SetWriteConnectionSecretToReference].

Definition usage_accessors : list (accessor ProviderConfigUsage) :=
  [Accessor pu_GetProviderConfigReference pu_SetProviderConfigReference;
   Accessor pu_GetResourceReference pu_SetResourceReference].

(** The accessors of GPUBenchmarkJob, of ProviderConfig and of its usage
    records keep the contract of crossplane-runtime's interfaces: each getter
    returns what its setter stored last, storing what is there changes
    nothing, distinct fields are independent, and no setter touches the
    metadata, the parameters, the observation or the conditions; setting a
    Ready condition is read back and changes the conditions only. *)
Theorem accessors_lawful :
  Forall lawful job_accessors /\ ForallOrdPairs independent job_accessors /\
  Forall (keeps (fun j => (JobType j, Meta j, ForProvider (Spec j), Status j))) job_accessors /\
  Forall lawful usage_accessors /\ ForallOrdPairs independent usage_accessors /\
  Forall (keeps (fun u => (PuType u, PuMeta u))) usage_accessors /\
  lawful (Accessor GetUsers SetUsers) /\
  (forall pc u ct, pc_GetCondition (SetUsers pc u) ct = pc_GetCondition pc ct) /\
  (forall pc c, GetUsers (pc_SetConditions pc c) = GetUsers pc) /\
  (forall (j : GPUBenchmarkJob) c, c ∈ [Available; Unavailable; Creating] ->
     cr_GetCondition (cr_SetConditions j [c]) TypeReady ≡ c) /\
  (forall (pc : ProviderConfig) c, c ∈ [Available; Unavailable; Creating] ->
     pc_GetCondition (pc_SetConditions pc [c]) TypeReady ≡ c) /\
  (forall (j : GPUBenchmarkJob) c,
     (JobType j, Meta j, Spec j, AtProvider (Status j)) =
     let j' := cr_SetConditions j c in (JobType j', Meta j', Spec j', AtProvider (Status j'))).
Proof using XpL.
  split_and!; try (repeat constructor; intros []; intros; try done;
                   by repeat match goal with s : GPUBenchmarkJobSpec |- _ => destruct s
                             | s : ResourceSpec |- _ => destruct s
                             | s : ProviderConfigStatus |- _ => destruct s end).
  - intros j c Hc. by apply SetConditions_ready.
  - intros pc c Hc. by apply SetConditions_ready.
Qed.
End Accessors.

Lemma accessors_lawful_witness :
  Forall lawful (job_accessors (Xp := crossplane)) /\
  ForallOrdPairs independent (job_accessors (Xp := crossplane)).
Proof. split; apply (accessors_lawful (Xp := crossplane)). Defined.
