(* ===== verification/Provider.v ===== *)
(** * The Crossplane provider

    [provider/internal/controller/gpubenchmarkjob_controller.go]: the
    connector and the external client, one definition per method.  The managed
    resource is a pointer the methods mutate and their caller keeps, so every
    method returns the resource as it leaves it, on errors too. *)
From S2P Require Export ProviderTypes.

(** ** crossplane-runtime *)

(** [managed.ExternalObservation], the two fields the provider sets. *)
Record ExternalObservation : Type := MkObservation {
  ResourceExists : bool;
  ResourceUpToDate : bool
}.
Definition Observation_zero : ExternalObservation := MkObservation false false.

(** [managed.ExternalCreation] and [managed.ExternalUpdate], returned empty. *)
Record ExternalCreation : Type := MkCreation {}.
Record ExternalUpdate : Type := MkUpdate {}.

(** ** The calls of the provider *)

Section Calls.
Context {Xp : Crossplane}.

Inductive kube_op : Type := GetProviderConfig (name : NamespacedName).

Definition kube_sig : Sig :=
  {| op := kube_op; ar := fun _ => (error + ProviderConfig)%type |}.

End Calls.

Abbreviation xp_sig := (go_sig kube_sig).
Abbreviation xp_prog := (prog xp_sig).

Definition get_provider_config {Xp : Crossplane} (n : NamespacedName) : xp_prog (error + ProviderConfig) :=
  call (S := xp_sig) (Own (GetProviderConfig n)).

Section Provider.
Context {Xp : Crossplane}.

(** [resource.Managed]: the methods first cast the interface value they get
    to a job; any other dynamic type fails the cast. *)
Inductive Managed : Type :=
| MGPUBenchmarkJob (cr : GPUBenchmarkJob)
| MOther (kind : string).

Definition set_at_provider (cr : GPUBenchmarkJob) (o : GPUBenchmarkJobObservation) :
    GPUBenchmarkJob :=
  MkJob (JobType cr) (Meta cr) (Spec cr) (MkStatus (Conditioned (Status cr)) o).

(** ** Constants *)

Definition errNotGPUBenchmarkJob : string := "managed resource is not a GPUBenchmarkJob".
Definition errGetProviderConfig : string := "cannot get ProviderConfig".
Definition errObserveBenchmark : string := "cannot observe benchmark job in backend API".
Definition errCreateBenchmark : string := "cannot create benchmark job in backend API".

Definition errNew (msg : string) : error := ErrLeaf "" msg.

(** ** The connector *)

Record connector : Type := MkConnector { con_httpClient : option http_Client }.
Record external : Type := MkExternal { ext_http : option http_Client; schedulerURL : string }.

(** The connector [SetupGPUBenchmarkJob] registers, and its poll interval. *)
Definition SetupGPUBenchmarkJob : connector * Z :=
  (MkConnector (Some (MkClient (10 * Second))), 15 * Second).

Definition config_name (cr : GPUBenchmarkJob) : string :=
  match GetProviderConfigReference cr with
  | Some ref => if negb (bool_decide (RefName ref = "")) then RefName ref else "default"
  | None => "default"
  end.

Definition Connect (c : connector) (mg : Managed) : xp_prog (error + external) :=
  match mg with
  | MOther _ => Return (inl (errNew errNotGPUBenchmarkJob))
  | MGPUBenchmarkJob cr =>
      let! got := get_provider_config (MkName "" (config_name cr)) in
      match got with
      | inl e => Return (inl (ErrWrap errGetProviderConfig e))
      | inr pc => Return (inr (MkExternal (con_httpClient c) (SchedulerAPIURL (PcSpec pc))))
      end
  end.

(** ** The external client *)

Definition benchmarkAPIResult : Type := poll_result.

(** The error of a failed [Decode]; its text is not kept. *)
Definition decode_error : error := ErrLeaf "" "decode".

(** [fmt.Sprintf("%s/benchmarks/%s", e.schedulerURL, cr.Status.AtProvider.JobID)]. *)
Definition job_url (e : external) (cr : GPUBenchmarkJob) : string :=
  schedulerURL e +:+ "/benchmarks/" +:+ JobID (AtProvider (Status cr)).

Definition Observe (e : external) (mg : Managed) :
    xp_prog (Managed * ExternalObservation * option error) :=
  match mg with
  | MOther _ => Return (mg, Observation_zero, Some (errNew errNotGPUBenchmarkJob))
  | MGPUBenchmarkJob cr =>
      if bool_decide (JobID (AtProvider (Status cr)) = "") then
        Return (mg, MkObservation false false, None)
      else match NewRequest MethodGet (job_url e cr) "" with
      | inl err => Return (mg, Observation_zero, Some (ErrWrap errObserveBenchmark err))
      | inr req =>
          let! resp := client_Do (ext_http e) (Some req) in
          match resp with
          | inl err => Return (mg, Observation_zero, Some (ErrWrap errObserveBenchmark err))
          | inr resp =>
              if StatusCode resp =? StatusNotFound then
                Return (mg, MkObservation false false, None)
              else match decode_body decode_poll poll_zero (Body resp) with
              | None =>
                  Return (mg, Observation_zero, Some (ErrWrap errObserveBenchmark decode_error))
              | Some result =>
                  let o := AtProvider (Status cr) in
                  let cr := set_at_provider cr
                    (MkAtProvider (JobID o) (poll_Status result) (RetryCount o) (Throughput o)
                       (LatencyMs o) (MemoryBandwidthGbps o)) in
                  let cr :=
                    if bool_decide (poll_Status result = "completed") then
                      let cr := match poll_Result result with
                                | Some m => set_at_provider cr
                                    (MkAtProvider (JobID o) (poll_Status result) (RetryCount o)
                                       (Some (m_Throughput m)) (Some (m_LatencyMs m))
                                       (Some (m_MemoryBandwidthGbps m)))
                                | None => cr
                                end in
                      cr_SetConditions cr [Available]
                    else if bool_decide (poll_Status result = "failed") then
                      cr_SetConditions cr [Unavailable]
                    else cr_SetConditions cr [Creating] in
                  Return (MGPUBenchmarkJob cr, MkObservation true true, None)
              end
          end
      end
  end.

(** [fmt.Sprintf("%s/%s", cr.GetNamespace(), cr.GetName())]. *)
Definition idempotency_key (cr : GPUBenchmarkJob) : string :=
  Namespace (Meta cr) +:+ "/" +:+ Name (Meta cr).

Definition create_payload (cr : GPUBenchmarkJob) : list (string * json) :=
  let p := ForProvider (Spec cr) in
  benchmark_payload (GPUModel p) (WorkloadType p) (BatchSize p) (idempotency_key cr).

(** The anonymous struct [Create] decodes into has the job ID only. *)
Definition decode_job_id (cur : string) (key : string) (v : json) : option string :=
  if is_field "job_id" key then decode_string cur v else Some cur.

Definition unexpected_status (code : Z) : error :=
  errNew (errCreateBenchmark +:+ ": unexpected status " +:+ fmt_d code +:+ " from backend").

Definition Create (e : external) (mg : Managed) :
    xp_prog (Managed * ExternalCreation * option error) :=
  match mg with
  | MOther _ => Return (mg, MkCreation, Some (errNew errNotGPUBenchmarkJob))
  | MGPUBenchmarkJob cr =>
      let body := marshal_map (create_payload cr) in
      match NewRequest MethodPost (schedulerURL e +:+ "/benchmarks") body with
      | inl err => Return (mg, MkCreation, Some (ErrWrap errCreateBenchmark err))
      | inr req =>
          let req := MkRequest (Method req) (URL req) (Some "application/json") (ReqBody req) in
          let! resp := client_Do (ext_http e) (Some req) in
          match resp with
          | inl err => Return (mg, MkCreation, Some (ErrWrap errCreateBenchmark err))
          | inr resp =>
              if negb (StatusCode resp =? StatusAccepted) && negb (StatusCode resp =? StatusOK)
              then Return (mg, MkCreation, Some (unexpected_status (StatusCode resp)))
              else match decode_body decode_job_id "" (Body resp) with
              | None =>
                  Return (mg, MkCreation, Some (ErrWrap errCreateBenchmark decode_error))
              | Some id =>
                  let o := AtProvider (Status cr) in
                  let cr := set_at_provider cr
                    (MkAtProvider id "queued" (RetryCount o) (Throughput o) (LatencyMs o)
                       (MemoryBandwidthGbps o)) in
                  Return (MGPUBenchmarkJob (cr_SetConditions cr [Creating]), MkCreation, None)
              end
          end
      end
  end.

Definition Update (e : external) (mg : Managed) :
    xp_prog (Managed * ExternalUpdate * option error) := Return (mg, MkUpdate, None).

(** [Delete].  The response and its status only reach the log. *)
Definition Delete (e : external) (mg : Managed) : xp_prog (Managed * option error) :=
  match mg with
  | MOther _ => Return (mg, Some (errNew errNotGPUBenchmarkJob))
  | MGPUBenchmarkJob cr =>
      if bool_decide (JobID (AtProvider (Status cr)) = "") then Return (mg, None)
      else match NewRequest MethodDelete (job_url e cr) "" with
      | inl _ => Return (mg, None)
      | inr req =>
          let! ignored := client_Do (ext_http e) (Some req) in
          Return (mg, None)
      end
  end.

End Provider.
