(* ===== verification/ProviderTheorems.v ===== *)
(** * Theorems on the Crossplane provider

    The contract crossplane-runtime asks of an external client: what Observe,
    Create, Update and Delete report, change and send, for every answer of
    the backend, and how Connect finds the backend.  The laws of
    crossplane-runtime's conditions are hypotheses; witnesses evaluate on the
    instance of [Provider]. *)
From S2P Require Import Provider.
From S2P Require Operator.

(** ** Lemmas shared by the theorems *)

Section Helpers.
Context {Xp : Crossplane}.

(** The condition a backend status stands for. *)
Definition ready_for (status : string) : Condition :=
  if bool_decide (status = "completed") then Available
  else if bool_decide (status = "failed") then Unavailable
  else Creating.

Lemma ready_for_in status : ready_for status ∈ [Available; Unavailable; Creating].
Proof. unfold ready_for. repeat case_bool_decide; set_solver. Qed.

(** The metrics a poll result overwrites, on an observation. *)
Definition observed (o : GPUBenchmarkJobObservation) (p : poll_result) :
    GPUBenchmarkJobObservation :=
  match bool_decide (poll_Status p = "completed"), poll_Result p with
  | true, Some m =>
      MkAtProvider (JobID o) (poll_Status p) (RetryCount o) (Some (m_Throughput m))
        (Some (m_LatencyMs m)) (Some (m_MemoryBandwidthGbps m))
  | _, _ =>
      MkAtProvider (JobID o) (poll_Status p) (RetryCount o) (Throughput o) (LatencyMs o)
        (MemoryBandwidthGbps o)
  end.

Definition observed_job (cr : GPUBenchmarkJob) (p : poll_result) : GPUBenchmarkJob :=
  cr_SetConditions (set_at_provider cr (observed (AtProvider (Status cr)) p))
    [ready_for (poll_Status p)].

(** What Observe makes of the answer to its request. *)
Definition observe_answer (cr : GPUBenchmarkJob) (x : error + Response) :
    Managed * ExternalObservation * option error :=
  match x with
  | inl err => (MGPUBenchmarkJob cr, Observation_zero, Some (ErrWrap errObserveBenchmark err))
  | inr resp =>
      if StatusCode resp =? StatusNotFound
      then (MGPUBenchmarkJob cr, Observation_zero, None)
      else match decode_body decode_poll poll_zero (Body resp) with
      | None => (MGPUBenchmarkJob cr, Observation_zero,
                 Some (ErrWrap errObserveBenchmark decode_error))
      | Some p => (MGPUBenchmarkJob (observed_job cr p), MkObservation true true, None)
      end
  end.

Variable e : external.
Variable c : http_Client.
Hypothesis Hc : ext_http e = Some c.

Lemma Observe_absent cr :
  JobID (AtProvider (Status cr)) = "" ->
  Observe e (MGPUBenchmarkJob cr) = Return (MGPUBenchmarkJob cr, Observation_zero, None).
Proof using. intros E. unfold Observe. by rewrite E. Qed.

Lemma Observe_bad_url cr :
  JobID (AtProvider (Status cr)) <> "" -> url_parses (job_url e cr) = false ->
  Observe e (MGPUBenchmarkJob cr) =
  Return (MGPUBenchmarkJob cr, Observation_zero,
          Some (ErrWrap errObserveBenchmark (url_error (job_url e cr)))).
Proof using.
  intros E Hu. unfold Observe, NewRequest. rewrite bool_decide_eq_false_2 by done. by rewrite Hu.
Qed.

Lemma Observe_run {W} (h : handler xp_sig W) cr w w1 x :
  JobID (AtProvider (Status cr)) <> "" -> url_parses (job_url e cr) = true ->
  h (Do (MkRequest MethodGet (job_url e cr) None "")) w = (w1, x) ->
  run h (Observe e (MGPUBenchmarkJob cr)) w =
  MkExec w1 [Ev (S := xp_sig) (Do (MkRequest MethodGet (job_url e cr) None "")) x]
    (Done (observe_answer cr x)).
Proof using Hc.
  intros E Hu Hdo. unfold Observe, NewRequest. rewrite bool_decide_eq_false_2 by done.
  rewrite Hu, Hc. cbn [client_Do bind call run]. rewrite Hdo.
  destruct x as [err|resp]; [done|]. unfold observe_answer.
  destruct (StatusCode resp =? StatusNotFound); [done|].
  destruct (decode_body _ _ _) as [p|]; [|done].
  cbn [run ex_world ex_trace ex_out]. unfold observed_job, ready_for, observed.
  case_bool_decide; [by destruct (poll_Result p)|]. by case_bool_decide.
Qed.

(** The observation of an answer is a fixed point of observing it. *)
Lemma observe_answer_again `{!CrossplaneLaws} cr p :
  observed_job (observed_job cr p) p = observed_job cr p.
Proof using.
  unfold observed_job, cr_SetConditions, set_at_provider. cbn.
  rewrite SetConditions_again by apply ready_for_in. do 2 f_equal.
  unfold observed. destruct (bool_decide _), (poll_Result p); reflexivity.
Qed.

Lemma observed_job_url cr p : job_url e (observed_job cr p) = job_url e cr.
Proof using.
  unfold job_url, observed_job, observed. cbn. by destruct (bool_decide _), (poll_Result p).
Qed.

Lemma observed_job_id cr p :
  JobID (AtProvider (Status (observed_job cr p))) = JobID (AtProvider (Status cr)).
Proof using. unfold observed_job, observed. cbn. by destruct (bool_decide _), (poll_Result p). Qed.

(** The request of Create, and what it makes of the answer. *)
Definition create_request (cr : GPUBenchmarkJob) : Request :=
  MkRequest MethodPost (schedulerURL e +:+ "/benchmarks") (Some "application/json")
    (marshal_map (create_payload cr)).

Definition created_job (cr : GPUBenchmarkJob) (id : string) : GPUBenchmarkJob :=
  let o := AtProvider (Status cr) in
  cr_SetConditions (set_at_provider cr
    (MkAtProvider id "queued" (RetryCount o) (Throughput o) (LatencyMs o)
       (MemoryBandwidthGbps o))) [Creating].

Lemma Create_run {W} (h : handler xp_sig W) cr w w1 x :
  url_parses (schedulerURL e +:+ "/benchmarks") = true ->
  h (Do (create_request cr)) w = (w1, x) ->
  run h (Create e (MGPUBenchmarkJob cr)) w =
  MkExec w1 [Ev (S := xp_sig) (Do (create_request cr)) x]
    (Done match x with
          | inl err => (MGPUBenchmarkJob cr, MkCreation, Some (ErrWrap errCreateBenchmark err))
          | inr resp =>
              if (StatusCode resp =? StatusAccepted) || (StatusCode resp =? StatusOK) then
                match decode_body decode_job_id "" (Body resp) with
                | None => (MGPUBenchmarkJob cr, MkCreation,
                           Some (ErrWrap errCreateBenchmark decode_error))
                | Some id => (MGPUBenchmarkJob (created_job cr id), MkCreation, None)
                end
              else (MGPUBenchmarkJob cr, MkCreation, Some (unexpected_status (StatusCode resp)))
          end).
Proof using Hc.
  intros Hu Hdo. unfold Create, NewRequest. rewrite Hu, Hc.
  cbn [client_Do bind call run Method URL ReqBody]. fold (create_request cr). rewrite Hdo.
  destruct x as [err|resp]; [done|]. rewrite <- negb_orb.
  destruct (_ || _); [|done]. cbn [negb]. by destruct (decode_body _ _ _).
Qed.

Lemma Create_bad_url cr :
  url_parses (schedulerURL e +:+ "/benchmarks") = false ->
  Create e (MGPUBenchmarkJob cr) =
  Return (MGPUBenchmarkJob cr, MkCreation,
          Some (ErrWrap errCreateBenchmark (url_error (schedulerURL e +:+ "/benchmarks")))).
Proof using. intros Hu. unfold Create, NewRequest. by rewrite Hu. Qed.
End Helpers.

(** ** Concrete worlds for the witnesses *)

(** A backend that gives every request one answer. *)
Definition answering {A} (x : error + Response) (conf : error + ProviderConfig) : handler xp_sig A :=
  fun o w => match o return A * ar xp_sig o with
             | Do _ => (w, x)
             | Now => (w, 0)
             | Own _ => (w, conf)
             end.

Definition demo_cr (id : string) : GPUBenchmarkJob :=
  MkJob (MkTypeMeta "GPUBenchmarkJob" "gpu.platform.io/v1alpha1") (MkMeta "h100" "" "1" None [])
    (MkSpec (MkResourceSpec None None None None [] "Delete") (MkParameters "H100" "training" 64 3))
    (MkStatus None (MkAtProvider id "" 0 None None None)).

Definition demo_external : external := MkExternal (Some (MkClient (10 * Second))) "http://api:8000".

Definition demo_completed : Response := MkResponse 200 (completed_body "687.5" "4.21" "1243.7").
Definition demo_accepted (id : string) : Response :=
  MkResponse 202 (print_json (JObject [("job_id", JString id); ("status", JString "queued")])).

(** ** Observe *)

(** C19. Observe asks the backend once about the stored job ID and reports:
    an absent resource on 404, an error (the resource untouched) when there is
    no readable answer, and otherwise an existing, up-to-date resource whose
    phase is the backend's status, whose Ready condition is Available exactly
    on "completed", Unavailable on "failed" and Creating on anything else, and
    whose metrics are the backend's when it completed with a result and are
    kept otherwise; job ID, retry count, spec and metadata never change. *)
Theorem Observe_reports {Xp : Crossplane} {XpL : CrossplaneLaws} {W} (h : handler xp_sig W)
    (e : external) (c : http_Client) (cr : GPUBenchmarkJob) (w w1 : W) (x : error + Response) :
  ext_http e = Some c -> JobID (AtProvider (Status cr)) <> "" ->
  url_parses (job_url e cr) = true ->
  h (Do (MkRequest MethodGet (job_url e cr) None "")) w = (w1, x) ->
  exists mg obs err,
    run h (Observe e (MGPUBenchmarkJob cr)) w =
    MkExec w1 [Ev (S := xp_sig) (Do (MkRequest MethodGet (job_url e cr) None "")) x]
      (Done (mg, obs, err)) /\
    match x with
    | inl inner =>
        mg = MGPUBenchmarkJob cr /\ obs = Observation_zero /\
        err = Some (ErrWrap errObserveBenchmark inner)
    | inr resp =>
        if StatusCode resp =? 404 then
          mg = MGPUBenchmarkJob cr /\ ResourceExists obs = false /\ err = None
        else match decode_body decode_poll poll_zero (Body resp) with
        | None =>
            mg = MGPUBenchmarkJob cr /\ obs = Observation_zero /\
            exists inner, err = Some (ErrWrap errObserveBenchmark inner)
        | Some p =>
            err = None /\ ResourceExists obs = true /\ ResourceUpToDate obs = true /\
            exists cr', mg = MGPUBenchmarkJob cr' /\ Meta cr' = Meta cr /\ Spec cr' = Spec cr /\
              let o := AtProvider (Status cr) in
              let o' := AtProvider (Status cr') in
              let ready := ReadyCondition (Conditioned (Status cr')) in
              JobID o' = JobID o /\ RetryCount o' = RetryCount o /\ Phase o' = poll_Status p /\
              (ready ≡ Available <-> poll_Status p = "completed") /\
              (ready ≡ Unavailable <-> poll_Status p = "failed") /\
              (ready ≡ Creating <-> poll_Status p <> "completed" /\ poll_Status p <> "failed") /\
              (Throughput o', LatencyMs o', MemoryBandwidthGbps o') =
              match poll_Result p with
              | Some m =>
                  if bool_decide (poll_Status p = "completed")
                  then (Some (m_Throughput m), Some (m_LatencyMs m), Some (m_MemoryBandwidthGbps m))
                  else (Throughput o, LatencyMs o, MemoryBandwidthGbps o)
              | None => (Throughput o, LatencyMs o, MemoryBandwidthGbps o)
              end
        end
    end.
Proof.
  intros Hc Hid Hu Hdo.
  destruct (observe_answer cr x) as [[mg obs] err] eqn:Ea.
  exists mg, obs, err. rewrite (Observe_run e c Hc h cr w w1 x), Ea by done. split; [done|].
  unfold observe_answer in Ea. destruct x as [inner|resp]; [by injection Ea as <- <- <-|].
  change (StatusCode resp =? StatusNotFound) with (StatusCode resp =? 404) in Ea.
  destruct (_ =? 404); [by injection Ea as <- <- <-|].
  destruct (decode_body _ _ _) as [p|]; injection Ea as <- <- <-; [|eauto].
  split_and!; [done..|]. exists (observed_job cr p). split_and!; [done..|].
  pose proof (SetConditions_ready (Conditioned (Status cr)) _ (ready_for_in (poll_Status p))) as Hr.
  change (ReadyCondition (Conditioned (Status (observed_job cr p)))) with
    (ReadyCondition (SetConditions (Conditioned (Status cr)) [ready_for (poll_Status p)])).
  cbn zeta. rewrite Hr. pose proof Available_Unavailable as H1.
  pose proof Available_Creating as H2. pose proof Unavailable_Creating as H3.
  unfold observed_job, observed, ready_for; cbn.
  destruct (bool_decide_reflect (poll_Status p = "completed")) as [E1|E1];
    [|destruct (bool_decide_reflect (poll_Status p = "failed")) as [E2|E2]];
    destruct (poll_Result p); cbn; split_and!; try done; split; intros Hx;
    try done; try congruence; try (by destruct (H1 Hx)); try (by destruct (H2 Hx));
    try (by destruct (H3 Hx)); try (by symmetry in Hx; destruct (H1 Hx));
    try (by symmetry in Hx; destruct (H2 Hx)); try (by symmetry in Hx; destruct (H3 Hx));
    naive_solver.
Qed.

Lemma Observe_reports_witness :
  exists cr', ex_out (run (answering (inr demo_completed) (inl (errNew ""))) 
      (Observe demo_external (MGPUBenchmarkJob (demo_cr "id"))) tt)
    = Done (MGPUBenchmarkJob cr', MkObservation true true, None) /\
    Phase (AtProvider (Status cr')) = "completed".
Proof.
  destruct (Observe_reports (answering (inr demo_completed) (inl (errNew ""))) demo_external
    (MkClient (10 * Second)) (demo_cr "id") tt tt (inr demo_completed))
    as (mg & obs & err & E & H); [reflexivity|discriminate|vm_compute; reflexivity|reflexivity|].
  destruct (decode_body decode_poll poll_zero (Body demo_completed)) as [p|] eqn:Ep;
    [|vm_compute in Ep; discriminate].
  assert (poll_Status p = "completed") as Es by (vm_compute in Ep; injection Ep as <-; reflexivity).
  cbn [StatusCode demo_completed] in H. destruct H as (-> & H1 & H2 & cr' & -> & _ & _ & _ & _ & Hp & _).
  exists cr'. rewrite E. cbn [ex_out]. destruct obs as [a b]. cbn in H1, H2. subst a b.
  split; [reflexivity|]. rewrite Hp. exact Es.
Defined.

(** Observe is idempotent, as crossplane-runtime requires: observing the
    resource it left, with the same answer of the backend, reports the same
    and leaves the same resource. *)
Theorem Observe_idempotent {Xp : Crossplane} {XpL : CrossplaneLaws} {W} (h : handler xp_sig W)
    (e : external) (c : http_Client) (cr : GPUBenchmarkJob) (w : W) (x : error + Response)
    (mg : Managed) (obs : ExternalObservation) (err : option error) :
  ext_http e = Some c -> (forall q, h (Do q) w = (w, x)) ->
  ex_out (run h (Observe e (MGPUBenchmarkJob cr)) w) = Done (mg, obs, err) ->
  run h (Observe e mg) w = run h (Observe e (MGPUBenchmarkJob cr)) w.
Proof.
  intros Hc Hdo Hout.
  destruct (decide (JobID (AtProvider (Status cr)) = "")) as [Hid|Hid].
  { rewrite Observe_absent in Hout by done. by injection Hout as <- _ _. }
  destruct (url_parses (job_url e cr)) eqn:Hu.
  2: { rewrite Observe_bad_url in Hout by done. by injection Hout as <- _ _. }
  rewrite (Observe_run e c Hc h cr w w x) in Hout by auto. injection Hout as Hout.
  unfold observe_answer in Hout. destruct x as [inner|resp]; [by injection Hout as <- _ _|].
  destruct (_ =? _) eqn:H404; [by injection Hout as <- _ _|].
  destruct (decode_body _ _ _) as [p|] eqn:Hp; [|by injection Hout as <- _ _].
  injection Hout as <- _ _.
  rewrite !(Observe_run e c Hc h _ w w (inr resp))
    by (rewrite ?observed_job_id, ?observed_job_url; auto).
  rewrite observed_job_url. unfold observe_answer. rewrite H404, Hp. by rewrite observe_answer_again.
Qed.

Lemma Observe_idempotent_witness :
  let h := answering (inr demo_completed) (inl (errNew "")) in
  let cr := MGPUBenchmarkJob (demo_cr "id") in
  match ex_out (run h (Observe demo_external cr) tt) with
  | Done (mg, _, _) => run h (Observe demo_external mg) tt = run h (Observe demo_external cr) tt
  | Panicked _ => False
  end.
Proof.
  intros h cr. destruct (ex_out (run h (Observe demo_external cr) tt)) as [[[mg obs] err]|m] eqn:E.
  - apply (Observe_idempotent h demo_external (MkClient (10 * Second)) (demo_cr "id") tt
             (inr demo_completed) mg obs err); [reflexivity|reflexivity|exact E].
  - vm_compute in E. discriminate.
Defined.

(** Observe never asks for an update: in every run without error the
    resource is reported up to date exactly when it is reported to exist, so
    crossplane-runtime never calls Update; a run with an error reports nothing
    and leaves the resource as it was. *)
Theorem Observe_never_stale {Xp : Crossplane} {W} (h : handler xp_sig W) (e : external)
    (mg mg' : Managed) (w : W) (obs : ExternalObservation) (err : option error) :
  ex_out (run h (Observe e mg) w) = Done (mg', obs, err) ->
  match err with
  | None => ResourceUpToDate obs = ResourceExists obs
  | Some _ => obs = Observation_zero /\ mg' = mg
  end.
Proof.
  set (Q := fun (_ : list (event xp_sig))
              (out : outcome (Managed * ExternalObservation * option error)) =>
    match out with
    | Done (mg', obs, Some _) => obs = Observation_zero /\ mg' = mg
    | Done (_, obs, None) => ResourceUpToDate obs = ResourceExists obs
    | Panicked _ => True
    end).
  assert (wp (Observe e mg) Q) as Hwp.
  { unfold Observe. destruct mg as [cr|k]; [|done]. case_bool_decide; [done|].
    destruct (NewRequest _ _ _) as [er|req]; [done|]. unfold client_Do.
    destruct (ext_http e); [|done]. intros [er|resp]; [done|]. cbn.
    destruct (_ =? _); [done|]. by destruct (decode_body _ _ _). }
  intros Hout. apply (wp_run _ Q h w) in Hwp. rewrite Hout in Hwp. by destruct err.
Qed.

Lemma Observe_never_stale_witness :
  let h := answering (inr (MkResponse 404 "")) (inl (errNew "")) in
  exists obs, ex_out (run h (Observe demo_external (MGPUBenchmarkJob (demo_cr "id"))) tt)
    = Done (MGPUBenchmarkJob (demo_cr "id"), obs, None) /\
    ResourceUpToDate obs = ResourceExists obs.
Proof.
  intros h. eexists. split; [vm_compute; reflexivity|].
  apply (Observe_never_stale h demo_external (MGPUBenchmarkJob (demo_cr "id"))
           (MGPUBenchmarkJob (demo_cr "id")) tt (MkObservation false false) None).
  vm_compute. reflexivity.
Defined.

(** ** Create *)

(** C20. Create posts the job once and accepts exactly the codes 202 and 200
    with a readable body: then the resource carries the job ID of the body
    (empty if the body has none), phase queued and the condition Creating, and
    keeps its count and metrics; in every other case it is an error and the
    resource is untouched, so that a retry starts from the same state. *)
Theorem Create_outcomes {Xp : Crossplane} {XpL : CrossplaneLaws} {W} (h : handler xp_sig W)
    (e : external) (c : http_Client) (cr : GPUBenchmarkJob) (w w1 : W) (x : error + Response) :
  ext_http e = Some c -> url_parses (schedulerURL e +:+ "/benchmarks") = true ->
  let q := MkRequest MethodPost (schedulerURL e +:+ "/benchmarks") (Some "application/json")
             (marshal_map (create_payload cr)) in
  h (Do q) w = (w1, x) ->
  exists mg err,
    run h (Create e (MGPUBenchmarkJob cr)) w =
    MkExec w1 [Ev (S := xp_sig) (Do q) x] (Done (mg, MkCreation, err)) /\
    match err with
    | Some _ => mg = MGPUBenchmarkJob cr /\
        forall resp, x = inr resp -> StatusCode resp = 202 \/ StatusCode resp = 200 ->
          decode_body decode_job_id "" (Body resp) = None
    | None => exists resp id cr', x = inr resp /\
        (StatusCode resp = 202 \/ StatusCode resp = 200) /\
        decode_body decode_job_id "" (Body resp) = Some id /\
        mg = MGPUBenchmarkJob cr' /\ Meta cr' = Meta cr /\ Spec cr' = Spec cr /\
        ReadyCondition (Conditioned (Status cr')) ≡ Creating /\
        AtProvider (Status cr') =
          MkAtProvider id "queued" (RetryCount (AtProvider (Status cr)))
            (Throughput (AtProvider (Status cr))) (LatencyMs (AtProvider (Status cr)))
            (MemoryBandwidthGbps (AtProvider (Status cr)))
    end.
Proof.
  intros Hc Hu q Hdo. rewrite (Create_run e c Hc h cr w w1 x Hu Hdo).
  destruct x as [inner|resp]; [by eexists _, _|].
  destruct ((_ =? _) || _) eqn:Hcode.
  - apply orb_true_iff in Hcode. rewrite !Z.eqb_eq in Hcode.
    destruct (decode_body _ _ _) as [id|] eqn:Hd; eexists _, _; (split; [reflexivity|]); cbn beta.
    + exists resp, id, (created_job cr id). split_and!; try done.
      apply SetConditions_ready. set_solver.
    + split; [done|]. by intros ? [= <-].
  - eexists _, _. split; [reflexivity|]. cbn beta. split; [done|].
    intros ? [= <-] [E|E]; rewrite E in Hcode; discriminate.
Qed.

Lemma Create_outcomes_witness :
  let h := answering (inr (demo_accepted "uuid-1")) (inl (errNew "")) in
  exists mg, ex_out (run h (Create demo_external (MGPUBenchmarkJob (demo_cr ""))) tt)
    = Done (mg, MkCreation, None).
Proof.
  intros h.
  destruct (Create_outcomes h demo_external (MkClient (10 * Second)) (demo_cr "") tt tt
    (inr (demo_accepted "uuid-1"))) as (mg & err & E & H);
    [reflexivity|vm_compute; reflexivity|reflexivity|].
  exists mg. rewrite E. cbn [ex_out]. destruct err as [er|]; [|reflexivity].
  destruct H as [_ H]. specialize (H _ eq_refl (or_introl eq_refl)).
  vm_compute in H. discriminate.
Defined.

(** Create and Observe agree on the job: after a successful Create,
    Observe polls exactly the URL of the job ID the backend answered with.
    When that ID is empty (a body without [job_id]), Observe sends nothing and
    reports an absent resource, so the job is created again. *)
Theorem Create_then_Observe {Xp : Crossplane} {W} (h h' : handler xp_sig W)
    (e : external) (c : http_Client) (cr : GPUBenchmarkJob) (w w1 w' : W)
    (resp : Response) (id : string) (mg : Managed) (cre : ExternalCreation) :
  ext_http e = Some c ->
  h (Do (create_request e cr)) w = (w1, inr resp) ->
  decode_body decode_job_id "" (Body resp) = Some id ->
  ex_out (run h (Create e (MGPUBenchmarkJob cr)) w) = Done (mg, cre, None) ->
  let res := run h' (Observe e mg) w' in
  if bool_decide (id = "") then res = MkExec w' [] (Done (mg, MkObservation false false, None))
  else if url_parses (schedulerURL e +:+ "/benchmarks/" +:+ id)
  then requests (ex_trace res) = [MkRequest MethodGet (schedulerURL e +:+ "/benchmarks/" +:+ id) None ""]
  else ex_trace res = [] /\ exists inner,
    ex_out res = Done (mg, Observation_zero, Some (ErrWrap errObserveBenchmark inner)).
Proof.
  intros Hc Hdo Hid Hout. cbn zeta.
  assert (mg = MGPUBenchmarkJob (created_job cr id)) as ->.
  { destruct (url_parses (schedulerURL e +:+ "/benchmarks")) eqn:Hu.
    2: { by rewrite Create_bad_url in Hout. }
    rewrite (Create_run e c Hc h cr w w1 _ Hu Hdo) in Hout.
    cbn [ex_out] in Hout. rewrite Hid in Hout.
    destruct (_ || _); injection Hout as <- _; congruence. }
  set (cr' := created_job cr id).
  assert (job_url e cr' = schedulerURL e +:+ "/benchmarks/" +:+ id) as Eu by done.
  case_bool_decide as Hempty; [by rewrite Observe_absent by exact Hempty|].
  rewrite <- Eu. destruct (url_parses (job_url e cr')) eqn:Hu.
  - destruct (h' (Do (MkRequest MethodGet (job_url e cr') None "")) w') as [w2 x] eqn:Hdo'.
    by rewrite (Observe_run e c Hc h' cr' w' w2 x).
  - rewrite Observe_bad_url by done. cbn. eauto.
Qed.

Lemma Create_then_Observe_witness :
  let h := answering (inr (demo_accepted "")) (inl (errNew "")) in
  match ex_out (run h (Create demo_external (MGPUBenchmarkJob (demo_cr ""))) tt) with
  | Done (mg, _, None) =>
      run h (Observe demo_external mg) tt = MkExec tt [] (Done (mg, MkObservation false false, None))
  | _ => False
  end.
Proof.
  intros h.
  destruct (ex_out (run h (Create demo_external (MGPUBenchmarkJob (demo_cr ""))) tt))
    as [[[mg cre] [er|]]|m] eqn:E; [vm_compute in E; discriminate| |vm_compute in E; discriminate].
  apply (Create_then_Observe h h demo_external (MkClient (10 * Second)) (demo_cr "") tt tt tt
           (demo_accepted "") "" mg cre); [reflexivity|reflexivity|vm_compute; reflexivity|exact E].
Defined.

(** The body of a Create is one JSON text that reads back as exactly the
    parameters of the resource and the key namespace/name. *)
Theorem Create_body_roundtrip {Xp : Crossplane} (cr : GPUBenchmarkJob) :
  let p := ForProvider (Spec cr) in
  valid_utf8 (GPUModel p) = true -> valid_utf8 (WorkloadType p) = true ->
  valid_utf8 (idempotency_key cr) = true ->
  parse_json (marshal_map (create_payload cr)) =
  Some (JObject [("batch_size", JNumber (fmt_d (BatchSize p))); ("gpu_model", JString (GPUModel p));
                 ("idempotency_key", JString (idempotency_key cr));
                 ("workload_type", JString (WorkloadType p))]).
Proof. intros p. apply payload_roundtrip. Qed.

Lemma Create_body_roundtrip_witness :
  parse_json (marshal_map (create_payload (demo_cr ""))) =
  Some (JObject [("batch_size", JNumber "64"); ("gpu_model", JString "H100");
                 ("idempotency_key", JString "/h100"); ("workload_type", JString "training")]).
Proof. apply (Create_body_roundtrip (demo_cr "")); vm_compute; reflexivity. Defined.

(** ** Delete *)

(** Delete never stands in the way of a deletion: for a job it always
    returns without error and leaves the resource as it was, whatever the
    backend answers and even if the URL does not parse, and it sends the one
    cancellation exactly when there is a job ID with a URL that parses. *)
Theorem Delete_best_effort {Xp : Crossplane} {W} (h : handler xp_sig W)
    (e : external) (c : http_Client) (cr : GPUBenchmarkJob) (w : W) :
  ext_http e = Some c ->
  let res := run h (Delete e (MGPUBenchmarkJob cr)) w in
  ex_out res = Done (MGPUBenchmarkJob cr, None) /\
  requests (ex_trace res) =
    if negb (bool_decide (JobID (AtProvider (Status cr)) = "")) && url_parses (job_url e cr)
    then [MkRequest MethodDelete (job_url e cr) None ""] else [].
Proof.
  intros Hc. cbn zeta. unfold Delete. case_bool_decide; [done|]. unfold NewRequest.
  destruct (url_parses _); [|done]. rewrite Hc. cbn. by run_call.
Qed.

Lemma Delete_best_effort_witness :
  let h := answering (inl (errNew "connection refused")) (inl (errNew "")) in
  ex_out (run h (Delete demo_external (MGPUBenchmarkJob (demo_cr "id"))) tt)
  = Done (MGPUBenchmarkJob (demo_cr "id"), None).
Proof.
  intros h.
  exact (proj1 (Delete_best_effort h demo_external (MkClient (10 * Second)) (demo_cr "id") tt
                  eq_refl)).
Defined.

(** ** The connector *)

(** Connect reads exactly one ProviderConfig, cluster-scoped: the one the
    resource names, or "default" when it names none or the empty name.  The
    client it returns uses that config's URL and the connector's HTTP client;
    a failed read is an error that wraps the cause. *)
Theorem Connect_uses_config {Xp : Crossplane} {W} (h : handler xp_sig W) (c : connector)
    (cr : GPUBenchmarkJob) (w w1 : W) (got : error + ProviderConfig) :
  let name := match rs_ProviderConfigReference (SpecResource (Spec cr)) with
              | Some ref => if bool_decide (RefName ref = "") then "default" else RefName ref
              | None => "default"
              end in
  h (Own (GetProviderConfig (MkName "" name))) w = (w1, got) ->
  run h (Connect c (MGPUBenchmarkJob cr)) w =
  MkExec w1 [Ev (S := xp_sig) (Own (GetProviderConfig (MkName "" name))) got]
    (Done match got with
          | inl err => inl (ErrWrap "cannot get ProviderConfig" err)
          | inr pc => inr (MkExternal (con_httpClient c) (SchedulerAPIURL (PcSpec pc)))
          end).
Proof.
  intros name Hget. unfold Connect.
  replace (config_name cr) with name; [cbn [bind get_provider_config call run]; rewrite Hget; by destruct got|].
  unfold name, config_name, GetProviderConfigReference.
  destruct (rs_ProviderConfigReference _) as [ref|]; [|done]. by destruct (bool_decide _).
Qed.

Definition demo_config : ProviderConfig :=
  MkConfig (MkTypeMeta "ProviderConfig" "gpu.platform.io/v1alpha1")
    (MkMeta "default" "" "1" None []) (MkConfigSpec "http://api:8000" (15 * Second)) (MkConfigStatus None 1).

Lemma Connect_uses_config_witness :
  ex_out (run (answering (inl (errNew "")) (inr demo_config))
            (Connect (fst SetupGPUBenchmarkJob) (MGPUBenchmarkJob (demo_cr ""))) tt)
  = Done (inr demo_external).
Proof.
  rewrite (Connect_uses_config (answering (inl (errNew "")) (inr demo_config))
             (fst SetupGPUBenchmarkJob) (demo_cr "") tt tt (inr demo_config));
    reflexivity.
Defined.

(** One call of the external client, as crossplane-runtime makes it after a
    Connect; only the error is kept. *)
Inductive method : Type := CallObserve | CallCreate | CallUpdate | CallDelete.

Definition call_method {Xp : Crossplane} (m : method) (e : external) (mg : Managed) :
    xp_prog (option error) :=
  match m with
  | CallObserve => let! r := Observe e mg in Return (snd r)
  | CallCreate => let! r := Create e mg in Return (snd r)
  | CallUpdate => let! r := Update e mg in Return (snd r)
  | CallDelete => let! r := Delete e mg in Return (snd r)
  end.

Definition connect_and_call {Xp : Crossplane} (m : method) (mg : Managed) : xp_prog (option error) :=
  let! got := Connect (fst SetupGPUBenchmarkJob) mg in
  match got with
  | inl err => Return (Some err)
  | inr e => call_method m e mg
  end.

(** C21. The registered provider never panics and never sends more than one
    request per call: connecting with the connector of SetupGPUBenchmarkJob
    and then calling any method returns, for every resource, configuration and
    answer; a resource of another kind gets the kind error and no call leaves
    the process. *)
Theorem Provider_total {Xp : Crossplane} {W} (h : handler xp_sig W) (m : method) (mg : Managed)
    (w : W) :
  let res := run h (connect_and_call m mg) w in
  (exists err, ex_out res = Done err) /\ (length (requests (ex_trace res)) <= 1)%nat /\
  match mg with
  | MOther _ => ex_trace res = [] /\
      ex_out res = Done (Some (errNew "managed resource is not a GPUBenchmarkJob"))
  | MGPUBenchmarkJob _ => True
  end.
Proof.
  set (Q := fun (tr : list (event xp_sig)) (out : outcome (option error)) =>
    (exists err, out = Done err) /\ (length (requests tr) <= 1)%nat).
  cbn zeta. destruct mg as [cr|k]; [|by split_and!; eauto].
  assert (forall e c, ext_http e = Some c -> wp (call_method m e (MGPUBenchmarkJob cr)) Q) as Hm.
  { intros e c Hc. destruct m; cbn [call_method]; unfold Observe, Create, Update, Delete;
      repeat first [case_bool_decide | match goal with
        | |- context [NewRequest ?a ?b ?d] => destruct (NewRequest a b d) end];
      try (split; [by eexists|cbn; lia]); rewrite Hc; cbn; intros [err|resp];
      repeat case_match; (split; [by eexists|cbn; lia]). }
  assert (wp (connect_and_call m (MGPUBenchmarkJob cr)) Q) as Hwp.
  { intros [err|pc]; cbn; [split; [by eexists|cbn; lia]|]. by eapply wp_mono, Hm. }
  apply (wp_run _ Q h w) in Hwp as [H1 H2]. by split_and!.
Qed.

(** ** The two controllers on one backend *)

(** The operator and the provider never share a backend job by accident:
    the idempotency key of a cluster-scoped GPUBenchmarkJob differs from the
    key of every BenchmarkJob in a (nonempty, slash-free) namespace, and two
    GPUBenchmarkJobs have the same key only if they have the same name. *)
Theorem idempotency_keys_disjoint {Xp : Crossplane} (cr cr' : GPUBenchmarkJob)
    (n : NamespacedName) :
  Namespace (Meta cr) = "" -> Namespace (Meta cr') = "" ->
  NsNamespace n <> "" -> has_byte 47 (NsNamespace n) = false ->
  idempotency_key cr <> Operator.idempotency_key n /\
  (idempotency_key cr = idempotency_key cr' -> Name (Meta cr) = Name (Meta cr')).
Proof.
  intros H1 H2 Hn Hs. unfold idempotency_key, Operator.idempotency_key. rewrite H1, H2. split.
  - destruct n as [[|a ns] name]; [done|]. cbn in Hs |- *. apply orb_false_iff in Hs as [Ha _].
    rewrite append_nil_l, append_cons. intros [= <- _]. by vm_compute in Ha.
  - by intros E%append_inj_l%append_inj_l.
Qed.

Lemma idempotency_keys_disjoint_witness :
  idempotency_key (demo_cr "") <> Operator.idempotency_key (MkName "default" "h100").
Proof.
  apply (idempotency_keys_disjoint (demo_cr "") (demo_cr "") (MkName "default" "h100"));
    first [reflexivity|discriminate].
Defined.
