(* ===== verification/ProviderCopy.v ===== *)
(** * The deep copies of the provider's API types

    [provider/api/v1alpha1/zz_generated.deepcopy.go], one definition per
    method, as in [OperatorCopy].  The embedded types of metav1 and of
    crossplane-runtime, and whatever cells they use, are parameters with a
    deep copy of their own; what they read as is in [ProviderTypes]. *)
From S2P Require Export Heap ProviderTypes.

(** ** The list types; a nil slice is [None] *)

Section Lists.
Context {Xp : Crossplane}.

Record GPUBenchmarkJobList : Type := MkJobList {
  JlType : TypeMeta;
  JlMeta : ListMeta;
  JlItems : option (list GPUBenchmarkJob)
}.

Record ProviderConfigList : Type := MkConfigList {
  ClType : TypeMeta;
  ClMeta : ListMeta;
  ClItems : option (list ProviderConfig)
}.

Record ProviderConfigUsageList : Type := MkUsageList {
  UlType : TypeMeta;
  UlMeta : ListMeta;
  UlItems : option (list ProviderConfigUsage)
}.
End Lists.

Section Memory.
Context {OM LM RS CS PS US F : Type}.

(** ** Types in memory *)

Record observation_mem : Type := MkObservationMem {
  om_JobID : string;
  om_Phase : string;
  om_RetryCount : Z;
  om_Throughput : option (ref float64);
  om_LatencyMs : option (ref float64);
  om_MemoryBandwidthGbps : option (ref float64)
}.

Record spec_mem : Type := MkSpecMem {
  spm_ResourceSpec : RS;
  spm_ForProvider : GPUBenchmarkJobParameters
}.

Record status_mem : Type := MkStatusMem {
  sm_ConditionedStatus : CS;
  sm_AtProvider : observation_mem
}.

Record job_mem : Type := MkJobMem {
  jm_TypeMeta : TypeMeta;
  jm_ObjectMeta : OM;
  jm_Spec : spec_mem;
  jm_Status : status_mem
}.

Record config_status_mem : Type := MkConfigStatusMem { csm_ProviderConfigStatus : PS }.

Record config_mem : Type := MkConfigMem {
  cm_TypeMeta : TypeMeta;
  cm_ObjectMeta : OM;
  cm_Spec : ProviderConfigSpec;
  cm_Status : config_status_mem
}.

Record usage_mem : Type := MkUsageMem {
  um_TypeMeta : TypeMeta;
  um_ObjectMeta : OM;
  um_ProviderConfigUsage : US
}.

(** A list of resources of type [V]. *)
Record list_mem (V : Type) : Type := MkListMem {
  lm_TypeMeta : TypeMeta;
  lm_ListMeta : LM;
  lm_Items : option (slice V)
}.

Inductive cell : Type :=
| CFloat (x : float64)
| CObservation (x : observation_mem)
| CParameters (x : GPUBenchmarkJobParameters)
| CSpec (x : spec_mem)
| CStatus (x : status_mem)
| CJob (x : job_mem)
| CJobs (x : list job_mem)
| CJobList (x : list_mem job_mem)
| CConfigSpec (x : ProviderConfigSpec)
| CConfigStatus (x : config_status_mem)
| CConfig (x : config_mem)
| CConfigs (x : list config_mem)
| CConfigList (x : list_mem config_mem)
| CUsage (x : usage_mem)
| CUsages (x : list usage_mem)
| CUsageList (x : list_mem usage_mem)
| CForeign (x : F).

#[export] Instance cell_float : Cell cell float64.
Proof. cell_of CFloat (fun c => match c with CFloat x => Some x | _ => None end). Defined.

#[export] Instance cell_observation : Cell cell observation_mem.
Proof. cell_of CObservation (fun c => match c with CObservation x => Some x | _ => None end). Defined.

#[export] Instance cell_parameters : Cell cell GPUBenchmarkJobParameters.
Proof. cell_of CParameters (fun c => match c with CParameters x => Some x | _ => None end). Defined.

#[export] Instance cell_spec : Cell cell spec_mem.
Proof. cell_of CSpec (fun c => match c with CSpec x => Some x | _ => None end). Defined.

#[export] Instance cell_status : Cell cell status_mem.
Proof. cell_of CStatus (fun c => match c with CStatus x => Some x | _ => None end). Defined.

#[export] Instance cell_job : Cell cell job_mem.
Proof. cell_of CJob (fun c => match c with CJob x => Some x | _ => None end). Defined.

#[export] Instance cell_jobs : Cell cell (list job_mem).
Proof. cell_of CJobs (fun c => match c with CJobs x => Some x | _ => None end). Defined.

#[export] Instance cell_job_list : Cell cell (list_mem job_mem).
Proof. cell_of CJobList (fun c => match c with CJobList x => Some x | _ => None end). Defined.

#[export] Instance cell_config_spec : Cell cell ProviderConfigSpec.
Proof. cell_of CConfigSpec (fun c => match c with CConfigSpec x => Some x | _ => None end). Defined.

#[export] Instance cell_config_status : Cell cell config_status_mem.
Proof. cell_of CConfigStatus (fun c => match c with CConfigStatus x => Some x | _ => None end). Defined.

#[export] Instance cell_config : Cell cell config_mem.
Proof. cell_of CConfig (fun c => match c with CConfig x => Some x | _ => None end). Defined.

#[export] Instance cell_configs : Cell cell (list config_mem).
Proof. cell_of CConfigs (fun c => match c with CConfigs x => Some x | _ => None end). Defined.

#[export] Instance cell_config_list : Cell cell (list_mem config_mem).
Proof. cell_of CConfigList (fun c => match c with CConfigList x => Some x | _ => None end). Defined.

#[export] Instance cell_usage : Cell cell usage_mem.
Proof. cell_of CUsage (fun c => match c with CUsage x => Some x | _ => None end). Defined.

#[export] Instance cell_usages : Cell cell (list usage_mem).
Proof. cell_of CUsages (fun c => match c with CUsages x => Some x | _ => None end). Defined.

#[export] Instance cell_usage_list : Cell cell (list_mem usage_mem).
Proof. cell_of CUsageList (fun c => match c with CUsageList x => Some x | _ => None end). Defined.

End Memory.
Arguments spec_mem RS : clear implicits.
Arguments status_mem CS : clear implicits.
Arguments job_mem OM RS CS : clear implicits.
Arguments config_status_mem PS : clear implicits.
Arguments config_mem OM PS : clear implicits.
Arguments usage_mem OM US : clear implicits.
Arguments list_mem LM V : clear implicits.
Arguments MkListMem {LM V}.
Arguments lm_TypeMeta {LM V}.
Arguments lm_ListMeta {LM V}.
Arguments lm_Items {LM V}.
Arguments cell OM LM RS CS PS US F : clear implicits.

Section Copy.
Context {Xp : Crossplane} {OM LM RS CS PS US F : Type}.
Abbreviation mem := (cell OM LM RS CS PS US F).
Abbreviation pjob := (job_mem OM RS CS).
Abbreviation pconfig := (config_mem OM PS).
Abbreviation pusage := (usage_mem OM US).

(** The zero values, and the deep copies of metav1 and crossplane-runtime. *)
Context `{Zero OM, Zero LM, Zero RS, Zero CS, Zero PS, Zero US}.
Context {meta_copy : DeepCopyable mem OM ObjectMeta}.
Context {listmeta_copy : DeepCopyable mem LM ListMeta}.
Context {resource_copy : DeepCopyable mem RS ResourceSpec}.
Context {conditioned_copy : DeepCopyable mem CS ConditionedStatus}.
Context {xp_status_copy : DeepCopyable mem PS (ConditionedStatus * Z)}.
Context {xp_usage_copy : DeepCopyable mem US (Reference * TypedReference)}.

#[export] Instance parameters_zero : Zero GPUBenchmarkJobParameters := MkParameters "" "" 0 0.
#[export] Instance observation_zero : Zero observation_mem :=
  MkObservationMem "" "" 0 None None None.
#[export] Instance spec_zero : Zero (spec_mem RS) := MkSpecMem zero zero.
#[export] Instance status_zero : Zero (status_mem CS) := MkStatusMem zero zero.
#[export] Instance job_zero : Zero pjob := MkJobMem (MkTypeMeta "" "") zero zero zero.
#[export] Instance config_spec_zero : Zero ProviderConfigSpec := MkConfigSpec "" 0.
#[export] Instance config_status_zero : Zero (config_status_mem PS) := MkConfigStatusMem zero.
#[export] Instance config_zero : Zero pconfig := MkConfigMem (MkTypeMeta "" "") zero zero zero.
#[export] Instance usage_zero : Zero pusage := MkUsageMem (MkTypeMeta "" "") zero zero.
#[export] Instance list_zero V : Zero (list_mem LM V) := MkListMem (MkTypeMeta "" "") zero None.

(** ** GPUBenchmarkJobParameters *)

Definition GPUBenchmarkJobParameters_DeepCopyInto (in_ : GPUBenchmarkJobParameters) :
    hM mem GPUBenchmarkJobParameters :=
  mret in_.

Definition GPUBenchmarkJobParameters_DeepCopy (in_ : option (ref GPUBenchmarkJobParameters)) :
    hM mem (option (ref GPUBenchmarkJobParameters)) :=
  new_copy GPUBenchmarkJobParameters_DeepCopyInto in_.

(** ** GPUBenchmarkJobObservation *)

Definition set_Throughput (o : observation_mem) p : observation_mem :=
  MkObservationMem (om_JobID o) (om_Phase o) (om_RetryCount o) p (om_LatencyMs o)
    (om_MemoryBandwidthGbps o).
Definition set_LatencyMs (o : observation_mem) p : observation_mem :=
  MkObservationMem (om_JobID o) (om_Phase o) (om_RetryCount o) (om_Throughput o) p
    (om_MemoryBandwidthGbps o).
Definition set_MemoryBandwidthGbps (o : observation_mem) p : observation_mem :=
  MkObservationMem (om_JobID o) (om_Phase o) (om_RetryCount o) (om_Throughput o)
    (om_LatencyMs o) p.

Definition GPUBenchmarkJobObservation_DeepCopyInto (in_ : observation_mem) :
    hM mem observation_mem :=
  let out := in_ in
  p ← box_copy (om_Throughput in_);
  let out := set_Throughput out p in
  p ← box_copy (om_LatencyMs in_);
  let out := set_LatencyMs out p in
  p ← box_copy (om_MemoryBandwidthGbps in_);
  mret (set_MemoryBandwidthGbps out p).

Definition GPUBenchmarkJobObservation_DeepCopy (in_ : option (ref observation_mem)) :
    hM mem (option (ref observation_mem)) :=
  new_copy GPUBenchmarkJobObservation_DeepCopyInto in_.

(** ** GPUBenchmarkJobSpec *)

Definition GPUBenchmarkJobSpec_DeepCopyInto (in_ : spec_mem RS) : hM mem (spec_mem RS) :=
  let out := in_ in
  resource ← DeepCopyInto (A := ResourceSpec) (spm_ResourceSpec in_);
  let out := MkSpecMem resource (spm_ForProvider out) in
  params ← GPUBenchmarkJobParameters_DeepCopyInto (spm_ForProvider in_);
  mret (MkSpecMem (spm_ResourceSpec out) params).

Definition GPUBenchmarkJobSpec_DeepCopy (in_ : option (ref (spec_mem RS))) :
    hM mem (option (ref (spec_mem RS))) :=
  new_copy GPUBenchmarkJobSpec_DeepCopyInto in_.

(** ** GPUBenchmarkJobStatus *)

Definition GPUBenchmarkJobStatus_DeepCopyInto (in_ : status_mem CS) : hM mem (status_mem CS) :=
  let out := in_ in
  conditioned ← DeepCopyInto (A := ConditionedStatus) (sm_ConditionedStatus in_);
  let out := MkStatusMem conditioned (sm_AtProvider out) in
  atProvider ← GPUBenchmarkJobObservation_DeepCopyInto (sm_AtProvider in_);
  mret (MkStatusMem (sm_ConditionedStatus out) atProvider).

Definition GPUBenchmarkJobStatus_DeepCopy (in_ : option (ref (status_mem CS))) :
    hM mem (option (ref (status_mem CS))) :=
  new_copy GPUBenchmarkJobStatus_DeepCopyInto in_.

(** ** GPUBenchmarkJob *)

Definition GPUBenchmarkJob_DeepCopyInto (in_ : pjob) : hM mem pjob :=
  let out := in_ in
  let out := MkJobMem (jm_TypeMeta in_) (jm_ObjectMeta out) (jm_Spec out) (jm_Status out) in
  meta ← DeepCopyInto (A := ObjectMeta) (jm_ObjectMeta in_);
  let out := MkJobMem (jm_TypeMeta out) meta (jm_Spec out) (jm_Status out) in
  spec ← GPUBenchmarkJobSpec_DeepCopyInto (jm_Spec in_);
  let out := MkJobMem (jm_TypeMeta out) (jm_ObjectMeta out) spec (jm_Status out) in
  status ← GPUBenchmarkJobStatus_DeepCopyInto (jm_Status in_);
  mret (MkJobMem (jm_TypeMeta out) (jm_ObjectMeta out) (jm_Spec out) status).

Definition GPUBenchmarkJob_DeepCopy (in_ : option (ref pjob)) : hM mem (option (ref pjob)) :=
  new_copy GPUBenchmarkJob_DeepCopyInto in_.

(** ** ProviderConfigSpec *)

Definition ProviderConfigSpec_DeepCopyInto (in_ : ProviderConfigSpec) :
    hM mem ProviderConfigSpec :=
  let out := in_ in
  mret (MkConfigSpec (SchedulerAPIURL out) (PollInterval in_)).

Definition ProviderConfigSpec_DeepCopy (in_ : option (ref ProviderConfigSpec)) :
    hM mem (option (ref ProviderConfigSpec)) :=
  new_copy ProviderConfigSpec_DeepCopyInto in_.

(** ** ProviderConfigStatus *)

Definition ProviderConfigStatus_DeepCopyInto (in_ : config_status_mem PS) :
    hM mem (config_status_mem PS) :=
  status ← DeepCopyInto (A := (ConditionedStatus * Z)%type) (csm_ProviderConfigStatus in_);
  mret (MkConfigStatusMem status).

Definition ProviderConfigStatus_DeepCopy (in_ : option (ref (config_status_mem PS))) :
    hM mem (option (ref (config_status_mem PS))) :=
  new_copy ProviderConfigStatus_DeepCopyInto in_.

(** ** ProviderConfig *)

Definition ProviderConfig_DeepCopyInto (in_ : pconfig) : hM mem pconfig :=
  let out := in_ in
  let out := MkConfigMem (cm_TypeMeta in_) (cm_ObjectMeta out) (cm_Spec out) (cm_Status out) in
  meta ← DeepCopyInto (A := ObjectMeta) (cm_ObjectMeta in_);
  let out := MkConfigMem (cm_TypeMeta out) meta (cm_Spec out) (cm_Status out) in
  let out := MkConfigMem (cm_TypeMeta out) (cm_ObjectMeta out) (cm_Spec in_) (cm_Status out) in
  status ← ProviderConfigStatus_DeepCopyInto (cm_Status in_);
  mret (MkConfigMem (cm_TypeMeta out) (cm_ObjectMeta out) (cm_Spec out) status).

Definition ProviderConfig_DeepCopy (in_ : option (ref pconfig)) : hM mem (option (ref pconfig)) :=
  new_copy ProviderConfig_DeepCopyInto in_.

(** ** ProviderConfigUsage *)

Definition ProviderConfigUsage_DeepCopyInto (in_ : pusage) : hM mem pusage :=
  let out := in_ in
  let out := MkUsageMem (um_TypeMeta in_) (um_ObjectMeta out) (um_ProviderConfigUsage out) in
  meta ← DeepCopyInto (A := ObjectMeta) (um_ObjectMeta in_);
  let out := MkUsageMem (um_TypeMeta out) meta (um_ProviderConfigUsage out) in
  usage ← DeepCopyInto (A := (Reference * TypedReference)%type) (um_ProviderConfigUsage in_);
  mret (MkUsageMem (um_TypeMeta out) (um_ObjectMeta out) usage).

Definition ProviderConfigUsage_DeepCopy (in_ : option (ref pusage)) :
    hM mem (option (ref pusage)) :=
  new_copy ProviderConfigUsage_DeepCopyInto in_.

(** ** The lists: one shape, written out for each by the generator *)

Definition GPUBenchmarkJobList_DeepCopyInto (in_ : list_mem LM pjob) :
    hM mem (list_mem LM pjob) :=
  let out := in_ in
  let out := MkListMem (lm_TypeMeta in_) (lm_ListMeta out) (lm_Items out) in
  meta ← DeepCopyInto (A := ListMeta) (lm_ListMeta in_);
  let out := MkListMem (lm_TypeMeta out) meta (lm_Items out) in
  items ← items_copy GPUBenchmarkJob_DeepCopyInto (lm_Items in_);
  mret (MkListMem (lm_TypeMeta out) (lm_ListMeta out) items).

Definition GPUBenchmarkJobList_DeepCopy (in_ : option (ref (list_mem LM pjob))) :
    hM mem (option (ref (list_mem LM pjob))) :=
  new_copy GPUBenchmarkJobList_DeepCopyInto in_.

Definition ProviderConfigList_DeepCopyInto (in_ : list_mem LM pconfig) :
    hM mem (list_mem LM pconfig) :=
  let out := in_ in
  let out := MkListMem (lm_TypeMeta in_) (lm_ListMeta out) (lm_Items out) in
  meta ← DeepCopyInto (A := ListMeta) (lm_ListMeta in_);
  let out := MkListMem (lm_TypeMeta out) meta (lm_Items out) in
  items ← items_copy ProviderConfig_DeepCopyInto (lm_Items in_);
  mret (MkListMem (lm_TypeMeta out) (lm_ListMeta out) items).

Definition ProviderConfigList_DeepCopy (in_ : option (ref (list_mem LM pconfig))) :
    hM mem (option (ref (list_mem LM pconfig))) :=
  new_copy ProviderConfigList_DeepCopyInto in_.

Definition ProviderConfigUsageList_DeepCopyInto (in_ : list_mem LM pusage) :
    hM mem (list_mem LM pusage) :=
  let out := in_ in
  let out := MkListMem (lm_TypeMeta in_) (lm_ListMeta out) (lm_Items out) in
  meta ← DeepCopyInto (A := ListMeta) (lm_ListMeta in_);
  let out := MkListMem (lm_TypeMeta out) meta (lm_Items out) in
  items ← items_copy ProviderConfigUsage_DeepCopyInto (lm_Items in_);
  mret (MkListMem (lm_TypeMeta out) (lm_ListMeta out) items).

Definition ProviderConfigUsageList_DeepCopy (in_ : option (ref (list_mem LM pusage))) :
    hM mem (option (ref (list_mem LM pusage))) :=
  new_copy ProviderConfigUsageList_DeepCopyInto in_.

(** ** runtime.Object: see [OperatorCopy] *)

Inductive Object : Type :=
| OGPUBenchmarkJob (p : option (ref pjob))
| OGPUBenchmarkJobList (p : option (ref (list_mem LM pjob)))
| OProviderConfig (p : option (ref pconfig))
| OProviderConfigList (p : option (ref (list_mem LM pconfig)))
| OProviderConfigUsage (p : option (ref pusage))
| OProviderConfigUsageList (p : option (ref (list_mem LM pusage))).

Definition GPUBenchmarkJob_DeepCopyObject (in_ : option (ref pjob)) :
    hM mem (option Object) :=
  c ← GPUBenchmarkJob_DeepCopy in_;
  match c with Some _ => mret (Some (OGPUBenchmarkJob c)) | None => mret None end.

Definition GPUBenchmarkJobList_DeepCopyObject (in_ : option (ref (list_mem LM pjob))) :
    hM mem (option Object) :=
  c ← GPUBenchmarkJobList_DeepCopy in_;
  match c with Some _ => mret (Some (OGPUBenchmarkJobList c)) | None => mret None end.

Definition ProviderConfig_DeepCopyObject (in_ : option (ref pconfig)) :
    hM mem (option Object) :=
  c ← ProviderConfig_DeepCopy in_;
  match c with Some _ => mret (Some (OProviderConfig c)) | None => mret None end.

Definition ProviderConfigList_DeepCopyObject (in_ : option (ref (list_mem LM pconfig))) :
    hM mem (option Object) :=
  c ← ProviderConfigList_DeepCopy in_;
  match c with Some _ => mret (Some (OProviderConfigList c)) | None => mret None end.

Definition ProviderConfigUsage_DeepCopyObject (in_ : option (ref pusage)) :
    hM mem (option Object) :=
  c ← ProviderConfigUsage_DeepCopy in_;
  match c with Some _ => mret (Some (OProviderConfigUsage c)) | None => mret None end.

Definition ProviderConfigUsageList_DeepCopyObject (in_ : option (ref (list_mem LM pusage))) :
    hM mem (option Object) :=
  c ← ProviderConfigUsageList_DeepCopy in_;
  match c with Some _ => mret (Some (OProviderConfigUsageList c)) | None => mret None end.

(** The call through the interface. *)
Definition DeepCopyObject (o : Object) : hM mem (option Object) :=
  match o with
  | OGPUBenchmarkJob p => GPUBenchmarkJob_DeepCopyObject p
  | OGPUBenchmarkJobList p => GPUBenchmarkJobList_DeepCopyObject p
  | OProviderConfig p => ProviderConfig_DeepCopyObject p
  | OProviderConfigList p => ProviderConfigList_DeepCopyObject p
  | OProviderConfigUsage p => ProviderConfigUsage_DeepCopyObject p
  | OProviderConfigUsageList p => ProviderConfigUsageList_DeepCopyObject p
  end.

(** ** What memory stands for *)

#[export] Instance parameters_copy :
  DeepCopyable mem GPUBenchmarkJobParameters GPUBenchmarkJobParameters := {|
  reading v := mret v;
  DeepCopyInto := GPUBenchmarkJobParameters_DeepCopyInto
|}.

#[export] Instance observation_copy :
  DeepCopyable mem observation_mem GPUBenchmarkJobObservation := {|
  reading o :=
    throughput ← ropt rload (om_Throughput o);
    latency ← ropt rload (om_LatencyMs o);
    bandwidth ← ropt rload (om_MemoryBandwidthGbps o);
    mret (MkAtProvider (om_JobID o) (om_Phase o) (om_RetryCount o) throughput latency bandwidth);
  DeepCopyInto := GPUBenchmarkJobObservation_DeepCopyInto
|}.

#[export] Instance spec_copy : DeepCopyable mem (spec_mem RS) GPUBenchmarkJobSpec := {|
  reading s :=
    resource ← reading (A := ResourceSpec) (spm_ResourceSpec s);
    params ← reading (A := GPUBenchmarkJobParameters) (spm_ForProvider s);
    mret (MkSpec resource params);
  DeepCopyInto := GPUBenchmarkJobSpec_DeepCopyInto
|}.

#[export] Instance status_copy : DeepCopyable mem (status_mem CS) GPUBenchmarkJobStatus := {|
  reading s :=
    conditioned ← reading (A := ConditionedStatus) (sm_ConditionedStatus s);
    atProvider ← reading (A := GPUBenchmarkJobObservation) (sm_AtProvider s);
    mret (MkStatus conditioned atProvider);
  DeepCopyInto := GPUBenchmarkJobStatus_DeepCopyInto
|}.

#[export] Instance job_copy : DeepCopyable mem pjob GPUBenchmarkJob := {|
  reading j :=
    meta ← reading (A := ObjectMeta) (jm_ObjectMeta j);
    spec ← reading (A := GPUBenchmarkJobSpec) (jm_Spec j);
    status ← reading (A := GPUBenchmarkJobStatus) (jm_Status j);
    mret (MkJob (jm_TypeMeta j) meta spec status);
  DeepCopyInto := GPUBenchmarkJob_DeepCopyInto
|}.

#[export] Instance config_spec_copy : DeepCopyable mem ProviderConfigSpec ProviderConfigSpec := {|
  reading v := mret v;
  DeepCopyInto := ProviderConfigSpec_DeepCopyInto
|}.

#[export] Instance config_status_copy :
  DeepCopyable mem (config_status_mem PS) ProviderConfigStatus := {|
  reading s :=
    cu ← reading (A := (ConditionedStatus * Z)%type) (csm_ProviderConfigStatus s);
    mret (MkConfigStatus cu.1 cu.2);
  DeepCopyInto := ProviderConfigStatus_DeepCopyInto
|}.

#[export] Instance config_copy : DeepCopyable mem pconfig ProviderConfig := {|
  reading c :=
    meta ← reading (A := ObjectMeta) (cm_ObjectMeta c);
    status ← reading (A := ProviderConfigStatus) (cm_Status c);
    mret (MkConfig (cm_TypeMeta c) meta (cm_Spec c) status);
  DeepCopyInto := ProviderConfig_DeepCopyInto
|}.

#[export] Instance usage_copy : DeepCopyable mem pusage ProviderConfigUsage := {|
  reading u :=
    meta ← reading (A := ObjectMeta) (um_ObjectMeta u);
    refs ← reading (A := (Reference * TypedReference)%type) (um_ProviderConfigUsage u);
    mret (MkUsage (um_TypeMeta u) meta refs.1 refs.2);
  DeepCopyInto := ProviderConfigUsage_DeepCopyInto
|}.

(** A list of resources reads as its type, its metadata and its items. *)
Definition list_reading {V A B} (r : V -> rM mem A)
    (mk : TypeMeta -> ListMeta -> option (list A) -> B) `{Cell mem (list V)}
    (l : list_mem LM V) : rM mem B :=
  meta ← reading (A := ListMeta) (lm_ListMeta l);
  items ← ropt (rslice r) (lm_Items l);
  mret (mk (lm_TypeMeta l) meta items).

#[export] Instance job_list_copy : DeepCopyable mem (list_mem LM pjob) GPUBenchmarkJobList := {|
  reading := list_reading (reading (A := GPUBenchmarkJob)) MkJobList;
  DeepCopyInto := GPUBenchmarkJobList_DeepCopyInto
|}.

#[export] Instance config_list_copy : DeepCopyable mem (list_mem LM pconfig) ProviderConfigList := {|
  reading := list_reading (reading (A := ProviderConfig)) MkConfigList;
  DeepCopyInto := ProviderConfigList_DeepCopyInto
|}.

#[export] Instance usage_list_copy : DeepCopyable mem (list_mem LM pusage) ProviderConfigUsageList := {|
  reading := list_reading (reading (A := ProviderConfigUsage)) MkUsageList;
  DeepCopyInto := ProviderConfigUsageList_DeepCopyInto
|}.

(** The struct an interface value points to. *)
Inductive object_value : Type :=
| VGPUBenchmarkJob (x : GPUBenchmarkJob)
| VGPUBenchmarkJobList (x : GPUBenchmarkJobList)
| VProviderConfig (x : ProviderConfig)
| VProviderConfigList (x : ProviderConfigList)
| VProviderConfigUsage (x : ProviderConfigUsage)
| VProviderConfigUsageList (x : ProviderConfigUsageList).

Definition object_reading (o : Object) : rM mem object_value :=
  match o with
  | OGPUBenchmarkJob (Some p) => x ← rref (reading (A := GPUBenchmarkJob)) p; mret (VGPUBenchmarkJob x)
  | OGPUBenchmarkJobList (Some p) => x ← rref (reading (A := GPUBenchmarkJobList)) p; mret (VGPUBenchmarkJobList x)
  | OProviderConfig (Some p) => x ← rref (reading (A := ProviderConfig)) p; mret (VProviderConfig x)
  | OProviderConfigList (Some p) => x ← rref (reading (A := ProviderConfigList)) p; mret (VProviderConfigList x)
  | OProviderConfigUsage (Some p) => x ← rref (reading (A := ProviderConfigUsage)) p; mret (VProviderConfigUsage x)
  | OProviderConfigUsageList (Some p) => x ← rref (reading (A := ProviderConfigUsageList)) p; mret (VProviderConfigUsageList x)
  | _ => fun _ => None
  end.

(** ** Every generated copy is deep *)

Context {meta_laws : DeepCopyLaws meta_copy} {listmeta_laws : DeepCopyLaws listmeta_copy}.
Context {resource_laws : DeepCopyLaws resource_copy}.
Context {conditioned_laws : DeepCopyLaws conditioned_copy}.
Context {xp_status_laws : DeepCopyLaws xp_status_copy}.
Context {xp_usage_laws : DeepCopyLaws xp_usage_copy}.

#[export] Instance parameters_laws : DeepCopyLaws parameters_copy :=
  plain_laws mem GPUBenchmarkJobParameters.

#[export] Instance observation_laws : DeepCopyLaws observation_copy.
Proof. copy_start. do 3 copy_field box_copy_opt. copy_done. Qed.

#[export] Instance spec_laws : DeepCopyLaws spec_copy.
Proof.
  copy_start. copy_field (DeepCopyInto_copies (D := resource_copy)).
  copy_field (DeepCopyInto_copies (D := parameters_copy)). copy_done.
Qed.

#[export] Instance status_laws : DeepCopyLaws status_copy.
Proof.
  copy_start. copy_field (DeepCopyInto_copies (D := conditioned_copy)).
  copy_field (DeepCopyInto_copies (D := observation_copy)). copy_done.
Qed.

#[export] Instance job_laws : DeepCopyLaws job_copy.
Proof.
  copy_start. copy_field (DeepCopyInto_copies (D := meta_copy)).
  copy_field (DeepCopyInto_copies (D := spec_copy)).
  copy_field (DeepCopyInto_copies (D := status_copy)). copy_done.
Qed.

#[export] Instance config_spec_laws : DeepCopyLaws config_spec_copy.
Proof. copy_start. destruct v. copy_done. Qed.

#[export] Instance config_status_laws : DeepCopyLaws config_status_copy.
Proof. copy_start. copy_field (DeepCopyInto_copies (D := xp_status_copy)). copy_done. Qed.

#[export] Instance config_laws : DeepCopyLaws config_copy.
Proof.
  copy_start. copy_field (DeepCopyInto_copies (D := meta_copy)).
  copy_field (DeepCopyInto_copies (D := config_status_copy)). copy_done.
Qed.

#[export] Instance usage_laws : DeepCopyLaws usage_copy.
Proof.
  copy_start. copy_field (DeepCopyInto_copies (D := meta_copy)).
  copy_field (DeepCopyInto_copies (D := xp_usage_copy)). copy_done.
Qed.

#[export] Instance job_list_laws : DeepCopyLaws job_list_copy.
Proof.
  copy_start. copy_field (DeepCopyInto_copies (D := listmeta_copy)).
  copy_field (items_copy_copies job_copy). copy_done.
Qed.

#[export] Instance config_list_laws : DeepCopyLaws config_list_copy.
Proof.
  copy_start. copy_field (DeepCopyInto_copies (D := listmeta_copy)).
  copy_field (items_copy_copies config_copy). copy_done.
Qed.

#[export] Instance usage_list_laws : DeepCopyLaws usage_list_copy.
Proof.
  copy_start. copy_field (DeepCopyInto_copies (D := listmeta_copy)).
  copy_field (items_copy_copies usage_copy). copy_done.
Qed.

End Copy.
