(* ===== verification/CopyTheorems.v ===== *)
(** * Theorems on the generated deep copies

    What client-go's caches rely on: a copy made by [DeepCopyObject] is
    equal to the original and shares no memory with it, so a handler may
    write to its copy while others read the original. *)
From S2P Require Import Heap.
From S2P Require OperatorCopy ProviderCopy.

(** ** The operator's types *)

Module OperatorTypes.
Import OperatorCopy.

Section Theorems.
Context {OM LM TM F : Type} `{Zero OM, Zero LM}.
Context {meta_copy : DeepCopyable (cell OM LM TM F) OM ObjectMeta}.
Context {listmeta_copy : DeepCopyable (cell OM LM TM F) LM ListMeta}.
Context {time_copy : DeepCopyPointer (cell OM LM TM F) TM Time}.
Context {meta_laws : DeepCopyLaws meta_copy} {listmeta_laws : DeepCopyLaws listmeta_copy}.
Context {time_laws : DeepCopyPointerLaws time_copy}.
Implicit Types h : heap (cell OM LM TM F).

#[local] Instance object_reading_framed (o : Object (OM := OM) (LM := LM) (TM := TM)) :
  Framed (object_reading (F := F) o).
Proof using All. destruct o as [[p|]|[p|]]; apply _. Qed.

Lemma operator_DeepCopyObject_copies o h x L :
  object_reading o h = Some (x, L) ->
  exists h' o', DeepCopyObject o h = Some (h', Some o') /\ deep_copied object_reading h x h' o'.
Proof using All.
  destruct o as [[p|]|[p|]]; try done.
  - by apply (object_copies job_copy OBenchmarkJob VBenchmarkJob object_reading).
  - by apply (object_copies list_copy OBenchmarkJobList VBenchmarkJobList object_reading).
Qed.

(** The pointer inside an interface value. *)
Definition pointer_is_nil (o : Object (OM := OM) (LM := LM) (TM := TM)) : bool :=
  match o with
  | OBenchmarkJob p => bool_decide (p = None)
  | OBenchmarkJobList p => bool_decide (p = None)
  end.

(** C18. [DeepCopyObject] of a BenchmarkJob or of a list of them never panics
    and returns a deep copy: an object that reads the same, laid out in memory
    that was free, with nothing of the old memory changed.  From then on the
    original does not see what is written to the copy, whatever cells those
    writes reach, nor the copy what is written to the memory of the original.
    A nil pointer is copied to the nil interface, not to an interface that
    holds a nil pointer. *)
Theorem operator_DeepCopyObject_deep (o : Object) h :
  (forall x L, object_reading o h = Some (x, L) ->
   exists h' o',
     DeepCopyObject o h = Some (h', Some o') /\ deep_copied object_reading h x h' o' /\
     (forall ws, (forall l, l ∈ ws.*1 -> l ∉ dom h) ->
        object_reading o (writes ws h') = Some (x, L)) /\
     (forall ws, (forall l, l ∈ ws.*1 -> l ∈ dom h) ->
        fst <$> object_reading o' (writes ws h') = Some x)) /\
  (pointer_is_nil o = true -> DeepCopyObject o h = Some (h, None)).
Proof using All.
  split.
  - intros x L E. destruct (operator_DeepCopyObject_copies o h x L E) as (h' & o' & Ec & Hd).
    exists h', o'. split; [done|]. split; [done|].
    by apply (deep_copied_isolated object_reading h o x L h' o').
  - by destruct o as [[p|]|[p|]].
Qed.

(** The same for the structs that only other structs embed. *)
Theorem operator_structs_deep :
  copies_deeply (BenchmarkJobSpec_DeepCopy (OM := OM) (LM := LM) (TM := TM) (F := F)) reading /\
  copies_deeply (BenchmarkJobStatus_DeepCopy (OM := OM) (LM := LM) (TM := TM) (F := F)) reading.
Proof using All. split; intros o h x L; [apply (new_copy_opt spec_copy)|apply (new_copy_opt status_copy)]. Qed.
End Theorems.

(** ** Metadata with a pointer and a slice of its own, for evaluation *)

Record meta_mem : Type := MkMetaMem {
  mm_name : NamespacedName;
  mm_version : string;
  mm_deletion : option (ref Time);
  mm_finalizers : option (slice string)
}.

Abbreviation demo_mem := (cell meta_mem ListMeta Time (list string)).

#[local] Instance cell_foreign_strings : Cell demo_mem (list string).
Proof. cell_of (fun l => CForeign l : demo_mem)
  (fun c : demo_mem => match c with CForeign l => Some l | _ => None end). Defined.

#[local] Instance zero_string : Zero string := "".
#[local] Instance zero_time : Zero Time := 0%Z.
#[local] Instance zero_listmeta : Zero ListMeta := MkListMeta "" "" None.
#[local] Instance zero_meta : Zero meta_mem := MkMetaMem (MkName "" "") "" None None.

#[local] Instance demo_time : DeepCopyPointer demo_mem Time Time :=
  {| pointee := reading (DeepCopyable := plain demo_mem Time);
     DeepCopy := new_copy (DeepCopyInto (DeepCopyable := plain demo_mem Time)) |}.

#[local] Instance demo_listmeta : DeepCopyable demo_mem ListMeta ListMeta := plain _ _.

#[local] Instance demo_meta : DeepCopyable demo_mem meta_mem ObjectMeta := {|
  reading m :=
    deletion ← ropt rload (mm_deletion m);
    fs ← ropt (rslice (reading (DeepCopyable := plain demo_mem string))) (mm_finalizers m);
    mret (MkMeta (NsName (mm_name m)) (NsNamespace (mm_name m)) (mm_version m) deletion
            (default [] fs));
  DeepCopyInto m :=
    deletion ← box_copy (mm_deletion m);
    fs ← items_copy (DeepCopyInto (DeepCopyable := plain demo_mem string)) (mm_finalizers m);
    mret (MkMetaMem (mm_name m) (mm_version m) deletion fs)
|}.

#[local] Instance demo_plain_laws A : DeepCopyLaws (plain demo_mem A) := plain_laws _ _.

#[local] Instance demo_time_laws : DeepCopyPointerLaws demo_time.
Proof. apply (new_copy_pointer (plain demo_mem Time)). Qed.

#[local] Instance demo_listmeta_laws : DeepCopyLaws demo_listmeta := plain_laws _ _.

#[local] Instance demo_meta_laws : DeepCopyLaws demo_meta.
Proof.
  copy_start. copy_field box_copy_opt. copy_field (items_copy_copies (plain demo_mem string)).
  copy_done.
Qed.

(** A submitted job behind address 1: its float behind 2, its start time and
    its deletion time behind 3, its finalizers in the array behind 4. *)
Definition demo_heap : heap demo_mem :=
  list_to_map
    [(1%positive, CJob (MkJobMem (MkTypeMeta "BenchmarkJob" "benchmarks.gpu-platform.io/v1alpha1")
        (MkMetaMem (MkName "team" "bert") "7" (Some (Ref 3%positive)) (Some (Slice (Ref 4%positive) 1 1)))
        (MkSpec "H100" "training" 64 "" 3)
        (MkStatusMem "Submitted" "id" "" 0 (Some (Ref 2%positive)) None None (Some (Ref 3%positive)) None)));
     (2%positive, CFloat (float_of_int 1243));
     (3%positive, CTime 1000%Z);
     (4%positive, CForeign ["other"; benchmarkJobFinalizer])].

Definition demo_object : Object (OM := meta_mem) (LM := ListMeta) (TM := Time) :=
  OBenchmarkJob (Some (Ref 1%positive)).

Definition demo_job : BenchmarkJob :=
  MkJob (MkTypeMeta "BenchmarkJob" "benchmarks.gpu-platform.io/v1alpha1")
    (MkMeta "bert" "team" "7" (Some 1000%Z) [benchmarkJobFinalizer])
    (MkSpec "H100" "training" 64 "" 3)
    (MkStatus "Submitted" "id" "" 0 (Some (float_of_int 1243)) None None (Some 1000%Z) None).

Example demo_reads :
  fst <$> object_reading demo_object demo_heap = Some (VBenchmarkJob demo_job).
Proof. vm_compute. reflexivity. Qed.

Lemma operator_DeepCopyObject_deep_witness :
  exists L, object_reading demo_object demo_heap = Some (VBenchmarkJob demo_job, L) /\
  exists h' o',
    DeepCopyObject demo_object demo_heap = Some (h', Some o') /\
    deep_copied object_reading demo_heap (VBenchmarkJob demo_job) h' o' /\
    (forall ws, (forall l, l ∈ ws.*1 -> l ∉ dom demo_heap) ->
       object_reading demo_object (writes ws h') = Some (VBenchmarkJob demo_job, L)) /\
    (forall ws, (forall l, l ∈ ws.*1 -> l ∈ dom demo_heap) ->
       fst <$> object_reading o' (writes ws h') = Some (VBenchmarkJob demo_job)).
Proof.
  destruct (operator_DeepCopyObject_deep demo_object demo_heap) as [H _].
  eexists. split; [vm_compute; reflexivity|].
  apply H. vm_compute. reflexivity.
Defined.

Lemma operator_structs_deep_witness :
  copies_deeply (BenchmarkJobSpec_DeepCopy (OM := meta_mem) (LM := ListMeta) (TM := Time)
                   (F := list string)) reading /\
  copies_deeply (BenchmarkJobStatus_DeepCopy (OM := meta_mem) (LM := ListMeta) (TM := Time)
                   (F := list string)) reading.
Proof. apply operator_structs_deep. Defined.
End OperatorTypes.

(** ** The provider's types *)

Module ProviderTypesCopies.
Import ProviderCopy.

Section Theorems.
Context {Xp : Crossplane} {OM LM RS CS PS US F : Type}.
Context `{Zero OM, Zero LM, Zero RS, Zero CS, Zero PS, Zero US}.
Abbreviation mem := (cell OM LM RS CS PS US F).
Abbreviation object := (Object (OM := OM) (LM := LM) (RS := RS) (CS := CS) (PS := PS) (US := US)).
Context {meta_copy : DeepCopyable mem OM ObjectMeta}.
Context {listmeta_copy : DeepCopyable mem LM ListMeta}.
Context {resource_copy : DeepCopyable mem RS ResourceSpec}.
Context {conditioned_copy : DeepCopyable mem CS ConditionedStatus}.
Context {xp_status_copy : DeepCopyable mem PS (ConditionedStatus * Z)}.
Context {xp_usage_copy : DeepCopyable mem US (Reference * TypedReference)}.
Context {meta_laws : DeepCopyLaws meta_copy} {listmeta_laws : DeepCopyLaws listmeta_copy}.
Context {resource_laws : DeepCopyLaws resource_copy}.
Context {conditioned_laws : DeepCopyLaws conditioned_copy}.
Context {xp_status_laws : DeepCopyLaws xp_status_copy}.
Context {xp_usage_laws : DeepCopyLaws xp_usage_copy}.
Implicit Types h : heap mem.

#[local] Instance object_reading_framed (o : object) : Framed (object_reading (F := F) o).
Proof using All. destruct o as [[p|]|[p|]|[p|]|[p|]|[p|]|[p|]]; apply _. Qed.

Lemma provider_DeepCopyObject_copies (o : object) h x L :
  object_reading o h = Some (x, L) ->
  exists h' o', DeepCopyObject o h = Some (h', Some o') /\ deep_copied object_reading h x h' o'.
Proof using All.
  destruct o as [[p|]|[p|]|[p|]|[p|]|[p|]|[p|]]; try done.
  - by apply (object_copies job_copy OGPUBenchmarkJob VGPUBenchmarkJob object_reading).
  - by apply (object_copies job_list_copy OGPUBenchmarkJobList VGPUBenchmarkJobList object_reading).
  - by apply (object_copies config_copy OProviderConfig VProviderConfig object_reading).
  - by apply (object_copies config_list_copy OProviderConfigList VProviderConfigList object_reading).
  - by apply (object_copies usage_copy OProviderConfigUsage VProviderConfigUsage object_reading).
  - by apply (object_copies usage_list_copy OProviderConfigUsageList VProviderConfigUsageList object_reading).
Qed.

(** The pointer inside an interface value. *)
Definition pointer_is_nil (o : object) : bool :=
  match o with
  | OGPUBenchmarkJob p => bool_decide (p = None)
  | OGPUBenchmarkJobList p => bool_decide (p = None)
  | OProviderConfig p => bool_decide (p = None)
  | OProviderConfigList p => bool_decide (p = None)
  | OProviderConfigUsage p => bool_decide (p = None)
  | OProviderConfigUsageList p => bool_decide (p = None)
  end.

(** C22. [DeepCopyObject] of each of the six kinds the provider registers
    never panics and returns a deep copy: an object of the same kind that
    reads the same, in memory that was free, with nothing of the old memory
    changed; later writes to the one are not seen by the other; and a nil
    pointer is copied to the nil interface. *)
Theorem provider_DeepCopyObject_deep (o : object) h :
  (forall x L, object_reading o h = Some (x, L) ->
   exists h' o',
     DeepCopyObject o h = Some (h', Some o') /\ deep_copied object_reading h x h' o' /\
     (forall ws, (forall l, l ∈ ws.*1 -> l ∉ dom h) ->
        object_reading o (writes ws h') = Some (x, L)) /\
     (forall ws, (forall l, l ∈ ws.*1 -> l ∈ dom h) ->
        fst <$> object_reading o' (writes ws h') = Some x)) /\
  (pointer_is_nil o = true -> DeepCopyObject o h = Some (h, None)).
Proof using All.
  split.
  - intros x L E. destruct (provider_DeepCopyObject_copies o h x L E) as (h' & o' & Ec & Hd).
    exists h', o'. split; [done|]. split; [done|].
    by apply (deep_copied_isolated object_reading h o x L h' o').
  - by destruct o as [[p|]|[p|]|[p|]|[p|]|[p|]|[p|]].
Qed.

(** Each generated [DeepCopy] of the structs that only other structs embed. *)
Lemma provider_structs_deep :
  copies_deeply (GPUBenchmarkJobParameters_DeepCopy : option (ref _) -> hM mem _) (reading (DeepCopyable := parameters_copy)) /\
  copies_deeply (GPUBenchmarkJobObservation_DeepCopy : option (ref _) -> hM mem _) (reading (DeepCopyable := observation_copy)) /\
  copies_deeply (GPUBenchmarkJobSpec_DeepCopy : option (ref _) -> hM mem _) (reading (DeepCopyable := spec_copy)) /\
  copies_deeply (GPUBenchmarkJobStatus_DeepCopy : option (ref _) -> hM mem _) (reading (DeepCopyable := status_copy)) /\
  copies_deeply (ProviderConfigSpec_DeepCopy : option (ref _) -> hM mem _) (reading (DeepCopyable := config_spec_copy)) /\
  copies_deeply (ProviderConfigStatus_DeepCopy : option (ref _) -> hM mem _) (reading (DeepCopyable := config_status_copy)).
Proof using All.
  split_and!; intros o h x L.
  - apply (new_copy_opt parameters_copy).
  - apply (new_copy_opt observation_copy).
  - apply (new_copy_opt spec_copy).
  - apply (new_copy_opt status_copy).
  - apply (new_copy_opt config_spec_copy).
  - apply (new_copy_opt config_status_copy).
Qed.
End Theorems.
(** ** A list of two jobs that share a float, for evaluation *)

Section Demo.
Abbreviation resource := (ResourceSpec (Xp := crossplane)).
Abbreviation conditioned := (option string).
Abbreviation demo_mem :=
  (cell ObjectMeta ListMeta resource conditioned (conditioned * Z) (string * string) Empty_set).

#[local] Instance zero_meta : Zero ObjectMeta := MkMeta "" "" "" None [].
#[local] Instance zero_listmeta : Zero ListMeta := MkListMeta "" "" None.
#[local] Instance zero_resource : Zero resource := MkResourceSpec None None None None [] "".
#[local] Instance zero_conditioned : Zero conditioned := None.
#[local] Instance zero_xp_status : Zero (conditioned * Z) := (None, 0%Z).
#[local] Instance zero_xp_usage : Zero (string * string) := ("", "").

#[local] Instance demo_meta : DeepCopyable demo_mem ObjectMeta ObjectMeta := plain _ _.
#[local] Instance demo_listmeta : DeepCopyable demo_mem ListMeta ListMeta := plain _ _.
#[local] Instance demo_resource : DeepCopyable demo_mem resource resource := plain _ _.
#[local] Instance demo_conditioned :
  DeepCopyable demo_mem conditioned (ConditionedStatus (Crossplane := crossplane)) := plain _ _.
#[local] Instance demo_xp_status :
  DeepCopyable demo_mem (conditioned * Z) (ConditionedStatus (Crossplane := crossplane) * Z) :=
  plain _ _.
#[local] Instance demo_xp_usage :
  DeepCopyable demo_mem (string * string)
    (Reference (Crossplane := crossplane) * TypedReference (Crossplane := crossplane)) := plain _ _.

#[local] Instance demo_plain_laws A : DeepCopyLaws (plain demo_mem A) := plain_laws _ _.

Definition demo_job_mem (name : string) : job_mem ObjectMeta resource conditioned :=
  MkJobMem (MkTypeMeta "GPUBenchmarkJob" "gpu.platform.io/v1alpha1") (MkMeta name "" "1" None [])
    (MkSpecMem (MkResourceSpec None None None None [] "Delete") (MkParameters "H100" "training" 64 3))
    (MkStatusMem (Some "Available")
       (MkObservationMem "id" "completed" 0 (Some (Ref 3%positive)) None None)).

Definition demo_list_heap : heap demo_mem :=
  list_to_map
    [(1%positive, CJobList (MkListMem (MkTypeMeta "GPUBenchmarkJobList" "gpu.platform.io/v1alpha1")
        (MkListMeta "9" "" None) (Some (Slice (Ref 2%positive) 0 2))));
     (2%positive, CJobs [demo_job_mem "a"; demo_job_mem "b"]);
     (3%positive, CFloat (float_of_int 687))].

Definition demo_list : Object (OM := ObjectMeta) (LM := ListMeta) (RS := resource)
    (CS := conditioned) (PS := conditioned * Z) (US := string * string) :=
  OGPUBenchmarkJobList (Some (Ref 1%positive)).

Definition demo_copied_job (name : string) : GPUBenchmarkJob (Xp := crossplane) :=
  MkJob (MkTypeMeta "GPUBenchmarkJob" "gpu.platform.io/v1alpha1") (MkMeta name "" "1" None [])
    (MkSpec (MkResourceSpec None None None None [] "Delete") (MkParameters "H100" "training" 64 3))
    (MkStatus (Some "Available" : ConditionedStatus (Crossplane := crossplane))
       (MkAtProvider "id" "completed" 0 (Some (float_of_int 687)) None None)).

Definition demo_list_value : object_value :=
  VGPUBenchmarkJobList (MkJobList (MkTypeMeta "GPUBenchmarkJobList" "gpu.platform.io/v1alpha1")
    (MkListMeta "9" "" None) (Some [demo_copied_job "a"; demo_copied_job "b"])).

Lemma provider_DeepCopyObject_deep_witness :
  exists L, object_reading demo_list demo_list_heap = Some (demo_list_value, L) /\
  exists h' o',
    DeepCopyObject demo_list demo_list_heap = Some (h', Some o') /\
    deep_copied object_reading demo_list_heap demo_list_value h' o' /\
    (forall ws, (forall l, l ∈ ws.*1 -> l ∉ dom demo_list_heap) ->
       object_reading demo_list (writes ws h') = Some (demo_list_value, L)) /\
    (forall ws, (forall l, l ∈ ws.*1 -> l ∈ dom demo_list_heap) ->
       fst <$> object_reading o' (writes ws h') = Some demo_list_value).
Proof.
  destruct (provider_DeepCopyObject_deep demo_list demo_list_heap) as [H _].
  eexists. split; [vm_compute; reflexivity|].
  apply H. vm_compute. reflexivity.
Defined.
End Demo.
End ProviderTypesCopies.
