(* ===== verification/Sizing.v ===== *)
(** * The benchmark-sizing composition function

    [crossplane/functions/benchmark-sizing/main.go].  The function gets the
    observed composite as a protobuf message and answers with a response
    whose desired state is the very message it was given; annotations are a
    map, so they live in a heap and the two states share them.

    The message types belong to the SDK.  The records below have the shape in
    which the function reads and builds them: a resource with metadata and a
    spec behind getters that are safe on nil, and fields that are
    [interface{}] values.  The published v1beta1 message has another shape: its
    resource is one [structpb.Struct], without these getters, and its fields
    are [*structpb.Value].  The theorems are about the function as it is
    written, against messages of the first shape. *)
From S2P Require Export GoFloat.

(** ** Messages *)

(** An [interface{}] value, as far as the type assertions tell apart. *)
Inductive value : Type :=
| VString (s : string)
| VNumber (f : float64)
| VOther (kind : string).

(** A reference to a Go map; [None] is the nil map. *)
Abbreviation loc := nat.
Abbreviation annotation_heap := (gmap loc (gmap string string)).

Record Metadata : Type := MkMetadata { MName : string; Annotations : option loc }.

Record Struct : Type := MkStruct { Fields : gmap string value }.

Record Resource : Type := MkResource {
  RMetadata : option Metadata;
  RSpec : option Struct
}.

Record Composite : Type := MkComposite { CResource : option Resource }.
Record State : Type := MkState { SComposite : option Composite }.
Record RunFunctionRequest : Type := MkRunRequest { Observed : option State }.

Inductive Severity : Type := SEVERITY_NORMAL | SEVERITY_FATAL.

Record FnResult : Type := MkFnResult { FnSeverity : Severity; FnMessage : string }.

Record RunFunctionResponse : Type := MkRunResponse {
  Desired : option State;
  Results : list FnResult
}.

(** The chains of getters: nil all along gives nil at the end. *)
Definition state_resource (s : option State) : option Resource :=
  st ← s; c ← SComposite st; CResource c.

Definition spec_fields (s : option State) : gmap string value :=
  default ∅ (r ← state_resource s; Fields <$> RSpec r).

Definition state_annotations (s : option State) : option loc :=
  r ← state_resource s; m ← RMetadata r; Annotations m.

(** ** Tables *)

Record gpuBenchmarkTier : Type := MkTier {
  estimatedRuntimeSec : Z;
  peakThroughput : float64;
  memoryBandwidthGbps : float64
}.

Definition tierTable : gmap string gpuBenchmarkTier :=
  list_to_map
    [("T4", MkTier 120 (float_of_int 400) (float_of_int 300));
     ("V100", MkTier 90 (float_of_int 900) (float_of_int 900));
     ("A100", MkTier 60 (float_of_int 2000) (float_of_int 2000));
     ("H100", MkTier 30 (float_of_int 3500) (float_of_int 3350));
     ("L40S", MkTier 45 (float_of_int 1800) (float_of_int 864));
     ("RTX4090", MkTier 75 (float_of_int 1200) (float_of_int 1008))].

Definition validWorkloads : gmap string bool :=
  list_to_map [("inference", true); ("training", true)].

(** ** Helpers *)

Definition strField (fields : gmap string value) (key def : string) : string :=
  match fields !! key with
  | Some (VString s) => s
  | _ => def
  end.

Definition numField (fields : gmap string value) (key : string) (def : float64) : float64 :=
  match fields !! key with
  | Some (VNumber n) => n
  | _ => def
  end.

Definition fatalResponse (msg : string) : RunFunctionResponse :=
  MkRunResponse None [MkFnResult SEVERITY_FATAL msg].

(** ** The function *)

Definition key_runtime : string := "platform.gpu-platform.io/estimated-runtime-sec".
Definition key_throughput : string := "platform.gpu-platform.io/peak-throughput".
Definition key_cost_center : string := "platform.gpu-platform.io/cost-center".

Section RunFunction.

(** [strconv.IsPrint], for %q, and the compiler's conversion of a float that
    is out of the range of [int]. *)
Variable is_print : Z -> bool.
Variable overflow : float64 -> Z.

(** The estimate: runtime times workload factor times batch factor, in
    [float64], left to right, and truncated. *)
Definition estimatedSec (tier : gpuBenchmarkTier) (workload : string) (batchSize : Z) : Z :=
  let runtimeMultiplier :=
    if bool_decide (workload = "training") then float_of_int 3 else float_of_int 1 in
  let batchMultiplier :=
    if 64 <? batchSize
    then fadd (float_of_int 1) (fdiv (float_of_int (wrap_int (batchSize - 64))) (float_of_int 256))
    else float_of_int 1 in
  int_of_float overflow
    (fmul (fmul (float_of_int (estimatedRuntimeSec tier)) runtimeMultiplier) batchMultiplier).

(** The three assignments to the annotations, in order. *)
Definition annotate (m : gmap string string) (est : Z) (tier : gpuBenchmarkTier)
    (costCenter : string) : gmap string string :=
  <[key_cost_center := costCenter]>
    (<[key_throughput := fmt_f0 (peakThroughput tier)]>
      (<[key_runtime := fmt_d est]> m)).

Definition unsupported_gpu (gpuModel : string) : string :=
  "unsupported gpuModel " +:+ fmt_q is_print gpuModel +:+
  "; allowed: T4, V100, A100, H100, L40S, RTX4090".

Definition unsupported_workload (workload : string) : string :=
  "unsupported workloadType " +:+ fmt_q is_print workload +:+ "; allowed: inference, training".

(** [RunFunction]; its error is always nil.  A nil annotation map is replaced
    by a new one, which is stored nowhere; a map that is there is written in
    place. *)
Definition RunFunction (req : RunFunctionRequest) (heap : annotation_heap) :
    annotation_heap * RunFunctionResponse :=
  let specFields := spec_fields (Observed req) in
  let gpuModel := strField specFields "gpuModel" "" in
  let workload := strField specFields "workloadType" "" in
  let batchSize := int_of_float overflow (numField specFields "batchSize" (float_of_int 32)) in
  let costCenter := strField specFields "costCenter" "CC-0000" in
  match tierTable !! gpuModel with
  | None => (heap, fatalResponse (unsupported_gpu gpuModel))
  | Some tier =>
      if negb (default false (validWorkloads !! workload)) then
        (heap, fatalResponse (unsupported_workload workload))
      else
        let est := estimatedSec tier workload batchSize in
        let resp := MkRunResponse (Observed req)
          [MkFnResult SEVERITY_NORMAL
             ("benchmark sizing: " +:+ gpuModel +:+ "/" +:+ workload +:+ " batch=" +:+
              fmt_d batchSize +:+ " est=" +:+ fmt_d est +:+ "s")] in
        let annotations :=
          match state_annotations (Desired resp) with
          | Some l => l
          | None => fresh (dom heap)
          end in
        let m := default ∅ (heap !! annotations) in
        (<[annotations := annotate m est tier costCenter]> heap, resp)
  end.

End RunFunction.
