(* ===== verification/Flags.v ===== *)
(** * Command lines: the [flag] package

    [flag.Parse] on [flag.CommandLine], whose errors exit the process, as the
    operator's [main] uses it, and the round trip of the form
    [--name=value]. *)
From S2P Require Export GoStrings.
From Stdlib Require Import Ascii.
Open Scope char_scope.
Open Scope string_scope.

(** A registered flag: [Set] updates the variables it is bound to. *)
Record flag (St : Type) : Type := Flag {
  flag_name : string;
  flag_is_bool : bool;
  flag_set : string -> St -> option St
}.
Arguments Flag {St} flag_name flag_is_bool flag_set.
Arguments flag_name {St} f.
Arguments flag_is_bool {St} f.
Arguments flag_set {St} f.

(** [strconv.ParseBool] *)
Definition ParseBool (s : string) : option bool :=
  if bool_decide (s ∈ ["1"; "t"; "T"; "TRUE"; "true"; "True"]) then Some true
  else if bool_decide (s ∈ ["0"; "f"; "F"; "FALSE"; "false"; "False"]) then Some false
  else None.

(** [flag.StringVar] and [flag.BoolVar], given how the variable is assigned. *)
Definition StringVar {St} (name : string) (assign : St -> string -> St) : flag St :=
  Flag name false (fun v s => Some (assign s v)).

Definition BoolVar {St} (name : string) (assign : St -> bool -> St) : flag St :=
  Flag name true (fun v s => b ← ParseBool v; Some (assign s b)).

(** An argument by its form: not a flag, the terminator, malformed, or a flag
    with the text after [=] if there is one. *)
Inductive arg_form : Type :=
| NotFlag
| Terminator
| BadSyntax
| FlagArg (name : string) (value : option string).

(** Cut at the first [=], the first character excepted. *)
Fixpoint cut_eq (s : string) : string * option string :=
  match s with
  | EmptyString => (EmptyString, None)
  | String c s' =>
      if bool_decide (c = "="%char) then (EmptyString, Some s')
      else let '(n, v) := cut_eq s' in (String c n, v)
  end.

Definition flag_body (s : string) : arg_form :=
  match s with
  | EmptyString => BadSyntax
  | String c s' =>
      if bool_decide (c = "-"%char) || bool_decide (c = "="%char) then BadSyntax
      else let '(n, v) := cut_eq s' in FlagArg (String c n) v
  end.

Definition classify (s : string) : arg_form :=
  match s with
  | String "-" (String "-" EmptyString) => Terminator
  | String "-" (String "-" s') => flag_body s'
  | String "-" EmptyString => NotFlag
  | String "-" s' => flag_body s'
  | _ => NotFlag
  end.

Inductive parse_result (St : Type) : Type :=
| Parsed (st : St) (rest : list string)
| ParseExit (code : Z).
Arguments Parsed {St} st rest.
Arguments ParseExit {St} code.

Section Parse.
Context {St : Type} (formal : list (flag St)).

Definition find_flag (name : string) : option (flag St) :=
  snd <$> list_find (fun f => flag_name f = name) formal.

(** [FlagSet.Parse]: an undefined flag, a missing or a bad value exit with
    status 2, a request for help with status 0. *)
Fixpoint parse_args (args : list string) (st : St) : parse_result St :=
  match args with
  | [] => Parsed st []
  | s :: rest =>
      match classify s with
      | NotFlag => Parsed st args
      | Terminator => Parsed st rest
      | BadSyntax => ParseExit 2
      | FlagArg name value =>
          match find_flag name with
          | None => ParseExit (if bool_decide (name ∈ ["help"; "h"]) then 0 else 2)
          | Some f =>
              match (if flag_is_bool f then Some (default "true" value) else value) with
              | Some v =>
                  match flag_set f v st with
                  | Some st' => parse_args rest st'
                  | None => ParseExit 2
                  end
              | None =>
                  match rest with
                  | [] => ParseExit 2
                  | v :: rest' =>
                      match flag_set f v st with
                      | Some st' => parse_args rest' st'
                      | None => ParseExit 2
                      end
                  end
              end
          end
      end
  end.

(** ** Arguments of the form [--name=value] *)

Definition long_flag (name value : string) : string := "--" +:+ name +:+ "=" +:+ value.

(** A name [flag.Var] accepts and a command line can spell. *)
Definition plain_name (name : string) : bool :=
  match name with
  | EmptyString => false
  | String c s =>
      negb (bool_decide (c = "-"%char)) && negb (bool_decide (c = "="%char)) &&
      match cut_eq s with (_, None) => true | (_, Some _) => false end
  end.

Lemma cut_eq_app n v : (cut_eq n).2 = None -> cut_eq (n +:+ String "=" v) = (n, Some v).
Proof.
  induction n as [|c n IH]; cbn; [done|].
  case_bool_decide; [done|]. destruct (cut_eq n) as [m o] eqn:E. cbn. intros ->.
  change (String c n +:+ String "=" v) with (String c (n +:+ String "=" v)). cbn [cut_eq].
  rewrite bool_decide_eq_false_2 by done. by rewrite IH.
Qed.

Lemma classify_long name value :
  plain_name name = true -> classify (long_flag name value) = FlagArg name (Some value).
Proof.
  unfold long_flag. destruct name as [|c s]; [done|]. intros Hp. cbn in Hp.
  destruct (bool_decide (c = "-"%char)) eqn:E1; [done|].
  destruct (bool_decide (c = "="%char)) eqn:E2; [done|]. cbn in Hp.
  destruct (cut_eq s) as [m [|]] eqn:Ec; [done|].
  change (classify _) with (flag_body (String c (s +:+ String "=" value))).
  cbn [flag_body]. rewrite E1, E2. cbn [orb].
  rewrite cut_eq_app by (by rewrite Ec). done.
Qed.

(** Parsing such a list is setting its flags in order. *)
Fixpoint set_all (l : list (string * string)) (st : St) : option St :=
  match l with
  | [] => Some st
  | (n, v) :: l' => f ← find_flag n; st' ← flag_set f v st; set_all l' st'
  end.

Lemma parse_long l st st' :
  Forall (fun p => plain_name p.1 = true) l -> set_all l st = Some st' ->
  parse_args ((fun p => long_flag p.1 p.2) <$> l) st = Parsed st' [].
Proof.
  revert st. induction l as [|[n v] l IH]; intros st Hl E.
  - cbn in E. by simplify_eq.
  - apply Forall_cons in Hl as [Hn Hl]. cbn [fmap list_fmap parse_args].
    cbn in Hn. rewrite classify_long by done. cbn [fst snd]. cbn [set_all] in E.
    destruct (find_flag n) as [f|]; [|done]. cbn in E.
    destruct (flag_set f v st) as [st1|] eqn:Es; [|done]. cbn in E.
    destruct (flag_is_bool f); cbn [default from_option id]; rewrite Es; by apply IH.
Qed.
End Parse.
