(* ===== verification/Main.v ===== *)
(** * The entry points and the schemes

    [operator/cmd/main.go] and [provider/cmd/provider/main.go], and the [main] of
    the sizing function, with
    [groupversion_info.go] and the [init] functions of both API packages.
    Logging and the signal handler are left out.  The flags that the logging
    and configuration libraries add to the command line are a parameter, as is
    apimachinery's scheme; the manager's methods are calls that may fail. *)
From S2P Require Export Flags Machinery.
From S2P Require Operator Provider Sizing.

(** ** Groups, versions and schemes *)

Record GroupVersion : Type := MkGroupVersion { Group : string; Version : string }.

Record GroupVersionKind : Type := MkGVK { gvk_GroupVersion : GroupVersion; gvk_Kind : string }.

#[export] Instance GroupVersion_eq_dec : EqDecision GroupVersion.
Proof. solve_decision. Defined.
#[export] Instance GroupVersionKind_eq_dec : EqDecision GroupVersionKind.
Proof. solve_decision. Defined.

(** apimachinery's scheme and controller-runtime's builder; a Go type is
    registered under its name. *)
Class SchemeLib : Type := {
  Scheme : Type;
  Builder : Type;
  NewScheme : Scheme;
  NewBuilder : GroupVersion -> Builder;
  Register : Builder -> list string -> Builder;
  AddToScheme : Builder -> Scheme -> error + Scheme;
  client_go_AddToScheme : Scheme -> error + Scheme;
  Recognizes : Scheme -> GroupVersionKind -> bool
}.

(** A scheme a builder was added to recognizes every type registered with it,
    and what it recognized before. *)
Class SchemeLaws `{SchemeLib} : Prop := {
  AddToScheme_registers gv regs s s' ts t :
    AddToScheme (foldl Register (NewBuilder gv) regs) s = inr s' ->
    ts ∈ regs -> t ∈ ts -> Recognizes s' (MkGVK gv t) = true;
  AddToScheme_keeps b s s' k :
    AddToScheme b s = inr s' -> Recognizes s k = true -> Recognizes s' k = true
}.

(** ** The manager *)

Record Options : Type := MkOptions {
  opt_MetricsBindAddress : string;
  opt_HealthProbeBindAddress : string;
  opt_LeaderElection : bool;
  opt_LeaderElectionID : string;
  opt_LeaderElectionNamespace : string;
  opt_SyncPeriod : option Z
}.

Section Mains.
Context {Lib : SchemeLib}.

(** The calls of a [main]; [R] is what it registers as the controller of a
    kind.  Each returns an error or nil; [ctrl.GetConfigOrDie] exits with
    status 1 instead. *)
Inductive main_op (R : Type) : Type :=
| GetConfig
| NewManager (scheme : Scheme) (opts : Options)
| AddHealthzCheck (name : string)
| AddReadyzCheck (name : string)
| Complete (kind : string) (controller : R)
| Start.
#[global] Arguments GetConfig {R}.
#[global] Arguments NewManager {R}.
#[global] Arguments AddHealthzCheck {R}.
#[global] Arguments AddReadyzCheck {R}.
#[global] Arguments Complete {R}.
#[global] Arguments Start {R}.

Definition main_sig (R : Type) : Sig := {| op := main_op R; ar := fun _ => option error |}.

Definition do_op {R} (o : main_op R) : prog (main_sig R) (option error) :=
  call (S := main_sig R) o.

(** [os.Exit(code)] ends a [main]; so does its last line, with status 0. *)
Definition exit {R} (code : Z) : prog (main_sig R) Z := Return code.

(** [err != nil] *)
Definition failed (err : option error) : bool :=
  match err with Some _ => true | None => false end.

(** [utilruntime.Must] *)
Definition Must {R A B} (r : error + A) (k : A -> prog (main_sig R) B) : prog (main_sig R) B :=
  match r with
  | inl e => Panic (error_text e)
  | inr x => k x
  end.

(** ** The operator *)

Definition operator_GroupVersion : GroupVersion :=
  MkGroupVersion "benchmarks.gpu-platform.io" "v1alpha1".

Definition operator_SchemeBuilder : Builder :=
  Register (NewBuilder operator_GroupVersion) ["BenchmarkJob"; "BenchmarkJobList"].

Record operator_vars : Type := MkVars {
  metricsAddr : string;
  probeAddr : string;
  enableLeaderElection : bool
}.

Definition operator_defaults : operator_vars := MkVars ":8081" ":8082" false.

(** The flags of [main], over its variables and those of the libraries. *)
Definition operator_flags (L : Type) : list (flag (operator_vars * L)) :=
  [StringVar "metrics-bind-address" (fun s v => (MkVars v (probeAddr s.1) (enableLeaderElection s.1), s.2));
   StringVar "health-probe-bind-address" (fun s v => (MkVars (metricsAddr s.1) v (enableLeaderElection s.1), s.2));
   BoolVar "leader-elect" (fun s b => (MkVars (metricsAddr s.1) (probeAddr s.1) b, s.2))].

Definition library_flag {L} (f : flag L) : flag (operator_vars * L) :=
  Flag (flag_name f) (flag_is_bool f) (fun v s => l ← flag_set f v s.2; Some (s.1, l)).

Definition operator_options (v : operator_vars) : Options :=
  MkOptions (metricsAddr v) (probeAddr v) (enableLeaderElection v)
    "gpu-benchmark-operator.gpu-platform.io" "" None.

Definition operator_reconciler : Operator.BenchmarkJobReconciler := Operator.MkReconciler None.

(** [init] and [main], on the arguments of the process. *)
Definition operator_main {L} (libs : list (flag L)) (l0 : L) (args : list string) :
    prog (main_sig Operator.BenchmarkJobReconciler) Z :=
  Must (client_go_AddToScheme NewScheme) (fun s =>
  Must (AddToScheme operator_SchemeBuilder s) (fun scheme =>
  let formal := operator_flags L ++ (library_flag <$> libs) in
  if decide (NoDup (flag_name <$> formal)) then
    match parse_args formal args (operator_defaults, l0) with
    | ParseExit code => exit code
    | Parsed (v, _) _ =>
        let! err := do_op GetConfig in
        if failed err then exit 1 else
        let! err := do_op (NewManager scheme (operator_options v)) in
        if failed err then exit 1 else
        let! err := do_op (Complete "BenchmarkJob" (Operator.SetupWithManager operator_reconciler)) in
        if failed err then exit 1 else
        let! err := do_op (AddHealthzCheck "healthz") in
        if failed err then exit 1 else
        let! err := do_op (AddReadyzCheck "readyz") in
        if failed err then exit 1 else
        let! err := do_op Start in
        if failed err then exit 1 else exit 0
    end
  else Panic "flag redefined")).

(** ** The provider *)

Definition provider_GroupVersion : GroupVersion := MkGroupVersion "gpu.platform.io" "v1alpha1".

Definition GPUBenchmarkJobGroupVersionKind : GroupVersionKind :=
  MkGVK (MkGroupVersion (Group provider_GroupVersion) (Version provider_GroupVersion))
    "GPUBenchmarkJob".

Definition provider_SchemeBuilder : Builder :=
  Register
    (Register
      (Register (NewBuilder provider_GroupVersion) ["GPUBenchmarkJob"; "GPUBenchmarkJobList"])
      ["ProviderConfig"; "ProviderConfigList"])
    ["ProviderConfigUsage"; "ProviderConfigUsageList"].

Definition provider_options : Options :=
  MkOptions ":8080" ":8081" true "provider-gpu-benchmark.gpu.platform.io" "gpu-benchmark"
    (Some (3600 * Second)%Z).

(** [main], on the arguments of the process. *)
Definition provider_main (args : list string) : prog (main_sig (Provider.connector * Z)) Z :=
  Must (client_go_AddToScheme NewScheme) (fun s =>
  Must (AddToScheme provider_SchemeBuilder s) (fun scheme =>
  let! err := do_op GetConfig in
  if failed err then exit 1 else
  let! err := do_op (NewManager scheme provider_options) in
  if failed err then exit 1 else
  let! err := do_op (AddHealthzCheck "healthz") in
  if failed err then exit 1 else
  let! err := do_op (AddReadyzCheck "readyz") in
  if failed err then exit 1 else
  let! err := do_op (Complete (gvk_Kind GPUBenchmarkJobGroupVersionKind)
                       Provider.SetupGPUBenchmarkJob) in
  if failed err then exit 1 else
  let! err := do_op Start in
  if failed err then exit 1 else exit 0)).

(** ** The arguments the Helm chart passes to both containers *)

Definition chart_args (metrics_port probe_port : Z) (leaderElect : bool) : list string :=
  ["--metrics-bind-address=:" +:+ fmt_d metrics_port;
   "--health-probe-bind-address=:" +:+ fmt_d probe_port;
   "--leader-elect=" +:+ (if leaderElect then "true" else "false")].
End Mains.

(** ** The sizing function *)

(** What a gRPC server is made with: the function it runs for each request. *)
Inductive server_op (F : Type) : Type :=
| Listen (network addr : string)
| Serve (runner : F).
Arguments Listen {F}.
Arguments Serve {F}.

Definition server_sig (F : Type) : Sig := {| op := server_op F; ar := fun _ => option error |}.

(** The runner of the service the server registers. *)
Definition function_runner : Type :=
  Sizing.RunFunctionRequest -> Sizing.annotation_heap ->
  Sizing.annotation_heap * Sizing.RunFunctionResponse.

(** [main] of [benchmark-sizing]. *)
Definition sizing_main (is_print : Z -> bool) (overflow : GoFloat.float64 -> Z) :
    prog (server_sig function_runner) Z :=
  let! err := call (S := server_sig function_runner) (Listen "tcp" ":9443") in
  if failed err then Return 1%Z else
  let! err := call (S := server_sig function_runner) (Serve (Sizing.RunFunction is_print overflow)) in
  if failed err then Return 1%Z else Return 0%Z.

(** ** An instance that meets the laws, for evaluation *)

#[export] Instance scheme_lib : SchemeLib := {|
  Scheme := list GroupVersionKind;
  Builder := GroupVersion * list string;
  NewScheme := [];
  NewBuilder gv := (gv, []);
  Register b ts := (b.1, b.2 ++ ts);
  AddToScheme b s := inr (s ++ (MkGVK b.1 <$> b.2));
  client_go_AddToScheme s := inr (s ++ [MkGVK (MkGroupVersion "" "v1") "Event"]);
  Recognizes s k := bool_decide (k ∈ s)
|}.

#[export] Instance scheme_laws : SchemeLaws.
Proof.
  constructor; cbn.
  - intros gv regs s s' ts t [= <-] Hts Ht. apply bool_decide_eq_true, elem_of_app. right.
    assert (Hb : forall b : GroupVersion * list string,
      let b' := foldl (fun b ts => (b.1, b.2 ++ ts)) b regs in
      b'.1 = b.1 /\ forall t, t ∈ b.2 \/ (exists ts, ts ∈ regs /\ t ∈ ts) -> t ∈ b'.2).
    { clear. induction regs as [|r regs IH]; intros b; cbn.
      - split; [done|]. intros t [|(? & ?%not_elem_of_nil & _)]; done.
      - destruct (IH (b.1, b.2 ++ r)) as [H1 H2]. split; [done|]. intros t Ht. apply H2.
        cbn. set_solver. }
    destruct (Hb (gv, [])) as [H1 H2]. cbn in H1. rewrite H1.
    apply list_elem_of_fmap. exists t. split; [done|]. apply H2. eauto.
  - intros b s s' k [= <-] Hk%bool_decide_eq_true. apply bool_decide_eq_true, elem_of_app. auto.
Qed.
