(* ===== verification/MainTheorems.v ===== *)
(** * Theorems on the entry points

    A process either does every step of its set-up and then serves, or exits
    with a failure at the first step that fails; the flags of the operator read
    what the Helm chart passes, and the provider does not read them at all. *)
From S2P Require Import Main.
From S2P Require Operator Provider.

Section Steps.
Context {Lib : SchemeLib} {R : Type}.

(** The reference: calls in order, up to the first error. *)
Fixpoint run_calls (l : list (main_op R)) : prog (main_sig R) Z :=
  match l with
  | [] => exit 0
  | o :: l' => let! err := do_op o in if failed err then exit 1 else run_calls l'
  end.

Definition succeeded (o : main_op R) : event (main_sig R) := Ev (S := main_sig R) o None.

(** All calls went through and the process ended normally, or one failed, the
    later ones were not made, and the status is 1. *)
Definition all_or_exit (l : list (main_op R)) (tr : list (event (main_sig R)))
    (out : outcome Z) : Prop :=
  (tr = succeeded <$> l /\ out = Done 0%Z) \/
  (exists l1 o l2 e, l = l1 ++ o :: l2 /\
     tr = (succeeded <$> l1) ++ [Ev (S := main_sig R) o (Some e)] /\ out = Done 1%Z).

Lemma run_calls_wp l : wp (run_calls l) (all_or_exit l).
Proof.
  induction l as [|o l IH]; [by left|]. intros [e|]; cbn.
  - right. by exists [], o, l, e.
  - eapply wp_mono, IH. intros tr out [[-> ->]|(l1 & o1 & l2 & e & -> & -> & ->)]; [by left|].
    right. by exists (o :: l1), o1, l2, e.
Qed.
End Steps.

Section Operator.
Context {Lib : SchemeLib} {Laws : SchemeLaws}.
Context {L : Type} (libs : list (flag L)) (l0 : L).

Definition operator_formal : list (flag (operator_vars * L)) :=
  operator_flags L ++ (library_flag <$> libs).

Definition operator_calls (scheme : Scheme) (v : operator_vars) :
    list (main_op Operator.BenchmarkJobReconciler) :=
  [GetConfig;
   NewManager scheme
     (MkOptions (metricsAddr v) (probeAddr v) (enableLeaderElection v)
        "gpu-benchmark-operator.gpu-platform.io" "" None);
   Complete "BenchmarkJob" (Operator.MkReconciler (Some (Http.MkClient (10 * Second))));
   AddHealthzCheck "healthz"; AddReadyzCheck "readyz"; Start].

Lemma operator_main_wp s scheme args :
  client_go_AddToScheme NewScheme = inr s ->
  AddToScheme operator_SchemeBuilder s = inr scheme ->
  NoDup (flag_name <$> operator_formal) ->
  match parse_args operator_formal args (operator_defaults, l0) with
  | Parsed (v, _) _ => wp (operator_main libs l0 args) (all_or_exit (operator_calls scheme v))
  | ParseExit code => operator_main libs l0 args = exit code
  end.
Proof using Type.
  intros Hc Ha Hn. unfold operator_main, operator_formal in *. rewrite Hc. cbn [Must]. rewrite Ha.
  cbn [Must]. rewrite decide_True by done.
  destruct (parse_args _ _ _) as [[v l] rest|code]; [|done].
  apply (run_calls_wp (operator_calls scheme v)).
Qed.

Lemma find_flag_front fs name :
  is_Some (find_flag fs name) ->
  find_flag (fs ++ (library_flag <$> libs)) name = find_flag fs name.
Proof.
  unfold find_flag. intros [f Hf].
  destruct (list_find _ fs) as [[i g]|] eqn:E; [|done]. by rewrite (list_find_app_l _ _ _ _ _ E).
Qed.

(** The command line that sets all three flags of the operator. *)
Definition operator_args (metrics probe : string) (elect : bool) : list string :=
  [long_flag "metrics-bind-address" metrics; long_flag "health-probe-bind-address" probe;
   long_flag "leader-elect" (if elect then "true" else "false")].

Lemma operator_args_parse metrics probe elect :
  parse_args operator_formal (operator_args metrics probe elect) (operator_defaults, l0) =
  Parsed (MkVars metrics probe elect, l0) [].
Proof using Type.
  apply (parse_long operator_formal
    [("metrics-bind-address", metrics); ("health-probe-bind-address", probe);
     ("leader-elect", if elect then "true" else "false")]).
  - repeat constructor.
  - unfold operator_formal. cbn [set_all]. rewrite !find_flag_front by (eexists; reflexivity).
    by destruct elect.
Qed.

(** C23. The operator serves only when it is wholly set up: with a scheme
    that recognizes both of its types, it makes the manager with the metrics
    address, the probe address and the leader election that its flags were given
    - any two texts and either choice, or :8081, :8082 and no election without
    flags - and the fixed ID of the election; it registers the reconciler with
    an HTTP client of ten seconds, adds both probes, and starts.  The first step
    that fails ends the process with status 1 and nothing after it is done.  A
    command line that does not parse ends it before any of this. *)
Theorem operator_main_all_or_exit s scheme args :
  client_go_AddToScheme NewScheme = inr s ->
  AddToScheme operator_SchemeBuilder s = inr scheme ->
  NoDup (flag_name <$> operator_formal) ->
  Forall (fun kind => Recognizes scheme (MkGVK operator_GroupVersion kind) = true)
    ["BenchmarkJob"; "BenchmarkJobList"] /\
  match parse_args operator_formal args (operator_defaults, l0) with
  | Parsed (v, _) _ => wp (operator_main libs l0 args) (all_or_exit (operator_calls scheme v))
  | ParseExit code => operator_main libs l0 args = exit code
  end /\
  (forall metrics probe elect,
     wp (operator_main libs l0 (operator_args metrics probe elect))
       (all_or_exit (operator_calls scheme (MkVars metrics probe elect)))) /\
  wp (operator_main libs l0 []) (all_or_exit (operator_calls scheme (MkVars ":8081" ":8082" false))).
Proof using All.
  intros Hc Ha Hn. pose proof (operator_main_wp s scheme) as Hwp. split; [|split; [|split]].
  - apply Forall_forall. intros kind Hk.
    eapply (AddToScheme_registers operator_GroupVersion [["BenchmarkJob"; "BenchmarkJobList"]]);
      [exact Ha| |exact Hk]. set_solver.
  - by apply Hwp.
  - intros metrics probe elect. specialize (Hwp (operator_args metrics probe elect) Hc Ha Hn).
    by rewrite operator_args_parse in Hwp.
  - exact (Hwp [] Hc Ha Hn).
Qed.

(** The operator reads from its command line what the Helm chart writes
    there: for any ports and either choice of leader election, the chart's
    arguments parse to them, whatever flags the libraries add; and the
    defaults of the flags are the addresses of the chart's default ports. *)
Theorem operator_flags_read_chart (p q : Z) (b : bool) :
  parse_args operator_formal (chart_args p q b) (operator_defaults, l0) =
    Parsed (MkVars (":" +:+ fmt_d p) (":" +:+ fmt_d q) b, l0) [] /\
  parse_args operator_formal [] (operator_defaults, l0) =
    parse_args operator_formal (chart_args 8081 8082 false) (operator_defaults, l0).
Proof using Type.
  assert (Hp : forall p q b, parse_args operator_formal (chart_args p q b) (operator_defaults, l0) =
    Parsed (MkVars (":" +:+ fmt_d p) (":" +:+ fmt_d q) b, l0) []).
  { intros p' q' b'. apply (operator_args_parse (":" +:+ fmt_d p') (":" +:+ fmt_d q')). }
  split; [apply Hp|]. rewrite Hp. done.
Qed.
End Operator.

Section Provider.
Context {Lib : SchemeLib} {Laws : SchemeLaws}.

Definition provider_calls (scheme : Scheme) : list (main_op (Provider.connector * Z)) :=
  [GetConfig;
   NewManager scheme
     (MkOptions ":8080" ":8081" true "provider-gpu-benchmark.gpu.platform.io" "gpu-benchmark"
        (Some (3600 * Second)%Z));
   AddHealthzCheck "healthz";
   AddReadyzCheck "readyz";
   Complete "GPUBenchmarkJob"
     (Provider.MkConnector (Some (Http.MkClient (10 * Second))), (15 * Second)%Z);
   Start].

Definition provider_kinds : list string :=
  ["GPUBenchmarkJob"; "GPUBenchmarkJobList"; "ProviderConfig"; "ProviderConfigList";
   "ProviderConfigUsage"; "ProviderConfigUsageList"].

Lemma provider_main_wp s scheme args :
  client_go_AddToScheme NewScheme = inr s ->
  AddToScheme provider_SchemeBuilder s = inr scheme ->
  wp (provider_main args) (all_or_exit (provider_calls scheme)).
Proof using Type.
  intros Hc Ha. unfold provider_main. rewrite Hc. cbn [Must]. rewrite Ha.
  apply (run_calls_wp (provider_calls scheme)).
Qed.

(** C24. The provider too serves only when it is wholly set up, with a scheme
    that recognizes its six types and the kind of its controller; and it does
    so with the same addresses and with leader election whatever its arguments:
    those the Helm chart passes it are not read, so its probe answers on 8081
    and it elects a leader even if the chart's values say otherwise. *)
Theorem provider_main_all_or_exit s scheme args :
  client_go_AddToScheme NewScheme = inr s ->
  AddToScheme provider_SchemeBuilder s = inr scheme ->
  Forall (fun kind => Recognizes scheme (MkGVK provider_GroupVersion kind) = true)
    provider_kinds /\
  Recognizes scheme GPUBenchmarkJobGroupVersionKind = true /\
  wp (provider_main args) (all_or_exit (provider_calls scheme)) /\
  (opt_HealthProbeBindAddress provider_options = ":8081" /\
   opt_LeaderElection provider_options = true).
Proof using All.
  intros Hc Ha.
  set (jobs := ["GPUBenchmarkJob"; "GPUBenchmarkJobList"]).
  set (configs := ["ProviderConfig"; "ProviderConfigList"]).
  set (usages := ["ProviderConfigUsage"; "ProviderConfigUsageList"]).
  assert (Hr : forall ts kind, ts ∈ [jobs; configs; usages] -> kind ∈ ts ->
    Recognizes scheme (MkGVK provider_GroupVersion kind) = true).
  { intros ts kind. by apply (AddToScheme_registers _ [jobs; configs; usages] s). }
  split.
  { change provider_kinds with (jobs ++ configs ++ usages). apply Forall_forall.
    intros kind. rewrite !elem_of_app. intros [|[|]]; eapply Hr; try done; set_solver. }
  split; [apply (Hr jobs); set_solver|]. split; [|done].
  by apply (provider_main_wp s).
Qed.
End Provider.

(** ** Witnesses *)

Definition demo_scheme (b : Builder) : Scheme :=
  [MkGVK (MkGroupVersion "" "v1") "Event"] ++ (MkGVK b.1 <$> b.2).

Lemma operator_main_all_or_exit_witness :
  let scheme := demo_scheme operator_SchemeBuilder in
  Forall (fun kind => Recognizes scheme (MkGVK operator_GroupVersion kind) = true)
    ["BenchmarkJob"; "BenchmarkJobList"] /\
  wp (operator_main [StringVar "kubeconfig" (fun _ v => v)] "" (chart_args 9000 9001 true))
    (all_or_exit (operator_calls scheme (MkVars ":9000" ":9001" true))) /\
  wp (operator_main [StringVar "kubeconfig" (fun _ v => v)] "" (operator_args "0" "[::1]:9" true))
    (all_or_exit (operator_calls scheme (MkVars "0" "[::1]:9" true))).
Proof.
  destruct (operator_main_all_or_exit (Lib := scheme_lib) [StringVar "kubeconfig" (fun _ v => v)] ""
    _ _ (chart_args 9000 9001 true) eq_refl eq_refl) as (H1 & H2 & H3 & _).
  - apply (bool_decide_unpack _). vm_compute. exact I.
  - split; [exact H1|]. split; [exact H2|exact (H3 "0" "[::1]:9" true)].
Defined.

Lemma provider_main_all_or_exit_witness :
  let scheme := demo_scheme provider_SchemeBuilder in
  wp (provider_main (chart_args 9000 9001 false)) (all_or_exit (provider_calls scheme)).
Proof.
  apply (provider_main_all_or_exit (Lib := scheme_lib) _ _ (chart_args 9000 9001 false) eq_refl eq_refl).
Defined.

(** The sizing function serves only when it listens; either failure ends it
    with status 1. *)
Lemma sizing_main_all_or_exit is_print overflow :
  let ev o e := Ev (S := server_sig function_runner) o e in
  wp (sizing_main is_print overflow) (fun tr out =>
    (exists e, tr = [ev (Listen "tcp" ":9443") (Some e)] /\ out = Done 1%Z) \/
    (exists e, tr = [ev (Listen "tcp" ":9443") None;
                     ev (Serve (Sizing.RunFunction is_print overflow)) e] /\
               out = Done (if failed e then 1%Z else 0%Z))).
Proof. intros ev [e|]; cbn; [left; by exists e|]. intros [e|]; right; by eexists. Qed.
