(* ===== verification/SizingTheorems.v ===== *)
(** * Theorems on the sizing function

    The floating-point estimate against integer arithmetic on every input the
    XRD admits, and the function end to end: rejection, annotations written
    in place, annotations lost. *)
From S2P Require Import Sizing.

(** ** Integer specification *)

(** Runtime in seconds and peak throughput, per GPU. *)
Definition sizing_spec : list (string * (Z * Z)) :=
  [("T4", (120, 400)); ("V100", (90, 900)); ("A100", (60, 2000)); ("H100", (30, 3500));
   ("L40S", (45, 1800)); ("RTX4090", (75, 1200))].

Definition workload_factor (workload : string) : Z :=
  if bool_decide (workload = "training") then 3 else 1.

(** The estimate in integers: the batch factor is in 256ths. *)
Definition estimate_spec (runtime : Z) (workload : string) (batch : Z) : Z :=
  runtime * workload_factor workload * (256 + Z.max 0 (batch - 64)) / 256.

Definition workloads : list string := ["inference"; "training"].

(** ** The check of every admitted input *)

Section Exhaustive.
Variable overflow : float64 -> Z.

Definition exact_at (gpu workload : string) (runtime batch : Z) : bool :=
  match tierTable !! gpu with
  | Some tier => estimatedSec overflow tier workload batch =? estimate_spec runtime workload batch
  | None => false
  end &&
  (int_of_float overflow (float_of_int batch) =? batch).

Definition all_exact : bool :=
  forallb (fun g => forallb (fun w => forallb (exact_at (fst g) w (fst (snd g)))
    (seqZ 1 1024)) workloads) sizing_spec.

Lemma all_exact_true : all_exact = true.
Proof. vm_compute. reflexivity. Qed.

Lemma exact_all gpu runtime peak workload batch :
  In (gpu, (runtime, peak)) sizing_spec -> In workload workloads -> 1 <= batch <= 1024 ->
  exact_at gpu workload runtime batch = true.
Proof.
  intros Hg Hw Hb. pose proof all_exact_true as H. unfold all_exact in H.
  rewrite forallb_forall in H. specialize (H _ Hg). cbn [fst snd] in H.
  rewrite forallb_forall in H. specialize (H _ Hw). rewrite forallb_forall in H. apply H.
  apply list_elem_of_In, elem_of_seqZ. lia.
Qed.
End Exhaustive.

(** The table of the source, read as the specification's. *)
Lemma tier_lookup gpu :
  match tierTable !! gpu with
  | Some tier => exists runtime peak, In (gpu, (runtime, peak)) sizing_spec /\
      estimatedRuntimeSec tier = runtime /\ fmt_f0 (peakThroughput tier) = fmt_d peak
  | None => gpu ∉ sizing_spec.*1
  end.
Proof.
  destruct (tierTable !! gpu) as [tier|] eqn:E.
  - apply elem_of_list_to_map_2 in E. rewrite list_elem_of_In in E.
    repeat destruct E as [E|E]; try done; injection E as <- <-;
      eexists _, _; (split; [cbn; tauto|]); by split; vm_compute.
  - by apply not_elem_of_list_to_map in E.
Qed.

Lemma workload_lookup w :
  default false (validWorkloads !! w) = true <-> w ∈ workloads.
Proof.
  unfold workloads. rewrite !elem_of_cons, elem_of_nil. split.
  - unfold validWorkloads. cbn [list_to_map foldr fst snd].
    rewrite !lookup_insert, lookup_empty. repeat case_decide; subst; auto; try (cbn; intros; discriminate).
  - intros [-> |[-> |[]]]; vm_compute; reflexivity.
Qed.

Lemma annotate_lookups m est tier cc :
  annotate m est tier cc !! key_runtime = Some (fmt_d est) /\
  annotate m est tier cc !! key_throughput = Some (fmt_f0 (peakThroughput tier)) /\
  annotate m est tier cc !! key_cost_center = Some cc /\
  (forall k, k ∉ [key_runtime; key_throughput; key_cost_center] ->
     annotate m est tier cc !! k = m !! k).
Proof.
  unfold annotate. split_and!.
  - rewrite !lookup_insert_ne by done. apply lookup_insert_eq.
  - rewrite lookup_insert_ne by done. apply lookup_insert_eq.
  - apply lookup_insert_eq.
  - intros k Hk. rewrite !lookup_insert_ne; set_solver.
Qed.

(** ** The estimate *)

(** C28. The float64 estimate is exact: for every GPU of the table, workload
    and batch size the XRD admits (1 to 1024), the conversion of the batch
    size and the truncated product of the three factors give exactly the
    integer floor of runtime * factor * (256 + excess over 64) / 256; no
    rounding and no overflow, whatever the compiler does on overflow. *)
Theorem Estimate_exact (overflow : float64 -> Z) (gpu workload : string)
    (tier : gpuBenchmarkTier) (batch : Z) :
  tierTable !! gpu = Some tier -> validWorkloads !! workload = Some true -> 1 <= batch <= 1024 ->
  int_of_float overflow (float_of_int batch) = batch /\
  estimatedSec overflow tier workload batch =
    estimate_spec (estimatedRuntimeSec tier) workload batch.
Proof.
  intros Ht Hw Hb. pose proof (tier_lookup gpu) as Hl. rewrite Ht in Hl.
  destruct Hl as (rt & pk & Hin & Hrt & _).
  assert (In workload workloads) as Hw'.
  { apply list_elem_of_In, workload_lookup. by rewrite Hw. }
  pose proof (exact_all overflow gpu rt pk workload batch Hin Hw' Hb) as E.
  unfold exact_at in E. rewrite Ht in E. apply andb_prop in E as [E1%Z.eqb_eq E2%Z.eqb_eq].
  by rewrite E1, Hrt.
Qed.

Lemma Estimate_exact_witness :
  estimatedSec (fun _ => 0) (MkTier 120 (float_of_int 400) (float_of_int 300)) "training" 1000 = 1676.
Proof.
  refine (eq_trans (proj2 (Estimate_exact (fun _ => 0) "T4" "training" _ 1000 _ _ _)) _);
    first [vm_compute; reflexivity|lia].
Defined.

(** C29. The estimate is between 30 and 1710 seconds, grows with the batch
    size, and training takes three times the estimate of inference, up to two
    seconds that the truncation loses. *)
Theorem Estimate_bounds (overflow : float64 -> Z) (gpu workload : string)
    (tier : gpuBenchmarkTier) (b1 b2 : Z) :
  tierTable !! gpu = Some tier -> validWorkloads !! workload = Some true ->
  1 <= b1 <= b2 -> b2 <= 1024 ->
  let est := estimatedSec overflow tier in
  30 <= est workload b1 <= est workload b2 /\ est workload b2 <= 1710 /\
  3 * est "inference" b1 <= est "training" b1 <= 3 * est "inference" b1 + 2.
Proof.
  intros Ht Hw Hb1 Hb2 est. unfold est.
  rewrite (proj2 (Estimate_exact overflow gpu workload tier b1 Ht Hw ltac:(lia))).
  rewrite (proj2 (Estimate_exact overflow gpu workload tier b2 Ht Hw ltac:(lia))).
  rewrite (proj2 (Estimate_exact overflow gpu "inference" tier b1 Ht eq_refl ltac:(lia))).
  rewrite (proj2 (Estimate_exact overflow gpu "training" tier b1 Ht eq_refl ltac:(lia))).
  pose proof (tier_lookup gpu) as Hl. rewrite Ht in Hl. destruct Hl as (rt & pk & Hin & -> & _).
  assert (30 <= rt <= 120) as Hrt
    by (cbn in Hin; repeat destruct Hin as [Hin|Hin]; try done; injection Hin as _ <- _; lia).
  unfold estimate_spec. change (workload_factor "inference") with 1.
  change (workload_factor "training") with 3.
  assert (1 <= workload_factor workload <= 3) as Hf by (unfold workload_factor; case_match; lia).
  revert Hf. generalize (workload_factor workload). intros f Hf.
  split_and!; [apply Z.div_le_lower_bound; nia|apply Z.div_le_mono; nia|
    apply Z.div_le_upper_bound; nia|..];
    replace (rt * 3 * (256 + Z.max 0 (b1 - 64))) with (3 * (rt * 1 * (256 + Z.max 0 (b1 - 64))))
      by ring; generalize (rt * 1 * (256 + Z.max 0 (b1 - 64))); intros Y;
    Z.to_euclidean_division_equations; lia.
Qed.

Lemma Estimate_bounds_witness :
  30 <= estimatedSec (fun _ => 0) (MkTier 30 (float_of_int 3500) (float_of_int 3350)) "inference" 64.
Proof.
  apply (Estimate_bounds (fun _ => 0) "H100" "inference" _ 64 128);
    first [vm_compute; reflexivity|lia].
Defined.

(** ** The function *)

Section EndToEnd.
Variable is_print : Z -> bool.
Variable overflow : float64 -> Z.

Lemma RunFunction_valid req heap rt pk :
  let f := spec_fields (Observed req) in
  In (strField f "gpuModel" "", (rt, pk)) sizing_spec ->
  strField f "workloadType" "" ∈ workloads ->
  exists tier, estimatedRuntimeSec tier = rt /\ fmt_f0 (peakThroughput tier) = fmt_d pk /\
  tierTable !! strField f "gpuModel" "" = Some tier /\
  let b := int_of_float overflow (numField f "batchSize" (float_of_int 32)) in
  let est := estimatedSec overflow tier (strField f "workloadType" "") b in
  let l := default (fresh (dom heap)) (state_annotations (Observed req)) in
  RunFunction is_print overflow req heap =
  (<[l := annotate (default ∅ (heap !! l)) est tier (strField f "costCenter" "CC-0000")]> heap,
   MkRunResponse (Observed req)
     [MkFnResult SEVERITY_NORMAL
        ("benchmark sizing: " +:+ strField f "gpuModel" "" +:+ "/" +:+
         strField f "workloadType" "" +:+ " batch=" +:+ fmt_d b +:+ " est=" +:+ fmt_d est +:+ "s")]).
Proof using.
  intros f Hg Hw. pose proof (tier_lookup (strField f "gpuModel" "")) as Hl.
  apply workload_lookup in Hw. unfold RunFunction. fold f.
  destruct (tierTable !! strField f "gpuModel" "") as [tier|].
  - destruct Hl as (rt' & pk' & Hin & E1 & E2). exists tier. rewrite Hw. cbn [negb].
    assert ((rt', pk') = (rt, pk)) as [= -> ->].
    { assert (NoDup (sizing_spec.*1)) as Hnd by (apply (bool_decide_unpack _); vm_compute; exact I).
      rewrite <- list_elem_of_In in Hin, Hg.
      apply (elem_of_list_to_map_1 (M := gmap string) _ _ _ Hnd) in Hin, Hg. congruence. }
    split_and!; [done..|]. cbn zeta. cbn [Desired].
    by destruct (state_annotations (Observed req)).
  - exfalso. apply Hl, list_elem_of_fmap. eexists (_, _). by rewrite list_elem_of_In.
Qed.
End EndToEnd.

(** The function fails, with one fatal result and no desired state,
    exactly when the GPU or the workload is not in the tables (a missing or
    non-string field is the empty string); the message quotes the offending
    value, the GPU first, and no annotation changes. *)
Theorem RunFunction_rejects (is_print : Z -> bool) (overflow : float64 -> Z)
    (req : RunFunctionRequest) (heap : annotation_heap) :
  let f := spec_fields (Observed req) in
  let gpu := strField f "gpuModel" "" in
  let workload := strField f "workloadType" "" in
  let '(heap', resp) := RunFunction is_print overflow req heap in
  let fatal msg := heap' = heap /\ resp = MkRunResponse None [MkFnResult SEVERITY_FATAL msg] in
  (gpu ∉ ["T4"; "V100"; "A100"; "H100"; "L40S"; "RTX4090"] ->
     fatal ("unsupported gpuModel " +:+ fmt_q is_print gpu +:+
            "; allowed: T4, V100, A100, H100, L40S, RTX4090")) /\
  (gpu ∈ ["T4"; "V100"; "A100"; "H100"; "L40S"; "RTX4090"] ->
   workload ∉ ["inference"; "training"] ->
     fatal ("unsupported workloadType " +:+ fmt_q is_print workload +:+
            "; allowed: inference, training")) /\
  (gpu ∈ ["T4"; "V100"; "A100"; "H100"; "L40S"; "RTX4090"] ->
   workload ∈ ["inference"; "training"] ->
     Desired resp = Observed req /\ exists msg, Results resp = [MkFnResult SEVERITY_NORMAL msg]).
Proof.
  intros f gpu workload. change ["T4"; "V100"; "A100"; "H100"; "L40S"; "RTX4090"] with (sizing_spec.*1).
  destruct (RunFunction _ _ _ _) as [heap' resp] eqn:E.
  pose proof (tier_lookup gpu) as Hl. pose proof (workload_lookup workload) as Hw.
  unfold workloads in Hw. unfold RunFunction in E. fold f in E. fold gpu workload in E.
  destruct (tierTable !! gpu) as [tier|].
  - destruct Hl as (rt & pk & Hin & _).
    assert (gpu ∈ sizing_spec.*1) as Hg.
    { apply list_elem_of_fmap. exists (gpu, (rt, pk)). by rewrite list_elem_of_In. }
    destruct (default false (validWorkloads !! workload)) eqn:Ev; cbn [negb] in E;
      injection E as <- <-.
    + split_and!; [done|intros _ Hn; by destruct Hn; apply Hw|eauto].
    + split_and!; [done|done|intros _ Hn%Hw; congruence].
  - injection E as <- <-. split_and!; [done|done|done].
Qed.

(** The request of an XR with these fields and these annotations. *)
Definition xr_request (fields : list (string * value)) (annotations : option loc) :
    RunFunctionRequest :=
  MkRunRequest (Some (MkState (Some (MkComposite (Some (MkResource
    (Some (MkMetadata "xr" annotations)) (Some (MkStruct (list_to_map fields))))))))).

(** C30. On a request the XRD admits whose composite has annotations, the
    function writes the three sizing annotations into that very map, in place
    and keeping the others: the estimate in decimal, the peak throughput
    without decimals and the cost center.  The desired state is the observed
    message itself, so the observed state of the request changes with it. *)
Theorem RunFunction_annotates (is_print : Z -> bool) (overflow : float64 -> Z)
    (req : RunFunctionRequest) (heap : annotation_heap) (l : loc) (m : gmap string string)
    (gpu workload cost : string) (rt pk batch : Z) :
  let f := spec_fields (Observed req) in
  f !! "gpuModel" = Some (VString gpu) -> f !! "workloadType" = Some (VString workload) ->
  f !! "batchSize" = Some (VNumber (float_of_int batch)) ->
  f !! "costCenter" = Some (VString cost) ->
  In (gpu, (rt, pk)) sizing_spec -> workload ∈ workloads -> 1 <= batch <= 1024 ->
  state_annotations (Observed req) = Some l -> heap !! l = Some m ->
  let '(heap', resp) := RunFunction is_print overflow req heap in
  Desired resp = Observed req /\
  Results resp = [MkFnResult SEVERITY_NORMAL
    ("benchmark sizing: " +:+ gpu +:+ "/" +:+ workload +:+ " batch=" +:+ fmt_d batch +:+
     " est=" +:+ fmt_d (estimate_spec rt workload batch) +:+ "s")] /\
  (forall l', l' <> l -> heap' !! l' = heap !! l') /\
  exists m', heap' !! l = Some m' /\
    m' !! "platform.gpu-platform.io/estimated-runtime-sec" =
      Some (fmt_d (estimate_spec rt workload batch)) /\
    m' !! "platform.gpu-platform.io/peak-throughput" = Some (fmt_d pk) /\
    m' !! "platform.gpu-platform.io/cost-center" = Some cost /\
    (forall k, k ∉ [key_runtime; key_throughput; key_cost_center] -> m' !! k = m !! k).
Proof.
  intros f Fg Fw Fb Fc Hin Hw Hb Hann Hm.
  assert (strField f "gpuModel" "" = gpu) as Eg by (unfold strField; by rewrite Fg).
  assert (strField f "workloadType" "" = workload) as Ew by (unfold strField; by rewrite Fw).
  destruct (RunFunction_valid is_print overflow req heap rt pk) as (tier & Hrt & Hpk & Ht & ->);
    fold f; rewrite ?Eg, ?Ew; try done.
  fold f in Ht |- *. rewrite ?Eg in Ht.
  replace (numField f "batchSize" (float_of_int 32)) with (float_of_int batch)
    by (unfold numField; by rewrite Fb).
  replace (strField f "costCenter" "CC-0000") with cost by (unfold strField; by rewrite Fc).
  assert (validWorkloads !! workload = Some true) as Hv.
  { apply workload_lookup in Hw. by destruct (validWorkloads !! workload) as [[]|]. }
  pose proof (exact_all overflow gpu rt pk workload batch Hin ltac:(by apply list_elem_of_In) Hb) as E.
  unfold exact_at in E. rewrite Ht in E. apply andb_prop in E as [E1%Z.eqb_eq E2%Z.eqb_eq].
  rewrite E2, E1, Hann. cbn [from_option id Desired Results]. rewrite Hm. cbn [from_option id].
  destruct (annotate_lookups m (estimate_spec rt workload batch) tier cost) as (A1 & A2 & A3 & A4).
  rewrite Hpk in A2. split_and!; [done|done|intros l' Hl'; by apply lookup_insert_ne|].
  eexists. rewrite lookup_insert_eq. split_and!; [reflexivity|done..].
Qed.

Lemma RunFunction_annotates_witness :
  let req := xr_request [("gpuModel", VString "T4"); ("workloadType", VString "training");
               ("batchSize", VNumber (float_of_int 1024)); ("costCenter", VString "CC-1")] (Some 0%nat) in
  let '(heap', resp) := RunFunction (fun _ => false) (fun _ => 0) req {[0%nat := {["a" := "b"]}]} in
  Desired resp = Observed req /\
  exists m', heap' !! 0%nat = Some m' /\
    m' !! "platform.gpu-platform.io/estimated-runtime-sec" = Some "1710" /\
    m' !! "platform.gpu-platform.io/peak-throughput" = Some "400".
Proof.
  intros req.
  pose proof (RunFunction_annotates (fun _ => false) (fun _ => 0) req {[0%nat := {["a" := "b"]}]}
    0%nat {["a" := "b"]} "T4" "training" "CC-1" 120 400 1024) as H.
  destruct (RunFunction _ _ _ _) as [heap' resp].
  destruct H as (H1 & _ & _ & m' & H2 & H3 & H4 & _);
    [vm_compute; reflexivity|vm_compute; reflexivity|vm_compute; reflexivity|vm_compute; reflexivity|
     cbn; auto|right; left|lia|reflexivity|reflexivity|].
  split; [exact H1|]. exists m'. split_and!; [exact H2|exact H3|exact H4].
Defined.

(** C31. On a composite without annotations the sizing is lost: the three
    values go into a new map that neither the desired nor the observed state
    refers to, and every map that existed is unchanged. *)
Theorem RunFunction_loses_annotations (is_print : Z -> bool) (overflow : float64 -> Z)
    (req : RunFunctionRequest) (heap : annotation_heap) :
  state_annotations (Observed req) = None ->
  let '(heap', resp) := RunFunction is_print overflow req heap in
  state_annotations (Desired resp) = None /\ heap ⊆ heap'.
Proof.
  intros Hann. unfold RunFunction. cbn zeta.
  destruct (tierTable !! _) as [tier|]; [|done].
  destruct (negb _); [done|]. cbn [Desired]. rewrite Hann. split; [done|].
  apply insert_subseteq, not_elem_of_dom, is_fresh.
Qed.

Lemma RunFunction_loses_annotations_witness :
  let req := xr_request [("gpuModel", VString "T4"); ("workloadType", VString "training")] None in
  let '(heap', resp) := RunFunction (fun _ => false) (fun _ => 0) req ∅ in
  state_annotations (Desired resp) = None.
Proof.
  intros req.
  pose proof (RunFunction_loses_annotations (fun _ => false) (fun _ => 0) req ∅ eq_refl) as H.
  destruct (RunFunction _ _ _ _) as [heap' resp]. exact (proj1 H).
Defined.

(** The pipeline may run the function again: on a composite with
    annotations a second run over the first one's heap changes nothing and
    answers the same. *)
Theorem RunFunction_idempotent (is_print : Z -> bool) (overflow : float64 -> Z)
    (req : RunFunctionRequest) (heap : annotation_heap) (l : loc) :
  state_annotations (Observed req) = Some l ->
  let r := RunFunction is_print overflow req heap in
  RunFunction is_print overflow req (fst r) = r.
Proof.
  intros Hann. unfold RunFunction. cbn zeta.
  destruct (tierTable !! _) as [tier|]; [|done].
  destruct (negb _); [done|]. cbn [Desired fst]. rewrite Hann, lookup_insert_eq, insert_insert_eq.
  cbn [default from_option id]. do 2 f_equal. unfold annotate. apply map_eq. intros k.
  destruct (decide (k = key_cost_center)) as [->|H1]; [by rewrite !lookup_insert_eq|].
  rewrite !(lookup_insert_ne _ key_cost_center) by done.
  destruct (decide (k = key_throughput)) as [->|H2]; [by rewrite !lookup_insert_eq|].
  rewrite !(lookup_insert_ne _ key_throughput) by done.
  destruct (decide (k = key_runtime)) as [->|H3]; [by rewrite !lookup_insert_eq|].
  by rewrite !(lookup_insert_ne _ key_runtime), !(lookup_insert_ne _ key_cost_center),
    !(lookup_insert_ne _ key_throughput), (lookup_insert_ne _ key_runtime) by done.
Qed.

Lemma RunFunction_idempotent_witness :
  let req := xr_request [("gpuModel", VString "T4"); ("workloadType", VString "training")]
               (Some 0%nat) in
  let r := RunFunction (fun _ => false) (fun _ => 0) req ∅ in
  RunFunction (fun _ => false) (fun _ => 0) req (fst r) = r.
Proof.
  intros req. exact (RunFunction_idempotent (fun _ => false) (fun _ => 0) req ∅ 0%nat eq_refl).
Defined.
