(* ===== verification/Backend.v ===== *)
(** * The benchmark backend

    [backend/app]: the tables of [models.py], [benchmark_service.py],
    [queue_service.py], the routes of [api/benchmarks.py] and the worker of
    [workers/benchmark_worker.py].  A request is one transition of the
    backend; the awaits of [create_benchmark] between the reads and the commit
    are where other sessions may act, and are an argument.  FastAPI, pydantic,
    the UUID generator and the rendering of JSON are the operations of a
    class. *)
From S2P Require Export Http.

(** ** Tables *)

Inductive BenchmarkStatus : Type := queued | running | completed | failed.

#[export] Instance BenchmarkStatus_eq_dec : EqDecision BenchmarkStatus.
Proof. solve_decision. Defined.

Definition status_value (s : BenchmarkStatus) : string :=
  match s with
  | queued => "queued"
  | running => "running"
  | completed => "completed"
  | failed => "failed"
  end.

(** A row of [benchmarks]; its id is the key of the map. *)
Record Benchmark : Type := MkBenchmark {
  gpu_model_id : string;
  workload_type : string;
  batch_size : Z;
  status : BenchmarkStatus;
  row_key : string;
  attempt_count : Z;
  created_at : string;
  updated_at : string
}.

(** An update of the row; [updated_at] follows the clock of the database. *)
Definition set_row_status (r : Benchmark) (s : BenchmarkStatus) (attempts : Z) (now : string) :
    Benchmark :=
  MkBenchmark (gpu_model_id r) (workload_type r) (batch_size r) s (row_key r) attempts
    (created_at r) now.

Record EngineResult : Type := MkEngine {
  throughput : float64;
  latency_ms : float64;
  memory_bandwidth_gbps : float64
}.

(** A row of [benchmark_results]: the measurement and its raw metrics. *)
Record BenchmarkResult : Type := MkResultRow {
  res_metrics : EngineResult;
  res_engine : string;
  res_workload : string;
  res_attempt : Z
}.

(** The message in the queue. *)
Record job_message : Type := MkMessage {
  msg_id : string;
  msg_gpu : string;
  msg_workload : string;
  msg_batch : Z;
  msg_attempt : Z
}.

Record backend : Type := MkBackend {
  rows : gmap string Benchmark;
  gpu_models : gmap string string;
  results : gmap string BenchmarkResult;
  queue : list job_message;
  dlq : list (job_message * string);
  next_uuid : nat;
  redis_up : bool
}.

Record BenchmarkCreateRequest : Type := MkCreate {
  req_gpu_model : string;
  req_workload_type : string;
  req_batch_size : Z;
  req_idempotency_key : option string
}.

(** ** Paths *)

(** A path parameter: one segment, spelled without escapes, query or fragment. *)
Definition path_segment (s : string) : bool :=
  negb (bool_decide (s = "")) && negb (has_byte 47 s) && negb (has_byte 63 s) &&
  negb (has_byte 35 s) && negb (has_byte 37 s).

(** The methods of the routes a path matches: [/] of [api/health.py], and
    [/benchmarks], [/benchmarks/{job_id}] and [/benchmarks/gpu/{gpu_model}] of
    [api/benchmarks.py]. *)
Definition path_methods (path : string) : list string :=
  (if bool_decide (path = "/") then [MethodGet] else []) ++
  (if bool_decide (path = "/benchmarks") then [MethodPost] else []) ++
  match strip_prefix "/benchmarks/" path with
  | Some seg =>
      (if path_segment seg then [MethodGet] else []) ++
      match strip_prefix "gpu/" seg with
      | Some gpu => if path_segment gpu then [MethodGet] else []
      | None => []
      end
  | None => []
  end.

(** ** What the service gets from its libraries *)

Class WebStack : Type := {
  uuid4 : nat -> string;
  parse_uuid : string -> option string;
  server_now : backend -> string;
  sha256_hex : string -> string;
  validate : json -> option BenchmarkCreateRequest;
  render : json -> string;
  float_repr : float64 -> string;
  framework : option string -> Request -> Response
}.

(** Documented behaviour: generated UUIDs are distinct, parse to themselves
    are a path parameter; pydantic accepts the well-typed body exactly when the
    batch size is positive and the key has at most 128 characters; the JSON
    written for a value reads back as that value, up to what is not valid
    UTF-8; a request whose path matches routes, but none of its method, is
    answered 405.  Any other request that has no route here - the path is the
    first argument, if the URL is one of the service - may be answered in any
    way. *)
Class WebStackLaws `{WebStack} : Prop := {
  uuid4_inj :: Inj (=) (=) uuid4;
  parse_uuid4 n : parse_uuid (uuid4 n) = Some (uuid4 n);
  uuid4_segment n : path_segment (uuid4 n) = true;
  uuid4_ascii n : sanitize (uuid4 n) = uuid4 n;
  validate_body g w b k :
    validate (JObject [("batch_size", JNumber (fmt_d b)); ("gpu_model", JString g);
                       ("idempotency_key", JString k); ("workload_type", JString w)]) =
    if (0 <? b) && (length (runes k) <=? 128)%nat then Some (MkCreate g w b (Some k)) else None;
  render_reads j :
    json_ok j -> (json_depth j <= 10)%nat -> parse_json (render j) = Some (json_sanitize j);
  server_now_ascii b : sanitize (server_now b) = server_now b;
  framework_method path q :
    path_methods path <> [] -> Method q ∉ path_methods path ->
    StatusCode (framework (Some path) q) = 405
}.

Section Backend.
Context `{WebStack}.

(** ** [benchmark_service.py] *)

(** [_find_by_idempotency_key]. *)
Definition find_by_key (b : backend) (key : string) : option (string * Benchmark) :=
  snd <$> list_find (fun p => row_key (snd p) = key) (map_to_list (rows b)).

(** [_build_idempotency_key]. *)
Definition build_idempotency_key (p : BenchmarkCreateRequest) : string :=
  sha256_hex (req_gpu_model p +:+ ":" +:+ req_workload_type p +:+ ":" +:+
              fmt_d (req_batch_size p)).

Definition request_key (p : BenchmarkCreateRequest) : string :=
  match req_idempotency_key p with
  | Some k => if bool_decide (k = "") then build_idempotency_key p else k
  | None => build_idempotency_key p
  end.

(** What the columns of [models.py] hold: a [String(n)] at most [n]
    characters, an [Integer] 32 bits, and no text a NUL, which a query cannot
    carry either. *)
Definition fits_string (n : nat) (s : string) : bool :=
  (length (runes s) <=? n)%nat && negb (has_byte 0 s).
Definition fits_integer (z : Z) : bool := in_range (-2147483648) 2147483647 z.

Definition fits_row (p : BenchmarkCreateRequest) : bool :=
  fits_string 64 (req_workload_type p) && fits_integer (req_batch_size p) &&
  fits_string 128 (request_key p).

(** [create_benchmark]: [between] is what other sessions commit after this
    one has read the key and the GPU model and before it flushes.  The result
    is the row and whether it was created.  [None] is an exception that is not
    caught, which rolls the session back: a value the database refuses, or the
    unique index on the GPU model's name, which [flush] runs into outside the
    [try]. *)
Definition create_benchmark (between : backend -> backend) (p : BenchmarkCreateRequest)
    (b : backend) : backend * option (string * Benchmark * bool) :=
  let key := request_key p in
  if has_byte 0 key then (b, None) else
  match find_by_key b key with
  | Some (id, r) => (b, Some (id, r, false))
  | None =>
      if has_byte 0 (req_gpu_model p) then (b, None) else
      let known := gpu_models b !! req_gpu_model p in
      let b1 := between b in
      let n := next_uuid b1 in
      let gpu : option (string * nat * gmap string string) :=
        match known with
        | Some g => Some (g, n, gpu_models b1)
        | None =>
            if negb (fits_string 64 (req_gpu_model p)) then None else
            match gpu_models b1 !! req_gpu_model p with
            | Some _ => None
            | None => Some (uuid4 n, S n, <[req_gpu_model p := uuid4 n]> (gpu_models b1))
            end
        end in
      match gpu with
      | None => (b1, None)
      | Some (g, n, gpus) =>
          if negb (fits_row p) then (b1, None) else
          match find_by_key b1 key with
          | Some (id, r) =>
              (MkBackend (rows b1) (gpu_models b1) (results b1) (queue b1) (dlq b1) (S n)
                 (redis_up b1), Some (id, r, false))
          | None =>
              let row := MkBenchmark g (req_workload_type p) (req_batch_size p) queued key 0
                           (server_now b1) (server_now b1) in
              (MkBackend (<[uuid4 n := row]> (rows b1)) gpus (results b1) (queue b1) (dlq b1)
                 (S n) (redis_up b1), Some (uuid4 n, row, true))
          end
      end
  end.

(** The requests that meet no exception when no other session interferes. *)
Definition storable (p : BenchmarkCreateRequest) : bool :=
  fits_string 64 (req_gpu_model p) && fits_row p.

Definition set_rows (b : backend) (rs : gmap string Benchmark) : backend :=
  MkBackend rs (gpu_models b) (results b) (queue b) (dlq b) (next_uuid b) (redis_up b).

Definition set_queues (b : backend) (q : list job_message) (d : list (job_message * string)) :
    backend :=
  MkBackend (rows b) (gpu_models b) (results b) q d (next_uuid b) (redis_up b).

(** [mark_running]. *)
Definition mark_running (id : string) (b : backend) : backend :=
  match rows b !! id with
  | None => b
  | Some r =>
      set_rows b (<[id := set_row_status r running (attempt_count r + 1) (server_now b)]> (rows b))
  end.

(** [complete_benchmark]; [None] is the exception of the unique index on the
    benchmark of a result. *)
Definition complete_benchmark (id : string) (res : BenchmarkResult) (b : backend) :
    option backend :=
  match rows b !! id with
  | None => Some b
  | Some r =>
      match results b !! id with
      | Some _ => None
      | None =>
          Some (MkBackend
            (<[id := set_row_status r completed (attempt_count r) (server_now b)]> (rows b))
            (gpu_models b) (<[id := res]> (results b)) (queue b) (dlq b) (next_uuid b)
            (redis_up b))
      end
  end.

(** [mark_failed]. *)
Definition mark_failed (id : string) (b : backend) : backend :=
  match rows b !! id with
  | None => b
  | Some r =>
      set_rows b (<[id := set_row_status r failed (attempt_count r) (server_now b)]> (rows b))
  end.

(** ** [queue_service.py]: LPUSH and BRPOP *)

Definition enqueue (m : job_message) (b : backend) : backend :=
  set_queues b (m :: queue b) (dlq b).

Definition enqueue_retry (m : job_message) (b : backend) : backend :=
  set_queues b (MkMessage (msg_id m) (msg_gpu m) (msg_workload m) (msg_batch m) (msg_attempt m + 1)
    :: queue b) (dlq b).

Definition dequeue (b : backend) : option (job_message * backend) :=
  match rev (queue b) with
  | [] => None
  | m :: l => Some (m, set_queues b (rev l) (dlq b))
  end.

Definition move_to_dlq (m : job_message) (reason : string) (b : backend) : backend :=
  set_queues b (queue b) ((m, reason) :: dlq b).

(** ** [api/benchmarks.py] *)

Definition create_response (id : string) (r : Benchmark) : json :=
  JObject [("job_id", JString id); ("status", JString (status_value (status r)));
           ("submitted_at", JString (created_at r))].

(** [create_benchmark_job]: an exception is a 500.  The commit and the push are
    one step, in which the push may fail and leave the committed row; a crash
    between the two leaves the same state. *)
Definition create_benchmark_job (between : backend -> backend) (p : BenchmarkCreateRequest)
    (b : backend) : backend * Response :=
  match create_benchmark between p b with
  | (b1, None) => (b1, MkResponse 500 "Internal Server Error")
  | (b1, Some (id, r, created)) =>
      let answer := MkResponse StatusAccepted (render (create_response id r)) in
      if created then
        if redis_up b1 then
          (enqueue (MkMessage id (req_gpu_model p) (req_workload_type p) (req_batch_size p) 0) b1,
           answer)
        else (b1, MkResponse 500 "Internal Server Error")
      else (b1, answer)
  end.

Definition gpu_name (b : backend) (id : string) : string :=
  default "" (fst ∘ snd <$> list_find (fun p => snd p = id) (map_to_list (gpu_models b))).

Definition result_payload (r : BenchmarkResult) : json :=
  JObject [("throughput", JNumber (float_repr (throughput (res_metrics r))));
           ("latency_ms", JNumber (float_repr (latency_ms (res_metrics r))));
           ("memory_bandwidth_gbps", JNumber (float_repr (memory_bandwidth_gbps (res_metrics r))));
           ("raw_metrics", JObject [("engine", JString (res_engine r));
                                    ("workload", JString (res_workload r));
                                    ("attempt", json_int (res_attempt r))])].

(** [get_benchmark] and [get_benchmark_status]. *)
Definition status_response (b : backend) (id : string) (r : Benchmark) : json :=
  JObject [("job_id", JString id); ("gpu_model", JString (gpu_name b (gpu_model_id r)));
           ("workload_type", JString (workload_type r)); ("batch_size", json_int (batch_size r));
           ("status", JString (status_value (status r)));
           ("submitted_at", JString (created_at r)); ("updated_at", JString (updated_at r));
           ("result", match results b !! id with Some x => result_payload x | None => JNull end)].

Definition get_benchmark_status (id : string) (b : backend) : Response :=
  match rows b !! id with
  | None => MkResponse 404 (render (JObject [("detail", JString "Benchmark job not found")]))
  | Some r => MkResponse 200 (render (status_response b id r))
  end.

(** The routes of the service at [address] that the controllers use.  Everything
    else changes nothing: the history and the health check, which [History] has,
    and methods without a route. *)
Inductive route : Type := RouteCreate | RouteStatus (segment : string) | RouteOther.

Definition route_of (address : string) (q : Request) : route :=
  match strip_prefix address (URL q) with
  | None => RouteOther
  | Some path =>
      if bool_decide (Method q = MethodPost) && bool_decide (path = "/benchmarks") then RouteCreate
      else if bool_decide (Method q = MethodGet) then
        match strip_prefix "/benchmarks/" path with
        | Some seg =>
            if path_segment seg then RouteStatus seg else RouteOther
        | None => RouteOther
        end
      else RouteOther
  end.

Definition answer (address : string) (q : Request) (b : backend) : backend * Response :=
  match route_of address q with
  | RouteCreate =>
      match parse_json (ReqBody q) ≫= validate with
      | Some p => create_benchmark_job id p b
      | None => (b, MkResponse 422 "Unprocessable Entity")
      end
  | RouteStatus seg =>
      match parse_uuid seg with
      | Some id => (b, get_benchmark_status id b)
      | None => (b, MkResponse 422 "Unprocessable Entity")
      end
  | RouteOther => (b, framework (strip_prefix address (URL q)) q)
  end.

(** ** [workers/benchmark_worker.py] *)

Definition worker_max_retries : Z := 3.

(** [_process_job] after [mark_running]: the engine either measured, under its
    class name, or raised.  The exceptions of the model are those of the engine
    and the unique index on the results; the database and the queue are up. *)
Definition finish_job (m : job_message) (outcome : string + (string * EngineResult))
    (b1 : backend) : backend :=
  let done :=
    match outcome with
    | inl _ => None
    | inr (engine, e) =>
        complete_benchmark (msg_id m)
          (MkResultRow e engine (msg_workload m) (msg_attempt m + 1)) b1
    end in
  match done with
  | Some b2 => b2
  | None =>
      let reason := match outcome with inl exc => exc | inr _ => "IntegrityError" end in
      if msg_attempt m + 1 <? worker_max_retries then enqueue_retry m b1
      else mark_failed (msg_id m) (move_to_dlq m reason b1)
  end.

(** [_process_job]. *)
Definition process_job (m : job_message) (outcome : string + (string * EngineResult))
    (b : backend) : backend :=
  finish_job m outcome (mark_running (msg_id m) b).

(** One turn of [run_forever]. *)
Definition worker_turn (outcome : string + (string * EngineResult)) (b : backend) : backend :=
  match dequeue b with
  | None => b
  | Some (m, b1) => process_job m outcome b1
  end.

(** The first half of a turn, up to the engine: the message is taken and the
    row marked.  A worker that dies in the middle of a job leaves it at that. *)
Definition worker_takes (b : backend) : backend :=
  match dequeue b with
  | None => b
  | Some (m, b1) => mark_running (msg_id m) b1
  end.

(** A message some worker may be at: its row is running, and it is not in the
    queue. *)
Definition in_progress (m : job_message) (b : backend) : Prop :=
  (exists r, rows b !! msg_id m = Some r /\ status r = running) /\
  (msg_id m ∉ msg_id <$> queue b) /\ 0 <= msg_attempt m < worker_max_retries.

(** ** The backend as a transition system *)

(** The states reached from one by requests, with any such activity between
    their reads and their commit, workers - a whole turn, or its two halves
    with anything in between -, dying workers, and the queue's store going down
    and up. *)
Inductive backend_steps (b : backend) : backend -> Prop :=
| steps_refl : backend_steps b b
| steps_create between p b1 :
    backend_steps b b1 -> backend_steps b1 (between b1) ->
    backend_steps b (fst (create_benchmark_job between p b1))
| steps_worker outcome b1 : backend_steps b b1 -> backend_steps b (worker_turn outcome b1)
| steps_takes b1 : backend_steps b b1 -> backend_steps b (worker_takes b1)
| steps_finish m outcome b1 :
    backend_steps b b1 -> in_progress m b1 -> backend_steps b (finish_job m outcome b1)
| steps_redis up b1 :
    backend_steps b b1 ->
    backend_steps b (MkBackend (rows b1) (gpu_models b1) (results b1) (queue b1) (dlq b1)
                       (next_uuid b1) up).

End Backend.

Definition backend_empty : backend := MkBackend ∅ ∅ ∅ [] [] 0 true.
