(* ===== verification/BackendInvariant.v ===== *)
(** * Invariants of the backend

    The well-formedness of the tables and the queue, the order in which the
    backend's states evolve (ids and keys of rows stay, terminal rows never
    change), and that every transition keeps the one and follows the other. *)
From S2P Require Export Backend.

Section Invariant.
Context {Web : WebStack} {WebL : WebStackLaws}.

Definition terminal (s : BenchmarkStatus) : Prop := s = completed \/ s = failed.

Record backend_inv (b : backend) : Prop := {
  inv_keys id1 r1 id2 r2 :
    rows b !! id1 = Some r1 -> rows b !! id2 = Some r2 -> row_key r1 = row_key r2 -> id1 = id2;
  inv_fresh id r : rows b !! id = Some r -> exists n, id = uuid4 n /\ (n < next_uuid b)%nat;
  inv_results id :
    is_Some (results b !! id) <-> exists r, rows b !! id = Some r /\ status r = completed;
  inv_queue m : m ∈ queue b ->
    0 <= msg_attempt m < worker_max_retries /\
    exists r, rows b !! msg_id m = Some r /\ ~ terminal (status r);
  inv_messages : NoDup (msg_id <$> queue b);
  inv_created id r : rows b !! id = Some r -> sanitize (created_at r) = created_at r
}.

(** How states evolve. *)
Record later (b b' : backend) : Prop := {
  later_uuid : (next_uuid b <= next_uuid b')%nat;
  later_row id r : rows b !! id = Some r -> exists r', rows b' !! id = Some r' /\
    row_key r' = row_key r /\ (terminal (status r) -> r' = r);
  later_result id x : results b !! id = Some x -> results b' !! id = Some x
}.

#[export] Instance later_preorder : PreOrder later.
Proof.
  split.
  - intros b. constructor; [lia|eauto|auto].
  - intros b1 b2 b3 H12 H23. constructor.
    + pose proof (later_uuid _ _ H12). pose proof (later_uuid _ _ H23). lia.
    + intros id r Hr. destruct (later_row _ _ H12 id r Hr) as (r2 & Hr2 & K2 & T2).
      destruct (later_row _ _ H23 id r2 Hr2) as (r3 & Hr3 & K3 & T3).
      exists r3. split_and!; [done|congruence|]. intros Ht. specialize (T2 Ht) as ->. auto.
    + intros id x Hx. by apply (later_result _ _ H23), (later_result _ _ H12).
Qed.

(** ** Lookup by key *)

Lemma find_by_key_some b key id r :
  find_by_key b key = Some (id, r) -> rows b !! id = Some r /\ row_key r = key.
Proof.
  unfold find_by_key. intros H. apply fmap_Some in H as [[i p] [Hf Hp]]. cbn in Hp. subst p.
  apply list_find_Some in Hf as (Hl & Hk & _). split; [|exact Hk].
  apply elem_of_map_to_list. by eapply list_elem_of_lookup_2.
Qed.

Lemma find_by_key_none b key id r :
  find_by_key b key = None -> rows b !! id = Some r -> row_key r <> key.
Proof.
  unfold find_by_key. intros H Hr. apply fmap_None in H. apply list_find_None in H.
  rewrite Forall_forall in H. apply (H (id, r)). by apply elem_of_map_to_list.
Qed.

Lemma find_by_key_exact b id r :
  backend_inv b -> rows b !! id = Some r -> find_by_key b (row_key r) = Some (id, r).
Proof.
  intros Hb Hr. destruct (find_by_key b (row_key r)) as [[id' r']|] eqn:E.
  - apply find_by_key_some in E as [Hr' Hk]. pose proof (inv_keys _ Hb _ _ _ _ Hr' Hr Hk) as ->.
    congruence.
  - by destruct (find_by_key_none _ _ _ _ E Hr).
Qed.

(** ** The transitions *)

(** A change of one row that keeps its key and is not terminal before. *)
Lemma later_set_row b id r r' :
  rows b !! id = Some r -> row_key r' = row_key r -> ~ terminal (status r) ->
  later b (set_rows b (<[id := r']> (rows b))).
Proof.
  intros Hr Hk Ht. constructor; cbn; [lia| |auto]. intros id2 r2 Hr2.
  destruct (decide (id2 = id)) as [->|Hne].
  - rewrite lookup_insert_eq. assert (r2 = r) as -> by congruence. exists r'. tauto.
  - rewrite lookup_insert_ne by done. eauto.
Qed.

(** The rows' part of the invariant under such a change. *)
Lemma keys_set_row b id r r' :
  backend_inv b -> rows b !! id = Some r -> row_key r' = row_key r ->
  forall id1 r1 id2 r2,
    <[id := r']> (rows b) !! id1 = Some r1 -> <[id := r']> (rows b) !! id2 = Some r2 ->
    row_key r1 = row_key r2 -> id1 = id2.
Proof.
  intros Hb Hr Hk id1 r1 id2 r2. rewrite !lookup_insert_Some.
  intros [[<- <-]|[Hn1 H1]] [[<- <-]|[Hn2 H2]] E; [done|..];
    eapply (inv_keys _ Hb); eauto; congruence.
Qed.

Lemma fresh_set_row b id r r' :
  backend_inv b -> rows b !! id = Some r ->
  forall id1 r1, <[id := r']> (rows b) !! id1 = Some r1 ->
    exists n, id1 = uuid4 n /\ (n < next_uuid b)%nat.
Proof.
  intros Hb Hr id1 r1. rewrite lookup_insert_Some. intros [[<- <-]|[_ H1]];
    eapply (inv_fresh _ Hb); eauto.
Qed.

Lemma created_set_row b id r r' :
  backend_inv b -> rows b !! id = Some r -> created_at r' = created_at r ->
  forall id1 r1, <[id := r']> (rows b) !! id1 = Some r1 ->
    sanitize (created_at r1) = created_at r1.
Proof.
  intros Hb Hr Hc id1 r1. rewrite lookup_insert_Some. intros [[<- <-]|[_ H1]];
    [rewrite Hc|]; eapply (inv_created _ Hb); eauto.
Qed.

(** Between two live statuses. *)
Lemma inv_set_live b id r r' :
  backend_inv b -> rows b !! id = Some r -> row_key r' = row_key r ->
  created_at r' = created_at r -> ~ terminal (status r) -> ~ terminal (status r') ->
  backend_inv (set_rows b (<[id := r']> (rows b))).
Proof.
  intros Hb Hr Hk Hc Ht Ht'. constructor; cbn.
  - by eapply keys_set_row.
  - by eapply fresh_set_row.
  - intros id2. rewrite (inv_results _ Hb id2). split; intros (r2 & H2 & S2).
    + exists r2. rewrite lookup_insert_ne; [done|]. intros <-. apply Ht. left. congruence.
    + apply lookup_insert_Some in H2 as [[<- <-]|[_ H2]]; [|eauto]. destruct Ht'. by left.
  - intros m Hm. destruct (inv_queue _ Hb m Hm) as (Ha & r2 & H2 & S2). split; [done|].
    destruct (decide (msg_id m = id)) as [->|Hne].
    + rewrite lookup_insert_eq. eauto.
    + rewrite lookup_insert_ne by done. eauto.
  - apply (inv_messages _ Hb).
  - by eapply created_set_row.
Qed.

(** Taking the oldest message. *)
Lemma dequeue_some b m b1 :
  dequeue b = Some (m, b1) -> exists q, queue b = q ++ [m] /\ b1 = set_queues b q (dlq b).
Proof.
  unfold dequeue. destruct (rev (queue b)) as [|m' l] eqn:E; [done|]. intros [= <- <-].
  exists (rev l). split; [|done]. by rewrite <- (rev_involutive (queue b)), E.
Qed.

Lemma inv_dequeue b m b1 :
  backend_inv b -> dequeue b = Some (m, b1) ->
  backend_inv b1 /\ later b b1 /\
  (exists r, rows b1 !! msg_id m = Some r /\ ~ terminal (status r)) /\
  0 <= msg_attempt m < worker_max_retries /\ msg_id m ∉ (msg_id <$> queue b1).
Proof.
  intros Hb Hd. apply dequeue_some in Hd as (q & Hq & ->).
  pose proof (inv_messages _ Hb) as Hnd. rewrite Hq, fmap_app in Hnd.
  apply NoDup_app in Hnd as (Hnd & Hdis & _).
  destruct (inv_queue _ Hb m) as (Ha & r & Hr & Ht); [rewrite Hq; set_solver|].
  split; [|split; [by constructor; eauto|split; [by exists r|split; [exact Ha|]]]].
  - constructor; cbn; [apply (inv_keys _ Hb)|apply (inv_fresh _ Hb)|apply (inv_results _ Hb)| |done|
      apply (inv_created _ Hb)].
    intros m' Hm'. apply (inv_queue _ Hb). rewrite Hq. set_solver.
  - cbn. intros Hin. apply (Hdis _ Hin). cbn. set_solver.
Qed.

(** A message for a live row that has none. *)
Lemma inv_enqueue b m :
  backend_inv b -> (exists r, rows b !! msg_id m = Some r /\ ~ terminal (status r)) ->
  0 <= msg_attempt m < worker_max_retries -> msg_id m ∉ (msg_id <$> queue b) ->
  backend_inv (enqueue m b).
Proof.
  intros Hb Hr Ha Hn. constructor; cbn; [apply (inv_keys _ Hb)|apply (inv_fresh _ Hb)|
    apply (inv_results _ Hb)| | |apply (inv_created _ Hb)].
  - intros m' [->|Hm']%elem_of_cons; [done|]. by apply (inv_queue _ Hb).
  - apply NoDup_cons. split; [done|]. apply (inv_messages _ Hb).
Qed.

(** ** The worker *)

Lemma inv_mark_running b id r :
  backend_inv b -> rows b !! id = Some r -> ~ terminal (status r) ->
  backend_inv (mark_running id b) /\ later b (mark_running id b) /\
  queue (mark_running id b) = queue b /\ results (mark_running id b) = results b /\
  exists r', rows (mark_running id b) !! id = Some r' /\ status r' = running /\
    row_key r' = row_key r.
Proof.
  intros Hb Hr Ht. unfold mark_running. rewrite Hr. split_and!; try done.
  - eapply inv_set_live; eauto. by intros [|].
  - by eapply later_set_row.
  - cbn. rewrite lookup_insert_eq. by eexists.
Qed.

(** Ending a live row that has no message. *)
Lemma inv_finish b id r r' (res : option BenchmarkResult) :
  backend_inv b -> rows b !! id = Some r -> ~ terminal (status r) ->
  row_key r' = row_key r -> created_at r' = created_at r -> id ∉ (msg_id <$> queue b) ->
  status r' = match res with Some _ => completed | None => failed end ->
  let b' := MkBackend (<[id := r']> (rows b)) (gpu_models b)
              match res with Some x => <[id := x]> (results b) | None => results b end
              (queue b) (dlq b) (next_uuid b) (redis_up b) in
  backend_inv b' /\ later b b'.
Proof.
  intros Hb Hr Ht Hk Hc Hn Hs b'.
  assert (results b !! id = None) as Hnone.
  { apply eq_None_not_Some. intros Hx. apply (inv_results _ Hb) in Hx as (r2 & H2 & S2).
    apply Ht. left. congruence. }
  split; constructor; cbn; try lia.
  - by eapply keys_set_row.
  - by eapply fresh_set_row.
  - intros id2. destruct (decide (id2 = id)) as [->|Hne].
    + rewrite lookup_insert_eq. destruct res as [x|]; rewrite ?lookup_insert_eq, ?Hnone.
      * split; eauto.
      * split; [by intros []|]. intros (r2 & [= <-] & S2). congruence.
    + rewrite lookup_insert_ne by done.
      destruct res; rewrite ?lookup_insert_ne by done; apply (inv_results _ Hb).
  - intros m Hm. destruct (inv_queue _ Hb m Hm) as (Ha & r2 & H2 & S2). split; [done|].
    rewrite lookup_insert_ne; [eauto|]. intros E. apply Hn. rewrite E. apply list_elem_of_fmap. eauto.
  - apply (inv_messages _ Hb).
  - by eapply created_set_row.
  - intros id2 r2 H2. destruct (decide (id2 = id)) as [->|Hne].
    + rewrite lookup_insert_eq. assert (r2 = r) as -> by congruence. exists r'. tauto.
    + rewrite lookup_insert_ne by done. eauto.
  - intros id2 x Hx. destruct res; [|done].
    rewrite lookup_insert_ne; [done|]. intros E. congruence.
Qed.

(** The second half of a turn, on a message in progress: the exception of the
    unique index cannot occur. *)
Lemma finish_result b m r outcome :
  backend_inv b -> rows b !! msg_id m = Some r -> status r = running ->
  finish_job m outcome b =
  match outcome with
  | inr (engine, e) =>
      MkBackend
        (<[msg_id m := set_row_status r completed (attempt_count r) (server_now b)]> (rows b))
        (gpu_models b)
        (<[msg_id m := MkResultRow e engine (msg_workload m) (msg_attempt m + 1)]> (results b))
        (queue b) (dlq b) (next_uuid b) (redis_up b)
  | inl exc =>
      if msg_attempt m + 1 <? worker_max_retries then enqueue_retry m b
      else mark_failed (msg_id m) (move_to_dlq m exc b)
  end.
Proof.
  intros Hb Hr Hs. unfold finish_job. destruct outcome as [exc|[engine e]]; [done|].
  unfold complete_benchmark. rewrite Hr.
  destruct (results _ !! msg_id m) as [x|] eqn:Ex; [|done].
  destruct (proj1 (inv_results _ Hb (msg_id m)) (ex_intro _ _ Ex)) as (r3 & H3 & S3). congruence.
Qed.

Lemma inv_finish_job m outcome b :
  backend_inv b -> in_progress m b ->
  backend_inv (finish_job m outcome b) /\ later b (finish_job m outcome b).
Proof.
  intros Hb ((r & Hr & Hs) & Hn & Ha). rewrite (finish_result b m r) by done.
  assert (~ terminal (status r)) as Ht by (rewrite Hs; by intros [|]).
  destruct outcome as [exc|[engine e]].
  - destruct (Z.ltb_spec (msg_attempt m + 1) worker_max_retries).
    + split; [|constructor; eauto].
      apply (inv_enqueue _ (MkMessage (msg_id m) (msg_gpu m) (msg_workload m) (msg_batch m)
               (msg_attempt m + 1))); cbn; [done|eauto|lia|done].
    + unfold mark_failed. cbn [rows move_to_dlq set_queues]. rewrite Hr.
      destruct (inv_finish _ _ _ (set_row_status r failed (attempt_count r)
        (server_now (move_to_dlq m exc b))) None Hb Hr Ht eq_refl eq_refl Hn eq_refl)
        as [[I1 I2 I3 I4 I5 I6] [M1 M2 M3]].
      split; by constructor.
  - by apply (inv_finish _ _ _ (set_row_status r completed (attempt_count r) (server_now b))
      (Some (MkResultRow e engine (msg_workload m) (msg_attempt m + 1))) Hb Hr Ht).
Qed.

(** The first half leaves its message in progress. *)
Lemma dequeue_in_progress b m b1 :
  backend_inv b -> dequeue b = Some (m, b1) ->
  let b2 := mark_running (msg_id m) b1 in
  worker_takes b = b2 /\ backend_inv b2 /\ later b b2 /\ in_progress m b2.
Proof.
  intros Hb Hd b2. destruct (inv_dequeue _ _ _ Hb Hd) as (Hb1 & L1 & (r & Hr & Ht) & Ha & Hn).
  destruct (inv_mark_running _ _ _ Hb1 Hr Ht) as (Hb2 & L2 & Hq & _ & r2 & Hr2 & Hs2 & _).
  split_and!; [unfold worker_takes; by rewrite Hd|done|by etrans|].
  split_and!; [by exists r2|unfold b2; by rewrite Hq|lia|lia].
Qed.

(** A whole turn. *)
Lemma worker_result b m b1 outcome :
  backend_inv b -> dequeue b = Some (m, b1) ->
  exists r, rows (mark_running (msg_id m) b1) !! msg_id m = Some r /\ status r = running /\
  worker_turn outcome b =
  (let b2 := mark_running (msg_id m) b1 in
   match outcome with
   | inr (engine, e) =>
       MkBackend
         (<[msg_id m := set_row_status r completed (attempt_count r) (server_now b2)]> (rows b2))
         (gpu_models b2)
         (<[msg_id m := MkResultRow e engine (msg_workload m) (msg_attempt m + 1)]> (results b2))
         (queue b2) (dlq b2) (next_uuid b2) (redis_up b2)
   | inl exc =>
       if msg_attempt m + 1 <? worker_max_retries then enqueue_retry m b2
       else mark_failed (msg_id m) (move_to_dlq m exc b2)
   end).
Proof.
  intros Hb Hd. destruct (dequeue_in_progress _ _ _ Hb Hd) as (_ & I & _ & (r & Hr & Hs) & _).
  exists r. split_and!; [done..|]. unfold worker_turn. rewrite Hd. by apply finish_result.
Qed.

Lemma inv_worker outcome b :
  backend_inv b -> backend_inv (worker_turn outcome b) /\ later b (worker_turn outcome b).
Proof.
  intros Hb. unfold worker_turn. destruct (dequeue b) as [[m b1]|] eqn:Hd; [|done].
  destruct (dequeue_in_progress _ _ _ Hb Hd) as (_ & I & L & P).
  destruct (inv_finish_job m outcome _ I P) as [I' L']. split; [exact I'|by etrans].
Qed.

Lemma inv_takes b : backend_inv b -> backend_inv (worker_takes b) /\ later b (worker_takes b).
Proof.
  intros Hb. destruct (dequeue b) as [[m b1]|] eqn:Hd.
  - by destruct (dequeue_in_progress _ _ _ Hb Hd) as (-> & I & L & _).
  - unfold worker_takes. by rewrite Hd.
Qed.

(** ** Requests *)

Lemma fresh_uuid b n : backend_inv b -> (next_uuid b <= n)%nat -> rows b !! uuid4 n = None.
Proof.
  intros Hb Hn. apply eq_None_not_Some. intros [r Hr].
  destruct (inv_fresh _ Hb _ _ Hr) as (k & E & Hk). apply (inj uuid4) in E. lia.
Qed.

Lemma inv_more_uuids b n gpus :
  backend_inv b -> (next_uuid b <= n)%nat ->
  let b' := MkBackend (rows b) gpus (results b) (queue b) (dlq b) n (redis_up b) in
  backend_inv b' /\ later b b'.
Proof.
  intros Hb Hn b'. split; constructor; cbn; try apply Hb; eauto.
  intros id r Hr. destruct (inv_fresh _ Hb _ _ Hr) as (k & E & Hk). exists k. split; [done|lia].
Qed.

Lemma inv_insert b n gpus row :
  backend_inv b -> (next_uuid b <= n)%nat -> find_by_key b (row_key row) = None ->
  status row = queued -> sanitize (created_at row) = created_at row ->
  let b' := MkBackend (<[uuid4 n := row]> (rows b)) gpus (results b) (queue b) (dlq b) (S n)
              (redis_up b) in
  backend_inv b' /\ later b b' /\ uuid4 n ∉ (msg_id <$> queue b').
Proof.
  intros Hb Hn Hf Hq Hc b'. pose proof (fresh_uuid b n Hb Hn) as Hfresh.
  assert (uuid4 n ∉ (msg_id <$> queue b)) as Hnq.
  { intros (m & E & Hm)%list_elem_of_fmap. destruct (inv_queue _ Hb m Hm) as (_ & r & Hr & _).
    congruence. }
  split; [|split; [|done]]; constructor; cbn; try lia.
  - intros id1 r1 id2 r2. rewrite !lookup_insert_Some.
    intros [[<- <-]|[N1 H1]] [[<- <-]|[N2 H2]] E; [done|..].
    + by destruct (find_by_key_none _ _ _ _ Hf H2).
    + by destruct (find_by_key_none _ _ _ _ Hf H1).
    + by eapply (inv_keys _ Hb).
  - intros id r [[<- <-]|[_ Hr]]%lookup_insert_Some; [exists n; split; [done|lia]|].
    destruct (inv_fresh _ Hb _ _ Hr) as (k & E & Hk). exists k. split; [done|lia].
  - intros id. rewrite (inv_results _ Hb id). split; intros (r & Hr & Hs).
    + exists r. rewrite lookup_insert_ne; [done|]. intros E. congruence.
    + apply lookup_insert_Some in Hr as [[<- <-]|[_ Hr]]; [congruence|eauto].
  - intros m Hm. destruct (inv_queue _ Hb m Hm) as (Ha & r & Hr & Ht). split; [done|].
    rewrite lookup_insert_ne; [eauto|]. intros E. congruence.
  - apply (inv_messages _ Hb).
  - intros id r [[<- <-]|[_ Hr]]%lookup_insert_Some; [done|by eapply (inv_created _ Hb)].
  - intros id r Hr. rewrite lookup_insert_ne; [eauto|]. intros E. congruence.
  - auto.
Qed.

(** [create_benchmark], with the activity of other sessions in its middle. *)
Lemma inv_create between p b :
  backend_inv b -> backend_inv (between b) -> later b (between b) ->
  let '(b', answer) := create_benchmark between p b in
  backend_inv b' /\ later b b' /\
  match answer with
  | None => True
  | Some (id, r, created) =>
      rows b' !! id = Some r /\ row_key r = request_key p /\
      (created = true -> rows b !! id = None /\ status r = queued /\ id ∉ (msg_id <$> queue b'))
  end.
Proof.
  intros Hb Hb1 L. unfold create_benchmark. cbn zeta. destruct (has_byte 0 _); [done|].
  destruct (find_by_key b (request_key p)) as [[id r]|] eqn:Hf.
  { apply find_by_key_some in Hf as [Hr Hk]. by split_and!. }
  destruct (has_byte 0 _); [done|].
  set (b1 := between b) in *.
  assert (forall g n gpus, (next_uuid b1 <= n)%nat ->
    let '(b', answer) :=
      if negb (fits_row p) then (b1, None) else
      match find_by_key b1 (request_key p) with
      | Some (id, r) =>
          (MkBackend (rows b1) (gpu_models b1) (results b1) (queue b1) (dlq b1) (S n)
             (redis_up b1), Some (id, r, false))
      | None =>
          let row := MkBenchmark g (req_workload_type p) (req_batch_size p) queued (request_key p) 0
                       (server_now b1) (server_now b1) in
          (MkBackend (<[uuid4 n := row]> (rows b1)) gpus (results b1) (queue b1) (dlq b1) (S n)
             (redis_up b1), Some (uuid4 n, row, true))
      end in
    backend_inv b' /\ later b b' /\
    match answer with
    | None => True
    | Some (id, r, created) =>
        rows b' !! id = Some r /\ row_key r = request_key p /\
        (created = true -> rows b !! id = None /\ status r = queued /\ id ∉ (msg_id <$> queue b'))
    end) as Hcommit.
  { intros g n gpus Hn. destruct (negb _); [by split_and!|]. destruct (find_by_key b1 (request_key p)) as [[id r]|] eqn:Hf1.
    - apply find_by_key_some in Hf1 as [Hr Hk].
      destruct (inv_more_uuids b1 (S n) (gpu_models b1) Hb1 ltac:(lia)) as [I L1].
      split; [done|]. split; [by etrans|]. by split_and!.
    - set (row := MkBenchmark _ _ _ _ _ _ _ _).
      destruct (inv_insert b1 n gpus row Hb1 Hn Hf1 eq_refl (server_now_ascii _)) as (I & L1 & Hq).
      split; [done|]. split; [by etrans|]. cbn. rewrite lookup_insert_eq. split_and!; try done.
      intros _. split_and!; try done. apply fresh_uuid; [done|].
      pose proof (later_uuid _ _ L). lia. }
  destruct (gpu_models b !! _) as [g|]; [by apply Hcommit|].
  destruct (negb (fits_string _ _)); [by split_and!|].
  destruct (gpu_models b1 !! _) as [g|]; [by split_and!|]. apply Hcommit. lia.
Qed.

Lemma inv_request between p b :
  backend_inv b -> backend_inv (between b) -> later b (between b) ->
  let b' := fst (create_benchmark_job between p b) in backend_inv b' /\ later b b'.
Proof.
  intros Hb Hb1 L. pose proof (inv_create between p b Hb Hb1 L) as Hc.
  unfold create_benchmark_job. destruct (create_benchmark between p b) as [b' [[[id r] created]|]];
    destruct Hc as (I & L' & Hr); cbn; [|done].
  destruct Hr as (Hr & Hk & Hcr). destruct created; [|done].
  destruct (redis_up b'); [|done]. destruct (Hcr eq_refl) as (_ & Hs & Hq). cbn. split.
  - apply inv_enqueue; cbn; [done| |unfold worker_max_retries; lia|done].
    exists r. split; [done|]. rewrite Hs. by intros [|].
  - etrans; [exact L'|]. constructor; eauto.
Qed.

(** Every reachable state satisfies the invariant and is later. *)
Lemma steps_inv b b' : backend_inv b -> backend_steps b b' -> backend_inv b' /\ later b b'.
Proof.
  intros Hb Hs. induction Hs as [b|b between p b1 _ IH1 _ IH2|b outcome b1 _ IH|b b1 _ IH
                                |b m outcome b1 _ IH P|b up b1 _ IH].
  - done.
  - destruct (IH1 Hb) as [I1 L1]. destruct (IH2 I1) as [I2 L2].
    destruct (inv_request between p b1 I1 I2 L2) as [I3 L3]. split; [done|by etrans].
  - destruct (IH Hb) as [I1 L1]. destruct (inv_worker outcome b1 I1) as [I2 L2].
    split; [done|by etrans].
  - destruct (IH Hb) as [I1 L1]. destruct (inv_takes b1 I1) as [I2 L2]. split; [done|by etrans].
  - destruct (IH Hb) as [I1 L1]. destruct (inv_finish_job m outcome b1 I1 P) as [I2 L2].
    split; [done|by etrans].
  - destruct (IH Hb) as [[I1 I2 I3 I4 I5 I6] L1]. split; [by constructor|].
    etrans; [exact L1|]. constructor; eauto.
Qed.

Lemma empty_inv : backend_inv backend_empty.
Proof.
  constructor; cbn; try (intros; simplify_map_eq; done).
  - intros id. split; [by intros [x Hx]|]. by intros (r & Hr & _).
  - intros m Hm. by apply elem_of_nil in Hm.
  - apply NoDup_nil_2.
Qed.
End Invariant.

Lemma mark_running_queues {Web : WebStack} m b :
  queue (mark_running m b) = queue b /\ dlq (mark_running m b) = dlq b.
Proof. unfold mark_running. by destruct (rows b !! m). Qed.

Definition measured (o : string + (string * EngineResult)) : bool :=
  match o with inr _ => true | inl _ => false end.

(** The state after one turn on the only message, in a reachable state. *)
Lemma single_turn {Web : WebStack} {WebL : WebStackLaws} b m o :
  backend_inv b -> queue b = [m] ->
  exists r, rows (worker_turn o b) !! msg_id m = Some r /\
  if measured o then status r = completed /\ queue (worker_turn o b) = []
  else if msg_attempt m + 1 <? worker_max_retries
  then queue (worker_turn o b) =
         [MkMessage (msg_id m) (msg_gpu m) (msg_workload m) (msg_batch m) (msg_attempt m + 1)] /\
       dlq (worker_turn o b) = dlq b
  else status r = failed /\ queue (worker_turn o b) = [] /\
       exists exc, dlq (worker_turn o b) = (m, exc) :: dlq b.
Proof.
  intros Hb Hq.
  assert (dequeue b = Some (m, set_queues b [] (dlq b))) as Hd
    by (unfold dequeue; by rewrite Hq).
  destruct (worker_result b m _ o Hb Hd) as (r & Hr & Hs & ->). cbn zeta.
  destruct (mark_running_queues (msg_id m) (set_queues b [] (dlq b))) as [Eq Ed].
  cbn [queue dlq set_queues] in Eq, Ed.
  destruct o as [exc|[engine e]]; cbn [measured].
  - destruct (_ <? _).
    + exists r. unfold enqueue_retry, set_queues at 1. cbn [rows]. split; [exact Hr|].
      cbn. by rewrite Eq.
    + unfold mark_failed. change (rows (move_to_dlq m exc ?x)) with (rows x).
      rewrite Hr. cbn. rewrite lookup_insert_eq. eexists.
      split_and!; [reflexivity|done|exact Eq|]. exists exc. by rewrite Ed.
  - cbn [rows]. rewrite lookup_insert_eq. eexists. split_and!; [reflexivity|done|exact Eq].
Qed.

(** Three turns on a job's first attempt. *)
Lemma three_turns {Web : WebStack} {WebL : WebStackLaws} (b : backend) (m : job_message)
    (o1 o2 o3 : string + (string * EngineResult)) :
  backend_inv b -> queue b = [m] -> msg_attempt m = 0 ->
  let b' := worker_turn o3 (worker_turn o2 (worker_turn o1 b)) in
  queue b' = [] /\ exists r, rows b' !! msg_id m = Some r /\
  if measured o1 || measured o2 || measured o3 then status r = completed
  else status r = failed /\ exists exc,
    dlq b' = (MkMessage (msg_id m) (msg_gpu m) (msg_workload m) (msg_batch m) 2, exc) :: dlq b.
Proof.
  intros I Hq Ha. cbn zeta.
  destruct (inv_worker o1 b I) as [I1 _]. destruct (inv_worker o2 _ I1) as [I2 _].
  assert (forall o b, queue b = [] -> worker_turn o b = b) as Hidle
    by (intros o b0 E; unfold worker_turn, dequeue; by rewrite E).
  destruct (single_turn b m o1 I Hq) as (r1 & Hr1 & H1).
  destruct (measured o1); cbn [orb].
  { destruct H1 as [Hs Hq1]. rewrite (Hidle o2 _ Hq1), (Hidle o3 _ Hq1). eauto. }
  rewrite Ha in H1. destruct H1 as [Hq1 Hd1].
  destruct (single_turn _ _ o2 I1 Hq1) as (r2 & Hr2 & H2). cbn [msg_id msg_attempt] in *.
  destruct (measured o2); cbn [orb].
  { destruct H2 as [Hs Hq2]. rewrite (Hidle o3 _ Hq2). eauto. }
  destruct H2 as [Hq2 Hd2].
  destruct (single_turn _ _ o3 I2 Hq2) as (r3 & Hr3 & H3). cbn [msg_id msg_attempt] in *.
  destruct (measured o3).
  - destruct H3 as [Hs Hq3]. eauto.
  - destruct H3 as (Hs & Hq3 & exc & Hd3). split; [done|]. exists r3. split_and!; [done..|].
    exists exc. rewrite Hd3, Hd2, Hd1. done.
Qed.
