(* ===== verification/DeploymentTheorems.v ===== *)
(** * Theorems on the deployment

    Where the chart's Service sends requests, which probes are answered, and
    what the chart's role lets the two controllers do. *)
From S2P Require Import Deployment MainTheorems.
From S2P Require Operator Provider ProviderTypes.

(** ** Names *)

#[local] Instance append_inj x : Inj (=) (=) (String.append x).
Proof. intros a b. apply append_inj_l. Qed.

(** The selector of a component selects the pods of that component. *)
Lemma selector_selects v rel a b :
  selects (selector_labels v rel a)
    (selector_labels v rel b ++ [("app.kubernetes.io/component", b)]) = bool_decide (a = b).
Proof.
  unfold selects, selector_labels. cbn [forallb app]. rewrite andb_true_r.
  rewrite (bool_decide_eq_true_2 ((_, rel_Name rel) ∈ _)), andb_true_r
    by (rewrite !elem_of_cons; tauto).
  apply bool_decide_ext. rewrite !elem_of_cons, elem_of_nil. split.
  - intros [E|[E|[E|[]]]]; [|done..]. injection E as E. by do 2 apply (inj _) in E.
  - intros ->. by left.
Qed.

(** ** Where requests arrive *)

Lemma service_endpoints v rel :
  endpoints (chart v rel) (api_service v rel) = [(d_name (api_deployment v rel), 8000)].
Proof.
  unfold endpoints, chart, api_service. cbn [o_deployments s_selector s_targetPort].
  unfold operator_deployment, api_deployment, worker_deployment, provider_deployment,
    chart_deployment. cbn [omap list_omap d_podLabels d_name d_container].
  by rewrite !selector_selects.
Qed.

Lemma reached_service v rel from url name ns port :
  host_port url = Some (name, port) -> service_host from name = Some ("gpu-benchmark-api", ns) ->
  reached (chart v rel) from url =
  if bool_decide (ns = rel_Namespace rel) && (v_api_port v =? port)
  then [(d_name (api_deployment v rel), 8000)] else [].
Proof.
  intros Hp Hh. unfold reached. rewrite Hp, Hh. cbn [o_namespace chart o_services].
  destruct (bool_decide (ns = _)); [|done]. cbn [andb]. rewrite filter_cons. cbn [s_name s_port api_service].
  destruct (Z.eqb_spec (v_api_port v) port) as [->|Hn].
  - rewrite decide_True by done. rewrite filter_nil.
    change (endpoints (chart v rel) (api_service v rel) ++ [] = [(d_name (api_deployment v rel), 8000)]).
    by rewrite service_endpoints.
  - by rewrite decide_False by by intros [].
Qed.

(** Nothing arrives on a port that no service has. *)
Lemma reached_port objs from url name port :
  host_port url = Some (name, port) -> Forall (fun s => s_port s <> port) (o_services objs) ->
  reached objs from url = [].
Proof.
  intros Hp Hs. unfold reached. rewrite Hp. destruct (service_host _ _) as [[n ns]|]; [|done].
  destruct (bool_decide _); [|done].
  assert (filter (fun s => s_name s = n /\ s_port s = port) (o_services objs) = []) as ->; [|done].
  induction Hs as [|s l Hs _ IH]; [done|]. rewrite filter_cons, decide_False by tauto. exact IH.
Qed.

(** C25. The Service of the chart and the URLs the controllers use.  For every
    release and values the four Deployments have distinct names and each
    selects its own pods only.  A request to the operator's built-in URL
    arrives at the API's pods, on the port uvicorn listens on, and nowhere
    else, exactly if it is sent from the namespace of the release and the
    Service's port is left at 8000; one to the default URL of the CRD, which
    the composition uses too, exactly if the release is in gpu-benchmark and the
    port is 8000.  With the plain manifests, whose Service has port 80, neither
    ever arrives. *)
Theorem Chart_reaches_backend (v : Values) (rel : Release) (from ns : string) :
  let objs := chart v rel in
  let api := (d_name (api_deployment v rel), 8000) in
  NoDup (d_name <$> o_deployments objs) /\
  Forall (fun d1 => Forall (fun d2 =>
      selects (d_matchLabels d1) (d_podLabels d2) = true <-> d1 = d2) (o_deployments objs))
    (o_deployments objs) /\
  option_value "--port" (c_command (d_container (api_deployment v rel))) = Some (fmt_d api.2) /\
  reached objs from Operator.default_api_url =
    (if bool_decide (from = rel_Namespace rel) && (v_api_port v =? 8000) then [api] else []) /\
  reached objs from crd_default_url =
    (if bool_decide ("gpu-benchmark" = rel_Namespace rel) && (v_api_port v =? 8000)
     then [api] else []) /\
  reached (k8s_manifests ns) from Operator.default_api_url = [] /\
  reached (k8s_manifests ns) from crd_default_url = [].
Proof.
  intros objs api. subst objs api. split_and!.
  - cbn -[fullname]. repeat (apply NoDup_cons; split); [..|apply NoDup_nil_2];
      rewrite ?elem_of_cons, elem_of_nil; intros E;
      repeat (destruct E as [E|E]; [by do 2 apply (inj _) in E|]); done.
  - repeat (apply Forall_cons; split); try apply Forall_nil_2; cbn [d_matchLabels d_podLabels operator_deployment
      api_deployment worker_deployment provider_deployment chart_deployment];
      rewrite selector_selects; (split; [done|]); intros E; try done;
      apply (f_equal (fun d => c_command (d_container d))) in E; try done.
  - reflexivity.
  - rewrite (reached_service v rel from _ "gpu-benchmark-api" from 8000) by (vm_compute; reflexivity).
    done.
  - rewrite (reached_service v rel from crd_default_url
      "gpu-benchmark-api.gpu-benchmark.svc.cluster.local" "gpu-benchmark" 8000 eq_refl eq_refl).
    done.
  - by eapply (reached_port _ _ _ _ 8000); [reflexivity|repeat constructor].
  - by eapply (reached_port _ _ _ _ 8000); [reflexivity|repeat constructor].
Qed.

(** ** What is allowed *)

Lemma allowed_spec v rel account group resource verb :
  allowed (chart v rel) account group resource verb =
  bool_decide (account = serviceAccountName v rel) &&
  existsb (rule_allows group resource verb) (rules (operator_role v rel)).
Proof.
  unfold allowed. cbn [o_roles chart existsb binding_role role_name operator_role binding_account
    binding_namespace o_namespace].
  rewrite (bool_decide_eq_true_2 (_ +:+ _ = _)), (bool_decide_eq_true_2 (rel_Namespace rel = _)),
    orb_false_r, andb_true_r by done.
  by rewrite (bool_decide_ext (serviceAccountName v rel = account) (account = serviceAccountName v rel))
    by done.
Qed.

(** Two worlds that give the same answers. *)
Lemma run_ext {S : Sig} {W A : Type} (h1 h2 : handler S W) (p : prog S A) w :
  (forall o w, h1 o w = h2 o w) -> run h1 p w = run h2 p w.
Proof.
  intros Hh. revert w. induction p as [a|m|o k IH]; intros w; cbn; [done..|].
  rewrite Hh. destruct (h2 o w) as [w1 x]. by rewrite IH.
Qed.

(** C27. What the chart's role allows.  Behind an API server that authorizes by
    the chart's bindings, every reconciliation of the operator runs exactly as
    without authorization, in any world; its cache may list and watch its kind,
    and leader election may use leases.  The provider runs under the same
    account, which may do nothing in its group: Connect, whatever the job, is
    refused the ProviderConfig - by whatever error, from the server or from a
    cache that could not be filled - and fails with that error, having done
    nothing else.  Nobody else is given anything. *)
Theorem Chart_permissions {Mach : Machinery.Machinery} {Xp : ProviderTypes.Crossplane}
    (v : Values) (rel : Release) :
  let objs := chart v rel in
  let operator := d_serviceAccount (operator_deployment v rel) in
  let provider := d_serviceAccount (provider_deployment v rel) in
  (forall W refuse (h : handler Operator.op_sig W) (w : W) r n,
     run (authorize objs operator refuse h) (Operator.Reconcile r n) w =
     run h (Operator.Reconcile r n) w) /\
  Forall (fun verb => allowed objs operator (Group operator_GroupVersion) "benchmarkjobs" verb = true)
    ["get"; "list"; "watch"] /\
  Forall (fun verb => allowed objs operator "coordination.k8s.io" "leases" verb = true)
    ["get"; "create"; "update"] /\
  (forall resource verb,
     allowed objs provider (Group provider_GroupVersion) resource verb = false) /\
  (forall W refuse (h : handler Provider.xp_sig W) (w : W) c cr,
     let config := Provider.GetProviderConfig (MkName "" (Provider.config_name cr)) in
     let r := run (authorize_provider objs provider refuse h)
                (Provider.Connect c (Provider.MGPUBenchmarkJob cr)) w in
     ex_world r = (refuse config w).1 /\
     ex_out r = Done (inl (ErrWrap Provider.errGetProviderConfig (refuse config w).2))) /\
  (forall account group resource verb,
     allowed objs account group resource verb =
     bool_decide (account = operator) &&
     existsb (rule_allows group resource verb) (rules (operator_role v rel))).
Proof.
  intros objs operator provider. subst objs operator provider. cbn [d_serviceAccount
    operator_deployment provider_deployment chart_deployment].
  set (account := serviceAccountName v rel). split_and!.
  - intros W refuse h w r n. apply run_ext. intros [q| |c] w0; [done|done|]. unfold authorize.
    by rewrite (surjective_pairing (api_request c)), allowed_spec, bool_decide_eq_true_2; destruct c.
  - by repeat constructor; rewrite allowed_spec, bool_decide_eq_true_2.
  - by repeat constructor; rewrite allowed_spec, bool_decide_eq_true_2.
  - intros resource verb. rewrite allowed_spec. by rewrite andb_false_r.
  - intros W refuse h w c cr. cbn. unfold authorize_provider. rewrite allowed_spec, andb_false_r.
    by destruct (refuse _ w).
  - intros a group resource verb. by rewrite allowed_spec.
Qed.

(** ** Probes *)

(** Membership in a list that is written out. *)
Ltac listed := rewrite ?elem_of_cons; tauto.

Section Probes.
Context {Lib : SchemeLib} {L : Type} (libs : list (flag L)) (l0 : L).
Variables (v : Values) (rel : Release).

Lemma operator_answers scheme vars p :
  probeAddr vars = ":" +:+ fmt_d (healthProbe_port (v_operator v)) ->
  p ∈ probes (d_container (operator_deployment v rel)) ->
  manager_answers (operator_calls scheme vars) p.
Proof using Type.
  intros Ha Hp. split; [unfold operator_calls; listed|]. split.
  - exists scheme, (operator_options vars). split; [unfold operator_calls; listed|].
    cbn [operator_options opt_HealthProbeBindAddress]. rewrite Ha.
    by repeat (apply elem_of_cons in Hp as [-> |Hp]; [done|]); apply elem_of_nil in Hp.
  - apply elem_of_cons in Hp as [-> |[-> |[]%elem_of_nil]%elem_of_cons]; [left|right];
      (split; [done|]); unfold operator_calls; listed.
Qed.

Lemma provider_answers scheme p :
  p ∈ probes (d_container (provider_deployment v rel)) ->
  manager_answers (provider_calls scheme) p <-> healthProbe_port (v_provider v) = 8081.
Proof using Type.
  intros Hp. assert (probe_port p = healthProbe_port (v_provider v)) as <-
    by by repeat (apply elem_of_cons in Hp as [-> |Hp]; [done|]); apply elem_of_nil in Hp.
  split.
  - intros (_ & (sch & opts & Hin & E) & _). unfold provider_calls in Hin.
    repeat (apply elem_of_cons in Hin as [Hin|Hin]; [try discriminate Hin|]); [|by apply elem_of_nil in Hin].
    injection Hin as _ ->. injection E as E. change "8081" with (fmt_d 8081) in E.
    by apply (inj fmt_d) in E.
  - intros E. split; [unfold provider_calls; listed|]. split.
    + exists scheme, provider_options. rewrite E.
      split; [unfold provider_calls; listed|reflexivity].
    + apply elem_of_cons in Hp as [-> |[-> |[]%elem_of_nil]%elem_of_cons]; [left|right];
        (split; [done|]); unfold provider_calls; listed.
Qed.

(** C26. The chart's probes.  For every values the operator's container, run on
    the arguments the chart gives it, binds the ports of the values, elects a
    leader if they say so, and answers both of its probes once it serves.  The
    provider's, on its arguments, answers its probes exactly if the values leave
    the port at 8081.  The API never answers its liveness probe with a success:
    it asks for /health, and the health check is at /. *)
Theorem Chart_probes (s so sp : Scheme) :
  client_go_AddToScheme NewScheme = inr s ->
  AddToScheme operator_SchemeBuilder s = inr so -> AddToScheme provider_SchemeBuilder s = inr sp ->
  NoDup (flag_name <$> operator_formal libs) ->
  let operator := d_container (operator_deployment v rel) in
  let provider := d_container (provider_deployment v rel) in
  let api := d_container (api_deployment v rel) in
  (exists calls, wp (operator_main libs l0 (c_args operator)) (all_or_exit calls) /\
     Forall (manager_answers calls) (probes operator) /\
     NewManager so (MkOptions (":" +:+ fmt_d (metrics_port (v_operator v)))
       (":" +:+ fmt_d (healthProbe_port (v_operator v))) (leaderElect (v_operator v))
       "gpu-benchmark-operator.gpu-platform.io" "" None) ∈ calls) /\
  (exists calls, wp (provider_main (c_args provider)) (all_or_exit calls) /\
     Forall (fun p => manager_answers calls p <-> healthProbe_port (v_provider v) = 8081)
       (probes provider)) /\
  (length (probes operator) = 2 /\ length (probes provider) = 2 /\ length (probes api) = 1)%nat /\
  Forall (fun p => api_answers api p = false /\ api_answers api (MkProbe "/" (probe_port p)) = true)
    (probes api).
Proof using Type.
  intros Hc Ho Hp Hn operator provider api. split_and!; try reflexivity.
  - pose proof (operator_main_wp libs l0 s so (c_args operator) Hc Ho Hn) as Hw.
    change (c_args operator) with (chart_args (metrics_port (v_operator v))
      (healthProbe_port (v_operator v)) (leaderElect (v_operator v))) in Hw.
    rewrite (proj1 (operator_flags_read_chart libs l0 _ _ _)) in Hw.
    eexists. split; [exact Hw|]. split; [|unfold operator_calls; listed].
    apply Forall_forall. intros p. by apply operator_answers.
  - eexists. split; [by apply (provider_main_wp s)|].
    apply Forall_forall. intros p. apply provider_answers.
  - by repeat constructor.
Qed.
End Probes.

Lemma Chart_probes_witness :
  exists calls, wp (operator_main [StringVar "kubeconfig" (fun _ v => v)] ""
      (c_args (d_container (operator_deployment default_values (MkRelease "demo" "gpu-benchmark")))))
    (all_or_exit calls) /\
    Forall (manager_answers calls)
      (probes (d_container (operator_deployment default_values (MkRelease "demo" "gpu-benchmark")))).
Proof.
  destruct (Chart_probes (Lib := scheme_lib) [StringVar "kubeconfig" (fun _ v => v)] "" default_values
    (MkRelease "demo" "gpu-benchmark") _ _ _ eq_refl eq_refl eq_refl) as ((calls & H1 & H2 & _) & _).
  - apply (bool_decide_unpack _). vm_compute. exact I.
  - exists calls. split; [exact H1|exact H2].
Defined.
