(* ===== verification/WebInstance.v ===== *)
(** * A web stack that meets the laws, for evaluation

    Numbered ids, a stopped clock, the JSON printer of [Json], and exact
    decimal expansions for floats: it shows that the laws of [WebStackLaws]
    can hold and is what concrete runs of the backend are evaluated on. *)
From S2P Require Export BackendInvariant.

(** [m * 2 ^ e] in decimal: for [e < 0] it is [m * 5 ^ -e * 10 ^ e]. *)
Definition exact_repr (f : float64) : string :=
  match f with
  | S754_finite s m e =>
      (if s then "-" else "") +:+
      (if 0 <=? e then fmt_d (Z.pos m * 2 ^ e) else fmt_d (Z.pos m * 5 ^ (- e)) +:+ "e" +:+ fmt_d e)
  | S754_zero s => if s then "-0" else "0"
  | _ => "null"
  end.

(** The first member of that name. *)
Definition member (k : string) (l : list (string * json)) : option json :=
  snd ∘ snd <$> list_find (fun p => fst p = k) l.

Definition positive_lit (lit : string) : option Z :=
  match lit with
  | String a _ => if is_digit a then Some (digits_val lit) else None
  | EmptyString => None
  end.

Definition read_request (v : json) : option BenchmarkCreateRequest :=
  match v with
  | JObject l =>
      match member "gpu_model" l, member "workload_type" l, member "batch_size" l,
            member "idempotency_key" l with
      | Some (JString g), Some (JString w), Some (JNumber lit), Some (JString k) =>
          match positive_lit lit with
          | Some b => if (0 <? b) && (length (runes k) <=? 128)%nat
                      then Some (MkCreate g w b (Some k)) else None
          | None => None
          end
      | _, _, _, _ => None
      end
  | _ => None
  end.

#[export] Instance web_stack : WebStack := {|
  uuid4 n := "uuid-" +:+ fmt_d (Z.of_nat n);
  parse_uuid s := Some s;
  server_now _ := "2026-01-01T00:00:00Z";
  sha256_hex s := s;
  validate := read_request;
  render := print_json;
  float_repr := exact_repr;
  framework path q :=
    MkResponse (match path ≫= fun p => head (path_methods p) with Some _ => 405 | None => 404 end) ""
|}.

(** ** Decimal digits read back *)

Lemma positive_lit_fmt b : 0 < b -> positive_lit (fmt_d b) = Some b.
Proof.
  intros Hb. destruct b as [|p|p]; try lia. unfold fmt_d. change (pretty (Zpos p)) with (pretty (Npos p)).
  destruct (pretty_pos_dec p) as (a & t & E & Ha & _). rewrite E. cbn [positive_lit]. rewrite Ha.
  rewrite <- E. f_equal. apply digits_val_pretty.
Qed.

Lemma positive_lit_neg b : b <= 0 -> positive_lit (fmt_d b) = Some 0 \/ positive_lit (fmt_d b) = None.
Proof.
  intros Hb. destruct b as [|p|p]; [by left|lia|]. right. reflexivity.
Qed.

Lemma has_byte_app z s t : has_byte z (s +:+ t) = has_byte z s || has_byte z t.
Proof.
  induction s as [|a s IH]; [done|]. rewrite append_cons. cbn. by rewrite IH, orb_assoc.
Qed.

Lemma digits_lack z s : all_digits s = true -> in_range 48 57 z = false -> has_byte z s = false.
Proof.
  intros Hs Hz. induction s as [|a s IH]; [done|]. cbn in *. apply andb_prop in Hs as [Ha Hs].
  rewrite IH by done. apply digit_range in Ha. unfold in_range in Hz.
  destruct (Z.eqb_spec (byte_val a) z); [lia|done].
Qed.

Lemma digits_plain s : all_digits s = true -> sanitize s = s.
Proof.
  intros Hs. apply sanitize_valid. unfold valid_utf8.
  induction s as [|a s IH]; [done|]. cbn in Hs. apply andb_prop in Hs as [Ha Hs].
  specialize (IH Hs). apply digit_range in Ha. cbn [runes].
  destruct (Z.ltb_spec (byte_val a) 128); [|lia]. cbn. exact IH.
Qed.

Lemma fmt_d_nat_digits n : all_digits (fmt_d (Z.of_nat n)) = true.
Proof.
  destruct n as [|n]; [reflexivity|].
  destruct (pretty_pos_dec (Pos.of_succ_nat n)) as (a & t & E & Ha & Ht & _).
  change (fmt_d (Z.of_nat (S n))) with (pretty (Npos (Pos.of_succ_nat n))).
  rewrite E. cbn. by rewrite Ha, Ht.
Qed.

#[export] Instance web_stack_laws : WebStackLaws.
Proof.
  constructor.
  - intros n1 n2 E. cbn in E. apply append_inj_l, fmt_d_inj in E. lia.
  - done.
  - intros n. cbn [uuid4 web_stack]. unfold path_segment. rewrite !has_byte_app.
    by rewrite !(digits_lack _ _ (fmt_d_nat_digits n)) by done.
  - intros n. cbn [uuid4 web_stack]. pose proof (digits_plain _ (fmt_d_nat_digits n)) as E.
    change (sanitize ("uuid-" +:+ ?t)) with ("uuid-" +:+ sanitize t). by rewrite E.
  - intros g w b k.
    change (validate _) with
      (match positive_lit (fmt_d b) with
       | Some b' => if (0 <? b') && (length (runes k) <=? 128)%nat
                    then Some (MkCreate g w b' (Some k)) else None
       | None => None
       end).
    destruct (Z.ltb_spec 0 b) as [Hb|Hb].
    + rewrite positive_lit_fmt by done. destruct (Z.ltb_spec 0 b); [done|lia].
    + by destruct (positive_lit_neg b Hb) as [-> | ->].
  - intros j Hok Hd. cbn [render web_stack].
    rewrite <- (append_nil_r (print_json j)), parse_json_print; [done|done| |done].
    etrans; [exact Hd|]. apply Nat.leb_le. by vm_compute.
  - intros b. vm_compute. reflexivity.
  - intros path q Hp _. cbn. by destruct (path_methods path).
Qed.
