(* ===== verification/History.v ===== *)
(** * The read-only routes of the backend

    [get_gpu_history] of [benchmark_service.py] with its route in
    [api/benchmarks.py], and the health check of [api/health.py].  Timestamps
    are texts; the moment a text denotes, which the database orders by, is a
    parameter, and so is the order in which it finds rows of one moment. *)
From stdpp Require Export sorting.
From S2P Require Export BackendInvariant.

Record BenchmarkHistoryItem : Type := MkItem {
  item_job_id : string;
  item_status : string;
  item_workload_type : string;
  item_batch_size : Z;
  item_submitted_at : string;
  item_throughput : option float64;
  item_latency_ms : option float64
}.

(** [settings.default_history_limit], and the bounds of the query parameter:
    [None] is the 422 of the framework. *)
Definition default_history_limit : Z := 100.

Definition history_limit (limit : option Z) : option Z :=
  let l := default default_history_limit limit in
  if in_range 1 500 l then Some l else None.

(** [health_check]. *)
Definition health_check (environment : string) : json :=
  JObject [("status", JString "healthy"); ("service", JString "gpu_benchmark_engine");
           ("environment", JString environment)].

Section History.
Context {Web : WebStack}.
Variable instant : string -> Z.
Variable scan : list (string * Benchmark) -> list (string * Benchmark).

(** [Benchmark.created_at.desc()]. *)
Definition newest_first (p q : string * Benchmark) : Prop :=
  instant (created_at (snd q)) <= instant (created_at (snd p)).

#[export] Instance newest_first_dec p q : Decision (newest_first p q).
Proof. unfold newest_first. apply _. Defined.

(** The rows that join with the GPU model of that name. *)
Definition rows_of_gpu (gpu_model : string) (b : backend) : list (string * Benchmark) :=
  match gpu_models b !! gpu_model with
  | Some g => filter (fun p => gpu_model_id (snd p) = g) (map_to_list (rows b))
  | None => []
  end.

Definition history_item (b : backend) (p : string * Benchmark) : BenchmarkHistoryItem :=
  let '(id, row) := p in
  let result := results b !! id in
  MkItem id (status_value (status row)) (workload_type row) (batch_size row) (created_at row)
    ((throughput ∘ res_metrics) <$> result) ((latency_ms ∘ res_metrics) <$> result).

Definition get_gpu_history (gpu_model : string) (limit : Z) (b : backend) :
    list BenchmarkHistoryItem :=
  history_item b <$>
    take (Z.to_nat limit) (merge_sort newest_first (scan (rows_of_gpu gpu_model b))).

Definition optional_float (f : option float64) : json :=
  match f with Some x => JNumber (float_repr x) | None => JNull end.

Definition item_json (i : BenchmarkHistoryItem) : json :=
  JObject [("job_id", JString (item_job_id i)); ("status", JString (item_status i));
           ("workload_type", JString (item_workload_type i));
           ("batch_size", json_int (item_batch_size i));
           ("submitted_at", JString (item_submitted_at i));
           ("throughput", optional_float (item_throughput i));
           ("latency_ms", optional_float (item_latency_ms i))].

(** [get_benchmark_history]: a NUL cannot be part of a query. *)
Definition get_benchmark_history (gpu_model : string) (limit : option Z) (b : backend) : Response :=
  match history_limit limit with
  | None => MkResponse 422 "Unprocessable Entity"
  | Some l =>
      if has_byte 0 gpu_model then MkResponse 500 "Internal Server Error"
      else MkResponse 200 (render (JArray (item_json <$> get_gpu_history gpu_model l b)))
  end.

(** ** What a history shows *)

Hypothesis scan_permutes : forall l, scan l ≡ₚ l.

#[local] Instance newest_first_trans : Transitive newest_first.
Proof using Type. intros p q r. unfold newest_first. lia. Qed.

#[local] Instance newest_first_total : Total newest_first.
Proof using Type. intros p q. unfold newest_first. lia. Qed.

Lemma sorted_take_drop {A} (R : relation A) l n x y :
  StronglySorted R l -> x ∈ take n l -> y ∈ drop n l -> R x y.
Proof using Type.
  intros Hl Hx Hy. rewrite <- (take_drop n l) in Hl.
  by eapply StronglySorted_app_1_elem_of.
Qed.

Lemma elem_of_take_in {A} (l : list A) n x : x ∈ take n l -> x ∈ l.
Proof using Type. intros (i & Hi & _)%elem_of_take. by eapply list_elem_of_lookup_2. Qed.

Lemma rows_of_gpu_spec gpu b id r :
  (id, r) ∈ rows_of_gpu gpu b <->
  exists g, gpu_models b !! gpu = Some g /\ rows b !! id = Some r /\ gpu_model_id r = g.
Proof using Type.
  clear. unfold rows_of_gpu. destruct (gpu_models b !! gpu) as [g|].
  - rewrite list_elem_of_filter, elem_of_map_to_list. naive_solver.
  - rewrite elem_of_nil. naive_solver.
Qed.

Lemma rows_of_gpu_ids gpu b : NoDup (fst <$> rows_of_gpu gpu b).
Proof using Type.
  clear. unfold rows_of_gpu. destruct (gpu_models b !! gpu) as [g|]; [|constructor].
  apply NoDup_fmap_fst.
  - intros id r1 r2. rewrite !list_elem_of_filter, !elem_of_map_to_list. naive_solver.
  - apply NoDup_filter, NoDup_map_to_list.
Qed.

(** The rows of the answer, and those left out. *)
Definition history_rows (gpu : string) (limit : Z) (b : backend) : list (string * Benchmark) :=
  take (Z.to_nat limit) (merge_sort newest_first (scan (rows_of_gpu gpu b))).

Lemma history_sort_permutes gpu b :
  merge_sort newest_first (scan (rows_of_gpu gpu b)) ≡ₚ rows_of_gpu gpu b.
Proof using instant scan_permutes. by rewrite merge_sort_Permutation, scan_permutes. Qed.

Lemma history_rows_sorted gpu limit b : StronglySorted newest_first (history_rows gpu limit b).
Proof using Type.
  eapply StronglySorted_app_1_l. unfold history_rows. rewrite take_drop.
  apply StronglySorted_merge_sort; apply _.
Qed.

Lemma history_rows_ids gpu limit b : NoDup (fst <$> history_rows gpu limit b).
Proof using instant scan_permutes.
  pose proof (rows_of_gpu_ids gpu b) as H. rewrite <- history_sort_permutes in H.
  rewrite <- (take_drop (Z.to_nat limit) (merge_sort _ _)), fmap_app in H.
  by apply NoDup_app in H as [H _].
Qed.

Lemma history_rows_elem gpu limit b p :
  p ∈ history_rows gpu limit b -> p ∈ rows_of_gpu gpu b.
Proof using instant scan_permutes.
  intros Hp. rewrite <- history_sort_permutes. by eapply elem_of_take_in.
Qed.

Lemma history_rows_rest gpu limit b p q :
  p ∈ history_rows gpu limit b -> q ∈ rows_of_gpu gpu b -> q ∉ history_rows gpu limit b ->
  newest_first p q.
Proof using instant scan_permutes.
  intros Hp Hq Hn. rewrite <- history_sort_permutes in Hq.
  rewrite <- (take_drop (Z.to_nat limit) (merge_sort _ _)), elem_of_app in Hq.
  destruct Hq as [Hq|Hq]; [by destruct Hn|].
  eapply sorted_take_drop; [apply StronglySorted_merge_sort; apply _|exact Hp|exact Hq].
Qed.
End History.
