(* ===== verification/FloatBounds.v ===== *)
(** * When binary64 arithmetic does not overflow

    [below t f]: [f] is a number of magnitude less than [2 ^ t].  Rounding adds
    at most one to [t], and the operations add what exact arithmetic adds;
    chains of operations on small numbers therefore give numbers, not
    infinities or NaN. *)
From S2P Require Export GoFloat.

(** The exponent of a mantissa's leading bit, plus one. *)
Definition lead (m e : Z) : Z := Zdigits2 m + e.

Definition below (t : Z) (f : float64) : Prop :=
  match f with
  | S754_zero _ => True
  | S754_finite _ m e => lead (Z.pos m) e <= t
  | S754_infinity _ | S754_nan => False
  end.

Lemma below_finite t f : below t f -> is_finite f = true.
Proof. by destruct f. Qed.

Lemma below_mono t1 t2 f : t1 <= t2 -> below t1 f -> below t2 f.
Proof. destruct f; cbn; try done. lia. Qed.

(** ** Binary digits *)

Lemma Zdigits2_log2 m : 0 < m -> Zdigits2 m = Z.log2 m + 1.
Proof.
  intros Hm. destruct m as [|p|p]; try lia. cbn [Zdigits2].
  assert (forall q, Z.pos (digits2_pos q) = Z.log2 (Z.pos q) + 1) as H; [|apply H].
  clear. induction q as [q IH|q IH|]; cbn [digits2_pos]; [| |done].
  - rewrite Pos2Z.inj_succ, IH, (Pos2Z.inj_xI q), Z.log2_succ_double by lia. lia.
  - rewrite Pos2Z.inj_succ, IH, (Pos2Z.inj_xO q), Z.log2_double by lia. lia.
Qed.

Lemma Zdigits2_nonneg m : 0 <= Zdigits2 m.
Proof. by destruct m. Qed.

Lemma Zdigits2_le m k : 0 <= k -> 0 <= m < 2 ^ k -> Zdigits2 m <= k.
Proof.
  intros Hk Hm. destruct (Z.eq_dec m 0) as [->|]; [done|].
  rewrite Zdigits2_log2 by lia. pose proof (proj1 (Z.log2_lt_pow2 m k ltac:(lia)) (proj2 Hm)). lia.
Qed.

Lemma Zdigits2_lt m : 0 <= m -> m < 2 ^ Zdigits2 m.
Proof.
  intros Hm. destruct (Z.eq_dec m 0) as [->|]; [done|].
  rewrite Zdigits2_log2 by lia. apply Z.log2_spec; lia.
Qed.

Lemma Zdigits2_ge m : 0 < m -> 2 ^ (Zdigits2 m - 1) <= m.
Proof.
  intros Hm. rewrite Zdigits2_log2 by lia. rewrite Z.add_simpl_r. by apply Z.log2_spec.
Qed.

Lemma Zdigits2_mul_pow m k : 0 < m -> 0 <= k -> Zdigits2 (m * 2 ^ k) = Zdigits2 m + k.
Proof.
  intros Hm Hk. assert (0 < m * 2 ^ k) by (apply Z.mul_pos_pos; [done|by apply Z.pow_pos_nonneg]).
  rewrite !Zdigits2_log2 by done. rewrite Z.log2_mul_pow2 by lia. lia.
Qed.

(** ** Rounding *)

Lemma fexp_le t : fexp 53 1024 t = Z.max (t - 53) (-1074).
Proof. done. Qed.

Lemma shr_m_iter p mrs :
  0 <= shr_m mrs -> shr_m (SpecFloat.iter_pos shr_1 p mrs) = shr_m mrs / 2 ^ Z.pos p.
Proof.
  assert (forall x, 0 <= shr_m x -> shr_m (shr_1 x) = shr_m x / 2) as H1.
  { intros [[|q|q] r s] Hx; cbn in *; try lia; [done|].
    destruct q as [q|q|]; cbn [shr_m]; [|by rewrite Pos2Z.inj_xO, Z.mul_comm, Z.div_mul|done].
    rewrite Pos2Z.inj_xI, Z.mul_comm, Z.div_add_l by lia. by rewrite Z.add_0_r. }
  revert mrs. induction p as [p IH|p IH|]; intros mrs H; cbn [SpecFloat.iter_pos]; [| |by apply H1].
  - assert (0 <= shr_m (shr_1 mrs)) as H2 by (rewrite H1 by done; by apply Z.div_pos).
    rewrite !IH, H1 by (try done; rewrite IH by done; apply Z.div_pos; lia).
    rewrite !Z.div_div by lia. f_equal.
    replace (Z.pos p~1) with (1 + Z.pos p + Z.pos p) by lia. rewrite !Z.pow_add_r by lia. lia.
  - rewrite !IH by (try done; rewrite IH by done; apply Z.div_pos; lia).
    rewrite !Z.div_div by lia. f_equal.
    replace (Z.pos p~0) with (Z.pos p + Z.pos p) by lia. rewrite Z.pow_add_r by lia. lia.
Qed.

(** A shift to the exponent of the format keeps the leading bit where it
    is, or leaves nothing. *)
Lemma shr_fexp_lead m e l :
  0 <= m -> let r := shr_fexp 53 1024 m e l in
  0 <= shr_m r.1 /\ r.2 = Z.max e (fexp 53 1024 (lead m e)) /\
  (0 < shr_m r.1 -> lead (shr_m r.1) r.2 <= lead m e).
Proof.
  intros Hm. unfold shr_fexp, shr. cbn zeta. fold (lead m e).
  assert (shr_m (shr_record_of_loc m l) = m) as E by (by destruct l as [|[]]).
  destruct (fexp 53 1024 (lead m e) - e)%Z as [|p|p] eqn:Ed; cbn [fst snd].
  - rewrite E. split_and!; [done|lia|lia].
  - rewrite shr_m_iter, E by (by rewrite E).
    pose proof (Z.pow_pos_nonneg 2 (Z.pos p)). split_and!; [apply Z.div_pos; lia|lia|].
    intros Hpos. unfold lead. set (q := m / 2 ^ Z.pos p) in *.
    enough (Zdigits2 q + Z.pos p <= Zdigits2 m) by lia.
    rewrite <- Zdigits2_mul_pow by lia.
    assert (q * 2 ^ Z.pos p <= m) by (rewrite Z.mul_comm; apply Z.mul_div_le; lia).
    apply Zdigits2_le; [apply Zdigits2_nonneg|].
    pose proof (Zdigits2_lt m Hm). split; [nia|lia].
  - rewrite E. split_and!; [done|lia|lia].
Qed.

Lemma round_even_succ m l : m <= round_nearest_even m l <= m + 1.
Proof. unfold round_nearest_even. destruct l as [|[]]; [lia| |lia|lia]. destruct (Z.even m); lia. Qed.

Lemma binary_round_aux_below s m e l t :
  0 <= m -> e <= t -> lead m e <= t -> -1074 <= t <= 970 ->
  below (t + 1) (binary_round_aux 53 1024 s m e l).
Proof.
  intros Hm He Ht Hr. unfold binary_round_aux.
  pose proof (shr_fexp_lead m e l Hm) as H1. destruct (shr_fexp 53 1024 m e l) as [r1 e1].
  cbn in H1. destruct H1 as (H1 & E1 & T1).
  pose proof (round_even_succ (shr_m r1) (loc_of_shr_record r1)) as Hre.
  set (m2 := round_nearest_even _ _) in *.
  assert (e1 <= t) as He1 by (rewrite E1, fexp_le; lia).
  assert (lead m2 e1 <= t + 1) as Ht2.
  { destruct (Z.eq_dec (shr_m r1) 0) as [E0|E0].
    - assert (m2 = 0 \/ m2 = 1) as [-> | ->] by lia; unfold lead;
        [change (Zdigits2 0) with 0|change (Zdigits2 1) with 1]; lia.
    - unfold lead in *. pose proof (Zdigits2_lt (shr_m r1) H1) as Hlt.
      assert (Zdigits2 m2 <= Zdigits2 (shr_m r1) + 1); [|lia].
      pose proof (Zdigits2_nonneg (shr_m r1)). apply Zdigits2_le; [lia|].
      rewrite Z.pow_add_r by lia. lia. }
  pose proof (shr_fexp_lead m2 e1 loc_Exact ltac:(lia)) as H2.
  destruct (shr_fexp 53 1024 m2 e1 loc_Exact) as [r2 e2]. cbn in H2.
  destruct H2 as (H2 & E2 & T2). destruct (shr_m r2) as [|p|p]; [done| |lia].
  rewrite (proj2 (Z.leb_le e2 (1024 - 53))) by (rewrite E2, fexp_le; lia).
  cbn. specialize (T2 ltac:(lia)). lia.
Qed.

Lemma iter_double m d : Z.pos (Pos.iter xO m d) = Z.pos m * 2 ^ Z.pos d.
Proof.
  induction d as [|d IH] using Pos.peano_ind; [cbn; lia|].
  rewrite Pos.iter_succ, Pos2Z.inj_xO, IH, Pos2Z.inj_succ, Z.pow_succ_r by lia. lia.
Qed.

Lemma shl_align_value m e e' :
  let r := shl_align m e e' in
  r.2 = Z.min e e' /\ Z.pos r.1 = Z.pos m * 2 ^ (e - r.2).
Proof.
  unfold shl_align. destruct (e' - e)%Z as [|p|p] eqn:E; cbn [fst snd];
    [split; [lia|by rewrite Z.sub_diag, Z.mul_1_r]..|].
  split; [lia|]. rewrite iter_double. do 2 f_equal. lia.
Qed.

Lemma binary_round_below s m e t :
  e <= t -> lead (Z.pos m) e <= t -> -1074 <= t <= 970 ->
  below (t + 1) (binary_round 53 1024 s m e).
Proof.
  intros He Ht Hr. unfold binary_round.
  pose proof (shl_align_value m e (fexp 53 1024 (Z.pos (digits2_pos m) + e))) as H.
  destruct (shl_align _ _ _) as [m' e']. cbn in H. destruct H as [E1 E2].
  apply binary_round_aux_below; [lia|lia| |done].
  unfold lead in *. rewrite E2, Zdigits2_mul_pow by lia. lia.
Qed.

Lemma binary_normalize_below m e z t :
  e <= t -> Z.abs m < 2 ^ (t - e) -> -1074 <= t <= 970 ->
  below (t + 1) (binary_normalize 53 1024 m e z).
Proof.
  intros He Hm Hr. destruct m as [|p|p]; [done| |]; (apply binary_round_below; [done| |done]);
    unfold lead; enough (Zdigits2 (Z.pos p) <= t - e) by lia; apply Zdigits2_le; lia.
Qed.

(** ** The operations *)

Lemma fmul_below t1 t2 x y :
  below t1 x -> below t2 y -> -1074 <= t1 + t2 <= 970 -> below (t1 + t2 + 1) (fmul x y).
Proof.
  intros Hx Hy Ht. unfold fmul. destruct x as [| | |sx mx ex], y as [| | |sy my ey]; try done.
  cbn [SFmul]. cbn [below] in *. unfold lead in *.
  assert (0 < Zdigits2 (Z.pos mx)) by (rewrite Zdigits2_log2 by lia; pose proof (Z.log2_nonneg (Z.pos mx)); lia).
  assert (0 < Zdigits2 (Z.pos my)) by (rewrite Zdigits2_log2 by lia; pose proof (Z.log2_nonneg (Z.pos my)); lia).
  apply binary_round_aux_below; [lia|lia| |done]. unfold lead.
  assert (Zdigits2 (Z.pos (mx * my)) <= Zdigits2 (Z.pos mx) + Zdigits2 (Z.pos my)); [|lia].
  apply Zdigits2_le; [lia|]. rewrite Z.pow_add_r by lia.
  pose proof (Zdigits2_lt (Z.pos mx)). pose proof (Zdigits2_lt (Z.pos my)). nia.
Qed.

(** A finite mantissa aligned to an exponent that is not larger. *)
Lemma aligned_lt m e e' t :
  e' <= e -> lead (Z.pos m) e <= t -> Z.pos (fst (shl_align m e e')) < 2 ^ (t - e').
Proof.
  intros He Ht. pose proof (shl_align_value m e e') as H.
  destruct (shl_align m e e') as [m' e2]. cbn in H |- *. destruct H as [E1 E2].
  assert (e2 = e') as -> by lia. rewrite E2. unfold lead in Ht.
  pose proof (Zdigits2_lt (Z.pos m) ltac:(lia)). pose proof (Zdigits2_nonneg (Z.pos m)).
  apply Z.lt_le_trans with (2 ^ Zdigits2 (Z.pos m) * 2 ^ (e - e')).
  - apply Z.mul_lt_mono_pos_r; [by apply Z.pow_pos_nonneg; lia|done].
  - rewrite <- Z.pow_add_r by lia. apply Z.pow_le_mono_r; lia.
Qed.

Lemma lead_exponent m e t : lead (Z.pos m) e <= t -> e < t.
Proof.
  unfold lead. rewrite Zdigits2_log2 by lia. pose proof (Z.log2_nonneg (Z.pos m)). lia.
Qed.

Lemma fadd_below t x y :
  below t x -> below t y -> -1074 <= t <= 968 -> below (t + 2) (fadd x y).
Proof.
  intros Hx Hy Ht. unfold fadd.
  destruct x as [sx| | |sx mx ex], y as [sy| | |sy my ey]; try done.
  - cbn. by destruct sx, sy.
  - cbn in *. lia.
  - cbn in *. lia.
  - cbn [SFadd]. cbn [below] in *. set (ez := Z.min ex ey).
    pose proof (lead_exponent _ _ _ Hx). pose proof (lead_exponent _ _ _ Hy).
    pose proof (aligned_lt mx ex ez t ltac:(lia) Hx).
    pose proof (aligned_lt my ey ez t ltac:(lia) Hy).
    replace (t + 2) with (t + 1 + 1) by lia. apply binary_normalize_below; [lia| |lia].
    replace (t + 1 - ez) with (Z.succ (t - ez)) by lia. rewrite Z.pow_succ_r by lia.
    destruct sx, sy; cbn [cond_Zopp]; lia.
Qed.

(** Division by a number of magnitude at least [2 ^ (t2 - 1)]. *)
Lemma fdiv_below t1 t2 x sy my ey :
  below t1 x -> t2 <= lead (Z.pos my) ey -> -1074 <= t1 - t2 + 1 <= 970 ->
  below (t1 - t2 + 2) (fdiv x (S754_finite sy my ey)).
Proof.
  intros Hx Hy Ht. unfold fdiv. destruct x as [| | |sx mx ex]; try done.
  cbn [below] in Hx. cbn [SFdiv]. unfold SFdiv_core_binary. unfold lead in *.
  set (d1 := Zdigits2 (Z.pos mx)) in *. set (d2 := Zdigits2 (Z.pos my)) in *.
  set (e' := Z.min _ _). set (s := (ex - ey - e')%Z).
  set (m' := match s with Z.pos _ => Z.shiftl (Z.pos mx) s | 0 => Z.pos mx | Z.neg _ => 0 end).
  assert (0 <= s) as Hs by lia.
  assert (m' = Z.pos mx * 2 ^ s) as Em.
  { unfold m'. destruct s eqn:Es; [lia|by rewrite Z.shiftl_mul_pow2|lia]. }
  pose proof (Z_div_mod m' (Z.pos my) ltac:(lia)) as Hdm.
  destruct (Z.div_eucl m' (Z.pos my)) as [q r]. destruct Hdm as [Hdm Hr].
  assert (0 < d2) by (unfold d2; rewrite Zdigits2_log2 by lia; pose proof (Z.log2_nonneg (Z.pos my)); lia).
  assert (0 < d1) by (unfold d1; rewrite Zdigits2_log2 by lia; pose proof (Z.log2_nonneg (Z.pos mx)); lia).
  assert (0 <= q) as Hq by nia.
  replace (t1 - t2 + 2) with (t1 - t2 + 1 + 1) by lia.
  apply binary_round_aux_below; [done| | |lia].
  { unfold e'. rewrite fexp_le. lia. }
  unfold lead. destruct (Z.eq_dec q 0) as [->|Hq0].
  { cbn. unfold e'. rewrite fexp_le. lia. }
  enough (Zdigits2 q <= d1 + s - d2 + 1) by lia.
  pose proof (Zdigits2_ge (Z.pos my) ltac:(lia)) as H2. fold d2 in H2.
  pose proof (Zdigits2_lt (Z.pos mx) ltac:(lia)) as H1. fold d1 in H1.
  assert (q * 2 ^ (d2 - 1) < 2 ^ (d1 + s)) as Hlt.
  { apply Z.le_lt_trans with m'; [nia|]. rewrite Em, Z.pow_add_r by lia.
    apply Z.mul_lt_mono_pos_r; [by apply Z.pow_pos_nonneg|done]. }
  assert (d2 - 1 < d1 + s) as Hd.
  { apply (Z.pow_lt_mono_r_iff 2); [lia|lia|]. pose proof (Z.pow_pos_nonneg 2 (d2 - 1)). nia. }
  apply Zdigits2_le; [lia|]. split; [done|].
  apply (Z.mul_lt_mono_pos_r (2 ^ (d2 - 1))); [apply Z.pow_pos_nonneg; lia|].
  rewrite <- Z.pow_add_r by lia. by replace (d1 + s - d2 + 1 + (d2 - 1)) with (d1 + s) by lia.
Qed.

(** ** Integers *)

Lemma float_of_int_below z t :
  0 <= t <= 970 -> Z.abs z < 2 ^ t -> below (t + 1) (float_of_int z).
Proof. intros Ht Hz. apply binary_normalize_below; [lia| |lia]. by rewrite Z.sub_0_r. Qed.

(** A positive integer of at most 53 bits as a float: its leading bit is where the
    integer has it. *)
Lemma float_of_pos z :
  0 < z < 2 ^ 53 -> exists m e, float_of_int z = S754_finite false m e /\ 1 <= lead (Z.pos m) e.
Proof.
  intros Hz. destruct z as [|p|p]; try lia. unfold float_of_int, binary_normalize, binary_round.
  pose proof (shl_align_value p 0 (fexp 53 1024 (Z.pos (digits2_pos p) + 0))) as H.
  destruct (shl_align _ _ _) as [m e]. cbn [fst snd] in H. destruct H as [He Hm].
  set (d := Z.pos (digits2_pos p)) in *.
  assert (Zdigits2 (Z.pos p) = d) as Ed by done.
  assert (d <= 53) as Hd by (rewrite <- Ed; apply Zdigits2_le; lia).
  rewrite fexp_le in He. assert (e = d - 53) as -> by lia.
  assert (Zdigits2 (Z.pos m) = 53) as Em
    by (rewrite Hm, Zdigits2_mul_pow, Ed by lia; lia).
  assert (forall s, shr_fexp 53 1024 (Z.pos m) (d - 53) loc_Exact = (s, d - 53) <->
    s = shr_record_of_loc (Z.pos m) loc_Exact) as Hshr.
  { intros s. unfold shr_fexp. rewrite Em, fexp_le.
    replace (Z.max (53 + (d - 53) - 53) (-1074) - (d - 53)) with 0 by lia. cbn. split; [by intros [= ->]|by intros ->]. }
  unfold binary_round_aux. rewrite (proj2 (Hshr _) eq_refl). cbn [shr_m shr_record_of_loc
    loc_of_shr_record round_nearest_even]. rewrite (proj2 (Hshr _) eq_refl).
  cbn [shr_m shr_record_of_loc]. rewrite (proj2 (Z.leb_le _ _)) by lia.
  exists m, (d - 53). split; [done|]. unfold lead. rewrite Em. unfold d. lia.
Qed.
