(* ===== verification/Engine.v ===== *)
(** * The benchmark engines

    [backend/app/services/gpu_engine.py] and the choice between its engines in
    [_process_job] of [workers/benchmark_worker.py].  What [nvidia-smi]
    answers and what [random()] draws are arguments; an exception is its text.
    Python's float arithmetic is binary64, its [round] the decimal closest to
    the exact value, ties to even. *)
From Stdlib Require Import Ascii.
From S2P Require Export FloatBounds Json Http.
From S2P Require Import Backend.

(** ** Python *)

(** [round(x, k)] of a float. *)
Definition py_round (x : float64) (k : Z) : float64 :=
  match x with
  | S754_finite s m e =>
      if 0 <=? e then x
      else default x (parse_decimal s (div_even (Z.pos m * 10 ^ k) (- e)) (- k))
  | _ => x
  end.

(** The float an [int] is converted to in arithmetic; [None] is
    [OverflowError]. *)
Definition py_float_of_int (z : Z) : option float64 :=
  let f := float_of_int z in if is_finite f then Some f else None.

(** [max(x, y)] returns its first argument unless the second is greater. *)
Definition py_max (x y : float64) : float64 := if SFltb x y then y else x.

(** [random()] is a multiple of [2 ^ -53] in [0, 1), and [uniform(a, b)] is
    [a + (b - a) * random()]. *)
Definition random_float (draw : Z) : float64 := binary_normalize 53 1024 draw (-53) false.

Definition uniform (a b : Z) (draw : Z) : float64 :=
  fadd (float_of_int a) (fmul (float_of_int (b - a)) (random_float draw)).

(** [s.upper().startswith("H")]: besides h and H, the letter U+1E96 becomes an
    H and a combining line. *)
Definition upper_starts_H (s : string) : bool :=
  is_prefix "H" s || is_prefix "h" s || is_prefix (bytes [225; 186; 150]) s.

(** [s.split(",")]. *)
Fixpoint split_comma (s : string) : list string :=
  match s with
  | EmptyString => [EmptyString]
  | String a s' =>
      if byte_val a =? 44 then EmptyString :: split_comma s'
      else match split_comma s' with
           | [] => [String a EmptyString]
           | x :: l => String a x :: l
           end
  end.

Fixpoint is_ascii (s : string) : bool :=
  match s with
  | EmptyString => true
  | String a s' => (byte_val a <? 128) && is_ascii s'
  end.

(** [str.strip] on ASCII text. *)
Definition py_space (a : ascii) : bool :=
  let z := byte_val a in in_range 9 13 z || in_range 28 32 z.

Fixpoint lstrip (s : string) : string :=
  match s with
  | String a s' => if py_space a then lstrip s' else s
  | EmptyString => s
  end.

Fixpoint rstrip (s : string) : string :=
  match s with
  | EmptyString => EmptyString
  | String a s' =>
      match rstrip s' with
      | EmptyString => if py_space a then EmptyString else String a EmptyString
      | t => String a t
      end
  end.

Definition strip (s : string) : string := rstrip (lstrip s).

(** [float(s)] on ASCII text: an underscore is dropped if it is between two
    digits, and refused otherwise. *)
Fixpoint drop_underscores (after_digit : bool) (s : string) : option string :=
  match s with
  | EmptyString => Some EmptyString
  | String a s' =>
      if byte_val a =? 95 then
        match s' with
        | String b _ => if after_digit && is_digit b then drop_underscores false s' else None
        | EmptyString => None
        end
      else String a <$> drop_underscores (is_digit a) s'
  end.

Definition take_sign (s : string) : bool * string :=
  match s with
  | String a s' =>
      if byte_val a =? 45 then (true, s') else if byte_val a =? 43 then (false, s') else (false, s)
  | EmptyString => (false, s)
  end.

Fixpoint lower (s : string) : string :=
  match s with
  | EmptyString => EmptyString
  | String a s' =>
      String (if in_range 65 90 (byte_val a) then byte_of (byte_val a + 32) else a) (lower s')
  end.

(** The exponent part, or nothing. *)
Definition take_exponent (s : string) : option Z :=
  match s with
  | EmptyString => Some 0
  | String a s' =>
      if (byte_val a =? 101) || (byte_val a =? 69) then
        let '(neg, t) := take_sign s' in
        match take_digits t with
        | (String b d, EmptyString) =>
            Some (if neg then - digits_val (String b d) else digits_val (String b d))
        | _ => None
        end
      else None
  end.

(** A decimal number; one that is too large is an infinity. *)
Definition decimal_float (neg : bool) (s : string) : option float64 :=
  let '(i, r) := take_digits s in
  let '(f, r) := match starts 46 r with Some t => take_digits t | None => (EmptyString, r) end in
  match i +:+ f with
  | EmptyString => None
  | digits =>
      e ← take_exponent r;
      Some (default (S754_infinity neg)
              (parse_decimal neg (digits_val digits) (e - Z.of_nat (String.length f))))
  end.

Definition ascii_float (s : string) : option float64 :=
  t ← drop_underscores false s;
  let '(neg, t) := take_sign t in
  if bool_decide (lower t = "inf") || bool_decide (lower t = "infinity") then Some (S754_infinity neg)
  else if bool_decide (lower t = "nan") then Some S754_nan
  else decimal_float neg t.

Section Engines.
(** Python on text that is not ASCII, the text of the exceptions of [float],
    and [bytes.decode]. *)
Variable unicode_float : string -> option float64.
Variable float_exception : string -> string.
Variable decode_exception : string -> string.

(** [float(x.strip())]. *)
Definition stripped_float (s : string) : string + float64 :=
  match if is_ascii s then ascii_float (strip s) else unicode_float s with
  | Some f => inr f
  | None => inl (float_exception s)
  end.

(** ** [SimulatedGPUBenchmarkEngine.run] *)

Definition overflow_exception : string := "int too large to convert to float".

Definition simulated_run (draw1 draw2 : Z) (gpu_model workload : string) (batch : Z) :
    string + EngineResult :=
  let base := if bool_decide (workload = "inference") then float_of_int 2200 else float_of_int 1300 in
  let architecture_multiplier :=
    if upper_starts_H gpu_model then fdiv (float_of_int 5) (float_of_int 4)
    else fdiv (float_of_int 11) (float_of_int 10) in
  match py_float_of_int (Z.max batch 1), py_float_of_int batch with
  | Some divisor, Some size =>
      let throughput := fdiv (fmul base architecture_multiplier) divisor in
      let latency_ms := fadd (uniform 3 12 draw1) (fdiv size (float_of_int 16)) in
      let memory_bandwidth_gbps := uniform 600 1500 draw2 in
      inr (MkEngine (py_round throughput 2) (py_round latency_ms 3)
             (py_round memory_bandwidth_gbps 2))
  | _, _ => inl overflow_exception
  end.

(** ** [NvidiaRuntimeAdapter] *)

(** A subprocess: the text of the exception of starting it, or its return code
    and its output. *)
Definition subprocess : Type := string + (Z * string).

Definition runtime_available (smi : subprocess) : bool :=
  match smi with
  | inl _ => false
  | inr (returncode, _) => returncode =? 0
  end.

(** [[float(x.strip()) for x in parts[:2]]], unpacked into two variables. *)
Definition two_floats (parts : list string) : string + (float64 * float64) :=
  match parts with
  | [] => inl "not enough values to unpack (expected 2, got 0)"
  | [x] =>
      match stripped_float x with
      | inl exc => inl exc
      | inr _ => inl "not enough values to unpack (expected 2, got 1)"
      end
  | x :: y :: _ =>
      match stripped_float x, stripped_float y with
      | inl exc, _ => inl exc
      | inr _, inl exc => inl exc
      | inr u, inr v => inr (u, v)
      end
  end.

Definition nvidia_run (name_query usage_query : subprocess) (batch : Z) : string + EngineResult :=
  if negb (runtime_available name_query) then inl "nvidia runtime unavailable" else
  match usage_query with
  | inl exc => inl exc
  | inr (_, stdout) =>
      if negb (valid_utf8 stdout) then inl (decode_exception stdout) else
      match two_floats (split_comma stdout) with
      | inl exc => inl exc
      | inr (utilization, memory_used) =>
          match py_float_of_int (Z.max batch 1) with
          | None => inl overflow_exception
          | Some divisor =>
              let half25 := fdiv (float_of_int 25) (float_of_int 2) in
              inr (MkEngine
                (py_round (fdiv (fmul (py_max (float_of_int 1) utilization) half25) divisor) 2)
                (py_round (fdiv (py_max (float_of_int 1)
                                   (SFsub 53 1024 (float_of_int 120) utilization))
                             (float_of_int 10)) 3)
                (py_round (py_max (float_of_int 200) (fdiv memory_used (float_of_int 10))) 2))
          end
      end
  end.

(** ** The engine a worker takes for a message, and what comes of it *)

Record host : Type := MkHost {
  first_query : subprocess;
  second_query : subprocess;
  usage_query : subprocess;
  draw_latency : Z;
  draw_bandwidth : Z
}.

Definition run_engine (h : host) (m : job_message) : string + (string * EngineResult) :=
  let '(engine, result) :=
    if runtime_available (first_query h)
    then ("NvidiaRuntimeAdapter", nvidia_run (second_query h) (usage_query h) (msg_batch m))
    else ("SimulatedGPUBenchmarkEngine",
          simulated_run (draw_latency h) (draw_bandwidth h) (msg_gpu m) (msg_workload m)
            (msg_batch m)) in
  match result with
  | inl exc => inl exc
  | inr r => inr (engine, r)
  end.

(** One turn of [run_forever] on a host. *)
Context {Web : WebStack}.

Definition host_outcome (h : host) (b : backend) : string + (string * EngineResult) :=
  match dequeue b with
  | Some (m, _) => run_engine h m
  | None => inl EmptyString
  end.

Definition worker_on (h : host) (b : backend) : backend := worker_turn (host_outcome h b) b.
End Engines.
