(* ===== verification/ServiceTheorems.v ===== *)
(** * Theorems on the read-only routes and on the engines

    What a history shows, and what the hardware of a worker's host makes of
    its jobs. *)
From Stdlib Require Import Ascii.
From S2P Require Import WebInstance History Engine.

(** ** The history of a GPU model *)

(** C34. The history of a GPU model is its newest jobs: at most the limit, as
    many as there are, each once and newest first; every item shows its row,
    with a measurement exactly if the job is completed, and no job that is
    left out is newer than one that is shown. *)
Theorem History_newest_first {Web : WebStack} {WebL : WebStackLaws} (instant : string -> Z)
    (scan : list (string * Benchmark) -> list (string * Benchmark)) (gpu : string)
    (query : option Z) (limit : Z) (b : backend) :
  (forall l, scan l ≡ₚ l) -> backend_steps backend_empty b -> history_limit query = Some limit ->
  let h := get_gpu_history instant scan gpu limit b in
  length h = Nat.min (Z.to_nat limit) (length (rows_of_gpu gpu b)) /\ (length h <= 500)%nat /\
  NoDup (item_job_id <$> h) /\
  StronglySorted (fun i j => instant (item_submitted_at j) <= instant (item_submitted_at i)) h /\
  (forall i, i ∈ h -> exists r, rows b !! item_job_id i = Some r /\
     gpu_models b !! gpu = Some (gpu_model_id r) /\ i = history_item b (item_job_id i, r) /\
     (is_Some (item_throughput i) <-> status r = completed)) /\
  (forall id r i, rows b !! id = Some r -> gpu_models b !! gpu = Some (gpu_model_id r) ->
     id ∉ (item_job_id <$> h) -> i ∈ h -> instant (created_at r) <= instant (item_submitted_at i)).
Proof.
  intros Hscan Hb Hl h. destruct (steps_inv _ _ empty_inv Hb) as [I _].
  set (rs := history_rows instant scan gpu limit b).
  assert (h = history_item b <$> rs) as Eh by done.
  assert (item_job_id <$> h = fst <$> rs) as Eid.
  { rewrite Eh, <- list_fmap_compose. by apply list_fmap_ext; intros ? []. }
  assert (1 <= limit <= 500) as Hlim.
  { unfold history_limit in Hl. destruct (in_range 1 500 _) eqn:E; [|done]. injection Hl as <-.
    unfold in_range in E. apply andb_prop in E as [?%Z.leb_le ?%Z.leb_le]. done. }
  assert (length h = Nat.min (Z.to_nat limit) (length (rows_of_gpu gpu b))) as Hlen.
  { rewrite Eh, length_fmap. unfold rs, history_rows.
    by rewrite length_take, (history_sort_permutes instant scan Hscan). }
  split_and!; [done|lia| | | |].
  - rewrite Eid. by apply history_rows_ids.
  - rewrite Eh. pose proof (history_rows_sorted instant scan gpu limit b) as Hs. fold rs in Hs.
    clear -Hs. induction Hs as [|[id r] l Hl IH Hf]; cbn; [constructor|].
    constructor; [done|]. apply Forall_fmap. eapply Forall_impl; [exact Hf|]. by intros [].
  - intros i. rewrite Eh. intros ([id r] & -> & Hp)%list_elem_of_fmap.
    apply history_rows_elem, rows_of_gpu_spec in Hp as (g & Hg & Hr & <-); [|done].
    exists r. split_and!; [done|done|done|]. cbn. rewrite fmap_is_Some, (inv_results _ I id).
    split; [|eauto]. intros (r2 & H2 & Hs2). cbn in Hr. congruence.
  - intros id r i Hr Hg Hn Hi. rewrite Eid in Hn. rewrite Eh in Hi.
    apply list_elem_of_fmap in Hi as ([id2 r2] & -> & Hp).
    apply (history_rows_rest instant scan Hscan gpu limit b (id2, r2) (id, r) Hp).
    + apply rows_of_gpu_spec. eauto.
    + intros Hin. apply Hn, list_elem_of_fmap. by exists (id, r).
Qed.

(** A job of each kind in the tables: one completed, one queued. *)
Definition measured_once : EngineResult :=
  MkEngine (S754_finite false 6047313952768000 (-43)) (float_of_int 8) (float_of_int 1024).

Definition served_backend : backend :=
  fst (create_benchmark_job Datatypes.id (MkCreate "H100" "training" 8 (Some "ns/b"))
    (worker_turn (inr ("SimulatedGPUBenchmarkEngine", measured_once))
      (fst (create_benchmark_job Datatypes.id (MkCreate "H100" "inference" 32 (Some "ns/a"))
              backend_empty)))).

Lemma served_steps : backend_steps backend_empty served_backend.
Proof.
  apply (steps_create backend_empty Datatypes.id _), steps_refl. apply steps_worker.
  apply (steps_create backend_empty Datatypes.id _); apply steps_refl.
Qed.

Lemma History_newest_first_witness :
  let h := get_gpu_history (fun _ => 0) Datatypes.id "H100" 100 served_backend in
  length h = 2%nat /\ forall i, i ∈ h -> item_job_id i = "uuid-1" -> is_Some (item_throughput i).
Proof.
  destruct (History_newest_first (fun _ => 0) Datatypes.id "H100" None 100 served_backend)
    as (Hl & _ & _ & _ & Hi & _); [done|exact served_steps|reflexivity|].
  split; [rewrite Hl; vm_compute; reflexivity|]. intros i Hin Eid.
  destruct (Hi i Hin) as (r & Hr & _ & _ & Hs). apply Hs. rewrite Eid in Hr.
  vm_compute in Hr. by injection Hr as <-.
Defined.

(** The order and the limit on rows of three moments. *)
Example history_of_three :
  let row (at_ : string) := MkBenchmark "g" "inference" 1 queued at_ 0 at_ at_ in
  let b := MkBackend (list_to_map [("a", row "2"); ("b", row "33"); ("c", row "1")])
             {["T4" := "g"]} ∅ [] [] 3 true in
  item_job_id <$> get_gpu_history digits_val Datatypes.id "T4" 2 b = ["b"; "a"].
Proof. vm_compute. reflexivity. Qed.

(** ** The simulated engine *)

Lemma random_below draw : 0 <= draw < 2 ^ 53 -> below 1 (random_float draw).
Proof. intros Hd. apply (binary_normalize_below draw (-53) false 0); lia. Qed.

Lemma uniform_below a b draw :
  0 <= a < 2048 -> 0 <= b - a < 2048 -> 0 <= draw < 2 ^ 53 -> below 16 (uniform a b draw).
Proof.
  intros Ha Hb Hd. unfold uniform. apply (fadd_below 14).
  - eapply below_mono, (float_of_int_below a 11); lia.
  - eapply below_mono, (fmul_below 12 1); [lia| |by apply random_below|lia].
    apply (float_of_int_below (b - a) 11); lia.
  - lia.
Qed.

Lemma py_round_finite x k t : below t x -> is_finite (py_round x k) = true.
Proof.
  intros Hx. destruct x as [| | |s m e]; try done. cbn. destruct (0 <=? e); [done|].
  destruct (parse_decimal _ _ _) as [f|] eqn:E; cbn; [|done]. by eapply parse_decimal_finite.
Qed.

Lemma peak_below (inference hopper : bool) :
  below 13 (fmul (if inference then float_of_int 2200 else float_of_int 1300)
    (if hopper then fdiv (float_of_int 5) (float_of_int 4)
     else fdiv (float_of_int 11) (float_of_int 10))).
Proof. destruct inference, hopper; vm_compute; discriminate. Qed.

(** Every simulation of a batch that the database can hold measures numbers. *)
Lemma simulated_run_measures draw1 draw2 gpu workload batch :
  0 <= draw1 < 2 ^ 53 -> 0 <= draw2 < 2 ^ 53 -> 0 < batch < 2 ^ 31 ->
  exists e, simulated_run draw1 draw2 gpu workload batch = inr e /\
    is_finite (throughput e) = true /\ is_finite (latency_ms e) = true /\
    is_finite (memory_bandwidth_gbps e) = true.
Proof.
  intros H1 H2 Hb. unfold simulated_run. rewrite Z.max_l by lia.
  destruct (float_of_pos batch) as (m & e & E & Ht); [lia|].
  assert (below 32 (float_of_int batch)) as Hbelow by (apply (float_of_int_below batch 31); lia).
  unfold py_float_of_int. rewrite (below_finite _ _ Hbelow). eexists. split; [reflexivity|].
  cbn [throughput latency_ms memory_bandwidth_gbps]. split_and!; eapply py_round_finite.
  - rewrite E. eapply (fdiv_below 13 1); [|exact Ht|lia].
    pose proof (peak_below (bool_decide (workload = "inference")) (upper_starts_H gpu)) as Hp.
    by destruct (bool_decide _), (upper_starts_H gpu).
  - apply (fadd_below 32); [eapply below_mono, uniform_below; lia| |lia].
    destruct (float_of_pos 16) as (m16 & e16 & E16 & H16); [lia|]. rewrite E16.
    eapply below_mono, (fdiv_below 32 4); [lia|done| |lia].
    injection E16 as <- <-. by vm_compute.
  - by apply uniform_below; [lia|lia|].
Qed.

(** C36. A job whose worker finds no NVIDIA runtime ends with its first turn:
    for every batch size the database can hold and whatever the draws, the
    simulation measures three numbers - no infinity, no NaN - which are stored
    under the simulator's name, and the job is completed and off the queue. *)
Theorem Simulated_jobs_complete {Web : WebStack} {WebL : WebStackLaws}
    (unicode_float : string -> option float64) (float_exception decode_exception : string -> string)
    (h : host) (b b1 : backend) (m : job_message) :
  backend_steps backend_empty b -> dequeue b = Some (m, b1) ->
  runtime_available (first_query h) = false ->
  0 <= draw_latency h < 2 ^ 53 -> 0 <= draw_bandwidth h < 2 ^ 53 -> 0 < msg_batch m < 2 ^ 31 ->
  let b' := worker_on unicode_float float_exception decode_exception h b in
  (msg_id m ∉ msg_id <$> queue b') /\
  (exists r x, rows b' !! msg_id m = Some r /\ status r = completed /\
  results b' !! msg_id m = Some x /\ res_engine x = "SimulatedGPUBenchmarkEngine" /\
  res_attempt x = msg_attempt m + 1 /\
  is_finite (throughput (res_metrics x)) = true /\ is_finite (latency_ms (res_metrics x)) = true /\
  is_finite (memory_bandwidth_gbps (res_metrics x)) = true).
Proof.
  intros Hb Hd Hn H1 H2 Hbatch b'. destruct (steps_inv _ _ empty_inv Hb) as [I _].
  destruct (simulated_run_measures (draw_latency h) (draw_bandwidth h) (msg_gpu m) (msg_workload m)
    (msg_batch m) H1 H2 Hbatch) as (e & E & Hf).
  subst b'. unfold worker_on, host_outcome, run_engine. rewrite Hd, Hn, E.
  destruct (worker_result b m b1 (inr ("SimulatedGPUBenchmarkEngine", e)) I Hd)
    as (r & Hr & Hs & ->). cbn zeta iota.
  destruct (inv_dequeue _ _ _ I Hd) as (_ & _ & _ & _ & Hq).
  cbn [queue rows results]. rewrite (proj1 (mark_running_queues _ _)), !lookup_insert_eq.
  destruct Hf as (? & ? & ?). split; [done|]. eexists _, _. by split_and!.
Qed.

(** A host without the NVIDIA tools. *)
Definition plain_host (draw1 draw2 : Z) : host :=
  MkHost (inl "[Errno 2] No such file or directory: 'nvidia-smi'") (inl "") (inl "") draw1 draw2.

Definition worker_turn_on : host -> backend -> backend :=
  worker_on (fun _ => None) (fun s => s) (fun s => s).

Lemma Simulated_jobs_complete_witness :
  exists r, rows (worker_turn_on (plain_host (2 ^ 52) 0) served_backend) !! "uuid-2" = Some r /\
    status r = completed.
Proof.
  destruct (dequeue served_backend) as [[m b1]|] eqn:Hd; [|vm_compute in Hd; discriminate].
  assert (m = MkMessage "uuid-2" "H100" "training" 8 0) as -> by (vm_compute in Hd; by injection Hd).
  destruct (Simulated_jobs_complete (fun _ => None) (fun s => s) (fun s => s)
    (plain_host (2 ^ 52) 0) served_backend b1 _ served_steps Hd eq_refl) as (_ & r & x & Hr & Hs & _);
    [split; [discriminate|reflexivity]|split; [discriminate|reflexivity]|split; reflexivity|].
  exists r. split; [exact Hr|exact Hs].
Defined.

(** What the simulation gives: a batch of 32 on an H100, and one so large that
    the throughput is rounded to nothing. *)
Example simulated_h100 :
  simulated_run (2 ^ 52) 0 "h100" "inference" 32 =
    inr (MkEngine (py_round (fdiv (float_of_int 2750) (float_of_int 32)) 2)
           (fdiv (float_of_int 19) (float_of_int 2)) (float_of_int 600)).
Proof. vm_compute. reflexivity. Qed.

Example simulated_zero :
  (fun e => throughput e) <$> (match simulated_run 0 0 "H100" "inference" 1000000 with
                               | inr e => Some e | inl _ => None end) = Some (S754_zero false).
Proof. vm_compute. reflexivity. Qed.

(** ** The NVIDIA adapter *)

Lemma split_comma_cons s t :
  has_byte 44 s = false -> split_comma (s +:+ "," +:+ t) = s :: split_comma t.
Proof.
  induction s as [|a s IH]; intros Hs; [done|]. rewrite append_cons. cbn in Hs |- *.
  apply orb_false_iff in Hs as [-> Hs]. change (String "," t) with ("," +:+ t). by rewrite IH.
Qed.

Lemma split_comma_none s : has_byte 44 s = false -> split_comma s = [s].
Proof.
  induction s as [|a s IH]; intros Hs; [done|]. cbn in Hs |- *.
  apply orb_false_iff in Hs as [-> Hs]. by rewrite IH.
Qed.

(** A number as [nvidia-smi] prints it. *)
Definition number_text (s : string) : Prop := s <> "" /\ all_digits s = true.

(** Its bytes are digits: no comma, no underscore, no space. *)
Lemma digits_no_byte z s : ~ 48 <= z <= 57 -> all_digits s = true -> has_byte z s = false.
Proof.
  intros Hz. induction s as [|a s IH]; [done|]. cbn. intros [Ha Hs]%andb_prop.
  apply digit_range in Ha. rewrite IH by done. destruct (Z.eqb_spec (byte_val a) z); [lia|done].
Qed.

Lemma digit_not_space a : is_digit a = true -> py_space a = false.
Proof.
  intros Ha%digit_range. unfold py_space. rewrite !in_range_false by lia. done.
Qed.

Lemma digits_ascii s : all_digits s = true -> is_ascii s = true.
Proof.
  induction s as [|a s IH]; [done|]. cbn. intros [Ha Hs]%andb_prop.
  apply digit_range in Ha. rewrite IH by done. destruct (Z.ltb_spec (byte_val a) 128); [done|lia].
Qed.

Lemma is_ascii_app s t : is_ascii (s +:+ t) = is_ascii s && is_ascii t.
Proof. induction s as [|a s IH]; [done|]. rewrite append_cons. cbn. by rewrite IH, andb_assoc. Qed.

Lemma rstrip_digits s : all_digits s = true -> rstrip s = s.
Proof.
  induction s as [|a s IH]; [done|]. cbn. intros [Ha Hs]%andb_prop. rewrite IH by done.
  destruct s; [by rewrite digit_not_space|done].
Qed.

(** Digits at the end keep what is before them. *)
Lemma rstrip_app s t : t <> "" -> rstrip t = t -> rstrip (s +:+ t) = s +:+ t.
Proof.
  intros Hne Ht. induction s as [|a s IH]; [done|]. rewrite append_cons. cbn. rewrite IH.
  destruct (s +:+ t) eqn:E; [|done]. by destruct s, t.
Qed.

Lemma drop_underscores_none b s : has_byte 95 s = false -> drop_underscores b s = Some s.
Proof.
  revert b. induction s as [|a s IH]; intros b Hs; [done|]. cbn in Hs |- *.
  apply orb_false_iff in Hs as [-> Hs]. by rewrite IH.
Qed.

(** Two numbers on two lines are not a number. *)
Lemma two_lines_no_float s t :
  number_text s -> number_text t ->
  ascii_float (strip (" " +:+ s +:+ bytes [10] +:+ t)) = None.
Proof.
  intros [Hs Ds] [Ht Dt]. destruct s as [|a s]; [done|].
  assert (is_digit a = true /\ all_digits s = true) as [Ha Ds'] by (cbn in Ds; by apply andb_prop).
  assert (strip (" " +:+ String a s +:+ bytes [10] +:+ t) = String a s +:+ bytes [10] +:+ t) as ->.
  { unfold strip. cbn [lstrip]. rewrite !append_cons. cbn [lstrip].
    change (py_space " ") with true. cbn iota. rewrite append_nil_l. cbn [lstrip].
    rewrite digit_not_space by done. rewrite <- append_cons, <- append_assoc.
    by apply rstrip_app, rstrip_digits. }
  unfold ascii_float. rewrite drop_underscores_none.
  2: { rewrite !has_byte_app, (digits_no_byte _ (String a s)), (digits_no_byte _ t) by (done || lia).
       done. }
  cbn [mbind option_bind]. rewrite append_cons. pose proof (digit_range _ Ha) as Hr.
  cbn [take_sign]. rewrite (proj2 (Z.eqb_neq _ 45)), (proj2 (Z.eqb_neq _ 43)) by lia.
  cbn [lower]. rewrite in_range_false by lia.
  rewrite !bool_decide_eq_false_2 by (intros [= ->]; vm_compute in Ha; discriminate). cbn [orb].
  unfold decimal_float. rewrite <- append_cons, take_digits_app by done. done.
Qed.

(** [nvidia-smi] on a host with several GPUs: a line for each. *)
Definition several_gpus (smi : subprocess) : Prop :=
  exists code util mem util2 rest,
    smi = inr (code, util +:+ "," +:+ (" " +:+ mem +:+ bytes [10] +:+ util2) +:+ "," +:+ rest) /\
    number_text util /\ number_text mem /\ number_text util2.

Lemma nvidia_run_several uf fe de q smi batch :
  several_gpus smi -> exists exc, nvidia_run uf fe de q smi batch = inl exc.
Proof.
  intros (code & u & s & u2 & rest & -> & Hu & Hs & Hu2). unfold nvidia_run.
  destruct (negb (runtime_available q)); [by eexists|].
  destruct (negb (valid_utf8 _)); [by eexists|].
  rewrite split_comma_cons by (apply digits_no_byte, Hu; lia).
  rewrite split_comma_cons.
  2: { rewrite !has_byte_app, (digits_no_byte _ s), (digits_no_byte _ u2)
         by (apply Hs || apply Hu2 || lia). done. }
  cbn [two_floats]. destruct (stripped_float uf fe u) as [e|f]; [by eexists|].
  unfold stripped_float at 1. rewrite !is_ascii_app.
  rewrite (digits_ascii s), (digits_ascii u2) by (apply Hs || apply Hu2).
  change (is_ascii " " && (true && (is_ascii (bytes [10]) && true))) with true. cbn iota.
  rewrite two_lines_no_float by done. by eexists.
Qed.

(** One GPU: one line of two numbers. *)
Definition single_gpu (smi : subprocess) : Prop :=
  exists code util mem,
    smi = inr (code, util +:+ "," +:+ (" " +:+ mem +:+ bytes [10])) /\
    number_text util /\ number_text mem.

Lemma ascii_valid s : is_ascii s = true -> valid_utf8 s = true.
Proof.
  unfold valid_utf8. induction s as [|a s IH]; [done|]. cbn [is_ascii].
  intros [Ha Hs]%andb_prop. cbn [runes]. rewrite Ha. cbn. by apply IH.
Qed.

Lemma ascii_float_digits s : number_text s -> exists f, ascii_float s = Some f.
Proof.
  intros [Hs Ds]. unfold ascii_float.
  rewrite drop_underscores_none by (apply digits_no_byte; [lia|done]).
  destruct s as [|a s]; [done|].
  assert (is_digit a = true) as Ha by (cbn in Ds; by apply andb_prop in Ds as [? _]).
  pose proof (digit_range _ Ha) as Hr. cbn [mbind option_bind take_sign].
  rewrite (proj2 (Z.eqb_neq _ 45)), (proj2 (Z.eqb_neq _ 43)) by lia.
  cbn [lower]. rewrite in_range_false by lia.
  rewrite !bool_decide_eq_false_2 by (intros [= ->]; vm_compute in Ha; discriminate). cbn [orb].
  unfold decimal_float. rewrite <- (append_nil_r (String a s)), take_digits_app by done.
  cbn [starts]. rewrite append_nil_r. cbn. by eexists.
Qed.

Lemma strip_digits s : number_text s -> strip (" " +:+ s +:+ bytes [10]) = s /\ strip s = s.
Proof.
  intros [Hs Ds]. destruct s as [|a s]; [done|].
  assert (is_digit a = true) as Ha by (cbn in Ds; by apply andb_prop in Ds as [? _]).
  assert (lstrip (String a s) = String a s) as El by (cbn; by rewrite digit_not_space).
  assert (forall t, all_digits t = true -> rstrip (t +:+ bytes [10]) = t) as Er.
  { induction t as [|c t IH]; [done|]. cbn [all_digits]. intros [Hc Ht]%andb_prop.
    rewrite append_cons. cbn [rstrip]. rewrite IH by done. destruct t; [|done].
    by rewrite digit_not_space. }
  unfold strip. split; [|by rewrite El, rstrip_digits].
  rewrite !append_cons, append_nil_l. cbn [lstrip]. change (py_space " ") with true. cbn iota.
  rewrite digit_not_space, <- append_cons by done. by apply Er.
Qed.

Lemma nvidia_run_single uf fe de q smi batch :
  single_gpu smi -> runtime_available q = true -> 0 < batch < 2 ^ 31 ->
  exists e, nvidia_run uf fe de q smi batch = inr e.
Proof.
  intros (code & u & s & -> & Hu & Hs) Hq Hb. unfold nvidia_run. rewrite Hq. cbn [negb].
  assert (is_ascii u = true /\ is_ascii s = true) as [Au As]
    by (split; apply digits_ascii; [apply Hu|apply Hs]).
  rewrite ascii_valid by (by rewrite !is_ascii_app, Au, As). cbn [negb].
  rewrite split_comma_cons by (apply digits_no_byte, Hu; lia).
  rewrite split_comma_none
    by (rewrite !has_byte_app, (digits_no_byte _ s) by (apply Hs || lia); done).
  cbn [two_floats]. unfold stripped_float. rewrite !is_ascii_app, Au, As.
  cbn [andb is_ascii bytes]. rewrite (proj2 (strip_digits _ Hu)), (proj1 (strip_digits _ Hs)).
  destruct (ascii_float_digits u Hu) as [f ->], (ascii_float_digits s Hs) as [g ->].
  rewrite Z.max_l by lia. unfold py_float_of_int.
  rewrite (below_finite 32) by (apply (float_of_int_below batch 31); lia). by eexists.
Qed.

Lemma several_not_measured {Web : WebStack} uf fe de h b :
  runtime_available (first_query h) = true -> several_gpus (usage_query h) ->
  measured (host_outcome uf fe de h b) = false.
Proof.
  intros Hf Hu. unfold host_outcome. destruct (dequeue b) as [[m b1]|]; [|done].
  unfold run_engine. rewrite Hf.
  by destruct (nvidia_run_several uf fe de (second_query h) _ (msg_batch m) Hu) as [exc ->].
Qed.

(** C37. One GPU measures, two never do: the adapter reads the first two
    fields between commas, and with a line for each GPU the second field runs
    into the next line.  On a host with several GPUs the three attempts of a
    job all raise; its row is failed and its message on the dead-letter queue,
    whatever the numbers are.  On a host with one, the first attempt completes
    the job under the adapter's name. *)
Theorem Several_gpus_fail_jobs {Web : WebStack} {WebL : WebStackLaws}
    (unicode_float : string -> option float64) (float_exception decode_exception : string -> string)
    (h1 h2 h3 : host) (b : backend) (m : job_message) :
  backend_steps backend_empty b -> queue b = [m] -> msg_attempt m = 0 ->
  runtime_available (first_query h1) = true ->
  let worker := worker_on unicode_float float_exception decode_exception in
  (Forall (fun h => runtime_available (first_query h) = true /\ several_gpus (usage_query h))
     [h1; h2; h3] ->
   let b' := worker h3 (worker h2 (worker h1 b)) in
   queue b' = [] /\ exists r exc, rows b' !! msg_id m = Some r /\ status r = failed /\
   dlq b' = (MkMessage (msg_id m) (msg_gpu m) (msg_workload m) (msg_batch m) 2, exc) :: dlq b) /\
  (runtime_available (second_query h1) = true -> single_gpu (usage_query h1) ->
   0 < msg_batch m < 2 ^ 31 ->
   exists r x, rows (worker h1 b) !! msg_id m = Some r /\ status r = completed /\
   results (worker h1 b) !! msg_id m = Some x /\ res_engine x = "NvidiaRuntimeAdapter").
Proof.
  intros Hb Hq Ha Hh1 worker. destruct (steps_inv _ _ empty_inv Hb) as [I _].
  set (o := host_outcome unicode_float float_exception decode_exception). split.
  - intros H b'. rewrite !Forall_cons in H. destruct H as ([F1 S1] & [F2 S2] & [F3 S3] & _).
    destruct (three_turns b m (o h1 b) (o h2 (worker h1 b)) (o h3 (worker h2 (worker h1 b))) I Hq Ha)
      as (Hq' & r & Hr & Hres).
    unfold o in Hres. rewrite !several_not_measured in Hres by done. cbn [orb] in Hres.
    destruct Hres as (Hs & exc & Hd). split; [exact Hq'|]. exists r, exc. by split_and!.
  - intros H2 H1 Hbatch.
    assert (dequeue b = Some (m, set_queues b [] (dlq b))) as Hd
      by (unfold dequeue; by rewrite Hq).
    destruct (nvidia_run_single unicode_float float_exception decode_exception (second_query h1)
      (usage_query h1) (msg_batch m) H1 H2 Hbatch) as [e E].
    unfold worker, worker_on, host_outcome, run_engine. rewrite Hd, Hh1, E.
    destruct (worker_result b m _ (inr ("NvidiaRuntimeAdapter", e)) I Hd) as (r & Hr & Hs & ->).
    cbn [rows results]. rewrite !lookup_insert_eq. eexists _, _. by split_and!.
Qed.

(** A host whose [nvidia-smi] prints two GPUs. *)
Definition two_gpu_host : host :=
  MkHost (inr (0, "H100")) (inr (0, "H100"))
    (inr (0, "35, 1024" +:+ bytes [10] +:+ "40, 2048" +:+ bytes [10])) 0 0.

Definition waiting_backend : backend :=
  fst (create_benchmark_job Datatypes.id (MkCreate "H100" "training" 8 (Some "ns/b")) backend_empty).

Lemma Several_gpus_fail_jobs_witness :
  exists r, rows (worker_turn_on two_gpu_host (worker_turn_on two_gpu_host
    (worker_turn_on two_gpu_host waiting_backend))) !! "uuid-1" = Some r /\ status r = failed.
Proof.
  assert (several_gpus (usage_query two_gpu_host)) as Hg.
  { exists 0, "35", "1024", "40", (" 2048" +:+ bytes [10]). split_and!; by vm_compute. }
  destruct (Several_gpus_fail_jobs (fun _ => None) (fun s => s) (fun s => s) two_gpu_host
    two_gpu_host two_gpu_host waiting_backend (MkMessage "uuid-1" "H100" "training" 8 0))
    as [Hfail _]; [|vm_compute; reflexivity|reflexivity|reflexivity|].
  - apply (steps_create backend_empty Datatypes.id); apply steps_refl.
  - destruct Hfail as (_ & r & exc & Hr & Hs & _).
    + repeat (constructor; [by split|]). constructor.
    + exists r. split; [exact Hr|exact Hs].
Defined.
