(* ===== verification/CrdTheorems.v ===== *)
(** * Theorems on the custom resource as JSON

    What the operator stores conforms to the CRD, a status survives the way
    through the API server, and a spec does not quite. *)
From S2P Require Import SimCluster WebInstance.
From S2P Require Import CRD Lifecycle.

(** C7. Everything the operator brings about conforms to the CRD: in every
    state reachable from an empty store, under any interleaving with other
    clients and write faults, every object has a JSON text (none of its floats
    is an infinity or a NaN) that the schema admits, so no later write of the
    operator can be refused as invalid. *)
Theorem reachable_objects_conform `{MachineryLaws} {W} `{Cluster W} `{!ClusterLaws W}
    `{TextFormsLaws} (meta : ObjectMeta -> list (string * json)) (w w' : W)
    (n : NamespacedName) (job : BenchmarkJob) :
  stored w = ∅ -> rtc sys_step w w' -> stored w' !! n = Some job ->
  exists j, encode_job meta job = Some j /\ valid job_schema j = true.
Proof.
  intros Hempty Hw Hj.
  assert (store_inv (stored w')) as Hinv.
  { eapply (sys_invariant store_inv); [exact store_inv_user|exact store_inv_machine| |exact Hw].
    rewrite Hempty. apply map_Forall_empty. }
  destruct (Hinv _ _ Hj) as (_ & Hv & Hst).
  assert (exists j, encode_job meta job = Some j) as [j Ej].
  { unfold encode_job, encode_status. rewrite (inv_finite _ _ Hst). by eexists. }
  exists j. split; [done|]. eapply valid_job; [done| |exact Ej].
  pose proof (inv_phase _ _ Hst) as Hp. unfold known_phase in Hp.
  apply bool_decide_eq_true in Hp. apply elem_of_cons in Hp as [->|Hp]; [by left|by right].
Qed.

(** C17. A status survives the API server: what a reconciliation reads back
    of a status it wrote is that status, its two times cut to whole seconds,
    provided the texts of its floats read back. *)
Theorem status_roundtrip `{TextFormsLaws} (bound : Z) (st : BenchmarkJobStatus) :
  status_inv bound st -> bound < int_max ->
  reads_back (Throughput st) -> reads_back (LatencyMs st) -> reads_back (MemoryBandwidthGbps st) ->
  exists j, encode_status st = Some j /\ valid status_schema j = true /\
    decode_status_json j = Some (truncated st) /\
    truncated (truncated st) = truncated st.
Proof.
  intros Hst Hb Ht Hl Hm.
  assert (exists j, encode_status st = Some j) as [j Ej].
  { unfold encode_status. rewrite (inv_finite _ _ Hst). by eexists. }
  exists j. split; [done|]. split; [|split].
  - eapply valid_status; [|exact Ej].
    pose proof (inv_phase _ _ Hst) as Hp. unfold known_phase in Hp.
    apply bool_decide_eq_true in Hp. apply elem_of_cons in Hp as [->|Hp]; [by left|by right].
  - apply decode_encode_status; [|done..]. pose proof (inv_retry _ _ Hst).
    unfold in_int, int_min, int_max in *. lia.
  - destruct st as [p i m r t l b s c]. unfold truncated, to_seconds. cbn. f_equal;
      [destruct s|destruct c]; cbn; try done; do 2 f_equal;
      by rewrite Z.mul_comm, Z.div_mul.
Qed.

(** C16. A spec does not survive an update: the CRD's validation is the
    schema's, but [omitempty] drops a zero field and the server fills in its
    default, so an update (the one that adds the finalizer, to begin with)
    keeps a valid spec exactly if neither the URL is empty nor [maxRetries] is
    zero.  It stores 3 for a zero [maxRetries], which is the limit the operator
    applies to zero anyway, and the CRD's URL for an empty one, which is not
    the operator's own default. *)
Theorem update_defaults_spec `{TextFormsLaws} (spec : BenchmarkJobSpec) :
  valid spec_schema (encode_spec spec) = crd_valid spec /\
  (crd_valid spec = true ->
   decode_spec (with_defaults spec_schema (encode_spec spec)) = Some (admitted spec) /\
   crd_valid (admitted spec) = true /\ admitted (admitted spec) = admitted spec /\
   (admitted spec = spec <-> SchedulerAPIURL spec <> "" /\ MaxRetries spec <> 0) /\
   retry_limit (admitted spec) = retry_limit spec /\
   (MaxRetries spec = 0 -> MaxRetries (admitted spec) = 3) /\
   (SchedulerAPIURL spec = "" ->
    SchedulerAPIURL (admitted spec) = crd_default_url /\ crd_default_url <> default_api_url)).
Proof.
  split; [apply valid_spec|]. intros Hv. pose proof (crd_valid_range _ Hv) as Hr.
  pose proof (crd_valid_admitted _ Hv) as Hva.
  split; [by rewrite decode_admitted, <- admitted_eq|]. split; [done|].
  split; [|split; [|split; [|split]]].
  - apply admitted_id; [by apply crd_valid_range|..]; rewrite admitted_eq by done;
      cbn; unfold default_string, default_int; by case_decide.
  - split; [|intros []; by apply admitted_id].
    rewrite admitted_eq by done. intros E. rewrite <- E. cbn.
    unfold default_string, default_int. split; by case_decide.
  - rewrite admitted_eq by done. unfold retry_limit, default_int. cbn.
    by case_decide as Hm; [rewrite Hm|].
  - intros Hm. rewrite admitted_eq by done. cbn. by rewrite Hm.
  - intros Hu. rewrite admitted_eq by done. cbn. by rewrite Hu.
Qed.

(** ** Witnesses *)

(** Text forms for evaluation: exact decimals, and whole seconds as numbers. *)
#[export] Instance text_forms : TextForms := {|
  float_lit := exact_repr;
  time_text t := fmt_d (t / Second);
  parse_time s := Z.mul Second <$> lit_int s
|}.

#[export] Instance text_forms_laws : TextFormsLaws.
Proof. constructor. intros t. cbn. by rewrite lit_int_fmt_d. Qed.

Definition zero_spec : BenchmarkJobSpec := MkSpec "H100" "training" 64 "" 0.

(** One reconciliation, and [maxRetries: 0] is gone from the stored object. *)
Example finalizer_update_rewrites_spec :
  let job := MkJob (MkTypeMeta "" "") (MkMeta "test-h100-benchmark" "default" "1" None [])
               zero_spec status_empty in
  let w := ex_world (run cl_handler (Reconcile demo_reconciler demo_key)
                       (demo_world job [])) in
  Spec <$> stored w !! demo_key = Some (MkSpec "H100" "training" 64 crd_default_url 3).
Proof. vm_compute. reflexivity. Qed.

Lemma update_defaults_spec_witness :
  crd_valid zero_spec = true /\ admitted zero_spec <> zero_spec /\
  SchedulerAPIURL (admitted zero_spec) = crd_default_url.
Proof.
  destruct (update_defaults_spec zero_spec) as [_ H].
  assert (crd_valid zero_spec = true) as Hv by (vm_compute; reflexivity).
  destruct (H Hv) as (_ & _ & _ & Hid & _ & _ & Hu).
  split; [exact Hv|]. split; [|apply Hu; reflexivity].
  intros E. apply Hid in E as [E _]. by apply E.
Defined.

Definition completed_status : BenchmarkJobStatus :=
  MkStatus PhaseCompleted "id" "benchmark execution successful" 1
    (parse_decimal false 6875 (-1)) (parse_decimal false 421 (-2)) (Some (float_of_int 1243))
    (Some 1500000000) (Some 2700000000).

Lemma status_roundtrip_witness :
  exists j, encode_status completed_status = Some j /\ valid status_schema j = true /\
    decode_status_json j = Some (truncated completed_status) /\
    truncated (truncated completed_status) = truncated completed_status.
Proof.
  apply (status_roundtrip 10); [|reflexivity|vm_compute; reflexivity..].
  constructor; cbn; try done; try lia; phases.
Defined.

Lemma reachable_objects_conform_witness :
  let w0 : sim script := MkSim ∅ [inr resp_accepted] [] 100 in
  let w1 := demo_world (demo_job [benchmarkJobFinalizer] status_empty) [inr resp_accepted] in
  let w2 := ex_world (run cl_handler (Reconcile (SetupWithManager (MkReconciler None)) demo_key)
                        w1) in
  exists job j, stored w2 !! demo_key = Some job /\
    encode_job (fun _ => []) job = Some j /\ valid job_schema j = true.
Proof.
  intros w0 w1 w2.
  assert (((fun j => Phase (Status j)) <$> stored w2 !! demo_key) = Some PhaseSubmitted) as Hph
    by (vm_compute; reflexivity).
  destruct (stored w2 !! demo_key) as [job|] eqn:Hjob; [|discriminate].
  destruct (reachable_objects_conform (fun _ => []) w0 w2 demo_key job) as (j & Ej & Hv);
    [reflexivity| |exact Hjob|].
  - eapply rtc_l; [|eapply rtc_l; [apply (sys_reconcile w1)|apply rtc_refl]].
    apply sys_users.
    apply (user_create ∅ demo_key); [reflexivity..|vm_compute; reflexivity|reflexivity].
  - by exists job, j.
Defined.
