(* ===== verification/System.v ===== *)
(** * The operator on the backend

    The backend as the server behind the operator's HTTP calls, and the
    lemmas the theorems on the two together share: routing of the operator's
    requests, decoding of the backend's answers, rows without a message. *)
From S2P Require Export RetryLoop WebInstance.

#[export] Instance backend_server `{WebStack} (address : string) : SimCluster.Backend backend :=
  fun q b => let '(b', resp) := answer address q b in (b', inr resp).

Lemma strip_prefix_app p s : strip_prefix p (p +:+ s) = Some s.
Proof.
  induction p as [|a p IH]; [done|]. rewrite append_cons. cbn [strip_prefix].
  by rewrite decide_True.
Qed.

Section System.
Context {Web : WebStack} {WebL : WebStackLaws}.

Lemma render_parses j :
  json_ok j -> (json_depth j <= 10)%nat -> json_sanitize j = j -> parse_json (render j) = Some j.
Proof. intros Hok Hd Hs. by rewrite render_reads, Hs. Qed.

(** ** Routing *)

Variable address : string.

Lemma route_create ct body :
  route_of address (MkRequest MethodPost (address +:+ "/benchmarks") ct body) = RouteCreate.
Proof. unfold route_of. cbn [URL Method]. by rewrite strip_prefix_app. Qed.

Lemma route_status seg ct body :
  path_segment seg = true ->
  route_of address (MkRequest MethodGet (address +:+ "/benchmarks/" +:+ seg) ct body) =
  RouteStatus seg.
Proof.
  intros Hs. unfold route_of. cbn [URL Method]. rewrite strip_prefix_app.
  change (bool_decide (MethodGet = MethodPost)) with false. cbn [andb].
  rewrite bool_decide_eq_true_2, strip_prefix_app by done.
  by rewrite Hs.
Qed.

Lemma route_delete url ct body : route_of address (MkRequest MethodDelete url ct body) = RouteOther.
Proof. unfold route_of. cbn [URL Method]. by destruct (strip_prefix _ _). Qed.

(** The path of a job has a route, for GET only: a DELETE of it is answered 405. *)
Lemma answer_delete seg ct body b :
  path_segment seg = true ->
  exists resp,
    answer address (MkRequest MethodDelete (address +:+ "/benchmarks/" +:+ seg) ct body) b = (b, resp) /\
    StatusCode resp = 405.
Proof using WebL.
  intros Hs. unfold answer. rewrite route_delete. cbn [URL]. rewrite strip_prefix_app.
  eexists. split; [done|]. apply framework_method; unfold path_methods.
  - rewrite strip_prefix_app, Hs. intros H. by apply app_eq_nil in H as [_ [_ [H _]%app_eq_nil]%app_eq_nil].
  - rewrite strip_prefix_app, Hs, !elem_of_app. cbn [Method].
    repeat case_match; rewrite ?elem_of_cons, ?elem_of_nil; naive_solver.
Qed.

(** A GET or DELETE leaves the backend as it is. *)
Lemma answer_read q b : Method q <> MethodPost -> fst (answer address q b) = b.
Proof.
  intros Hm. unfold answer, route_of. destruct (strip_prefix _ _); [|done].
  rewrite (bool_decide_eq_false_2 (Method q = MethodPost)) by done. cbn [andb].
  destruct (bool_decide _); [|done]. destruct (strip_prefix _ _); [|done].
  destruct (path_segment _); [|done]. by destruct (parse_uuid _).
Qed.

(** ** The body of a submission, validated *)

Lemma validated_body g w n k :
  valid_utf8 g = true -> valid_utf8 w = true -> valid_utf8 k = true ->
  0 < n -> (length (runes k) <= 128)%nat ->
  (parse_json (marshal_map (benchmark_payload g w n k)) ≫= validate) =
  Some (MkCreate g w n (Some k)).
Proof.
  intros Hg Hw Hk Hn Hl. rewrite payload_roundtrip by done. cbn [mbind option_bind].
  rewrite validate_body. destruct (Z.ltb_spec 0 n); [|lia].
  by destruct (Nat.leb_spec (length (runes k)) 128); [|lia].
Qed.

(** ** Decoding the answers *)

Lemma status_value_ascii s : sanitize (status_value s) = status_value s.
Proof. by destruct s. Qed.

Lemma decode_create_response b id r :
  backend_inv b -> rows b !! id = Some r ->
  decode_body decode_submit submit_zero (render (create_response id r)) =
  Some (MkSubmit id (status_value (status r))).
Proof.
  intros Hb Hr. unfold decode_body. rewrite render_parses; [reflexivity|cbn; tauto|cbn; lia|].
  destruct (inv_fresh _ Hb _ _ Hr) as (n & -> & _). unfold create_response.
  cbn [json_sanitize map fst snd]. rewrite uuid4_ascii, status_value_ascii, (inv_created _ Hb _ _ Hr).
  reflexivity.
Qed.

(** The response to a poll, once its text is known to be valid. *)
Definition readable (b : backend) (id : string) (r : Benchmark) : Prop :=
  json_sanitize (status_response b id r) = status_response b id r /\
  forall x, results b !! id = Some x ->
    number_lit (float_repr (throughput (res_metrics x))) /\
    number_lit (float_repr (latency_ms (res_metrics x))) /\
    number_lit (float_repr (memory_bandwidth_gbps (res_metrics x))).

Lemma status_response_parses b id r :
  readable b id r -> parse_json (render (status_response b id r)) = Some (status_response b id r).
Proof.
  intros [Hs Hn]. apply render_parses; [| |exact Hs].
  - unfold status_response. cbn [json_ok foldr snd json_int].
    destruct (results b !! id) as [x|] eqn:E; cbn [json_ok foldr snd result_payload json_int];
      [|auto 20 with golib]. destruct (Hn x eq_refl) as (? & ? & ?). auto 20 with golib.
  - unfold status_response. cbn [json_depth foldr snd json_int].
    destruct (results b !! id); cbn; lia.
Qed.

Lemma poll_unfinished b id r :
  readable b id r -> results b !! id = None ->
  decode_body decode_poll poll_zero (render (status_response b id r)) =
  Some (MkPoll (status_value (status r)) None).
Proof.
  intros Hr Hn. unfold decode_body. rewrite status_response_parses by done.
  unfold status_response. by rewrite Hn.
Qed.

Lemma poll_finished b id r x :
  readable b id r -> results b !! id = Some x ->
  (forall f, f ∈ [throughput (res_metrics x); latency_ms (res_metrics x);
                  memory_bandwidth_gbps (res_metrics x)] ->
     decode_float (S754_zero false) (JNumber (float_repr f)) = Some f) ->
  decode_body decode_poll poll_zero (render (status_response b id r)) =
  Some (MkPoll (status_value (status r))
          (Some (MkMetrics (throughput (res_metrics x)) (latency_ms (res_metrics x))
                   (memory_bandwidth_gbps (res_metrics x))))).
Proof.
  intros Hr Hx Hf. unfold decode_body. rewrite status_response_parses by done.
  unfold status_response. rewrite Hx. destruct x as [[t l m] eng wl att].
  cbn [res_metrics throughput latency_ms memory_bandwidth_gbps] in Hf.
  unfold result_payload. cbn [res_metrics throughput latency_ms memory_bandwidth_gbps res_engine
    res_workload res_attempt].
  set (raw := JObject [("engine", _); _; _]).
  change (decode_struct decode_poll poll_zero _) with
    (match match match decode_members decode_metrics metrics_zero
       [("throughput", JNumber (float_repr t)); ("latency_ms", JNumber (float_repr l));
        ("memory_bandwidth_gbps", JNumber (float_repr m)); ("raw_metrics", raw)]
     with Some m => Some (Some m) | None => None end
     with Some m => Some (MkPoll (status_value (status r)) m) | None => None end
     with Some p => Some p | None => None end).
  rewrite (decode_metrics_members (float_repr t) (float_repr l) (float_repr m) t l m
    [("raw_metrics", raw)]) by (apply Hf; set_solver).
  reflexivity.
Qed.

(** ** Rows without a message *)

Lemma mark_running_frame m id b :
  id <> m -> rows (mark_running m b) !! id = rows b !! id /\ queue (mark_running m b) = queue b.
Proof.
  intros Hn. unfold mark_running. destruct (rows b !! m); [|done]. cbn.
  by rewrite lookup_insert_ne.
Qed.

Lemma finish_frame m o b1 id :
  id <> msg_id m -> id ∉ (msg_id <$> queue b1) ->
  rows (finish_job m o b1) !! id = rows b1 !! id /\ id ∉ (msg_id <$> queue (finish_job m o b1)).
Proof.
  intros Hn Hq. unfold finish_job.
  assert (forall reason,
    rows (if msg_attempt m + 1 <? worker_max_retries then enqueue_retry m b1
          else mark_failed (msg_id m) (move_to_dlq m reason b1)) !! id = rows b1 !! id /\
    id ∉ (msg_id <$> queue (if msg_attempt m + 1 <? worker_max_retries then enqueue_retry m b1
          else mark_failed (msg_id m) (move_to_dlq m reason b1)))) as Hfail.
  { intros reason. destruct (_ <? _); cbn.
    - split; [done|]. set_solver.
    - unfold mark_failed. cbn. destruct (rows b1 !! msg_id m); cbn; [|done].
      by rewrite lookup_insert_ne. }
  destruct o as [exc|[engine e]]; [apply Hfail|]. unfold complete_benchmark.
  destruct (rows b1 !! msg_id m); [|done].
  destruct (results b1 !! msg_id m); [apply Hfail|]. cbn. by rewrite lookup_insert_ne.
Qed.

Lemma dequeue_frame b m b1 id :
  dequeue b = Some (m, b1) -> id ∉ (msg_id <$> queue b) ->
  id <> msg_id m /\ id ∉ (msg_id <$> queue b1) /\ rows b1 = rows b.
Proof.
  intros (q & Hq & ->)%dequeue_some Hn. rewrite Hq, fmap_app in Hn. cbn in *. set_solver.
Qed.

(** A row with no message in the queue, and that no worker is at: nothing will
    ever happen to it. *)
Lemma orphan_steps b b' id r :
  backend_inv b -> backend_steps b b' ->
  rows b !! id = Some r -> status r <> running -> id ∉ (msg_id <$> queue b) ->
  rows b' !! id = Some r /\ id ∉ (msg_id <$> queue b').
Proof.
  intros Hb Hs. induction Hs as [b|b between p b1 Hs1 IH1 Hs2 IH2|b outcome b1 Hs IH|b b1 Hs IH
                                |b m outcome b1 Hs IH P|b up b1 Hs IH]; intros Hr Hrun Hq.
  - done.
  - destruct (IH1 Hb Hr Hrun Hq) as [Hr1 Hq1].
    destruct (steps_inv _ _ Hb Hs1) as [I1 _]. destruct (IH2 I1 Hr1 Hrun Hq1) as [Hr2 Hq2].
    destruct (steps_inv _ _ I1 Hs2) as [I2 L2].
    pose proof (inv_create between p b1 I1 I2 L2) as Hc.
    unfold create_benchmark_job. unfold create_benchmark in *. cbn zeta in *.
    destruct (has_byte 0 (request_key p)); [done|].
    destruct (find_by_key b1 (request_key p)) as [[? ?]|]; [done|].
    repeat case_match; simplify_eq; cbn in *; try done;
      repeat match goal with H : (_, _) = (_, _) |- _ => injection H as ?; subst end;
      cbn in *; try done.
    all: destruct Hc as (_ & _ & _ & _ & Hnew); destruct (Hnew eq_refl) as (Hnone & _).
    all: rewrite lookup_insert_ne by congruence; split; [done|].
    all: first [done|apply not_elem_of_cons; split; [congruence|done]].
  - destruct (IH Hb Hr Hrun Hq) as [Hr1 Hq1]. unfold worker_turn.
    destruct (dequeue b1) as [[m b2]|] eqn:Hd; [|done].
    destruct (dequeue_frame _ _ _ _ Hd Hq1) as (Hn & Hq2 & E).
    destruct (mark_running_frame (msg_id m) id b2 Hn) as [E1 E2].
    unfold process_job.
    destruct (finish_frame m outcome (mark_running (msg_id m) b2) id Hn) as [-> Hq3];
      [by rewrite E2|]. rewrite E1, E. by split.
  - destruct (IH Hb Hr Hrun Hq) as [Hr1 Hq1]. unfold worker_takes.
    destruct (dequeue b1) as [[m b2]|] eqn:Hd; [|done].
    destruct (dequeue_frame _ _ _ _ Hd Hq1) as (Hn & Hq2 & E).
    destruct (mark_running_frame (msg_id m) id b2 Hn) as [-> ->]. by rewrite E.
  - destruct (IH Hb Hr Hrun Hq) as [Hr1 Hq1]. destruct P as ((r' & Hr' & Hs') & _).
    assert (id <> msg_id m) as Hn by congruence.
    destruct (finish_frame m outcome b1 id Hn Hq1) as [-> ?]. by split.
  - by apply IH.
Qed.
End System.

(** ** Submissions *)

(** The payloads the backend accepts: valid texts its columns hold, a positive
    batch size of 32 bits and a key of at most 128 characters. *)
Definition accepted_payload {Web : WebStack} (g w : string) (n : Z) (k : string) : Prop :=
  valid_utf8 g = true /\ valid_utf8 w = true /\ valid_utf8 k = true /\ 0 < n /\
  (length (runes k) <= 128)%nat /\ k <> "" /\ storable (MkCreate g w n (Some k)) = true.

Definition payload_of (spec : BenchmarkJobSpec) (n : NamespacedName) : BenchmarkCreateRequest :=
  MkCreate (GPUModel spec) (WorkloadType spec) (BatchSize spec) (Some (idempotency_key n)).

Definition acceptable {Web : WebStack} (spec : BenchmarkJobSpec) (n : NamespacedName) : Prop :=
  accepted_payload (GPUModel spec) (WorkloadType spec) (BatchSize spec) (idempotency_key n).

(** The request of a submission, by the operator or the provider. *)
Definition payload_request (address g w : string) (n : Z) (k : string) : Request :=
  MkRequest MethodPost (address +:+ "/benchmarks") (Some "application/json")
    (marshal_map (benchmark_payload g w n k)).

Section Helpers.
Context {Web : WebStack} {WebL : WebStackLaws}.

Lemma request_key_some g w n k : k <> "" -> request_key (MkCreate g w n (Some k)) = k.
Proof. intros Hk. unfold request_key. cbn. by rewrite bool_decide_eq_false_2. Qed.

Lemma idempotency_key_nonempty n : idempotency_key n <> "".
Proof.
  unfold idempotency_key. destruct (NsNamespace n); [by rewrite append_nil_l|by rewrite append_cons].
Qed.

Lemma request_key_payload spec n : request_key (payload_of spec n) = idempotency_key n.
Proof. apply request_key_some, idempotency_key_nonempty. Qed.

(** What a payload that is accepted meets in the database. *)
Lemma storable_columns p :
  storable p = true ->
  has_byte 0 (request_key p) = false /\ has_byte 0 (req_gpu_model p) = false /\
  fits_string 64 (req_gpu_model p) = true /\ fits_row p = true.
Proof.
  unfold storable, fits_row, fits_string. intros H.
  repeat match goal with
  | H : _ && _ = true |- _ => apply andb_prop in H as [? ?]
  | H : negb _ = true |- _ => apply negb_true_iff in H
  end.
  by repeat match goal with H : _ = _ |- _ => rewrite H; clear H end.
Qed.

Lemma accepted_parses g w n k :
  accepted_payload g w n k ->
  (parse_json (marshal_map (benchmark_payload g w n k)) ≫= validate) =
  Some (MkCreate g w n (Some k)).
Proof. intros (? & ? & ? & ? & ? & _). by apply validated_body. Qed.

Lemma answer_payload address g w n k b :
  accepted_payload g w n k ->
  answer address (payload_request address g w n k) b =
  create_benchmark_job id (MkCreate g w n (Some k)) b.
Proof.
  intros Ha. unfold answer, payload_request. rewrite route_create.
  cbn [ReqBody]. by rewrite accepted_parses.
Qed.

Lemma answer_submission spec n b :
  acceptable spec n ->
  answer (base_url spec) (submit_request n spec) b =
  create_benchmark_job id (payload_of spec n) b.
Proof. apply answer_payload. Qed.

Lemma answer_existing spec n b id r :
  acceptable spec n -> backend_inv b -> rows b !! id = Some r -> row_key r = idempotency_key n ->
  answer (base_url spec) (submit_request n spec) b =
  (b, MkResponse StatusAccepted (render (create_response id r))).
Proof.
  intros Ha Hb Hr Hk. rewrite answer_submission by done.
  destruct Ha as (_ & _ & _ & _ & _ & _ & (Hz & _)%storable_columns).
  change (MkCreate _ _ _ _) with (payload_of spec n) in Hz.
  unfold create_benchmark_job, create_benchmark. rewrite Hz, request_key_payload, <- Hk.
  by rewrite (find_by_key_exact _ _ _ Hb Hr).
Qed.

(** A submission by a single session leaves a row with its key; a row that
    was not there is live, and has a message exactly if the queue was up. *)
Lemma answer_leaves_row spec n b :
  acceptable spec n -> backend_inv b ->
  let '(b', resp) := answer (base_url spec) (submit_request n spec) b in
  backend_steps b b' /\ exists id r, rows b' !! id = Some r /\ row_key r = idempotency_key n /\
  ((StatusCode resp = 202 /\ resp = MkResponse StatusAccepted (render (create_response id r))) \/
   (StatusCode resp = 500 /\ redis_up b = false /\ id ∉ (msg_id <$> queue b') /\
    status r = queued)).
Proof.
  intros Ha Hb. rewrite answer_submission by done.
  pose proof (steps_create b Datatypes.id (payload_of spec n) b (steps_refl b) (steps_refl b)) as Hst.
  pose proof (inv_create Datatypes.id (payload_of spec n) b Hb Hb ltac:(done)) as Hc.
  rewrite request_key_payload in Hc.
  assert (redis_up (fst (create_benchmark Datatypes.id (payload_of spec n) b)) = redis_up b /\
          snd (create_benchmark Datatypes.id (payload_of spec n) b) <> None) as [Hup Hsome].
  { destruct Ha as (_ & _ & _ & _ & _ & _ & Hst').
    destruct (storable_columns _ Hst') as (Hz1 & Hz2 & Hg & Hf).
    change (MkCreate _ _ _ _) with (payload_of spec n) in *.
    unfold create_benchmark. cbn zeta. unfold Datatypes.id. rewrite Hz1, Hz2, Hg, Hf. cbn [negb].
    destruct (find_by_key b _) as [[? ?]|]; [done|].
    by destruct (gpu_models b !! _). }
  unfold create_benchmark_job in *.
  destruct (create_benchmark Datatypes.id _ b) as [b' [[[id r] created]|]]; [|done].
  destruct Hc as (I & L & Hr & Hk & Hnew). cbn in Hup, Hst |- *.
  destruct created.
  - destruct (Hnew eq_refl) as (_ & Hs & Hq). rewrite Hup in *. destruct (redis_up b).
    + split; [exact Hst|]. exists id, r. split; [done|]. split; [done|]. by left.
    + split; [exact Hst|]. exists id, r. split; [done|]. split; [done|]. by right.
  - split; [exact Hst|]. exists id, r. split; [done|]. split; [done|]. by left.
Qed.
End Helpers.
