(* ===== verification/SystemTheorems.v ===== *)
(** * Theorems on the backend and on the operator in front of it

    At most one job per object under any interleaving of sessions and
    workers, final rows, the worker's retries, and what the two state machines
    do to each other: submissions that are safe to repeat, retries that change
    nothing, jobs that are lost, measurements carried end to end. *)
From S2P Require Import System.

(** ** The backend *)

(** C32. At most one job per key: in every state the backend reaches from
    empty tables, whatever other sessions commit in the middle of a
    submission, a submission that is answered is answered with the one row of
    its key, and it creates a row only if there was none. *)
Theorem One_job_per_key {Web : WebStack} {WebL : WebStackLaws} (between : backend -> backend)
    (p : BenchmarkCreateRequest) (b b' : backend) (id : string) (r : Benchmark) (created : bool) :
  backend_steps backend_empty b -> backend_steps b (between b) ->
  create_benchmark between p b = (b', Some (id, r, created)) ->
  rows b' !! id = Some r /\ row_key r = request_key p /\
  (forall id' r', rows b' !! id' = Some r' -> row_key r' = request_key p -> id' = id) /\
  (created = true -> forall id' r', rows b !! id' = Some r' -> row_key r' <> request_key p).
Proof.
  intros Hb Hbtw Hcr. destruct (steps_inv _ _ empty_inv Hb) as [I _].
  destruct (steps_inv _ _ I Hbtw) as [I1 L1].
  pose proof (inv_create between p b I I1 L1) as Hc. rewrite Hcr in Hc.
  destruct Hc as (I' & L & Hr & Hk & Hnew). split_and!; [done|done| |].
  - intros id' r' Hr' Hk'. eapply (inv_keys _ I'); eauto. congruence.
  - intros -> id' r' Hr' Hk'. destruct (Hnew eq_refl) as (Hnone & _).
    destruct (later_row _ _ L _ _ Hr') as (r2 & Hr2 & Hk2 & _).
    assert (id' = id) as -> by (eapply (inv_keys _ I'); eauto; congruence). congruence.
Qed.

Definition demo_payload : BenchmarkCreateRequest := payload_of demo_spec demo_key.

(** A state in which the GPU is known, and a session that submits the same
    key in the middle of ours. *)
Definition known_gpu_backend : backend :=
  fst (create_benchmark_job Datatypes.id (MkCreate "H100" "training" 8 (Some "default/other"))
         backend_empty).

Definition racing_session (b : backend) : backend :=
  fst (create_benchmark_job Datatypes.id demo_payload b).

Lemma One_job_per_key_witness :
  exists b' id r,
    create_benchmark racing_session demo_payload known_gpu_backend = (b', Some (id, r, false)) /\
    rows b' !! id = Some r /\ row_key r = "default/test-h100-benchmark".
Proof.
  assert (backend_steps backend_empty known_gpu_backend) as H0
    by (apply (steps_create backend_empty Datatypes.id); apply steps_refl).
  destruct (create_benchmark racing_session demo_payload known_gpu_backend)
    as [b' [[[id r] cr]|]] eqn:E; [|vm_compute in E; discriminate].
  assert (cr = false) as -> by (vm_compute in E; by injection E).
  exists b', id, r. split; [reflexivity|].
  destruct (One_job_per_key racing_session demo_payload known_gpu_backend b' id r false H0)
    as (Hr & Hk & _); [apply (steps_create known_gpu_backend Datatypes.id); apply steps_refl|exact E|].
  split; [exact Hr|exact Hk].
Defined.

(** C33. A finished job is final: from any reachable state on, a completed or
    failed row and its result never change again, whatever sessions and
    workers do. *)
Theorem Terminal_rows_final {Web : WebStack} {WebL : WebStackLaws} (b b' : backend)
    (id : string) (r : Benchmark) :
  backend_steps backend_empty b -> backend_steps b b' -> rows b !! id = Some r ->
  status r = completed \/ status r = failed ->
  rows b' !! id = Some r /\ results b' !! id = results b !! id.
Proof.
  intros Hb Hs Hr Ht. destruct (steps_inv _ _ empty_inv Hb) as [I _].
  destruct (steps_inv _ _ I Hs) as [I' L].
  destruct (later_row _ _ L _ _ Hr) as (r' & Hr' & _ & E). specialize (E Ht) as ->.
  split; [done|]. destruct (results b !! id) as [x|] eqn:Ex; [by apply (later_result _ _ L)|].
  apply eq_None_not_Some. intros Hx. apply (inv_results _ I') in Hx as (r2 & H2 & S2).
  assert (is_Some (results b !! id)) as [x Hx].
  { apply (inv_results _ I). exists r. split; [done|]. congruence. }
  congruence.
Qed.

(** The backend after one submission, and after the worker ran it. *)
Definition submitted_backend : backend :=
  fst (create_benchmark_job Datatypes.id demo_payload backend_empty).

Definition demo_measure : EngineResult :=
  MkEngine (S754_finite false 6047313952768000 (-43)) (float_of_int 8) (float_of_int 1024).

Definition completed_backend : backend :=
  worker_turn (inr ("SimulatedGPUBenchmarkEngine", demo_measure)) submitted_backend.

Lemma submitted_steps : backend_steps backend_empty submitted_backend.
Proof. apply (steps_create backend_empty Datatypes.id demo_payload); apply steps_refl. Qed.

Lemma completed_steps : backend_steps backend_empty completed_backend.
Proof. apply steps_worker, submitted_steps. Qed.

Lemma Terminal_rows_final_witness :
  exists r, rows (worker_turn (inl "boom") completed_backend) !! "uuid-1" = Some r /\
    status r = completed.
Proof.
  destruct (rows completed_backend !! "uuid-1") as [r|] eqn:E; [|vm_compute in E; discriminate].
  assert (status r = completed) as Hs by (vm_compute in E; by injection E as <-).
  exists r. split; [|exact Hs].
  apply (Terminal_rows_final completed_backend (worker_turn (inl "boom") completed_backend)
           "uuid-1" r completed_steps); [|exact E|by left].
  apply steps_worker, steps_refl.
Defined.

(** C35. The worker neither loses nor retries a job for ever: from a state
    whose only message is a job's first attempt, three turns end it and leave
    the queue empty; the row is completed if any attempt was measured, and
    otherwise failed, with the message of the third attempt on the dead-letter
    queue. *)
Theorem Worker_ends_job {Web : WebStack} {WebL : WebStackLaws} (b : backend) (m : job_message)
    (o1 o2 o3 : string + (string * EngineResult)) :
  backend_steps backend_empty b -> queue b = [m] -> msg_attempt m = 0 ->
  let b' := worker_turn o3 (worker_turn o2 (worker_turn o1 b)) in
  queue b' = [] /\ exists r, rows b' !! msg_id m = Some r /\
  if measured o1 || measured o2 || measured o3 then status r = completed
  else status r = failed /\ exists exc,
    dlq b' = (MkMessage (msg_id m) (msg_gpu m) (msg_workload m) (msg_batch m) 2, exc) :: dlq b.
Proof.
  intros Hb. destruct (steps_inv _ _ empty_inv Hb) as [I _]. by apply three_turns.
Qed.

Lemma Worker_ends_job_witness :
  exists r, rows (worker_turn (inl "c") (worker_turn (inl "b") (worker_turn (inl "a")
    submitted_backend))) !! "uuid-1" = Some r /\ status r = failed.
Proof.
  destruct (Worker_ends_job submitted_backend (MkMessage "uuid-1" "H100" "inference" 32 0)
    (inl "a") (inl "b") (inl "c") submitted_steps) as (_ & r & Hr & Hs & _);
    [vm_compute; reflexivity|reflexivity|]. exists r. split; [exact Hr|exact Hs].
Defined.

(** ** The operator in front of the backend *)

(** A submission is safe to repeat: after the operator's submission of an
    object was handled, even if its answer was lost and whatever happened in
    between, the same submission is accepted, changes nothing in the backend,
    and is answered with the one job ID of the object; when the first one was
    accepted, with the ID it was answered with. *)
Theorem Submission_repeatable {Web : WebStack} {WebL : WebStackLaws} (spec : BenchmarkJobSpec)
    (n : NamespacedName) (b b1 b2 : backend) (resp1 : Response) :
  acceptable spec n -> backend_steps backend_empty b ->
  answer (base_url spec) (submit_request n spec) b = (b1, resp1) -> backend_steps b1 b2 ->
  exists id r resp2, rows b2 !! id = Some r /\ row_key r = idempotency_key n /\
    answer (base_url spec) (submit_request n spec) b2 = (b2, resp2) /\ StatusCode resp2 = 202 /\
    decode_body decode_submit submit_zero (Body resp2) =
      Some (MkSubmit id (status_value (status r))) /\
    (StatusCode resp1 = 202 -> exists s,
       decode_body decode_submit submit_zero (Body resp1) = Some (MkSubmit id s)).
Proof.
  intros Ha Hb E1 H12. destruct (steps_inv _ _ empty_inv Hb) as [I _].
  pose proof (answer_leaves_row spec n b Ha I) as H. rewrite E1 in H.
  destruct H as (Hs1 & id & r1 & Hr1 & Hk1 & Hresp).
  destruct (steps_inv _ _ I Hs1) as [I1 _]. destruct (steps_inv _ _ I1 H12) as [I2 L2].
  destruct (later_row _ _ L2 _ _ Hr1) as (r2 & Hr2 & Hk2 & _).
  exists id, r2. eexists. rewrite (answer_existing spec n b2 id r2 Ha I2 Hr2) by congruence.
  split_and!; [done|congruence|reflexivity|done|by apply (decode_create_response b2)|].
  intros Hcode. destruct Hresp as [[_ ->]|[H500 _]]; [|congruence].
  eexists. by apply (decode_create_response b1).
Qed.

Lemma demo_acceptable : acceptable demo_spec demo_key.
Proof. split_and!; try (vm_compute; reflexivity); [vm_compute; lia|done]. Qed.

Lemma Submission_repeatable_witness :
  exists resp2, answer "http://mock-server" (submit_request demo_key demo_spec) completed_backend =
    (completed_backend, resp2) /\ StatusCode resp2 = 202.
Proof.
  destruct (answer "http://mock-server" (submit_request demo_key demo_spec) backend_empty)
    as [b1 resp1] eqn:E.
  destruct (Submission_repeatable demo_spec demo_key backend_empty b1 completed_backend resp1
    demo_acceptable (steps_refl _) E) as (id & r & resp2 & _ & _ & H2 & Hc & _).
  - assert (b1 = submitted_backend) as -> by (vm_compute in E |- *; by injection E).
    apply steps_worker, steps_refl.
  - exists resp2. split; [exact H2|exact Hc].
Defined.

(** C38. The operator's retries change nothing: when the backend job of a
    pending object has failed, every remaining retry is answered with the same
    failed job.  With [k] retries left the object is Failed after k+1 rounds,
    without faults and other activity, and the backend is exactly as before:
    nothing was queued and nothing was run. *)
Theorem Retries_are_futile {Mach : Machinery} {MachL : MachineryLaws} {Web : WebStack}
    {WebL : WebStackLaws} (reconciler : BenchmarkJobReconciler) (spec : BenchmarkJobSpec)
    (n : NamespacedName) (b : backend) (id : string) (row : Benchmark) (k : nat)
    (store0 : store) (clock : Z) (job : BenchmarkJob) :
  acceptable spec n -> url_parses (base_url spec +:+ "/benchmarks") = true ->
  url_parses (base_url spec +:+ "/benchmarks/" +:+ id) = true ->
  backend_steps backend_empty b -> rows b !! id = Some row -> row_key row = idempotency_key n ->
  status row = failed -> readable b id row ->
  store0 !! n = Some job -> job_key job = n -> active job -> Spec job = spec ->
  Phase (Status job) = PhasePending -> in_int (retry_limit spec + 1) ->
  0 <= RetryCount (Status job) -> RetryCount (Status job) = retry_limit spec - Z.of_nat k ->
  let B := backend_server (base_url spec) in
  let w' := reconcile_times cl_handler (SetupWithManager reconciler) n (2 * (k + 1))
              (MkSim store0 b [] clock) in
  sim_backend w' = b /\ exists job', sim_store w' !! n = Some job' /\
    Phase (Status job') = PhaseFailed /\ RetryCount (Status job') = retry_limit spec.
Proof.
  intros Ha Hu1 Hu2 Hb Hr Hk Hs Hread Hst Hjk Hact Hsp Hph Hin H0 Hrc B.
  destruct (steps_inv _ _ empty_inv Hb) as [I _].
  assert (failing_backend (fun b' => b' = b) id n spec) as Hfail.
  { constructor; intros b' ->; unfold serve, B, backend_server.
    - rewrite (answer_existing spec n b id row Ha I Hr Hk). eexists _, _, _.
      split_and!; [reflexivity|done|by left|by apply (decode_create_response b)|done].
    - destruct (inv_fresh _ I _ _ Hr) as (u & Eu & _). pose proof (uuid4_segment u) as Hseg.
      unfold answer, poll_request. rewrite route_status by (by rewrite Eu).
      rewrite Eu, parse_uuid4, <- Eu. unfold get_benchmark_status. rewrite Hr.
      eexists _, _, _. split_and!; [reflexivity|done|apply poll_unfinished; [done|]|by rewrite Hs].
      apply eq_None_not_Some. intros Hx. apply (inv_results _ I) in Hx as (r2 & H2 & S2).
      congruence. }
  pose proof (retry_loop reconciler (fun b' => b' = b) id n spec Hfail Hu1 Hu2 k
    (MkSim store0 b [] clock)) as Hloop.
  destruct Hloop as (Hbk & _ & job' & Hj' & _ & _ & _ & Hph' & Hrc' & _); [lia|done| |].
  - split_and!; [done|done|]. exists job. rewrite Hph. split_and!; try done. set_solver.
  - cbn zeta. split; [exact Hbk|]. exists job'. apply list_elem_of_singleton in Hph'.
    by split_and!.
Qed.

(** The demo job's row after three failed attempts of the worker. *)
Definition failed_backend : backend :=
  worker_turn (inl "c") (worker_turn (inl "b") (worker_turn (inl "a") submitted_backend)).

Lemma Retries_are_futile_witness :
  let B := backend_server (base_url demo_spec) in
  let job := demo_job [benchmarkJobFinalizer]
    (MkStatus PhasePending "" "retry 1/3 after backend failure" 1 None None None (Some 1) None) in
  sim_backend (reconcile_times cl_handler (SetupWithManager (MkReconciler None)) demo_key
    (2 * (2 + 1)) (MkSim {[demo_key := job]} failed_backend [] 100)) = failed_backend.
Proof.
  intros B job.
  destruct (rows failed_backend !! "uuid-1") as [row|] eqn:E; [|vm_compute in E; discriminate].
  assert (row = MkBenchmark "uuid-0" "inference" 32 failed "default/test-h100-benchmark" 3
    "2026-01-01T00:00:00Z" "2026-01-01T00:00:00Z") as -> by (vm_compute in E; by injection E).
  refine (proj1 (Retries_are_futile (MkReconciler None) demo_spec demo_key failed_backend "uuid-1" _
    2 {[demo_key := job]} 100 job demo_acceptable eq_refl eq_refl _ E eq_refl eq_refl _ eq_refl
    eq_refl _ eq_refl eq_refl _ _ eq_refl)).
  - do 3 apply steps_worker. exact submitted_steps.
  - split; [vm_compute; reflexivity|]. intros x Hx. vm_compute in Hx. discriminate.
  - split; reflexivity.
  - vm_compute. split; discriminate.
  - vm_compute. discriminate.
Defined.

(** Measurements travel unchanged from the engine to the object: when a
    running object is reconciled against the backend that has completed its
    job, its status becomes Completed with exactly the three floats the engine
    returned, provided the server prints floats so that they read back. *)
Theorem Measurements_end_to_end {Mach : Machinery} {Web : WebStack} {WebL : WebStackLaws}
    (reconciler : BenchmarkJobReconciler) (spec : BenchmarkJobSpec) (n : NamespacedName)
    (b : backend) (id : string) (row : Benchmark) (x : BenchmarkResult) (store0 : store)
    (clock : Z) (job : BenchmarkJob) :
  url_parses (base_url spec +:+ "/benchmarks/" +:+ id) = true ->
  backend_steps backend_empty b -> rows b !! id = Some row -> status row = completed ->
  results b !! id = Some x -> readable b id row ->
  (forall f, f ∈ [throughput (res_metrics x); latency_ms (res_metrics x);
                  memory_bandwidth_gbps (res_metrics x)] ->
     decode_float (S754_zero false) (JNumber (float_repr f)) = Some f) ->
  store0 !! n = Some job -> job_key job = n -> active job -> Spec job = spec ->
  Phase (Status job) = PhaseRunning -> JobID (Status job) = id ->
  let B := backend_server (base_url spec) in
  let w' := ex_world (run cl_handler (Reconcile (SetupWithManager reconciler) n)
                        (MkSim store0 b [] clock)) in
  sim_backend w' = b /\ exists job', sim_store w' !! n = Some job' /\
    Phase (Status job') = PhaseCompleted /\ JobID (Status job') = id /\
    Throughput (Status job') = Some (throughput (res_metrics x)) /\
    LatencyMs (Status job') = Some (latency_ms (res_metrics x)) /\
    MemoryBandwidthGbps (Status job') = Some (memory_bandwidth_gbps (res_metrics x)) /\
    CompletionTime (Status job') = Some clock.
Proof.
  intros Hu Hb Hr Hs Hx Hread Hf Hst Hjk Hact Hsp Hph Hid B w'.
  destruct (steps_inv _ _ empty_inv Hb) as [I _].
  destruct (inv_fresh _ I _ _ Hr) as (u & Eu & _). pose proof (uuid4_segment u) as Hseg.
  pose proof (poll_finished b id row x Hread Hx Hf) as Hp. rewrite Hs in Hp.
  assert (serve (poll_request id spec) b =
    (b, inr (MkResponse 200 (render (status_response b id row))))) as Hserve.
  { unfold serve, B, backend_server, answer, poll_request. rewrite route_status by (by rewrite Eu).
    rewrite Eu, parse_uuid4, <- Eu. unfold get_benchmark_status. by rewrite Hr. }
  unfold w'. fold (step reconciler n (MkSim store0 b [] clock)).
  rewrite (step_completes reconciler id n spec (MkSim store0 b [] clock) job b
    (MkResponse 200 (render (status_response b id row))) Hst Hjk eq_refl Hact Hsp Hu Hid Hserve _
    Hph Hp).
  split; [done|]. eexists. cbn. rewrite lookup_insert_eq. by split_and!.
Qed.

Lemma Measurements_end_to_end_witness :
  let B := backend_server (base_url demo_spec) in
  let job := demo_job [benchmarkJobFinalizer]
    (MkStatus PhaseRunning "uuid-1" "" 0 None None None (Some 1) None) in
  exists job', sim_store (ex_world (run cl_handler
      (Reconcile (SetupWithManager (MkReconciler None)) demo_key)
      (MkSim {[demo_key := job]} completed_backend [] 100))) !! demo_key = Some job' /\
    Throughput (Status job') = Some (S754_finite false 6047313952768000 (-43)).
Proof.
  intros B job.
  destruct (rows completed_backend !! "uuid-1") as [row|] eqn:E; [|vm_compute in E; discriminate].
  destruct (results completed_backend !! "uuid-1") as [x|] eqn:Ex; [|vm_compute in Ex; discriminate].
  assert (x = MkResultRow demo_measure "SimulatedGPUBenchmarkEngine" "inference" 1) as ->
    by (vm_compute in Ex |- *; by injection Ex).
  assert (row = MkBenchmark "uuid-0" "inference" 32 completed "default/test-h100-benchmark" 1
    "2026-01-01T00:00:00Z" "2026-01-01T00:00:00Z") as -> by (vm_compute in E; by injection E).
  destruct (Measurements_end_to_end (MkReconciler None) demo_spec demo_key completed_backend "uuid-1"
    _ _ {[demo_key := job]} 100 job eq_refl completed_steps E eq_refl Ex) as (_ & job' & H1 & _ & _ & H2 & _);
    try reflexivity.
  - split; [vm_compute; reflexivity|]. intros x Hx. rewrite Ex in Hx. injection Hx as <-.
    split_and!; apply number_litb_sound; vm_compute; reflexivity.
  - intros f Hf. cbn [res_metrics throughput latency_ms memory_bandwidth_gbps demo_measure] in Hf.
    rewrite !elem_of_cons, elem_of_nil in Hf.
    destruct Hf as [-> |[-> |[-> |[]]]]; vm_compute; reflexivity.
  - split; reflexivity.
  - exists job'. split; [exact H1|exact H2].
Defined.

(** C39. A job without a message is lost: a submission whose LPUSH failed
    after the commit is answered 500 and leaves a queued row that no worker
    will ever hear of: it stays queued forever.  Resubmitting does not help: it
    is accepted with the same job ID and queues nothing. *)
Theorem Job_without_message_is_lost {Web : WebStack} {WebL : WebStackLaws}
    (spec : BenchmarkJobSpec) (n : NamespacedName) (b b1 b2 : backend) (resp : Response) :
  acceptable spec n -> backend_steps backend_empty b ->
  answer (base_url spec) (submit_request n spec) b = (b1, resp) -> StatusCode resp <> 202 ->
  backend_steps b1 b2 ->
  StatusCode resp = 500 /\ redis_up b = false /\
  exists id r, rows b2 !! id = Some r /\ row_key r = idempotency_key n /\ status r = queued /\
    id ∉ (msg_id <$> queue b2) /\
    answer (base_url spec) (submit_request n spec) b2 =
      (b2, MkResponse 202 (render (create_response id r))).
Proof.
  intros Ha Hb E1 Hcode H12. destruct (steps_inv _ _ empty_inv Hb) as [I _].
  pose proof (answer_leaves_row spec n b Ha I) as H. rewrite E1 in H.
  destruct H as (Hs1 & id & r & Hr & Hk & [[E _]|(H500 & Hup & Hq & Hs)]); [congruence|].
  destruct (steps_inv _ _ I Hs1) as [I1 _]. destruct (steps_inv _ _ I1 H12) as [I2 _].
  destruct (orphan_steps _ _ _ _ I1 H12 Hr ltac:(congruence) Hq) as [Hr2 Hq2].
  split; [done|]. split; [done|]. exists id, r. split_and!; try done.
  by apply answer_existing.
Qed.

Lemma Job_without_message_is_lost_witness :
  let b := MkBackend ∅ ∅ ∅ [] [] 0 false in
  let b1 := fst (answer "http://mock-server" (submit_request demo_key demo_spec) b) in
  let b2 := worker_turn (inl "idle") (MkBackend (rows b1) (gpu_models b1) (results b1) (queue b1)
              (dlq b1) (next_uuid b1) true) in
  exists id r, rows b2 !! id = Some r /\ status r = queued.
Proof.
  intros b b1 b2.
  destruct (answer "http://mock-server" (submit_request demo_key demo_spec) b) as [b1' resp] eqn:E.
  destruct (Job_without_message_is_lost demo_spec demo_key b b1 b2 resp demo_acceptable)
    as (_ & _ & id & r & Hr & _ & Hs & _).
  - apply (steps_redis backend_empty false backend_empty), steps_refl.
  - unfold b1. change (base_url demo_spec) with "http://mock-server". by rewrite E.
  - vm_compute in E. injection E as _ <-. discriminate.
  - apply steps_worker, steps_redis, steps_refl.
  - exists id, r. split; [exact Hr|exact Hs].
Defined.

(** The reconciliation that releases a deleted object reads the backend at most. *)
Lemma deletion_leaves_backend {Mach : Machinery} {Web : WebStack} {WebL : WebStackLaws}
    (address : string) (reconciler : BenchmarkJobReconciler) (n : NamespacedName)
    (w : sim backend) (job : BenchmarkJob) :
  sim_store w !! n = Some job -> TimeIsZero (DeletionTimestamp (Meta job)) = false ->
  let B := backend_server address in
  sim_backend (ex_world (run cl_handler (Reconcile (SetupWithManager reconciler) n) w)) =
  sim_backend w.
Proof.
  intros Hst Hdel B. destruct (decide (job_key job = n)) as [Hk|Hk].
  2: { rewrite Reconcile_unfold. cbn [run]. cbn. rewrite Hst, bool_decide_eq_false_2 by done.
       cbn. by destruct (IsNotFound _). }
  rewrite (Reconcile_found _ cl_handler n w w job);
    [|cbn; by rewrite Hst, bool_decide_eq_true_2].
  cbn [ex_world]. unfold reconcile_job. rewrite Hdel. cbn [negb]. unfold handleDeletion.
  destruct (ContainsFinalizer _ _); [|done].
  destruct (SetupWithManager_client reconciler) as [c Hc]. rewrite Hc.
  assert (forall w0, sim_backend (ex_world (run (cl_handler (W := sim backend))
    (let! err := client_update (set_meta job (RemoveFinalizer (Meta job) benchmarkJobFinalizer)) in
     match err with
     | Some e => Return (Result_zero, Some (ErrWrap "remove finalizer" e))
     | None => Return (Result_zero, None)
     end) w0)) = sim_backend w0) as Hfin.
  { intros w0. cbn. unfold sim_write. destruct (default _ _); [done|].
    destruct (sim_store w0 !! _); [|done]. by destruct (bool_decide _). }
  destruct (cancels job); [|apply Hfin].
  unfold NewRequest. destruct (url_parses _); [|done].
  cbn [client_Do bind call run]. set (q := MkRequest _ _ _ _).
  destruct (serve q (sim_backend w)) as [b0 x] eqn:Eq. rewrite (sim_do q w b0 x Eq).
  cbn [ex_world]. rewrite Hfin. cbn [sim_backend]. unfold serve, B, backend_server in Eq.
  pose proof (answer_read address q (sim_backend w) ltac:(discriminate)) as Hread.
  destruct (answer address q (sim_backend w)). cbn in Hread. congruence.
Qed.

(** The release of an object whose cancellation is due, on a world without
    faults. *)
Lemma deletion_released {Mach : Machinery} {MachL : MachineryLaws} {B : Type}
    {Bk : SimCluster.Backend B} (reconciler : BenchmarkJobReconciler) (n : NamespacedName)
    (w : sim B) (job : BenchmarkJob) (resp : Response) :
  sim_store w !! n = Some job -> job_key job = n -> sim_faults w = [] ->
  TimeIsZero (DeletionTimestamp (Meta job)) = false ->
  Finalizers (Meta job) = [benchmarkJobFinalizer] -> cancels job = true ->
  url_parses (job_url job) = true ->
  let q := MkRequest MethodDelete (job_url job) None "" in
  serve q (sim_backend w) = (sim_backend w, inr resp) ->
  let released := set_meta job (set_finalizers (Meta job) []) in
  let r := run cl_handler (Reconcile (SetupWithManager reconciler) n) w in
  ex_trace r = [Ev (S := op_sig) (Own (ApiGet n)) (inr job); Ev (S := op_sig) (Do q) (inr resp);
                Ev (S := op_sig) (Own (ApiUpdate released)) None] /\
  ex_out r = Done (Result_zero, None) /\ sim_store (ex_world r) = delete n (sim_store w).
Proof.
  intros Hst Hk Hf Hdel Hfin Hc Hu q Hq released r.
  destruct (SetupWithManager_client reconciler) as [c Hcl].
  assert (RemoveFinalizer (Meta job) benchmarkJobFinalizer = set_finalizers (Meta job) [])
    as Hrem by (rewrite RemoveFinalizer_spec, Hfin; reflexivity).
  assert (cl_handler (Do q) w = (w, inr resp)) as Hdo by (rewrite (sim_do q w _ _ Hq); by destruct w).
  assert (cl_handler (Own (ApiUpdate released)) w =
    (SimCluster.set_store w (delete n (sim_store w)), None)) as Hup.
  { change (cl_handler _ w) with (sim_write put_object released w). unfold sim_write.
    change (job_key released) with (job_key job). rewrite Hf, Hk, Hst, bool_decide_eq_true_2 by done.
    cbn [default head from_option]. unfold put_object.
    rewrite bool_decide_eq_true_2 by (intros E; by rewrite E, TimeIsZero_nil in Hdel).
    rewrite bool_decide_eq_true_2 by done. cbn [andb]. by rewrite Hk. }
  subst r. rewrite (Reconcile_found _ cl_handler n w w job);
    [|cbn; by rewrite Hst, bool_decide_eq_true_2].
  cbn [ex_world ex_trace ex_out]. unfold reconcile_job. rewrite Hdel. cbn [negb].
  unfold handleDeletion, NewRequest.
  assert (ContainsFinalizer (Meta job) benchmarkJobFinalizer = true) as ->
    by (apply ContainsFinalizer_spec; rewrite Hfin; by apply list_elem_of_here).
  rewrite Hc, Hcl, Hu, Hrem. fold released q. cbn [client_Do client_update bind call run].
  rewrite Hdo. cbn [ex_world ex_trace ex_out]. rewrite Hup. by split_and!.
Qed.

(** C40. Deleting an object cancels nothing.  In any world, with whatever
    faults, the reconciliation of a deleted object leaves every row, message and
    result of the backend as it was.  When the backend is reachable and the object
    has a job of it that has not been seen to end, the one request is a DELETE of that job's
    URL, a path with a route for GET only: it is answered 405, which the
    operator takes as done; the object is released and gone, and the job is
    run and completed by the next worker as if nothing had happened. *)
Theorem Deletion_cancels_nothing {Mach : Machinery} {MachL : MachineryLaws} {Web : WebStack}
    {WebL : WebStackLaws} (address : string) (reconciler : BenchmarkJobReconciler)
    (n : NamespacedName) (w : sim backend) (job : BenchmarkJob) :
  sim_store w !! n = Some job -> TimeIsZero (DeletionTimestamp (Meta job)) = false ->
  let B := backend_server address in
  let r := run cl_handler (Reconcile (SetupWithManager reconciler) n) w in
  let id := JobID (Status job) in
  sim_backend (ex_world r) = sim_backend w /\
  forall row, backend_steps backend_empty (sim_backend w) ->
    rows (sim_backend w) !! id = Some row -> base_url (Spec job) = address ->
    url_parses (address +:+ "/benchmarks/" +:+ id) = true ->
    job_key job = n -> sim_faults w = [] -> Finalizers (Meta job) = [benchmarkJobFinalizer] ->
    Phase (Status job) <> PhaseCompleted -> Phase (Status job) <> PhaseFailed ->
    (exists resp, StatusCode resp = 405 /\
       ex_trace r =
         [Ev (S := op_sig) (Own (ApiGet n)) (inr job);
          Ev (S := op_sig)
            (Do (MkRequest MethodDelete (address +:+ "/benchmarks/" +:+ id) None "")) (inr resp);
          Ev (S := op_sig) (Own (ApiUpdate (set_meta job (set_finalizers (Meta job) [])))) None]) /\
    ex_out r = Done (Result_zero, None) /\ sim_store (ex_world r) = delete n (sim_store w) /\
    forall m engine e, queue (sim_backend w) = [m] -> msg_id m = id ->
      exists row', status row' = completed /\
        rows (worker_turn (inr (engine, e)) (sim_backend (ex_world r))) !! id = Some row'.
Proof.
  intros Hst Hdel B r id.
  pose proof (deletion_leaves_backend address reconciler n w job Hst Hdel) as Hb. cbn zeta in Hb.
  fold B r in Hb. split; [exact Hb|].
  intros row Hsteps Hrow Hurl Hparse Hk Hf Hfin Hp1 Hp2.
  destruct (steps_inv _ _ empty_inv Hsteps) as [I _].
  destruct (inv_fresh _ I _ _ Hrow) as (u & Eu & _). fold id in Eu.
  assert (job_url job = address +:+ "/benchmarks/" +:+ id) as Ejob by (by rewrite <- Hurl).
  destruct (answer_delete address id None "" (sim_backend w)) as (resp & Ea & H405);
    [rewrite Eu; apply uuid4_segment|].
  destruct (deletion_released reconciler n w job resp Hst Hk Hf Hdel Hfin) as (Ht & Ho & Hs).
  - unfold cancels. fold id. rewrite !bool_decide_eq_false_2; [done|..]; try done.
    rewrite Eu. intros E. pose proof (uuid4_segment u) as H. by rewrite E in H.
  - by rewrite Ejob.
  - rewrite Ejob. unfold serve, B, backend_server. by rewrite Ea.
  - fold r in Ht, Ho, Hs. rewrite Ejob in Ht.
    split; [exists resp; split; [exact H405|exact Ht]|]. split; [exact Ho|]. split; [exact Hs|].
    intros m engine e Hq Hm. rewrite Hb, <- Hm.
    destruct (worker_result (sim_backend w) m (set_queues (sim_backend w) [] (dlq (sim_backend w)))
      (inr (engine, e)) I) as (row1 & _ & _ & ->); [unfold dequeue; by rewrite Hq|].
    cbn. rewrite lookup_insert_eq. eexists. split; [|reflexivity]. done.
Qed.

Lemma Deletion_cancels_nothing_witness :
  let B := backend_server "http://mock-server" in
  let job := MkJob (MkTypeMeta "" "")
    (MkMeta "test-h100-benchmark" "default" "7" (Some 50) [benchmarkJobFinalizer]) demo_spec
    (MkStatus PhaseRunning "uuid-1" "" 0 None None None (Some 10) None) in
  let w' := ex_world (run cl_handler (Reconcile (SetupWithManager (MkReconciler None)) demo_key)
    (MkSim {[demo_key := job]} submitted_backend [] 100)) in
  sim_backend w' = submitted_backend /\ sim_store w' !! demo_key = None /\
  exists row', status row' = completed /\
    rows (worker_turn (inr ("SimulatedGPUBenchmarkEngine", demo_measure)) (sim_backend w')) !!
      "uuid-1" = Some row'.
Proof.
  intros B job w'.
  destruct (rows submitted_backend !! "uuid-1") as [row|] eqn:E; [|vm_compute in E; discriminate].
  destruct (Deletion_cancels_nothing (Mach := machinery) (Web := web_stack) "http://mock-server" (MkReconciler None) demo_key
    (MkSim {[demo_key := job]} submitted_backend [] 100) job (lookup_singleton_eq _ _) eq_refl)
    as [H1 H2].
  destruct (H2 row submitted_steps E eq_refl eq_refl eq_refl eq_refl eq_refl ltac:(discriminate) ltac:(discriminate))
    as (_ & _ & H3 & H4).
  split; [exact H1|]. split; [unfold w', B; rewrite H3; vm_compute; reflexivity|].
  exact (H4 (MkMessage "uuid-1" "H100" "inference" 32 0) "SimulatedGPUBenchmarkEngine" demo_measure
    ltac:(vm_compute; reflexivity) eq_refl).
Defined.
