(* ===== verification/Closed.v ===== *)
(** * The closed system, call by call

    Any number of reconciliations run at once and are interleaved call by
    call with each other, with the users of the API server and with the
    sessions and workers of the backend; requests and answers get lost, writes
    fail with and without effect, and a reconciliation may die at any point.
    The world is the store, its past states (a read is served from a cache
    that may lag behind) and the backend; an invariant links the job ID of
    every object to the row of its key, and [prog_ok] is what a reconciliation
    in flight relies on: what it knows stays true while the backend evolves. *)
From S2P Require Export System.

Record world : Type := MkWorld {
  w_store : store;
  w_past : list store;
  w_backend : backend
}.

(** A new state of the store; the old one may still be read. *)
Definition set_store (w : world) (s : store) : world :=
  MkWorld s (w_store w :: w_past w) (w_backend w).
Definition set_backend (w : world) (b : backend) : world :=
  MkWorld (w_store w) (w_past w) b.

Section Closed.
Context {Mach : Machinery} {MachL : MachineryLaws} {Web : WebStack} {WebL : WebStackLaws}.

(** The address of the backend every object names. *)
Variable address : string.

(** ** The environment *)

(** The specs on the server: valid, accepted by the backend, and naming its
    address (the server fills in its own default on admission, so that none
    is without one). *)
Definition sent_here (n : NamespacedName) (spec : BenchmarkJobSpec) : Prop :=
  crd_valid spec = true /\ acceptable spec n /\ SchedulerAPIURL spec = address /\
  SchedulerAPIURL spec <> "".

(** A float the JSON writer of the backend prints so that it reads back. *)
Definition prints (f : float64) : Prop :=
  number_lit (float_repr f) /\ decode_float (S754_zero false) (JNumber (float_repr f)) = Some f.

(** Every measurement on record prints. *)
Definition printable (b : backend) : Prop :=
  forall id x, results b !! id = Some x ->
    prints (throughput (res_metrics x)) /\ prints (latency_ms (res_metrics x)) /\
    prints (memory_bandwidth_gbps (res_metrics x)).

Inductive env_step (w : world) : world -> Prop :=
| env_users s :
    user_step (w_store w) s -> (forall n job, s !! n = Some job -> sent_here n (Spec job)) ->
    env_step w (set_store w s)
| env_backend b :
    backend_steps (w_backend w) b -> printable b -> env_step w (set_backend w b).

(** ** One call of a reconciliation *)

(** A write may fail without effect, and its answer may be lost. *)
Definition write_answers (put : store -> BenchmarkJob -> BenchmarkJob -> string -> store)
    (job : BenchmarkJob) (w w' : world) (x : option error) : Prop :=
  (w' = w /\ x <> None) \/
  (exists cur v, w_store w !! job_key job = Some cur /\
     ResourceVersion (Meta cur) = ResourceVersion (Meta job) /\
     w' = set_store w (put (w_store w) cur job v)).

(** The backend serves a request at once, or a submission with the work of
    others between its reads and its commit. *)
Inductive answered (q : Request) (b b' : backend) (resp : Response) : Prop :=
| answered_at_once : answer address q b = (b', resp) -> answered q b b' resp
| answered_amid between p :
    route_of address q = RouteCreate -> parse_json (ReqBody q) ≫= validate = Some p ->
    backend_steps b (between b) -> create_benchmark_job between p b = (b', resp) ->
    printable b' -> answered q b b' resp.

(** A request over the network: it or its answer may get lost. *)
Definition exchanged (w : world) (q : Request) (w' : world) (x : error + Response) : Prop :=
  (w' = w /\ exists e, x = inl e) \/
  (exists b resp, answered q (w_backend w) b resp /\
     w' = set_backend w b /\ (x = inr resp \/ exists e, x = inl e)).

Definition answers (w : world) (o : op op_sig) (w' : world) : ar op_sig o -> Prop :=
  match o return ar op_sig o -> Prop with
  | Do q => exchanged w q w'
  | Now => fun _ => w' = w
  | Own (ApiGet n) => fun x =>
      w' = w /\ match x with
                | inl _ => True
                | inr job => exists s, s ∈ w_store w :: w_past w /\ s !! n = Some job
                end
  | Own (ApiStatusUpdate job) => write_answers put_status job w w'
  | Own (ApiUpdate job) => write_answers put_object job w w'
  end.

(** ** The system *)

Record config : Type := MkConfig {
  c_world : world;
  c_running : list (op_prog reconcile_result)
}.

Inductive closed_step (c : config) : config -> Prop :=
| closed_env w : env_step (c_world c) w -> closed_step c (MkConfig w (c_running c))
| closed_start r n :
    closed_step c (MkConfig (c_world c) (Reconcile (SetupWithManager r) n :: c_running c))
| closed_call l1 o k l2 w x :
    c_running c = l1 ++ Call o k :: l2 -> answers (c_world c) o w x ->
    closed_step c (MkConfig w (l1 ++ k x :: l2))
| closed_end l1 p l2 :
    c_running c = l1 ++ p :: l2 -> closed_step c (MkConfig (c_world c) (l1 ++ l2)).

Definition config_empty : config := MkConfig (MkWorld ∅ [] backend_empty) [].

(** ** The invariant *)

(** The metrics of a status are those of a measurement. *)
Definition measured_as (st : BenchmarkJobStatus) (x : BenchmarkResult) : Prop :=
  Throughput st = Some (throughput (res_metrics x)) /\
  LatencyMs st = Some (latency_ms (res_metrics x)) /\
  MemoryBandwidthGbps st = Some (memory_bandwidth_gbps (res_metrics x)).

(** What the backend knows of the job a status names. *)
Definition names_row (b : backend) (n : NamespacedName) (st : BenchmarkJobStatus) : Prop :=
  exists row, rows b !! JobID st = Some row /\ row_key row = idempotency_key n /\
    (Phase st = PhaseCompleted ->
       status row = completed /\ exists x, results b !! JobID st = Some x /\ measured_as st x) /\
    (Phase st = PhaseFailed -> status row = failed).

Definition unsubmitted (st : BenchmarkJobStatus) : Prop :=
  (Phase st = "" \/ Phase st = PhasePending) /\ JobID st = "".

Definition submitted (st : BenchmarkJobStatus) : Prop :=
  Phase st = PhaseSubmitted \/ Phase st = PhaseRunning \/ Phase st = PhaseCompleted \/
  Phase st = PhaseFailed.

Definition status_linked (b : backend) (n : NamespacedName) (st : BenchmarkJobStatus) : Prop :=
  unsubmitted st \/ (submitted st /\ names_row b n st).

Definition object_linked (b : backend) (n : NamespacedName) (job : BenchmarkJob) : Prop :=
  job_key job = n /\ sent_here n (Spec job) /\ status_linked b n (Status job).

Definition good (b : backend) : Prop := backend_inv b /\ printable b.

Definition world_ok (w : world) : Prop :=
  good (w_backend w) /\
  Forall (map_Forall (object_linked (w_backend w))) (w_store w :: w_past w).

(** A program that keeps the invariant when it runs from a backend that has
    come as far as [b], whatever happens between its calls. *)
Fixpoint prog_ok {A} (b : backend) (p : op_prog A) : Prop :=
  match p with
  | Return _ | Panic _ => True
  | Call o k =>
      match o return (ar op_sig o -> op_prog A) -> (backend -> ar op_sig o -> Prop) -> Prop with
      | Do q => fun _ rec =>
          forall b1, good b1 -> later b b1 ->
            (forall e, rec b1 (inl e)) /\
            forall b2 resp, good b2 -> answered q b1 b2 resp -> rec b2 (inr resp)
      | Now => fun _ rec => forall t, rec b t
      | Own (ApiGet n) => fun _ rec =>
          forall b1 x, good b1 -> later b b1 ->
            match x with inl _ => True | inr job => object_linked b1 n job end -> rec b1 x
      | Own (ApiStatusUpdate job) => fun _ rec =>
          status_linked b (job_key job) (Status job) /\ forall x, rec b x
      | Own (ApiUpdate job) => fun _ rec =>
          sent_here (job_key job) (Spec job) /\ forall x, rec b x
      end k (fun b x => prog_ok b (k x))
  end.

(** ** What is known stays true *)

Lemma names_row_later b b' n st : later b b' -> names_row b n st -> names_row b' n st.
Proof using Type.
  intros L (row & Hr & Hk & Hc & Hf). destruct (later_row _ _ L _ _ Hr) as (row' & Hr' & Hk' & Ht).
  exists row'. split; [done|]. split; [congruence|]. split.
  - intros Hp. destruct (Hc Hp) as (Hs & x & Hx & Hm). rewrite (Ht (or_introl Hs)).
    split; [done|]. exists x. split; [by apply (later_result _ _ L)|done].
  - intros Hp. pose proof (Hf Hp) as Hs. by rewrite (Ht (or_intror Hs)).
Qed.

Lemma status_linked_later b b' n st : later b b' -> status_linked b n st -> status_linked b' n st.
Proof using Type.
  intros L [?|[? ?]]; [by left|right]. split; [done|]. by eapply names_row_later.
Qed.

Lemma object_linked_later b b' n job :
  later b b' -> object_linked b n job -> object_linked b' n job.
Proof using Type. intros L (? & ? & ?). split_and!; [done|done|]. by eapply status_linked_later. Qed.

Lemma prog_ok_later {A} b b' (p : op_prog A) : later b b' -> prog_ok b p -> prog_ok b' p.
Proof using Type.
  revert b b'. induction p as [a|m|o k IH]; intros b b' L Hp; [done|done|].
  destruct o as [q| |[n|job|job]]; cbn in *.
  - intros b1 Hg L1. apply Hp; [done|by etrans].
  - intros t. by eapply IH.
  - intros b1 x Hg L1. apply Hp; [done|by etrans].
  - destruct Hp as [? Hk]. split; [done|]. intros x. by eapply IH.
  - destruct Hp as [? Hk]. split; [by eapply status_linked_later|]. intros x. by eapply IH.
Qed.

(** ** Requests *)

Lemma route_get q : Method q = MethodGet -> route_of address q <> RouteCreate.
Proof using Type.
  intros Hm. unfold route_of. destruct (strip_prefix _ _); [|done]. rewrite Hm.
  change (bool_decide (MethodGet = MethodPost)) with false. cbn [andb].
  by repeat case_match.
Qed.

Lemma create_results p b : results (fst (create_benchmark_job Datatypes.id p b)) = results b.
Proof using Type.
  unfold create_benchmark_job, create_benchmark, Datatypes.id. by repeat case_match; simplify_eq.
Qed.

Lemma answered_later q b b' resp :
  good b -> answered q b b' resp -> good b' /\ later b b'.
Proof using WebL.
  intros [I P] [E|between p _ _ Hb E P'].
  - unfold answer in E. destruct (route_of address q) as [|seg|].
    + destruct (parse_json (ReqBody q) ≫= validate) as [p|]; [|by simplify_eq].
      destruct (inv_request Datatypes.id p b I I ltac:(done)) as [I' L'].
      pose proof (create_results p b) as Hx. rewrite E in I', L', Hx. cbn [fst] in *.
      split; [|done]. split; [done|]. unfold printable. by rewrite Hx.
    + by destruct (parse_uuid seg); simplify_eq.
    + by simplify_eq.
  - destruct (steps_inv _ _ I Hb) as [I1 L1].
    pose proof (inv_request between p b I I1 L1) as H. rewrite E in H. by destruct H.
Qed.

(** What a submission is answered with: an error, or the row of its key. *)
Lemma answered_payload g w n k b b' resp :
  accepted_payload g w n k -> backend_inv b ->
  answered (payload_request address g w n k) b b' resp ->
  StatusCode resp = 500 \/
  exists id row, rows b' !! id = Some row /\ row_key row = k /\
    resp = MkResponse StatusAccepted (render (create_response id row)).
Proof using WebL.
  intros Ha I H.
  assert (exists between, backend_steps b (between b) /\
            create_benchmark_job between (MkCreate g w n (Some k)) b = (b', resp))
    as (between & Hb & E).
  { destruct H as [E|between p _ Hp Hb E _].
    - exists Datatypes.id. split; [apply steps_refl|]. rewrite <- E. symmetry.
      by apply answer_payload.
    - exists between. split; [done|]. revert Hp. unfold payload_request. cbn [ReqBody].
      rewrite accepted_parses by done. intros [= <-]. exact E. }
  destruct (steps_inv _ _ I Hb) as [I1 L1].
  pose proof (inv_create between (MkCreate g w n (Some k)) b I I1 L1) as Hc.
  rewrite request_key_some in Hc by apply Ha. unfold create_benchmark_job in E.
  destruct (create_benchmark between _ b) as [b1 [[[id row] created]|]];
    [|left; by simplify_eq]. destruct Hc as (_ & _ & Hr & Hk & _).
  destruct created; [destruct (redis_up b1); [|left; by simplify_eq]|]; simplify_eq;
    right; by exists id, row.
Qed.

(** ** Decoding a poll *)

Definition poll_metrics (x : BenchmarkResult) : metrics :=
  MkMetrics (throughput (res_metrics x)) (latency_ms (res_metrics x))
    (memory_bandwidth_gbps (res_metrics x)).

Lemma status_response_reads b id r :
  good b ->
  parse_json (render (status_response b id r)) = Some (json_sanitize (status_response b id r)).
Proof using WebL.
  intros [_ P]. apply render_reads.
  - unfold status_response. cbn [json_ok foldr snd json_int].
    destruct (results b !! id) as [x|] eqn:E; cbn [json_ok foldr snd result_payload json_int];
      [|auto 20 with golib].
    destruct (P _ _ E) as ([? _] & [? _] & [? _]). auto 20 with golib.
  - unfold status_response. cbn [json_depth foldr snd json_int]. destruct (results b !! id); cbn; lia.
Qed.

Lemma status_reads b id r :
  good b ->
  decode_body decode_status "" (render (status_response b id r)) = Some (status_value (status r)).
Proof using WebL.
  intros G. unfold decode_body. rewrite status_response_reads by done.
  unfold status_response. cbn [json_sanitize map fst snd]. rewrite status_value_ascii. reflexivity.
Qed.

Lemma poll_reads b id r :
  good b ->
  decode_body decode_poll poll_zero (render (status_response b id r)) =
  Some (MkPoll (status_value (status r)) (poll_metrics <$> results b !! id)).
Proof using WebL.
  intros G. unfold decode_body. rewrite status_response_reads by done.
  unfold status_response. cbn [json_sanitize map fst snd]. rewrite status_value_ascii.
  destruct (results b !! id) as [x|] eqn:E; [|reflexivity].
  destruct (proj2 G _ _ E) as ([_ Ht] & [_ Hl] & [_ Hm]).
  unfold result_payload. cbn [json_sanitize map fst snd].
  set (raw := JObject [(sanitize "engine", _); _; _]).
  change (decode_struct decode_poll poll_zero _) with
    (match match match decode_members decode_metrics metrics_zero
       [("throughput", JNumber (float_repr (throughput (res_metrics x))));
        ("latency_ms", JNumber (float_repr (latency_ms (res_metrics x))));
        ("memory_bandwidth_gbps", JNumber (float_repr (memory_bandwidth_gbps (res_metrics x))));
        ("raw_metrics", raw)]
     with Some m => Some (Some m) | None => None end
     with Some m => Some (MkPoll (status_value (status r)) m) | None => None end
     with Some p => Some p | None => None end).
  rewrite (decode_metrics_members _ _ _ _ _ _ [("raw_metrics", raw)] Ht Hl Hm). reflexivity.
Qed.

(** The answer to a poll of a row. *)
Lemma answer_poll b id row ct body :
  good b -> rows b !! id = Some row ->
  answer address (MkRequest MethodGet (address +:+ "/benchmarks/" +:+ id) ct body) b =
  (b, MkResponse 200 (render (status_response b id row))).
Proof using WebL.
  intros [I _] Hr. destruct (inv_fresh _ I _ _ Hr) as (u & Eu & _).
  pose proof (uuid4_segment u) as Hseg.
  unfold answer. rewrite route_status by (by rewrite Eu).
  rewrite Eu, parse_uuid4, <- Eu. unfold get_benchmark_status. by rewrite Hr.
Qed.

Lemma answered_poll b b2 id row resp :
  good b -> rows b !! id = Some row ->
  answered (MkRequest MethodGet (address +:+ "/benchmarks/" +:+ id) None "") b b2 resp ->
  b2 = b /\ resp = MkResponse 200 (render (status_response b id row)).
Proof using WebL.
  intros G Hr [E|between p Hroute _ _ _ _]; [|by apply route_get in Hroute].
  rewrite (answer_poll _ _ _ _ _ G Hr) in E. by injection E as <- <-.
Qed.

(** ** The handlers *)

Lemma setPhase_ok b job phase message :
  (forall st, Phase st = phase -> JobID st = JobID (Status job) ->
     Throughput st = Throughput (Status job) -> LatencyMs st = LatencyMs (Status job) ->
     MemoryBandwidthGbps st = MemoryBandwidthGbps (Status job) ->
     status_linked b (job_key job) st) ->
  prog_ok b (setPhase job phase message).
Proof using Type. intros H. split; [by apply H|]. by intros [e|]. Qed.

Lemma get_ok b (c : option http_Client) (url : string) {A} (f : error + Response -> op_prog A) :
  (forall b1, good b1 -> later b b1 ->
     (forall e, prog_ok b1 (f (inl e))) /\
     forall resp, answer address (MkRequest MethodGet url None "") b1 = (b1, resp) ->
       prog_ok b1 (f (inr resp))) ->
  (forall e, prog_ok b (f (inl e))) ->
  prog_ok b (bind (client_Get c url) f).
Proof using Type.
  intros H He. unfold client_Get, NewRequest. destruct (url_parses url); [|apply He].
  destruct c; [|done]. intros b1 G L. destruct (H b1 G L) as [H1 H2]. split; [exact H1|].
  intros b2 resp _ [E|between p Hroute _ _ _ _]; [|by apply route_get in Hroute].
  pose proof (answer_read address (MkRequest MethodGet url None "") b1 ltac:(done)) as Hb.
  cbn in E. rewrite E in Hb. cbn in Hb. subst b2. by apply H2.
Qed.

Lemma get_bind (c : option http_Client) (url : string) {A B}
    (g : error + Response -> op_prog A) (f : A -> op_prog B) :
  bind (bind (client_Get c url) g) f = bind (client_Get c url) (fun x => bind (g x) f).
Proof using Type. unfold client_Get. by destruct (NewRequest _ _ _), c. Qed.

(** A poll of the job a status names: the answer tells the status of its row
    and, once it is completed, the measurement. *)
Definition polled (b : backend) (job : BenchmarkJob) (row : Benchmark) (resp : Response) : Prop :=
  good b /\ rows b !! JobID (Status job) = Some row /\ row_key row = idempotency_key (job_key job) /\
  decode_body decode_status "" (Body resp) = Some (status_value (status row)) /\
  decode_body decode_poll poll_zero (Body resp) =
    Some (MkPoll (status_value (status row)) (poll_metrics <$> results b !! JobID (Status job))).

Lemma poll_ok r b job {A} (f : error + Response -> op_prog A) :
  base_url (Spec job) = address -> names_row b (job_key job) (Status job) ->
  (forall b1 e, later b b1 -> prog_ok b1 (f (inl e))) ->
  (forall b1 row resp, later b b1 -> polled b1 job row resp -> prog_ok b1 (f (inr resp))) ->
  prog_ok b (bind (client_Get (HTTPClient r) (job_url job)) f).
Proof using WebL.
  intros Hu Hn He Hr. apply get_ok; [|intros e; by apply He].
  intros b1 G L. split; [intros e; by apply He|]. intros resp.
  destruct (names_row_later _ _ _ _ L Hn) as (row & Hrow & Hk & _).
  unfold job_url. change (api_url job) with (base_url (Spec job)). rewrite Hu.
  rewrite (answer_poll _ _ _ _ _ G Hrow). intros [= <-]. apply (Hr _ row _ L).
  unfold polled. cbn [Body]. by rewrite status_reads, poll_reads.
Qed.

Section Handlers.
Variable r : BenchmarkJobReconciler.

Lemma sent_here_url n spec : sent_here n spec -> base_url spec = address.
Proof using Type.
  intros (_ & _ & Hu & Hn). unfold base_url. by rewrite bool_decide_eq_false_2.
Qed.

(** The job of a handler: what was read, some time before. *)
Definition handled (b : backend) (job : BenchmarkJob) : Prop :=
  object_linked b (job_key job) job.

Lemma handled_names b job :
  handled b job -> Phase (Status job) = PhaseSubmitted \/ Phase (Status job) = PhaseRunning ->
  names_row b (job_key job) (Status job).
Proof using Type.
  intros (_ & _ & [[Hp _]|[_ ?]]) Hs; [|done]. exfalso. revert Hp Hs. phases.
Qed.

Lemma handleFailure_ok b job row :
  rows b !! JobID (Status job) = Some row -> row_key row = idempotency_key (job_key job) ->
  status row = failed -> prog_ok b (handleFailure job).
Proof using Type.
  intros Hr Hk Hs. unfold handleFailure. destruct (_ <? _).
  - apply setPhase_ok. cbn. intros st Hp Hj _ _ _. left. split; [by right|done].
  - intros now. apply setPhase_ok. cbn. intros st Hp Hj _ _ _. right. split.
    + unfold submitted. tauto.
    + exists row. rewrite Hp, Hj. split_and!; [done|done|phases|done].
Qed.

Lemma handleSubmitted_ok b job :
  handled b job -> Phase (Status job) = PhaseSubmitted -> prog_ok b (handleSubmitted r job).
Proof using WebL.
  intros Hh Hp. pose proof (handled_names _ _ Hh (or_introl Hp)) as Hn.
  unfold handleSubmitted, pollBackend. rewrite get_bind.
  apply poll_ok; [eapply sent_here_url, Hh|done|done|]. intros b1 row resp L (G & Hr & Hk & Hd & _).
  rewrite Hd. cbn [bind]. case_bool_decide as Hv; [|case_bool_decide; [done|case_bool_decide as Hf; [|done]]].
  - apply setPhase_ok. intros st Hst Hj _ _ _. right. split.
    + unfold submitted. tauto.
    + exists row. rewrite Hst, Hj. split_and!; [done|done|phases..].
  - apply (handleFailure_ok _ _ row); [done|done|]. by destruct (status row).
Qed.

Lemma handleRunning_ok b job :
  handled b job -> Phase (Status job) = PhaseRunning -> prog_ok b (handleRunning r job).
Proof using WebL.
  intros Hh Hp. pose proof (handled_names _ _ Hh (or_intror Hp)) as Hn.
  unfold handleRunning. apply poll_ok; [eapply sent_here_url, Hh|done|done|].
  intros b1 row resp L (G & Hr & Hk & _ & Hd). rewrite Hd. cbn [poll_Status poll_Result].
  case_bool_decide as Hc; [|case_bool_decide as Hf; [|done]].
  - assert (status row = completed) as Hs by by destruct (status row).
    destruct (proj2 (inv_results _ (proj1 G) (JobID (Status job)))) as [x Hx]; [by exists row|].
    rewrite Hx. intros now. apply setPhase_ok. cbn. intros st Hst Hj H1 H2 H3. right. split.
    + unfold submitted. tauto.
    + exists row. rewrite Hst, Hj. split_and!; [done|done| |phases]. intros _. split; [done|].
      exists x. by split.
  - apply (handleFailure_ok _ _ row); [done|done|]. by destruct (status row).
Qed.

Lemma handlePending_ok b job : handled b job -> prog_ok b (handlePending r job).
Proof using WebL.
  intros (_ & Hs & _). pose proof (sent_here_url _ _ Hs) as Hu. destruct Hs as (_ & Ha & _).
  unfold handlePending, client_Post, NewRequest.
  change (api_url job) with (base_url (Spec job)).
  destruct (url_parses _); [|done]. destruct (HTTPClient r) as [c|]; [|done].
  cbn [bind client_Do call Method URL ReqBody].
  change (MkRequest MethodPost _ _ _) with (submit_request (job_key job) (Spec job)).
  intros b1 G L. split; [done|]. intros b2 resp [I2 _] Hans.
  unfold submit_request in Hans. rewrite Hu in Hans.
  destruct (answered_payload _ _ _ _ _ _ _ Ha (proj1 G) Hans)
    as [->|(id & row & Hr & Hk & ->)]; [done|].
  cbn [StatusCode Body Z.eqb negb andb]. rewrite (decode_create_response _ _ _ I2 Hr).
  cbn [sub_JobID]. destruct (negb _ && negb _); [done|]. intros now. apply setPhase_ok.
  cbn. intros st Hst Hj _ _ _. right. split.
  - unfold submitted. tauto.
  - exists row. rewrite Hst, Hj. split_and!; [done|done|phases..].
Qed.

(** A write of the metadata, with nothing after it. *)
Lemma client_update_ok b job (f : option error -> op_prog reconcile_result) :
  sent_here (job_key job) (Spec job) -> (forall x, ends (f x)) ->
  prog_ok b (bind (client_update job) f).
Proof using Type.
  intros Hs Hf. split; [done|]. intros x. specialize (Hf x). cbn. by destruct (f x).
Qed.

Lemma do_ok b (q : option Request) {A} (f : error + Response -> op_prog A) :
  (forall b1 x, later b b1 -> prog_ok b1 (f x)) ->
  prog_ok b (bind (client_Do (HTTPClient r) q) f).
Proof using WebL.
  intros H. destruct q as [q|]; [|done]. destruct (HTTPClient r); [|done]. intros b1 G L.
  split; [intros e; by apply H|]. intros b2 resp G2 Ha. apply H. etrans; [done|].
  by eapply answered_later.
Qed.

Lemma handleDeletion_ok b job : handled b job -> prog_ok b (handleDeletion r job).
Proof using MachL WebL.
  intros (_ & Hs & _). unfold handleDeletion. destruct (ContainsFinalizer _ _); [|done].
  destruct (cancels job); [apply do_ok; intros b1 _ _|];
    (apply client_update_ok; [by rewrite RemoveFinalizer_spec|by intros [e|]]).
Qed.

Lemma reconcile_job_ok b job : handled b job -> prog_ok b (reconcile_job r job).
Proof using MachL WebL.
  intros Hh. unfold reconcile_job. destruct (TimeIsZero _); [|by apply handleDeletion_ok].
  destruct (ContainsFinalizer _ _) eqn:Hf; cbn [negb].
  2: { apply client_update_ok; [|by intros [e|]].
       rewrite AddFinalizer_spec by by apply ContainsFinalizer_false. apply Hh. }
  repeat case_bool_decide; cbn [orb];
    auto using handlePending_ok, handleSubmitted_ok, handleRunning_ok; try done.
  exfalso. destruct Hh as (_ & _ & [[[?|?] _]|[Hs _]]); [done..|].
  unfold submitted in Hs. tauto.
Qed.

Lemma Reconcile_ok b n : prog_ok b (Reconcile r n).
Proof using MachL WebL.
  rewrite Reconcile_unfold. intros b1 [e|job] _ _ Hx; [by destruct (IsNotFound e)|].
  apply reconcile_job_ok. destruct Hx as (Hk & ?). unfold handled, object_linked. by rewrite Hk.
Qed.
End Handlers.

(** ** The world keeps the invariant *)

Lemma sent_here_admitted n spec : sent_here n spec -> sent_here n (admitted spec).
Proof using Type.
  intros (Hv & Ha & Hu). split; [by apply crd_valid_admitted|].
  rewrite admitted_eq by by apply crd_valid_range. split; [exact Ha|].
  unfold default_string. cbn [SchedulerAPIURL]. by rewrite decide_False by apply Hu.
Qed.

Lemma put_status_linked b s cur job v :
  map_Forall (object_linked b) s -> s !! job_key job = Some cur ->
  status_linked b (job_key job) (Status job) ->
  map_Forall (object_linked b) (put_status s cur job v).
Proof using Type.
  intros Hs Hc Hst. destruct (Hs _ _ Hc) as (Hk & Hsent & _). unfold put_status. rewrite Hk.
  by apply map_Forall_insert_2.
Qed.

Lemma put_object_linked b s cur job v :
  map_Forall (object_linked b) s -> s !! job_key job = Some cur ->
  sent_here (job_key job) (Spec job) ->
  map_Forall (object_linked b) (put_object s cur job v).
Proof using Type.
  intros Hs Hc Hsent. destruct (Hs _ _ Hc) as (Hk & _ & Hst). unfold put_object. rewrite Hk.
  destruct (_ && _); [by apply map_Forall_delete|].
  apply map_Forall_insert_2; [|done]. split; [exact Hk|]. split; [by apply sent_here_admitted|done].
Qed.

Lemma user_step_linked b s s' :
  map_Forall (object_linked b) s -> user_step s s' ->
  (forall n job, s' !! n = Some job -> sent_here n (Spec job)) ->
  map_Forall (object_linked b) s'.
Proof using Type.
  intros Hs Hu Hsent. destruct Hu as [n job _ Hk Hv Hst|n cur job Hc Hk Hv Hst|n].
  - apply map_Forall_insert_2; [|done]. split; [done|].
    split; [apply Hsent, lookup_insert_eq|]. left. rewrite Hst. split; [by left|done].
  - apply map_Forall_insert_2; [|done]. split; [done|].
    split; [apply Hsent, lookup_insert_eq|]. rewrite Hst. by destruct (Hs _ _ Hc) as (_ & _ & ?).
  - by apply map_Forall_delete.
Qed.

Lemma set_store_ok w s :
  world_ok w -> map_Forall (object_linked (w_backend w)) s -> world_ok (set_store w s).
Proof using Type. intros [G Hs] Hn. split; [done|]. by constructor. Qed.

Lemma set_backend_ok w b :
  world_ok w -> good b -> later (w_backend w) b -> world_ok (set_backend w b).
Proof using Type.
  intros [_ Hs] G L. split; [done|]. cbn. eapply Forall_impl; [exact Hs|].
  intros s Hl n job Hj. by eapply object_linked_later, Hl.
Qed.

Lemma env_step_ok w w' :
  world_ok w -> env_step w w' -> world_ok w' /\ later (w_backend w) (w_backend w').
Proof using WebL.
  intros Hw [s Hu Hs|b Hb P].
  - split; [|done]. apply set_store_ok; [done|]. destruct Hw as [_ Hw%Forall_cons].
    by eapply user_step_linked; [apply Hw|..].
  - destruct (steps_inv _ _ (proj1 (proj1 Hw)) Hb) as [I L]. split; [|done].
    by apply set_backend_ok.
Qed.

Lemma exchanged_ok w q w' x (P : backend -> error + Response -> Prop) :
  world_ok w -> exchanged w q w' x ->
  (forall b b' e, later b b' -> P b (inl e) -> P b' (inl e)) ->
  (forall e, P (w_backend w) (inl e)) ->
  (forall b2 resp, good b2 -> answered q (w_backend w) b2 resp -> P b2 (inr resp)) ->
  world_ok w' /\ later (w_backend w) (w_backend w') /\ P (w_backend w') x.
Proof using WebL.
  intros Hw Hx Hmono He Hr. pose proof (proj1 Hw) as G.
  destruct Hx as [(-> & e & ->)|(b & resp & E & -> & Hx)]; [by split_and!|].
  destruct (answered_later _ _ _ _ G E) as [G' L'].
  split; [by apply set_backend_ok|]. split; [done|].
  destruct Hx as [->|[e ->]]; [by apply Hr|]. by eapply Hmono.
Qed.

Lemma answers_ok {A} w (o : op op_sig) (k : ar op_sig o -> op_prog A) w' x :
  world_ok w -> prog_ok (w_backend w) (Call o k) -> answers w o w' x ->
  world_ok w' /\ later (w_backend w) (w_backend w') /\ prog_ok (w_backend w') (k x).
Proof using WebL.
  intros Hw Hp Ha. pose proof (proj1 Hw) as G. destruct o as [q| |[n|job|job]]; cbn in Hp, Ha.
  - destruct (Hp _ G ltac:(done)) as [He Hr].
    apply (exchanged_ok w q w' x (fun b x => prog_ok b (k x))); try done.
    intros b b' e L. by apply prog_ok_later.
  - subst w'. split; [done|]. split; [done|apply Hp].
  - destruct Ha as [-> Hx]. split; [done|]. split; [done|]. apply Hp; [done|done|].
    destruct x as [e|job]; [done|]. destruct Hx as (s & Hs & Hj).
    destruct Hw as [_ Hw]. rewrite Forall_forall in Hw. by apply (Hw s Hs).
  - destruct Hp as [Hsent Hp]. destruct Ha as [[-> _]|(cur & v & Hc & _ & ->)]; [by split_and!|].
    split_and!; [|done|apply Hp]. apply set_store_ok; [done|].
    destruct Hw as [_ [Hw _]%Forall_cons]. by apply put_object_linked.
  - destruct Hp as [Hst Hp]. destruct Ha as [[-> _]|(cur & v & Hc & _ & ->)]; [by split_and!|].
    split_and!; [|done|apply Hp]. apply set_store_ok; [done|].
    destruct Hw as [_ [Hw _]%Forall_cons]. by apply put_status_linked.
Qed.

Definition config_ok (c : config) : Prop :=
  world_ok (c_world c) /\ Forall (prog_ok (w_backend (c_world c))) (c_running c).

Lemma running_later b b' (l : list (op_prog reconcile_result)) :
  later b b' -> Forall (prog_ok b) l -> Forall (prog_ok b') l.
Proof using Type. intros L Hl. eapply Forall_impl; [exact Hl|]. intros p. by apply prog_ok_later. Qed.

Lemma config_empty_ok : config_ok config_empty.
Proof using Type.
  split; [|constructor]. split; [split; [apply empty_inv|]|].
  - intros id x Hx. cbn in Hx. by apply lookup_empty_Some in Hx.
  - apply Forall_singleton, map_Forall_empty.
Qed.

Lemma closed_step_ok c c' :
  config_ok c -> closed_step c c' ->
  config_ok c' /\ later (w_backend (c_world c)) (w_backend (c_world c')).
Proof using MachL WebL.
  intros [Hw Hr] Hs. destruct Hs as [w He|r n|l1 o k l2 w x E Ha|l1 p l2 E].
  - destruct (env_step_ok _ _ Hw He) as [Hw' L]. split; [|done]. split; [done|].
    by eapply running_later.
  - split; [|done]. split; [done|]. constructor; [apply Reconcile_ok|done].
  - rewrite E, Forall_app, Forall_cons in Hr. destruct Hr as (H1 & Hk & H2).
    destruct (answers_ok _ _ _ _ _ Hw Hk Ha) as (Hw' & L & Hk'). split; [|done]. split; [done|].
    apply Forall_app_2; [|constructor; [done|]]; by eapply running_later.
  - rewrite E, Forall_app, Forall_cons in Hr. destruct Hr as (H1 & _ & H2). split; [|done].
    split; [done|]. by apply Forall_app_2.
Qed.

Lemma reachable_ok c : rtc closed_step config_empty c -> config_ok c.
Proof using MachL WebL.
  intros H. assert (forall d, rtc closed_step d c -> config_ok d -> config_ok c) as Hk.
  { induction 1 as [|d1 d2 d3 Hs _ IH]; [done|]. intros Hd. apply IH; [done|].
    by destruct (closed_step_ok _ _ Hd Hs). }
  by apply (Hk config_empty), config_empty_ok.
Qed.
End Closed.
