(* ===== verification/ClosedTheorems.v ===== *)
(** * Theorems on the closed system

    What holds of every object in every state the interleaved system reaches,
    and a run of that system in which a job is submitted, fails once, is
    measured and completes. *)
From S2P Require Export OperatorTheorems SystemTheorems Closed.

(** C3. The operator and the backend never disagree on whose job is whose.
    Any number of reconciliations of any objects run at once, interleaved call
    by call with users, other sessions of the backend (also in the middle of a
    submission), its workers and its queue's store; reads may be stale,
    requests, answers and writes may be lost, and a reconciliation may die
    between two calls.  In every state
    reached, an object either has not been submitted and has no job ID, or its
    job ID is that of the one row stored under its own key; a Completed object
    has a completed row and carries exactly the measurement recorded for it, a
    Failed object has a failed row; and two objects in slash-free namespaces
    never share a job ID. *)
Theorem Closed_system_consistent {Mach : Machinery} {MachL : MachineryLaws} {Web : WebStack}
    {WebL : WebStackLaws} (address : string) (c : config) (n : NamespacedName)
    (job : BenchmarkJob) :
  rtc (closed_step address) config_empty c ->
  w_store (c_world c) !! n = Some job ->
  let b := w_backend (c_world c) in
  let st := Status job in
  (((Phase st = "" \/ Phase st = PhasePending) /\ JobID st = "") \/
   ((Phase st = PhaseSubmitted \/ Phase st = PhaseRunning \/ Phase st = PhaseCompleted \/
     Phase st = PhaseFailed) /\
    exists row, rows b !! JobID st = Some row /\
      (forall id row', rows b !! id = Some row' -> row_key row' = idempotency_key n ->
         id = JobID st) /\
      row_key row = idempotency_key n /\
      (Phase st = PhaseCompleted -> status row = completed /\
         exists x, results b !! JobID st = Some x /\
           Throughput st = Some (throughput (res_metrics x)) /\
           LatencyMs st = Some (latency_ms (res_metrics x)) /\
           MemoryBandwidthGbps st = Some (memory_bandwidth_gbps (res_metrics x))) /\
      (Phase st = PhaseFailed -> status row = failed))) /\
  (forall n' job', w_store (c_world c) !! n' = Some job' ->
     has_byte 47 (NsNamespace n) = false -> has_byte 47 (NsNamespace n') = false ->
     JobID st <> "" -> JobID (Status job') = JobID st -> n' = n).
Proof.
  intros Hc Hj b st.
  destruct (reachable_ok address c Hc) as [[[I _] [Hs _]%Forall_cons] _].
  destruct (Hs n job Hj) as (_ & _ & Hl). split.
  - destruct Hl as [Hl|[Hp (row & Hr & Hk & Hx)]]; [by left|right]. split; [exact Hp|].
    exists row. split; [exact Hr|]. split; [|done]. intros id row' Hr' Hk'.
    apply (inv_keys _ I _ _ _ _ Hr' Hr). by rewrite Hk, Hk'.
  - intros n' job' Hj' H1 H2 Hne E. destruct (Hs n' job' Hj') as (_ & _ & Hl').
    destruct Hl as [[_ ?]|[_ (row & Hr & Hk & _)]]; [done|].
    destruct Hl' as [[_ ?]|[_ (row' & Hr' & Hk' & _)]]; [congruence|].
    apply idempotency_key_injective; [done..|]. subst st. rewrite E, Hr in Hr'. congruence.
Qed.

(** ** A run of the closed system *)

Section Prompt.
Context {Mach : Machinery} {Web : WebStack}.
Variable address : string.

(** Every call is served at once and nothing fails. *)
Definition prompt_write (put : store -> BenchmarkJob -> BenchmarkJob -> string -> store)
    (job : BenchmarkJob) (w : world) : world * option error :=
  match w_store w !! job_key job with
  | Some cur =>
      if bool_decide (ResourceVersion (Meta cur) = ResourceVersion (Meta job))
      then (set_store w (put (w_store w) cur job (ResourceVersion (Meta cur) +:+ "'")), None)
      else (w, Some conflict_error)
  | None => (w, Some not_found_error)
  end.

Definition prompt : handler op_sig world :=
  fun o w =>
    match o return world * ar op_sig o with
    | Do q => let '(b, resp) := answer address q (w_backend w) in (set_backend w b, inr resp)
    | Now => (w, 100)
    | Own (ApiGet n) =>
        (w, match w_store w !! n with Some job => inr job | None => inl not_found_error end)
    | Own (ApiUpdate job) => prompt_write put_object job w
    | Own (ApiStatusUpdate job) => prompt_write put_status job w
    end.

Lemma prompt_write_answers put job w :
  write_answers put job w (fst (prompt_write put job w)) (snd (prompt_write put job w)).
Proof.
  unfold prompt_write, write_answers. destruct (w_store w !! _) as [cur|] eqn:E; [|by left].
  case_bool_decide as Hv; [|by left]. right. by exists cur, (ResourceVersion (Meta cur) +:+ "'").
Qed.

Lemma prompt_answers o w : answers address w o (fst (prompt o w)) (snd (prompt o w)).
Proof.
  destruct o as [q| |[n|job|job]]; cbn; [| |split; [done|]|apply prompt_write_answers..].
  - destruct (answer address q (w_backend w)) as [b resp] eqn:E. right.
    exists b, resp. split_and!; [by apply answered_at_once|done|by left].
  - done.
  - destruct (w_store w !! n) as [job|] eqn:E; [|done]. exists (w_store w). split; [left|done].
Qed.

(** A reconciliation that runs without a break is a sequence of steps. *)
Lemma run_steps (p : op_prog reconcile_result) w l :
  rtc (closed_step address) (MkConfig w (p :: l)) (MkConfig (ex_world (run prompt p w)) l).
Proof.
  revert w. induction p as [a|m|o k IH]; intros w;
    [by apply rtc_once, (closed_end _ (MkConfig w (Return a :: l)) [] (Return a) l)
    |by apply rtc_once, (closed_end _ (MkConfig w (Panic m :: l)) [] (Panic m) l)|].
  cbn [run]. pose proof (prompt_answers o w) as Ha. destruct (prompt o w) as [w1 x].
  eapply rtc_l; [|apply IH].
  by apply (closed_call _ (MkConfig w (Call o k :: l)) [] o k l w1 x).
Qed.

Lemma reconcile_steps r n w :
  rtc (closed_step address) (MkConfig w [])
    (MkConfig (ex_world (run prompt (Reconcile (SetupWithManager r) n) w)) []).
Proof.
  eapply rtc_l; [apply (closed_start _ (MkConfig w []) r n)|]. apply run_steps.
Qed.
End Prompt.

(** The demo object, created by its user and reconciled twice: protected and
    submitted.  A worker's first attempt fails; polled, the job is Running;
    the second attempt succeeds; polled again, it is Completed. *)
Definition demo_address : string := "http://mock-server".

Definition demo_round (w : world) : world :=
  ex_world (run (prompt demo_address) (Reconcile (SetupWithManager (MkReconciler None)) demo_key) w).

Definition created_world : world :=
  set_store (c_world config_empty) {[demo_key := demo_job [] status_empty]}.
Definition submitted_world : world := demo_round (demo_round created_world).
Definition running_world : world :=
  demo_round (set_backend submitted_world (worker_turn (inl "boom") (w_backend submitted_world))).
Definition completed_world : world :=
  demo_round (set_backend running_world
    (worker_turn (inr ("SimulatedGPUBenchmarkEngine", demo_measure)) (w_backend running_world))).

Lemma worker_step outcome w :
  printable (worker_turn outcome (w_backend w)) ->
  rtc (closed_step demo_address) (MkConfig w [])
    (MkConfig (set_backend w (worker_turn outcome (w_backend w))) []).
Proof.
  intros P. apply rtc_once, closed_env, env_backend; [|exact P].
  apply steps_worker, steps_refl.
Qed.

Lemma created_steps :
  rtc (closed_step demo_address) config_empty (MkConfig created_world []).
Proof.
  apply rtc_once, (closed_env _ config_empty), env_users.
  - apply (user_create ∅ demo_key (demo_job [] status_empty)); done.
  - intros n job. rewrite lookup_singleton_Some. intros [<- <-].
    split; [done|]. split; [apply demo_acceptable|done].
Qed.

Lemma running_printable :
  printable (worker_turn (inl "boom") (w_backend submitted_world)).
Proof.
  intros id x. replace (results _) with (∅ : gmap string BenchmarkResult)
    by (vm_compute; reflexivity). by rewrite lookup_empty.
Qed.

Lemma completed_printable :
  printable (worker_turn (inr ("SimulatedGPUBenchmarkEngine", demo_measure))
    (w_backend running_world)).
Proof.
  intros id x. replace (results _) with
    ({["uuid-1" := MkResultRow demo_measure "SimulatedGPUBenchmarkEngine" "inference" 2]}
       : gmap string BenchmarkResult) by (vm_compute; reflexivity).
  rewrite lookup_singleton_Some. intros [_ <-].
  split_and!; (split; [apply number_litb_sound|]); vm_compute; reflexivity.
Qed.

Lemma completed_reached :
  rtc (closed_step demo_address) config_empty (MkConfig completed_world []).
Proof.
  etrans; [exact created_steps|]. do 2 (etrans; [apply reconcile_steps|]).
  etrans; [apply worker_step, running_printable|]. etrans; [apply reconcile_steps|].
  etrans; [apply worker_step, completed_printable|]. apply reconcile_steps.
Qed.

Lemma Closed_system_consistent_witness :
  exists job row x, w_store completed_world !! demo_key = Some job /\
    Phase (Status job) = PhaseCompleted /\
    rows (w_backend completed_world) !! JobID (Status job) = Some row /\
    row_key row = "default/test-h100-benchmark" /\ status row = completed /\
    results (w_backend completed_world) !! JobID (Status job) = Some x /\
    Throughput (Status job) = Some (throughput (res_metrics x)) /\
    throughput (res_metrics x) = S754_finite false 6047313952768000 (-43).
Proof.
  destruct (w_store completed_world !! demo_key) as [job|] eqn:E; [|vm_compute in E; discriminate].
  assert (Phase (Status job) = PhaseCompleted) as Hp by (vm_compute in E; by injection E as <-).
  destruct (Closed_system_consistent demo_address (MkConfig completed_world []) demo_key job
    completed_reached E) as [[[[H|H] _]|(_ & row & Hr & _ & Hk & Hc & _)] _];
    [rewrite Hp in H; discriminate..|].
  destruct (Hc Hp) as (Hs & x & Hx & Ht & _). exists job, row, x. split_and!; try assumption.
  reflexivity. vm_compute in E; injection E as <-. vm_compute in Hx. by injection Hx as <-.
Defined.
