(* ===== verification/Platform.v ===== *)
(** * The platform: operator and provider on one backend

    The closed system of [Closed], joined by the Crossplane provider.
    crossplane-runtime's managed reconciler is a library: all that is assumed
    of it is that it connects and then calls a method of the client, on some
    value of a resource it knows, an old or a new one, and that it keeps what
    the method leaves or loses it.  Calls of both controllers are interleaved
    one by one with each other and with users, sessions and workers; an
    invariant links the job ID of every known resource to the row of its key. *)
From S2P Require Export Closed.
From S2P Require Provider.
From S2P Require Import ProviderTypes.
Import Operator Closed.

Abbreviation resource := GPUBenchmarkJob.
Abbreviation managed := Provider.Managed.
Abbreviation observation cr := (AtProvider (ProviderTypes.Status cr)).
Abbreviation external_id cr := (ProviderTypes.JobID (observation cr)).
Abbreviation external_phase cr := (ProviderTypes.Phase (observation cr)).

(** ** The calls of crossplane-runtime *)

Inductive client_method : Type := MObserve | MCreate | MUpdate | MDelete.

Section Calls.
Context {Xp : Crossplane}.

(** The resource as a method leaves it. *)
Definition leaves (m : client_method) (e : Provider.external) (mg : managed) :
    Provider.xp_prog managed :=
  match m with
  | MObserve => let! r := Provider.Observe e mg in Return (fst (fst r))
  | MCreate => let! r := Provider.Create e mg in Return (fst (fst r))
  | MUpdate => let! r := Provider.Update e mg in Return (fst (fst r))
  | MDelete => let! r := Provider.Delete e mg in Return (fst r)
  end.

Definition managed_call (m : client_method) (mg : managed) : Provider.xp_prog managed :=
  let! got := Provider.Connect (fst Provider.SetupGPUBenchmarkJob) mg in
  match got with
  | inl _ => Return mg
  | inr e => leaves m e mg
  end.

Definition same_resource (cr cr' : resource) : Prop :=
  Name (ProviderTypes.Meta cr') = Name (ProviderTypes.Meta cr) /\
  Namespace (ProviderTypes.Meta cr') = Namespace (ProviderTypes.Meta cr).

(** No measurement in the status of a resource. *)
Definition unmeasured (o : GPUBenchmarkJobObservation) : Prop :=
  ProviderTypes.Throughput o = None /\ ProviderTypes.LatencyMs o = None /\
  ProviderTypes.MemoryBandwidthGbps o = None.

Definition measures (o : GPUBenchmarkJobObservation) (x : BenchmarkResult) : Prop :=
  ProviderTypes.Throughput o = Some (throughput (res_metrics x)) /\
  ProviderTypes.LatencyMs o = Some (latency_ms (res_metrics x)) /\
  ProviderTypes.MemoryBandwidthGbps o = Some (memory_bandwidth_gbps (res_metrics x)).

Definition unobserved (o : GPUBenchmarkJobObservation) : Prop :=
  ProviderTypes.JobID o = "" /\ ProviderTypes.Phase o = "" /\ unmeasured o.
End Calls.

Section Platform.
Context {Mach : Machinery} {MachL : MachineryLaws} {Web : WebStack} {WebL : WebStackLaws}.
Context {Xp : Crossplane}.

(** The address every ProviderConfig and every BenchmarkJob names. *)
Variable address : string.

(** Resources are cluster-scoped and ask for what the backend accepts. *)
Definition admissible (cr : resource) : Prop :=
  let p := ForProvider (ProviderTypes.Spec cr) in
  Namespace (ProviderTypes.Meta cr) = "" /\
  accepted_payload (ProviderTypes.GPUModel p) (ProviderTypes.WorkloadType p)
    (ProviderTypes.BatchSize p) (Provider.idempotency_key cr).

Definition provider_answers (w : world) (o : op Provider.xp_sig) (w' : world) :
    ar Provider.xp_sig o -> Prop :=
  match o return ar Provider.xp_sig o -> Prop with
  | Do q => exchanged address w q w'
  | Now => fun _ => w' = w
  | Own (Provider.GetProviderConfig n) => fun x =>
      w' = w /\ match x with
                | inl _ => True
                | inr pc => ProviderTypes.SchedulerAPIURL (PcSpec pc) = address
                end
  end.

Record platform : Type := MkPlatform {
  p_operator : config;
  p_known : list resource;
  p_calls : list (Provider.xp_prog managed)
}.

Definition p_world (p : platform) : world := c_world (p_operator p).

Definition set_world (c : config) (w : world) : config := MkConfig w (c_running c).

Inductive platform_step (p : platform) : platform -> Prop :=
| platform_operator c :
    closed_step address (p_operator p) c -> platform_step p (MkPlatform c (p_known p) (p_calls p))
| platform_create cr :
    admissible cr -> unobserved (observation cr) ->
    platform_step p (MkPlatform (p_operator p) (cr :: p_known p) (p_calls p))
| platform_edit cr cr' :
    cr ∈ p_known p -> same_resource cr cr' -> admissible cr' ->
    observation cr' = observation cr ->
    platform_step p (MkPlatform (p_operator p) (cr' :: p_known p) (p_calls p))
| platform_start cr m :
    cr ∈ p_known p ->
    platform_step p (MkPlatform (p_operator p) (p_known p)
                       (managed_call m (Provider.MGPUBenchmarkJob cr) :: p_calls p))
| platform_call l1 o k l2 w x :
    p_calls p = l1 ++ Call o k :: l2 -> provider_answers (p_world p) o w x ->
    platform_step p (MkPlatform (set_world (p_operator p) w) (p_known p) (l1 ++ k x :: l2))
| platform_return l1 cr l2 :
    p_calls p = l1 ++ Return (Provider.MGPUBenchmarkJob cr) :: l2 ->
    platform_step p (MkPlatform (p_operator p) (cr :: p_known p) (l1 ++ l2))
| platform_abandon l1 q l2 :
    p_calls p = l1 ++ q :: l2 ->
    platform_step p (MkPlatform (p_operator p) (p_known p) (l1 ++ l2)).

Definition platform_empty : platform := MkPlatform config_empty [] [].

(** ** The invariant *)

Definition names_own_row (b : backend) (cr : resource) : Prop :=
  exists row, rows b !! external_id cr = Some row /\ row_key row = Provider.idempotency_key cr /\
    (external_phase cr = "completed" -> status row = completed /\
       exists x, results b !! external_id cr = Some x /\ measures (observation cr) x) /\
    (external_phase cr = "failed" -> status row = failed) /\
    (unmeasured (observation cr) \/
     exists x, results b !! external_id cr = Some x /\ measures (observation cr) x).

Definition resource_linked (b : backend) (cr : resource) : Prop :=
  admissible cr /\ (unobserved (observation cr) \/ names_own_row b cr).

Fixpoint call_ok (b : backend) (p : Provider.xp_prog managed) : Prop :=
  match p with
  | Return (Provider.MGPUBenchmarkJob cr) => resource_linked b cr
  | Return _ | Panic _ => True
  | Call o k =>
      match o return (ar Provider.xp_sig o -> Provider.xp_prog managed) ->
                     (backend -> ar Provider.xp_sig o -> Prop) -> Prop with
      | Do q => fun _ rec =>
          forall b1, good b1 -> later b b1 ->
            (forall e, rec b1 (inl e)) /\
            forall b2 resp, good b2 -> answered address q b1 b2 resp -> rec b2 (inr resp)
      | Now => fun _ rec => forall t, rec b t
      | Own (Provider.GetProviderConfig n) => fun _ rec =>
          forall x, match x with
                    | inl _ => True
                    | inr pc => ProviderTypes.SchedulerAPIURL (PcSpec pc) = address
                    end -> rec b x
      end k (fun b x => call_ok b (k x))
  end.

Definition platform_ok (p : platform) : Prop :=
  let b := w_backend (p_world p) in
  config_ok address (p_operator p) /\ Forall (resource_linked b) (p_known p) /\
  Forall (call_ok b) (p_calls p).

(** ** What is known stays true *)

Lemma names_own_row_later b b' cr : later b b' -> names_own_row b cr -> names_own_row b' cr.
Proof using Type.
  intros L (row & Hr & Hk & Hc & Hf & Hm).
  destruct (later_row _ _ L _ _ Hr) as (row' & Hr' & Hk' & Ht).
  exists row'. split; [done|]. split; [congruence|]. split_and!.
  - intros Hp. destruct (Hc Hp) as (Hs & x & Hx & Hmx). rewrite (Ht (or_introl Hs)).
    split; [done|]. exists x. split; [by apply (later_result _ _ L)|done].
  - intros Hp. pose proof (Hf Hp) as Hs. by rewrite (Ht (or_intror Hs)).
  - destruct Hm as [?|(x & Hx & ?)]; [by left|right]. exists x.
    split; [by apply (later_result _ _ L)|done].
Qed.

Lemma resource_linked_later b b' cr : later b b' -> resource_linked b cr -> resource_linked b' cr.
Proof using Type.
  intros L [? [?|?]]; (split; [done|]); [by left|right]. by eapply names_own_row_later.
Qed.

Lemma call_ok_later b b' p : later b b' -> call_ok b p -> call_ok b' p.
Proof using Type.
  revert b b'. induction p as [[cr|k]|m|o k IH]; intros b b' L Hp; [|done..|].
  { by eapply resource_linked_later. }
  destruct o as [q| |[n]]; cbn in *.
  - intros b1 G L1. apply Hp; [done|by etrans].
  - intros t. by eapply IH.
  - intros x Hx. by eapply IH, Hp.
Qed.

(** ** The methods *)

(** What a method leaves of a resource keeps its metadata and spec. *)
Lemma linked_update b cr cr' :
  resource_linked b cr -> ProviderTypes.Meta cr' = ProviderTypes.Meta cr ->
  ProviderTypes.Spec cr' = ProviderTypes.Spec cr ->
  (Provider.idempotency_key cr' = Provider.idempotency_key cr -> names_own_row b cr') ->
  resource_linked b cr'.
Proof using Type.
  intros [[Hns Ha] _] Em Es Hn.
  assert (Provider.idempotency_key cr' = Provider.idempotency_key cr) as Ek
    by (unfold Provider.idempotency_key; by rewrite Em).
  split; [|right; by apply Hn]. unfold admissible. by rewrite Em, Es, Ek.
Qed.

Lemma names_of_id b cr :
  resource_linked b cr -> external_id cr <> "" -> names_own_row b cr.
Proof using Type. intros [_ [[? _]|?]] Hid; [done|done]. Qed.

(** One exchange, with the client of the registered connector. *)
Lemma exchange_ok b c q (f : error + Response -> Provider.xp_prog managed) :
  (forall b1, good b1 -> later b b1 ->
     (forall e, call_ok b1 (f (inl e))) /\
     forall b2 resp, good b2 -> answered address q b1 b2 resp -> call_ok b2 (f (inr resp))) ->
  call_ok b (bind (client_Do (Some c) (Some q)) f).
Proof using Type. intros H. exact H. Qed.

Section Methods.
Variable e : Provider.external.
Variable c : http_Client.
Hypothesis He : Provider.ext_http e = Some c.
Hypothesis Hurl : Provider.schedulerURL e = address.

Lemma Observe_leaves b cr :
  resource_linked b cr -> call_ok b (leaves MObserve e (Provider.MGPUBenchmarkJob cr)).
Proof using WebL He Hurl.
  intros Hl. cbn [leaves]. unfold Provider.Observe. case_bool_decide as Hid; [exact Hl|].
  unfold NewRequest. destruct (url_parses _); [|exact Hl].
  rewrite He. cbn [client_Do bind call]. intros b1 G L.
  pose proof (resource_linked_later _ _ _ L Hl) as Hl1. split; [intros err; exact Hl1|].
  pose proof (names_of_id _ _ Hl1 Hid) as (row & Hr & Hk & _ & _ & Hm).
  intros b2 resp _ Ha. unfold Provider.job_url in Ha. rewrite Hurl in Ha.
  destruct (answered_poll _ _ _ _ _ _ G Hr Ha) as [-> ->].
  change (StatusCode (MkResponse 200 _) =? StatusNotFound) with false. cbn [Body].
  rewrite poll_reads by done. cbn [poll_Status poll_Result].
  pose proof (inv_results _ (proj1 G) (external_id cr)) as Hres.
  assert (Hc : status row = completed ->
    exists x, results b1 !! external_id cr = Some x).
  { intros Hs. apply Hres. by exists row. }
  destruct (status row) eqn:Es; cbn [status_value bind].
  1,2,4: case_bool_decide; [done|]; cbn; apply (linked_update b1 cr); [done..|];
    intros _; exists row; cbn; split_and!; try done; by intros.
  rewrite bool_decide_eq_true_2 by done. destruct (Hc eq_refl) as [x Hx]. rewrite Hx.
  cbn. apply (linked_update b1 cr); [done..|]. intros _. exists row. cbn.
  split_and!; [done|done| |done|]; [intros _; split; [done|]|right]; by exists x.
Qed.

Lemma decode_created b id row :
  backend_inv b -> rows b !! id = Some row ->
  decode_body Provider.decode_job_id "" (render (create_response id row)) = Some id.
Proof using WebL.
  intros I Hr. unfold decode_body. rewrite render_parses; [reflexivity|cbn; tauto|cbn; lia|].
  destruct (inv_fresh _ I _ _ Hr) as (n & -> & _). unfold create_response.
  cbn [json_sanitize map fst snd]. rewrite uuid4_ascii, status_value_ascii, (inv_created _ I _ _ Hr).
  reflexivity.
Qed.

Lemma Create_leaves b cr :
  resource_linked b cr -> call_ok b (leaves MCreate e (Provider.MGPUBenchmarkJob cr)).
Proof using WebL He Hurl.
  intros Hl. cbn [leaves]. unfold Provider.Create, NewRequest. rewrite Hurl.
  destruct (url_parses _); [|exact Hl]. rewrite He. cbn [client_Do bind call Method URL ReqBody].
  intros b1 G L. pose proof (resource_linked_later _ _ _ L Hl) as Hl1.
  split; [intros err; exact Hl1|]. intros b2 resp G2 Ha.
  destruct (answered_later _ _ _ _ _ G Ha) as [_ L2].
  pose proof (resource_linked_later _ _ _ L2 Hl1) as Hl2.
  destruct (answered_payload address _ _ _ _ _ _ _ (proj2 (proj1 Hl)) (proj1 G) Ha)
    as [Hc|(id & row & Hr & Hk & ->)].
  { rewrite Hc. exact Hl2. }
  cbn [StatusCode Body Z.eqb negb andb]. rewrite (decode_created _ _ _ (proj1 G2) Hr).
  destruct (negb _ && negb _); [exact Hl2|]. cbn.
  apply (linked_update b2 cr); [done..|]. intros _. exists row. cbn. split_and!; try done.
  destruct Hl2 as [_ [(_ & _ & Hun)|(row' & Hr' & Hk' & _ & _ & [Hun|Hm])]]; [by left..|right].
  assert (external_id cr = id) as <-; [|done].
  apply (inv_keys _ (proj1 G2) _ _ _ _ Hr' Hr). congruence.
Qed.

Lemma Delete_leaves b cr :
  resource_linked b cr -> call_ok b (leaves MDelete e (Provider.MGPUBenchmarkJob cr)).
Proof using WebL He.
  intros Hl. cbn [leaves]. unfold Provider.Delete. case_bool_decide; [exact Hl|].
  destruct (NewRequest _ _ _) as [?|q]; [exact Hl|]. rewrite He. intros b1 G L.
  pose proof (resource_linked_later _ _ _ L Hl) as Hl1. split; [intros err; exact Hl1|].
  intros b2 resp _ Ha. destruct (answered_later _ _ _ _ _ G Ha) as [_ L2].
  by eapply resource_linked_later.
Qed.

Lemma leaves_ok b m cr :
  resource_linked b cr -> call_ok b (leaves m e (Provider.MGPUBenchmarkJob cr)).
Proof using WebL He Hurl.
  intros Hl. destruct m; [by apply Observe_leaves|by apply Create_leaves|exact Hl|
    by apply Delete_leaves].
Qed.
End Methods.

Lemma managed_call_ok b m cr :
  resource_linked b cr -> call_ok b (managed_call m (Provider.MGPUBenchmarkJob cr)).
Proof using WebL.
  intros Hl [err|pc] Hpc; [exact Hl|]. by apply (leaves_ok _ (MkClient (10 * Second))).
Qed.

(** ** The platform keeps the invariant *)

Lemma provider_answers_ok w o k w' x :
  world_ok address w -> call_ok (w_backend w) (Call o k) -> provider_answers w o w' x ->
  world_ok address w' /\ later (w_backend w) (w_backend w') /\ call_ok (w_backend w') (k x).
Proof using WebL.
  intros Hw Hp Ha. destruct o as [q| |[n]]; cbn in Hp, Ha.
  - destruct (Hp _ (proj1 Hw) ltac:(done)) as [He Hr].
    apply (exchanged_ok address w q w' x (fun b x => call_ok b (k x))); try done.
    intros b b' e L. by apply call_ok_later.
  - subst w'. split; [done|]. split; [done|apply Hp].
  - destruct Ha as [-> Hx]. split; [done|]. split; [done|]. by apply Hp.
Qed.

Lemma known_later b b' l :
  later b b' -> Forall (resource_linked b) l -> Forall (resource_linked b') l.
Proof using Type. intros L Hl. eapply Forall_impl; [done|]. intros. by eapply resource_linked_later. Qed.

Lemma calls_later b b' l : later b b' -> Forall (call_ok b) l -> Forall (call_ok b') l.
Proof using Type. intros L Hl. eapply Forall_impl; [done|]. intros. by eapply call_ok_later. Qed.

Lemma platform_step_ok p p' : platform_ok p -> platform_step p p' -> platform_ok p'.
Proof using MachL WebL.
  intros (Hc & Hk & Hp) Hs.
  destruct Hs as [c Hs|cr Ha Hu|cr cr' Hin Hs Ha Ho|cr m Hin|l1 o k l2 w x E Ha|l1 cr l2 E|l1 q l2 E];
    unfold platform_ok, p_world in *; cbn.
  - destruct (closed_step_ok _ _ _ Hc Hs) as [Hc' L]. split_and!;
      [done|by eapply known_later|by eapply calls_later].
  - split_and!; [done| |done]. constructor; [|done]. split; [done|by left].
  - split_and!; [done| |done]. constructor; [|done]. rewrite Forall_forall in Hk.
    destruct (Hk _ Hin) as [Ha0 Hl]. split; [done|].
    assert (Provider.idempotency_key cr' = Provider.idempotency_key cr) as Ek.
    { unfold Provider.idempotency_key. by destruct Hs as [-> ->]. }
    unfold names_own_row in *. by rewrite Ho, Ek.
  - split_and!; [done|done|]. constructor; [|done]. apply managed_call_ok.
    rewrite Forall_forall in Hk. by apply Hk.
  - rewrite E, Forall_app, Forall_cons in Hp. destruct Hp as (H1 & Hok & H2).
    destruct Hc as [Hw Hr]. destruct (provider_answers_ok _ _ _ _ _ Hw Hok Ha) as (Hw' & L & Hx).
    split_and!; [split; [done|by eapply running_later]|by eapply known_later|].
    apply Forall_app_2; [|constructor; [done|]]; by eapply calls_later.
  - rewrite E, Forall_app, Forall_cons in Hp. destruct Hp as (H1 & Hl & H2).
    split_and!; [done|by constructor|by apply Forall_app_2].
  - rewrite E, Forall_app, Forall_cons in Hp. destruct Hp as (H1 & _ & H2).
    split_and!; [done|done|by apply Forall_app_2].
Qed.

Lemma platform_reachable_ok p : rtc platform_step platform_empty p -> platform_ok p.
Proof using MachL WebL.
  intros H. assert (forall q, rtc platform_step q p -> platform_ok q -> platform_ok p) as Hk.
  { induction 1 as [|q1 q2 q3 Hs _ IH]; [done|]. intros Hq. apply IH; [done|].
    by eapply platform_step_ok. }
  apply (Hk platform_empty H). split; [apply config_empty_ok|by split].
Qed.
End Platform.
