(* ===== verification/PlatformTheorems.v ===== *)
(** * Theorems on the platform

    What holds of every managed resource, and of resources and BenchmarkJobs
    together, in every state the two controllers reach on one backend, and a
    run in which both submit, and the provider observes a measurement. *)
From S2P Require Export ClosedTheorems Platform.
From S2P Require Provider ProviderTheorems.
From S2P Require Import ProviderTypes.
Import Operator Closed.

(** C4. Two controllers share one backend without mixing up jobs.  The
    operator's closed system is joined by the provider: crossplane-runtime may
    call any method on any value of a resource it has ever known, and lose or
    keep what the method leaves; all calls are interleaved with those of the
    operator, with users, sessions and workers.  In every state reached, every
    known value of a GPUBenchmarkJob has not been created, with no job ID,
    phase or metrics, or its job ID is that of the one row stored under its own
    key; "completed" and "failed" are the status of that row, and metrics are
    those of the measurement recorded for it.  Resources with the same job ID
    have the same name, and none has the job ID of a BenchmarkJob. *)
Theorem Platform_consistent {Mach : Machinery} {MachL : MachineryLaws} {Web : WebStack}
    {WebL : WebStackLaws} {Xp : Crossplane} (address : string) (p : platform) (cr : resource) :
  rtc (platform_step address) platform_empty p -> cr ∈ p_known p ->
  let b := w_backend (p_world p) in
  let o := observation cr in
  let id := external_id cr in
  ((id = "" /\ external_phase cr = "" /\ unmeasured o) \/
   exists row, rows b !! id = Some row /\ row_key row = Provider.idempotency_key cr /\
     (forall id' row', rows b !! id' = Some row' ->
        row_key row' = Provider.idempotency_key cr -> id' = id) /\
     (external_phase cr = "completed" -> status row = completed /\ ~ unmeasured o) /\
     (external_phase cr = "failed" -> status row = failed) /\
     (unmeasured o \/ exists x, results b !! id = Some x /\ measures o x)) /\
  (forall cr', cr' ∈ p_known p -> id <> "" -> external_id cr' = id ->
     Name (ProviderTypes.Meta cr') = Name (ProviderTypes.Meta cr)) /\
  (forall n job, w_store (p_world p) !! n = Some job ->
     NsNamespace n <> "" -> has_byte 47 (NsNamespace n) = false ->
     id <> "" -> Operator.JobID (Operator.Status job) <> id).
Proof.
  intros Hp Hin b o id.
  destruct (platform_reachable_ok address p Hp) as ([[[I _] [Hs _]%Forall_cons] _] & Hk & _).
  rewrite Forall_forall in Hk. destruct (Hk _ Hin) as [[Hns _] Hl].
  assert (Hrow : id <> "" -> exists row, rows b !! id = Some row /\
            row_key row = Provider.idempotency_key cr).
  { intros Hid. destruct Hl as [[? _]|(row & Hr & Hkey & _)]; [done|by exists row]. }
  split_and!.
  - destruct Hl as [Hu|(row & Hr & Hkey & Hc & Hf & Hm)]; [by left|right].
    exists row. split_and!; try done.
    + intros id' row' Hr' Hk'. apply (inv_keys _ I _ _ _ _ Hr' Hr). by rewrite Hkey.
    + intros Hph. destruct (Hc Hph) as (Hst & x & _ & (Ht & _)). split; [done|].
      intros [Hn _]. unfold o in Hn. by rewrite Hn in Ht.
  - intros cr' Hin' Hid E. destruct (Hrow Hid) as (row & Hr & Hkey).
    destruct (Hk _ Hin') as [[Hns' _] [[? _]|(row' & Hr' & Hkey' & _)]]; [congruence|].
    rewrite E in Hr'.
    assert (row' = row) as -> by exact (inj Some _ _ (eq_trans (eq_sym Hr') Hr)).
    apply (proj2 (ProviderTheorems.idempotency_keys_disjoint cr' cr (MkName "x" "")
      Hns' Hns ltac:(done) eq_refl)). congruence.
  - intros n job Hj Hne Hsl Hid E. destruct (Hrow Hid) as (row & Hr & Hkey).
    destruct (Hs n job Hj) as (_ & _ & [[_ ?]|[_ (row' & Hr' & Hkey' & _)]]); [congruence|].
    rewrite E in Hr'.
    assert (row' = row) as -> by exact (inj Some _ _ (eq_trans (eq_sym Hr') Hr)).
    apply (proj1 (ProviderTheorems.idempotency_keys_disjoint cr cr n Hns Hns Hne Hsl)).
    congruence.
Qed.

(** ** A run of the platform *)

Section Run.
Context {Mach : Machinery} {Web : WebStack} {Xp : Crossplane}.
Variable address : string.
Variable pc : ProviderConfig.
Hypothesis Hpc : ProviderTypes.SchedulerAPIURL (PcSpec pc) = address.

(** Every call of the provider is served at once. *)
Definition provider_prompt : handler Provider.xp_sig world :=
  fun o w =>
    match o return world * ar Provider.xp_sig o with
    | Do q => let '(b, resp) := answer address q (w_backend w) in (set_backend w b, inr resp)
    | Now => (w, 100)
    | Own (Provider.GetProviderConfig n) => (w, inr pc)
    end.

Lemma provider_prompt_answers o w :
  provider_answers address w o (fst (provider_prompt o w)) (snd (provider_prompt o w)).
Proof using Hpc.
  destruct o as [q| |[n]]; cbn; [|done|by split].
  destruct (answer address q (w_backend w)) as [b resp] eqn:E. right. exists b, resp.
  split_and!; [by apply answered_at_once|done|by left].
Qed.

(** A call that runs without a break is a sequence of steps. *)
Lemma provider_run_steps q w rs known l mg :
  ex_out (run provider_prompt q w) = Done mg ->
  rtc (platform_step address) (MkPlatform (MkConfig w rs) known (q :: l))
    (MkPlatform (MkConfig (ex_world (run provider_prompt q w)) rs) known (Return mg :: l)).
Proof using Hpc.
  revert w. induction q as [a|m|o k IH]; intros w Hout; cbn in Hout.
  - injection Hout as ->. apply rtc_refl.
  - done.
  - cbn [run] in *. pose proof (provider_prompt_answers o w) as Ha.
    destruct (provider_prompt o w) as [w1 x]. eapply rtc_l; [|by apply IH].
    by apply (platform_call _ (MkPlatform (MkConfig w rs) known (Call o k :: l)) [] o k l w1 x).
Qed.

Lemma managed_call_steps m cr cr' w rs known :
  cr ∈ known ->
  ex_out (run provider_prompt (managed_call m (Provider.MGPUBenchmarkJob cr)) w) =
    Done (Provider.MGPUBenchmarkJob cr') ->
  rtc (platform_step address) (MkPlatform (MkConfig w rs) known [])
    (MkPlatform (MkConfig (ex_world (run provider_prompt
       (managed_call m (Provider.MGPUBenchmarkJob cr)) w)) rs) (cr' :: known) []).
Proof using Hpc.
  intros Hin Hout.
  eapply rtc_l; [by apply (platform_start _ (MkPlatform (MkConfig w rs) known []) cr m)|].
  eapply rtc_r; [by apply (provider_run_steps _ w rs known [] _ Hout)|].
  by apply (platform_return _ (MkPlatform (MkConfig _ rs) known [Return _]) [] cr' []).
Qed.

Lemma operator_steps c c' known l :
  rtc (closed_step address) c c' ->
  rtc (platform_step address) (MkPlatform c known l) (MkPlatform c' known l).
Proof using Type.
  induction 1 as [|c1 c2 c3 Hs _ IH]; [apply rtc_refl|]. eapply rtc_l; [|exact IH].
  by apply (platform_operator _ (MkPlatform c1 known l)).
Qed.
End Run.

(** The completed BenchmarkJob of [ClosedTheorems], and next to it a managed
    resource that is created, run by a worker, and observed. *)
Definition demo_config : ProviderConfig :=
  ProviderTypes.MkConfig (MkTypeMeta "ProviderConfig" "gpu.platform.io/v1alpha1")
    (MkMeta "default" "" "1" None []) (MkConfigSpec demo_address 15) (MkConfigStatus None 0).

Definition demo_resource : resource := ProviderTheorems.demo_cr "".

Definition provider_round (m : client_method) (cr : resource) (w : world) : world :=
  ex_world (run (provider_prompt demo_address demo_config)
              (managed_call m (Provider.MGPUBenchmarkJob cr)) w).
Definition provider_left (m : client_method) (cr : resource) (w : world) : resource :=
  match ex_out (run (provider_prompt demo_address demo_config)
                  (managed_call m (Provider.MGPUBenchmarkJob cr)) w) with
  | Done (Provider.MGPUBenchmarkJob cr') => cr'
  | _ => cr
  end.

(** A round that ends with a value of the resource. *)
Lemma provider_round_steps m cr cr' w known :
  cr ∈ known ->
  ex_out (run (provider_prompt demo_address demo_config)
            (managed_call m (Provider.MGPUBenchmarkJob cr)) w) =
    Done (Provider.MGPUBenchmarkJob cr') ->
  rtc (platform_step demo_address) (MkPlatform (MkConfig w []) known [])
    (MkPlatform (MkConfig (provider_round m cr w) []) (cr' :: known) []).
Proof. by apply managed_call_steps. Qed.

Definition both_submitted : world := provider_round MCreate demo_resource completed_world.
Definition created_resource : resource := provider_left MCreate demo_resource completed_world.
Definition both_measured : world :=
  set_backend both_submitted
    (worker_turn (inr ("SimulatedGPUBenchmarkEngine", demo_measure)) (w_backend both_submitted)).
Definition observed_resource : resource := provider_left MObserve created_resource both_measured.
Definition final_platform : platform :=
  MkPlatform (MkConfig (provider_round MObserve created_resource both_measured) [])
    [observed_resource; created_resource; demo_resource] [].

Lemma both_printable :
  printable (worker_turn (inr ("SimulatedGPUBenchmarkEngine", demo_measure))
    (w_backend both_submitted)).
Proof.
  intros id x. replace (results _) with
    (<["uuid-2" := MkResultRow demo_measure "SimulatedGPUBenchmarkEngine" "training" 1]>
     {["uuid-1" := MkResultRow demo_measure "SimulatedGPUBenchmarkEngine" "inference" 2]}
       : gmap string BenchmarkResult) by (vm_compute; reflexivity).
  intros [[_ <-]|[_ [_ <-]%lookup_singleton_Some]]%lookup_insert_Some;
    (split_and!; (split; [apply number_litb_sound|]); vm_compute; reflexivity).
Qed.

Lemma demo_admissible : admissible demo_resource.
Proof. split; [done|]. split_and!; try (vm_compute; reflexivity); [vm_compute; lia|done]. Qed.

Lemma create_leaves :
  ex_out (run (provider_prompt demo_address demo_config)
            (managed_call MCreate (Provider.MGPUBenchmarkJob demo_resource)) completed_world) =
    Done (Provider.MGPUBenchmarkJob created_resource).
Proof. vm_compute. reflexivity. Qed.

Lemma observe_leaves :
  ex_out (run (provider_prompt demo_address demo_config)
            (managed_call MObserve (Provider.MGPUBenchmarkJob created_resource)) both_measured) =
    Done (Provider.MGPUBenchmarkJob observed_resource).
Proof. vm_compute. reflexivity. Qed.

Lemma create_round :
  rtc (platform_step demo_address) (MkPlatform (MkConfig completed_world []) [demo_resource] [])
    (MkPlatform (MkConfig both_submitted []) [created_resource; demo_resource] []).
Proof.
  exact (provider_round_steps MCreate demo_resource created_resource completed_world [demo_resource]
           (list_elem_of_here _ _) create_leaves).
Qed.

Lemma worker_round :
  rtc (closed_step demo_address) (MkConfig both_submitted []) (MkConfig both_measured []).
Proof. exact (worker_step _ both_submitted both_printable). Qed.

Lemma observe_round :
  rtc (platform_step demo_address)
    (MkPlatform (MkConfig both_measured []) [created_resource; demo_resource] []) final_platform.
Proof.
  exact (provider_round_steps MObserve created_resource observed_resource both_measured
           [created_resource; demo_resource] (list_elem_of_here _ _) observe_leaves).
Qed.

Lemma final_reached : rtc (platform_step demo_address) platform_empty final_platform.
Proof.
  etrans; [exact (operator_steps demo_address _ _ [] [] completed_reached)|].
  eapply rtc_l.
  { apply (platform_create _ (MkPlatform _ [] []) demo_resource); [apply demo_admissible|done]. }
  etrans; [exact create_round|]. etrans; [|exact observe_round].
  exact (operator_steps demo_address _ _ [created_resource; demo_resource] [] worker_round).
Qed.

Lemma Platform_consistent_witness :
  external_id observed_resource = "uuid-2" /\ external_phase observed_resource = "completed" /\
  exists x, results (w_backend (p_world final_platform)) !! "uuid-2" = Some x /\
    measures (observation observed_resource) x.
Proof.
  assert (external_id observed_resource = "uuid-2" /\
          external_phase observed_resource = "completed") as [Hid Hph]
    by (vm_compute; split; reflexivity).
  split; [exact Hid|]. split; [exact Hph|].
  destruct (Platform_consistent demo_address final_platform observed_resource final_reached)
    as [[(H & _)|(row & _ & _ & _ & Hc & _ & [Hu|(x & Hx & Hm)])] _].
  - by left.
  - rewrite Hid in H. discriminate.
  - destruct (Hc Hph) as [_ Hn]. by destruct Hn.
  - exists x. rewrite Hid in Hx. split; [exact Hx|exact Hm].
Defined.
