(* ===== verification/Composition.v ===== *)
(** * The composition: from a claim to a BenchmarkJob

    [crossplane/xrd.yaml], [crossplane/composition.yaml] and
    [policies/kyverno/benchmark-policies.yaml].  The schema, the resource
    templates with their patches and the policies are data, as the manifests
    have them; the pipeline runs the sizing function and then
    function-patch-and-transform, which is a library: a class with laws for
    the one kind of patch the manifest uses. *)
From S2P Require Export CRD Sizing.

(** ** The schema of the composite *)

(** [^CC-\[0-9\]{4}$] *)
Definition cost_center_pattern : list (Z * Z) :=
  [(67, 67); (67, 67); (45, 45); (48, 57); (48, 57); (48, 57); (48, 57)].

Definition approved_gpus : list string := ["T4"; "V100"; "A100"; "H100"; "L40S"; "RTX4090"].

Definition xr_spec_schema : schema :=
  TObject ["gpuModel"; "workloadType"; "batchSize"; "costCenter"; "owner"]
    [("gpuModel", (TString (Some approved_gpus), None));
     ("workloadType", (TString (Some ["inference"; "training"]), None));
     ("batchSize", (TInteger (Some 1) (Some 1024), None));
     ("costCenter", (TPattern cost_center_pattern, None));
     ("owner", (TString None, None));
     ("maxRetries", (TInteger (Some 0) (Some 10), Some (json_int 3)))].

Definition xr_schema : schema :=
  TObject []
    [("spec", (xr_spec_schema, None));
     ("status", (TObject []
        [("phase", (TString None, None)); ("benchmarkJobName", (TString None, None));
         ("throughput", (TNumber, None))], None))].

(** ** Field paths *)

Fixpoint get_path (path : list string) (j : json) : option json :=
  match path, j with
  | [], _ => Some j
  | k :: path', JObject l => member k l ≫= get_path path'
  | _, _ => None
  end.

(** Objects on the way are made when they are missing. *)
Fixpoint set_path (path : list string) (v : json) (j : json) : option json :=
  match path, j with
  | [], _ => Some v
  | k :: path', JObject l =>
      match member k l with
      | Some old => (fun new => JObject (set_member k (fun _ => new) l)) <$> set_path path' v old
      | None => (fun new => JObject (l ++ [(k, new)])) <$> set_path path' v (JObject [])
      end
  | _, _ => None
  end.

(** ** Patches *)

(** A patch of type FromCompositeFieldPath; a transform is a string format,
    given by what stands before its [%s]. *)
Record patch : Type := MkPatch {
  fromFieldPath : list string;
  toFieldPath : list string;
  transforms : list string
}.

Record template : Type := MkTemplate {
  template_name : string;
  base : json;
  patches : list patch
}.

(** function-patch-and-transform. *)
Class PatchAndTransform : Type := {
  apply_patch : patch -> json -> json -> option json
}.

(** Documented behaviour: a patch from a field that is not there is skipped,
    and otherwise the value is copied, a string through the formats first. *)
Class PatchLaws `{PatchAndTransform} : Prop := {
  patch_absent p xr res :
    get_path (fromFieldPath p) xr = None -> apply_patch p xr res = Some res;
  patch_copies p xr res v :
    transforms p = [] -> get_path (fromFieldPath p) xr = Some v ->
    apply_patch p xr res = set_path (toFieldPath p) v res;
  patch_formats p xr res prefix s :
    transforms p = [prefix] -> get_path (fromFieldPath p) xr = Some (JString s) ->
    apply_patch p xr res = set_path (toFieldPath p) (JString (prefix +:+ s)) res
}.

(** ** The resources of the composition *)

Definition copy_spec (field : string) (to : list string) : patch :=
  MkPatch ["spec"; field] to [].
Definition owner_namespace (to : list string) : patch :=
  MkPatch ["spec"; "owner"] to ["benchmark-"].

Definition label_cost_center : string := "gpu-platform.io/cost-center".
Definition label_owner : string := "gpu-platform.io/owner".
Definition label_gpu_model : string := "gpu-platform.io/gpu-model".

Definition namespace_template : template :=
  MkTemplate "benchmark-namespace"
    (JObject [("apiVersion", JString "v1"); ("kind", JString "Namespace"); ("spec", JObject [])])
    [owner_namespace ["metadata"; "name"];
     copy_spec "costCenter" ["metadata"; "labels"; label_cost_center];
     copy_spec "owner" ["metadata"; "labels"; label_owner];
     copy_spec "gpuModel" ["metadata"; "labels"; label_gpu_model]].

Definition quota_template : template :=
  MkTemplate "benchmark-resource-quota"
    (JObject [("apiVersion", JString "v1"); ("kind", JString "ResourceQuota");
              ("metadata", JObject [("name", JString "benchmark-quota")]);
              ("spec", JObject [("hard", JObject
                 [("pods", JString "10"); ("requests.cpu", JString "8");
                  ("requests.memory", JString "32Gi")])])])
    [owner_namespace ["metadata"; "namespace"]].

Definition job_template : template :=
  MkTemplate "benchmark-job"
    (JObject [("apiVersion", JString "benchmarks.gpu-platform.io/v1alpha1");
              ("kind", JString "BenchmarkJob");
              ("spec", JObject
                 [("schedulerAPIURL",
                   JString "http://gpu-benchmark-api.gpu-benchmark.svc.cluster.local:8000");
                  ("maxRetries", json_int 3)])])
    [copy_spec "gpuModel" ["spec"; "gpuModel"];
     copy_spec "workloadType" ["spec"; "workloadType"];
     copy_spec "batchSize" ["spec"; "batchSize"];
     copy_spec "maxRetries" ["spec"; "maxRetries"];
     owner_namespace ["metadata"; "namespace"];
     copy_spec "costCenter" ["metadata"; "labels"; label_cost_center];
     copy_spec "owner" ["metadata"; "labels"; label_owner]].

(** ** The pipeline *)

(** A value of the composite as the functions get it. *)
Definition struct_value (j : json) : value :=
  match j with
  | JString s => VString s
  | JNumber lit =>
      match lit_int lit with
      | Some z => VNumber (float_of_int z)
      | None => VNumber (default (S754_zero false) (decode_float (S754_zero false) j))
      end
  | _ => VOther "value"
  end.

Definition composite_request (meta : option Metadata) (spec : list (string * json)) :
    RunFunctionRequest :=
  MkRunRequest (Some (MkState (Some (MkComposite (Some (MkResource meta
    (Some (MkStruct (list_to_map (prod_map id struct_value <$> spec)))))))))).

Definition is_fatal (r : FnResult) : bool :=
  match FnSeverity r with SEVERITY_FATAL => true | SEVERITY_NORMAL => false end.

Section Pipeline.
Context `{PatchAndTransform}.

Definition compose_resource (xr : json) (t : template) : option json :=
  foldl (fun acc p => acc ≫= apply_patch p xr) (Some (base t)) (patches t).

Record composed : Type := MkComposed {
  composed_namespace : json;
  composed_quota : json;
  composed_job : json
}.

(** Both steps of the pipeline, on the spec of a composite; a fatal result
    ends it. *)
Definition pipeline (is_print : Z -> bool) (overflow : float64 -> Z) (meta : option Metadata)
    (spec : list (string * json)) (heap : annotation_heap) :
    annotation_heap * (list FnResult * option composed) :=
  let xr := JObject [("spec", JObject spec)] in
  let '(heap', resp) := RunFunction is_print overflow (composite_request meta spec) heap in
  if existsb is_fatal (Results resp) then (heap', (Results resp, None))
  else (heap', (Results resp,
          ns ← compose_resource xr namespace_template;
          quota ← compose_resource xr quota_template;
          job ← compose_resource xr job_template;
          Some (MkComposed ns quota job))).
End Pipeline.

(** ** The policies on a BenchmarkJob

    The expressions of the manifest name the object under review
    [request.object].  They are read as they are meant, about that object;
    Kyverno's CEL binds it as [object], and what it makes of the other name is
    up to Kyverno. *)

Definition string_at (path : list string) (j : json) : option string :=
  match get_path path j with
  | Some (JString s) => Some s
  | _ => None
  end.

(** A string test; a missing value is an error of the expression, and denied. *)
Definition requires (path : list string) (test : string -> bool) (j : json) : bool :=
  match string_at path j with
  | Some s => test s
  | None => false
  end.

Definition validate_gpu_model : json -> bool :=
  requires ["spec"; "gpuModel"] (fun s => bool_decide (s ∈ approved_gpus)).
Definition validate_workload_type : json -> bool :=
  requires ["spec"; "workloadType"] (fun s => bool_decide (s ∈ ["inference"; "training"])).
Definition require_cost_center_label : json -> bool :=
  requires ["metadata"; "labels"; label_cost_center] (matches cost_center_pattern).
Definition require_owner_label : json -> bool :=
  requires ["metadata"; "labels"; label_owner] (fun s => (0 <? String.length s)%nat).

Definition policies_admit (j : json) : bool :=
  validate_gpu_model j && validate_workload_type j && require_cost_center_label j &&
  require_owner_label j.

(** ** What Kubernetes asks of names and labels *)

Fixpoint every (P : Z -> bool) (s : string) : bool :=
  match s with
  | EmptyString => true
  | String a s' => P (byte_val a) && every P s'
  end.

Definition lower_alnum (z : Z) : bool := in_range 97 122 z || in_range 48 57 z.
Definition alnum (z : Z) : bool := lower_alnum z || in_range 65 90 z.

Fixpoint last_byte (s : string) (d : Z) : Z :=
  match s with
  | EmptyString => d
  | String a s' => last_byte s' (byte_val a)
  end.

(** At most 63 characters, of which the first and the last are of a class. *)
Definition edged (edge inner : Z -> bool) (s : string) : bool :=
  match s with
  | EmptyString => false
  | String a s' =>
      (String.length s <=? 63)%nat && edge (byte_val a) && edge (last_byte s' (byte_val a)) &&
      every inner s
  end.

Definition dns_label : string -> bool := edged lower_alnum (fun z => lower_alnum z || (z =? 45)).
Definition label_value (s : string) : bool :=
  bool_decide (s = "") ||
  edged alnum (fun z => alnum z || (z =? 45) || (z =? 46) || (z =? 95)) s.

(** The namespace a composed resource names or lies in, and its labels. *)
Definition names_admitted (c : composed) : bool :=
  requires ["metadata"; "name"] dns_label (composed_namespace c) &&
  requires ["metadata"; "namespace"] dns_label (composed_quota c) &&
  requires ["metadata"; "namespace"] dns_label (composed_job c) &&
  requires ["metadata"; "labels"; label_cost_center] label_value (composed_namespace c) &&
  requires ["metadata"; "labels"; label_owner] label_value (composed_namespace c) &&
  requires ["metadata"; "labels"; label_gpu_model] label_value (composed_namespace c) &&
  requires ["metadata"; "labels"; label_cost_center] label_value (composed_job c) &&
  requires ["metadata"; "labels"; label_owner] label_value (composed_job c).
