(* ===== verification/CompositionTheorems.v ===== *)
(** * Theorems on the composition

    Every composite the XRD admits passes the sizing function and becomes a
    BenchmarkJob that the CRD, the policies and the backend accept, provided
    its owner can be the end of a namespace; an owner that cannot is admitted
    by the XRD all the same. *)
From S2P Require Export Composition.
From S2P Require Import System SizingTheorems.
Import Operator CRD.

(** ** An instance of function-patch-and-transform *)

#[export] Instance patch_and_transform : PatchAndTransform := {|
  apply_patch p xr res :=
    match get_path (fromFieldPath p) xr with
    | None => Some res
    | Some v =>
        match transforms p, v with
        | [], _ => set_path (toFieldPath p) v res
        | l, JString s =>
            set_path (toFieldPath p) (JString (foldl (fun s prefix => prefix +:+ s) s l)) res
        | _, _ => None
        end
    end
|}.

#[export] Instance patch_laws : PatchLaws.
Proof.
  constructor; cbn; intros p xr res *.
  - by intros ->.
  - by intros -> ->.
  - by intros -> ->.
Qed.

(** ** Fields of a composite *)

Lemma member_lookup k l j :
  member k l = Some j ->
  (list_to_map (prod_map id struct_value <$> l) : gmap string value) !! k = Some (struct_value j).
Proof.
  unfold member. induction l as [|[k' j'] l IH]; cbn; [done|].
  destruct (String.eqb_spec k' k) as [->|Hne]; cbn.
  - intros [= ->]. by rewrite lookup_insert_eq.
  - intros H. rewrite lookup_insert_ne by done. by apply IH.
Qed.

(** What the XRD admits, field by field. *)
Record claim_fields (l : list (string * json)) (g w cc o : string) (batch retries : Z) : Prop := {
  cf_gpu : member "gpuModel" l = Some (JString g);
  cf_workload : member "workloadType" l = Some (JString w);
  cf_batch : exists lit, member "batchSize" l = Some (JNumber lit) /\ lit_int lit = Some batch;
  cf_cost : member "costCenter" l = Some (JString cc);
  cf_owner : member "owner" l = Some (JString o);
  cf_retries : exists lit, default (json_int 3) (member "maxRetries" l) = JNumber lit /\
    lit_int lit = Some retries;
  cf_gpu_in : g ∈ approved_gpus;
  cf_workload_in : w ∈ workloads;
  cf_batch_in : 1 <= batch <= 1024;
  cf_cost_in : matches cost_center_pattern cc = true;
  cf_retries_in : 0 <= retries <= 10
}.

Lemma claim_admitted `{TextForms} l :
  valid xr_spec_schema (JObject l) = true ->
  exists g w cc o batch retries, claim_fields l g w cc o batch retries.
Proof.
  unfold xr_spec_schema. rewrite valid_object. cbn [forallb fst snd]. intros Hv.
  repeat match goal with
  | H : _ && _ = true |- _ => apply andb_prop in H as [? ?]
  | H : present ?m = true |- _ => let E := fresh "E" in destruct m as [[]|] eqn:E; [..|discriminate H]; clear H
  end; cbn [valid_opt valid] in *; try discriminate.
  repeat match goal with
  | H : match lit_int ?lit with Some _ => _ | None => _ end = true |- _ =>
      let E := fresh "E" in destruct (lit_int lit) as [?|] eqn:E; [|discriminate H]
  | H : bool_decide _ = true |- _ => apply bool_decide_eq_true in H
  | H : at_least _ _ && at_most _ _ = true |- _ => apply andb_prop in H as [? ?]
  | H : at_least _ _ = true |- _ => apply Z.leb_le in H
  | H : at_most _ _ = true |- _ => apply Z.leb_le in H
  end.
  destruct (member "maxRetries" l) as [[]|] eqn:Em; cbn [valid_opt valid] in *; try discriminate.
  - destruct (lit_int lit0) as [m|] eqn:El; [|discriminate].
    match goal with H : at_least _ m && _ = true |- _ => apply andb_prop in H as [?%Z.leb_le ?%Z.leb_le] end.
    eexists _, _, _, _, _, m. econstructor; try eassumption; eauto.
    rewrite Em. by exists lit0.
  - eexists _, _, _, _, _, 3. econstructor; try eassumption; eauto; [|lia].
    rewrite Em. exists (fmt_d 3). split; [reflexivity|apply lit_int_fmt_d].
Qed.

(** ** What the templates become *)

Section Compose.
Context `{PT : PatchAndTransform} `{!PatchLaws} (xr : json).

Abbreviation step := (fun acc p => acc ≫= apply_patch p xr).

Lemma patch_step_copy p ps res v res' :
  transforms p = [] -> get_path (fromFieldPath p) xr = Some v ->
  set_path (toFieldPath p) v res = Some res' ->
  foldl step (Some res) (p :: ps) = foldl step (Some res') ps.
Proof using All. intros Ht Hg Hs. cbn. by rewrite (patch_copies p xr res v Ht Hg), Hs. Qed.

Lemma patch_step_format p ps res prefix s res' :
  transforms p = [prefix] -> get_path (fromFieldPath p) xr = Some (JString s) ->
  set_path (toFieldPath p) (JString (prefix +:+ s)) res = Some res' ->
  foldl step (Some res) (p :: ps) = foldl step (Some res') ps.
Proof using All. intros Ht Hg Hs. cbn. by rewrite (patch_formats p xr res prefix s Ht Hg), Hs. Qed.

Lemma patch_step_absent p ps res :
  get_path (fromFieldPath p) xr = None ->
  foldl step (Some res) (p :: ps) = foldl step (Some res) ps.
Proof using All. intros Hg. cbn. by rewrite (patch_absent p xr res Hg). Qed.

(** A patch that changes nothing where it is skipped. *)
Lemma patch_step_default p ps res res' d :
  transforms p = [] ->
  set_path (toFieldPath p) (default d (get_path (fromFieldPath p) xr)) res = Some res' ->
  (get_path (fromFieldPath p) xr = None -> res' = res) ->
  foldl step (Some res) (p :: ps) = foldl step (Some res') ps.
Proof using All.
  intros Ht Hs Hd. destruct (get_path (fromFieldPath p) xr) as [v|] eqn:E.
  - by apply (patch_step_copy p ps res v).
  - rewrite (Hd eq_refl). by apply patch_step_absent.
Qed.
End Compose.

Ltac copy_step H := erewrite patch_step_copy; [|reflexivity|exact H|cbn; reflexivity].
Ltac format_step H := erewrite patch_step_format; [|reflexivity|exact H|cbn; reflexivity].

Section Composed.
Context `{PT : PatchAndTransform} `{!PatchLaws}.
Context (l : list (string * json)) (g w cc o : string) (batch retries : Z).
Hypothesis F : claim_fields l g w cc o batch retries.

Let xr := JObject [("spec", JObject l)].

Lemma get_spec k : get_path ["spec"; k] xr = member k l.
Proof using Type. cbn. by destruct (member k l). Qed.

Definition labels_of (gpu : list (string * json)) : json :=
  JObject ([(label_cost_center, JString cc); (label_owner, JString o)] ++ gpu).

Definition expected_namespace : json :=
  JObject [("apiVersion", JString "v1"); ("kind", JString "Namespace"); ("spec", JObject []);
           ("metadata", JObject [("name", JString ("benchmark-" +:+ o));
              ("labels", labels_of [(label_gpu_model, JString g)])])].

Definition expected_quota : json :=
  JObject [("apiVersion", JString "v1"); ("kind", JString "ResourceQuota");
           ("metadata", JObject [("name", JString "benchmark-quota");
              ("namespace", JString ("benchmark-" +:+ o))]);
           ("spec", JObject [("hard", JObject
              [("pods", JString "10"); ("requests.cpu", JString "8");
               ("requests.memory", JString "32Gi")])])].

Definition expected_spec (batch_lit : string) : json :=
  JObject [("schedulerAPIURL", JString crd_default_url);
           ("maxRetries", default (json_int 3) (member "maxRetries" l));
           ("gpuModel", JString g); ("workloadType", JString w); ("batchSize", JNumber batch_lit)].

Definition expected_job (batch_lit : string) : json :=
  JObject [("apiVersion", JString "benchmarks.gpu-platform.io/v1alpha1");
           ("kind", JString "BenchmarkJob"); ("spec", expected_spec batch_lit);
           ("metadata", JObject [("namespace", JString ("benchmark-" +:+ o));
              ("labels", labels_of [])])].

Lemma compose_namespace : compose_resource xr namespace_template = Some expected_namespace.
Proof using All.
  pose proof (cf_owner _ _ _ _ _ _ _ F) as Ho. pose proof (cf_cost _ _ _ _ _ _ _ F) as Hc.
  pose proof (cf_gpu _ _ _ _ _ _ _ F) as Hg. rewrite <- get_spec in Ho, Hc, Hg.
  unfold compose_resource. cbn [patches base namespace_template].
  format_step Ho. copy_step Hc. copy_step Ho. copy_step Hg. reflexivity.
Qed.

Lemma compose_quota : compose_resource xr quota_template = Some expected_quota.
Proof using All.
  pose proof (cf_owner _ _ _ _ _ _ _ F) as Ho. rewrite <- get_spec in Ho.
  unfold compose_resource. cbn [patches base quota_template]. format_step Ho. reflexivity.
Qed.

Lemma compose_job batch_lit :
  member "batchSize" l = Some (JNumber batch_lit) ->
  compose_resource xr job_template = Some (expected_job batch_lit).
Proof using All.
  intros Hb. pose proof (cf_owner _ _ _ _ _ _ _ F) as Ho. pose proof (cf_cost _ _ _ _ _ _ _ F) as Hc.
  pose proof (cf_gpu _ _ _ _ _ _ _ F) as Hg. pose proof (cf_workload _ _ _ _ _ _ _ F) as Hw.
  rewrite <- get_spec in Ho, Hc, Hg, Hw, Hb.
  unfold compose_resource. cbn [patches base job_template].
  copy_step Hg. copy_step Hw. copy_step Hb.
  erewrite (patch_step_default xr _ _ _ _ (json_int 3));
    [|reflexivity|cbn -[get_path json_int]; reflexivity|intros E; cbn -[get_path json_int] in *; by rewrite E].
  format_step Ho. copy_step Hc. copy_step Ho.
  unfold expected_job, expected_spec. cbn. by destruct (member "maxRetries" l).
Qed.
End Composed.

(** ** The sizing step *)

Lemma approved_sizing g : g ∈ approved_gpus -> exists rt pk, In (g, (rt, pk)) sizing_spec.
Proof.
  intros Hg. change approved_gpus with (sizing_spec.*1) in Hg.
  apply list_elem_of_fmap in Hg as ([g' [rt pk]] & -> & Hin). exists rt, pk.
  by apply list_elem_of_In.
Qed.

Lemma sizing_step is_print overflow meta l heap g w cc o batch retries :
  claim_fields l g w cc o batch retries ->
  exists rt pk heap', In (g, (rt, pk)) sizing_spec /\
    RunFunction is_print overflow (composite_request meta l) heap =
    (heap', MkRunResponse (Observed (composite_request meta l))
       [MkFnResult SEVERITY_NORMAL
          ("benchmark sizing: " +:+ g +:+ "/" +:+ w +:+ " batch=" +:+ fmt_d batch +:+ " est=" +:+
           fmt_d (estimate_spec rt w batch) +:+ "s")]).
Proof.
  intros F. destruct (approved_sizing g (cf_gpu_in _ _ _ _ _ _ _ F)) as (rt & pk & Hin).
  exists rt, pk. set (req := composite_request meta l).
  assert (Hf : forall k j, member k l = Some j ->
    spec_fields (Observed req) !! k = Some (struct_value j)) by (intros; by apply member_lookup).
  assert (strField (spec_fields (Observed req)) "gpuModel" "" = g) as Eg.
  { unfold strField. by rewrite (Hf _ _ (cf_gpu _ _ _ _ _ _ _ F)). }
  assert (strField (spec_fields (Observed req)) "workloadType" "" = w) as Ew.
  { unfold strField. by rewrite (Hf _ _ (cf_workload _ _ _ _ _ _ _ F)). }
  assert (numField (spec_fields (Observed req)) "batchSize" (float_of_int 32) = float_of_int batch)
    as Eb.
  { destruct (cf_batch _ _ _ _ _ _ _ F) as (lit & Hb & Hl). unfold numField.
    rewrite (Hf _ _ Hb). cbn [struct_value]. by rewrite Hl. }
  destruct (RunFunction_valid is_print overflow req heap rt pk) as (tier & _ & _ & Ht & E).
  { by rewrite Eg. }
  { rewrite Ew. apply (cf_workload_in _ _ _ _ _ _ _ F). }
  rewrite Eg in Ht. cbv zeta in E. rewrite Eg, Ew, Eb in E.
  pose proof (exact_all overflow g rt pk w batch Hin) as Hx.
  unfold exact_at in Hx. rewrite Ht in Hx.
  destruct (andb_prop _ _ (Hx ltac:(by apply list_elem_of_In, (cf_workload_in _ _ _ _ _ _ _ F))
    (cf_batch_in _ _ _ _ _ _ _ F))) as [E1%Z.eqb_eq E2%Z.eqb_eq].
  rewrite E2, E1 in E. eexists. split; [done|]. exact E.
Qed.

(** ** Names and labels *)

Lemma every_mono (P Q : Z -> bool) s :
  (forall z, P z = true -> Q z = true) -> every P s = true -> every Q s = true.
Proof.
  intros HPQ. induction s as [|a s IH]; cbn; [done|]. intros [H1 H2]%andb_prop.
  by rewrite (HPQ _ H1), IH.
Qed.

Lemma every_app P s t : every P (s +:+ t) = every P s && every P t.
Proof.
  induction s as [|a s IH]; [done|]. rewrite append_cons. cbn. by rewrite IH, andb_assoc.
Qed.

(** Text of printable ASCII: one character a byte, no NUL, valid. *)
Definition plain (z : Z) : bool := in_range 1 127 z.

Lemma plain_text s :
  every plain s = true ->
  length (runes s) = String.length s /\ valid_utf8 s = true /\ has_byte 0 s = false.
Proof.
  unfold valid_utf8. induction s as [|a s IH]; [done|]. cbn [every]. intros [Ha Hs]%andb_prop.
  destruct (IH Hs) as (H1 & H2 & H3). unfold plain, in_range in Ha. cbn [runes has_byte].
  destruct (Z.ltb_spec (byte_val a) 128); [|lia].
  destruct (Z.eqb_spec (byte_val a) 0); [lia|]. cbn. by rewrite H1, H3.
Qed.

Lemma edged_every edge inner s : edged edge inner s = true -> every inner s = true.
Proof. destruct s as [|a s]; [done|]. cbn. by intros [_ ?]%andb_prop. Qed.

Lemma edged_length edge inner s : edged edge inner s = true -> (String.length s <= 63)%nat.
Proof. destruct s as [|a s]; [done|]. intros [[[H%Nat.leb_le _]%andb_prop _]%andb_prop _]%andb_prop. done. Qed.

Lemma dns_label_plain s : dns_label s = true -> every plain s = true.
Proof.
  intros H%edged_every. eapply every_mono, H. intros z. unfold lower_alnum, plain, in_range. lia.
Qed.

Lemma cost_center_label cc : matches cost_center_pattern cc = true -> label_value cc = true.
Proof.
  unfold cost_center_pattern. intros H.
  do 7 (destruct cc as [|? cc]; [done|]; cbn [matches] in H; apply andb_prop in H as [? H]).
  destruct cc; [|done]. unfold label_value. apply orb_true_intro. right.
  unfold edged, Composition.alnum, lower_alnum, in_range in *. cbn [every last_byte String.length].
  repeat (apply andb_true_intro; split); first [reflexivity|lia].
Qed.

Lemma approved_label g : g ∈ approved_gpus -> label_value g = true.
Proof.
  unfold approved_gpus. rewrite !elem_of_cons, elem_of_nil.
  intros [-> |[-> |[-> |[-> |[-> |[-> |[]]]]]]]; vm_compute; reflexivity.
Qed.

(** An owner the end of a namespace can be made of is not empty. *)
Lemma owner_nonempty o : dns_label ("benchmark-" +:+ o) = true -> (0 <? String.length o)%nat = true.
Proof. destruct o; [by vm_compute|done]. Qed.

(** ** The object and what the operator makes of it *)

Section Job.
Context (l : list (string * json)) (g w cc o : string) (batch retries : Z) (lit : string).
Hypothesis F : claim_fields l g w cc o batch retries.
Hypothesis Hlit : lit_int lit = Some batch.

Definition composed_spec : BenchmarkJobSpec := Operator.MkSpec g w batch crd_default_url retries.

Lemma composed_decodes : decode_spec (expected_spec l g w lit) = Some composed_spec.
Proof using F Hlit.
  destruct (cf_retries _ _ _ _ _ _ _ F) as (rlit & Hr & Hrl).
  pose proof (cf_retries_in _ _ _ _ _ _ _ F). pose proof (cf_batch_in _ _ _ _ _ _ _ F).
  assert (Hin : forall z, 0 <= z <= 1024 -> in_intb z = true).
  { intros z Hz. unfold in_intb, int_min, int_max. lia. }
  unfold decode_spec, expected_spec. rewrite Hr.
  cbn -[decode_int]. unfold decode_int. rewrite Hrl. cbn -[in_intb]. rewrite Hin by lia.
  cbn -[in_intb lit_int]. rewrite Hlit. cbn -[in_intb]. by rewrite Hin by lia.
Qed.

Lemma composed_crd_valid : crd_valid composed_spec = true.
Proof using F.
  unfold crd_valid, composed_spec. cbn [Operator.GPUModel Operator.WorkloadType Operator.BatchSize
    Operator.MaxRetries].
  pose proof (cf_gpu_in _ _ _ _ _ _ _ F). pose proof (cf_workload_in _ _ _ _ _ _ _ F).
  pose proof (cf_retries_in _ _ _ _ _ _ _ F). pose proof (cf_batch_in _ _ _ _ _ _ _ F).
  rewrite !bool_decide_eq_true_2 by done. unfold in_range. lia.
Qed.

Lemma composed_job_valid `{TextForms} : valid job_schema (expected_job l g w cc o lit) = true.
Proof using F Hlit.
  destruct (cf_retries _ _ _ _ _ _ _ F) as (rlit & Hr & Hrl).
  pose proof (cf_gpu_in _ _ _ _ _ _ _ F). pose proof (cf_workload_in _ _ _ _ _ _ _ F).
  pose proof (cf_retries_in _ _ _ _ _ _ _ F). pose proof (cf_batch_in _ _ _ _ _ _ _ F).
  unfold expected_job, expected_spec. rewrite Hr.
  cbn -[lit_int bool_decide]. rewrite Hrl, Hlit. cbn -[bool_decide].
  rewrite !bool_decide_eq_true_2 by done. lia.
Qed.

(** The admission of everything that is composed, as a test of the owner. *)
Lemma composed_admission :
  policies_admit (expected_job l g w cc o lit) &&
  names_admitted (MkComposed (expected_namespace g cc o) (expected_quota o)
                    (expected_job l g w cc o lit)) =
  dns_label ("benchmark-" +:+ o) && label_value o.
Proof using F.
  pose proof (cf_gpu_in _ _ _ _ _ _ _ F) as Hg. pose proof (cf_workload_in _ _ _ _ _ _ _ F) as Hw.
  pose proof (cf_cost_in _ _ _ _ _ _ _ F) as Hc.
  unfold policies_admit, names_admitted, validate_gpu_model, validate_workload_type,
    require_cost_center_label, require_owner_label, requires, string_at.
  cbn -[bool_decide matches dns_label label_value Nat.ltb String.length String.append].
  rewrite !bool_decide_eq_true_2, Hc, (cost_center_label cc Hc), (approved_label g Hg) by done.
  pose proof (owner_nonempty o) as Ho. destruct (dns_label _); [rewrite Ho by done|]; cbn.
  - by destruct (label_value o).
  - by rewrite ?andb_false_r.
Qed.

Lemma composed_accepted {Web : WebStack} name :
  dns_label ("benchmark-" +:+ o) = true -> dns_label name = true ->
  accepted_payload g w batch (idempotency_key (MkName ("benchmark-" +:+ o) name)).
Proof using F.
  intros Hns Hname. pose proof (cf_batch_in _ _ _ _ _ _ _ F) as Hb.
  set (ns := "benchmark-" +:+ o) in *. set (key := idempotency_key (MkName ns name)).
  assert (every plain key = true) as Hkey.
  { unfold key, idempotency_key. cbn [NsNamespace NsName].
    by rewrite !every_app, (dns_label_plain ns), (dns_label_plain name). }
  assert (String.length key <= 127)%nat as Hlen.
  { unfold key, idempotency_key. cbn [NsNamespace NsName]. rewrite !length_append.
    apply edged_length in Hns, Hname. change (String.length "/") with 1%nat. lia. }
  destruct (plain_text key Hkey) as (Hl & Hu & Hz). rewrite <- Hl in Hlen.
  assert (Hfit : forall s, s ∈ approved_gpus ++ workloads ->
    valid_utf8 s = true /\ fits_string 64 s = true).
  { apply Forall_forall. repeat constructor; vm_compute; done. }
  destruct (Hfit g) as [Hgu Hgf]; [apply elem_of_app; left; apply (cf_gpu_in _ _ _ _ _ _ _ F)|].
  destruct (Hfit w) as [Hwu Hwf]; [apply elem_of_app; right; apply (cf_workload_in _ _ _ _ _ _ _ F)|].
  assert (key <> "") as Hne by apply idempotency_key_nonempty.
  split_and!; try done; [lia|lia|].
  unfold storable, fits_row. cbn [req_gpu_model req_workload_type req_batch_size].
  rewrite request_key_some by done. rewrite Hgf, Hwf. unfold fits_string. rewrite Hz.
  unfold fits_integer, in_range. destruct (Nat.leb_spec (length (runes key)) 128); lia.
Qed.
End Job.

(** The run of the pipeline on a composite the XRD admits. *)
Lemma claim_composes {TF : TextForms} {PT : PatchAndTransform} {PL : PatchLaws}
    (is_print : Z -> bool) (overflow : float64 -> Z) (meta : option Metadata)
    (l : list (string * json)) (heap : annotation_heap) :
  valid xr_spec_schema (JObject l) = true ->
  exists g w cc o batch retries rt pk heap' lit,
    claim_fields l g w cc o batch retries /\ In (g, (rt, pk)) sizing_spec /\
    lit_int lit = Some batch /\
    pipeline is_print overflow meta l heap =
      (heap', ([MkFnResult SEVERITY_NORMAL
         ("benchmark sizing: " +:+ g +:+ "/" +:+ w +:+ " batch=" +:+ fmt_d batch +:+ " est=" +:+
          fmt_d (estimate_spec rt w batch) +:+ "s")],
        Some (MkComposed (expected_namespace g cc o) (expected_quota o)
                (expected_job l g w cc o lit)))).
Proof.
  intros Hv. destruct (claim_admitted l Hv) as (g & w & cc & o & batch & retries & F).
  destruct (cf_batch _ _ _ _ _ _ _ F) as (lit & Hlit & Hb).
  destruct (sizing_step is_print overflow meta l heap _ _ _ _ _ _ F)
    as (rt & pk & heap' & Hin & Hrun).
  exists g, w, cc, o, batch, retries, rt, pk, heap', lit. split_and!; [done..|].
  unfold pipeline. rewrite Hrun. cbn [Results existsb is_fatal FnSeverity orb].
  rewrite (compose_namespace l g w cc o batch retries F), (compose_quota l g w cc o batch retries F).
  by rewrite (compose_job l g w cc o batch retries F lit Hlit).
Qed.

(** C5. From a claim to an accepted submission.  For every composite spec the
    XRD admits, the sizing function passes it with the integer estimate and
    the composition makes all three resources: a BenchmarkJob that the CRD's
    schema accepts and that the operator reads as exactly the GPU, workload,
    batch size and retries of the claim (three if it names none) with the
    CRD's default URL, in the namespace that is created and capped with it.
    Policies, names and labels let all of it in exactly when benchmark-<owner>
    is a namespace name and the owner a label; the submission of the job is
    then one the backend accepts. *)
Theorem Composition_admitted {TF : TextForms} {PT : PatchAndTransform} {PL : PatchLaws}
    {Web : WebStack} (is_print : Z -> bool) (overflow : float64 -> Z) (meta : option Metadata)
    (l : list (string * json)) (heap : annotation_heap) :
  valid xr_spec_schema (JObject l) = true ->
  exists g w cc o batch retries rt pk heap' c,
    claim_fields l g w cc o batch retries /\ In (g, (rt, pk)) sizing_spec /\
    pipeline is_print overflow meta l heap =
      (heap', ([MkFnResult SEVERITY_NORMAL
         ("benchmark sizing: " +:+ g +:+ "/" +:+ w +:+ " batch=" +:+ fmt_d batch +:+ " est=" +:+
          fmt_d (estimate_spec rt w batch) +:+ "s")], Some c)) /\
    valid job_schema (composed_job c) = true /\
    let spec := Operator.MkSpec g w batch crd_default_url retries in
    let namespace := "benchmark-" +:+ o in
    get_path ["spec"] (composed_job c) ≫= decode_spec = Some spec /\ crd_valid spec = true /\
    string_at ["metadata"; "name"] (composed_namespace c) = Some namespace /\
    string_at ["metadata"; "namespace"] (composed_quota c) = Some namespace /\
    string_at ["metadata"; "namespace"] (composed_job c) = Some namespace /\
    policies_admit (composed_job c) && names_admitted c =
      dns_label namespace && label_value o /\
    (forall name, dns_label namespace = true -> dns_label name = true ->
       acceptable spec (MkName namespace name)).
Proof.
  intros Hv. destruct (claim_composes is_print overflow meta l heap Hv)
    as (g & w & cc & o & batch & retries & rt & pk & heap' & lit & F & Hin & Hb & Hp).
  exists g, w, cc, o, batch, retries, rt, pk, heap'.
  exists (MkComposed (expected_namespace g cc o) (expected_quota o) (expected_job l g w cc o lit)).
  split; [exact F|]. split; [exact Hin|]. split; [exact Hp|].
  split; [by apply (composed_job_valid l g w cc o batch retries lit F Hb)|].
  cbn zeta. cbn [composed_job composed_namespace composed_quota].
  split; [exact (composed_decodes l g w cc o batch retries lit F Hb)|].
  split; [exact (composed_crd_valid l g w cc o batch retries F)|].
  split_and!; [reflexivity..| |].
  - exact (composed_admission l g w cc o batch retries lit F).
  - intros name. exact (composed_accepted l g w cc o batch retries F name).
Qed.

Definition demo_claim (owner : string) : list (string * json) :=
  [("gpuModel", JString "H100"); ("workloadType", JString "training"); ("batchSize", json_int 64);
   ("costCenter", JString "CC-1234"); ("owner", JString owner)].

(** What the pipeline makes of a claim, if it gets past the admission. *)
Definition composed_of (owner : string) : option composed :=
  snd (snd (pipeline (fun _ => true) (fun _ => 0) None (demo_claim owner) ∅)).
#[local] Instance no_text_forms : TextForms :=
  {| float_lit _ := ""; time_text _ := ""; parse_time _ := None |}.

Lemma Composition_admitted_witness :
  exists c, composed_of "team-a" = Some c /\
    string_at ["metadata"; "namespace"] (composed_job c) = Some "benchmark-team-a" /\
    policies_admit (composed_job c) && names_admitted c = true /\
    acceptable (Operator.MkSpec "H100" "training" 64 crd_default_url 3)
      (MkName "benchmark-team-a" "env-x7k2p").
Proof.
  destruct (Composition_admitted (fun _ => true) (fun _ => 0) None (demo_claim "team-a") ∅
    ltac:(vm_compute; reflexivity))
    as (g & w & cc & o & batch & retries & rt & pk & heap' & c & F & _ & Hp & _ & _ & _ & _ & _ &
        Hns & Hadm & Hacc).
  destruct F as [Hg Hw (lit & Hb & Hlit) _ Ho (rl & Hr & Hrl) _ _ _ _ _].
  vm_compute in Hg, Hw, Hb, Ho, Hr. injection Hg as <-. injection Hw as <-. injection Hb as <-.
  injection Ho as <-. injection Hr as <-. vm_compute in Hlit, Hrl. injection Hlit as <-.
  injection Hrl as <-.
  exists c. split; [unfold composed_of; by rewrite Hp|]. split; [exact Hns|].
  split; [rewrite Hadm; vm_compute; reflexivity|].
  apply Hacc; vm_compute; reflexivity.
Defined.

(** The XRD does not bound the owner: a claim it admits composes resources
    that Kubernetes refuses. *)
Example owner_not_bounded :
  valid xr_spec_schema (JObject (demo_claim "Team A")) = true /\
  option_map names_admitted (composed_of "Team A") = Some false.
Proof. vm_compute. by split. Qed.
