(* ===== verification/Journey.v ===== *)
(** * The journey of one job

    A new object, the operator's reconciliations of it and the one worker of
    an idle backend: the first two reconciliations submit it; then it matters
    whether a poll falls between the two halves of the worker's turn. *)
From S2P Require Export Rounds Closed Engine.
Import Operator Closed.

(** ** A first submission *)

Section Fresh.
Context {Web : WebStack} {WebL : WebStackLaws}.

(** The row a first submission leaves, and its message. *)
Definition leaves_message (b : backend) (p : BenchmarkCreateRequest) (b' : backend) (id : string)
    (row : Benchmark) : Prop :=
  (exists k, id = uuid4 k /\ (next_uuid b <= k <= S (next_uuid b))%nat) /\
  rows b' !! id = Some row /\ row_key row = request_key p /\ status row = queued /\
  queue b' = MkMessage id (req_gpu_model p) (req_workload_type p) (req_batch_size p) 0 :: queue b /\
  results b' = results b /\ backend_steps b b'.

Lemma create_fresh p b :
  storable p = true -> find_by_key b (request_key p) = None -> redis_up b = true ->
  exists id row b', leaves_message b p b' id row /\
    create_benchmark_job Datatypes.id p b =
      (b', MkResponse StatusAccepted (render (create_response id row))).
Proof.
  intros Hst Hf Hup.
  pose proof (steps_create b Datatypes.id p b (steps_refl b) (steps_refl b)) as Hsteps.
  destruct (storable_columns p Hst) as (Hk & Hg & Hg64 & Hrow).
  unfold create_benchmark_job, create_benchmark in *. cbn zeta in *.
  unfold Datatypes.id in *. rewrite Hk, Hf, Hg, Hg64, Hrow in *. cbn [negb] in *.
  destruct (gpu_models b !! req_gpu_model p) as [g|]; rewrite ?Hf in *; cbn [redis_up] in *;
    rewrite Hup in *; eexists _, _, _; (split; [|reflexivity]); split_and!;
    try (eexists; split; [reflexivity|lia]); try exact Hsteps; try reflexivity;
    cbn; apply lookup_insert_eq.
Qed.

(** The three floats of a measurement read back from what is printed. *)
Definition measure_prints (e : EngineResult) : Prop :=
  prints (throughput e) /\ prints (latency_ms e) /\ prints (memory_bandwidth_gbps e).

(** The first half of a turn, on the only message of a queue: the second half
    completes the turn. *)
Lemma takes_only b m :
  good b -> queue b = [m] ->
  good (worker_takes b) /\ in_progress m (worker_takes b) /\
  forall o, worker_turn o b = finish_job m o (worker_takes b).
Proof.
  intros [I P] Hq. assert (dequeue b = Some (m, set_queues b [] (dlq b))) as Hd
    by (unfold dequeue; by rewrite Hq).
  destruct (dequeue_in_progress _ _ _ I Hd) as (E & I' & _ & Hp). rewrite E.
  split; [split; [exact I'|]|split; [exact Hp|]].
  - unfold printable, mark_running. by destruct (rows _ !! _).
  - intros o. unfold worker_turn. by rewrite Hd.
Qed.

(** The second half, when the engine has measured. *)
Lemma finish_measured b m engine e :
  good b -> in_progress m b -> measure_prints e ->
  let b' := finish_job m (inr (engine, e)) b in
  good b' /\ (exists row, rows b' !! msg_id m = Some row /\ status row = completed) /\
  results b' !! msg_id m = Some (MkResultRow e engine (msg_workload m) (msg_attempt m + 1)).
Proof.
  intros [I P] Hp He. pose proof (inv_finish_job m (inr (engine, e)) b I Hp) as [I' _].
  destruct Hp as ((row & Hr & Hs) & _). cbn zeta. unfold good.
  rewrite (finish_result b m row (inr (engine, e)) I Hr Hs) in *. cbn [rows results].
  rewrite !lookup_insert_eq. split_and!; [done| |by eexists|done].
  intros id x. cbn [results]. intros [[_ <-]|[_ Hx]]%lookup_insert_Some; [exact He|by apply (P id)].
Qed.
End Fresh.

(** ** The object on its way *)

Section Journey.
Context {Mach : Machinery} {MachL : MachineryLaws} {Web : WebStack} {WebL : WebStackLaws}.
Variable r : BenchmarkJobReconciler.
Variable spec : BenchmarkJobSpec.

Local Abbreviation address := (base_url spec).
#[local] Instance Server : SimCluster.Backend backend := backend_server address.

Definition on_backend (f : backend -> backend) (w : sim backend) : sim backend :=
  MkSim (sim_store w) (f (sim_backend w)) (sim_faults w) (sim_clock w).

(** An object as its creator leaves it. *)
Definition new_object (key : NamespacedName) (job : BenchmarkJob) : Prop :=
  job_key job = key /\ DeletionTimestamp (Meta job) = None /\
  benchmarkJobFinalizer ∉ Finalizers (Meta job) /\ Status job = status_empty /\
  admitted (Spec job) = spec.

(** The object of [key] in a world without faults, with its status. *)
Definition stands (key : NamespacedName) (w : sim backend) (st : BenchmarkJobStatus) : Prop :=
  sim_faults w = [] /\ exists job, sim_store w !! key = Some job /\ job_key job = key /\
    active job /\ Spec job = spec /\ Status job = st.

Lemma stands_on_backend key w st f : stands key w st -> stands key (on_backend f w) st.
Proof using Type. done. Qed.

Lemma stands_written key w (job : BenchmarkJob) b calls st :
  sim_store w !! key = Some job -> job_key job = key -> active job -> Spec job = spec ->
  stands key (written key w job b calls st) st.
Proof using MachL.
  intros Hs Hk Ha Hsp. split; [done|]. eexists. cbn. rewrite lookup_insert_eq.
  split_and!; [done|done|by apply active_set_version|done|done].
Qed.

Definition submitted_status (id : string) (now : Time) : BenchmarkJobStatus :=
  MkStatus PhaseSubmitted id ("submitted to backend; jobID=" +:+ id) 0 None None None
    (Some now) None.

(** The first two reconciliations. *)
Lemma journey_submits key w job :
  new_object key job -> sim_store w !! key = Some job -> sim_faults w = [] ->
  acceptable spec key -> url_parses (address +:+ "/benchmarks") = true ->
  backend_inv (sim_backend w) -> find_by_key (sim_backend w) (idempotency_key key) = None ->
  redis_up (sim_backend w) = true ->
  let w' := step r key (step r key w) in
  exists id row, leaves_message (sim_backend w) (payload_of spec key) (sim_backend w') id row /\
    stands key w' (submitted_status id (sim_clock w + 1)) /\ sim_clock w' = sim_clock w + 3.
Proof using MachL WebL.
  intros (Hk & Hd & Hnf & Hst & Hsp) Hs Hf Ha Hu I Hfresh Hup.
  rewrite (step_protect r key w job Hs Hk Hf Hd Hnf), Hsp.
  set (job1 := MkJob _ _ _ _). set (w1 := MkSim _ _ _ _).
  assert (active job1) as Hact.
  { split; cbn; [by rewrite Hd, TimeIsZero_nil|]. apply ContainsFinalizer_spec. cbn. set_solver. }
  destruct (create_fresh (payload_of spec key) (sim_backend w)) as (id & row & b' & HL & E);
    [apply Ha|by rewrite request_key_payload|done|].
  exists id, row. cbn zeta.
  rewrite (step_submit r key spec w1 job1 b'
    (MkResponse StatusAccepted (render (create_response id row)))
    (lookup_insert_eq _ _ _) Hk eq_refl Hact eq_refl (MkSubmit id (status_value (status row))) Hu).
  - cbn [sub_JobID Status]. change (Status job1) with (Status job). rewrite Hst.
    split; [exact HL|]. split; [|cbn; lia].
    by apply stands_written; [apply lookup_insert_eq|..].
  - left. change (Status job1) with (Status job). by rewrite Hst.
  - change (serve (submit_request key spec) (sim_backend w) = (b',
      inr (MkResponse StatusAccepted (render (create_response id row))))).
    unfold serve, Server, backend_server. by rewrite answer_submission, E by done.
  - by left.
  - destruct HL as (_ & Hr & _ & _ & _ & _ & Hsteps). cbn [Body].
    destruct (steps_inv _ _ I Hsteps) as [I' _]. by apply (decode_create_response b').
Qed.

(** What a poll brings, when the backend's row is as given. *)
Lemma serve_poll id b row :
  good b -> rows b !! id = Some row ->
  serve (poll_request id spec) b = (b, inr (MkResponse 200 (render (status_response b id row)))).
Proof using WebL.
  intros G Hr. unfold serve, Server, backend_server, poll_request. by rewrite (answer_poll _ _ _ row).
Qed.

Section Polls.
Variables (key : NamespacedName) (w : sim backend) (st : BenchmarkJobStatus) (row : Benchmark).
Hypothesis Hstands : stands key w st.
Hypothesis Hgood : good (sim_backend w).
Hypothesis Hrow : rows (sim_backend w) !! JobID st = Some row.
Hypothesis Hurl : url_parses (address +:+ "/benchmarks/" +:+ JobID st) = true.

(** The row is seen running. *)
Lemma journey_runs :
  Phase st = PhaseSubmitted -> status row = running ->
  let w' := step r key w in
  sim_backend w' = sim_backend w /\ sim_clock w' = sim_clock w + 1 /\
  stands key w' (MkStatus PhaseRunning (JobID st) "execution in progress" (RetryCount st)
    (Throughput st) (LatencyMs st) (MemoryBandwidthGbps st) (StartTime st) (CompletionTime st)).
Proof using MachL WebL Hstands Hgood Hrow Hurl.
  destruct Hstands as (Hf & job & Hs & Hk & Ha & Hsp & Hst). intros Hp Hrun.
  rewrite (step_runs r (JobID st) key spec w job _ _ Hs Hk Hf Ha Hsp Hurl (f_equal JobID Hst)
    (serve_poll _ _ _ Hgood Hrow) _ (eq_trans (f_equal Phase Hst) Hp)
    (poll_reads _ _ row Hgood)) by by cbn; rewrite Hrun.
  cbn zeta. rewrite Hst. split_and!; [done|done|by apply stands_written].
Qed.

(** The row is seen completed by an object that runs. *)
Lemma journey_completes x :
  Phase st = PhaseRunning -> status row = completed ->
  results (sim_backend w) !! JobID st = Some x ->
  let w' := step r key w in
  sim_backend w' = sim_backend w /\ sim_clock w' = sim_clock w + 2 /\
  stands key w' (MkStatus PhaseCompleted (JobID st) "benchmark execution successful"
    (RetryCount st) (Some (throughput (res_metrics x))) (Some (latency_ms (res_metrics x)))
    (Some (memory_bandwidth_gbps (res_metrics x))) (StartTime st) (Some (sim_clock w))).
Proof using MachL WebL Hstands Hgood Hrow Hurl.
  destruct Hstands as (Hf & job & Hs & Hk & Ha & Hsp & Hst). intros Hp Hc Hx.
  pose proof (poll_reads _ (JobID st) row Hgood) as Hd. rewrite Hc, Hx in Hd.
  rewrite (step_completes r (JobID st) key spec w job _ _ Hs Hk Hf Ha Hsp Hurl (f_equal JobID Hst)
    (serve_poll _ _ _ Hgood Hrow) _ (eq_trans (f_equal Phase Hst) Hp) Hd).
  cbn zeta. rewrite Hst. split_and!; [done|done|by apply stands_written].
Qed.

(** The row is seen completed by an object that has not seen it run: nothing
    is written, now or ever. *)
Lemma journey_misses k :
  Phase st = PhaseSubmitted -> status row = completed ->
  reconcile_times cl_handler (SetupWithManager r) key k w = w.
Proof using MachL WebL Hstands Hgood Hrow Hurl.
  destruct Hstands as (Hf & job & Hs & Hk & Ha & Hsp & Hst). intros Hp Hc.
  induction k as [|k IH]; [done|]. cbn [reconcile_times]. fold (step r key w).
  rewrite (step_waits r (JobID st) key spec w job _ _ Hs Hk Ha Hsp Hurl (f_equal JobID Hst)
    (serve_poll _ _ _ Hgood Hrow) _ (eq_trans (f_equal Phase Hst) Hp)
    (poll_reads _ _ row Hgood)) by (cbn; by rewrite Hc).
  by destruct w.
Qed.
End Polls.

(** ** After the submission *)

Section Worker.
Variables (key : NamespacedName) (w : sim backend) (m : job_message) (now : Time).
Variables (engine : string) (e : EngineResult).
Hypothesis Hstands : stands key w (submitted_status (msg_id m) now).
Hypothesis Hgood : good (sim_backend w).
Hypothesis Hqueue : queue (sim_backend w) = [m].
Hypothesis Hurl : url_parses (address +:+ "/benchmarks/" +:+ msg_id m) = true.
Hypothesis Hprints : measure_prints e.

(** A poll between the two halves of the worker's turn, and one after it. *)
Lemma journey_interleaved :
  let w2 := step r key (on_backend worker_takes w) in
  let w3 := step r key (on_backend (finish_job m (inr (engine, e))) w2) in
  stands key w3 (MkStatus PhaseCompleted (msg_id m) "benchmark execution successful" 0
    (Some (throughput e)) (Some (latency_ms e)) (Some (memory_bandwidth_gbps e)) (Some now)
    (Some (sim_clock w + 1))) /\
  forall b, backend_steps b (sim_backend w) -> backend_steps b (sim_backend w3).
Proof using MachL WebL Hstands Hgood Hqueue Hurl Hprints.
  destruct (takes_only _ _ Hgood Hqueue) as (G2 & P2 & _).
  pose proof P2 as ((row2 & Hr2 & Hs2) & _). intros w2.
  destruct (journey_runs key (on_backend worker_takes w) _ row2 Hstands G2 Hr2 Hurl eq_refl Hs2)
    as (Eb2 & Ec2 & H2). fold w2 in Eb2, Ec2, H2.
  destruct (finish_measured _ m engine e G2 P2 Hprints) as (G3 & (row3 & Hr3 & Hs3) & Hx3).
  change (worker_takes (sim_backend w)) with (sim_backend (on_backend worker_takes w)) in *.
  rewrite <- Eb2 in *.
  destruct (journey_completes key (on_backend (finish_job m (inr (engine, e))) w2) _ row3 H2 G3 Hr3
    Hurl _ eq_refl Hs3 Hx3) as (Eb3 & _ & H3).
  intros w3. split.
  - cbn [sim_clock on_backend] in H3. by rewrite Ec2 in H3.
  - intros b Hb. unfold w3. rewrite Eb3. apply steps_finish; [|exact P2].
    rewrite Eb2. by apply steps_takes.
Qed.

(** The whole turn between two polls. *)
Lemma journey_overtaken :
  let w2 := on_backend (worker_turn (inr (engine, e))) w in
  (exists row, rows (sim_backend w2) !! msg_id m = Some row /\ status row = completed) /\
  results (sim_backend w2) !! msg_id m =
    Some (MkResultRow e engine (msg_workload m) (msg_attempt m + 1)) /\
  forall k, reconcile_times cl_handler (SetupWithManager r) key k w2 = w2.
Proof using MachL WebL Hstands Hgood Hqueue Hurl Hprints.
  destruct (takes_only _ _ Hgood Hqueue) as (G2 & P2 & Eturn). intros w2.
  destruct (finish_measured _ m engine e G2 P2 Hprints) as (G3 & (row & Hr & Hs) & Hx).
  rewrite <- Eturn in G3, Hr, Hx. split; [by exists row|]. split; [exact Hx|]. intros k.
  by apply (journey_misses key w2 _ row Hstands G3 Hr Hurl).
Qed.
End Worker.
End Journey.
