(* ===== verification/JourneyTheorems.v ===== *)
(** * Theorems on the journey of one job

    A claim, the object that is composed for it, its submission, the worker's
    simulation and the measurement in the object's status: all the parts of
    the program in one run. *)
From S2P Require Import Journey CompositionTheorems.
From S2P Require ServiceTheorems.
Import Operator Closed CRD.

(** What the composition makes of a claim that gets past the admission. *)
Lemma claim_spec {TF : TextForms} {PT : PatchAndTransform} {PL : PatchLaws} {Web : WebStack}
    is_print overflow meta l heap c ns name spec :
  valid xr_spec_schema (JObject l) = true ->
  (pipeline is_print overflow meta l heap).2.2 = Some c ->
  policies_admit (composed_job c) && names_admitted c = true ->
  string_at ["metadata"; "namespace"] (composed_job c) = Some ns -> dns_label name = true ->
  get_path ["spec"] (composed_job c) ≫= decode_spec = Some spec ->
  exists g workload cc o batch retries,
    claim_fields l g workload cc o batch retries /\ ns = "benchmark-" +:+ o /\
    spec = Operator.MkSpec g workload batch crd_default_url retries /\
    admitted spec = Operator.MkSpec g workload batch crd_default_url (default_int retries 3) /\
    acceptable (admitted spec) (MkName ns name).
Proof.
  intros Hv Hpipe Hadm Hns Hname Hspec. destruct (claim_composes is_print overflow meta l heap Hv)
    as (g & workload & cc & o & batch & retries & rt & pk & heap' & lit & F & _ & Hlit & Hp).
  rewrite Hp in Hpipe. injection Hpipe as <-. cbn [composed_job] in *.
  rewrite (composed_admission l g workload cc o batch retries lit F) in Hadm.
  apply andb_prop in Hadm as [Hdns _]. injection Hns as <-.
  assert (spec = Operator.MkSpec g workload batch crd_default_url retries) as ->.
  { pose proof (composed_decodes l g workload cc o batch retries lit F Hlit) as Hd.
    change (get_path _ _) with (Some (expected_spec l g workload lit)) in Hspec.
    cbn [mbind option_bind] in Hspec. rewrite Hd in Hspec. by injection Hspec as <-. }
  exists g, workload, cc, o, batch, retries. split; [exact F|]. split; [done|]. split; [done|].
  rewrite admitted_eq by by apply crd_valid_range, (composed_crd_valid l g workload cc o).
  split; [done|]. by apply (composed_accepted l g workload cc o batch retries F).
Qed.

(** C6. From a claim to its measurement, by all the parts of the program.
    Take any claim the XRD admits and the policies let in, the BenchmarkJob the
    composition makes of it, and an idle backend that does not know its key,
    whose worker has no NVIDIA runtime.  Two reconciliations submit the job.  If
    the third falls between the two halves of the worker's turn - it has taken
    the message and still measures -, the fourth, after the turn, leaves the
    object Completed with exactly the three finite floats the simulator
    returned, started and completed at the clock's times; its spec is the
    claim's, but for a maxRetries of 0, which has become 3.  If the whole turn
    falls between two reconciliations, the job is completed in the backend with
    the same measurement, and the object stays Submitted, without it, through
    any number of reconciliations. *)
Theorem Claim_to_measurement {TF : TextForms} {PT : PatchAndTransform} {PL : PatchLaws}
    {Mach : Machinery} {MachL : MachineryLaws} {Web : WebStack} {WebL : WebStackLaws}
    (is_print : Z -> bool) (overflow : float64 -> Z) (meta : option Metadata)
    (l : list (string * json)) (heap : annotation_heap) (c : composed) (ns name : string)
    (reconciler : BenchmarkJobReconciler) (job : BenchmarkJob) (w : sim backend)
    (unicode_float : string -> option float64) (float_exception decode_exception : string -> string)
    (h : host) :
  (* the claim *)
  valid xr_spec_schema (JObject l) = true ->
  (pipeline is_print overflow meta l heap).2.2 = Some c ->
  policies_admit (composed_job c) && names_admitted c = true ->
  string_at ["metadata"; "namespace"] (composed_job c) = Some ns -> dns_label name = true ->
  (* the object *)
  let key := MkName ns name in
  get_path ["spec"] (composed_job c) ≫= decode_spec = Some (Spec job) ->
  new_object (admitted (Spec job)) key job -> sim_store w !! key = Some job -> sim_faults w = [] ->
  (* the backend *)
  let b := sim_backend w in
  good b -> find_by_key b (idempotency_key key) = None -> redis_up b = true -> queue b = [] ->
  (forall k, (k <= S (next_uuid b))%nat ->
     url_parses (crd_default_url +:+ "/benchmarks/" +:+ uuid4 k) = true) ->
  (* the worker *)
  runtime_available (first_query h) = false ->
  0 <= draw_latency h < 2 ^ 53 -> 0 <= draw_bandwidth h < 2 ^ 53 ->
  (forall e, simulated_run (draw_latency h) (draw_bandwidth h) (GPUModel (Spec job))
     (WorkloadType (Spec job)) (BatchSize (Spec job)) = inr e -> measure_prints e) ->
  let B := backend_server crd_default_url in
  let round := step reconciler key in
  let engine := run_engine unicode_float float_exception decode_exception h in
  let worker := worker_on unicode_float float_exception decode_exception h in
  let w1 := round (round w) in
  exists g workload cc o batch retries e m,
    claim_fields l g workload cc o batch retries /\ ns = "benchmark-" +:+ o /\
    simulated_run (draw_latency h) (draw_bandwidth h) g workload batch = inr e /\
    is_finite (throughput e) = true /\ is_finite (latency_ms e) = true /\
    is_finite (memory_bandwidth_gbps e) = true /\
    let spec := Operator.MkSpec g workload batch crd_default_url (default_int retries 3) in
    let id := msg_id m in
    let clock := sim_clock w in
    queue (sim_backend w1) = [m] /\ stands spec key w1 (submitted_status id (clock + 1)) /\
    (let w2 := round (on_backend worker_takes w1) in
     let w3 := round (on_backend (finish_job m (engine m)) w2) in
     backend_steps b (sim_backend w3) /\
     stands spec key w3 (MkStatus PhaseCompleted id "benchmark execution successful" 0
       (Some (throughput e)) (Some (latency_ms e)) (Some (memory_bandwidth_gbps e))
       (Some (clock + 1)) (Some (clock + 4)))) /\
    (let w2 := on_backend worker w1 in
     backend_steps b (sim_backend w2) /\
     (exists row, rows (sim_backend w2) !! id = Some row /\ status row = completed) /\
     results (sim_backend w2) !! id =
       Some (MkResultRow e "SimulatedGPUBenchmarkEngine" workload 1) /\
     forall k, reconcile_times cl_handler (SetupWithManager reconciler) key k w2 = w2).
Proof.
  intros Hv Hpipe Hadm Hns Hname key Hspec Hnew Hjob Hfaults b Gb Hfresh Hup Hq Hurl Hnv Hd1 Hd2
    Hprints B round engine worker w1.
  destruct (claim_spec is_print overflow meta l heap c ns name (Spec job) Hv Hpipe Hadm Hns Hname Hspec)
    as (g & workload & cc & o & batch & retries & F & Ens & Esp & Ead & Ha).
  rewrite Esp in Hprints. cbn [GPUModel WorkloadType BatchSize] in Hprints.
  rewrite Ead in Hnew, Ha. set (spec := Operator.MkSpec g workload batch _ (default_int _ _)) in *.
  pose proof (cf_batch_in _ _ _ _ _ _ _ F) as Hb.
  destruct (ServiceTheorems.simulated_run_measures _ _ g workload batch Hd1 Hd2 ltac:(lia))
    as (e & He & Hf1 & Hf2 & Hf3).
  destruct (journey_submits reconciler spec key w job Hnew Hjob Hfaults Ha eq_refl (proj1 Gb) Hfresh Hup)
    as (id & row & ((k & -> & _ & Hk) & _ & _ & _ & Hq1 & Hres & Hsteps) & Hst1 & Hc1).
  change (step reconciler key (step reconciler key w)) with w1 in *.
  change (queue (sim_backend w)) with (queue b) in Hq1. rewrite Hq in Hq1.
  set (m := MkMessage _ _ _ _ _) in Hq1.
  assert (good (sim_backend w1)) as G1.
  { split; [by apply (steps_inv _ _ (proj1 Gb) Hsteps)|]. unfold printable. rewrite Hres. apply Gb. }
  assert (engine m = inr ("SimulatedGPUBenchmarkEngine", e)) as Em
    by (unfold engine, run_engine; rewrite Hnv; cbn; by rewrite He).
  assert (on_backend worker w1 =
    on_backend (worker_turn (inr ("SimulatedGPUBenchmarkEngine", e))) w1) as Ew
    by (rewrite <- Em; unfold on_backend, worker, worker_on, host_outcome, dequeue; by rewrite Hq1).
  destruct (journey_interleaved reconciler spec key w1 m _ "SimulatedGPUBenchmarkEngine" e Hst1 G1 Hq1
    (Hurl k Hk) (Hprints e He)) as [Hi1 Hi2].
  destruct (journey_overtaken reconciler spec key w1 m _ "SimulatedGPUBenchmarkEngine" e Hst1 G1 Hq1
    (Hurl k Hk) (Hprints e He)) as (Ho1 & Ho2 & Ho3).
  exists g, workload, cc, o, batch, retries, e, m.
  do 6 (split; [done|]). cbn zeta. split; [exact Hq1|]. split; [exact Hst1|].
  rewrite Em, Ew. split.
  - split; [by apply Hi2|]. rewrite Hc1 in Hi1.
    replace (sim_clock w + 4) with (sim_clock w + 3 + 1) by lia. exact Hi1.
  - split; [by apply steps_worker|]. exact (conj Ho1 (conj Ho2 Ho3)).
Qed.

#[local] Existing Instance no_text_forms.

Definition journey_key : NamespacedName := MkName "benchmark-team-a" "env-x7k2p".

Definition journey_job : BenchmarkJob :=
  MkJob (MkTypeMeta "BenchmarkJob" "benchmarks.gpu-platform.io/v1alpha1")
    (MkMeta "env-x7k2p" "benchmark-team-a" "1" None [])
    (Operator.MkSpec "H100" "training" 64 crd_default_url 3) status_empty.

Definition journey_world : sim backend :=
  MkSim {[journey_key := journey_job]} backend_empty [] 100.

Definition journey_host : host := ServiceTheorems.plain_host (2 ^ 52) 12345.

Definition journey_round (w : sim backend) : sim backend :=
  let B := backend_server crd_default_url in step (MkReconciler None) journey_key w.

(** One claim, followed through both schedules. *)
Lemma Claim_to_measurement_witness :
  let w1 := journey_round (journey_round journey_world) in
  exists e m, is_finite (throughput e) = true /\
    (let w3 := journey_round (on_backend (finish_job m
       (run_engine (fun _ => None) (fun s => s) (fun s => s) journey_host m))
       (journey_round (on_backend worker_takes w1))) in
     stands (Spec journey_job) journey_key w3
       (MkStatus PhaseCompleted (msg_id m) "benchmark execution successful" 0
          (Some (throughput e)) (Some (latency_ms e)) (Some (memory_bandwidth_gbps e))
          (Some 101) (Some 104))) /\
    (let w2 := on_backend (worker_on (fun _ => None) (fun s => s) (fun s => s) journey_host) w1 in
     let B := backend_server crd_default_url in
     reconcile_times cl_handler (SetupWithManager (MkReconciler None)) journey_key 1000 w2 = w2).
Proof.
  intros w1. destruct (composed_of "team-a") as [c|] eqn:Ec; [|vm_compute in Ec; discriminate].
  unfold composed_of in Ec.
  assert (valid xr_spec_schema (JObject (demo_claim "team-a")) = true) as Hv
    by (vm_compute; reflexivity).
  destruct (Claim_to_measurement (fun _ => true) (fun _ => 0) None
    (demo_claim "team-a") ∅ c "benchmark-team-a" "env-x7k2p" (MkReconciler None) journey_job
    journey_world (fun _ => None) (fun s => s) (fun s => s) journey_host Hv Ec)
    as (g & workload & cc & o & batch & retries & e & m & F & _ & _ & Hf & _ & _ & _ & _ & H1 & H2).
  1-4: vm_compute in Ec; injection Ec as <-; vm_compute; reflexivity.
  - split_and!; try reflexivity. by intros ?%elem_of_nil.
  - apply lookup_singleton_eq.
  - reflexivity.
  - split; [exact empty_inv|]. intros id x Hx. by vm_compute in Hx.
  - vm_compute. reflexivity.
  - reflexivity.
  - reflexivity.
  - intros [|[|k]] Hk; [vm_compute; reflexivity..|cbn in Hk; lia].
  - reflexivity.
  - split; [discriminate|reflexivity].
  - split; [discriminate|reflexivity].
  - intros e He. vm_compute in He. injection He as <-. split_and!; cbn -[exact_repr];
      (split; [apply number_litb_sound|]; vm_compute; reflexivity).
  - destruct F as [Hg Hw (lit & Hb & Hlit) _ _ (rl & Hr & Hrl) _ _ _ _ _].
    vm_compute in Hg, Hw, Hb, Hr. injection Hg as <-. injection Hw as <-. injection Hb as <-.
    injection Hr as <-. vm_compute in Hlit, Hrl. injection Hlit as <-. injection Hrl as <-.
    exists e, m. split; [exact Hf|]. split; [exact (proj2 H1)|]. exact (proj2 (proj2 (proj2 H2)) 1000%nat).
Defined.
